(* ===== verification/_CoqProject ===== *)
-Q . S2P
Prelude.v
RustStr.v
Frame.v
Ledger.v
Escrow.v
AgentRegistry.v
RegistryTheory.v
Merkle.v
VectorDb.v
VectorDbTheory.v
MockVectorDb.v
Template.v
MockPallets.v
Runtime.v
MockRenaming.v
Weights.v
GenesisPresets.v
Service.v
Extrinsic.v
Apis.v
Benchmarking.v
Command.v
ServiceTheory.v
RuntimeTheory.v
Typed.v
Market.v
Offchain.v
VectorClient.v
VectorClientTheory.v
VectorSubmit.v
Keystore.v
RegistryClient.v
RegistryClientTheory.v
MockRegistry.v
MockRegistryTheory.v
Cli.v
CliTheory.v
Door.v
DoorTheory.v
RegisterMe.v
RegisterMeTheory.v
DoorSession.v
Solvency.v
Scenario.v
ChainProperties.v
RegistryProperties.v
VectorProperties.v
IdentityProperties.v
DoorScenario.v
CliProperties.v
SaleProperties.v
NodeProperties.v
ServiceProperties.v
DoorProperties.v
OwnController.v
PrivacyProperties.v
MockProperties.v
