(* ===== verification/Prelude.v ===== *)
(** * arthneura-core: a verification development

    ** The program

    arthneura-core is a Substrate chain on which agents trade vector data, with the
    clients agents use.  Its own logic is in these parts of [src/]:

    - [pallets/pallet-agent-registry/src/lib.rs]: decentralised identifiers.  A
      controller registers a DID with an ML-DSA-65 proof of possession and a reserved
      deposit; profiles have a status, stars, a reputation and strikes.
    - [pallets/pallet-vector-db/src/lib.rs]: a provider commits to a Merkle root over
      chunks, a consumer acknowledges (and pays into escrow), and either the consumer
      closes, or it disputes a chunk and the provider answers with an
      inclusion proof before a deadline, or the commitment expires.
    - [pallets/pallet-escrow/src/lib.rs]: locks, releases and refunds a price in the
      reserve of the payer.
    - [pallets/template/src/lib.rs]: the template pallet, still part of the runtime.
    - [runtime/src]: [adapters/] answer the three traits of the commitment pallet with
      the registry and the escrow pallet, [configs/mod.rs] fixes the constants,
      [lib.rs] puts the pallets together, [apis.rs] is what a node calls.
    - [offchain-vector-db/src]: chunking, Merkle trees and the chunk store of a
      provider, and the clients of the commitment pallet's calls.
    - [offchain-agent-registry/src]: the clients of the registry's calls and the
      encrypted keystore of identities.
    - the binaries over these clients: [offchain-vector-db/src/main.rs],
      [offchain-agent-registry/src/main.rs], the registration door
      [offchain-agent-registry/src/bin/register-door.rs], an HTTP server that registers
      strangers, and its counterpart [bin/register-me.rs].
    - [node/src]: the node: chain specifications, the service ([service.rs], [rpc.rs]),
      the command line ([cli.rs], [command.rs], [main.rs]) and the extrinsics of its
      benchmarks ([benchmarking.rs]).
    - the test environments of the pallets ([mock.rs] of each).

    The commitment pallet reaches the rest of the chain only through the traits
    [AgentLookup], [ReputationHandler] and [EscrowHandler]; the registry and the escrow
    pallet share one unnamed reserve per account; clients see the chain by submitting
    extrinsics and reading their events.

    ** Which file models what

    - [Prelude]: bytes, machine integers (a [u32], [u64] or [u128] is a [Z] with its
      saturating, checked and wrapping operations written out), the state and error monad
      [M] (an error keeps the writes made before it; [Dispatch] in [Frame]) with
      its notations and its preservation lemmas, and generic lemmas on maps and lists.
    - [Frame]: origins, [DispatchError], the system context, and the classes for code
      outside the repository: [ReservableCurrency] (balances), [ScaleCodec], [Blake2].
    - [Ledger]: instances of those classes the concrete runs compute with.
    - [Escrow] (Module [Escrow]): the records, [lock], [release], [refund], the
      lifecycle of a record.
    - [AgentRegistry] (Module [Registry]), [RegistryTheory]: storage, [register_agent],
      [update_profile], [set_agent_status], [give_star], [remove_star],
      [deregister_agent], [slash_reputation], [slash_reputation_for_guilty_delivery];
      the pallet's step relation and its invariants.
    - [Merkle]: both [Blake2bHasher]s, the class [RsMerkle] for the [rs_merkle] crate,
      and a reference tree that satisfies its laws.
    - [VectorDb] (Module [VectorDb]), [VectorDbTheory]: storage, genesis, the seven
      extrinsics; the contract [EscrowContract] asked of whatever is behind
      [EscrowHandler], and the invariants proved against that contract.
    - [Template]: the template pallet.
    - [Runtime] (Modules [Configs], [Runtime]), [RuntimeTheory], [Solvency]: the
      adapters, the constants, dispatch in a storage layer, the chain as a transition
      system ([step], [reach]); the proof that the escrow pallet behind its adapter
      meets the contract, and the accounting of the shared reserve.
    - [Typed]: the ranges of all stored values; [Market]: the abstract market, the
      chain read as one ([market]), and the simulation.
    - [Weights]: the [WeightInfo]s of the pallets, block limits and fees;
      [GenesisPresets] (Modules [Presets], [ChainSpecs]): the genesis presets, the state
      they build, [chain_spec.rs] and [load_spec].
    - [Extrinsic] (Module [FrameConfigs]): the version, the configuration of FRAME's
      pallets, the indices of the pallets and signed extrinsics; [Apis]: the runtime APIs
      and the benchmark list.
    - [Service], [ServiceTheory]: [new_partial] and [new_full] on a task manager;
      [Command]: the subcommands and what each of them runs; [Benchmarking]: the
      extrinsics of the benchmark commands.
    - [MockVectorDb], [MockRenaming] (a test under its own configuration and a run under
      the chain's, up to names), [MockPallets] (Modules [MockEscrow], [MockTemplate]),
      [MockRegistry], [MockRegistryTheory]: the test doubles, the environments and the
      helpers of the pallets' tests, and the benchmarks of the template pallet.
    - [Offchain], [VectorClient] (Modules [Chunker], [FsChunkStore], [VectorClient]),
      [VectorClientTheory], [VectorSubmit], [Keystore], [RegistryClient],
      [RegistryClientTheory]: the off-chain side.
    - [RustStr]: the operations of [str] the binaries use, on lists of bytes.
    - [Cli] (Modules [VectorCli], [RegistryCli]), [CliTheory]: the two command-line
      clients as functions of their environment, on a process that prints.
    - [Door] (Module [Door]), [DoorTheory]: the door: [read_loop], one definition per
      route, [handle], [serve]; [RegisterMe], [RegisterMeTheory]: the stranger's
      program; [DoorSession]: both connected by an HTTP client; [OwnController]: the
      session of a stranger with an account of its own.
    - [Scenario], [DoorScenario]: executable runs and the instances they use.
    - [ChainProperties], [RegistryProperties], [VectorProperties],
      [IdentityProperties], [CliProperties], [SaleProperties], [NodeProperties],
      [ServiceProperties], [DoorProperties], [PrivacyProperties], [MockProperties] (and
      [OwnController]): the theorems a reader should start from, each followed by a
      concrete instance of its hypotheses.

    Correspondence: a storage item is a field of the pallet's [State], a [StorageMap] a
    [gmap], an extrinsic a definition of the same name that runs in [Dispatch] and
    checks and writes in the order of the Rust body; events are appended to a list of
    the state.  [BoundedVec] arguments are byte lists whose bound is a condition of
    [call_wf], which the decoding of an extrinsic enforces; so are the 32 bytes of a
    signer, a condition of [origin_wf].

    ** What the theorems show

    - Refinement and types ([ChainProperties]): every step of the chain is a step of the
      abstract market or none, the escrow under an id is what the state of its deal
      asks for, and every stored value stays in the range of its Rust type, with the
      length its type fixes.
    - Money ([ChainProperties]): in every reachable chain without a slashed deposit the
      reserve of an account covers its deposits and its locked escrows, and an escrow
      that is released or refunded moves in full; escrow records and commitments agree.
      Two runs show how it can fail: expiry of an active commitment leaves its escrow
      locked for ever, and a slashed deposit makes a later release pay too little.
    - Disputes ([ChainProperties], [VectorProperties]): a counter-dispute that is
      accepted proves the disputed chunk (or exhibits a hash collision), an honest
      provider's client can always produce such an answer before the deadline, the
      deadline alone decides between [counter_dispute] and [finalize_dispute], and past
      it anybody can close a dispute.  Commitments with [2^32] chunks or more wrap around on wasm32.
    - Lifecycles and access: only the parties move a commitment and only expiry removes
      one, final states are final, revocation is permanent, escrow records never change.
    - Registry ([RegistryProperties]): consistency of profiles, index and counters;
      the exact success conditions of calls; replay protection of the challenge; the
      star cooldown; what deregistration returns; errors write nothing.
    - Off-chain: every chunking mode keeps the payload, the chunk store round trip,
      the client's registration of a payload against the chain, identities that are
      saved load again and are never overwritten, labels do not leave the keystore's
      directory, and three ways in which the clients lose a key or accept a forged DID;
      the thin clients have exactly the outcome of the call they submit.
    - Binaries ([CliProperties], [NodeProperties]): what a registration prints is what
      the next run needs, except for a root of one's own; the registry client registers
      once; the named chain specifications, through the runtime API that serves their
      presets, start the chain all other theorems are about; every call fits into a block.
      [SaleProperties]: what a registration prints can be bought with the other actions
      of the client, up to the settled commitment and the paid provider, as long as the
      commitment and its escrow are left alone in between and do not expire.
    - The node ([ServiceProperties]): which tasks a node runs for which configuration and
      what they are given; authors and importers compute the same slots, and the
      durations of the configuration are what they are documented to be; a node whose
      components cannot be built can still purge its chain; benchmark extrinsics are accepted for the
      whole era they name.
    - The tests ([MockProperties]): a test of the commitment pallet against its mocks and
      under the tests' configuration sees what the chain does, up to names, where the two
      configurations agree and up to a refusal of the real escrow; the registrations
      the helpers prepare are accepted up to the limit of 64.
    - Secrets on disk ([PrivacyProperties]): whatever happens to a run that stores a
      secret, it is in a directory closed to others, and key files are closed themselves;
      the plain seed of [register-me] is protected by its directory only.
    - The door ([DoorProperties]): requests do not depend on how they are cut and are
      bounded, a stranger gets from nothing to a registered and stored identity, under
      the door's account or under one of its own ([OwnController]), a token
      is spent once; and what goes wrong: a length that stops the server, prepared
      registrations that get overwritten, accounts that are funded and lost, a seed in
      the clear.

    ** Fuel and bounds

    Every loop of the sources is a structural recursion or runs on fuel that is proved
    sufficient: [chunks] takes the length of the payload (each chunk but the last
    removes a full chunk of at least one byte), [slice_loop] one more than the length
    of the file (each read before the last returns at least one byte;
    [slicing_a_file_keeps_it] proves that it returns), and the reference Merkle tree
    the number of leaves (each layer at least halves; [root_of_some]).  [split] and
    [trim_start_matches] take the length of the string: every separator or prefix they
    remove has at least one byte.  The loop of the door recurses on the reads of a
    connection; [requests_are_bounded] proves that it returns in a release build and
    that it keeps at most 64 KiB and one buffer.  Block numbers
    stay in [u32]: a new block exists only while its number fits.

    ** Assumptions

    The laws of the classes are the documented behaviour of external code:
    [ReservableCurrency] (reserve, unreserve, repatriate and slash on one account touch
    what their documentation says; [RepatriateExisting]: repatriation succeeds if the
    beneficiary exists), [ScaleCodec] (fixed-width encodings are injective),
    [Blake2] (32-byte output; no collision freedom is assumed, theorems that need it
    conclude with an explicit collision), [MlDsa] and its signer (a signature verifies
    under its own key), [RsMerkle] (proofs generated from a tree verify; verification
    that succeeds for another leaf exhibits a collision), [Hex], and the cipher and
    encodings of the keystore (decoding inverts encoding).  For the binaries:
    [HexText] (two lower-case digits per byte), [SerdeJson] (parsing inverts printing,
    control characters are escaped, fields are found), [DoorNode] (what the door asks of
    [subxt]; no laws, the theorems name what the node answers), [HttpClient] (the pieces
    of a request concatenate to it, a response with status 200 yields its body, any
    other an error), [Sr25519], [Keyring] (distinct development keys) and
    [GenesisBalances] (distinct accounts above the existential deposit are endowed).
    For the node: [Substrate] with [SubstrateLaws] (components spawn tasks of their own
    and leave the others alone), [NodeCommands] (runners call their closure with their
    configuration; what a command does with it is the command's, opening the database for
    [chain-info] included), [FrameExtensions] (a mortal era lasts its period from its birth, the
    implicit data of an extension is what FRAME documents), [GenesisJson] (reading
    inverts writing for a whole configuration and refuses a patch; merging a patch replaces
    the fields it names; a named preset is merged with the default configuration); for the tests [MlDsaTest] (deterministic signing gives a valid
    signature).  [takes_signed] is what a session with an own account asks of the node: a
    validly signed extrinsic goes into the pool, and the chain does not move.
    [Ledger], [Merkle], [Scenario], [DoorScenario], [NodeProperties], [ServiceProperties]
    and [MockProperties] instantiate them.  Pallets of FRAME that are not in the repository change
    free balances only ([step_free_balances]): root calls that touch reserves, such as
    [force_unreserve] through Sudo, are outside the transition system.  A submission of a client is one
    dispatched call that is finalized or reports its error; the file system has no
    failures of its own, except that opening and reading the file to slice may fail.

    ** What is not modelled

    What the repository only names: the components of Substrate behind [Substrate], the
    commands behind [NodeCommands] and FRAME's executive behind [FrameRuntime]; the JSON
    text of the genesis presets, the genesis of FRAME's other pallets and the texts the node prints about itself; the charging
    of fees and the enforcement of block limits (FRAME; the weights, the limits and the
    fee formula are modelled); the opening of the door's listener and connections; and
    failures of a file system that do not depend on what is on it.

    ** Plan

    Next: interleavings of several sales over the command line, and market-level
    theorems transported to the chain through the refinement. *)

From stdpp Require Import base gmap list strings sets countable.
From Stdlib Require Import ZArith Lia.
From Stdlib Require Strings.Byte.

(** ** Automation shared by the components *)

Create HintDb arth.
Create Rewrite HintDb arth.

Declare Scope arth_scope.
Delimit Scope arth_scope with arth.
#[global] Open Scope Z_scope.

(** ** Bytes *)

(** A [u8] is a [Byte.byte]; [Vec<u8>], [BoundedVec<u8, _>] and [[u8; 32]] are
    lists of them. *)
Abbreviation byte := Byte.byte.
Abbreviation bytes := (list Byte.byte).

#[global] Instance byte_eq_dec : EqDecision byte.
Proof. intros x y. destruct (Byte.byte_eq_dec x y); [left | right]; assumption. Defined.

#[global] Instance byte_countable : Countable byte :=
  inj_countable Byte.to_N Byte.of_N Byte.of_to_N.

(** The bytes of an ASCII literal, as in Rust's [b"..."]. *)
Definition bstr (s : string) : bytes := String.list_byte_of_string s.

(** [[u8; 32]]: the length the Rust type fixes. *)
Definition len32 (b : bytes) : Prop := length b = 32%nat.

Definition zeros32 : bytes := replicate 32 Byte.x00.

(** ** Machine integers

    Unsigned integers are [Z] values in [[0, 2^w)]; the saturating and checked
    operations of Rust are written out. *)

Definition u32_max : Z := 2 ^ 32 - 1.
Definition u64_max : Z := 2 ^ 64 - 1.
Definition u128_max : Z := 2 ^ 128 - 1.

Definition in_u32 (z : Z) : Prop := 0 <= z <= u32_max.
Definition in_u64 (z : Z) : Prop := 0 <= z <= u64_max.
Definition in_u128 (z : Z) : Prop := 0 <= z <= u128_max.

(** [a.saturating_add(b)] at maximum [m]; [a.saturating_sub(b)] for any unsigned
    type; [a.checked_add(b)]. *)
Definition sat_add (m a b : Z) : Z := Z.min m (a + b).
Definition sat_sub (a b : Z) : Z := Z.max 0 (a - b).
Definition checked_add (m a b : Z) : option Z := if a + b <=? m then Some (a + b) else None.

(** [x as usize] for a [u64] on a target whose pointers have [w] bits. *)
Definition as_usize (w x : Z) : Z := x mod 2 ^ w.

Lemma sat_add_in_u32 a b : 0 <= a -> 0 <= b -> in_u32 (sat_add u32_max a b).
Proof. unfold in_u32, sat_add, u32_max; lia. Qed.

Lemma sat_sub_in_u32 a b : 0 <= b -> in_u32 a -> in_u32 (sat_sub a b).
Proof. unfold in_u32, sat_sub; lia. Qed.

Lemma sat_add_exact m a b : a + b <= m -> sat_add m a b = a + b.
Proof. unfold sat_add; lia. Qed.

Lemma sat_sub_exact a b : b <= a -> sat_sub a b = a - b.
Proof. unfold sat_sub; lia. Qed.

Lemma as_usize_small w x : 0 <= x < 2 ^ w -> as_usize w x = x.
Proof. intros. unfold as_usize. by apply Z.mod_small. Qed.

#[export] Hint Resolve sat_add_in_u32 sat_sub_in_u32 : arth.
#[export] Hint Rewrite sat_add_exact sat_sub_exact using lia : arth.

(** ** Results and the state and error monad

    A Rust function that returns [Result<A, E>] and reads and writes storage is a
    function [S -> result E A * S].  The state of the [Err] branch is kept: writes
    made before an early return are visible to whoever looks at the storage next,
    and only the storage layer around a dispatched extrinsic ([transactional],
    below) undoes them. *)

Inductive result (E A : Type) : Type :=
  | Ok (a : A)
  | Err (e : E).
Arguments Ok {E A} a.
Arguments Err {E A} e.

Definition is_ok {E A} (r : result E A) : bool :=
  match r with Ok _ => true | Err _ => false end.

Definition M (S E A : Type) : Type := S -> result E A * S.

Section Monad.
Context {S E : Type}.

Definition ret {A} (a : A) : M S E A := fun s => (Ok a, s).

Definition throw {A} (e : E) : M S E A := fun s => (Err e, s).

(** The [?] operator and sequencing. *)
Definition bind {A B} (m : M S E A) (k : A -> M S E B) : M S E B := fun s =>
  match m s with
  | (Ok a, s') => k a s'
  | (Err e, s') => (Err e, s')
  end.

(** A storage read. *)
Definition gets {A} (f : S -> A) : M S E A := fun s => (Ok (f s), s).

(** A storage write. *)
Definition modify (f : S -> S) : M S E unit := fun s => (Ok tt, f s).

(** [ensure!(b, e)]. *)
Definition ensure (b : bool) (e : E) : M S E unit := if b then ret tt else throw e.

(** [o.ok_or(e)?]. *)
Definition ok_or {A} (o : option A) (e : E) : M S E A :=
  match o with Some a => ret a | None => throw e end.

(** [m.map_err(|_| e)]. *)
Definition map_err {A} (e : E) (m : M S E A) : M S E A := fun s =>
  match m s with
  | (Ok a, s') => (Ok a, s')
  | (Err _, s') => (Err e, s')
  end.

(** The storage layer FRAME opens around every dispatched call: an [Err] restores
    the storage of the start of the call. *)
Definition transactional {A} (m : M S E A) : M S E A := fun s =>
  match m s with
  | (Ok a, s') => (Ok a, s')
  | (Err e, _) => (Err e, s)
  end.

(** A call that cannot fail and returns a value, such as [Currency::unreserve]. *)
Definition call {A} (f : S -> A * S) : M S E A := fun s => match f s with (a, s') => (Ok a, s') end.

(** Run a computation on a part of the state. *)
Definition zoom {T A} (get : S -> T) (put : T -> S -> S) (m : M T E A) : M S E A :=
  fun s => match m (get s) with (r, t) => (r, put t s) end.
End Monad.

Notation "x <- m ;; k" := (bind m (fun x => k))
  (at level 100, m at next level, right associativity) : arth_scope.
Notation "m ;;; k" := (bind m (fun _ => k))
  (at level 100, right associativity) : arth_scope.

(** *** Inversion of successful runs *)

Section MonadLemmas.
Context {S E : Type}.
Implicit Types s : S.

Lemma bind_ok_inv {A B} (m : M S E A) (k : A -> M S E B) s b s' :
  bind m k s = (Ok b, s') -> exists a s1, m s = (Ok a, s1) /\ k a s1 = (Ok b, s').
Proof. unfold bind. destruct (m s) as [[a|e] s1]; intros H; simplify_eq; eauto. Qed.

Lemma bind_err_inv {A B} (m : M S E A) (k : A -> M S E B) s e s' :
  bind m k s = (Err e, s') ->
  m s = (Err e, s') \/ exists a s1, m s = (Ok a, s1) /\ k a s1 = (Err e, s').
Proof. unfold bind. destruct (m s) as [[a|e'] s1]; intros H; simplify_eq; eauto. Qed.

Lemma bind_ok {A B} (m : M S E A) (k : A -> M S E B) s a s1 :
  m s = (Ok a, s1) -> bind m k s = k a s1.
Proof. unfold bind. by intros ->. Qed.

Lemma ensure_ok_inv b (e : E) s u s' : ensure b e s = (Ok u, s') -> b = true /\ s' = s.
Proof. unfold ensure, ret, throw. destruct b; intros H; by simplify_eq. Qed.

Lemma ok_or_ok_inv {A} (o : option A) (e : E) s a s' :
  ok_or o e s = (Ok a, s') -> o = Some a /\ s' = s.
Proof. unfold ok_or, ret, throw. destruct o; intros H; by simplify_eq. Qed.

Lemma gets_ok_inv {A} (f : S -> A) s a s' :
  gets (E:=E) f s = (Ok a, s') -> a = f s /\ s' = s.
Proof. unfold gets. intros H; by simplify_eq. Qed.

Lemma modify_ok_inv (f : S -> S) s u s' : modify (E:=E) f s = (Ok u, s') -> s' = f s.
Proof. unfold modify. intros H; by simplify_eq. Qed.

Lemma ret_ok_inv {A} (a b : A) s s' : ret (E:=E) a s = (Ok b, s') -> b = a /\ s' = s.
Proof. unfold ret. intros H; by simplify_eq. Qed.

Lemma map_err_ok_inv {A} (e : E) (m : M S E A) s a s' :
  map_err e m s = (Ok a, s') -> m s = (Ok a, s').
Proof. unfold map_err. destruct (m s) as [[?|?] ?]; intros H; by simplify_eq. Qed.

Lemma transactional_ok {A} (m : M S E A) s a s' :
  transactional m s = (Ok a, s') <-> m s = (Ok a, s').
Proof. unfold transactional. destruct (m s) as [[?|?] ?]; split; intros H; by simplify_eq. Qed.

Lemma transactional_err {A} (m : M S E A) s e s' :
  transactional m s = (Err e, s') -> s' = s.
Proof. unfold transactional. destruct (m s) as [[?|?] ?]; intros H; by simplify_eq. Qed.

Lemma call_ok_inv {A} (f : S -> A * S) s a s' : call (E:=E) f s = (Ok a, s') -> f s = (a, s').
Proof. unfold call. destruct (f s); intros H; by simplify_eq. Qed.

(** A run that returns [Ok] ends in its second component. *)
Lemma is_ok_run (m : M S E unit) s : is_ok (m s).1 = true -> m s = (Ok tt, (m s).2).
Proof. destruct (m s) as [[[]|e] s']; cbn; congruence. Qed.

Lemma err_run {A} (m : M S E A) s e : (m s).1 = Err e -> m s = (Err e, (m s).2).
Proof. destruct (m s) as [r s']; cbn. by intros ->. Qed.

Lemma zoom_ok_inv {T A} (get : S -> T) (put : T -> S -> S) (m : M T E A) s a s' :
  zoom get put m s = (Ok a, s') -> exists t, m (get s) = (Ok a, t) /\ s' = put t s.
Proof. unfold zoom. destruct (m (get s)) as [r t]; intros H; simplify_eq; eauto. Qed.
End MonadLemmas.

(** [run_inv] decomposes every hypothesis [m s = (Ok a, s')] along the monadic
    structure of [m]. *)
Ltac run_inv_step :=
  match goal with
  | H : bind _ _ _ = (Ok _, _) |- _ =>
      apply bind_ok_inv in H; destruct H as (? & ? & ? & H)
  | H : ensure _ _ _ = (Ok _, _) |- _ => apply ensure_ok_inv in H; destruct H as [? ?]; subst
  | H : ok_or _ _ _ = (Ok _, _) |- _ => apply ok_or_ok_inv in H; destruct H as [? ?]; subst
  | H : gets _ _ = (Ok _, _) |- _ => apply gets_ok_inv in H; destruct H as [? ?]; subst
  | H : modify _ _ = (Ok _, _) |- _ => apply modify_ok_inv in H; subst
  | H : ret _ _ = (Ok _, _) |- _ => apply ret_ok_inv in H; destruct H as [? ?]; subst
  | H : throw _ _ = (Ok _, _) |- _ => discriminate H
  | H : map_err _ _ _ = (Ok _, _) |- _ => apply map_err_ok_inv in H
  | H : transactional _ _ = (Ok _, _) |- _ => apply transactional_ok in H
  | H : call _ _ = (Ok _, _) |- _ => apply call_ok_inv in H
  | H : zoom _ _ _ _ = (Ok _, _) |- _ => apply zoom_ok_inv in H; destruct H as (? & H & ?); subst
  | H : bool_decide _ = true |- _ => apply bool_decide_eq_true in H
  | H : negb _ = true |- _ => apply negb_true_iff in H
  | H : bool_decide _ = false |- _ => apply bool_decide_eq_false in H
  | H : (_ && _)%bool = true |- _ => apply andb_true_iff in H; destruct H
  | H : (_ <? _) = true |- _ => apply Z.ltb_lt in H
  | H : (_ <=? _) = true |- _ => apply Z.leb_le in H
  | H : (_ <? _) = false |- _ => apply Z.ltb_ge in H
  | H : (_ <=? _) = false |- _ => apply Z.leb_gt in H
  | H : Some _ = _ !! _ |- _ => symmetry in H
  | u : unit |- _ => destruct u
  end.
Ltac run_inv := repeat (run_inv_step; cbn beta iota in *).

(** *** Computations that touch nothing when they fail

    [ReadOnly m]: no branch of [m] writes.  [Infallible m]: [m] never returns [Err].
    [ErrNoop m]: whenever [m] returns [Err] the state is the one it started from,
    with no help from the storage layer.  The instances below make the last property
    derivable from the shape of a body: reads and guards first, one fallible
    write, then writes that cannot fail. *)

Class ReadOnly {S E A} (m : M S E A) : Prop := read_only : forall s, (m s).2 = s.
Class Infallible {S E A} (m : M S E A) : Prop :=
  infallible : forall s, exists a s', m s = (Ok a, s').
Class ErrNoop {S E A} (m : M S E A) : Prop :=
  err_noop : forall s e s', m s = (Err e, s') -> s' = s.

Section NoopInstances.
Context {S E : Type}.

#[global] Instance ret_readonly {A} (a : A) : ReadOnly (ret (S:=S) (E:=E) a).
Proof. by intros s. Qed.
#[global] Instance gets_readonly {A} (f : S -> A) : ReadOnly (gets (E:=E) f).
Proof. by intros s. Qed.
#[global] Instance ensure_readonly b (e : E) : ReadOnly (S:=S) (ensure b e).
Proof. intros s. by destruct b. Qed.
#[global] Instance ok_or_readonly {A} (o : option A) (e : E) : ReadOnly (S:=S) (ok_or o e).
Proof. intros s. by destruct o. Qed.

#[global] Instance bind_readonly {A B} (m : M S E A) (k : A -> M S E B) :
  ReadOnly m -> (forall a, ReadOnly (k a)) -> ReadOnly (bind m k).
Proof.
  intros Hm Hk s. unfold bind. specialize (Hm s). destruct (m s) as [[a|e] s1]; cbn in *; subst; [apply Hk|done].
Qed.

#[global] Instance if_readonly {A} (b : bool) (m1 m2 : M S E A) :
  ReadOnly m1 -> ReadOnly m2 -> ReadOnly (if b then m1 else m2).
Proof. by destruct b. Qed.

#[global] Instance ret_infallible {A} (a : A) : Infallible (ret (S:=S) (E:=E) a).
Proof. intros s. eexists _, _. reflexivity. Qed.
#[global] Instance gets_infallible {A} (f : S -> A) : Infallible (gets (E:=E) f).
Proof. intros s. eexists _, _. reflexivity. Qed.
#[global] Instance modify_infallible (f : S -> S) : Infallible (modify (E:=E) f).
Proof. intros s. eexists _, _. reflexivity. Qed.
#[global] Instance call_infallible {A} (f : S -> A * S) : Infallible (call (E:=E) f).
Proof. intros s. unfold call. destruct (f s). eauto. Qed.
#[global] Instance zoom_infallible {T A} (get : S -> T) (put : T -> S -> S) (m : M T E A) :
  Infallible m -> Infallible (zoom get put m).
Proof. intros Hm s. unfold zoom. destruct (Hm (get s)) as (a & t & ->). eauto. Qed.
#[global] Instance bind_infallible {A B} (m : M S E A) (k : A -> M S E B) :
  Infallible m -> (forall a, Infallible (k a)) -> Infallible (bind m k).
Proof. intros Hm Hk s. destruct (Hm s) as (a & s1 & E1). rewrite (bind_ok _ _ _ _ _ E1). apply Hk. Qed.

Lemma readonly_ok {A} (m : M S E A) s a s' : ReadOnly m -> m s = (Ok a, s') -> s' = s.
Proof. intros Hm Ha. specialize (Hm s). by rewrite Ha in Hm. Qed.
Lemma bind_read_inv {A B} (m : M S E A) (k : A -> M S E B) s b s' :
  ReadOnly m -> bind m k s = (Ok b, s') -> exists a, m s = (Ok a, s) /\ k a s = (Ok b, s').
Proof.
  intros Hm (a & s1 & Ha & Hk)%bind_ok_inv. pose proof (readonly_ok m s a s1 Hm Ha) as ->. by exists a.
Qed.

Lemma readonly_noop {A} (m : M S E A) : ReadOnly m -> ErrNoop m.
Proof. intros H s e s' E1. specialize (H s). by rewrite E1 in H. Qed.
Lemma infallible_noop {A} (m : M S E A) : Infallible m -> ErrNoop m.
Proof. intros H s e s' E1. destruct (H s) as (? & ? & ?). congruence. Qed.

(** Guards and reads first. *)
Lemma bind_noop_readonly {A B} (m : M S E A) (k : A -> M S E B) :
  ReadOnly m -> (forall a, ErrNoop (k a)) -> ErrNoop (bind m k).
Proof.
  intros Hm Hk s e s' [E1 | (a & s1 & E1 & E2)]%bind_err_inv; specialize (Hm s); rewrite E1 in Hm;
    cbn in Hm; subst; [done|]. by apply Hk in E2.
Qed.
(** A fallible write, then nothing that fails. *)
Lemma bind_noop_last {A B} (m : M S E A) (k : A -> M S E B) :
  ErrNoop m -> (forall a, Infallible (k a)) -> ErrNoop (bind m k).
Proof.
  intros Hm Hk s e s' [E1 | (a & s1 & E1 & E2)]%bind_err_inv; [by apply Hm in E1|].
  destruct (Hk a s1) as (? & ? & ?). congruence.
Qed.
Lemma map_err_noop {A} (e : E) (m : M S E A) : ErrNoop m -> ErrNoop (map_err e m).
Proof.
  intros Hm s e' s'. unfold map_err. destruct (m s) as [[?|?] ?] eqn:Em; intros; simplify_eq.
  by eapply Hm.
Qed.

Lemma zoom_noop {T A} (get : S -> T) (put : T -> S -> S) (m : M T E A) :
  (forall s, put (get s) s = s) -> ErrNoop m -> ErrNoop (zoom get put m).
Proof.
  intros Hl Hm s e s'. unfold zoom. destruct (m (get s)) as [r t] eqn:Em; intros; simplify_eq.
  apply Hm in Em. by subst.
Qed.
End NoopInstances.

(** [noop_tac] follows the shape of a body: read-only prefix, then the last
    fallible write. *)
Ltac noop_tac :=
  repeat first
    [ apply bind_noop_readonly; [solve [typeclasses eauto] | intros ?]
    | apply bind_noop_last; [| solve [intros; typeclasses eauto]]
    | apply map_err_noop
    | apply zoom_noop; [by intros []|]
    | apply infallible_noop; solve [typeclasses eauto]
    | apply readonly_noop; solve [typeclasses eauto] ].

(** [err_step H] peels a read-only first statement off a failing run [H]: either it is
    what failed, and nothing was written, or it succeeded and [H] is about the rest. *)
Ltac err_step H :=
  apply bind_err_inv in H; destruct H as [H | (? & ? & ? & H)];
  [ by apply (readonly_noop _ _) in H | ].

(** ** Generic facts about finite maps *)

Section MapFacts.
Context {K V : Type} `{Countable K}.

(** The number of entries that satisfy [P]. *)
Definition count_if (P : V -> bool) (m : gmap K V) : nat :=
  size (filter (fun kv => P kv.2 = true) m).

Lemma count_if_insert_fresh P (m : gmap K V) k v :
  m !! k = None -> count_if P (<[k:=v]> m) = ((if P v then 1 else 0) + count_if P m)%nat.
Proof.
  intros Hk. unfold count_if. destruct (P v) eqn:Pv.
  - rewrite map_filter_insert_True by done. rewrite map_size_insert_None; [done|].
    apply map_lookup_filter_None. by left.
  - rewrite map_filter_insert_False by (cbn; congruence). by rewrite delete_id.
Qed.

Lemma count_if_delete P (m : gmap K V) k v :
  m !! k = Some v -> count_if P m = ((if P v then 1 else 0) + count_if P (delete k m))%nat.
Proof.
  intros Hk. rewrite <- (insert_id m k v Hk) at 1. rewrite <- insert_delete_eq.
  apply count_if_insert_fresh. apply lookup_delete_eq.
Qed.

Lemma count_if_insert P (m : gmap K V) k v v' :
  m !! k = Some v ->
  (count_if P (<[k:=v']> m) + (if P v then 1 else 0) = (if P v' then 1 else 0) + count_if P m)%nat.
Proof.
  intros Hk. rewrite (count_if_delete P m k v Hk), <- insert_delete_eq.
  rewrite count_if_insert_fresh by apply lookup_delete_eq. lia.
Qed.

(** The sum of [f] over the entries. *)
Definition map_sum (f : K -> V -> Z) (m : gmap K V) : Z :=
  map_fold (fun k v acc => f k v + acc) 0 m.

Lemma map_sum_empty f : map_sum f ∅ = 0.
Proof. apply map_fold_empty. Qed.

Lemma map_sum_insert_fresh f (m : gmap K V) k v :
  m !! k = None -> map_sum f (<[k:=v]> m) = f k v + map_sum f m.
Proof. intros Hk. unfold map_sum. rewrite map_fold_insert_L; [done | intros; lia | done]. Qed.

Lemma map_sum_delete f (m : gmap K V) k v :
  m !! k = Some v -> map_sum f m = f k v + map_sum f (delete k m).
Proof.
  intros Hk. rewrite <- (insert_id m k v Hk) at 1. rewrite <- insert_delete_eq.
  apply map_sum_insert_fresh. apply lookup_delete_eq.
Qed.

Lemma map_sum_insert f (m : gmap K V) k v v' :
  m !! k = Some v -> map_sum f (<[k:=v']> m) = map_sum f m - f k v + f k v'.
Proof.
  intros Hk. rewrite (map_sum_delete f m k v Hk), <- insert_delete_eq.
  rewrite map_sum_insert_fresh by apply lookup_delete_eq. lia.
Qed.

Lemma map_sum_nonneg f (m : gmap K V) : (forall k v, m !! k = Some v -> 0 <= f k v) -> 0 <= map_sum f m.
Proof.
  induction m as [|k v m Hk IH] using map_ind; intros Hf; [by rewrite map_sum_empty|].
  rewrite map_sum_insert_fresh by done.
  pose proof (Hf k v (lookup_insert_eq _ _ _)).
  assert (0 <= map_sum f m); [|lia].
  apply IH. intros k' v' Hk'. apply (Hf k' v'). rewrite lookup_insert_ne; congruence.
Qed.
End MapFacts.
