(* ===== verification/RustStr.v ===== *)
(** * RustStr: the string functions of the Rust standard library the binaries use

    A [str] is the list of its bytes.  Searching, splitting, trimming, the parsing of
    unsigned integers and the lossy decoding of UTF-8, each with the facts the clients
    of the file need. *)

From stdpp Require Import base list strings pretty sets.
From Stdlib Require Import ZArith NArith Lia ZifyBool.
From S2P Require Import Prelude.

(** ** Literals and conversions *)

Abbreviation str := (list Byte.byte).

(** The text of a list of bytes as a [string], the inverse of [bstr]. *)
Definition show (b : str) : string := String.string_of_list_byte b.

Lemma show_bstr s : show (bstr s) = s.
Proof. apply String.string_of_list_byte_of_string. Qed.
Lemma bstr_show b : bstr (show b) = b.
Proof. apply String.list_byte_of_string_of_list_byte. Qed.
Lemma bstr_app s t : bstr (s +:+ t) = bstr s ++ bstr t.
Proof.
  unfold bstr, String.list_byte_of_string. induction s as [|c s IH]; [done|].
  change (String.list_ascii_of_string (String c s +:+ t)) with (c :: String.list_ascii_of_string (s +:+ t)).
  cbn. f_equal. apply IH.
Qed.
Lemma show_app a b : show (a ++ b) = show a +:+ show b.
Proof. rewrite <- (bstr_show a), <- (bstr_show b) at 1. by rewrite <- bstr_app, show_bstr. Qed.

#[export] Hint Rewrite show_bstr bstr_show : arth.

(** The code of a byte. *)
Definition code (x : byte) : N := Byte.to_N x.
Definition is_ascii (x : byte) : bool := (code x <? 128)%N.

(** [format!("{n}")] of an unsigned integer. *)
Definition show_N (n : N) : str := bstr (pretty n).

(** ** Searching *)

Definition starts_with (p s : str) : bool := bool_decide (take (length p) s = p).

Definition strip_prefix (p s : str) : option str := if starts_with p s then Some (drop (length p) s) else None.

(** [s.windows(p.len()).position(|w| w == p)], for a non-empty [p]. *)
Fixpoint position (p s : str) : option nat :=
  if starts_with p s then Some O
  else match s with [] => None | _ :: s => S <$> position p s end.

(** [s.split(sep)]; every piece but the last is followed by a separator, so the length
    of [s] is enough fuel. *)
Fixpoint split_fuel (fuel : nat) (sep s : str) : list str :=
  match fuel with
  | O => [s]
  | S fuel =>
      match position sep s with
      | None => [s]
      | Some i => take i s :: split_fuel fuel sep (drop (i + length sep) s)
      end
  end.
Definition split (sep s : str) : list str := split_fuel (length s) sep s.

Definition strip_suffix_cr (l : str) : str :=
  match last l with
  | Some x => if bool_decide (x = Byte.x0d) then take (length l - 1) l else l
  | None => l
  end.

(** [s.lines()]: a carriage return before the line feed belongs to the line ending, and
    the empty rest after a final line feed is no line. *)
Fixpoint lines_of (pieces : list str) : list str :=
  match pieces with
  | [] => []
  | [rest] => if bool_decide (rest = []) then [] else [rest]
  | l :: pieces => strip_suffix_cr l :: lines_of pieces
  end.
Definition lines (s : str) : list str := lines_of (split [Byte.x0a] s).

(** [iter.find_map(f)]. *)
Fixpoint find_map {A B} (f : A -> option B) (l : list A) : option B :=
  match l with
  | [] => None
  | x :: l => match f x with Some y => Some y | None => find_map f l end
  end.

(** ** Trimming *)

(** The [White_Space] characters of Unicode at the front of a UTF-8 string; [rev]
    matches them at its end. *)
Definition white1 (x : N) : bool := ((9 <=? x) && (x <=? 13) || (x =? 32))%N.
Definition white2 (x y : N) : bool := ((x =? 194) && ((y =? 133) || (y =? 160)))%N.
Definition white3 (x y z : N) : bool :=
  ((x =? 225) && (y =? 154) && (z =? 128) ||
   (x =? 226) && (y =? 128) && ((128 <=? z) && (z <=? 138) || (z =? 168) || (z =? 169) || (z =? 175)) ||
   (x =? 226) && (y =? 129) && (z =? 159) ||
   (x =? 227) && (y =? 128) && (z =? 128))%N.

Fixpoint trim_start (s : str) : str :=
  match s with
  | [] => []
  | x :: s1 =>
      if white1 (code x) then trim_start s1
      else match s1 with
           | y :: s2 =>
               if white2 (code x) (code y) then trim_start s2
               else match s2 with
                    | z :: s3 => if white3 (code x) (code y) (code z) then trim_start s3 else s
                    | [] => s
                    end
           | [] => s
           end
  end.

Fixpoint trim_rev (s : str) : str :=
  match s with
  | [] => []
  | z :: s1 =>
      if white1 (code z) then trim_rev s1
      else match s1 with
           | y :: s2 =>
               if white2 (code y) (code z) then trim_rev s2
               else match s2 with
                    | x :: s3 => if white3 (code x) (code y) (code z) then trim_rev s3 else s
                    | [] => s
                    end
           | [] => s
           end
  end.
Definition trim_end (s : str) : str := rev (trim_rev (rev s)).
Definition trim (s : str) : str := trim_end (trim_start s).

(** [s.trim_start_matches(p)]: the prefix is removed as often as it occurs. *)
Fixpoint trim_matches_fuel (fuel : nat) (p s : str) : str :=
  match fuel with
  | O => s
  | S fuel => match strip_prefix p s with Some r => trim_matches_fuel fuel p r | None => s end
  end.
Definition trim_start_matches (p s : str) : str := trim_matches_fuel (length s) p s.

(** ** Case, integers *)

Definition to_lower (x : byte) : byte :=
  if ((65 <=? code x) && (code x <=? 90))%N then default x (Byte.of_N (code x + 32)) else x.
Definition to_ascii_lowercase (s : str) : str := to_lower <$> s.

Definition digit (x : byte) : option Z :=
  if ((48 <=? code x) && (code x <=? 57))%N then Some (Z.of_N (code x - 48)) else None.

Fixpoint parse_digits (max acc : Z) (s : str) : option Z :=
  match s with
  | [] => Some acc
  | x :: s =>
      d ← digit x;
      let acc := acc * 10 + d in
      if acc <=? max then parse_digits max acc s else None
  end.

(** [s.parse::<uN>().ok()]: an optional plus sign, then at least one digit, no overflow. *)
Definition parse_uint (max : Z) (s : str) : option Z :=
  let s := match s with x :: s' => if bool_decide (x = Byte.x2b) then s' else s | [] => s end in
  match s with [] => None | _ => parse_digits max 0 s end.

(** ** [String::from_utf8_lossy]

    Each maximal ill-formed part becomes one replacement character. *)

Definition within (lo hi : N) (x : byte) : bool := ((lo <=? code x) && (code x <=? hi))%N.
Definition cont (x : byte) : bool := within 128 191 x.

(** The second bytes a lead byte of a three- or four-byte sequence allows. *)
Definition second3 (x y : byte) : bool :=
  if (code x =? 224)%N then within 160 191 y
  else if (code x =? 237)%N then within 128 159 y
  else cont y.
Definition second4 (x y : byte) : bool :=
  if (code x =? 240)%N then within 144 191 y
  else if (code x =? 244)%N then within 128 143 y
  else cont y.

Definition replacement : str := [Byte.xef; Byte.xbf; Byte.xbd].

Fixpoint from_utf8_lossy (s : str) : str :=
  match s with
  | [] => []
  | x :: s1 =>
      if is_ascii x then x :: from_utf8_lossy s1
      else if within 194 223 x then
        match s1 with
        | y :: s2 => if cont y then x :: y :: from_utf8_lossy s2 else replacement ++ from_utf8_lossy s1
        | [] => replacement
        end
      else if within 224 239 x then
        match s1 with
        | y :: s2 =>
            if second3 x y then
              match s2 with
              | z :: s3 => if cont z then x :: y :: z :: from_utf8_lossy s3 else replacement ++ from_utf8_lossy s2
              | [] => replacement
              end
            else replacement ++ from_utf8_lossy s1
        | [] => replacement
        end
      else if within 240 244 x then
        match s1 with
        | y :: s2 =>
            if second4 x y then
              match s2 with
              | z :: s3 =>
                  if cont z then
                    match s3 with
                    | t :: s4 =>
                        if cont t then x :: y :: z :: t :: from_utf8_lossy s4
                        else replacement ++ from_utf8_lossy s3
                    | [] => replacement
                    end
                  else replacement ++ from_utf8_lossy s2
              | [] => replacement
              end
            else replacement ++ from_utf8_lossy s1
        | [] => replacement
        end
      else replacement ++ from_utf8_lossy s1
  end.

(** ** Facts *)

Lemma starts_with_app p a b : (length p <= length a)%nat -> starts_with p (a ++ b) = starts_with p a.
Proof. intros Hl. unfold starts_with. by rewrite take_app_le. Qed.

Lemma starts_with_self p s : starts_with p (p ++ s) = true.
Proof. unfold starts_with. rewrite take_app_length. by apply bool_decide_eq_true_2. Qed.

Lemma starts_with_length p s : starts_with p s = true -> (length p <= length s)%nat.
Proof. intros E%bool_decide_eq_true_1. rewrite <- E at 1. rewrite length_take. lia. Qed.

Lemma position_bound p s i : position p s = Some i -> (i + length p <= length s)%nat.
Proof.
  revert i. induction s as [|x s IH]; intros i; cbn [position]; destruct (starts_with p _) eqn:E; intros Hp; simplify_eq.
  - by apply starts_with_length in E.
  - by apply starts_with_length in E.
  - apply fmap_Some in Hp as (j & Hj & ->). apply IH in Hj. cbn. lia.
Qed.

(** More text behind the first occurrence does not move it. *)
Lemma position_app p a b i : position p a = Some i -> position p (a ++ b) = Some i.
Proof.
  revert i. induction a as [|x a IH]; intros i Hp; pose proof (position_bound _ _ _ Hp) as Hb.
  - cbn in Hp, Hb. destruct (starts_with p []) eqn:E; [|done]. injection Hp as <-.
    destruct p; [|cbn in Hb; lia]. by destruct b.
  - cbn [app position] in *. change (x :: a ++ b) with ((x :: a) ++ b).
    rewrite (starts_with_app p (x :: a) b) by (cbn in *; lia).
    destruct (starts_with p (x :: a)); [done|]. apply fmap_Some in Hp as (j & Hj & ->). by rewrite (IH _ Hj).
Qed.

Lemma position_take p s i : position p s = Some i -> take i s ++ p ++ drop (i + length p) s = s.
Proof.
  revert i. induction s as [|x s IH]; intros i; cbn [position]; destruct (starts_with p _) eqn:E; intros Hp; simplify_eq.
  - apply bool_decide_eq_true_1 in E. cbn [app take]. rewrite <- E at 1. apply (take_drop (length p)).
  - apply bool_decide_eq_true_1 in E. cbn [app take]. rewrite <- E at 1. apply (take_drop (length p)).
  - apply fmap_Some in Hp as (j & Hj & ->). cbn. f_equal. by apply IH.
Qed.

(** A separator that does not occur before. *)
Lemma position_first p a b :
  (forall i, (i < length a)%nat -> take (length p) (drop i (a ++ p ++ b)) <> p) ->
  position p (a ++ p ++ b) = Some (length a).
Proof.
  induction a as [|x a IH]; intros Hf.
  - cbn [app length]. destruct (p ++ b) eqn:E; cbn [position]; rewrite <- E, starts_with_self; done.
  - cbn [app position]. assert (starts_with p (x :: a ++ p ++ b) = false) as ->.
    { apply bool_decide_eq_false_2. apply (Hf 0%nat). cbn. lia. }
    rewrite IH; [done|]. intros i Hi. apply (Hf (S i)). cbn. lia.
Qed.

Lemma split_some sep s i :
  sep <> [] -> position sep s = Some i ->
  exists rest, split sep s = take i s :: split_fuel (length s - 1) sep rest /\ rest = drop (i + length sep) s.
Proof.
  intros Hs Hp. unfold split. pose proof (position_bound _ _ _ Hp).
  destruct s as [|x s]; [destruct sep; [done|cbn in *; lia]|].
  cbn [length split_fuel]. rewrite Hp. eexists. split; [|done]. f_equal. f_equal. lia.
Qed.

Lemma split_fuel_none fuel sep s : position sep s = None -> split_fuel fuel sep s = [s].
Proof. destruct fuel; cbn; [done|]. by intros ->. Qed.

Lemma is_ascii_lossy s : forallb is_ascii s = true -> from_utf8_lossy s = s.
Proof. induction s as [|x s IH]; [done|]. intros [Hx Hs]%andb_true_iff. cbn. rewrite Hx. by rewrite IH. Qed.

Lemma lossy_app_ascii a s : forallb is_ascii a = true -> from_utf8_lossy (a ++ s) = a ++ from_utf8_lossy s.
Proof. induction a as [|x a IH]; [done|]. intros [Hx Ha]%andb_true_iff. cbn [app from_utf8_lossy]. rewrite Hx. by rewrite IH. Qed.

Lemma from_utf8_lossy_ascii x s : is_ascii x = true -> from_utf8_lossy (x :: s) = x :: from_utf8_lossy s.
Proof. intros Hx. cbn [from_utf8_lossy]. by rewrite Hx. Qed.

Lemma trim_start_matches_none p s : starts_with p s = false -> trim_start_matches p s = s.
Proof. intros Hs. unfold trim_start_matches. destruct s; cbn; [done|]. unfold strip_prefix. by rewrite Hs. Qed.

Lemma trim_start_matches_once p s :
  p <> [] -> starts_with p s = false -> trim_start_matches p (p ++ s) = s.
Proof.
  intros Hp Hs. unfold trim_start_matches. destruct p as [|x p]; [done|]. cbn [length app trim_matches_fuel].
  unfold strip_prefix at 1. rewrite (starts_with_self (x :: p) s : starts_with (x :: p) (x :: p ++ s) = true).
  change (x :: p ++ s) with ((x :: p) ++ s). rewrite drop_app_length.
  destruct (length (p ++ s)); cbn; [done|]. unfold strip_prefix. by rewrite Hs.
Qed.

(** A character no white space begins or ends with. *)
Definition dark (x : byte) : bool := (33 <=? code x)%N && is_ascii x.

Lemma dark_white1 x : dark x = true -> white1 (code x) = false.
Proof. unfold dark, white1, is_ascii. lia. Qed.
Lemma dark_white2 x y : (dark x || dark y) = true -> white2 (code x) (code y) = false.
Proof. unfold dark, white2, is_ascii. lia. Qed.
Lemma dark_white3 x y z : (dark x || dark z) = true -> white3 (code x) (code y) (code z) = false.
Proof. unfold dark, white3, is_ascii. lia. Qed.

Lemma trim_start_dark x s : dark x = true -> trim_start (x :: s) = x :: s.
Proof.
  intros Hx. cbn [trim_start]. rewrite (dark_white1 _ Hx). destruct s as [|y s]; [done|].
  rewrite dark_white2 by (by rewrite Hx). destruct s as [|z s]; [done|]. by rewrite dark_white3 by (by rewrite Hx).
Qed.
Lemma trim_rev_dark x s : dark x = true -> trim_rev (x :: s) = x :: s.
Proof.
  intros Hx. cbn [trim_rev]. rewrite (dark_white1 _ Hx). destruct s as [|y s]; [done|].
  rewrite dark_white2 by (by rewrite Hx, orb_true_r). destruct s as [|z s]; [done|].
  by rewrite dark_white3 by (by rewrite Hx, orb_true_r).
Qed.

(** Text without white space is not trimmed. *)
Lemma trim_dark s : forallb dark s = true -> trim s = s.
Proof.
  intros Hs. unfold trim, trim_end.
  assert (trim_start s = s) as ->.
  { destruct s as [|x s]; [done|]. apply andb_true_iff in Hs as [Hx _]. by apply trim_start_dark. }
  assert (forallb dark (rev s) = true) as Hr.
  { apply forallb_forall. intros x Hx%in_rev. by eapply forallb_forall in Hs. }
  destruct (rev s) as [|x r] eqn:E.
  - apply (f_equal (@rev byte)) in E. by rewrite rev_involutive in E.
  - apply andb_true_iff in Hr as [Hx _]. rewrite trim_rev_dark by done. by rewrite <- E, rev_involutive.
Qed.

(** *** Decimal numbers *)

Definition is_digit (x : byte) : bool := ((48 <=? code x) && (code x <=? 57))%N.

Lemma pretty_char_digit x :
  (x < 10)%N -> exists b, bstr (String (pretty_N_char x) EmptyString) = [b] /\ digit b = Some (Z.of_N x) /\ is_digit b = true.
Proof.
  intros Hx.
  assert (x = 0 \/ x = 1 \/ x = 2 \/ x = 3 \/ x = 4 \/ x = 5 \/ x = 6 \/ x = 7 \/ x = 8 \/ x = 9)%N as Hc by lia.
  repeat destruct Hc as [->|Hc]; try subst x; eexists; split_and!; reflexivity.
Qed.

Lemma bstr_cons c s : bstr (String c s) = bstr (String c EmptyString) ++ bstr s.
Proof. apply (bstr_app (String c EmptyString) s). Qed.

Lemma pretty_go_digits x s : forallb is_digit (bstr s) = true -> forallb is_digit (bstr (pretty_N_go x s)) = true.
Proof.
  revert s. induction (N.lt_wf_0 x) as [x _ IH]; intros s Hs.
  assert (x = 0 \/ 0 < x)%N as [->|Hx] by lia; [done|].
  rewrite pretty_N_go_step by done. apply IH; [by apply N.div_lt|].
  destruct (pretty_char_digit (x `mod` 10)) as (b & Eb & _ & Hb); [by apply N.mod_lt|].
  rewrite bstr_cons, Eb. cbn. by rewrite Hb.
Qed.

Lemma parse_pretty_go max x s :
  Z.of_N x <= max -> parse_digits max 0 (bstr (pretty_N_go x s)) = parse_digits max (Z.of_N x) (bstr s).
Proof.
  revert s. induction (N.lt_wf_0 x) as [x _ IH]; intros s Hm.
  assert (x = 0 \/ 0 < x)%N as [->|Hx] by lia; [done|].
  assert (x `div` 10 < x)%N as Hlt by (by apply N.div_lt).
  rewrite pretty_N_go_step, IH by (done || lia).
  destruct (pretty_char_digit (x `mod` 10)) as (b & Eb & Hd & _); [by apply N.mod_lt|].
  rewrite bstr_cons, Eb. cbn [app parse_digits]. rewrite Hd. cbn [mbind option_bind].
  assert (Z.of_N (x `div` 10) * 10 + Z.of_N (x `mod` 10) = Z.of_N x) as -> by (pose proof (N.div_mod x 10); lia).
  by apply Z.leb_le in Hm as ->.
Qed.

Lemma show_N_digits n : forallb is_digit (show_N n) = true.
Proof.
  unfold show_N, pretty, pretty_N. case_decide; [done|]. by apply pretty_go_digits.
Qed.

(** A printed number parses back. *)
Lemma parse_show_N max n : Z.of_N n <= max -> parse_uint max (show_N n) = Some (Z.of_N n).
Proof.
  intros Hm. pose proof (show_N_digits n) as Hd. unfold parse_uint.
  destruct (show_N n) as [|x s] eqn:E.
  { unfold show_N, pretty, pretty_N in E. case_decide as Hz; [done|]. pose proof (parse_pretty_go max n EmptyString Hm) as Hp.
    rewrite E in Hp. cbn in Hp. injection Hp. lia. }
  apply andb_true_iff in Hd as [Hx _].
  rewrite bool_decide_eq_false_2 by (intros ->; done). rewrite <- E.
  unfold show_N, pretty, pretty_N. case_decide as Hz; [subst; cbn; by destruct max; [..|lia]|].
  by rewrite parse_pretty_go.
Qed.

(** *** Absent separators *)

Lemma parse_pretty_Z max z : 0 <= z <= max -> parse_uint max (bstr (pretty z)) = Some z.
Proof.
  intros Hz. rewrite <- (Z2N.id z) at 2 by lia. rewrite <- (parse_show_N max (Z.to_N z)) by lia. unfold show_N.
  by destruct z; [done| |lia].
Qed.

Lemma position_absent x p s : x ∉ s -> position (x :: p) s = None.
Proof.
  induction s as [|y s IH]; intros Hx; cbn [position].
  - done.
  - assert (starts_with (x :: p) (y :: s) = false) as ->.
    { apply bool_decide_eq_false_2. cbn. intros [= ->]. set_solver. }
    rewrite IH by set_solver. done.
Qed.

Lemma position_skip x p a s : x ∉ a -> position (x :: p) (a ++ s) = (fun i => length a + i)%nat <$> position (x :: p) s.
Proof.
  induction a as [|y a IH]; intros Hx; cbn [app].
  - by destruct (position _ s).
  - cbn [position]. assert (starts_with (x :: p) (y :: a ++ s) = false) as ->.
    { apply bool_decide_eq_false_2. cbn. intros [= ->]. set_solver. }
    rewrite IH by set_solver. by destruct (position _ s).
Qed.

Lemma split_first x p a b :
  x ∉ a -> exists rest, split (x :: p) (a ++ (x :: p) ++ b) = a :: rest /\ rest <> [].
Proof.
  intros Ha.
  assert (position (x :: p) (a ++ (x :: p) ++ b) = Some (length a)) as Hp.
  { rewrite position_skip by done. change ((x :: p) ++ b) with (x :: p ++ b). cbn [position].
    change (x :: p ++ b) with ((x :: p) ++ b). rewrite starts_with_self. cbn. f_equal. lia. }
  destruct (split_some (x :: p) _ _ ltac:(done) Hp) as (rest & -> & _). rewrite take_app_length.
  eexists. split; [done|]. destruct (_ - 1)%nat; cbn; [done|]. by destruct (position _ rest).
Qed.

(** Text without the separator is one piece. *)
Lemma split_absent x s : x ∉ s -> split [x] s = [s].
Proof. intros Hx. apply split_fuel_none. by apply position_absent. Qed.

Lemma split_at x a b : x ∉ a -> x ∉ b -> split [x] (a ++ x :: b) = [a; b].
Proof.
  intros Ha Hb. destruct (split_some [x] (a ++ x :: b) (length a)) as (rest & -> & ->); [done| |].
  { rewrite position_skip by done. cbn [position]. change (x :: b) with ([x] ++ b). rewrite starts_with_self. cbn. f_equal. lia. }
  rewrite (take_app_length a), Nat.add_comm. change (x :: b) with ([x] ++ b).
  rewrite app_assoc, drop_app_length' by (rewrite length_app; cbn; lia).
  rewrite split_fuel_none by (by apply position_absent). done.
Qed.

(** The first line of a text that goes on after it. *)
Lemma first_line l s :
  Byte.x0a ∉ l -> head (lines (l ++ [Byte.x0d; Byte.x0a] ++ s)) = Some l.
Proof.
  intros Hl. unfold lines.
  change ([Byte.x0d; Byte.x0a] ++ s) with ([Byte.x0d] ++ [Byte.x0a] ++ s). rewrite app_assoc.
  destruct (split_first Byte.x0a [] (l ++ [Byte.x0d]) s) as (rest & -> & Hr); [set_solver|].
  destruct rest as [|r rest]; [done|]. cbn [lines_of head]. f_equal. unfold strip_suffix_cr.
  rewrite last_snoc, bool_decide_eq_true_2 by done. rewrite length_app. cbn [length].
  replace (length l + 1 - 1)%nat with (length l) by lia. apply take_app_length.
Qed.
