(* ===== verification/Frame.v ===== *)
(** * Frame: what the pallets use of the FRAME runtime

    Origins, the error type [DispatchError] with the error enumerations of the
    pallets it carries, the read-only system context, and the interface
    [ReservableCurrency] behind which the balances pallet stands.  The balances
    pallet, SCALE and the hash function are not part of the repository: they are
    the parameters declared here as classes, and what is assumed of them is the
    behaviour their documentation states. *)

From stdpp Require Import base gmap list strings.
From Stdlib Require Import ZArith Lia.
From S2P Require Import Prelude.

(** [runtime/src/lib.rs]: [AccountId] is an [AccountId32], [BlockNumber] a [u32],
    [Balance] a [u128]. *)
Abbreviation AccountId := bytes.
Abbreviation Did := bytes.
Abbreviation BlockNumber := Z.
Abbreviation Balance := Z.

(** ** Errors *)

(** [pallet_agent_registry::Error]. *)
Inductive RegistryError : Type :=
  | DidAlreadyRegistered
  | DidNotFound
  | NotController
  | AgentRevoked
  | TooManyAgentsForController
  | CooldownNotExpired
  | NotStarred
  | CannotStarSelf
  | CannotStarSameController
  | InvalidPubkeyLength
  | InvalidSignatureLength
  | InvalidChallengeBlock
  | ChallengeExpired
  | InvalidQuantumProof
  | InsufficientBalanceForDeposit
  | AgentAlreadyRevoked.

(** [pallet_vector_db::Error]. *)
Inductive VectorDbError : Type :=
  | CommitmentAlreadyExists
  | CommitmentNotFound
  | NotProvider
  | NotConsumer
  | ProviderNotEligible
  | ConsumerNotEligible
  | SelfTrade
  | ExpiryMustBePositive
  | ExpiryTooFar
  | CommitmentExpiredError
  | NotPending
  | NotActive
  | NotDisputed
  | AlreadyFinalized
  | StreamHashMismatch
  | InvalidMerkleProof
  | DisputeAlreadyRaised
  | DisputeWindowStillOpen
  | DisputeWindowExpired
  | NotYetExpired
  | TotalChunksMustBePositive
  | InvalidMerkleRoot
  | ChunkIndexOutOfBounds.

(** [pallet_escrow::Error]. *)
Inductive EscrowError : Type :=
  | EscrowAlreadyExists
  | EscrowNotFound
  | EscrowNotLocked
  | InsufficientBalanceForEscrow.

(** [pallet_template::Error]. *)
Inductive TemplateError : Type :=
  | NoneValue
  | StorageOverflow.

(** [sp_runtime::DispatchError], with the module errors of the runtime's own
    pallets; [CurrencyError] stands for whatever the balances pallet returns. *)
Inductive DispatchError : Type :=
  | BadOrigin
  | Other (message : string)
  | CurrencyError (code : Z)
  | EscrowModule (e : EscrowError)
  | RegistryModule (e : RegistryError)
  | VectorDbModule (e : VectorDbError)
  | TemplateModule (e : TemplateError).

#[global] Instance registry_error_eq_dec : EqDecision RegistryError.
Proof. solve_decision. Defined.
#[global] Instance vector_db_error_eq_dec : EqDecision VectorDbError.
Proof. solve_decision. Defined.
#[global] Instance escrow_error_eq_dec : EqDecision EscrowError.
Proof. solve_decision. Defined.
#[global] Instance template_error_eq_dec : EqDecision TemplateError.
Proof. solve_decision. Defined.
#[global] Instance dispatch_error_eq_dec : EqDecision DispatchError.
Proof. solve_decision. Defined.

(** A [DispatchResult]-returning function on storage [S]. *)
Abbreviation Dispatch S A := (M S DispatchError A).

(** ** Origins *)

Inductive Origin : Type :=
  | Root
  | Signed (who : AccountId)
  | Unsigned.

(** An [AccountId32] is an array of 32 bytes. *)
Definition origin_wf (o : Origin) : Prop := match o with Signed who => len32 who | _ => True end.

(** [ensure_signed(origin)?]. *)
Definition ensure_signed {S} (o : Origin) : Dispatch S AccountId :=
  match o with Signed who => ret who | _ => throw BadOrigin end.

Lemma ensure_signed_ok_inv {S} o (s : S) who s' :
  ensure_signed o s = (Ok who, s') -> o = Signed who /\ s' = s.
Proof. destruct o; cbn; intros H; try discriminate. unfold ret in H. by simplify_eq. Qed.

#[global] Instance ensure_signed_readonly {S} o : ReadOnly (S:=S) (ensure_signed o).
Proof. intros s. by destruct o. Qed.

Ltac frame_inv :=
  repeat (first
    [ match goal with
      | H : ensure_signed _ _ = (Ok _, _) |- _ =>
          apply ensure_signed_ok_inv in H; destruct H as [? ?]; subst
      end
    | run_inv_step ]; cbn beta iota in * ); subst.

(** ** The system context

    What [frame_system] answers during one block: its number and the stored block
    hashes. *)
Record System : Type := mkSystem {
  block_number : BlockNumber;
  block_hash : BlockNumber -> bytes }.

(** ** Balances *)

(** [frame_support::traits::BalanceStatus]. *)
Inductive BalanceStatus : Type := Free | Reserved.

(** [frame_support::traits::ReservableCurrency], as the pallets use it.  [unreserve]
    and [slash_reserved] return the part of the amount that could not be moved, and
    so does a successful [repatriate_reserved]. *)
Class ReservableCurrency (L : Type) := {
  free_balance : L -> AccountId -> Balance;
  reserved_balance : L -> AccountId -> Balance;
  can_reserve : L -> AccountId -> Balance -> bool;
  reserve : AccountId -> Balance -> Dispatch L unit;
  unreserve : AccountId -> Balance -> L -> Balance * L;
  slash_reserved : AccountId -> Balance -> L -> Balance * L;
  repatriate_reserved : AccountId -> AccountId -> Balance -> BalanceStatus -> Dispatch L Balance }.

(** What the trait documents. *)
Class ReservableCurrencyLaws (L : Type) `{ReservableCurrency L} : Prop := {
  balances_nonneg : forall l w, 0 <= free_balance l w /\ 0 <= reserved_balance l w;
  reserve_ok : forall l w v l', 0 <= v -> reserve w v l = (Ok tt, l') ->
    v <= free_balance l w /\
    free_balance l' w = free_balance l w - v /\
    reserved_balance l' w = reserved_balance l w + v /\
    (forall a, a <> w ->
       free_balance l' a = free_balance l a /\ reserved_balance l' a = reserved_balance l a);
  reserve_err : forall l w v e l', reserve w v l = (Err e, l') -> l' = l;
  can_reserve_spec : forall l w v, can_reserve l w v = true -> exists l', reserve w v l = (Ok tt, l');
  unreserve_spec : forall l w v r l', 0 <= v -> unreserve w v l = (r, l') ->
    r = v - Z.min v (reserved_balance l w) /\
    free_balance l' w = free_balance l w + Z.min v (reserved_balance l w) /\
    reserved_balance l' w = reserved_balance l w - Z.min v (reserved_balance l w) /\
    (forall a, a <> w ->
       free_balance l' a = free_balance l a /\ reserved_balance l' a = reserved_balance l a);
  slash_reserved_spec : forall l w v r l', 0 <= v -> slash_reserved w v l = (r, l') ->
    r = v - Z.min v (reserved_balance l w) /\
    free_balance l' w = free_balance l w /\
    reserved_balance l' w = reserved_balance l w - Z.min v (reserved_balance l w) /\
    (forall a, a <> w ->
       free_balance l' a = free_balance l a /\ reserved_balance l' a = reserved_balance l a);
  repatriate_ok : forall l w b v r l', 0 <= v ->
    repatriate_reserved w b v Free l = (Ok r, l') ->
    (w <> b -> r = v - Z.min v (reserved_balance l w)) /\
    reserved_balance l' w = reserved_balance l w - Z.min v (reserved_balance l w) /\
    free_balance l' b = free_balance l b + Z.min v (reserved_balance l w) /\
    (forall a, a <> w -> reserved_balance l' a = reserved_balance l a) /\
    (forall a, a <> b -> free_balance l' a = free_balance l a);
  repatriate_err : forall l w b v st e l', repatriate_reserved w b v st l = (Err e, l') -> l' = l }.

(** The documented condition of [repatriate_reserved]: the beneficiary exists. *)
Class RepatriateExisting (L : Type) `{ReservableCurrency L} : Prop :=
  repatriate_existing : forall l w b v, 0 <= v -> 0 < free_balance l b + reserved_balance l b ->
    exists r l', repatriate_reserved w b v Free l = (Ok r, l').

#[global] Instance reserve_noop {L} `{ReservableCurrencyLaws L} w v : ErrNoop (reserve (L:=L) w v).
Proof. intros l e l'. apply reserve_err. Qed.

#[global] Instance repatriate_noop {L} `{ReservableCurrencyLaws L} w b v st :
  ErrNoop (repatriate_reserved (L:=L) w b v st).
Proof. intros l e l'. apply repatriate_err. Qed.

(** ** SCALE

    Fixed-width values encode without a length prefix; a tuple encodes as the
    concatenation of its fields. *)
Class ScaleCodec := {
  encode_u32 : Z -> bytes;
  encode_h256 : bytes -> bytes;
  encode_account : AccountId -> bytes;
  encode_array32 : bytes -> bytes }.

Class ScaleCodecLaws `{ScaleCodec} : Prop := {
  encode_u32_length : forall z, in_u32 z -> length (encode_u32 z) = 4%nat;
  encode_u32_inj : forall a b, in_u32 a -> in_u32 b -> encode_u32 a = encode_u32 b -> a = b;
  encode_array32_raw : forall b, len32 b -> encode_array32 b = b;
  encode_h256_raw : forall b, len32 b -> encode_h256 b = b;
  encode_account_raw : forall b, len32 b -> encode_account b = b }.

(** ** Blake2b-256 *)

Class Blake2 := blake2_256 : bytes -> bytes.

Class Blake2Laws `{Blake2} : Prop := blake2_256_len : forall b, len32 (blake2_256 b).
