(* ===== verification/Ledger.v ===== *)
(** * Ledger: reference instances of the external interfaces

    A free/reserved ledger over a finite map, the fixed-width SCALE encodings and a
    32-byte checksum.  They show that the laws assumed of the external code in
    [Frame] can be met together, and they are what the concrete runs of the
    development compute with. *)

From stdpp Require Import base gmap list.
From Stdlib Require Import ZArith NArith Lia.
From S2P Require Import Prelude Frame.

(** ** Balances *)

Abbreviation ledger := (gmap AccountId (N * N)).

Section Ledger.
Implicit Types l : ledger.

Definition l_free l (w : AccountId) : Z := Z.of_N (default (0, 0)%N (l !! w)).1.
Definition l_reserved l (w : AccountId) : Z := Z.of_N (default (0, 0)%N (l !! w)).2.

Definition l_set (w : AccountId) (f r : Z) l : ledger := <[w := (Z.to_N f, Z.to_N r)]> l.

Definition l_reserve (w : AccountId) (v : Z) : Dispatch ledger unit := fun l =>
  if v <=? l_free l w
  then (Ok tt, l_set w (l_free l w - v) (l_reserved l w + v) l)
  else (Err (CurrencyError 2), l).

Definition l_unreserve (w : AccountId) (v : Z) l : Z * ledger :=
  let m := Z.min v (l_reserved l w) in
  (v - m, l_set w (l_free l w + m) (l_reserved l w - m) l).

Definition l_slash (w : AccountId) (v : Z) l : Z * ledger :=
  let m := Z.min v (l_reserved l w) in
  (v - m, l_set w (l_free l w) (l_reserved l w - m) l).

Definition l_repatriate (w b : AccountId) (v : Z) (st : BalanceStatus) : Dispatch ledger Z := fun l =>
  let m := Z.min v (l_reserved l w) in
  let l1 := l_set w (l_free l w) (l_reserved l w - m) l in
  (Ok (v - m),
    match st with
    | Free => l_set b (l_free l1 b + m) (l_reserved l1 b) l1
    | Reserved => l_set b (l_free l1 b) (l_reserved l1 b + m) l1
    end).

Definition ledger_currency : ReservableCurrency ledger := {|
  free_balance := l_free;
  reserved_balance := l_reserved;
  can_reserve l w v := v <=? l_free l w;
  reserve := l_reserve;
  unreserve := l_unreserve;
  slash_reserved := l_slash;
  repatriate_reserved := l_repatriate |}.

Lemma l_nonneg l w : 0 <= l_free l w /\ 0 <= l_reserved l w.
Proof. unfold l_free, l_reserved. lia. Qed.

Lemma l_set_eq l w f r : 0 <= f -> 0 <= r -> l_free (l_set w f r l) w = f /\ l_reserved (l_set w f r l) w = r.
Proof. intros. unfold l_free, l_reserved, l_set. rewrite lookup_insert_eq. cbn. lia. Qed.

Lemma l_set_ne l w f r a :
  a <> w -> l_free (l_set w f r l) a = l_free l a /\ l_reserved (l_set w f r l) a = l_reserved l a.
Proof. intros. unfold l_free, l_reserved, l_set. by rewrite lookup_insert_ne. Qed.

#[local] Existing Instance ledger_currency.

Lemma ledger_laws : ReservableCurrencyLaws ledger.
Proof.
  constructor; cbn -[Z.min].
  - apply l_nonneg.
  - intros l w v l' Hv. unfold l_reserve. case_match eqn:E; intros H; simplify_eq. apply Z.leb_le in E.
    pose proof (l_nonneg l w).
    destruct (l_set_eq l w (l_free l w - v) (l_reserved l w + v)) as [-> ->]; [lia|lia|].
    repeat split; [lia|..]; intros; by apply l_set_ne.
  - intros l w v e l'. unfold l_reserve. case_match; intros; by simplify_eq.
  - intros l w v E. unfold l_reserve. rewrite E. eauto.
  - intros l w v r l' Hv H. unfold l_unreserve in H. simplify_eq. pose proof (l_nonneg l w).
    set (m := Z.min v (l_reserved l w)).
    destruct (l_set_eq l w (l_free l w + m) (l_reserved l w - m)) as [-> ->]; [subst m; lia..|].
    repeat split; intros; by apply l_set_ne.
  - intros l w v r l' Hv H. unfold l_slash in H. simplify_eq. pose proof (l_nonneg l w).
    set (m := Z.min v (l_reserved l w)).
    destruct (l_set_eq l w (l_free l w) (l_reserved l w - m)) as [-> ->]; [subst m; lia..|].
    repeat split; intros; by apply l_set_ne.
  - intros l w b v r l' Hv H. unfold l_repatriate in H. simplify_eq.
    set (m := Z.min v (l_reserved l w)). set (l1 := l_set w _ _ l).
    pose proof (l_nonneg l w) as Hw. pose proof (l_nonneg l1 b) as Hb.
    assert (l_free l1 w = l_free l w /\ l_reserved l1 w = l_reserved l w - m) as [Ef Er]
      by (apply l_set_eq; subst m; lia).
    assert (forall a, a <> w -> l_free l1 a = l_free l a /\ l_reserved l1 a = l_reserved l a) as Ho
      by (intros; by apply l_set_ne).
    destruct (l_set_eq l1 b (l_free l1 b + m) (l_reserved l1 b)) as [E1 E2]; [subst m; lia..|].
    set (l2 := l_set b _ _ l1) in *.
    assert (forall a, a <> b -> l_free l2 a = l_free l1 a /\ l_reserved l2 a = l_reserved l1 a) as Ho2
      by (intros; by apply l_set_ne).
    assert (forall a, l_reserved l2 a = l_reserved l1 a) as Hr
      by (intros a; destruct (decide (a = b)) as [->|]; [done | by apply Ho2]).
    assert (forall a, l_free l1 a = l_free l a) as Hf
      by (intros a; destruct (decide (a = w)) as [->|]; [done | by apply Ho]).
    split_and!; [done | by rewrite Hr, Er | by rewrite E1, Hf | |]; intros a Ha.
    + rewrite Hr. by apply Ho.
    + rewrite <- Hf. by apply Ho2.
  - intros. unfold l_repatriate in *. simplify_eq.
Qed.

Lemma ledger_repatriates : RepatriateExisting ledger.
Proof. intros l w b v _ _. by eexists _, _. Qed.
End Ledger.

(** ** SCALE *)

Definition to_byte (z : Z) : byte := default Byte.x00 (Byte.of_N (Z.to_N (z mod 256))).
Definition of_byte (b : byte) : Z := Z.of_N (Byte.to_N b).

(** Little-endian bytes of [z], [n] of them. *)
Fixpoint le_bytes (n : nat) (z : Z) : bytes :=
  match n with
  | O => []
  | S n => to_byte z :: le_bytes n (z / 256)
  end.

Fixpoint le_value (b : bytes) : Z :=
  match b with
  | [] => 0
  | x :: b => of_byte x + 256 * le_value b
  end.

Lemma of_to_byte z : of_byte (to_byte z) = z mod 256.
Proof.
  unfold of_byte, to_byte. pose proof (Z.mod_pos_bound z 256 ltac:(lia)).
  destruct (Byte.of_N (Z.to_N (z mod 256))) as [b|] eqn:E; cbn.
  - apply Byte.to_of_N in E. lia.
  - apply Byte.of_N_None_iff in E. lia.
Qed.

Lemma le_bytes_length n z : length (le_bytes n z) = n.
Proof. revert z. induction n; intros; cbn; auto. Qed.

Lemma le_value_bytes n z : le_value (le_bytes n z) = z mod 256 ^ Z.of_nat n.
Proof.
  revert z. induction n as [|n IH]; intros; cbn [le_value le_bytes].
  - by rewrite Z.mod_1_r.
  - rewrite IH, of_to_byte, Nat2Z.inj_succ, Z.pow_succ_r by lia.
    rewrite (Z.rem_mul_r z 256 (256 ^ Z.of_nat n)) by lia. done.
Qed.

Definition le_codec : ScaleCodec := {|
  encode_u32 := le_bytes 4; encode_h256 b := b; encode_account b := b; encode_array32 b := b |}.

#[local] Existing Instance le_codec.

Lemma le_codec_laws : ScaleCodecLaws.
Proof.
  constructor; try done. intros a b Ha Hb E%(f_equal le_value).
  cbn [encode_u32 le_codec] in E. rewrite !le_value_bytes in E. unfold in_u32, u32_max in *.
  change (256 ^ Z.of_nat 4) with (2 ^ 32) in E. rewrite !Z.mod_small in E by lia. done.
Qed.

(** ** A checksum in place of Blake2b-256 *)

Definition checksum : Blake2 := fun b =>
  le_bytes 32 (foldl (fun acc x => Z.land (acc * 257 + of_byte x + 1) (2 ^ 48 - 1)) (Z.of_nat (length b)) b).

#[local] Existing Instance checksum.

Lemma checksum_laws : Blake2Laws.
Proof. intros b. unfold len32, blake2_256, checksum. apply le_bytes_length. Qed.
