(* ===== verification/Escrow.v ===== *)
(** * Escrow: [pallets/pallet-escrow/src/lib.rs]

    The escrow pallet: its record map over a reservable currency, the three internal
    entry points [lock], [release] and [refund], the lifecycle of a record as a step
    relation, and the accounting that makes a locked record pay in full. *)

From stdpp Require Import base gmap list.
From Stdlib Require Import ZArith Lia.
From S2P Require Import Prelude Frame.

Local Open Scope arth_scope.

Module Escrow.

Abbreviation EscrowId := bytes.

Inductive EscrowStatus : Type := Locked | Released | Refunded.

#[global] Instance escrow_status_eq_dec : EqDecision EscrowStatus.
Proof. solve_decision. Defined.

Record EscrowRecord : Type := mkEscrowRecord {
  payer : AccountId;
  payee : AccountId;
  amount : Balance;
  status : EscrowStatus;
  locked_at : BlockNumber }.

Inductive Event : Type :=
  | FundsLocked (escrow_id : EscrowId) (payer payee : AccountId) (amount : Balance)
  | FundsReleased (escrow_id : EscrowId) (payer payee : AccountId) (amount : Balance)
  | FundsRefunded (escrow_id : EscrowId) (payer : AccountId) (amount : Balance).

(** The pallet's storage and event log, with the currency it moves. *)
Record State (L : Type) : Type := mkState {
  escrows : gmap EscrowId EscrowRecord;
  events : list Event;
  currency : L }.
Arguments mkState {L} escrows events currency.
Arguments escrows {L} s.
Arguments events {L} s.
Arguments currency {L} s.

(** The same storage over another currency state. *)
Definition with_currency {L L'} (l : L') (s : State L) : State L' :=
  mkState (escrows s) (events s) l.

Definition set_status (st : EscrowStatus) (r : EscrowRecord) : EscrowRecord :=
  mkEscrowRecord (payer r) (payee r) (amount r) st (locked_at r).

Section Pallet.
Context {L : Type} `{ReservableCurrency L} (sys : System).

Definition insert_escrow (id : EscrowId) (r : EscrowRecord) (s : State L) : State L :=
  mkState (<[id := r]> (escrows s)) (events s) (currency s).

Definition deposit_event (e : Event) (s : State L) : State L :=
  mkState (escrows s) (events s ++ [e]) (currency s).

Definition set_currency (l : L) (s : State L) : State L :=
  mkState (escrows s) (events s) l.

Definition on_currency {A} (m : Dispatch L A) : Dispatch (State L) A :=
  zoom currency set_currency m.

Definition lock (escrow_id : EscrowId) (payer payee : AccountId) (amount : Balance)
    : Dispatch (State L) unit :=
  exists_ <- gets (fun s => bool_decide (is_Some (escrows s !! escrow_id))) ;;
  ensure (negb exists_) (EscrowModule EscrowAlreadyExists) ;;;
  map_err (EscrowModule InsufficientBalanceForEscrow) (on_currency (reserve payer amount)) ;;;
  let current_block := block_number sys in
  modify (insert_escrow escrow_id (mkEscrowRecord payer payee amount Locked current_block)) ;;;
  modify (deposit_event (FundsLocked escrow_id payer payee amount)).

Definition release (escrow_id : EscrowId) : Dispatch (State L) unit :=
  found <- gets (fun s => escrows s !! escrow_id) ;;
  record <- ok_or found (EscrowModule EscrowNotFound) ;;
  ensure (bool_decide (status record = Locked)) (EscrowModule EscrowNotLocked) ;;;
  on_currency (repatriate_reserved (payer record) (payee record) (amount record) Free) ;;;
  modify (insert_escrow escrow_id (set_status Released record)) ;;;
  modify (deposit_event
            (FundsReleased escrow_id (payer record) (payee record) (amount record))).

Definition refund (escrow_id : EscrowId) : Dispatch (State L) unit :=
  found <- gets (fun s => escrows s !! escrow_id) ;;
  record <- ok_or found (EscrowModule EscrowNotFound) ;;
  ensure (bool_decide (status record = Locked)) (EscrowModule EscrowNotLocked) ;;;
  on_currency (call (unreserve (payer record) (amount record))) ;;;
  modify (insert_escrow escrow_id (set_status Refunded record)) ;;;
  modify (deposit_event (FundsRefunded escrow_id (payer record) (amount record))).

(** ** What a successful call did *)

Lemma lock_ok id p q v s s' :
  lock id p q v s = (Ok tt, s') ->
  escrows s !! id = None /\
  exists l', reserve p v (currency s) = (Ok tt, l') /\
    s' = mkState (<[id := mkEscrowRecord p q v Locked (block_number sys)]> (escrows s))
           (events s ++ [FundsLocked id p q v]) l'.
Proof.
  unfold lock, on_currency. intros Hr. frame_inv. split; [by apply eq_None_not_Some|].
  eexists; split; [eassumption|]. done.
Qed.

Lemma lock_total id p q v s l' :
  escrows s !! id = None -> reserve p v (currency s) = (Ok tt, l') ->
  lock id p q v s =
    (Ok tt, mkState (<[id := mkEscrowRecord p q v Locked (block_number sys)]> (escrows s))
              (events s ++ [FundsLocked id p q v]) l').
Proof.
  intros Hn Hr. unfold lock, on_currency, zoom, map_err, bind, gets, ensure, modify, ret. rewrite Hn.
  rewrite bool_decide_eq_false_2 by (by intros []). cbn. rewrite Hr. done.
Qed.

Lemma release_total id s r rem l' :
  escrows s !! id = Some r -> status r = Locked ->
  repatriate_reserved (payer r) (payee r) (amount r) Free (currency s) = (Ok rem, l') ->
  release id s =
    (Ok tt, mkState (<[id := set_status Released r]> (escrows s))
              (events s ++ [FundsReleased id (payer r) (payee r) (amount r)]) l').
Proof.
  intros Hr Hl Hp. unfold release, on_currency, zoom, bind, gets, ok_or, ensure, modify, ret. rewrite Hr.
  rewrite bool_decide_eq_true_2 by done. rewrite Hp. done.
Qed.

Lemma release_ok id s s' :
  release id s = (Ok tt, s') ->
  exists r rem l', escrows s !! id = Some r /\ status r = Locked /\
    repatriate_reserved (payer r) (payee r) (amount r) Free (currency s) = (Ok rem, l') /\
    s' = mkState (<[id := set_status Released r]> (escrows s))
           (events s ++ [FundsReleased id (payer r) (payee r) (amount r)]) l'.
Proof. unfold release, on_currency. intros Hr. frame_inv. by eexists _, _, _. Qed.

Lemma refund_ok id s s' :
  refund id s = (Ok tt, s') ->
  exists r rem l', escrows s !! id = Some r /\ status r = Locked /\
    unreserve (payer r) (amount r) (currency s) = (rem, l') /\
    s' = mkState (<[id := set_status Refunded r]> (escrows s))
           (events s ++ [FundsRefunded id (payer r) (amount r)]) l'.
Proof. unfold refund, on_currency. intros Hr. frame_inv. by eexists _, _, _. Qed.

(** The only record a call changes is the one it names. *)
Lemma release_touches id s s' k r r' :
  release id s = (Ok tt, s') -> escrows s !! k = Some r -> escrows s' !! k = Some r' -> r' <> r ->
  k = id /\ status r' = Released.
Proof.
  intros (q & rem & l' & Hq & _ & _ & ->)%release_ok Hr Hr' Hne. cbn in Hr'.
  apply lookup_insert_Some in Hr' as [[-> <-]|[_ Hr']]; [done|congruence].
Qed.

Lemma refund_touches id s s' k r r' :
  refund id s = (Ok tt, s') -> escrows s !! k = Some r -> escrows s' !! k = Some r' -> r' <> r ->
  k = id /\ status r' = Refunded.
Proof.
  intros (q & rem & l' & Hq & _ & _ & ->)%refund_ok Hr Hr' Hne. cbn in Hr'.
  apply lookup_insert_Some in Hr' as [[-> <-]|[_ Hr']]; [done|congruence].
Qed.

(** A refund of a locked record cannot fail. *)
Lemma refund_total id s r :
  escrows s !! id = Some r -> status r = Locked -> exists s', refund id s = (Ok tt, s').
Proof.
  intros Hr Hl. unfold refund, on_currency, bind, gets, ok_or, ensure, zoom, call, modify, ret.
  rewrite Hr. rewrite bool_decide_eq_true_2 by done.
  destruct (unreserve _ _ _). eauto.
Qed.
End Pallet.

#[global] Instance lock_noop {L} `{ReservableCurrencyLaws L} sys id p q v : ErrNoop (S := State L) (lock sys id p q v).
Proof. unfold lock, on_currency. noop_tac. apply _. Qed.

(** ** The lifecycle of a record *)

Section Lifecycle.
Context {L : Type} `{ReservableCurrency L}.

(** One successful call of an entry point. *)
Inductive step (s s' : State L) : Prop :=
  | step_lock sys id p q v : lock sys id p q v s = (Ok tt, s') -> step s s'
  | step_release id : release id s = (Ok tt, s') -> step s s'
  | step_refund id : refund id s = (Ok tt, s') -> step s s'.

(** How one record may change. *)
Inductive record_step : option EscrowRecord -> option EscrowRecord -> Prop :=
  | rs_same o : record_step o o
  | rs_lock r : status r = Locked -> record_step None (Some r)
  | rs_release r : status r = Locked -> record_step (Some r) (Some (set_status Released r))
  | rs_refund r : status r = Locked -> record_step (Some r) (Some (set_status Refunded r)).

Lemma step_record s s' id : step s s' -> record_step (escrows s !! id) (escrows s' !! id).
Proof.
  assert (forall (m : gmap EscrowId EscrowRecord) i r,
            record_step (m !! i) (Some r) -> record_step (m !! id) (<[i := r]> m !! id)) as Hins.
  { intros m i r Hr. destruct (decide (i = id)) as [->|Hne].
    - by rewrite lookup_insert_eq.
    - rewrite lookup_insert_ne by done. constructor. }
  destruct 1 as [sys i p q v Hs | i Hs | i Hs].
  - apply lock_ok in Hs as (Hn & l' & _ & ->). apply Hins. rewrite Hn. by constructor.
  - apply release_ok in Hs as (r & rem & l' & Hr & Hl & _ & ->). apply Hins. rewrite Hr. by constructor.
  - apply refund_ok in Hs as (r & rem & l' & Hr & Hl & _ & ->). apply Hins. rewrite Hr. by constructor.
Qed.

Lemma record_step_terminal o o' r :
  record_step o o' -> o = Some r -> status r <> Locked -> o' = Some r.
Proof. destruct 1; intros; simplify_eq; congruence. Qed.

Lemma record_step_fields o o' r :
  record_step o o' -> o = Some r ->
  exists r', o' = Some r' /\ payer r' = payer r /\ payee r' = payee r /\ amount r' = amount r /\
    locked_at r' = locked_at r.
Proof. destruct 1; intros; simplify_eq; eexists; repeat split; done. Qed.
End Lifecycle.

(** ** Accounting *)

Section Accounting.
Context {L : Type} `{ReservableCurrencyLaws L}.
Implicit Types s : State L.

(** What the locked records of payer [a] add up to. *)
Definition locked_of (a : AccountId) (r : EscrowRecord) : Z :=
  if bool_decide (status r = Locked /\ payer r = a) then amount r else 0.
Definition locked_total (a : AccountId) (m : gmap EscrowId EscrowRecord) : Z :=
  map_sum (fun _ r => locked_of a r) m.

(** Amounts are unsigned. *)
Definition amounts_nonneg (m : gmap EscrowId EscrowRecord) : Prop :=
  forall id r, m !! id = Some r -> 0 <= amount r.

(** The reserve of every account covers its locked records on top of [claims], the
    other reservations on the same account. *)
Definition backed (claims : AccountId -> Z) s : Prop :=
  forall a, claims a + locked_total a (escrows s) <= reserved_balance (currency s) a.

Lemma locked_total_insert_fresh m id r a :
  m !! id = None -> locked_total a (<[id := r]> m) = locked_of a r + locked_total a m.
Proof. apply (map_sum_insert_fresh (fun _ r => locked_of a r)). Qed.

Lemma locked_total_close m id r st a :
  m !! id = Some r -> st <> Locked ->
  locked_total a (<[id := set_status st r]> m) = locked_total a m - locked_of a r.
Proof.
  intros Hr Hst. unfold locked_total. rewrite (map_sum_insert _ _ _ r) by done.
  unfold locked_of at 3. rewrite (bool_decide_eq_false_2 (status (set_status st r) = _ /\ _)) by (cbn; naive_solver).
  lia.
Qed.

Lemma locked_of_le_total m id r a :
  amounts_nonneg m -> m !! id = Some r -> locked_of a r <= locked_total a m.
Proof.
  intros Hm Hr. unfold locked_total. rewrite (map_sum_delete _ _ _ _ Hr).
  assert (0 <= map_sum (fun _ r => locked_of a r) (delete id m)); [|lia].
  apply map_sum_nonneg. intros k v Hk. apply lookup_delete_Some in Hk as [_ Hk].
  unfold locked_of. case_bool_decide; [|lia]. by eapply Hm.
Qed.

Lemma locked_of_self r : status r = Locked -> locked_of (payer r) r = amount r.
Proof. intros. unfold locked_of. by rewrite bool_decide_eq_true_2. Qed.

Lemma locked_of_other r a : payer r <> a -> locked_of a r = 0.
Proof. intros. unfold locked_of. by rewrite bool_decide_eq_false_2 by naive_solver. Qed.

Lemma amounts_nonneg_insert m id r : amounts_nonneg m -> 0 <= amount r -> amounts_nonneg (<[id := r]> m).
Proof. intros Hm Hr k r' Hk. apply lookup_insert_Some in Hk as [[_ <-]|[_ Hk]]; eauto. Qed.

(** The three entry points keep the reserves backed, whatever else is claimed on
    the same accounts. *)
Lemma lock_backed claims sys id p q v s s' :
  0 <= v -> backed claims s -> lock sys id p q v s = (Ok tt, s') -> backed claims s'.
Proof.
  intros Hv Hb (Hn & l' & Hr & ->)%lock_ok a. cbn. specialize (Hb a).
  rewrite locked_total_insert_fresh by done.
  apply reserve_ok in Hr as (_ & _ & Ep & Ho); [|done].
  destruct (decide (a = p)) as [->|Hne].
  - rewrite Ep, (locked_of_self (mkEscrowRecord p q v Locked _)) by done. cbn. lia.
  - rewrite (proj2 (Ho a Hne)), (locked_of_other (mkEscrowRecord p q v Locked _)); [lia | done].
Qed.

Lemma covered claims s id r :
  (forall a, 0 <= claims a) -> amounts_nonneg (escrows s) -> backed claims s ->
  escrows s !! id = Some r -> status r = Locked ->
  amount r <= reserved_balance (currency s) (payer r).
Proof.
  intros Hc Hm Hb Hr Hl. specialize (Hb (payer r)). specialize (Hc (payer r)).
  pose proof (locked_of_le_total _ _ _ (payer r) Hm Hr). rewrite locked_of_self in * by done. lia.
Qed.

Lemma close_backed claims s id r st l' ev :
  (forall a, 0 <= claims a) -> amounts_nonneg (escrows s) -> backed claims s ->
  escrows s !! id = Some r -> status r = Locked -> st <> Locked ->
  reserved_balance l' (payer r) = reserved_balance (currency s) (payer r) - amount r ->
  (forall a, a <> payer r -> reserved_balance l' a = reserved_balance (currency s) a) ->
  backed claims (mkState (<[id := set_status st r]> (escrows s)) ev l').
Proof.
  intros Hc Hm Hb Hr Hl Hst Ep Ho a. cbn. specialize (Hb a).
  rewrite (locked_total_close _ _ r) by done.
  destruct (decide (a = payer r)) as [->|Hne].
  - rewrite Ep, locked_of_self by done. lia.
  - rewrite Ho, locked_of_other by done. lia.
Qed.

Lemma release_backed claims id s s' :
  (forall a, 0 <= claims a) -> amounts_nonneg (escrows s) -> backed claims s ->
  release id s = (Ok tt, s') -> backed claims s'.
Proof.
  intros Hc Hm Hb (r & rem & l' & Hr & Hl & Hrep & ->)%release_ok.
  pose proof (covered _ _ _ _ Hc Hm Hb Hr Hl). pose proof (Hm _ _ Hr).
  apply repatriate_ok in Hrep as (_ & Ep & _ & Ho & _); [|done].
  eapply close_backed; try done. lia.
Qed.

Lemma refund_backed claims id s s' :
  (forall a, 0 <= claims a) -> amounts_nonneg (escrows s) -> backed claims s ->
  refund id s = (Ok tt, s') -> backed claims s'.
Proof.
  intros Hc Hm Hb (r & rem & l' & Hr & Hl & Hun & ->)%refund_ok.
  pose proof (covered _ _ _ _ Hc Hm Hb Hr Hl). pose proof (Hm _ _ Hr).
  apply unreserve_spec in Hun as (_ & _ & Ep & Ho); [|done].
  eapply close_backed; try done; [lia|]. intros; by apply Ho.
Qed.

Lemma lock_amounts sys id p q v s s' :
  0 <= v -> amounts_nonneg (escrows s) -> lock sys id p q v s = (Ok tt, s') -> amounts_nonneg (escrows s').
Proof. intros Hv Hm (_ & l' & _ & ->)%lock_ok. by apply amounts_nonneg_insert. Qed.

Lemma release_amounts id s s' :
  amounts_nonneg (escrows s) -> release id s = (Ok tt, s') -> amounts_nonneg (escrows s').
Proof.
  intros Hm (r & rem & l' & Hr & _ & _ & ->)%release_ok. apply amounts_nonneg_insert; [done|]. cbn. eauto.
Qed.

Lemma refund_amounts id s s' :
  amounts_nonneg (escrows s) -> refund id s = (Ok tt, s') -> amounts_nonneg (escrows s').
Proof.
  intros Hm (r & rem & l' & Hr & _ & _ & ->)%refund_ok. apply amounts_nonneg_insert; [done|]. cbn. eauto.
Qed.
End Accounting.

End Escrow.
