(* ===== verification/AgentRegistry.v ===== *)
(** * AgentRegistry: [pallets/pallet-agent-registry/src/lib.rs]

    The DID registry: profiles, the reverse index of controllers, the population
    counter, the star ledger and the strike counters, with the six extrinsics and the
    two internal penalties.  ML-DSA-65 is behind the interface [MlDsa]. *)

From stdpp Require Import base gmap list strings.
From Stdlib Require Import ZArith Lia.
From S2P Require Import Prelude Frame.

Local Open Scope arth_scope.

(** The part of the [ml_dsa] crate the registry calls: parsing a verifying key and a
    signature from bytes, and verification. *)
Class MlDsa := {
  VerifyingKey : Type;
  Signature : Type;
  verifying_key_of_slice : bytes -> option VerifyingKey;
  signature_of_slice : bytes -> option Signature;
  mldsa_verify : VerifyingKey -> bytes -> Signature -> bool }.

Module Registry.

Definition MAX_METADATA_LEN : Z := 256.
Definition MAX_LABEL_LEN : Z := 64.
Definition MAX_PUBKEY_LEN : Z := 1952.
Definition MAX_SIG_LEN : Z := 3309.
Definition REPLAY_WINDOW : Z := 64.
(** The bound of the [ControllerAgents] vectors. *)
Definition MAX_AGENTS : nat := 64.

Abbreviation CapabilityBitmap := Z.

Definition CAP_DATA_PROVIDER : CapabilityBitmap := Z.shiftl 1 0.
Definition CAP_INFERENCE_ENGINE : CapabilityBitmap := Z.shiftl 1 1.
Definition CAP_ORCHESTRATOR : CapabilityBitmap := Z.shiftl 1 2.
Definition CAP_VERIFIER : CapabilityBitmap := Z.shiftl 1 3.
Definition CAP_MARKETPLACE_SELLER : CapabilityBitmap := Z.shiftl 1 4.
Definition CAP_MARKETPLACE_BUYER : CapabilityBitmap := Z.shiftl 1 5.

Inductive AgentStatus : Type := Active | Suspended | Revoked.

#[global] Instance agent_status_eq_dec : EqDecision AgentStatus.
Proof. solve_decision. Defined.

Inductive QuantumScheme : Type := MlDsa65.

Record AgentProfile : Type := mkProfile {
  did : Did;
  controller : AccountId;
  capabilities : CapabilityBitmap;
  reputation_score : Z;
  status : AgentStatus;
  registered_at : BlockNumber;
  is_verified : bool;
  quantum_scheme : QuantumScheme;
  metadata : bytes;
  label : bytes }.

(** [pallet::Config]. *)
Record Config : Type := mkConfig {
  StarCooldown : BlockNumber;
  RegistrationDeposit : Balance;
  StrikeThreshold : Z;
  DepositSlashPerStrike : Balance }.

Inductive Event : Type :=
  | AgentRegistered (did : Did) (controller : AccountId)
  | AgentProfileUpdated (did : Did)
  | AgentStatusChanged (did : Did) (new_status : AgentStatus)
  | StarGiven (giver receiver : Did)
  | StarRemoved (giver receiver : Did)
  | AgentDeregistered (did : Did) (controller : AccountId)
  | ReputationSlashed (did : Did) (amount new_score : Z)
  | DepositSlashed (did : Did) (controller : AccountId) (amount : Balance) (strikes_at_slash : Z).

(** The pallet's storage items and event log, with the currency it reserves in. *)
Record State (L : Type) : Type := mkState {
  agent_profiles : gmap Did AgentProfile;
  controller_agents : gmap AccountId (list Did);
  active_agent_count : Z;
  star_givers : gmap (Did * Did) BlockNumber;
  dispute_strikes : gmap Did Z;
  events : list Event;
  currency : L }.
Arguments mkState {L}.
Arguments agent_profiles {L} s.
Arguments controller_agents {L} s.
Arguments active_agent_count {L} s.
Arguments star_givers {L} s.
Arguments dispute_strikes {L} s.
Arguments events {L} s.
Arguments currency {L} s.

(** Storage before the first block. *)
Definition genesis {L} (l : L) : State L := mkState ∅ ∅ 0 ∅ ∅ [] l.

(** [ValueQuery] reads. *)
Definition controller_dids {L} (s : State L) (c : AccountId) : list Did :=
  default [] (controller_agents s !! c).
Definition last_star_of {L} (s : State L) (giver receiver : Did) : BlockNumber :=
  default 0 (star_givers s !! (giver, receiver)).
Definition strikes_of {L} (s : State L) (d : Did) : Z := default 0 (dispute_strikes s !! d).

(** Writes. *)
Section Writes.
Context {L : Type}.
Implicit Types s : State L.

Definition set_profiles f s : State L :=
  mkState (f (agent_profiles s)) (controller_agents s) (active_agent_count s) (star_givers s)
    (dispute_strikes s) (events s) (currency s).
Definition set_controller_agents f s : State L :=
  mkState (agent_profiles s) (f (controller_agents s)) (active_agent_count s) (star_givers s)
    (dispute_strikes s) (events s) (currency s).
Definition set_count f s : State L :=
  mkState (agent_profiles s) (controller_agents s) (f (active_agent_count s)) (star_givers s)
    (dispute_strikes s) (events s) (currency s).
Definition set_stars f s : State L :=
  mkState (agent_profiles s) (controller_agents s) (active_agent_count s) (f (star_givers s))
    (dispute_strikes s) (events s) (currency s).
Definition set_strikes f s : State L :=
  mkState (agent_profiles s) (controller_agents s) (active_agent_count s) (star_givers s)
    (f (dispute_strikes s)) (events s) (currency s).
Definition deposit_event (e : Event) s : State L :=
  mkState (agent_profiles s) (controller_agents s) (active_agent_count s) (star_givers s)
    (dispute_strikes s) (events s ++ [e]) (currency s).
Definition set_currency (l : L) s : State L :=
  mkState (agent_profiles s) (controller_agents s) (active_agent_count s) (star_givers s)
    (dispute_strikes s) (events s) l.
End Writes.

(** The same storage over another currency state. *)
Definition with_currency {L L'} (l : L') (s : State L) : State L' :=
  mkState (agent_profiles s) (controller_agents s) (active_agent_count s) (star_givers s)
    (dispute_strikes s) (events s) l.

(** Profile updates. *)
Definition with_details (c : CapabilityBitmap) (m l : bytes) (p : AgentProfile) : AgentProfile :=
  mkProfile (did p) (controller p) c (reputation_score p) (status p) (registered_at p)
    (is_verified p) (quantum_scheme p) m l.
Definition with_status (st : AgentStatus) (p : AgentProfile) : AgentProfile :=
  mkProfile (did p) (controller p) (capabilities p) (reputation_score p) st (registered_at p)
    (is_verified p) (quantum_scheme p) (metadata p) (label p).
Definition with_score (f : Z -> Z) (p : AgentProfile) : AgentProfile :=
  mkProfile (did p) (controller p) (capabilities p) (f (reputation_score p)) (status p)
    (registered_at p) (is_verified p) (quantum_scheme p) (metadata p) (label p).

Section Pallet.
Context {L : Type} `{ReservableCurrency L} `{Blake2} `{ScaleCodec} `{MlDsa}.
Context (cfg : Config) (sys : System).

Definition on_currency {A} (m : Dispatch L A) : Dispatch (State L) A :=
  zoom currency set_currency m.

(** [blake2_256("ArthNeura-DID-v1" ++ pubkey)]. *)
Definition derive_did (pubkey : bytes) : Did := blake2_256 (bstr "ArthNeura-DID-v1" ++ pubkey).

(** The SCALE encoding of [(genesis_hash, did, controller, signed_at_block,
    signed_at_hash)]. *)
Definition registration_challenge (genesis_hash : bytes) (d : Did) (c : AccountId)
    (signed_at_block : BlockNumber) (signed_at_hash : bytes) : bytes :=
  encode_h256 genesis_hash ++ encode_array32 d ++ encode_account c ++
  encode_u32 signed_at_block ++ encode_h256 signed_at_hash.

(** [ControllerAgents::try_mutate(c, |dids| dids.try_push(d))]. *)
Definition try_push_did (c : AccountId) (d : Did) (e : DispatchError) : Dispatch (State L) unit :=
  dids <- gets (fun s => controller_dids s c) ;;
  ensure (bool_decide (length dids < MAX_AGENTS)%nat) e ;;;
  modify (set_controller_agents (insert c (dids ++ [d]))).

(** [AgentProfiles::try_mutate(d, |p| { p.as_mut().ok_or(DidNotFound)?; .. })]. *)
Definition try_mutate_profile (d : Did) (f : AgentProfile -> AgentProfile) : Dispatch (State L) unit :=
  found <- gets (fun s => agent_profiles s !! d) ;;
  p <- ok_or found (RegistryModule DidNotFound) ;;
  modify (set_profiles (insert d (f p))).

Definition register_agent (origin : Origin) (pubkey signature : bytes)
    (signed_at_block : BlockNumber) (caps : CapabilityBitmap) (meta lbl : bytes)
    : Dispatch (State L) unit :=
  controller <- ensure_signed origin ;;
  let d := derive_did pubkey in
  taken <- gets (fun s => bool_decide (is_Some (agent_profiles s !! d))) ;;
  ensure (negb taken) (RegistryModule DidAlreadyRegistered) ;;;
  agent_count <- gets (fun s => length (controller_dids s controller)) ;;
  ensure (bool_decide (agent_count < 64)%nat) (RegistryModule TooManyAgentsForController) ;;;
  let current_block := block_number sys in
  ensure (signed_at_block <=? current_block) (RegistryModule InvalidChallengeBlock) ;;;
  ensure (sat_sub current_block signed_at_block <=? REPLAY_WINDOW)
    (RegistryModule ChallengeExpired) ;;;
  let genesis_hash := block_hash sys 0 in
  let signed_at_hash := block_hash sys signed_at_block in
  let challenge :=
    registration_challenge genesis_hash d controller signed_at_block signed_at_hash in
  verifying_key <- ok_or (verifying_key_of_slice pubkey) (RegistryModule InvalidPubkeyLength) ;;
  parsed_signature <- ok_or (signature_of_slice signature) (RegistryModule InvalidSignatureLength) ;;
  ensure (mldsa_verify verifying_key challenge parsed_signature)
    (RegistryModule InvalidQuantumProof) ;;;
  map_err (RegistryModule InsufficientBalanceForDeposit)
    (on_currency (reserve controller (RegistrationDeposit cfg))) ;;;
  let profile :=
    mkProfile d controller caps 0 Active current_block true MlDsa65 meta lbl in
  modify (set_profiles (insert d profile)) ;;;
  try_push_did controller d (RegistryModule TooManyAgentsForController) ;;;
  modify (set_count (fun n => sat_add u32_max n 1)) ;;;
  modify (deposit_event (AgentRegistered d controller)).

Definition update_profile (origin : Origin) (d : Did) (caps : CapabilityBitmap) (meta lbl : bytes)
    : Dispatch (State L) unit :=
  caller <- ensure_signed origin ;;
  found <- gets (fun s => agent_profiles s !! d) ;;
  profile <- ok_or found (RegistryModule DidNotFound) ;;
  ensure (bool_decide (controller profile = caller)) (RegistryModule NotController) ;;;
  ensure (negb (bool_decide (status profile = Revoked))) (RegistryModule AgentRevoked) ;;;
  modify (set_profiles (insert d (with_details caps meta lbl profile))) ;;;
  modify (deposit_event (AgentProfileUpdated d)).

Definition set_agent_status (origin : Origin) (d : Did) (new_status : AgentStatus)
    : Dispatch (State L) unit :=
  caller <- ensure_signed origin ;;
  found <- gets (fun s => agent_profiles s !! d) ;;
  profile <- ok_or found (RegistryModule DidNotFound) ;;
  ensure (bool_decide (controller profile = caller)) (RegistryModule NotController) ;;;
  ensure (negb (bool_decide (status profile = Revoked))) (RegistryModule AgentRevoked) ;;;
  modify (set_profiles (insert d (with_status new_status profile))) ;;;
  (if bool_decide (new_status = Revoked)
   then modify (set_count (fun n => sat_sub n 1))
   else ret tt) ;;;
  modify (deposit_event (AgentStatusChanged d new_status)).

Definition give_star (origin : Origin) (giver_did receiver : Did) : Dispatch (State L) unit :=
  giver <- ensure_signed origin ;;
  giver_dids <- gets (fun s => controller_dids s giver) ;;
  ensure (bool_decide (giver_did ∈ giver_dids)) (RegistryModule NotController) ;;;
  ensure (negb (bool_decide (giver_did = receiver))) (RegistryModule CannotStarSelf) ;;;
  found <- gets (fun s => agent_profiles s !! receiver) ;;
  receiver_profile <- ok_or found (RegistryModule DidNotFound) ;;
  ensure (negb (bool_decide (status receiver_profile = Revoked))) (RegistryModule AgentRevoked) ;;;
  ensure (negb (bool_decide (controller receiver_profile = giver)))
    (RegistryModule CannotStarSameController) ;;;
  last_star <- gets (fun s => last_star_of s giver_did receiver) ;;
  let current_block := block_number sys in
  (if 0 <? last_star
   then ensure (sat_add u32_max last_star (StarCooldown cfg) <=? current_block)
          (RegistryModule CooldownNotExpired)
   else ret tt) ;;;
  modify (set_stars (insert (giver_did, receiver) current_block)) ;;;
  try_mutate_profile receiver (with_score (fun n => sat_add u32_max n 1)) ;;;
  modify (deposit_event (StarGiven giver_did receiver)).

Definition remove_star (origin : Origin) (giver_did receiver : Did) : Dispatch (State L) unit :=
  giver <- ensure_signed origin ;;
  giver_dids <- gets (fun s => controller_dids s giver) ;;
  ensure (bool_decide (giver_did ∈ giver_dids)) (RegistryModule NotController) ;;;
  last_star <- gets (fun s => last_star_of s giver_did receiver) ;;
  ensure (0 <? last_star) (RegistryModule NotStarred) ;;;
  modify (set_stars (insert (giver_did, receiver) 0)) ;;;
  try_mutate_profile receiver (with_score (fun n => sat_sub n 1)) ;;;
  modify (deposit_event (StarRemoved giver_did receiver)).

Definition deregister_agent (origin : Origin) (d : Did) : Dispatch (State L) unit :=
  caller <- ensure_signed origin ;;
  found <- gets (fun s => agent_profiles s !! d) ;;
  profile <- ok_or found (RegistryModule DidNotFound) ;;
  ensure (bool_decide (controller profile = caller)) (RegistryModule NotController) ;;;
  ensure (negb (bool_decide (status profile = Revoked))) (RegistryModule AgentAlreadyRevoked) ;;;
  on_currency (call (unreserve caller (RegistrationDeposit cfg))) ;;;
  dids <- gets (fun s => controller_dids s caller) ;;
  modify (set_controller_agents (insert caller (filter (fun x => x <> d) dids))) ;;;
  modify (set_profiles (delete d)) ;;;
  modify (set_count (fun n => sat_sub n 1)) ;;;
  modify (deposit_event (AgentDeregistered d caller)).

(** The internal penalties return nothing: they cannot fail their caller. *)
Definition slash_reputation (d : Did) (amount : Z) (s : State L) : State L :=
  match agent_profiles s !! d with
  | None => s
  | Some p =>
      let p' := with_score (fun n => sat_sub n amount) p in
      deposit_event (ReputationSlashed d amount (reputation_score p'))
        (set_profiles (insert d p') s)
  end.

Definition slash_reputation_for_guilty_delivery (d : Did) (amount : Z) (s0 : State L) : State L :=
  let s := slash_reputation d amount s0 in
  match agent_profiles s !! d with
  | None => s
  | Some profile =>
      let strikes := sat_add u32_max (strikes_of s d) 1 in
      let s := set_strikes (insert d strikes) s in
      if strikes <? StrikeThreshold cfg then s
      else
        let s := set_strikes (insert d 0) s in
        let slash_amount := DepositSlashPerStrike cfg in
        let '(actually_slashed, l') := slash_reserved (controller profile) slash_amount (currency s) in
        let removed := sat_sub slash_amount actually_slashed in
        deposit_event (DepositSlashed d (controller profile) removed strikes) (set_currency l' s)
  end.
(** [#[pallet::call]]: the extrinsics as data, and their dispatch. *)
Inductive Call : Type :=
  | RegisterAgent (pubkey signature : bytes) (signed_at_block : BlockNumber)
      (caps : CapabilityBitmap) (meta lbl : bytes)
  | UpdateProfile (d : Did) (caps : CapabilityBitmap) (meta lbl : bytes)
  | SetAgentStatus (d : Did) (new_status : AgentStatus)
  | GiveStar (giver_did receiver : Did)
  | RemoveStar (giver_did receiver : Did)
  | DeregisterAgent (d : Did).

Definition exec (origin : Origin) (c : Call) : Dispatch (State L) unit :=
  match c with
  | RegisterAgent pk sg at_ caps meta lbl => register_agent origin pk sg at_ caps meta lbl
  | UpdateProfile d caps meta lbl => update_profile origin d caps meta lbl
  | SetAgentStatus d st => set_agent_status origin d st
  | GiveStar g r => give_star origin g r
  | RemoveStar g r => remove_star origin g r
  | DeregisterAgent d => deregister_agent origin d
  end.

(** The ranges of the argument types, which decoding a call enforces: unsigned integers,
    32-byte arrays, bounded vectors. *)
Definition call_wf (c : Call) : Prop :=
  match c with
  | RegisterAgent pk sg at_ caps meta lbl =>
      Z.of_nat (length pk) <= MAX_PUBKEY_LEN /\ Z.of_nat (length sg) <= MAX_SIG_LEN /\
      in_u32 at_ /\ in_u64 caps /\
      Z.of_nat (length meta) <= MAX_METADATA_LEN /\ Z.of_nat (length lbl) <= MAX_LABEL_LEN
  | UpdateProfile d caps meta lbl =>
      len32 d /\ in_u64 caps /\
      Z.of_nat (length meta) <= MAX_METADATA_LEN /\ Z.of_nat (length lbl) <= MAX_LABEL_LEN
  | SetAgentStatus d _ | DeregisterAgent d => len32 d
  | GiveStar g r | RemoveStar g r => len32 g /\ len32 r
  end.
End Pallet.

End Registry.
