(* ===== verification/RegistryTheory.v ===== *)
(** * RegistryTheory: what the agent registry guarantees

    Characterisations of the successful calls of [AgentRegistry], the step relation
    of the pallet, and the invariants, monotonicity and accounting facts proved by
    induction on it. *)

From stdpp Require Import base gmap list strings relations.
From Stdlib Require Import ZArith Lia.
From S2P Require Import Prelude Frame Ledger AgentRegistry.

Local Open Scope arth_scope.

Module RegistryTheory.
Import Registry.

Section Calls.
Context {L : Type} `{ReservableCurrency L} `{Blake2} `{ScaleCodec} `{MlDsa}.
Context (cfg : Config) (sys : System).
Implicit Types s : State L.

(** Everything [register_agent] demands of its arguments and of the storage. *)
Record registrable (c : AccountId) (pubkey signature : bytes) (at_ : BlockNumber) s : Prop := {
  rg_fresh : agent_profiles s !! derive_did pubkey = None;
  rg_room : (length (controller_dids s c) < 64)%nat;
  rg_past : at_ <= block_number sys;
  rg_window : sat_sub (block_number sys) at_ <= REPLAY_WINDOW;
  rg_proof : exists vk sg, verifying_key_of_slice pubkey = Some vk /\
    signature_of_slice signature = Some sg /\
    mldsa_verify vk (registration_challenge (block_hash sys 0) (derive_did pubkey) c at_
                       (block_hash sys at_)) sg = true }.

Definition registered_state (c : AccountId) (pubkey : bytes) caps meta lbl (l' : L) s : State L :=
  let d := derive_did pubkey in
  mkState (<[d := mkProfile d c caps 0 Active (block_number sys) true MlDsa65 meta lbl]> (agent_profiles s))
    (<[c := controller_dids s c ++ [d]]> (controller_agents s))
    (sat_add u32_max (active_agent_count s) 1) (star_givers s) (dispute_strikes s)
    (events s ++ [AgentRegistered d c]) l'.

Lemma register_agent_ok o pk sg at_ caps meta lbl s s' :
  register_agent cfg sys o pk sg at_ caps meta lbl s = (Ok tt, s') <->
  exists c l', o = Signed c /\ registrable c pk sg at_ s /\
    reserve c (RegistrationDeposit cfg) (currency s) = (Ok tt, l') /\
    s' = registered_state c pk caps meta lbl l' s.
Proof.
  split.
  - unfold register_agent, try_push_did, on_currency. intros Hr. frame_inv.
    eexists _, _. split_and!; [done| |eassumption|done].
    split; [by apply eq_None_not_Some|done|done|done|eauto].
  - intros (c & l' & -> & [Hf Hroom Hp Hw (vk & sig & Hvk & Hsg & Hv)] & Hres & ->).
    unfold register_agent. cbn -[registered_state]. unfold bind at 1, ret.
    unfold bind, gets, ensure, ok_or, map_err, on_currency, zoom, modify, try_push_did, ret, throw.
    rewrite Hf, Hvk, Hsg. rewrite bool_decide_eq_false_2 by (by intros []). cbn.
    rewrite (bool_decide_eq_true_2 _ Hroom), (proj2 (Z.leb_le _ _) Hp), (proj2 (Z.leb_le _ _) Hw), Hv, Hres.
    cbn. unfold bind, gets, ensure, ret, modify. cbn.
    unfold controller_dids. cbn. fold (controller_dids s c). by rewrite (bool_decide_eq_true_2 _ Hroom).
Qed.

Lemma update_profile_ok o d caps meta lbl s s' :
  update_profile o d caps meta lbl s = (Ok tt, s') ->
  exists p, o = Signed (controller p) /\ agent_profiles s !! d = Some p /\ status p <> Revoked /\
    s' = deposit_event (AgentProfileUpdated d)
           (set_profiles (insert d (with_details caps meta lbl p)) s).
Proof. unfold update_profile. intros Hr. frame_inv. eexists. by split_and!. Qed.

Lemma set_agent_status_ok o d st s s' :
  set_agent_status o d st s = (Ok tt, s') ->
  exists p, o = Signed (controller p) /\ agent_profiles s !! d = Some p /\ status p <> Revoked /\
    s' = deposit_event (AgentStatusChanged d st)
           (set_count (fun n => if bool_decide (st = Revoked) then sat_sub n 1 else n)
              (set_profiles (insert d (with_status st p)) s)).
Proof.
  unfold set_agent_status. intros Hr. frame_inv. eexists. split_and!; [done..|].
  case_bool_decide; frame_inv; done.
Qed.

Lemma give_star_ok o g r s s' :
  give_star cfg sys o g r s = (Ok tt, s') ->
  exists c p, o = Signed c /\ g ∈ controller_dids s c /\ g <> r /\
    agent_profiles s !! r = Some p /\ status p <> Revoked /\ controller p <> c /\
    (0 < last_star_of s g r ->
       sat_add u32_max (last_star_of s g r) (StarCooldown cfg) <= block_number sys) /\
    s' = deposit_event (StarGiven g r)
           (set_profiles (insert r (with_score (fun n => sat_add u32_max n 1) p))
              (set_stars (insert (g, r) (block_number sys)) s)).
Proof.
  unfold give_star, try_mutate_profile. intros Hr. frame_inv. cbn in *.
  case_match eqn:Hl; frame_inv; cbn in *; simplify_eq; eexists _, _; split_and!; try done; lia.
Qed.

Lemma remove_star_ok o g r s s' :
  remove_star o g r s = (Ok tt, s') ->
  exists c p, o = Signed c /\ g ∈ controller_dids s c /\ 0 < last_star_of s g r /\
    agent_profiles s !! r = Some p /\
    s' = deposit_event (StarRemoved g r)
           (set_profiles (insert r (with_score (fun n => sat_sub n 1) p))
              (set_stars (insert (g, r) 0) s)).
Proof.
  unfold remove_star, try_mutate_profile. intros Hr. frame_inv. cbn in *.
  eexists _, _; split_and!; done.
Qed.

Lemma deregister_agent_ok o d s s' :
  deregister_agent cfg o d s = (Ok tt, s') ->
  exists p rem l', o = Signed (controller p) /\ agent_profiles s !! d = Some p /\
    status p <> Revoked /\
    unreserve (controller p) (RegistrationDeposit cfg) (currency s) = (rem, l') /\
    s' = mkState (delete d (agent_profiles s))
           (<[controller p := filter (fun x => x <> d) (controller_dids s (controller p))]>
              (controller_agents s))
           (sat_sub (active_agent_count s) 1) (star_givers s) (dispute_strikes s)
           (events s ++ [AgentDeregistered d (controller p)]) l'.
Proof.
  unfold deregister_agent, on_currency. intros Hr. frame_inv.
  eexists _, _, _; split_and!; done.
Qed.

(** ** Failing calls write nothing *)

#[global] Instance update_profile_noop o d caps meta lbl : ErrNoop (S := State L) (update_profile o d caps meta lbl).
Proof. unfold update_profile. noop_tac. Qed.

#[global] Instance set_agent_status_noop o d st : ErrNoop (S := State L) (set_agent_status o d st).
Proof.
  unfold set_agent_status. noop_tac.
  apply infallible_noop. intros s. destruct (bool_decide _); by eexists _, _.
Qed.

#[global] Instance deregister_agent_noop o d : ErrNoop (S := State L) (deregister_agent cfg o d).
Proof. unfold deregister_agent, on_currency. noop_tac. Qed.

(** The profile looked up after the star is written is the one checked before. *)
#[global] Instance give_star_noop o g r : ErrNoop (S := State L) (give_star cfg sys o g r).
Proof.
  intros s e s' Hr. unfold give_star in Hr. do 9 (err_step Hr; frame_inv).
  apply bind_err_inv in Hr as [Hr | (u & s1 & Hi & Hr)].
  { destruct (0 <? _); [by apply (readonly_noop _ _) in Hr|done]. }
  assert (s1 = s) as -> by (destruct (0 <? _); frame_inv; done).
  unfold try_mutate_profile, bind, modify, gets, ok_or, ret in Hr. cbn in Hr.
  match goal with Hp : agent_profiles s !! r = Some _ |- _ => rewrite Hp in Hr end. discriminate Hr.
Qed.
End Calls.

Section RegisterNoop.
Context {L : Type} `{ReservableCurrencyLaws L} `{Blake2} `{ScaleCodec} `{MlDsa}.
Context (cfg : Config) (sys : System).

(** Nothing after the reserve can fail: the room in the index was checked. *)
#[global] Instance register_agent_noop o pk sg at_ caps meta lbl :
  ErrNoop (S := State L) (register_agent cfg sys o pk sg at_ caps meta lbl).
Proof.
  intros s e s' Hr. unfold register_agent in Hr. cbn zeta in Hr.
  do 10 (err_step Hr; frame_inv).
  apply bind_err_inv in Hr as [Hr | (u & s1 & Hi & Hr)].
  { assert (ErrNoop (map_err (S := State L) (RegistryModule InsufficientBalanceForDeposit)
      (on_currency (reserve x (RegistrationDeposit cfg))))) as Hn; [|by apply Hn in Hr].
    unfold on_currency. noop_tac. apply _. }
  unfold on_currency in Hi. frame_inv.
  unfold try_push_did, bind, modify, gets, ensure in Hr. cbn in Hr.
  unfold controller_dids in *. cbn in Hr.
  match goal with Hl : (_ < 64)%nat |- _ => rewrite (bool_decide_eq_true_2 _ Hl) in Hr end. discriminate Hr.
Qed.
End RegisterNoop.

(** ** Steps of the pallet and their effect on the profile store *)

(** The identity of a profile: everything no call may change. *)
Definition same_identity (p p' : AgentProfile) : Prop :=
  did p' = did p /\ controller p' = controller p /\ registered_at p' = registered_at p /\
  is_verified p' = is_verified p /\ quantum_scheme p' = quantum_scheme p.

(** The ranges the field types fix. *)
Definition bounded (p : AgentProfile) : Prop :=
  in_u32 (reputation_score p) /\ Z.of_nat (length (metadata p)) <= MAX_METADATA_LEN /\
  Z.of_nat (length (label p)) <= MAX_LABEL_LEN.

(** Profiles the population counter counts. *)
Definition live (p : AgentProfile) : bool := negb (bool_decide (status p = Revoked)).

Lemma live_true p : live p = true <-> status p <> Revoked.
Proof. unfold live. rewrite negb_true_iff, bool_decide_eq_false. done. Qed.

Section Steps.
Context {L : Type} `{ReservableCurrency L} `{Blake2} `{ScaleCodec} `{MlDsa}.
Context (cfg : Config).
Implicit Types s : State L.

(** A successful extrinsic, a penalty from the runtime, or a movement of balances
    by another pallet. *)
Inductive step (s s' : State L) : Prop :=
  | step_call sys o c : call_wf c -> exec cfg sys o c s = (Ok tt, s') -> step s s'
  | step_slash d amount : 0 <= amount -> s' = slash_reputation d amount s -> step s s'
  | step_guilty d amount : 0 <= amount ->
      s' = slash_reputation_for_guilty_delivery cfg d amount s -> step s s'
  | step_currency l' : s' = set_currency l' s -> step s s'.

Inductive effect (s s' : State L) : Prop :=
  | eff_none :
      agent_profiles s' = agent_profiles s -> controller_agents s' = controller_agents s ->
      active_agent_count s' = active_agent_count s -> effect s s'
  | eff_new d p :
      agent_profiles s !! d = None -> did p = d -> is_verified p = true -> status p = Active ->
      bounded p -> (length (controller_dids s (controller p)) < MAX_AGENTS)%nat ->
      agent_profiles s' = <[d := p]> (agent_profiles s) ->
      controller_agents s' = <[controller p := controller_dids s (controller p) ++ [d]]> (controller_agents s) ->
      active_agent_count s' = sat_add u32_max (active_agent_count s) 1 -> effect s s'
  | eff_edit d p p' :
      agent_profiles s !! d = Some p -> same_identity p p' -> (bounded p -> bounded p') ->
      (status p = Revoked -> status p' = Revoked) ->
      agent_profiles s' = <[d := p']> (agent_profiles s) ->
      controller_agents s' = controller_agents s ->
      active_agent_count s' =
        (if live p && negb (live p') then sat_sub (active_agent_count s) 1 else active_agent_count s) ->
      effect s s'
  | eff_gone d p :
      agent_profiles s !! d = Some p -> status p <> Revoked ->
      agent_profiles s' = delete d (agent_profiles s) ->
      controller_agents s' =
        <[controller p := filter (fun x => x <> d) (controller_dids s (controller p))]> (controller_agents s) ->
      active_agent_count s' = sat_sub (active_agent_count s) 1 -> effect s s'.

(** An edit that keeps the status. *)
Lemma eff_same_status s s' d p p' :
  agent_profiles s !! d = Some p -> same_identity p p' -> (bounded p -> bounded p') ->
  status p' = status p -> agent_profiles s' = <[d := p']> (agent_profiles s) ->
  controller_agents s' = controller_agents s -> active_agent_count s' = active_agent_count s ->
  effect s s'.
Proof.
  intros ??? Hst ???. eapply (eff_edit _ _ d p p'); try done; [by rewrite Hst|].
  unfold live. rewrite Hst. by destruct (negb _).
Qed.

Lemma with_score_bounded f p : (forall n, in_u32 n -> in_u32 (f n)) -> bounded p -> bounded (with_score f p).
Proof. intros Hf (? & ? & ?). split_and!; cbn; auto. Qed.

Lemma slash_effect d amount s : 0 <= amount -> effect s (slash_reputation d amount s).
Proof.
  intros Ha. unfold slash_reputation. destruct (agent_profiles s !! d) as [p|] eqn:Hd; [|by apply eff_none].
  apply (eff_same_status _ _ d p (with_score (fun n => sat_sub n amount) p)); try done.
  apply with_score_bounded. auto with arth.
Qed.

(** The strikes and the deposit are the only things the guilty penalty adds. *)
Lemma guilty_profiles d amount s :
  let s1 := slash_reputation d amount s in
  let s' := slash_reputation_for_guilty_delivery cfg d amount s in
  agent_profiles s' = agent_profiles s1 /\ controller_agents s' = controller_agents s1 /\
  active_agent_count s' = active_agent_count s1 /\ star_givers s' = star_givers s1.
Proof.
  cbn. unfold slash_reputation_for_guilty_delivery.
  destruct (agent_profiles (slash_reputation d amount s) !! d); [|done].
  destruct (_ <? _); [done|]. by destruct (slash_reserved _ _ _).
Qed.

Lemma effect_ext s s1 s' :
  effect s s1 -> agent_profiles s' = agent_profiles s1 -> controller_agents s' = controller_agents s1 ->
  active_agent_count s' = active_agent_count s1 -> effect s s'.
Proof.
  intros [|d p|d p p'|d p] E1 E2 E3;
    [apply eff_none | apply (eff_new _ _ d p) | apply (eff_edit _ _ d p p') | apply (eff_gone _ _ d p)];
    try done; by etrans.
Qed.

Lemma step_effect s s' : step s s' -> effect s s'.
Proof.
  intros [sys o c Hwf Hc | d a Ha -> | d a Ha -> | l' ->]; [| | |by apply eff_none].
  - destruct c; cbn in Hwf, Hc.
    + apply register_agent_ok in Hc as (c & l' & -> & [] & _ & ->).
      apply (eff_new _ _ (derive_did pubkey)
               (mkProfile (derive_did pubkey) c caps 0 Active (block_number sys) true MlDsa65 meta lbl));
        try done.
      destruct Hwf as (_ & _ & _ & _ & ? & ?). by split_and!.
    + apply update_profile_ok in Hc as (p & _ & Hp & _ & ->).
      apply (eff_same_status _ _ d p (with_details caps meta lbl p)); try done. intros (? & _). split; [done|apply Hwf].
    + apply set_agent_status_ok in Hc as (p & _ & Hp & Hl & ->).
      apply (eff_edit _ _ d p (with_status new_status p)); try done. cbn. rewrite (proj2 (live_true p) Hl).
      unfold live. cbn. by case_bool_decide.
    + apply give_star_ok in Hc as (c & p & _ & _ & _ & Hp & _ & _ & _ & ->).
      apply (eff_same_status _ _ receiver p (with_score (fun n => sat_add u32_max n 1) p)); try done.
      apply with_score_bounded. unfold in_u32. intros. apply sat_add_in_u32; lia.
    + apply remove_star_ok in Hc as (c & p & _ & _ & _ & Hp & ->).
      apply (eff_same_status _ _ receiver p (with_score (fun n => sat_sub n 1) p)); try done.
      apply with_score_bounded. intros. apply sat_sub_in_u32; [lia|done].
    + apply deregister_agent_ok in Hc as (p & rem & l' & _ & Hp & Hl & _ & ->).
      by eapply (eff_gone _ _ d p).
  - by apply slash_effect.
  - eapply effect_ext; [by apply (slash_effect d a)|..]; apply guilty_profiles.
Qed.

(** ** The registry invariant *)

(** Profiles and the reverse index describe the same agents. *)
Record inv s : Prop := {
  inv_profile : forall d p, agent_profiles s !! d = Some p ->
    did p = d /\ d ∈ controller_dids s (controller p) /\ is_verified p = true /\ bounded p;
  inv_index : forall c d, d ∈ controller_dids s c ->
    exists p, agent_profiles s !! d = Some p /\ controller p = c;
  inv_nodup : forall c, NoDup (controller_dids s c);
  inv_room : forall c, (length (controller_dids s c) <= MAX_AGENTS)%nat }.

Lemma genesis_inv (l : L) : inv (genesis l).
Proof.
  assert (forall c, controller_dids (genesis l) c = []) as E by (intros; unfold controller_dids; cbn; by rewrite lookup_empty).
  split; [intros d p Hd; cbn in Hd; by rewrite lookup_empty in Hd|..]; intros c; rewrite E; [set_solver|constructor|cbn; lia].
Qed.

Lemma dids_insert s c l' c' :
  default [] (<[c := l']> (controller_agents s) !! c') =
  if decide (c = c') then l' else controller_dids s c'.
Proof. unfold controller_dids. rewrite lookup_insert. by case_decide. Qed.

Lemma edit_inv s s' d p p' :
  inv s -> agent_profiles s !! d = Some p -> same_identity p p' -> (bounded p -> bounded p') ->
  agent_profiles s' = <[d := p']> (agent_profiles s) -> controller_agents s' = controller_agents s ->
  inv s'.
Proof.
  intros [I1 I2 I3 I4] Hd (E1 & E2 & _ & E4 & _) Hb Hp Hc.
  assert (forall c, controller_dids s' c = controller_dids s c) as Ed by (intros; unfold controller_dids; by rewrite Hc).
  split; [intros k q Hk | intros c k | intros c | intros c]; rewrite ?Ed; [| |done|done].
  - rewrite Hp in Hk. apply lookup_insert_Some in Hk as [[<- <-]|[_ Hk]]; [|by apply I1].
    destruct (I1 _ _ Hd) as (? & ? & ? & ?). rewrite E1, E2, E4. auto.
  - intros (q & Hq & Hcq)%I2. rewrite Hp. destruct (decide (d = k)) as [->|Hne].
    + rewrite lookup_insert_eq. simplify_eq. eauto.
    + rewrite lookup_insert_ne by done. eauto.
Qed.

Lemma new_inv s s' d p :
  inv s -> agent_profiles s !! d = None -> did p = d -> is_verified p = true -> bounded p ->
  (length (controller_dids s (controller p)) < MAX_AGENTS)%nat ->
  agent_profiles s' = <[d := p]> (agent_profiles s) ->
  controller_agents s' = <[controller p := controller_dids s (controller p) ++ [d]]> (controller_agents s) ->
  inv s'.
Proof.
  intros [I1 I2 I3 I4] Hd Ed Hv Hb Hroom Hp Hc.
  assert (forall c, controller_dids s' c =
    if decide (controller p = c) then controller_dids s (controller p) ++ [d] else controller_dids s c) as Ec
    by (intros c; unfold controller_dids at 1; by rewrite Hc, dids_insert).
  assert (forall c, d ∉ controller_dids s c) as Hnew by (intros c (q & Hq & _)%I2; congruence).
  split; [intros k q Hk | intros c k | intros c | intros c]; rewrite ?Ec.
  - rewrite Hp in Hk. apply lookup_insert_Some in Hk as [[<- <-]|[_ Hk]].
    + rewrite decide_True by done. split_and!; try done. set_solver.
    + destruct (I1 _ _ Hk) as (? & ? & ? & ?). split_and!; try done. case_decide as Eq; [rewrite Eq; set_solver|done].
  - rewrite Hp. intros Hk.
    assert (k = d /\ controller p = c \/ k ∈ controller_dids s c) as [[-> <-]|(q & Hq & Hcq)%I2]
      by (case_decide; set_solver).
    + rewrite lookup_insert_eq. eauto.
    + rewrite lookup_insert_ne by congruence. eauto.
  - case_decide; [|done]. apply NoDup_app. split_and!; [done|set_solver|apply NoDup_singleton].
  - case_decide; [|done]. rewrite length_app. cbn. lia.
Qed.

Lemma gone_inv s s' d p :
  inv s -> agent_profiles s !! d = Some p ->
  agent_profiles s' = delete d (agent_profiles s) ->
  controller_agents s' =
    <[controller p := filter (fun x => x <> d) (controller_dids s (controller p))]> (controller_agents s) ->
  inv s'.
Proof.
  intros [I1 I2 I3 I4] Hd Hp Hc.
  assert (forall c, controller_dids s' c =
    if decide (controller p = c) then filter (fun x => x <> d) (controller_dids s (controller p))
    else controller_dids s c) as Ec
    by (intros c; unfold controller_dids at 1; by rewrite Hc, dids_insert).
  split; [intros k q Hk | intros c k | intros c | intros c]; rewrite ?Ec.
  - rewrite Hp in Hk. apply lookup_delete_Some in Hk as [Hne Hk].
    destruct (I1 _ _ Hk) as (? & ? & ? & ?). split_and!; try done.
    case_decide as Eq; [|done]. rewrite Eq. apply list_elem_of_filter. done.
  - rewrite Hp. intros Hk. assert (k <> d /\ k ∈ controller_dids s c) as [Hne (q & Hq & Hcq)%I2].
    { case_decide as Eq; [subst c; by apply list_elem_of_filter in Hk|]. split; [|done].
      intros ->. apply I2 in Hk as (q & Hq & ?). congruence. }
    rewrite lookup_delete_ne by done. eauto.
  - case_decide; [by apply NoDup_filter|done].
  - case_decide; [|done]. etrans; [apply length_filter|done].
Qed.

Lemma step_inv s s' : step s s' -> inv s -> inv s'.
Proof.
  intros [E1 E2 _|d p|d p p'|d p]%step_effect Hi.
  - destruct Hi as [I1 I2 I3 I4]. assert (forall c, controller_dids s' c = controller_dids s c) as Ed
      by (intros; unfold controller_dids; by rewrite E2).
    split; setoid_rewrite Ed; rewrite ?E1; done.
  - by eapply new_inv.
  - by eapply edit_inv.
  - by eapply gone_inv.
Qed.

(** ** Reachable states *)

(** States reached from genesis in [n] steps. *)
Inductive reach : nat -> State L -> Prop :=
  | reach_genesis l : reach 0 (genesis l)
  | reach_step n s s' : reach n s -> step s s' -> reach (S n) s'.

Lemma reach_inv n s : reach n s -> inv s.
Proof. induction 1; [apply genesis_inv | by eapply step_inv]. Qed.

Lemma reach_live n s : reach n s -> (count_if live (agent_profiles s) <= n)%nat.
Proof.
  induction 1 as [l|n s s' Hr IH [E1 _ _|d p Hd _ _ _ _ _ E1 _ _|d p p' Hd _ _ Hrev E1 _ _|d p Hd _ E1 _ _]%step_effect];
    [cbn; done| |..]; rewrite E1.
  - lia.
  - rewrite count_if_insert_fresh by done. destruct (live p); lia.
  - pose proof (count_if_insert live _ d p p' Hd) as Hc.
    assert (live p' = true -> live p = true) by (rewrite !live_true; tauto).
    destruct (live p), (live p'); cbn in *; try lia; naive_solver.
  - rewrite (count_if_delete live _ d p Hd) in IH. lia.
Qed.

Lemma reach_count n s :
  reach n s -> Z.of_nat n <= u32_max ->
  active_agent_count s = Z.of_nat (count_if live (agent_profiles s)).
Proof.
  intros Hr. induction Hr as [l|n s s' Hr IH Hs]; [done|]. intros Hn.
  pose proof (reach_live _ _ Hr). specialize (IH ltac:(lia)).
  apply step_effect in Hs
    as [E1 _ E3|d p Hd _ _ Hst _ _ E1 _ E3|d p p' Hd _ _ Hrev E1 _ E3|d p Hd Hl E1 _ E3]; rewrite E1, E3.
  - done.
  - rewrite count_if_insert_fresh by done. assert (live p = true) as -> by (apply live_true; congruence).
    rewrite IH. unfold sat_add. lia.
  - pose proof (count_if_insert live _ d p p' Hd) as Hc.
    assert (live p' = true -> live p = true) by (rewrite !live_true; tauto).
    rewrite IH. unfold sat_sub. destruct (live p), (live p'); cbn in *; try lia; naive_solver.
  - rewrite (count_if_delete live _ d p Hd) in IH. rewrite (proj2 (live_true p) Hl) in IH.
    rewrite IH. unfold sat_sub. lia.
Qed.

(** ** Profiles along steps *)

Lemma step_identity s s' d p p' :
  step s s' -> agent_profiles s !! d = Some p -> agent_profiles s' !! d = Some p' ->
  same_identity p p' /\ (status p = Revoked -> status p' = Revoked).
Proof.
  intros [E1 _ _|k q Hk _ _ _ _ _ E1 _ _|k q q' Hk Hi _ Hr E1 _ _|k q Hk _ E1 _ _]%step_effect Hp;
    rewrite E1; intros Hp'.
  - simplify_eq. done.
  - rewrite lookup_insert_ne in Hp' by congruence. simplify_eq. done.
  - destruct (decide (k = d)) as [->|Hne].
    + rewrite lookup_insert_eq in Hp'. by simplify_eq.
    + rewrite lookup_insert_ne in Hp' by done. simplify_eq. done.
  - apply lookup_delete_Some in Hp' as [_ Hp']. simplify_eq. done.
Qed.

Lemma step_revoked_stays s s' d p :
  step s s' -> agent_profiles s !! d = Some p -> status p = Revoked ->
  exists p', agent_profiles s' !! d = Some p'.
Proof.
  intros [E1 _ _|k q Hk _ _ _ _ _ E1 _ _|k q q' Hk Hi _ Hr E1 _ _|k q Hk Hl E1 _ _]%step_effect Hp Hst;
    rewrite E1.
  - eauto.
  - rewrite lookup_insert. case_decide; eauto.
  - rewrite lookup_insert. case_decide; eauto.
  - rewrite lookup_delete_ne by congruence. eauto.
Qed.

(** A revoked agent stays revoked, with the identity it had. *)
Lemma steps_revoked s s' d p :
  rtc step s s' -> agent_profiles s !! d = Some p -> status p = Revoked ->
  exists p', agent_profiles s' !! d = Some p' /\ status p' = Revoked /\ same_identity p p'.
Proof.
  intros Hr. revert p. induction Hr as [|s s1 s' Hs _ IH]; intros p Hp Hst; [by exists p|].
  destruct (step_revoked_stays _ _ _ _ Hs Hp Hst) as [p1 Hp1].
  destruct (step_identity _ _ _ _ _ Hs Hp Hp1) as [Hid Hst1].
  destruct (IH _ Hp1 (Hst1 Hst)) as (p' & Hp' & Hst' & Hid'). exists p'. split_and!; [done..|].
  destruct Hid as (? & ? & ? & ? & ?), Hid' as (? & ? & ? & ? & ?). split_and!; congruence.
Qed.

(** ** Stars along steps *)

(** A step that is not [remove_star] of the pair [(g, r)]. *)
Inductive quiet_step (g r : Did) (s s' : State L) : Prop :=
  | quiet_call sys o c : in_u32 (block_number sys) -> c <> RemoveStar g r ->
      exec cfg sys o c s = (Ok tt, s') -> quiet_step g r s s'
  | quiet_slash d amount : s' = slash_reputation d amount s -> quiet_step g r s s'
  | quiet_guilty d amount :
      s' = slash_reputation_for_guilty_delivery cfg d amount s -> quiet_step g r s s'
  | quiet_currency l' : s' = set_currency l' s -> quiet_step g r s s'.

Lemma slash_stars d amount s : star_givers (slash_reputation d amount s) = star_givers s.
Proof. unfold slash_reputation. by destruct (agent_profiles s !! d). Qed.

Lemma give_last_star g r g' r' b f e s :
  last_star_of (deposit_event e (set_profiles f (set_stars (insert (g', r') b) s))) g r =
  if decide ((g', r') = (g, r)) then b else last_star_of s g r.
Proof. unfold last_star_of. cbn. rewrite lookup_insert. by case_decide. Qed.

(** Only [give_star] of the pair moves its entry, and only past the cooldown. *)
Lemma quiet_star g r s s' :
  quiet_step g r s s' ->
  last_star_of s' g r = last_star_of s g r \/
  (0 < last_star_of s g r -> sat_add u32_max (last_star_of s g r) (StarCooldown cfg) <= last_star_of s' g r) /\
  in_u32 (last_star_of s' g r).
Proof.
  intros [sys o c Hb Hc Hx | d a -> | d a -> | l' ->]; [| | |by left].
  - destruct c; cbn in Hx.
    + apply register_agent_ok in Hx as (? & ? & _ & _ & _ & ->). by left.
    + apply update_profile_ok in Hx as (p & _ & _ & _ & ->). by left.
    + apply set_agent_status_ok in Hx as (p & _ & _ & _ & ->). by left.
    + apply give_star_ok in Hx as (c & p & _ & _ & _ & _ & _ & _ & Hcd & ->).
      rewrite give_last_star. case_decide as E; [|by left]. simplify_eq. by right.
    + apply remove_star_ok in Hx as (c & p & _ & _ & _ & _ & ->). left.
      unfold last_star_of. cbn. by rewrite lookup_insert_ne by congruence.
    + apply deregister_agent_ok in Hx as (p & rem & l' & _ & _ & _ & _ & ->). by left.
  - left. unfold last_star_of. by rewrite slash_stars.
  - left. unfold last_star_of. by rewrite (proj2 (proj2 (proj2 (guilty_profiles d a s)))), slash_stars.
Qed.

Lemma quiet_trace_star g r b s s' :
  0 <= StarCooldown cfg -> rtc (quiet_step g r) s s' ->
  0 < b -> b <= last_star_of s g r -> in_u32 (last_star_of s g r) ->
  b <= last_star_of s' g r /\ in_u32 (last_star_of s' g r).
Proof.
  intros Hcd Hr. induction Hr as [|s s1 s' Hq _ IH]; [done|]. intros Hb Hle Hin.
  apply quiet_star in Hq as [E|[Hn Hin']].
  - apply IH; by rewrite ?E.
  - unfold sat_add, in_u32 in *. apply IH; lia.
Qed.
End Steps.

(** ** Strikes and the deposit *)

Section Strikes.
Context {L : Type} `{ReservableCurrencyLaws L}.
Context (cfg : Config).
Implicit Types s : State L.

(** How many deposit slashes of [d] the log shows. *)
Definition slashes_deposit (d : Did) (e : Event) : bool :=
  match e with DepositSlashed d' _ _ _ => bool_decide (d' = d) | _ => false end.
Definition deposit_slashes (d : Did) (evs : list Event) : Z :=
  Z.of_nat (length (filter (fun e => slashes_deposit d e = true) evs)).

Lemma deposit_slashes_app d l e :
  deposit_slashes d (l ++ [e]) = deposit_slashes d l + (if slashes_deposit d e then 1 else 0).
Proof.
  unfold deposit_slashes. rewrite filter_app, length_app, Nat2Z.inj_add. f_equal.
  rewrite filter_cons, filter_nil. destruct (slashes_deposit d e) eqn:E; by case_decide.
Qed.

(** One guilty verdict against a registered agent: its strike count goes up by one
    and rolls over to zero at the threshold, where the deposit pays. *)
Lemma guilty_step d amount s p :
  0 < StrikeThreshold cfg <= u32_max -> 0 <= DepositSlashPerStrike cfg ->
  agent_profiles s !! d = Some p -> 0 <= strikes_of s d < StrikeThreshold cfg ->
  let s' := slash_reputation_for_guilty_delivery cfg d amount s in
  let fires := strikes_of s d + 1 =? StrikeThreshold cfg in
  agent_profiles s' !! d = Some (with_score (fun n => sat_sub n amount) p) /\
  strikes_of s' d = (if fires then 0 else strikes_of s d + 1) /\
  deposit_slashes d (events s') = deposit_slashes d (events s) + (if fires then 1 else 0) /\
  reserved_balance (currency s') (controller p) =
    (if fires then sat_sub (reserved_balance (currency s) (controller p)) (DepositSlashPerStrike cfg)
     else reserved_balance (currency s) (controller p)).
Proof.
  intros HT HS Hp Hst. cbn zeta. unfold slash_reputation_for_guilty_delivery, slash_reputation.
  rewrite Hp. set (p' := with_score _ p). set (s1 := deposit_event _ (set_profiles _ s)).
  assert (agent_profiles s1 !! d = Some p') as -> by apply lookup_insert_eq.
  change (strikes_of s1 d) with (strikes_of s d). rewrite sat_add_exact by lia.
  assert (deposit_slashes d (events s1) = deposit_slashes d (events s)) as Ev
    by (cbn -[deposit_slashes]; rewrite deposit_slashes_app; cbn [slashes_deposit]; lia).
  destruct (_ <? _) eqn:Elt; [apply Z.ltb_lt in Elt | apply Z.ltb_ge in Elt].
  - assert ((strikes_of s d + 1 =? StrikeThreshold cfg) = false) as -> by lia.
    split_and!; [apply lookup_insert_eq| |cbn [events set_strikes]; lia|done].
    unfold strikes_of at 1. cbn. by rewrite lookup_insert_eq.
  - assert ((strikes_of s d + 1 =? StrikeThreshold cfg) = true) as -> by lia.
    destruct (slash_reserved _ _ _) as [rem l'] eqn:Esl.
    apply slash_reserved_spec in Esl as (_ & _ & Er & _); [|done]. cbn in Er.
    pose proof (proj2 (balances_nonneg (currency s) (controller p))).
    split_and!; [apply lookup_insert_eq| | |].
    + unfold strikes_of at 1. cbn. by rewrite lookup_insert_eq.
    + cbn [events set_strikes deposit_event set_currency]. rewrite deposit_slashes_app, Ev.
      cbn [slashes_deposit]. by rewrite bool_decide_eq_true_2.
    + cbn. rewrite Er. unfold sat_sub. lia.
Qed.

(** The controller does not change along penalties. *)
Lemma guilty_iter n d amount s p :
  0 < StrikeThreshold cfg <= u32_max -> 0 <= DepositSlashPerStrike cfg ->
  agent_profiles s !! d = Some p -> strikes_of s d = 0 ->
  let s' := Nat.iter n (slash_reputation_for_guilty_delivery cfg d amount) s in
  (exists p', agent_profiles s' !! d = Some p' /\ controller p' = controller p) /\
  strikes_of s' d = Z.of_nat n mod StrikeThreshold cfg /\
  deposit_slashes d (events s') = deposit_slashes d (events s) + Z.of_nat n / StrikeThreshold cfg /\
  reserved_balance (currency s') (controller p) =
    sat_sub (reserved_balance (currency s) (controller p))
      (Z.of_nat n / StrikeThreshold cfg * DepositSlashPerStrike cfg).
Proof.
  intros HT HS Hp H0'. cbn zeta. set (T := StrikeThreshold cfg) in *. induction n as [|n IH].
  - cbn -[deposit_slashes]. rewrite Z.mod_0_l, Z.div_0_l by lia. unfold sat_sub.
    pose proof (proj2 (balances_nonneg (currency s) (controller p))). split_and!; eauto; lia.
  - destruct IH as ((p' & Hp' & Hc) & Hst & Hev & Hre). rewrite Nat.iter_succ.
    set (s1 := Nat.iter n _ s) in *. pose proof (Z.mod_pos_bound (Z.of_nat n) T ltac:(lia)) as Hm.
    pose proof (Z.div_pos (Z.of_nat n) T ltac:(lia) ltac:(lia)) as Hq.
    destruct (guilty_step d amount s1 p') as (A1 & A2 & A3 & A4); [done..|by rewrite Hst|].
    fold T in A2, A3, A4. rewrite Hst in A2, A3, A4. rewrite Hc in A4.
    rewrite A2, A3, A4, Hev, Hre. split; [eexists; split; [done|exact Hc]|].
    pose proof (Z.div_mod (Z.of_nat n) T ltac:(lia)) as Hdm. rewrite Nat2Z.inj_succ.
    set (q := Z.of_nat n / T) in *. set (m := Z.of_nat n mod T) in *.
    destruct (m + 1 =? T) eqn:Ef; [apply Z.eqb_eq in Ef | apply Z.eqb_neq in Ef].
    + assert (Z.succ (Z.of_nat n) = T * (q + 1) + 0) as Es by lia.
      rewrite <- (Z.div_unique_pos _ T (q + 1) 0 ltac:(lia) Es), <- (Z.mod_unique_pos _ T (q + 1) 0 ltac:(lia) Es).
      unfold sat_sub. split_and!; [lia|lia|]. rewrite Z.mul_add_distr_r. lia.
    + assert (Z.succ (Z.of_nat n) = T * q + (m + 1)) as Es by lia.
      rewrite <- (Z.div_unique_pos _ T q (m + 1) ltac:(lia) Es), <- (Z.mod_unique_pos _ T q (m + 1) ltac:(lia) Es).
      split_and!; lia.
Qed.
End Strikes.
End RegistryTheory.
