(* ===== verification/Merkle.v ===== *)
(** * Merkle: the hashers and the proof interface

    The two [Blake2bHasher]s of the repository ([pallets/pallet-vector-db/src/lib.rs]
    and [offchain-vector-db/src/merkle.rs]), the part of the [rs_merkle] crate both
    sides call as the interface [RsMerkle], and a reference tree that meets its laws:
    adjacent nodes are hashed in pairs and a lone last node is handed to
    [concat_and_hash] with no right sibling. *)

From stdpp Require Import base list sets.
From Stdlib Require Import ZArith Lia.
From S2P Require Import Prelude Frame.

(** ** Hashers *)

(** The [rs_merkle::Hasher] trait. *)
Record Hasher : Type := mkHasher {
  hash : bytes -> bytes;
  concat_and_hash : bytes -> option bytes -> bytes }.

Module OnChain.
Section Hasher.
Context `{Blake2}.

Definition Blake2bHasher_concat_and_hash (left : bytes) (right : option bytes) : bytes :=
  match right with
  | Some r => blake2_256 (left ++ r)
  | None => left
  end.

Definition Blake2bHasher : Hasher :=
  mkHasher (fun data => blake2_256 data) Blake2bHasher_concat_and_hash.
End Hasher.
End OnChain.

Module OffChain.
Section Hasher.
Context `{Blake2}.

Definition Blake2bHasher_concat_and_hash (left : bytes) (right : option bytes) : bytes :=
  match right with
  | Some r => blake2_256 (left ++ r)
  | None => left
  end.

Definition Blake2bHasher : Hasher :=
  mkHasher (fun data => blake2_256 data) Blake2bHasher_concat_and_hash.
End Hasher.
End OffChain.

(** ** The tree

    Adjacent nodes are hashed in pairs, layer by layer; a lone last node goes up by
    [concat_and_hash] without a sibling.  Besides the root, the proofs and their
    verification, the pairs of siblings each of them hashes are named, because a
    wrong proof can only be accepted if two of those collide. *)

Module Reference.
Section Tree.
Context (h : Hasher).

(** The layer above [layer]. *)
Fixpoint up (layer : list bytes) : list bytes :=
  match layer with
  | a :: b :: rest => concat_and_hash h a (Some b) :: up rest
  | [a] => [concat_and_hash h a None]
  | [] => []
  end.

Definition sibling (i : nat) : nat := if Nat.even i then S i else pred i.

Fixpoint root_of (fuel : nat) (layer : list bytes) : option bytes :=
  match fuel, layer with
  | _, [] => None
  | _, [r] => Some r
  | S fuel, _ => root_of fuel (up layer)
  | O, _ => None
  end.

Fixpoint proof_of (fuel : nat) (layer : list bytes) (i : nat) : list bytes :=
  match fuel with
  | O => []
  | S fuel =>
      if (length layer <=? 1)%nat then []
      else option_list (layer !! sibling i) ++ proof_of fuel (up layer) (Nat.div2 i)
  end.

(** Rebuilds the root from the leaf at [i] of [n] and its siblings. *)
Fixpoint rebuild (fuel : nat) (n i : nat) (node : bytes) (proof : list bytes) : option bytes :=
  match fuel with
  | O => None
  | S fuel =>
      if (n <=? 1)%nat then Some node
      else if (sibling i <? n)%nat then
        match proof with
        | [] => None
        | s :: rest =>
            let parent := if Nat.even i then concat_and_hash h node (Some s)
                          else concat_and_hash h s (Some node) in
            rebuild fuel (Nat.div2 (S n)) (Nat.div2 i) parent rest
        end
      else rebuild fuel (Nat.div2 (S n)) (Nat.div2 i) (concat_and_hash h node None) proof
  end.

(** The pairs of siblings hashed while the tree is built. *)
Fixpoint layer_pairs (layer : list bytes) : list (bytes * bytes) :=
  match layer with
  | a :: b :: rest => (a, b) :: layer_pairs rest
  | _ => []
  end.
Fixpoint tree_pairs (fuel : nat) (layer : list bytes) : list (bytes * bytes) :=
  match fuel with
  | O => []
  | S fuel =>
      if (length layer <=? 1)%nat then [] else layer_pairs layer ++ tree_pairs fuel (up layer)
  end.

(** The pairs of siblings hashed while a proof is checked. *)
Fixpoint path_pairs (fuel : nat) (n i : nat) (node : bytes) (proof : list bytes) : list (bytes * bytes) :=
  match fuel with
  | O => []
  | S fuel =>
      if (n <=? 1)%nat then []
      else if (sibling i <? n)%nat then
        match proof with
        | [] => []
        | s :: rest =>
            let pair := if Nat.even i then (node, s) else (s, node) in
            pair :: path_pairs fuel (Nat.div2 (S n)) (Nat.div2 i) (concat_and_hash h pair.1 (Some pair.2)) rest
        end
      else path_pairs fuel (Nat.div2 (S n)) (Nat.div2 i) (concat_and_hash h node None) proof
  end.
End Tree.

(** Two different pairs, one of each list, with the same parent. *)
Definition collides (h : Hasher) (ps qs : list (bytes * bytes)) : Prop :=
  exists p q, p ∈ ps /\ q ∈ qs /\ p <> q /\
    concat_and_hash h p.1 (Some p.2) = concat_and_hash h q.1 (Some q.2).

Lemma collides_app_r h ps ps' qs qs' : collides h ps' qs' -> collides h (ps ++ ps') (qs ++ qs').
Proof. intros (p & q & ? & ? & ? & ?). exists p, q. set_solver. Qed.
End Reference.


(** ** The interface of [rs_merkle]

    [merkle_root h leaves] is [MerkleTree::<h>::from_leaves(leaves).root()],
    [merkle_proof h leaves is] is [tree.proof(is).proof_hashes()], and
    [merkle_verify h p root is hs n] is [MerkleProof::<h>::new(p).verify(root, is, hs, n)]. *)
Class RsMerkle := {
  merkle_root : Hasher -> list bytes -> option bytes;
  merkle_proof : Hasher -> list bytes -> list nat -> list bytes;
  merkle_verify : Hasher -> list bytes -> bytes -> list nat -> list bytes -> nat -> bool }.

(** A node without a sibling goes up as it is. *)
Definition hasher_ok (h : Hasher) : Prop := forall l, concat_and_hash h l None = l.

Class RsMerkleLaws `{RsMerkle} : Prop := {
  merkle_root_some : forall h leaves, leaves <> [] -> is_Some (merkle_root h leaves);
  merkle_complete : forall h leaves root i leaf, hasher_ok h ->
    merkle_root h leaves = Some root -> leaves !! i = Some leaf ->
    merkle_verify h (merkle_proof h leaves [i]) root [i] [leaf] (length leaves) = true;
  merkle_sound : forall h leaves proof root i leaf, hasher_ok h ->
    merkle_root h leaves = Some root -> (i < length leaves)%nat ->
    merkle_verify h proof root [i] [leaf] (length leaves) = true ->
    leaves !! i = Some leaf \/
    Reference.collides h (Reference.tree_pairs h (length leaves) leaves)
      (Reference.path_pairs h (length leaves) (length leaves) i leaf proof);
  merkle_depth : forall h leaves i,
    (i < length leaves)%nat -> (length (merkle_proof h leaves [i]) <= Nat.log2_up (length leaves))%nat }.

(** ** A reference implementation *)

Module Implementation.
Import Reference.

Definition rs_merkle : RsMerkle := {|
  merkle_root h leaves := root_of h (length leaves) leaves;
  merkle_proof h leaves is_ :=
    match is_ with i :: _ => proof_of h (length leaves) leaves i | [] => [] end;
  merkle_verify h proof root is_ hs n :=
    match is_, hs with
    | [i], [leaf] => bool_decide (rebuild h n n i leaf proof = Some root)
    | _, _ => false
    end |}.

Section Laws.
Context (h : Hasher) (Hh : hasher_ok h).

Lemma list_pair_ind (P : list bytes -> Prop) :
  P [] -> (forall a, P [a]) -> (forall a b l, P l -> P (a :: b :: l)) -> forall l, P l.
Proof.
  intros H0 H1 H2. fix IH 1. intros [|a [|b l]]; [done|done|]. apply H2, IH.
Qed.

Lemma up_length l : length (up h l) = Nat.div2 (S (length l)).
Proof. induction l as [|a|a b l IH] using list_pair_ind; cbn in *; auto. Qed.

Lemma up_nil l : l <> [] -> up h l <> [].
Proof. by destruct l as [|? [|? ?]]. Qed.

Lemma sibling_SS i : sibling (S (S i)) = S (S (sibling i)).
Proof.
  unfold sibling. change (Nat.even (S (S i))) with (Nat.even i). destruct (Nat.even i) eqn:E; [done|].
  by destruct i.
Qed.

(** The node above position [i]: the pair at [i] and its sibling, or the lone node. *)
Lemma up_lookup (l : list bytes) i x :
  l !! i = Some x ->
  up h l !! Nat.div2 i =
    Some (match l !! sibling i with
          | Some s => if Nat.even i then concat_and_hash h x (Some s) else concat_and_hash h s (Some x)
          | None => concat_and_hash h x None
          end).
Proof.
  revert i. induction l as [|a|a b l IH] using list_pair_ind; intros i Hi.
  - by destruct i.
  - destruct i as [|i]; cbn in Hi; [by simplify_eq/= | by destruct i].
  - destruct i as [|[|i]]; [by simplify_eq/=..|]. cbn in Hi. cbn [up Nat.div2].
    rewrite sibling_SS.
    change (Nat.even (S (S i))) with (Nat.even i). exact (IH i Hi).
Qed.

Lemma div2_lt i n : (i < n)%nat -> (Nat.div2 i < Nat.div2 (S n))%nat.
Proof.
  intros. pose proof (Nat.div2_odd i). pose proof (Nat.div2_odd (S n)).
  destruct (Nat.odd i), (Nat.odd (S n)); cbn in *; lia.
Qed.

Lemma div2_fuel n fuel : (1 < n <= S fuel)%nat -> (Nat.div2 (S n) <= fuel)%nat.
Proof. intros. pose proof (Nat.div2_odd (S n)). destruct (Nat.odd (S n)); cbn in *; lia. Qed.

Lemma root_of_some fuel l : l <> [] -> (length l <= fuel)%nat -> is_Some (root_of h fuel l).
Proof.
  revert l. induction fuel as [|fuel IH]; intros l Hl Hn; [destruct l; cbn in *; [done|lia]|].
  destruct l as [|a [|b l]]; [done|by eexists|]. cbn [root_of].
  apply IH; [by apply up_nil|]. rewrite up_length. apply div2_fuel. cbn in *. lia.
Qed.

Lemma rebuild_complete fuel (l : list bytes) i leaf root :
  (length l <= fuel)%nat -> l !! i = Some leaf -> root_of h fuel l = Some root ->
  rebuild h fuel (length l) i leaf (proof_of h fuel l i) = Some root.
Proof.
  revert l i leaf. induction fuel as [|fuel IH]; intros l i leaf Hn Hi Hr; [destruct l; cbn in *; [done|lia]|].
  pose proof (lookup_lt_Some _ _ _ Hi) as Hlt. cbn [rebuild proof_of].
  destruct (length l <=? 1)%nat eqn:E1.
  - apply Nat.leb_le in E1. destruct l as [|a [|? ?]]; [by destruct i| |cbn in E1; lia].
    destruct i as [|i]; [by simplify_eq/=|by destruct i].
  - apply Nat.leb_gt in E1.
    assert (root_of h fuel (up h l) = Some root) as Hr' by (destruct l as [|? [|? ?]]; [cbn in E1; lia|cbn in E1; lia|done]).
    pose proof (up_lookup l i leaf Hi) as Hu.
    assert (length (up h l) <= fuel)%nat as Hn' by (rewrite up_length; apply div2_fuel; lia).
    specialize (IH _ _ _ Hn' Hu Hr').
    rewrite up_length in IH. destruct (l !! sibling i) as [s|] eqn:Es.
    + pose proof (lookup_lt_Some _ _ _ Es). rewrite (proj2 (Nat.ltb_lt _ _)) by done. exact IH.
    + pose proof (lookup_ge_None_1 _ _ Es). rewrite (proj2 (Nat.ltb_ge _ _)) by done. exact IH.
Qed.

Lemma layer_pairs_elem (l : list bytes) i x s :
  l !! i = Some x -> l !! sibling i = Some s -> (if Nat.even i then (x, s) else (s, x)) ∈ layer_pairs l.
Proof.
  revert i. induction l as [|a|a b l IH] using list_pair_ind; intros i Hi Hs; [by destruct i| |].
  - destruct i as [|i]; [cbn in Hs; by destruct (sibling 0)|by destruct i].
  - destruct i as [|[|i]]; [simplify_eq/=; set_solver..|].
    rewrite sibling_SS in Hs. cbn in Hi, Hs. cbn [layer_pairs].
    change (Nat.even (S (S i))) with (Nat.even i). specialize (IH i Hi Hs). set_solver.
Qed.

Lemma pair_or_collision p q ps qs :
  p ∈ ps -> q ∈ qs -> concat_and_hash h p.1 (Some p.2) = concat_and_hash h q.1 (Some q.2) ->
  p = q \/ collides h ps qs.
Proof. intros. destruct (decide (p = q)); [by left|]. right. by exists p, q. Qed.

Lemma rebuild_sound fuel (l : list bytes) i leaf proof root :
  (length l <= fuel)%nat -> (i < length l)%nat ->
  root_of h fuel l = Some root -> rebuild h fuel (length l) i leaf proof = Some root ->
  l !! i = Some leaf \/ collides h (tree_pairs h fuel l) (path_pairs h fuel (length l) i leaf proof).
Proof.
  revert l i leaf proof. induction fuel as [|fuel IH]; intros l i leaf proof Hn Hi Hr Hb; [lia|].
  destruct (lookup_lt_is_Some_2 l i Hi) as [x Hx]. cbn [rebuild tree_pairs path_pairs] in *.
  destruct (length l <=? 1)%nat eqn:E1.
  - apply Nat.leb_le in E1. destruct l as [|a [|? ?]]; [by destruct i| |cbn in E1; lia].
    destruct i as [|i]; [left; by simplify_eq/=|by destruct i].
  - apply Nat.leb_gt in E1.
    assert (root_of h fuel (up h l) = Some root) as Hr' by (destruct l as [|? [|? ?]]; [cbn in E1; lia|cbn in E1; lia|done]).
    pose proof (up_lookup l i x Hx) as Hu. rewrite <- up_length in *.
    assert (length (up h l) <= fuel)%nat as Hn' by (rewrite up_length; apply div2_fuel; lia).
    assert (Nat.div2 i < length (up h l))%nat as Hi' by (rewrite up_length; by apply div2_lt).
    destruct (l !! sibling i) as [s|] eqn:Es.
    + pose proof (lookup_lt_Some _ _ _ Es) as Hs. rewrite (proj2 (Nat.ltb_lt _ _) Hs) in *.
      destruct proof as [|s' rest]; [done|]. cbn zeta in *.
      pose proof (layer_pairs_elem l i x s Hx Es) as Hel.
      set (pair := if Nat.even i then (leaf, s') else (s', leaf)) in *.
      assert ((if Nat.even i then concat_and_hash h leaf (Some s') else concat_and_hash h s' (Some leaf)) =
              concat_and_hash h pair.1 (Some pair.2)) as Ep by (subst pair; by destruct (Nat.even i)).
      rewrite Ep in Hb. eapply IH in Hb as [E|Hcol]; try done.
      * rewrite Hu in E. apply Some_inj in E.
        destruct (pair_or_collision (if Nat.even i then (x, s) else (s, x)) pair
                    (layer_pairs l ++ tree_pairs h fuel (up h l)) 
                    (pair :: path_pairs h fuel (length (up h l)) (Nat.div2 i) (concat_and_hash h pair.1 (Some pair.2)) rest)) as [Eq|Hcol].
        -- set_solver.
        -- set_solver.
        -- rewrite <- E. by destruct (Nat.even i).
        -- left. subst pair. destruct (Nat.even i); by simplify_eq.
        -- by right.
      * right. by apply (collides_app_r h _ _ [_]).
    + pose proof (lookup_ge_None_1 _ _ Es) as Hs. rewrite (proj2 (Nat.ltb_ge _ _) Hs) in *.
      rewrite Hh in *.
      destruct (IH _ _ _ _ Hn' Hi' Hr' Hb) as [E|Hcol]; [left; congruence|right].
      by apply (collides_app_r h _ _ []).
Qed.

Lemma log2_up_div2 n : (1 < n)%nat -> Nat.log2_up n = S (Nat.log2_up (Nat.div2 (S n))).
Proof.
  intros Hn. pose proof (Nat.div2_odd n) as Ho. set (k := Nat.div2 n) in *.
  destruct (Nat.odd n) eqn:E; cbn [Nat.b2n] in Ho.
  - assert (Nat.div2 (S n) = S k) as ->.
    { pose proof (Nat.div2_odd (S n)) as Ho'. destruct (Nat.odd (S n)); cbn [Nat.b2n] in Ho'; lia. }
    rewrite Ho at 1. rewrite Nat.log2_up_succ_double, (Nat.log2_up_eqn (S k)) by lia. done.
  - assert (Nat.div2 (S n) = k) as ->.
    { pose proof (Nat.div2_odd (S n)) as Ho'. destruct (Nat.odd (S n)); cbn [Nat.b2n] in Ho'; lia. }
    rewrite Ho at 1. rewrite Nat.add_0_r. apply Nat.log2_up_double. lia.
Qed.

Lemma proof_of_length fuel l i :
  (i < length l)%nat -> (length (proof_of h fuel l i) <= Nat.log2_up (length l))%nat.
Proof.
  revert l i. induction fuel as [|fuel IH]; intros l i Hi; cbn [proof_of]; [cbn; lia|].
  destruct (length l <=? 1)%nat eqn:E1; [cbn; lia|]. apply Nat.leb_gt in E1.
  rewrite length_app, log2_up_div2, <- up_length by lia.
  assert (length (option_list (l !! sibling i)) <= 1)%nat by (destruct (l !! sibling i); cbn; lia).
  specialize (IH (up h l) (Nat.div2 i) ltac:(rewrite up_length; by apply div2_lt)). lia.
Qed.
End Laws.

#[local] Existing Instance rs_merkle.

Lemma rs_merkle_laws : RsMerkleLaws.
Proof.
  split; cbn.
  - intros h leaves Hl. by apply root_of_some.
  - intros h leaves root i leaf Hh Hr Hi. apply bool_decide_eq_true. by apply rebuild_complete.
  - intros h leaves proof root i leaf Hh Hr Hi Hv%bool_decide_eq_true. by eapply rebuild_sound.
  - intros h leaves i Hi. by apply proof_of_length.
Qed.
End Implementation.

(** ** The hashers meet what the tree needs *)

Section HasherFacts.
Context `{Blake2Laws}.

Lemma onchain_hasher_ok : hasher_ok OnChain.Blake2bHasher.
Proof. done. Qed.

Lemma offchain_hasher_eq : OffChain.Blake2bHasher = OnChain.Blake2bHasher.
Proof. reflexivity. Qed.
End HasherFacts.
