(* ===== verification/VectorDb.v ===== *)
(** * VectorDb: [pallets/pallet-vector-db/src/lib.rs]

    Merkle-root commitments and their disputes: the storage of the pallet, its seven
    extrinsics, and the three traits through which it reaches the agent registry, the
    reputation ledger and the escrow.  The rest of the chain is a type [X] the pallet
    knows only through those traits. *)

From stdpp Require Import base gmap list strings.
From Stdlib Require Import ZArith Lia.
From S2P Require Import Prelude Frame Merkle.

Local Open Scope arth_scope.

Abbreviation CommitmentId := bytes.
Abbreviation MerkleRoot := bytes.
Abbreviation ChunkIndex := Z.

(** ** The traits of the pallet *)

Class AgentLookup (X : Type) := {
  controller_of : X -> Did -> option AccountId;
  is_active_verified : X -> Did -> bool }.

(** Fire and forget: nothing is returned to the caller. *)
Class ReputationHandler (X : Type) := {
  penalize_provider : Did -> X -> X;
  penalize_false_disputer : Did -> X -> X }.

Class EscrowHandler (X : Type) := {
  escrow_lock : CommitmentId -> AccountId -> AccountId -> Balance -> Dispatch X unit;
  escrow_release : CommitmentId -> Dispatch X unit;
  escrow_refund : CommitmentId -> Dispatch X unit }.

(** The implementations for [()]. *)
Definition unit_agent_lookup : AgentLookup unit := {|
  controller_of _ _ := None; is_active_verified _ _ := false |}.
Definition unit_reputation_handler : ReputationHandler unit := {|
  penalize_provider _ x := x; penalize_false_disputer _ x := x |}.
Definition unit_escrow_handler : EscrowHandler unit := {|
  escrow_lock _ _ _ _ := ret tt; escrow_release _ := ret tt; escrow_refund _ := ret tt |}.

Module VectorDb.

Definition MAX_METADATA_LEN : Z := 256.
Definition MAX_CHUNK_LEN : Z := 1024.
Definition MAX_PROOF_DEPTH : Z := 32.

Inductive CommitmentStatus : Type :=
  | Pending
  | Active
  | Settled
  | Disputed
  | DisputeResolved
  | Expired.

#[global] Instance commitment_status_eq_dec : EqDecision CommitmentStatus.
Proof. solve_decision. Defined.

Record VectorCommitment : Type := mkCommitment {
  commitment_id : CommitmentId;
  provider : Did;
  consumer : Did;
  merkle_root : MerkleRoot;
  total_chunks : Z;
  metadata : bytes;
  status : CommitmentStatus;
  created_at : BlockNumber;
  expires_at : BlockNumber;
  acknowledged_at : option BlockNumber;
  price : Balance }.

Record StreamReceipt : Type := mkReceipt {
  sr_commitment_id : CommitmentId;
  sr_final_stream_hash : MerkleRoot;
  sr_chunk_count : Z;
  sr_submitted_at : BlockNumber }.

Inductive DisputeVerdict : Type := ProviderGuilty | ClaimantUnsubstantiated.

#[global] Instance dispute_verdict_eq_dec : EqDecision DisputeVerdict.
Proof. solve_decision. Defined.

Record DisputeRecord : Type := mkDispute {
  dr_commitment_id : CommitmentId;
  dr_merkle_root : MerkleRoot;
  received_chunk_hash : bytes;
  disputed_chunk_index : ChunkIndex;
  raised_at : BlockNumber;
  counter_deadline : BlockNumber;
  verdict : option DisputeVerdict }.

(** The constants of [pallet::Config]. *)
Record Config : Type := mkConfig {
  DisputeWindow : BlockNumber;
  MaxCommitmentLifetime : BlockNumber;
  ProviderGuiltySlash : Z;
  FalseDisputeSlash : Z }.

Inductive Event : Type :=
  | CommitmentRegistered (id : CommitmentId) (provider consumer : Did) (root : MerkleRoot)
      (total_chunks : Z) (expires_at : BlockNumber) (metadata : bytes)
  | CommitmentAcknowledged (id : CommitmentId) (acknowledged_at : BlockNumber)
  | CommitmentSettled (id : CommitmentId) (final_stream_hash : MerkleRoot) (chunk_count : Z)
  | DisputeRaised (id : CommitmentId) (root : MerkleRoot) (index : ChunkIndex)
      (received_chunk_hash : bytes) (counter_deadline : BlockNumber)
  | DisputeCountered (id : CommitmentId) (verdict : DisputeVerdict)
  | DisputeFinalized (id : CommitmentId) (verdict : DisputeVerdict) (provider consumer : Did)
  | CommitmentExpired (id : CommitmentId).

(** The pallet's storage and event log, with the rest of the chain. *)
Record State (X : Type) : Type := mkState {
  vector_commitments : gmap CommitmentId VectorCommitment;
  active_commitment_count : Z;
  stream_receipts : gmap CommitmentId StreamReceipt;
  dispute_records : gmap CommitmentId DisputeRecord;
  dispute_window_override : option BlockNumber;
  events : list Event;
  ext : X }.
Arguments mkState {X}.
Arguments vector_commitments {X} s.
Arguments active_commitment_count {X} s.
Arguments stream_receipts {X} s.
Arguments dispute_records {X} s.
Arguments dispute_window_override {X} s.
Arguments events {X} s.
Arguments ext {X} s.

(** [GenesisConfig::build]: the override is stored when the chain spec sets one. *)
Definition genesis_build {X} (dispute_window : option BlockNumber) (x : X) : State X :=
  mkState ∅ 0 ∅ ∅ dispute_window [] x.

Section Writes.
Context {X : Type}.
Implicit Types s : State X.

Definition insert_commitment (id : CommitmentId) (c : VectorCommitment) s : State X :=
  mkState (<[id := c]> (vector_commitments s)) (active_commitment_count s) (stream_receipts s)
    (dispute_records s) (dispute_window_override s) (events s) (ext s).
Definition remove_commitment (id : CommitmentId) s : State X :=
  mkState (delete id (vector_commitments s)) (active_commitment_count s) (stream_receipts s)
    (dispute_records s) (dispute_window_override s) (events s) (ext s).
Definition set_count (f : Z -> Z) s : State X :=
  mkState (vector_commitments s) (f (active_commitment_count s)) (stream_receipts s)
    (dispute_records s) (dispute_window_override s) (events s) (ext s).
Definition insert_receipt (id : CommitmentId) (r : StreamReceipt) s : State X :=
  mkState (vector_commitments s) (active_commitment_count s) (<[id := r]> (stream_receipts s))
    (dispute_records s) (dispute_window_override s) (events s) (ext s).
Definition insert_dispute (id : CommitmentId) (d : DisputeRecord) s : State X :=
  mkState (vector_commitments s) (active_commitment_count s) (stream_receipts s)
    (<[id := d]> (dispute_records s)) (dispute_window_override s) (events s) (ext s).
Definition deposit_event (e : Event) s : State X :=
  mkState (vector_commitments s) (active_commitment_count s) (stream_receipts s)
    (dispute_records s) (dispute_window_override s) (events s ++ [e]) (ext s).
Definition set_ext (x : X) s : State X :=
  mkState (vector_commitments s) (active_commitment_count s) (stream_receipts s)
    (dispute_records s) (dispute_window_override s) (events s) x.
End Writes.

Definition with_status (st : CommitmentStatus) (c : VectorCommitment) : VectorCommitment :=
  mkCommitment (commitment_id c) (provider c) (consumer c) (merkle_root c) (total_chunks c)
    (metadata c) st (created_at c) (expires_at c) (acknowledged_at c) (price c).
Definition with_ack (b : BlockNumber) (c : VectorCommitment) : VectorCommitment :=
  mkCommitment (commitment_id c) (provider c) (consumer c) (merkle_root c) (total_chunks c)
    (metadata c) Active (created_at c) (expires_at c) (Some b) (price c).
Definition with_verdict (v : DisputeVerdict) (d : DisputeRecord) : DisputeRecord :=
  mkDispute (dr_commitment_id d) (dr_merkle_root d) (received_chunk_hash d)
    (disputed_chunk_index d) (raised_at d) (counter_deadline d) (Some v).

Section Pallet.
Context {X : Type} `{AgentLookup X} `{ReputationHandler X} `{EscrowHandler X}.
Context `{Blake2} `{ScaleCodec} `{RsMerkle}.
(** [usize_bits]: the pointer width of the target the runtime is compiled to, which
    decides what [as usize] keeps of a [u64]. *)
Context (cfg : Config) (usize_bits : Z) (sys : System).

Definition effective_dispute_window (s : State X) : BlockNumber :=
  default (DisputeWindow cfg) (dispute_window_override s).

Definition on_ext {A} (m : Dispatch X A) : Dispatch (State X) A := zoom ext set_ext m.

(** [T::AgentRegistry::controller_of(did).ok_or(e)?] and the eligibility test. *)
Definition get_controller (d : Did) (e : VectorDbError) : Dispatch (State X) AccountId :=
  found <- gets (fun s => controller_of (ext s) d) ;;
  ok_or found (VectorDbModule e).
Definition ensure_active_verified (d : Did) (e : VectorDbError) : Dispatch (State X) unit :=
  b <- gets (fun s => is_active_verified (ext s) d) ;;
  ensure b (VectorDbModule e).
Definition get_commitment (id : CommitmentId) : Dispatch (State X) VectorCommitment :=
  found <- gets (fun s => vector_commitments s !! id) ;;
  ok_or found (VectorDbModule CommitmentNotFound).
Definition get_dispute (id : CommitmentId) : Dispatch (State X) DisputeRecord :=
  found <- gets (fun s => dispute_records s !! id) ;;
  ok_or found (VectorDbModule CommitmentNotFound).

(** [blake2_256("ArthNeura-Vector-v1" ++ provider ++ consumer ++ root ++ block)]. *)
Definition commitment_preimage (p c : Did) (root : MerkleRoot) (b : BlockNumber) : bytes :=
  bstr "ArthNeura-Vector-v1" ++ p ++ c ++ root ++ encode_u32 b.
Definition derive_commitment_id (p c : Did) (root : MerkleRoot) (b : BlockNumber) : CommitmentId :=
  blake2_256 (commitment_preimage p c root b).

Definition register_commitment (origin : Origin) (provider_did consumer_did : Did)
    (root : MerkleRoot) (chunks : Z) (meta : bytes) (expires_in_blocks : BlockNumber)
    (price : Balance) : Dispatch (State X) unit :=
  caller <- ensure_signed origin ;;
  ensure (negb (bool_decide (provider_did = consumer_did))) (VectorDbModule SelfTrade) ;;;
  ensure (0 <? chunks) (VectorDbModule TotalChunksMustBePositive) ;;;
  ensure (negb (bool_decide (root = zeros32))) (VectorDbModule InvalidMerkleRoot) ;;;
  provider_controller <- get_controller provider_did ProviderNotEligible ;;
  ensure (bool_decide (provider_controller = caller)) (VectorDbModule NotProvider) ;;;
  ensure_active_verified provider_did ProviderNotEligible ;;;
  ensure_active_verified consumer_did ConsumerNotEligible ;;;
  let current_block := block_number sys in
  ensure (0 <? expires_in_blocks) (VectorDbModule ExpiryMustBePositive) ;;;
  ensure (expires_in_blocks <=? MaxCommitmentLifetime cfg) (VectorDbModule ExpiryTooFar) ;;;
  let expires := sat_add u32_max current_block expires_in_blocks in
  let id := derive_commitment_id provider_did consumer_did root current_block in
  taken <- gets (fun s => bool_decide (is_Some (vector_commitments s !! id))) ;;
  ensure (negb taken) (VectorDbModule CommitmentAlreadyExists) ;;;
  let commitment :=
    mkCommitment id provider_did consumer_did root chunks meta Pending current_block expires
      None price in
  modify (insert_commitment id commitment) ;;;
  modify (set_count (fun n => sat_add u32_max n 1)) ;;;
  modify (deposit_event
            (CommitmentRegistered id provider_did consumer_did root chunks expires meta)).

Definition acknowledge_commitment (origin : Origin) (id : CommitmentId) (consumer_did : Did)
    : Dispatch (State X) unit :=
  caller <- ensure_signed origin ;;
  commitment <- get_commitment id ;;
  ensure (bool_decide (status commitment = Pending)) (VectorDbModule NotPending) ;;;
  let current_block := block_number sys in
  ensure (current_block <? expires_at commitment) (VectorDbModule CommitmentExpiredError) ;;;
  ensure (bool_decide (consumer commitment = consumer_did)) (VectorDbModule NotConsumer) ;;;
  consumer_controller <- get_controller consumer_did ConsumerNotEligible ;;
  ensure (bool_decide (consumer_controller = caller)) (VectorDbModule NotConsumer) ;;;
  ensure_active_verified consumer_did ConsumerNotEligible ;;;
  provider_controller <- get_controller (provider commitment) ProviderNotEligible ;;
  on_ext (escrow_lock id caller provider_controller (price commitment)) ;;;
  modify (insert_commitment id (with_ack current_block commitment)) ;;;
  modify (deposit_event (CommitmentAcknowledged id current_block)).

Definition close_commitment (origin : Origin) (id : CommitmentId) (consumer_did : Did)
    (final_stream_hash : MerkleRoot) (chunk_count : Z) : Dispatch (State X) unit :=
  caller <- ensure_signed origin ;;
  commitment <- get_commitment id ;;
  ensure (bool_decide (status commitment = Active)) (VectorDbModule NotActive) ;;;
  let current_block := block_number sys in
  ensure (current_block <? expires_at commitment) (VectorDbModule CommitmentExpiredError) ;;;
  ensure (bool_decide (consumer commitment = consumer_did)) (VectorDbModule NotConsumer) ;;;
  consumer_controller <- get_controller consumer_did ConsumerNotEligible ;;
  ensure (bool_decide (consumer_controller = caller)) (VectorDbModule NotConsumer) ;;;
  ensure_active_verified consumer_did ConsumerNotEligible ;;;
  ensure (bool_decide (final_stream_hash = merkle_root commitment))
    (VectorDbModule StreamHashMismatch) ;;;
  modify (insert_receipt id (mkReceipt id final_stream_hash chunk_count current_block)) ;;;
  modify (insert_commitment id (with_status Settled commitment)) ;;;
  modify (set_count (fun n => sat_sub n 1)) ;;;
  on_ext (escrow_release id) ;;;
  modify (deposit_event (CommitmentSettled id final_stream_hash chunk_count)).

Definition raise_dispute (origin : Origin) (id : CommitmentId) (consumer_did : Did)
    (disputed_index : ChunkIndex) (received_hash : bytes) (_chunk_count : Z)
    : Dispatch (State X) unit :=
  caller <- ensure_signed origin ;;
  commitment <- get_commitment id ;;
  ensure (bool_decide (status commitment = Active)) (VectorDbModule NotActive) ;;;
  ensure (bool_decide (consumer commitment = consumer_did)) (VectorDbModule NotConsumer) ;;;
  let current_block := block_number sys in
  ensure (current_block <? expires_at commitment) (VectorDbModule CommitmentExpiredError) ;;;
  consumer_controller <- get_controller consumer_did ConsumerNotEligible ;;
  ensure (bool_decide (consumer_controller = caller)) (VectorDbModule NotConsumer) ;;;
  ensure_active_verified consumer_did ConsumerNotEligible ;;;
  raised <- gets (fun s => bool_decide (is_Some (dispute_records s !! id))) ;;
  ensure (negb raised) (VectorDbModule DisputeAlreadyRaised) ;;;
  ensure (disputed_index <? total_chunks commitment) (VectorDbModule ChunkIndexOutOfBounds) ;;;
  window <- gets effective_dispute_window ;;
  let deadline := sat_add u32_max current_block window in
  modify (insert_dispute id
    (mkDispute id (merkle_root commitment) received_hash disputed_index current_block deadline None)) ;;;
  modify (insert_commitment id (with_status Disputed commitment)) ;;;
  modify (deposit_event
            (DisputeRaised id (merkle_root commitment) disputed_index received_hash deadline)).

Definition counter_dispute (origin : Origin) (id : CommitmentId) (provider_did : Did)
    (chunk_data : bytes) (merkle_proof : list bytes) : Dispatch (State X) unit :=
  caller <- ensure_signed origin ;;
  commitment <- get_commitment id ;;
  ensure (bool_decide (status commitment = Disputed)) (VectorDbModule NotDisputed) ;;;
  ensure (bool_decide (provider commitment = provider_did)) (VectorDbModule NotProvider) ;;;
  provider_controller <- get_controller provider_did ProviderNotEligible ;;
  ensure (bool_decide (provider_controller = caller)) (VectorDbModule NotProvider) ;;;
  ensure_active_verified provider_did ProviderNotEligible ;;;
  let current_block := block_number sys in
  dispute <- get_dispute id ;;
  ensure (current_block <=? counter_deadline dispute) (VectorDbModule DisputeWindowExpired) ;;;
  ensure (disputed_chunk_index dispute <? total_chunks commitment)
    (VectorDbModule ChunkIndexOutOfBounds) ;;;
  let leaf_hash := blake2_256 chunk_data in
  ensure (merkle_verify OnChain.Blake2bHasher merkle_proof (merkle_root commitment)
            [Z.to_nat (as_usize usize_bits (disputed_chunk_index dispute))] [leaf_hash]
            (Z.to_nat (as_usize usize_bits (total_chunks commitment))))
    (VectorDbModule InvalidMerkleProof) ;;;
  modify (insert_dispute id (with_verdict ClaimantUnsubstantiated dispute)) ;;;
  modify (insert_commitment id (with_status DisputeResolved commitment)) ;;;
  modify (set_count (fun n => sat_sub n 1)) ;;;
  on_ext (escrow_release id) ;;;
  on_ext (modify (penalize_false_disputer (consumer commitment))) ;;;
  modify (deposit_event (DisputeCountered id ClaimantUnsubstantiated)).

Definition finalize_dispute (origin : Origin) (id : CommitmentId) : Dispatch (State X) unit :=
  ensure_signed origin ;;;
  commitment <- get_commitment id ;;
  ensure (bool_decide (status commitment = Disputed)) (VectorDbModule NotDisputed) ;;;
  let current_block := block_number sys in
  dispute <- get_dispute id ;;
  ensure (counter_deadline dispute <? current_block) (VectorDbModule DisputeWindowStillOpen) ;;;
  modify (insert_dispute id (with_verdict ProviderGuilty dispute)) ;;;
  modify (insert_commitment id (with_status DisputeResolved commitment)) ;;;
  modify (set_count (fun n => sat_sub n 1)) ;;;
  on_ext (escrow_refund id) ;;;
  on_ext (modify (penalize_provider (provider commitment))) ;;;
  modify (deposit_event
            (DisputeFinalized id ProviderGuilty (provider commitment) (consumer commitment))).

Definition expire_commitment (origin : Origin) (id : CommitmentId) : Dispatch (State X) unit :=
  ensure_signed origin ;;;
  commitment <- get_commitment id ;;
  ensure (bool_decide (status commitment = Pending \/ status commitment = Active))
    (VectorDbModule AlreadyFinalized) ;;;
  let current_block := block_number sys in
  ensure (expires_at commitment <=? current_block) (VectorDbModule NotYetExpired) ;;;
  modify (remove_commitment id) ;;;
  modify (set_count (fun n => sat_sub n 1)) ;;;
  modify (deposit_event (CommitmentExpired id)).

(** [#[pallet::call]]: the extrinsics as data, and their dispatch. *)
Inductive Call : Type :=
  | RegisterCommitment (provider_did consumer_did : Did) (root : MerkleRoot) (chunks : Z)
      (meta : bytes) (expires_in_blocks : BlockNumber) (price : Balance)
  | AcknowledgeCommitment (id : CommitmentId) (consumer_did : Did)
  | CloseCommitment (id : CommitmentId) (consumer_did : Did) (final_stream_hash : MerkleRoot)
      (chunk_count : Z)
  | RaiseDispute (id : CommitmentId) (consumer_did : Did) (disputed_index : ChunkIndex)
      (received_hash : bytes) (chunk_count : Z)
  | CounterDispute (id : CommitmentId) (provider_did : Did) (chunk_data : bytes)
      (merkle_proof : list bytes)
  | FinalizeDispute (id : CommitmentId)
  | ExpireCommitment (id : CommitmentId).

Definition exec (origin : Origin) (c : Call) : Dispatch (State X) unit :=
  match c with
  | RegisterCommitment p q root n meta e v => register_commitment origin p q root n meta e v
  | AcknowledgeCommitment id q => acknowledge_commitment origin id q
  | CloseCommitment id q h n => close_commitment origin id q h n
  | RaiseDispute id q i h n => raise_dispute origin id q i h n
  | CounterDispute id p data proof => counter_dispute origin id p data proof
  | FinalizeDispute id => finalize_dispute origin id
  | ExpireCommitment id => expire_commitment origin id
  end.

(** The ranges of the argument types: unsigned integers, 32-byte arrays, bounded
    vectors. *)
Definition call_wf (c : Call) : Prop :=
  match c with
  | RegisterCommitment p q root n meta e v =>
      len32 p /\ len32 q /\ len32 root /\ in_u64 n /\
      Z.of_nat (length meta) <= MAX_METADATA_LEN /\ in_u32 e /\ in_u128 v
  | AcknowledgeCommitment id q => len32 id /\ len32 q
  | CloseCommitment id q h n => len32 id /\ len32 q /\ len32 h /\ in_u64 n
  | RaiseDispute id q i h n => len32 id /\ len32 q /\ in_u64 i /\ len32 h /\ in_u64 n
  | CounterDispute id p data proof =>
      len32 id /\ len32 p /\ Z.of_nat (length data) <= MAX_CHUNK_LEN /\
      Z.of_nat (length proof) <= MAX_PROOF_DEPTH /\ Forall len32 proof
  | FinalizeDispute id | ExpireCommitment id => len32 id
  end.
End Pallet.

End VectorDb.
