(* ===== verification/VectorDbTheory.v ===== *)
(** * VectorDbTheory: what the commitment pallet guarantees

    The successful calls of [VectorDb] in closed form, the contract it asks of the
    escrow behind [EscrowHandler], and the invariants of commitments, disputes,
    receipts and escrow proved against that contract. *)

From stdpp Require Import base gmap list strings relations.
From Stdlib Require Import ZArith Lia.
From S2P Require Import Prelude Frame Merkle VectorDb.

Local Open Scope arth_scope.

Module VectorDbTheory.
Import VectorDb.

(** ** Successful calls *)

Section Calls.
Context {X : Type} `{AgentLookup X} `{ReputationHandler X} `{EscrowHandler X}.
Context `{Blake2} `{ScaleCodec} `{RsMerkle}.
Context (cfg : Config) (ub : Z) (sys : System).
Implicit Types s : State X.

(** [who] may act for [d]: it controls the DID, which is active and verified. *)
Definition acts_for s (who : AccountId) (d : Did) : Prop :=
  controller_of (ext s) d = Some who /\ is_active_verified (ext s) d = true.

Lemma register_commitment_ok o p q root n meta e v s s' :
  register_commitment cfg sys o p q root n meta e v s = (Ok tt, s') ->
  exists who, o = Signed who /\ p <> q /\ 0 < n /\ root <> zeros32 /\ acts_for s who p /\
    is_active_verified (ext s) q = true /\ 0 < e <= MaxCommitmentLifetime cfg /\
    let id := derive_commitment_id p q root (block_number sys) in
    let ex := sat_add u32_max (block_number sys) e in
    vector_commitments s !! id = None /\
    s' = deposit_event (CommitmentRegistered id p q root n ex meta)
           (set_count (fun k => sat_add u32_max k 1)
              (insert_commitment id
                 (mkCommitment id p q root n meta Pending (block_number sys) ex None v) s)).
Proof.
  unfold register_commitment, get_controller, ensure_active_verified. intros Hr. frame_inv.
  eexists; split_and!; try done. by apply eq_None_not_Some.
Qed.

Lemma acknowledge_commitment_ok o id q s s' :
  acknowledge_commitment sys o id q s = (Ok tt, s') ->
  exists who c pc x', o = Signed who /\ vector_commitments s !! id = Some c /\ status c = Pending /\
    block_number sys < expires_at c /\ consumer c = q /\ acts_for s who q /\
    controller_of (ext s) (provider c) = Some pc /\
    escrow_lock id who pc (price c) (ext s) = (Ok tt, x') /\
    s' = deposit_event (CommitmentAcknowledged id (block_number sys))
           (insert_commitment id (with_ack (block_number sys) c) (set_ext x' s)).
Proof.
  unfold acknowledge_commitment, get_controller, ensure_active_verified, get_commitment, on_ext.
  intros Hr. frame_inv. eexists _, _, _, _; split_and!; done.
Qed.

Lemma close_commitment_ok o id q h n s s' :
  close_commitment sys o id q h n s = (Ok tt, s') ->
  exists who c x', o = Signed who /\ vector_commitments s !! id = Some c /\ status c = Active /\
    block_number sys < expires_at c /\ consumer c = q /\ acts_for s who q /\ h = merkle_root c /\
    escrow_release id (ext s) = (Ok tt, x') /\
    s' = deposit_event (CommitmentSettled id h n)
           (set_ext x' (set_count (fun k => sat_sub k 1)
              (insert_commitment id (with_status Settled c)
                 (insert_receipt id (mkReceipt id h n (block_number sys)) s)))).
Proof.
  unfold close_commitment, get_controller, ensure_active_verified, get_commitment, on_ext.
  intros Hr. frame_inv. eexists _, _, _; split_and!; done.
Qed.

(** The conditions under which the two calls of a consumer succeed. *)
Lemma acknowledge_total who id s c pc x' :
  vector_commitments s !! id = Some c -> status c = Pending -> block_number sys < expires_at c ->
  acts_for s who (consumer c) -> controller_of (ext s) (provider c) = Some pc ->
  escrow_lock id who pc (price c) (ext s) = (Ok tt, x') ->
  acknowledge_commitment sys (Signed who) id (consumer c) s =
    (Ok tt, deposit_event (CommitmentAcknowledged id (block_number sys))
              (insert_commitment id (with_ack (block_number sys) c) (set_ext x' s))).
Proof.
  intros Hc Hst Hb [Hq Hv] Hp Hx.
  unfold acknowledge_commitment, get_commitment, get_controller, ensure_active_verified, on_ext, ensure_signed, zoom,
    bind, gets, ok_or, ensure, modify, ret.
  rewrite Hc, (bool_decide_eq_true_2 _ Hst), (proj2 (Z.ltb_lt _ _) Hb). rewrite bool_decide_eq_true_2 by done.
  rewrite Hq. rewrite bool_decide_eq_true_2 by done. rewrite Hv, Hp, Hx. done.
Qed.

Lemma close_total who id n s c x' :
  vector_commitments s !! id = Some c -> status c = Active -> block_number sys < expires_at c ->
  acts_for s who (consumer c) -> escrow_release id (ext s) = (Ok tt, x') ->
  close_commitment sys (Signed who) id (consumer c) (merkle_root c) n s =
    (Ok tt, deposit_event (CommitmentSettled id (merkle_root c) n)
              (set_ext x' (set_count (fun k => sat_sub k 1)
                 (insert_commitment id (with_status Settled c)
                    (insert_receipt id (mkReceipt id (merkle_root c) n (block_number sys)) s))))).
Proof.
  intros Hc Hst Hb [Hq Hv] Hx.
  unfold close_commitment, get_commitment, get_controller, ensure_active_verified, on_ext, ensure_signed, zoom,
    bind, gets, ok_or, ensure, modify, ret.
  rewrite Hc, (bool_decide_eq_true_2 _ Hst), (proj2 (Z.ltb_lt _ _) Hb). rewrite bool_decide_eq_true_2 by done.
  rewrite Hq. rewrite bool_decide_eq_true_2 by done. rewrite Hv. rewrite bool_decide_eq_true_2 by done.
  cbn [ext set_count insert_commitment insert_receipt]. rewrite Hx. done.
Qed.

Lemma raise_dispute_ok o id q i h n s s' :
  raise_dispute cfg sys o id q i h n s = (Ok tt, s') ->
  exists who c, o = Signed who /\ vector_commitments s !! id = Some c /\ status c = Active /\
    consumer c = q /\ block_number sys < expires_at c /\ acts_for s who q /\
    dispute_records s !! id = None /\ i < total_chunks c /\
    let dl := sat_add u32_max (block_number sys) (effective_dispute_window cfg s) in
    s' = deposit_event (DisputeRaised id (merkle_root c) i h dl)
           (insert_commitment id (with_status Disputed c)
              (insert_dispute id (mkDispute id (merkle_root c) h i (block_number sys) dl None) s)).
Proof.
  unfold raise_dispute, get_controller, ensure_active_verified, get_commitment.
  intros Hr. frame_inv. eexists _, _; split_and!; try done. by apply eq_None_not_Some.
Qed.

Lemma counter_dispute_ok o id p data proof s s' :
  counter_dispute ub sys o id p data proof s = (Ok tt, s') ->
  exists who c d x', o = Signed who /\ vector_commitments s !! id = Some c /\ status c = Disputed /\
    provider c = p /\ acts_for s who p /\ dispute_records s !! id = Some d /\
    block_number sys <= counter_deadline d /\ disputed_chunk_index d < total_chunks c /\
    merkle_verify OnChain.Blake2bHasher proof (merkle_root c)
      [Z.to_nat (as_usize ub (disputed_chunk_index d))] [blake2_256 data]
      (Z.to_nat (as_usize ub (total_chunks c))) = true /\
    escrow_release id (ext s) = (Ok tt, x') /\
    s' = deposit_event (DisputeCountered id ClaimantUnsubstantiated)
           (set_ext (penalize_false_disputer (consumer c) x') (set_count (fun k => sat_sub k 1)
              (insert_commitment id (with_status DisputeResolved c)
                 (insert_dispute id (with_verdict ClaimantUnsubstantiated d) s)))).
Proof.
  unfold counter_dispute, get_controller, ensure_active_verified, get_commitment, get_dispute, on_ext.
  intros Hr. frame_inv. eexists _, _, _, _; split_and!; done.
Qed.

Lemma counter_dispute_intro who id data proof s c d x' :
  vector_commitments s !! id = Some c -> status c = Disputed -> acts_for s who (provider c) ->
  dispute_records s !! id = Some d -> block_number sys <= counter_deadline d ->
  disputed_chunk_index d < total_chunks c ->
  merkle_verify OnChain.Blake2bHasher proof (merkle_root c)
    [Z.to_nat (as_usize ub (disputed_chunk_index d))] [blake2_256 data]
    (Z.to_nat (as_usize ub (total_chunks c))) = true ->
  escrow_release id (ext s) = (Ok tt, x') ->
  counter_dispute ub sys (Signed who) id (provider c) data proof s =
    (Ok tt, deposit_event (DisputeCountered id ClaimantUnsubstantiated)
           (set_ext (penalize_false_disputer (consumer c) x') (set_count (fun k => sat_sub k 1)
              (insert_commitment id (with_status DisputeResolved c)
                 (insert_dispute id (with_verdict ClaimantUnsubstantiated d) s))))).
Proof.
  intros Hc Hst [Hco Hav] Hd Hdl Hi Hv Hx.
  unfold counter_dispute, get_controller, ensure_active_verified, get_commitment, get_dispute, on_ext, ensure_signed.
  unfold bind, gets, ok_or, ensure, zoom, modify, ret.
  rewrite Hc, (bool_decide_eq_true_2 _ Hst), (bool_decide_eq_true_2 (provider c = _) eq_refl), Hco.
  rewrite (bool_decide_eq_true_2 (who = who) eq_refl), Hav, Hd.
  rewrite (proj2 (Z.leb_le _ _) Hdl), (proj2 (Z.ltb_lt _ _) Hi), Hv. cbn. by rewrite Hx.
Qed.

(** A proof accepted for a tree over [cs] is for the chunk at the disputed index,
    or exhibits a collision among what was hashed. *)
Lemma counter_dispute_sound `{!RsMerkleLaws} o id p data proof s s' c d (cs : list bytes) :
  counter_dispute ub sys o id p data proof s = (Ok tt, s') ->
  vector_commitments s !! id = Some c -> dispute_records s !! id = Some d ->
  0 <= disputed_chunk_index d -> 0 <= ub -> total_chunks c = Z.of_nat (length cs) -> total_chunks c < 2 ^ ub ->
  Merkle.merkle_root OnChain.Blake2bHasher (blake2_256 <$> cs) = Some (merkle_root c) ->
  let i := Z.to_nat (disputed_chunk_index d) in
  let leaves := blake2_256 <$> cs in
  exists x, cs !! i = Some x /\
    (x = data \/ (x <> data /\ blake2_256 x = blake2_256 data) \/
     Reference.collides OnChain.Blake2bHasher
       (Reference.tree_pairs OnChain.Blake2bHasher (length leaves) leaves)
       (Reference.path_pairs OnChain.Blake2bHasher (length leaves) (length leaves) i (blake2_256 data) proof)).
Proof.
  intros (who & c' & d' & x' & _ & Hc' & _ & _ & _ & Hd' & _ & Hi & Hv & _)%counter_dispute_ok Hc Hd Hi0 Hub Hn Hlt Hr.
  rewrite Hc in Hc'. rewrite Hd in Hd'. injection Hc' as <-. injection Hd' as <-. cbn zeta. rewrite !as_usize_small in Hv by lia. rewrite Hn, Nat2Z.id in Hv.
  destruct (lookup_lt_is_Some_2 cs (Z.to_nat (disputed_chunk_index d))) as [x Hx]; [lia|].
  exists x. split; [done|]. rewrite <- (length_fmap blake2_256 cs) in Hv.
  apply (merkle_sound _ _ _ _ _ _ onchain_hasher_ok Hr) in Hv as [E|Hcol]; [|by right; right|rewrite length_fmap; lia].
  rewrite list_lookup_fmap, Hx in E. cbn in E. apply Some_inj in E.
  destruct (decide (x = data)); [by left|]. right. by left.
Qed.

Lemma finalize_dispute_ok o id s s' :
  finalize_dispute sys o id s = (Ok tt, s') ->
  exists who c d x', o = Signed who /\ vector_commitments s !! id = Some c /\ status c = Disputed /\
    dispute_records s !! id = Some d /\ counter_deadline d < block_number sys /\
    escrow_refund id (ext s) = (Ok tt, x') /\
    s' = deposit_event (DisputeFinalized id ProviderGuilty (provider c) (consumer c))
           (set_ext (penalize_provider (provider c) x') (set_count (fun k => sat_sub k 1)
              (insert_commitment id (with_status DisputeResolved c)
                 (insert_dispute id (with_verdict ProviderGuilty d) s)))).
Proof.
  unfold finalize_dispute, get_commitment, get_dispute, on_ext.
  intros Hr. frame_inv. eexists _, _, _, _; split_and!; done.
Qed.

Lemma expire_commitment_ok o id s s' :
  expire_commitment sys o id s = (Ok tt, s') ->
  exists who c, o = Signed who /\ vector_commitments s !! id = Some c /\
    (status c = Pending \/ status c = Active) /\ expires_at c <= block_number sys /\
    s' = deposit_event (CommitmentExpired id)
           (set_count (fun k => sat_sub k 1) (remove_commitment id s)).
Proof.
  unfold expire_commitment, get_commitment. intros Hr. frame_inv. eexists _, _; split_and!; done.
Qed.

(** ** Failing calls that write nothing *)

#[global] Instance register_commitment_noop o p q root n meta e v :
  ErrNoop (S := State X) (register_commitment cfg sys o p q root n meta e v).
Proof. unfold register_commitment, get_controller, ensure_active_verified. noop_tac. Qed.

#[global] Instance acknowledge_commitment_noop o id q :
  (forall a b v, ErrNoop (escrow_lock (X := X) id a b v)) -> ErrNoop (S := State X) (acknowledge_commitment sys o id q).
Proof.
  intros Hl. unfold acknowledge_commitment, get_controller, ensure_active_verified, get_commitment, on_ext. noop_tac.
  apply Hl.
Qed.

#[global] Instance raise_dispute_noop o id q i h n :
  ErrNoop (S := State X) (raise_dispute cfg sys o id q i h n).
Proof. unfold raise_dispute, get_controller, ensure_active_verified, get_commitment. noop_tac. Qed.

#[global] Instance expire_commitment_noop o id : ErrNoop (S := State X) (expire_commitment sys o id).
Proof. unfold expire_commitment, get_commitment. noop_tac. Qed.
End Calls.

(** What a successful call of any kind did. *)
Ltac call_ok Hr := first
  [ apply register_commitment_ok in Hr | apply acknowledge_commitment_ok in Hr | apply close_commitment_ok in Hr
  | apply raise_dispute_ok in Hr | apply counter_dispute_ok in Hr | apply finalize_dispute_ok in Hr
  | apply expire_commitment_ok in Hr ].

(** ** The escrow contract

    What the pallet relies on when it asks for money to move, in terms of the phase
    of the escrow kept under a commitment id. *)

Inductive Phase : Type := Held | Paid | Returned.

Class EscrowContract (X : Type) `{ReputationHandler X} `{EscrowHandler X} := {
  phase : X -> CommitmentId -> option Phase;
  lock_contract : forall id p q v x x', escrow_lock id p q v x = (Ok tt, x') ->
    phase x id = None /\ forall k, phase x' k = if decide (k = id) then Some Held else phase x k;
  release_contract : forall id x x', escrow_release id x = (Ok tt, x') ->
    phase x id = Some Held /\ forall k, phase x' k = if decide (k = id) then Some Paid else phase x k;
  refund_contract : forall id x x', escrow_refund id x = (Ok tt, x') ->
    phase x id = Some Held /\ forall k, phase x' k = if decide (k = id) then Some Returned else phase x k;
  refund_total : forall id x, phase x id = Some Held -> exists x', escrow_refund id x = (Ok tt, x');
  penalize_provider_frame : forall d x k, phase (penalize_provider d x) k = phase x k;
  penalize_disputer_frame : forall d x k, phase (penalize_false_disputer d x) k = phase x k }.

(** ** The life of one commitment id *)

(** Everything stored under one id. *)
Record View : Type := mkView {
  v_commitment : option VectorCommitment;
  v_dispute : option DisputeRecord;
  v_receipt : option StreamReceipt;
  v_phase : option Phase }.

Definition wf_commitment (id : CommitmentId) (c : VectorCommitment) : Prop :=
  commitment_id c = id /\ provider c <> consumer c /\ 0 < total_chunks c <= u64_max /\
  len32 (merkle_root c) /\ merkle_root c <> zeros32 /\ created_at c <= expires_at c <= u32_max /\
  Z.of_nat (length (metadata c)) <= MAX_METADATA_LEN /\ in_u128 (price c).

Definition wf_dispute (id : CommitmentId) (c : VectorCommitment) (d : DisputeRecord) : Prop :=
  dr_commitment_id d = id /\ dr_merkle_root d = merkle_root c /\
  0 <= disputed_chunk_index d < total_chunks c /\ raised_at d < expires_at c.

Definition wf_receipt (id : CommitmentId) (c : VectorCommitment) (r : StreamReceipt) : Prop :=
  sr_commitment_id r = id /\ sr_final_stream_hash r = merkle_root c /\ sr_submitted_at r < expires_at c.

Definition acknowledged (c : VectorCommitment) : Prop :=
  exists b, acknowledged_at c = Some b /\ b < expires_at c.

(** Where the money of a resolved dispute is. *)
Definition phase_of (v : DisputeVerdict) : Phase :=
  match v with ProviderGuilty => Returned | ClaimantUnsubstantiated => Paid end.

(** What may be stored together under one id. *)
Definition coherent (id : CommitmentId) (w : View) : Prop :=
  match v_commitment w with
  | None => v_dispute w = None /\ v_receipt w = None
  | Some c =>
      wf_commitment id c /\
      match status c with
      | Pending => v_dispute w = None /\ v_receipt w = None /\ acknowledged_at c = None
      | Active => v_dispute w = None /\ v_receipt w = None /\ acknowledged c /\ v_phase w = Some Held
      | Settled => v_dispute w = None /\ acknowledged c /\ v_phase w = Some Paid /\
          exists r, v_receipt w = Some r /\ wf_receipt id c r
      | Disputed => v_receipt w = None /\ acknowledged c /\ v_phase w = Some Held /\
          exists d, v_dispute w = Some d /\ wf_dispute id c d /\ verdict d = None
      | DisputeResolved => v_receipt w = None /\ acknowledged c /\
          exists d v, v_dispute w = Some d /\ wf_dispute id c d /\ verdict d = Some v /\
            v_phase w = Some (phase_of v)
      | Expired => False
      end
  end.

(** The moves of the lifecycle. *)
Inductive life (id : CommitmentId) : View -> View -> Prop :=
  | life_register c od orc ph :
      wf_commitment id c -> status c = Pending -> acknowledged_at c = None ->
      life id (mkView None od orc ph) (mkView (Some c) od orc ph)
  | life_acknowledge c b od orc :
      status c = Pending -> b < expires_at c ->
      life id (mkView (Some c) od orc None) (mkView (Some (with_ack b c)) od orc (Some Held))
  | life_close c r od orc :
      status c = Active -> wf_receipt id c r ->
      life id (mkView (Some c) od orc (Some Held)) (mkView (Some (with_status Settled c)) od (Some r) (Some Paid))
  | life_raise c d orc ph :
      status c = Active -> wf_dispute id c d -> verdict d = None ->
      life id (mkView (Some c) None orc ph) (mkView (Some (with_status Disputed c)) (Some d) orc ph)
  | life_resolve c d v orc :
      status c = Disputed ->
      life id (mkView (Some c) (Some d) orc (Some Held))
        (mkView (Some (with_status DisputeResolved c)) (Some (with_verdict v d)) orc (Some (phase_of v)))
  | life_expire c od orc ph :
      (status c = Pending \/ status c = Active) ->
      life id (mkView (Some c) od orc ph) (mkView None od orc ph).

Lemma life_coherent id w w' : life id w w' -> coherent id w -> coherent id w'.
Proof.
  destruct 1 as [c od orc ph Hwf Hst Hack | c b od orc Hst Hb | c r od orc Hst Hr | c d orc ph Hst Hd Hv
                |c d v orc Hst|c od orc ph [Hst|Hst]]; cbn; intros Hc.
  - rewrite Hst. destruct Hc. done.
  - destruct Hc as [Hwf Hc]. rewrite Hst in Hc. split; [done|]. destruct Hc as (? & ? & _). by split_and!; try eexists.
  - destruct Hc as [Hwf Hc]. rewrite Hst in Hc. destruct Hc as (? & _ & ? & _). split_and!; eauto.
  - destruct Hc as [Hwf Hc]. rewrite Hst in Hc. destruct Hc as (_ & ? & ? & ?). split_and!; eauto.
  - destruct Hc as [Hwf Hc]. rewrite Hst in Hc. destruct Hc as (? & ? & _ & d' & [= <-] & ? & _).
    split_and!; try done. by exists (with_verdict v d), v.
  - destruct Hc as [_ Hc]. rewrite Hst in Hc. by destruct Hc as (? & ? & _).
  - destruct Hc as [_ Hc]. rewrite Hst in Hc. by destruct Hc as (? & ? & _).
Qed.

(** A settled or resolved commitment has no move left. *)
Lemma life_final id w w' c :
  life id w w' -> v_commitment w = Some c -> status c <> Settled /\ status c <> DisputeResolved.
Proof. destruct 1; cbn; intros; simplify_eq; try (destruct (status c); naive_solver). Qed.

(** Money held for an id whose commitment is gone: no move takes it out again. *)
Definition stranded (w : View) : Prop :=
  v_phase w = Some Held /\ forall c, v_commitment w = Some c -> status c = Pending.

Lemma life_stranded id w w' : life id w w' -> stranded w -> stranded w'.
Proof.
  unfold stranded.
  destruct 1 as [c od orc ph Hwf Hst Hack | c b od orc Hst Hb | c r od orc Hst Hr | c d orc ph Hst Hd Hv
                |c d v orc Hst|c od orc ph Hst]; cbn; intros [Hph Hc]; try done.
  - split; [done|]. intros ? [= <-]. done.
  - specialize (Hc _ eq_refl). congruence.
  - specialize (Hc _ eq_refl). congruence.
  - specialize (Hc _ eq_refl). congruence.
Qed.

(** Any number of moves, with pauses. *)
Definition lives (id : CommitmentId) : View -> View -> Prop := rtc (fun w w' => w' = w \/ life id w w').

Lemma lives_final id w w' c :
  lives id w w' -> v_commitment w = Some c -> (status c = Settled \/ status c = DisputeResolved) -> w' = w.
Proof.
  induction 1 as [|w w1 w' [->|Hl] _ IH]; intros Hc Hst; [done|by apply IH|].
  destruct (life_final _ _ _ _ Hl Hc). naive_solver.
Qed.

Lemma lives_stranded id w w' : lives id w w' -> stranded w -> stranded w'.
Proof. induction 1 as [|w w1 w' [->|Hl] _ IH]; [done|done|]. intros Hs. by eapply IH, life_stranded. Qed.

Section Steps.
Context {X : Type} `{AgentLookup X} `{ReputationHandler X} `{EscrowHandler X} `{!EscrowContract X}.
Context `{Blake2} `{ScaleCodec} `{RsMerkle}.
Context (cfg : Config) (ub : Z).
Implicit Types s : State X.

Definition view s (id : CommitmentId) : View :=
  mkView (vector_commitments s !! id) (dispute_records s !! id) (stream_receipts s !! id)
    (phase (ext s) id).

(** A successful extrinsic, or a change elsewhere on the chain that leaves the
    escrows as they are. *)
Inductive step (s s' : State X) : Prop :=
  | step_call sys o c : in_u32 (block_number sys) -> call_wf c ->
      exec cfg ub sys o c s = (Ok tt, s') -> step s s'
  | step_ext x' : (forall k, phase x' k = phase (ext s) k) -> s' = set_ext x' s -> step s s'.

(** A call moves the id it is about and touches no other. *)
Definition moves s s' (id : CommitmentId) : Prop :=
  life id (view s id) (view s' id) /\ forall k, k <> id -> view s' k = view s k.

Ltac view_simpl :=
  unfold view; cbn -[phase];
  rewrite ?lookup_insert_eq, ?lookup_delete_eq.

Lemma view_ext s s' k :
  vector_commitments s' !! k = vector_commitments s !! k ->
  dispute_records s' !! k = dispute_records s !! k ->
  stream_receipts s' !! k = stream_receipts s !! k ->
  phase (ext s') k = phase (ext s) k -> view s' k = view s k.
Proof. unfold view. by intros -> -> -> ->. Qed.

Lemma register_moves sys o p q root n meta e v s s' :
  in_u32 (block_number sys) -> call_wf (RegisterCommitment p q root n meta e v) ->
  register_commitment cfg sys o p q root n meta e v s = (Ok tt, s') ->
  moves s s' (derive_commitment_id p q root (block_number sys)).
Proof.
  intros Hb (Hp & Hq & Hroot & Hn & Hm & He & Hv)
    (who & -> & Hpq & Hn0 & Hz & _ & _ & [He0 _] & Hnone & ->)%register_commitment_ok.
  set (id := derive_commitment_id _ _ _ _) in *. split.
  - view_simpl. rewrite Hnone. apply life_register; [|done..].
    unfold wf_commitment, in_u64, in_u32, sat_add in *. cbn -[u64_max u32_max]. split_and!; try done; lia.
  - intros k Hk. apply view_ext; cbn; [by rewrite lookup_insert_ne|done..].
Qed.

Lemma acknowledge_moves sys o id q s s' :
  acknowledge_commitment sys o id q s = (Ok tt, s') -> moves s s' id.
Proof.
  intros (who & c & pc & x' & -> & Hc & Hst & Hb & _ & _ & _ & [Hph Hph']%lock_contract & ->)%acknowledge_commitment_ok.
  split.
  - view_simpl. rewrite Hc, Hph, Hph', decide_True by done. by apply life_acknowledge.
  - intros k Hk. apply view_ext; cbn; [by rewrite lookup_insert_ne|done..|]. by rewrite Hph', decide_False.
Qed.

Lemma close_moves sys o id q h n s s' :
  close_commitment sys o id q h n s = (Ok tt, s') -> moves s s' id.
Proof.
  intros (who & c & x' & -> & Hc & Hst & Hb & _ & _ & -> & [Hph Hph']%release_contract & ->)%close_commitment_ok.
  split.
  - view_simpl. rewrite Hc, Hph, Hph', decide_True by done. by apply life_close.
  - intros k Hk. apply view_ext; cbn; [by rewrite lookup_insert_ne|done|by rewrite lookup_insert_ne|].
    by rewrite Hph', decide_False.
Qed.

Lemma raise_moves sys o id q i h n s s' :
  0 <= i -> raise_dispute cfg sys o id q i h n s = (Ok tt, s') -> moves s s' id.
Proof.
  intros Hi (who & c & -> & Hc & Hst & _ & Hb & _ & Hd & Hlt & ->)%raise_dispute_ok. split.
  - view_simpl. rewrite Hc, Hd. by apply life_raise.
  - intros k Hk. apply view_ext; cbn; [by rewrite lookup_insert_ne..|done|done].
Qed.

Lemma counter_moves sys o id p data proof s s' :
  counter_dispute ub sys o id p data proof s = (Ok tt, s') -> moves s s' id.
Proof.
  intros (who & c & d & x' & -> & Hc & Hst & _ & _ & Hd & _ & _ & _ & [Hph Hph']%release_contract & ->)%counter_dispute_ok.
  split.
  - view_simpl. rewrite Hc, Hd, Hph, penalize_disputer_frame, Hph', decide_True by done.
    by apply (life_resolve id c d ClaimantUnsubstantiated).
  - intros k Hk. apply view_ext; cbn; [by rewrite lookup_insert_ne..|done|].
    by rewrite penalize_disputer_frame, Hph', decide_False.
Qed.

Lemma finalize_moves sys o id s s' :
  finalize_dispute sys o id s = (Ok tt, s') -> moves s s' id.
Proof.
  intros (who & c & d & x' & -> & Hc & Hst & Hd & _ & [Hph Hph']%refund_contract & ->)%finalize_dispute_ok.
  split.
  - view_simpl. rewrite Hc, Hd, Hph, penalize_provider_frame, Hph', decide_True by done.
    by apply (life_resolve id c d ProviderGuilty).
  - intros k Hk. apply view_ext; cbn; [by rewrite lookup_insert_ne..|done|].
    by rewrite penalize_provider_frame, Hph', decide_False.
Qed.

Lemma expire_moves sys o id s s' :
  expire_commitment sys o id s = (Ok tt, s') -> moves s s' id.
Proof.
  intros (who & c & -> & Hc & Hst & _ & ->)%expire_commitment_ok. split.
  - view_simpl. rewrite Hc. by apply life_expire.
  - intros k Hk. apply view_ext; cbn; [by rewrite lookup_delete_ne|done..].
Qed.

Lemma call_moves sys o c s s' :
  in_u32 (block_number sys) -> call_wf c -> exec cfg ub sys o c s = (Ok tt, s') ->
  exists id, moves s s' id.
Proof.
  intros Hb Hwf. destruct c; cbn [exec]; intros Hx.
  - eexists. by eapply register_moves.
  - eexists. by eapply acknowledge_moves.
  - eexists. by eapply close_moves.
  - eexists. eapply raise_moves; [|done]. by destruct Hwf as (_ & _ & [? _] & _).
  - eexists. by eapply counter_moves.
  - eexists. by eapply finalize_moves.
  - eexists. by eapply expire_moves.
Qed.

Lemma step_view s s' id : step s s' -> view s' id = view s id \/ life id (view s id) (view s' id).
Proof.
  intros [sys o c Hb Hwf Hx | x' Hx ->].
  - destruct (call_moves _ _ _ _ _ Hb Hwf Hx) as (k & Hl & Ho).
    destruct (decide (id = k)) as [->|]; [by right|left; by apply Ho].
  - left. apply view_ext; cbn; done.
Qed.

(** ** The pallet invariant *)

Definition inv s : Prop := forall id, coherent id (view s id).

Lemma genesis_coherent w x : inv (genesis_build w x).
Proof. intros id. unfold view. cbn. by rewrite !lookup_empty. Qed.

Lemma step_coherent s s' : step s s' -> inv s -> inv s'.
Proof.
  intros Hs Hi id. specialize (Hi id). destruct (step_view s s' id Hs) as [->|Hl]; [done|].
  by eapply life_coherent.
Qed.

(** ** The counter of open commitments *)

Definition open (c : VectorCommitment) : bool :=
  match status c with Pending | Active | Disputed => true | _ => false end.

Inductive count_effect s s' : Prop :=
  | ce_none : vector_commitments s' = vector_commitments s ->
      active_commitment_count s' = active_commitment_count s -> count_effect s s'
  | ce_new id c : vector_commitments s !! id = None -> open c = true ->
      vector_commitments s' = <[id := c]> (vector_commitments s) ->
      active_commitment_count s' = sat_add u32_max (active_commitment_count s) 1 -> count_effect s s'
  | ce_keep id c c' : vector_commitments s !! id = Some c -> open c = true -> open c' = true ->
      vector_commitments s' = <[id := c']> (vector_commitments s) ->
      active_commitment_count s' = active_commitment_count s -> count_effect s s'
  | ce_close id c c' : vector_commitments s !! id = Some c -> open c = true -> open c' = false ->
      vector_commitments s' = <[id := c']> (vector_commitments s) ->
      active_commitment_count s' = sat_sub (active_commitment_count s) 1 -> count_effect s s'
  | ce_gone id c : vector_commitments s !! id = Some c -> open c = true ->
      vector_commitments s' = delete id (vector_commitments s) ->
      active_commitment_count s' = sat_sub (active_commitment_count s) 1 -> count_effect s s'.

Lemma open_of c : (status c = Pending \/ status c = Active \/ status c = Disputed) -> open c = true.
Proof. unfold open. by intros [->|[->| ->]]. Qed.

Lemma step_count s s' : step s s' -> count_effect s s'.
Proof.
  intros [sys o c Hb Hwf Hx | x' _ ->]; [|by apply ce_none].
  destruct c; cbn [exec] in Hx.
  - apply register_commitment_ok in Hx as (who & _ & _ & _ & _ & _ & _ & _ & Hn & ->). eapply ce_new; try done. reflexivity.
  - apply acknowledge_commitment_ok in Hx as (who & c & pc & x' & _ & Hc & Hst & _ & _ & _ & _ & _ & ->).
    apply (ce_keep _ _ id c (with_ack (block_number sys) c)); try done. apply open_of. auto.
  - apply close_commitment_ok in Hx as (who & c & x' & _ & Hc & Hst & _ & _ & _ & _ & _ & ->).
    apply (ce_close _ _ id c (with_status Settled c)); try done; apply open_of; auto.
  - apply raise_dispute_ok in Hx as (who & c & _ & Hc & Hst & _ & _ & _ & _ & _ & ->).
    apply (ce_keep _ _ id c (with_status Disputed c)); try done; apply open_of; auto.
  - apply counter_dispute_ok in Hx as (who & c & d & x' & _ & Hc & Hst & _ & _ & _ & _ & _ & _ & _ & ->).
    apply (ce_close _ _ id c (with_status DisputeResolved c)); try done; apply open_of; auto.
  - apply finalize_dispute_ok in Hx as (who & c & d & x' & _ & Hc & Hst & _ & _ & _ & ->).
    apply (ce_close _ _ id c (with_status DisputeResolved c)); try done; apply open_of; auto.
  - apply expire_commitment_ok in Hx as (who & c & _ & Hc & Hst & _ & ->).
    eapply ce_gone; try done. apply open_of. naive_solver.
Qed.

(** States reached in [n] steps from genesis. *)
Inductive reach : nat -> State X -> Prop :=
  | reach_genesis w x : reach 0 (genesis_build w x)
  | reach_step n s s' : reach n s -> step s s' -> reach (S n) s'.

Lemma reach_pallet_inv n s : reach n s -> inv s.
Proof. induction 1; [apply genesis_coherent | by eapply step_coherent]. Qed.

Lemma reach_open n s : reach n s -> (count_if open (vector_commitments s) <= n)%nat.
Proof.
  induction 1 as [w x|n s s' Hr IH Hs]; [done|].
  apply step_count in Hs as [E _|id c Hn Ho E _|id c c' Hc Ho Ho' E _|id c c' Hc Ho Ho' E _|id c Hc Ho E _];
    rewrite E.
  - lia.
  - rewrite count_if_insert_fresh by done. destruct (open c); lia.
  - pose proof (count_if_insert open _ id c c' Hc). rewrite Ho, Ho' in *. lia.
  - pose proof (count_if_insert open _ id c c' Hc). rewrite Ho, Ho' in *. lia.
  - rewrite (count_if_delete open _ id c Hc) in IH. lia.
Qed.

Lemma reach_open_count n s :
  reach n s -> Z.of_nat n <= u32_max ->
  active_commitment_count s = Z.of_nat (count_if open (vector_commitments s)).
Proof.
  intros Hr. induction Hr as [w x|n s s' Hr IH Hs]; [done|]. intros Hn.
  pose proof (reach_open _ _ Hr). specialize (IH ltac:(lia)).
  apply step_count in Hs as [E E'|id c Hno Ho E E'|id c c' Hc Ho Ho' E E'|id c c' Hc Ho Ho' E E'|id c Hc Ho E E'];
    rewrite E, E'.
  - done.
  - rewrite count_if_insert_fresh, Ho, IH by done. unfold sat_add. lia.
  - pose proof (count_if_insert open _ id c c' Hc). rewrite Ho, Ho' in *. lia.
  - pose proof (count_if_insert open _ id c c' Hc). rewrite Ho, Ho' in *. rewrite IH. unfold sat_sub. lia.
  - rewrite (count_if_delete open _ id c Hc), Ho in IH. rewrite IH. unfold sat_sub. lia.
Qed.

(** ** Resolving a dispute *)

Lemma inv_disputed s id c :
  inv s -> vector_commitments s !! id = Some c -> status c = Disputed ->
  phase (ext s) id = Some Held /\
  exists d, dispute_records s !! id = Some d /\ wf_dispute id c d /\ verdict d = None.
Proof.
  intros Hi Hc Hst. specialize (Hi id). unfold coherent, view in Hi. cbn -[phase] in Hi.
  rewrite Hc, Hst in Hi. by destruct Hi as (_ & _ & _ & ? & ?).
Qed.

Lemma finalize_total sys who id s c d :
  inv s -> vector_commitments s !! id = Some c -> status c = Disputed ->
  dispute_records s !! id = Some d -> counter_deadline d < block_number sys ->
  exists s', finalize_dispute sys (Signed who) id s = (Ok tt, s').
Proof.
  intros Hi Hc Hst Hd Hdl. destruct (inv_disputed s id c Hi Hc Hst) as [Hph _].
  destruct (refund_total id (ext s) Hph) as [x' Hx].
  unfold finalize_dispute, get_commitment, get_dispute, on_ext, ensure_signed,
    bind, gets, ok_or, ensure, zoom, modify, ret.
  rewrite Hc, (bool_decide_eq_true_2 _ Hst), Hd, (proj2 (Z.ltb_lt _ _) Hdl). cbn. rewrite Hx. eauto.
Qed.
End Steps.
End VectorDbTheory.
