(* ===== verification/MockVectorDb.v ===== *)
(** * MockVectorDb: [pallets/pallet-vector-db/src/mock.rs]

    The environment the tests of the commitment pallet run in: a registry that is a map,
    handlers that record what they are asked for, and the helpers of the tests; with the
    relation between a call in this environment and the same call anywhere else. *)

From stdpp Require Import base gmap list strings.
From Stdlib Require Import ZArith Lia.
From S2P Require Import Prelude Frame Ledger Merkle VectorDb.

Local Open Scope arth_scope.

Module MockVectorDb.
Import VectorDb.

(** ** Thread-local state *)

(** Accounts and balances of the mock are [u64]s; in the model an account is a list of
    bytes, the encoding of its number. *)
Definition account (n : Z) : AccountId := le_bytes 8 n.

Inductive EscrowCall : Type :=
  | Lock (escrow_id : CommitmentId) (payer payee : AccountId) (amount : Balance)
  | Release (escrow_id : CommitmentId)
  | Refund (escrow_id : CommitmentId).

(** [AGENTS], [REPUTATION_CALLS], [ESCROW_CALLS] and [ESCROW_LOCK_SHOULD_FAIL]. *)
Record Mock : Type := mkMock {
  agents : gmap Did (AccountId * bool);
  reputation_calls : list (Did * string);
  escrow_calls : list EscrowCall;
  escrow_lock_should_fail : bool }.

Definition MockRegistry : AgentLookup Mock := {|
  controller_of m d := fst <$> agents m !! d;
  is_active_verified m d := default false (snd <$> agents m !! d) |}.

Definition register_test_agent (d : Did) (controller : AccountId) (active_verified : bool) (m : Mock) : Mock :=
  mkMock (<[d := (controller, active_verified)]> (agents m)) (reputation_calls m) (escrow_calls m)
    (escrow_lock_should_fail m).
Definition clear_agents (m : Mock) : Mock :=
  mkMock ∅ (reputation_calls m) (escrow_calls m) (escrow_lock_should_fail m).

Definition push_reputation_call (c : Did * string) (m : Mock) : Mock :=
  mkMock (agents m) (reputation_calls m ++ [c]) (escrow_calls m) (escrow_lock_should_fail m).
Definition MockReputationHandler : ReputationHandler Mock := {|
  penalize_provider d := push_reputation_call (d, "provider"%string);
  penalize_false_disputer d := push_reputation_call (d, "false_disputer"%string) |}.
Definition clear_reputation_calls (m : Mock) : Mock :=
  mkMock (agents m) [] (escrow_calls m) (escrow_lock_should_fail m).

Definition push_escrow_call (c : EscrowCall) (m : Mock) : Mock :=
  mkMock (agents m) (reputation_calls m) (escrow_calls m ++ [c]) (escrow_lock_should_fail m).
Definition MockEscrowHandler : EscrowHandler Mock := {|
  escrow_lock id payer payee amount :=
    fails <- gets escrow_lock_should_fail ;;
    ensure (negb fails) (Other "mock escrow lock failure") ;;;
    modify (push_escrow_call (Lock id payer payee amount));
  escrow_release id := modify (push_escrow_call (Release id));
  escrow_refund id := modify (push_escrow_call (Refund id)) |}.
Definition set_escrow_lock_should_fail (should_fail : bool) (m : Mock) : Mock :=
  mkMock (agents m) (reputation_calls m) (escrow_calls m) should_fail.
Definition clear_escrow_calls (m : Mock) : Mock := mkMock (agents m) (reputation_calls m) [] false.

(** [parameter_types!] and [impl pallet_vector_db::Config for Runtime]. *)
Definition config : Config := mkConfig 10 1000 5 2.

(** [TestExternalities]: the storage, the block number and the endowments. *)
Record TestExternalities : Type := mkTestExternalities {
  storage : State Mock;
  current_block : BlockNumber;
  balances : list (AccountId * Balance) }.

Definition new_test_ext (m : Mock) : TestExternalities :=
  let m := clear_escrow_calls (clear_reputation_calls (clear_agents m)) in
  mkTestExternalities (genesis_build None m) 1
    [(account 1, 1000000); (account 2, 1000000); (account 3, 1000000)].

(** ** Helpers of the tests *)

(** First byte [n], the others zero. *)
Definition test_did (n : byte) : Did := <[0%nat := n]> zeros32.

Definition test_metadata : bytes := bstr "test-schema-v1".

Section Helpers.
Context `{Blake2}.

Definition test_vector_hash (n : byte) : MerkleRoot := blake2_256 (replicate 64 n).

(** Block numbers of the mock are [u64]s. *)
Definition derive_commitment_id (encode_u64 : Z -> bytes) (provider consumer : Did) (vector_hash : MerkleRoot)
    (created_at_block : Z) : CommitmentId :=
  let preimage := bstr "ArthNeura-Vector-v1" in
  let preimage := preimage ++ provider in
  let preimage := preimage ++ consumer in
  let preimage := preimage ++ vector_hash in
  let preimage := preimage ++ encode_u64 created_at_block in
  blake2_256 preimage.
End Helpers.

(** ** What a test says about the pallet elsewhere *)

(** The same storage in other surroundings. *)
Definition over {X Y} (y : Y) (s : State X) : State Y :=
  mkState (vector_commitments s) (active_commitment_count s) (stream_receipts s) (dispute_records s)
    (dispute_window_override s) (events s) y.

(** What was recorded, carried out by the real handlers. *)
Definition replay_escrow {X} `{EscrowHandler X} (c : EscrowCall) : Dispatch X unit :=
  match c with
  | Lock id payer payee amount => escrow_lock id payer payee amount
  | Release id => escrow_release id
  | Refund id => escrow_refund id
  end.
Definition replay_escrows {X} `{EscrowHandler X} (cs : list EscrowCall) : Dispatch X unit :=
  foldr (fun c k => replay_escrow c ;;; k) (ret tt) cs.
Definition replay_reputation {X} `{ReputationHandler X} (c : Did * string) (x : X) : X :=
  if bool_decide (c.2 = "provider"%string) then penalize_provider c.1 x else penalize_false_disputer c.1 x.
Definition replay_reputations {X} `{ReputationHandler X} (cs : list (Did * string)) (x : X) : X :=
  foldl (fun x c => replay_reputation c x) x cs.

(** A mock that knows the agents another registry knows. *)
Definition agrees {X} `{AgentLookup X} (m : Mock) (x : X) : Prop :=
  forall d, controller_of (AgentLookup := MockRegistry) m d = controller_of x d /\
    is_active_verified (AgentLookup := MockRegistry) m d = is_active_verified x d.

Section Transfer.
Context {X : Type} `{AgentLookup X} `{ReputationHandler X} `{EscrowHandler X}.
Context `{Blake2} `{ScaleCodec} `{RsMerkle}.
Context (cfg : Config) (ub : Z) (sys : System).
Implicit Types s : State X.

Definition exec_mock : Origin -> Call -> Dispatch (State Mock) unit :=
  exec (H := MockRegistry) (H0 := MockReputationHandler) (H1 := MockEscrowHandler) cfg ub sys.

(** The outcome elsewhere, computed from what the test saw: an error is the same error;
    a success is one as soon as the real escrow agrees to what was recorded, with the
    storage the test saw and the recorded penalties on top. *)
Definition outcome s (r : result DispatchError unit) (t : State Mock) (ecs : list EscrowCall)
    (rcs : list (Did * string)) : result DispatchError unit * State X :=
  match r with
  | Err e => (Err e, s)
  | Ok _ =>
      match replay_escrows ecs (ext s) with
      | (Err e, _) => (Err e, s)
      | (Ok _, x) => (Ok tt, over (replay_reputations rcs x) t)
      end
  end.

(** The mock's run, its log, and the outcome elsewhere. *)
Definition carries_over s (m : Mock) (o : Origin) (c : Call) : Prop :=
  exists r t ecs rcs,
    exec_mock o c (over m s) = (r, t) /\ (is_ok r = false -> t = over m s) /\
    agents (ext t) = agents m /\ escrow_lock_should_fail (ext t) = false /\
    escrow_calls (ext t) = escrow_calls m ++ ecs /\ reputation_calls (ext t) = reputation_calls m ++ rcs /\
    transactional (exec cfg ub sys o c) s = outcome s r t ecs rcs.

(** Both runs take the same branch at every test. *)
Ltac mock_cbn :=
  cbn -[bool_decide Z.ltb Z.leb controller_of is_active_verified merkle_verify sat_add sat_sub replay_escrows
        zeros32 escrow_lock escrow_release escrow_refund penalize_provider penalize_false_disputer].

Ltac lockstep Ha :=
  repeat first
    [ progress rewrite ?(fun d => proj1 (Ha d)), ?(fun d => proj2 (Ha d))
    | match goal with
      | |- context [match ?x with _ => _ end] =>
          lazymatch x with
          | context [match _ with _ => _ end] => fail
          | escrow_lock _ _ _ _ _ => fail
          | escrow_release _ _ => fail
          | escrow_refund _ _ => fail
          | _ => destruct x eqn:?
          end
      end; mock_cbn ].

Ltac unfold_call :=
  unfold register_commitment, acknowledge_commitment, close_commitment, raise_dispute, counter_dispute,
    finalize_dispute, expire_commitment, get_controller, get_commitment, get_dispute, ensure_active_verified,
    ensure_signed, on_ext, zoom, bind, gets, ensure, ok_or, modify, ret, throw; mock_cbn.

(** The test failed; it asked nothing of the escrow. *)
Ltac same_error :=
  match goal with |- context [@Err DispatchError unit ?e] => exists (Err e) end;
  eexists _, [], []; rewrite !app_nil_r; done.

(** The test succeeded; what it asked for is up to the real escrow. *)
Ltac same_success :=
  cbn; unfold bind, gets, ensure, modify, ret; cbn;
  try match goal with Hf : escrow_lock_should_fail _ = false |- _ => rewrite Hf; cbn end.

Lemma exec_carries_over s m o c :
  agrees m (ext s) -> escrow_lock_should_fail m = false -> carries_over s m o c.
Proof.
  intros Ha Hf. unfold carries_over, exec_mock, transactional.
  destruct o as [|who|]; [by exists (Err BadOrigin), (over m s), [], []; destruct c; rewrite !app_nil_r| |
                          by exists (Err BadOrigin), (over m s), [], []; destruct c; rewrite !app_nil_r].
  destruct c; cbn [exec]; unfold_call; lockstep Ha; try same_error; same_success.
  - eexists (Ok tt), _, [], []. rewrite !app_nil_r. done.
  - eexists (Ok tt), _, [Lock _ _ _ _], []. rewrite app_nil_r. split_and!; [done..|].
    cbn. unfold bind. by destruct (escrow_lock _ _ _ _ _) as [[[]|] x].
  - eexists (Ok tt), _, [Release _], []. rewrite app_nil_r. split_and!; [done..|].
    cbn. unfold bind. by destruct (escrow_release _ _) as [[[]|] x].
  - eexists (Ok tt), _, [], []. rewrite !app_nil_r. done.
  - eexists (Ok tt), _, [Release _], [_]. split_and!; [done..|].
    cbn. unfold bind. by destruct (escrow_release _ _) as [[[]|] x].
  - eexists (Ok tt), _, [Refund _], [_]. split_and!; [done..|].
    cbn. unfold bind. by destruct (escrow_refund _ _) as [[[]|] x].
  - eexists (Ok tt), _, [], []. rewrite !app_nil_r. done.
Qed.
End Transfer.
End MockVectorDb.
