(* ===== verification/Template.v ===== *)
(** * Template: [pallets/template/src/lib.rs]

    The template pallet the runtime still carries: one optional [u32] and two calls. *)

From stdpp Require Import base list.
From Stdlib Require Import ZArith Lia.
From S2P Require Import Prelude Frame.

Local Open Scope arth_scope.

Module Template.

Inductive Event : Type := SomethingStored (something : Z) (who : AccountId).

Record State : Type := mkState { something : option Z; events : list Event }.

Definition put (v : Z) (s : State) : State := mkState (Some v) (events s).
Definition deposit_event (e : Event) (s : State) : State := mkState (something s) (events s ++ [e]).

Definition do_something (origin : Origin) (v : Z) : Dispatch State unit :=
  who <- ensure_signed origin ;;
  modify (put v) ;;;
  modify (deposit_event (SomethingStored v who)).

Definition cause_error (origin : Origin) : Dispatch State unit :=
  _who <- ensure_signed origin ;;
  found <- gets something ;;
  match found with
  | None => throw (TemplateModule NoneValue)
  | Some old =>
      new <- ok_or (checked_add u32_max old 1) (TemplateModule StorageOverflow) ;;
      modify (put new)
  end.

Inductive Call : Type := DoSomething (v : Z) | CauseError.

Definition exec (origin : Origin) (c : Call) : Dispatch State unit :=
  match c with DoSomething v => do_something origin v | CauseError => cause_error origin end.

Definition call_wf (c : Call) : Prop := match c with DoSomething v => in_u32 v | CauseError => True end.

(** The template pallet never leaves the range of its [u32]: [cause_error]
    increments a stored value, reports [StorageOverflow] at the maximum and
    [NoneValue] when nothing is stored, and an error changes nothing. *)
Theorem cause_error_spec (who : AccountId) (s : State) :
  cause_error (Signed who) s =
    match something s with
    | None => (Err (TemplateModule NoneValue), s)
    | Some old => if old <? u32_max then (Ok tt, mkState (Some (old + 1)) (events s))
                  else (Err (TemplateModule StorageOverflow), s)
    end.
Proof.
  unfold cause_error, bind, gets, ensure_signed, ret, throw, ok_or, checked_add, modify, put.
  destruct (something s) as [old|] eqn:E; [|done].
  destruct (Z.ltb_spec old u32_max), (Z.leb_spec (old + 1) u32_max); cbn; done || lia.
Qed.

End Template.
