(* ===== verification/MockPallets.v ===== *)
(** * MockPallets: [pallets/pallet-escrow/src/mock.rs], [pallets/template/src/mock.rs]
    and [pallets/template/src/benchmarking.rs]

    The environments of the remaining tests, and the two benchmarks of the template
    pallet with the assertions they end with. *)

From stdpp Require Import base gmap list strings.
From Stdlib Require Import ZArith Lia.
From S2P Require Import Prelude Frame Escrow Template MockVectorDb.

Local Open Scope arth_scope.

(** ** The escrow pallet: real balances, three endowed accounts, block 1. *)

Module MockEscrow.
Definition test_balances : list (AccountId * Balance) :=
  [(MockVectorDb.account 1, 1000000); (MockVectorDb.account 2, 1000000); (MockVectorDb.account 3, 1000000)].
Definition new_test_ext {L} (build_balances : list (AccountId * Balance) -> L) : Escrow.State L * BlockNumber :=
  (Escrow.mkState ∅ [] (build_balances test_balances), 1).
End MockEscrow.

(** ** The template pallet: an empty storage at block 0, where events are not kept. *)

Module MockTemplate.
Import Template.

Definition new_test_ext : State * BlockNumber := (mkState None [], 0).

(** A benchmark prepares the storage, makes one call and asserts. *)
Record Benchmark : Type := mkBenchmark {
  setup : State -> State;
  extrinsic_call : AccountId -> Dispatch State unit;
  assertion : State -> bool }.

Definition bench_do_something : Benchmark := {|
  setup s := s;
  extrinsic_call caller := do_something (Signed caller) 100;
  assertion s := bool_decide (something s = Some 100) |}.

Definition bench_cause_error : Benchmark := {|
  setup := put 100;
  extrinsic_call caller := cause_error (Signed caller);
  assertion s := bool_decide (something s = Some 101) |}.

Definition passes (b : Benchmark) (caller : AccountId) (s : State) : bool :=
  match extrinsic_call b caller (setup b s) with (Ok _, s') => assertion b s' | (Err _, _) => false end.

(** Both benchmarks pass from every storage. *)
Lemma benchmarks_pass b caller s : b ∈ [bench_do_something; bench_cause_error] -> passes b caller s = true.
Proof. intros [->|[->|[]%elem_of_nil]%elem_of_cons]%elem_of_cons; reflexivity. Qed.
End MockTemplate.
