(* ===== verification/Runtime.v ===== *)
(** * Runtime: [runtime/src]

    The composition of the pallets: the adapters that answer the traits of the
    commitment pallet ([runtime/src/adapters]), the constants
    ([runtime/src/configs/mod.rs], [runtime/src/lib.rs]), and the
    chain as a transition system whose steps are dispatched extrinsics, new blocks and
    movements of free balances. *)

From stdpp Require Import base gmap list strings relations.
From Stdlib Require Import ZArith Lia.
From S2P Require Import Prelude Frame Escrow AgentRegistry RegistryTheory Merkle VectorDb VectorDbTheory Template.

Local Open Scope arth_scope.

(** ** Constants *)

Module Configs.
Definition UNIT : Balance := 1000000000000.
Definition MILLI_UNIT : Balance := 1000000000.
Definition EXISTENTIAL_DEPOSIT : Balance := MILLI_UNIT.
Definition MILLI_SECS_PER_BLOCK : Z := 6000.
Definition MINUTES : BlockNumber := 60000 / MILLI_SECS_PER_BLOCK.
Definition HOURS : BlockNumber := MINUTES * 60.
Definition DAYS : BlockNumber := HOURS * 24.

(** [impl pallet_agent_registry::Config for Runtime]. *)
Definition registry_config : Registry.Config :=
  Registry.mkConfig 1200 (100 * UNIT) 10 (10 * UNIT).

(** [impl pallet_vector_db::Config for Runtime]. *)
Definition vector_db_config : VectorDb.Config := VectorDb.mkConfig 14400 100800 5 2.

(** The runtime is compiled to wasm32: [usize] has 32 bits. *)
Definition usize_bits : Z := 32.
End Configs.

Module Runtime.
Import Configs.

(** Everything outside the commitment pallet: the system context, the storage of the
    registry and of the escrow pallet, and the balances all of them share. *)
Record World (L : Type) : Type := mkWorld {
  w_system : System;
  w_registry : Registry.State unit;
  w_escrow : Escrow.State unit;
  w_balances : L }.
Arguments mkWorld {L}.
Arguments w_system {L} w.
Arguments w_registry {L} w.
Arguments w_escrow {L} w.
Arguments w_balances {L} w.

Section Adapters.
Context {L : Type} `{ReservableCurrency L}.
Context (rcfg : Registry.Config) (vcfg : VectorDb.Config).
Implicit Types w : World L.

Definition registry_of w : Registry.State L := Registry.with_currency (w_balances w) (w_registry w).
Definition put_registry (r : Registry.State L) w : World L :=
  mkWorld (w_system w) (Registry.with_currency tt r) (w_escrow w) (Registry.currency r).
Definition escrow_of w : Escrow.State L := Escrow.with_currency (w_balances w) (w_escrow w).
Definition put_escrow (e : Escrow.State L) w : World L :=
  mkWorld (w_system w) (w_registry w) (Escrow.with_currency tt e) (Escrow.currency e).

(** [AgentRegistryAdapter]. *)
Definition adapter_controller_of w (d : Did) : option AccountId :=
  Registry.controller <$> Registry.agent_profiles (w_registry w) !! d.
Definition adapter_is_active_verified w (d : Did) : bool :=
  match Registry.agent_profiles (w_registry w) !! d with
  | Some p => bool_decide (Registry.status p = Registry.Active) && Registry.is_verified p
  | None => false
  end.
Definition AgentRegistryAdapter : AgentLookup (World L) := {|
  controller_of := adapter_controller_of;
  is_active_verified := adapter_is_active_verified |}.

(** [ReputationHandlerAdapter]. *)
Definition adapter_penalize_provider (d : Did) w : World L :=
  put_registry (Registry.slash_reputation_for_guilty_delivery rcfg d
                  (VectorDb.ProviderGuiltySlash vcfg) (registry_of w)) w.
Definition adapter_penalize_false_disputer (d : Did) w : World L :=
  put_registry (Registry.slash_reputation d (VectorDb.FalseDisputeSlash vcfg) (registry_of w)) w.
Definition ReputationHandlerAdapter : ReputationHandler (World L) := {|
  penalize_provider := adapter_penalize_provider;
  penalize_false_disputer := adapter_penalize_false_disputer |}.

(** [EscrowAdapter]: every call is forwarded. *)
Definition adapter_lock (id : CommitmentId) (p q : AccountId) (v : Balance) : Dispatch (World L) unit :=
  fun w => zoom escrow_of put_escrow (Escrow.lock (w_system w) id p q v) w.
Definition adapter_release (id : CommitmentId) : Dispatch (World L) unit :=
  zoom escrow_of put_escrow (Escrow.release id).
Definition adapter_refund (id : CommitmentId) : Dispatch (World L) unit :=
  zoom escrow_of put_escrow (Escrow.refund id).
Definition EscrowAdapter : EscrowHandler (World L) := {|
  escrow_lock := adapter_lock; escrow_release := adapter_release; escrow_refund := adapter_refund |}.
End Adapters.

(** ** The chain *)

Record Chain (L : Type) : Type := mkChain {
  vector_db : VectorDb.State (World L);
  template : Template.State }.
Arguments mkChain {L}.
Arguments vector_db {L} c.
Arguments template {L} c.

(** [RuntimeCall], as far as the repository's own pallets go. *)
Inductive RuntimeCall : Type :=
  | CallTemplate (c : Template.Call)
  | CallRegistry (c : Registry.Call)
  | CallVectorDb (c : VectorDb.Call).

Definition call_wf (c : RuntimeCall) : Prop :=
  match c with
  | CallTemplate c => Template.call_wf c
  | CallRegistry c => Registry.call_wf c
  | CallVectorDb c => VectorDb.call_wf c
  end.

Section Chain.
Context {L : Type} `{ReservableCurrency L} `{Blake2} `{ScaleCodec} `{MlDsa} `{RsMerkle}.
Context (rcfg : Registry.Config) (vcfg : VectorDb.Config) (ub : Z).
Implicit Types (s : Chain L) (w : World L).

#[local] Existing Instance AgentRegistryAdapter.
#[local] Instance reputation_adapter : ReputationHandler (World L) := ReputationHandlerAdapter rcfg vcfg.
#[local] Existing Instance EscrowAdapter.

Definition world s : World L := VectorDb.ext (vector_db s).
Definition set_vector_db v s : Chain L := mkChain v (template s).
Definition set_template t s : Chain L := mkChain (vector_db s) t.
Definition set_world w s : Chain L := mkChain (VectorDb.set_ext w (vector_db s)) (template s).
Definition chain_registry s : Registry.State L := registry_of (world s).
Definition set_registry r s : Chain L := set_world (put_registry r (world s)) s.

(** The body of a call, before the storage layer. *)
Definition run_call (o : Origin) (c : RuntimeCall) : Dispatch (Chain L) unit := fun s =>
  match c with
  | CallTemplate c => zoom template set_template (Template.exec o c) s
  | CallRegistry c =>
      zoom chain_registry set_registry (Registry.exec rcfg (w_system (world s)) o c) s
  | CallVectorDb c =>
      zoom vector_db set_vector_db (VectorDb.exec vcfg ub (w_system (world s)) o c) s
  end.

(** A dispatched extrinsic runs in a storage layer of its own. *)
Definition dispatch (o : Origin) (c : RuntimeCall) : Dispatch (Chain L) unit :=
  transactional (run_call o c).

Definition set_system (sys : System) w : World L := mkWorld sys (w_registry w) (w_escrow w) (w_balances w).
Definition set_balances (l : L) w : World L := mkWorld (w_system w) (w_registry w) (w_escrow w) l.

Inductive step s s' : Prop :=
  | step_dispatch o c r : origin_wf o -> call_wf c -> dispatch o c s = (r, s') -> step s s'
  | step_block sys' :
      block_number sys' = block_number (w_system (world s)) + 1 -> in_u32 (block_number sys') ->
      s' = set_world (set_system sys' (world s)) s -> step s s'
  | step_free_balances l' :
      (forall a, reserved_balance l' a = reserved_balance (w_balances (world s)) a) ->
      s' = set_world (set_balances l' (world s)) s -> step s s'.

(** Genesis: no agent, no commitment, no escrow, nothing reserved, and the dispute
    window the chain spec asks for. *)
Definition genesis (dispute_window : option BlockNumber) (sys : System) (l : L) : Chain L :=
  mkChain
    (VectorDb.genesis_build dispute_window
       (mkWorld sys (Registry.genesis tt) (Escrow.mkState ∅ [] tt) l))
    (Template.mkState None []).

(** States reached in [n] steps from a genesis whose block number and window are [u32]s. *)
Inductive reach : nat -> Chain L -> Prop :=
  | reach_genesis dw sys l : in_u32 (block_number sys) -> (forall b, dw = Some b -> in_u32 b) ->
      (forall a, reserved_balance l a = 0) -> reach 0 (genesis dw sys l)
  | reach_step n s s' : reach n s -> step s s' -> reach (S n) s'.

(** An executable trace: calls and the blocks between them. *)
Inductive Action : Type := Extrinsic (o : Origin) (c : RuntimeCall) | NewBlock (sys : System).
Definition act (a : Action) s : Chain L :=
  match a with
  | Extrinsic o c => (dispatch o c s).2
  | NewBlock sys => set_world (set_system sys (world s)) s
  end.
Definition acts (l : list Action) s : Chain L := foldl (fun s a => act a s) s l.
End Chain.
End Runtime.
