(* ===== verification/MockRenaming.v ===== *)
(** * MockRenaming: the tests' configuration and the chain's

    The tests of the commitment pallet do not run under the configuration of the chain:
    accounts and block numbers are [u64]s, a commitment may live for 1000 blocks, a
    dispute stays open for ten, and the code is compiled to 64 bits.  A test and a run
    under the chain's configuration are the same up to the names of accounts and
    commitments, as long as the arguments stay where the two configurations agree. *)

From stdpp Require Import base gmap list strings.
From Stdlib Require Import ZArith Lia.
From S2P Require Import Prelude Frame Ledger Merkle VectorDb VectorDbTheory MockVectorDb Template Runtime.

Local Open Scope arth_scope.

Module MockRenaming.
Import VectorDb MockVectorDb.

(** SCALE in the tests: block numbers have 64 bits. *)
Definition u64_blocks (encode_u64 : Z -> bytes) {C : ScaleCodec} : ScaleCodec := {|
  encode_u32 := encode_u64; encode_h256 := encode_h256; encode_account := encode_account;
  encode_array32 := encode_array32 |}.

(** ** Names *)

Section Renaming.
(** The id in the tests of a commitment of the chain, and the number of an account. *)
Context (rho alpha : bytes -> bytes).

Definition ren_origin (o : Origin) : Origin :=
  match o with Signed who => Signed (alpha who) | _ => o end.

Definition ren_call (c : Call) : Call :=
  match c with
  | RegisterCommitment _ _ _ _ _ _ _ => c
  | AcknowledgeCommitment id q => AcknowledgeCommitment (rho id) q
  | CloseCommitment id q h n => CloseCommitment (rho id) q h n
  | RaiseDispute id q i h n => RaiseDispute (rho id) q i h n
  | CounterDispute id p data proof => CounterDispute (rho id) p data proof
  | FinalizeDispute id => FinalizeDispute (rho id)
  | ExpireCommitment id => ExpireCommitment (rho id)
  end.

Definition ren_commitment (c : VectorCommitment) : VectorCommitment :=
  mkCommitment (rho (commitment_id c)) (provider c) (consumer c) (merkle_root c) (total_chunks c) (metadata c)
    (status c) (created_at c) (expires_at c) (acknowledged_at c) (price c).
Definition ren_receipt (r : StreamReceipt) : StreamReceipt :=
  mkReceipt (rho (sr_commitment_id r)) (sr_final_stream_hash r) (sr_chunk_count r) (sr_submitted_at r).
Definition ren_dispute (d : DisputeRecord) : DisputeRecord :=
  mkDispute (rho (dr_commitment_id d)) (dr_merkle_root d) (received_chunk_hash d) (disputed_chunk_index d)
    (raised_at d) (counter_deadline d) (verdict d).

Definition ren_event (e : Event) : Event :=
  match e with
  | CommitmentRegistered id p q root n ex meta => CommitmentRegistered (rho id) p q root n ex meta
  | CommitmentAcknowledged id b => CommitmentAcknowledged (rho id) b
  | CommitmentSettled id h n => CommitmentSettled (rho id) h n
  | DisputeRaised id root i h dl => DisputeRaised (rho id) root i h dl
  | DisputeCountered id v => DisputeCountered (rho id) v
  | DisputeFinalized id v p q => DisputeFinalized (rho id) v p q
  | CommitmentExpired id => CommitmentExpired (rho id)
  end.

Definition ren_escrow_call (c : EscrowCall) : EscrowCall :=
  match c with
  | Lock id payer payee v => Lock (rho id) (alpha payer) (alpha payee) v
  | Release id => Release (rho id)
  | Refund id => Refund (rho id)
  end.

Definition ren_mock (m : Mock) : Mock :=
  mkMock (prod_map alpha id <$> agents m) (reputation_calls m) (ren_escrow_call <$> escrow_calls m)
    (escrow_lock_should_fail m).

(** The storage a test sees; the tests set no window. *)
Definition ren (s : State Mock) : State Mock :=
  mkState (kmap rho (ren_commitment <$> vector_commitments s)) (active_commitment_count s)
    (kmap rho (ren_receipt <$> stream_receipts s)) (kmap rho (ren_dispute <$> dispute_records s)) None
    (ren_event <$> events s) (ren_mock (ext s)).

Context `{!Inj (=) (=) rho, !Inj (=) (=) alpha}.
Implicit Types s : State Mock.

Lemma ren_insert_commitment i c s :
  insert_commitment (rho i) (ren_commitment c) (ren s) = ren (insert_commitment i c s).
Proof. unfold insert_commitment, ren. cbn. by rewrite fmap_insert, (kmap_insert rho). Qed.
Lemma ren_remove_commitment i s : remove_commitment (rho i) (ren s) = ren (remove_commitment i s).
Proof. unfold remove_commitment, ren. cbn. by rewrite fmap_delete, (kmap_delete rho). Qed.
Lemma ren_insert_receipt i r s : insert_receipt (rho i) (ren_receipt r) (ren s) = ren (insert_receipt i r s).
Proof. unfold insert_receipt, ren. cbn. by rewrite fmap_insert, (kmap_insert rho). Qed.
Lemma ren_insert_dispute i d s : insert_dispute (rho i) (ren_dispute d) (ren s) = ren (insert_dispute i d s).
Proof. unfold insert_dispute, ren. cbn. by rewrite fmap_insert, (kmap_insert rho). Qed.
Lemma ren_deposit_event e s : deposit_event (ren_event e) (ren s) = ren (deposit_event e s).
Proof. unfold deposit_event, ren. cbn. by rewrite fmap_app. Qed.

Lemma ren_lookup_commitment i s : vector_commitments (ren s) !! rho i = ren_commitment <$> vector_commitments s !! i.
Proof. cbn. by rewrite (lookup_kmap rho), lookup_fmap. Qed.
Lemma ren_lookup_dispute i s : dispute_records (ren s) !! rho i = ren_dispute <$> dispute_records s !! i.
Proof. cbn. by rewrite (lookup_kmap rho), lookup_fmap. Qed.

(** ** Computations up to names *)

Definition sim {A} (I : State Mock -> Prop) (f : A -> A) (m m' : Dispatch (State Mock) A) : Prop :=
  forall s, I s ->
    m' (ren s) = match m s with (Ok a, s') => (Ok (f a), ren s') | (Err e, s') => (Err e, ren s') end.
Abbreviation anywhere := (fun _ : State Mock => True).

Lemma sim_top {A} I (f : A -> A) m m' : sim anywhere f m m' -> sim I f m m'.
Proof. intros Hm s _. by apply Hm. Qed.

(** Guards come first and read, *)
Lemma sim_read {A B} I (f : A -> A) (g : B -> B) m m' k k' :
  ReadOnly m -> sim I f m m' ->
  (forall a, (exists s, I s /\ m s = (Ok a, s)) -> sim I g (k a) (k' (f a))) -> sim I g (bind m k) (bind m' k').
Proof.
  intros Hro Hm Hk s Hs. unfold bind. rewrite (Hm s Hs). specialize (Hro s).
  destruct (m s) as [[a|e] s'] eqn:E; cbn in Hro; subst s'; [|done]. apply Hk; [by exists s|done].
Qed.

(** writes follow. *)
Lemma sim_seq {A B} I (f : A -> A) (g : B -> B) m m' k k' :
  sim anywhere f m m' -> (forall a, sim anywhere g (k a) (k' (f a))) -> sim I g (bind m k) (bind m' k').
Proof.
  intros Hm Hk s _. unfold bind. rewrite (Hm s Logic.I). destruct (m s) as [[a|e] s']; [by apply Hk|done].
Qed.

(** The steps the pallet is made of. *)
Lemma sim_ensure I (b b' : bool) e : b' = b -> sim I id (ensure b e) (ensure b' e).
Proof. intros -> s _. by destruct b. Qed.
Lemma sim_modify I f f' : (forall s, f' (ren s) = ren (f s)) -> sim I id (modify f) (modify f').
Proof. intros Hf s _. unfold modify. by rewrite Hf. Qed.
Lemma sim_gets {A} I (h : A -> A) (f f' : State Mock -> A) :
  (forall s, I s -> f' (ren s) = h (f s)) -> sim I h (gets f) (gets f').
Proof. intros Hf s Hs. unfold gets. by rewrite Hf. Qed.
Lemma sim_signed I o : sim I alpha (ensure_signed o) (ensure_signed (ren_origin o)).
Proof. intros s _. by destruct o. Qed.

#[local] Existing Instance MockRegistry.
#[local] Existing Instance MockReputationHandler.
#[local] Existing Instance MockEscrowHandler.

Lemma sim_controller I d e : sim I alpha (get_controller d e) (get_controller d e).
Proof.
  intros s _. unfold get_controller, bind, gets, ok_or. cbn. rewrite lookup_fmap.
  by destruct (agents (ext s) !! d) as [[a b]|].
Qed.
Lemma sim_eligible I d e : sim I id (ensure_active_verified d e) (ensure_active_verified d e).
Proof.
  intros s _. unfold ensure_active_verified, bind, gets, ensure. cbn. rewrite lookup_fmap.
  destruct (agents (ext s) !! d) as [[a b]|]; [by destruct b|done].
Qed.
Lemma sim_get_commitment I i : sim I ren_commitment (get_commitment i) (get_commitment (rho i)).
Proof.
  intros s _. unfold get_commitment, bind, gets, ok_or. rewrite ren_lookup_commitment. by destruct (vector_commitments s !! i).
Qed.
Lemma sim_get_dispute I i : sim I ren_dispute (get_dispute i) (get_dispute (rho i)).
Proof.
  intros s _. unfold get_dispute, bind, gets, ok_or. rewrite ren_lookup_dispute. by destruct (dispute_records s !! i).
Qed.

Lemma sim_lock I i p q v :
  sim I id (on_ext (escrow_lock i p q v)) (on_ext (escrow_lock (rho i) (alpha p) (alpha q) v)).
Proof.
  intros s _. unfold on_ext, zoom. cbn. unfold bind, gets, ensure, modify. cbn.
  destruct (escrow_lock_should_fail (ext s)); cbn; [by destruct s|]. unfold ren, set_ext, push_escrow_call, ren_mock. cbn.
  by rewrite fmap_app.
Qed.
Lemma sim_release I i : sim I id (on_ext (escrow_release i)) (on_ext (escrow_release (rho i))).
Proof. intros s _. unfold on_ext, zoom, ren, set_ext. cbn. unfold push_escrow_call, ren_mock. cbn. by rewrite fmap_app. Qed.
Lemma sim_refund I i : sim I id (on_ext (escrow_refund i)) (on_ext (escrow_refund (rho i))).
Proof. intros s _. unfold on_ext, zoom, ren, set_ext. cbn. unfold push_escrow_call, ren_mock. cbn. by rewrite fmap_app. Qed.
Lemma sim_penalty I c : sim I id (on_ext (modify (push_reputation_call c))) (on_ext (modify (push_reputation_call c))).
Proof. by intros s _. Qed.

Lemma same_account a b : bool_decide (alpha a = alpha b) = bool_decide (a = b).
Proof. apply bool_decide_ext. split; [apply (inj alpha)|by intros ->]. Qed.

(** A guard, and a write. *)
Ltac sim_base := first
  [ apply sim_signed | apply sim_controller | apply sim_eligible | apply sim_get_commitment | apply sim_get_dispute
  | apply sim_lock | apply sim_release | apply sim_refund | apply sim_penalty
  | apply sim_ensure; rewrite ?same_account; done ].
Ltac sim_guard := eapply sim_read; [apply _|sim_base|cbv beta].
Ltac sim_guards := repeat (sim_guard; intros ? _; cbv zeta).
Ltac sim_write := eapply sim_seq; [sim_base|intros _].
Ltac sim_store l := eapply sim_seq; [apply (sim_modify anywhere); intros ?; apply l|intros _].

(** ** The calls *)

Context `{Blake2} `{ScaleCodec} `{RsMerkle} (encode_u64 : Z -> bytes).

(** Under the two configurations. *)
Abbreviation ours := Configs.vector_db_config.
Definition exec_test (sys : System) (o : Origin) (c : Call) : Dispatch (State Mock) unit :=
  exec_mock (H3 := u64_blocks encode_u64) config 64 sys o c.
Definition exec_ours (sys : System) (o : Origin) (c : Call) : Dispatch (State Mock) unit :=
  exec_mock ours Configs.usize_bits sys o c.

(** A window of ten blocks was set on the chain, and no commitment is so wide that the
    pointer width matters or has a price the tests, where balances are [u64]s, cannot name. *)
Definition narrow_commitment (c : VectorCommitment) : Prop :=
  0 <= total_chunks c < 2 ^ 32 /\ price c <= u64_max.
Record comparable {X} (s : State X) : Prop := {
  cm_window : dispute_window_override s = Some (DisputeWindow config);
  cm_commitments : map_Forall (fun _ => narrow_commitment) (vector_commitments s);
  cm_disputes : map_Forall (fun _ d => 0 <= disputed_chunk_index d) (dispute_records s) }.

(** Arguments on which both configurations agree: a lifetime that both allow or both
    refuse, a number of chunks both targets can count, a price both types hold, and the id
    that [rho] names; and a block early enough for no sum of block numbers to saturate, at 32 bits or at 64. *)
Definition comparable_call (sys : System) (c : Call) : Prop :=
  block_number sys + MaxCommitmentLifetime ours <= u32_max /\
  match c with
  | RegisterCommitment p q root n _ e v =>
      (e <= MaxCommitmentLifetime config \/ MaxCommitmentLifetime ours < e) /\ (0 <= n < 2 ^ 32 /\ v <= u64_max) /\
      rho (VectorDb.derive_commitment_id p q root (block_number sys)) =
        MockVectorDb.derive_commitment_id encode_u64 p q root (block_number sys)
  | RaiseDispute _ _ i _ _ => 0 <= i
  | _ => True
  end.

Lemma sim_acknowledge I sys o i q :
  sim I id (acknowledge_commitment sys o i q) (acknowledge_commitment sys (ren_origin o) (rho i) q).
Proof.
  unfold acknowledge_commitment. sim_guard. intros who _. sim_guard. intros c _. sim_guards. sim_write.
  sim_store (ren_insert_commitment i (with_ack (block_number sys) c)).
  apply sim_modify, (ren_deposit_event (CommitmentAcknowledged i (block_number sys))).
Qed.

Lemma sim_close I sys o i q h n :
  sim I id (close_commitment sys o i q h n) (close_commitment sys (ren_origin o) (rho i) q h n).
Proof.
  unfold close_commitment. sim_guard. intros who _. sim_guard. intros c _. sim_guards.
  sim_store (ren_insert_receipt i (mkReceipt i h n (block_number sys))).
  sim_store (ren_insert_commitment i (with_status Settled c)).
  eapply sim_seq; [by apply (sim_modify anywhere)|intros _]. sim_write.
  apply sim_modify, (ren_deposit_event (CommitmentSettled i h n)).
Qed.

Lemma sim_finalize I sys o i :
  sim I id (finalize_dispute sys o i) (finalize_dispute sys (ren_origin o) (rho i)).
Proof.
  unfold finalize_dispute. sim_guard. intros who _. sim_guard. intros c _. sim_guard. intros _ _. sim_guard. intros d _.
  sim_guard. intros _ _. sim_store (ren_insert_dispute i (with_verdict ProviderGuilty d)).
  sim_store (ren_insert_commitment i (with_status DisputeResolved c)).
  eapply sim_seq; [by apply (sim_modify anywhere)|intros _]. do 2 sim_write.
  apply sim_modify, (ren_deposit_event (DisputeFinalized i ProviderGuilty (provider c) (consumer c))).
Qed.

Lemma sim_expire I sys o i :
  sim I id (expire_commitment sys o i) (expire_commitment sys (ren_origin o) (rho i)).
Proof.
  unfold expire_commitment. sim_guard. intros who _. sim_guard. intros c _. sim_guards.
  sim_store (ren_remove_commitment i). eapply sim_seq; [by apply (sim_modify anywhere)|intros _].
  apply sim_modify, (ren_deposit_event (CommitmentExpired i)).
Qed.

(** The helper of the tests computes the id the pallet derives there. *)
Lemma derive_test p q root b :
  VectorDb.derive_commitment_id (H3 := u64_blocks encode_u64) p q root b =
  MockVectorDb.derive_commitment_id encode_u64 p q root b.
Proof.
  unfold VectorDb.derive_commitment_id, commitment_preimage, MockVectorDb.derive_commitment_id. cbv zeta.
  by rewrite <- !app_assoc.
Qed.

Lemma sim_register I sys o p q root n meta e v :
  comparable_call sys (RegisterCommitment p q root n meta e v) ->
  sim I id (register_commitment ours sys o p q root n meta e v)
    (register_commitment (H3 := u64_blocks encode_u64) config sys (ren_origin o) p q root n meta e v).
Proof.
  intros (_ & He & _ & Hid). unfold register_commitment. do 9 (sim_guard; intros ? _; cbv zeta).
  eapply sim_read; [apply _|apply sim_ensure|intros ? _].
  { cbn in He |- *. destruct He; [rewrite !(proj2 (Z.leb_le _ _)) by lia|rewrite !(proj2 (Z.leb_gt _ _)) by lia]; done. }
  rewrite derive_test, <- Hid. set (i := VectorDb.derive_commitment_id p q root (block_number sys)).
  eapply sim_read; [apply _|apply (sim_gets _ id)|intros ? _].
  { intros s _. rewrite ren_lookup_commitment. apply bool_decide_ext. by rewrite fmap_is_Some. }
  sim_guard. intros _ _.
  sim_store (ren_insert_commitment i (mkCommitment i p q root n meta Pending (block_number sys)
    (sat_add u32_max (block_number sys) e) None v)).
  eapply sim_seq; [by apply (sim_modify anywhere)|intros _].
  apply sim_modify, (ren_deposit_event (CommitmentRegistered i p q root n (sat_add u32_max (block_number sys) e) meta)).
Qed.

Lemma sim_raise sys o i q k h n :
  sim comparable id (raise_dispute ours sys o i q k h n) (raise_dispute config sys (ren_origin o) (rho i) q k h n).
Proof.
  unfold raise_dispute. sim_guard. intros who _. sim_guard. intros c _. sim_guards.
  eapply sim_read; [apply _|apply (sim_gets _ id)|intros ? _].
  { intros s _. rewrite ren_lookup_dispute. apply bool_decide_ext. by rewrite fmap_is_Some. }
  sim_guards. eapply sim_read; [apply _|apply (sim_gets _ id)|intros w _].
  { intros s [Hw _ _]. unfold effective_dispute_window. cbn. by rewrite Hw. }
  set (dl := sat_add u32_max (block_number sys) w).
  sim_store (ren_insert_dispute i (mkDispute i (merkle_root c) h k (block_number sys) dl None)).
  sim_store (ren_insert_commitment i (with_status Disputed c)).
  apply sim_modify, (ren_deposit_event (DisputeRaised i (merkle_root c) k h dl)).
Qed.

Lemma sim_counter sys o i p data proof :
  sim comparable id (counter_dispute Configs.usize_bits sys o i p data proof)
    (counter_dispute 64 sys (ren_origin o) (rho i) p data proof).
Proof.
  unfold counter_dispute. sim_guard. intros who _. sim_guard. intros c (s1 & [_ Hc _] & Hg).
  apply bind_read_inv in Hg as (o1 & [= <-] & [Hg _]%ok_or_ok_inv); [|apply _]. apply Hc in Hg as Hn. clear Hc.
  do 5 (sim_guard; intros ? _). sim_guard. intros d (s2 & [_ _ Hd] & Hgd).
  apply bind_read_inv in Hgd as (o2 & [= <-] & [Hgd _]%ok_or_ok_inv); [|apply _]. apply Hd in Hgd as Hi. clear Hd. cbn beta in Hi.
  sim_guard. intros _ _. eapply sim_read; [apply _|by apply sim_ensure|intros u1 (s3 & _ & [Hlt _]%ensure_ok_inv)].
  apply Z.ltb_lt in Hlt. unfold narrow_commitment in Hn.
  eapply sim_read; [apply _|apply sim_ensure|intros _ _].
  { cbn. rewrite !as_usize_small by (unfold Configs.usize_bits; lia). done. }
  sim_store (ren_insert_dispute i (with_verdict ClaimantUnsubstantiated d)).
  sim_store (ren_insert_commitment i (with_status DisputeResolved c)).
  eapply sim_seq; [by apply (sim_modify anywhere)|intros _]. do 2 sim_write.
  apply sim_modify, (ren_deposit_event (DisputeCountered i ClaimantUnsubstantiated)).
Qed.

Lemma sim_exec sys o c :
  comparable_call sys c -> sim comparable id (exec_ours sys o c) (exec_test sys (ren_origin o) (ren_call c)).
Proof.
  intros Hc. destruct c; cbn [ren_call]; unfold exec_ours, exec_test, exec_mock; cbn [exec].
  - by apply sim_register.
  - apply sim_acknowledge.
  - apply sim_close.
  - apply sim_raise.
  - apply sim_counter.
  - apply sim_finalize.
  - apply sim_expire.
Qed.

(** Comparable calls keep the storage comparable, wherever the pallet runs. *)
Lemma exec_comparable {X} `{AgentLookup X} `{ReputationHandler X} `{EscrowHandler X} cfg ub sys o c (s s' : State X) :
  comparable_call sys c -> exec cfg ub sys o c s = (Ok tt, s') -> comparable s -> comparable s'.
Proof.
  intros [_ Hcc] Hx [Hw Hcs Hds]. destruct c; cbn [exec] in Hx.
  - apply VectorDbTheory.register_commitment_ok in Hx as (who & _ & _ & _ & _ & _ & _ & _ & _ & ->).
    destruct Hcc as (_ & Hn & _). split; cbn; try done. by apply map_Forall_insert_2.
  - apply VectorDbTheory.acknowledge_commitment_ok in Hx as (who & c & pc & x' & _ & Hc & _ & _ & _ & _ & _ & _ & ->).
    split; cbn; try done. apply map_Forall_insert_2; [exact (Hcs _ _ Hc)|done].
  - apply VectorDbTheory.close_commitment_ok in Hx as (who & c & x' & _ & Hc & _ & _ & _ & _ & _ & _ & ->).
    split; cbn; try done. apply map_Forall_insert_2; [exact (Hcs _ _ Hc)|done].
  - apply VectorDbTheory.raise_dispute_ok in Hx as (who & c & _ & Hc & _ & _ & _ & _ & _ & _ & ->).
    split; cbn; try done; (apply map_Forall_insert_2; [|done]); [exact (Hcs _ _ Hc)|done].
  - apply VectorDbTheory.counter_dispute_ok in Hx as (who & c & d & x' & _ & Hc & _ & _ & _ & Hd & _ & _ & _ & _ & ->).
    split; cbn; try done; (apply map_Forall_insert_2; [|done]); [exact (Hcs _ _ Hc)|exact (Hds _ _ Hd)].
  - apply VectorDbTheory.finalize_dispute_ok in Hx as (who & c & d & x' & _ & Hc & _ & Hd & _ & _ & ->).
    split; cbn; try done; (apply map_Forall_insert_2; [|done]); [exact (Hcs _ _ Hc)|exact (Hds _ _ Hd)].
  - apply VectorDbTheory.expire_commitment_ok in Hx as (who & c & _ & Hc & _ & _ & ->).
    split; cbn; try done. by apply map_Forall_delete.
Qed.
End Renaming.
End MockRenaming.
