(* ===== verification/Weights.v ===== *)
(** * Weights: the declared cost of every call

    The weight functions of the pallets ([WeightInfo] at the end of
    [pallets/pallet-agent-registry/src/lib.rs] and [pallets/pallet-vector-db/src/lib.rs],
    and [pallets/template/src/weights.rs]), the choice [runtime/src/configs/mod.rs] makes
    among them, and the limits and fees it derives from them. *)

From stdpp Require Import base list.
From Stdlib Require Import ZArith Lia.
From S2P Require Import Prelude Frame AgentRegistry Merkle VectorDb Template Runtime.

(** ** [frame_support::weights::Weight] *)

Record Weight : Type := from_parts { ref_time : Z; proof_size : Z }.

Definition weight_add (a b : Weight) : Weight :=
  from_parts (sat_add u64_max (ref_time a) (ref_time b)) (sat_add u64_max (proof_size a) (proof_size b)).
Infix "+w" := weight_add (at level 50, left associativity).

(** [RuntimeDbWeight]: the price of a database read and of a write, and the weight of
    [n] of them. *)
Record RuntimeDbWeight : Type := mkDbWeight { db_read : Z; db_write : Z }.
Definition reads (w : RuntimeDbWeight) (n : Z) : Weight := from_parts (Z.min u64_max (db_read w * n)) 0.
Definition writes (w : RuntimeDbWeight) (n : Z) : Weight := from_parts (Z.min u64_max (db_write w * n)) 0.

(** ** [pallet_agent_registry::WeightInfo] *)

Module RegistryWeights.
Class WeightInfo := {
  register_agent : Weight;
  update_profile : Weight;
  set_agent_status : Weight;
  give_star : Did -> Did -> Weight;
  remove_star : Did -> Did -> Weight;
  deregister_agent : Did -> Weight }.

(** [impl WeightInfo for SubstrateWeight<T>]. *)
Definition SubstrateWeight : WeightInfo := {|
  register_agent :=
    from_parts 10000 0 +w from_parts (25000000 * 6) 0 +w from_parts (100000000 * 3) 0 +w from_parts 300000000 0;
  update_profile := from_parts 8000 0 +w from_parts 25000000 0 +w from_parts 100000000 0;
  set_agent_status := from_parts 6000 0 +w from_parts (25000000 * 2) 0 +w from_parts (100000000 * 2) 0;
  give_star := fun _ _ => from_parts 8000 0 +w from_parts (25000000 * 4) 0 +w from_parts (100000000 * 2) 0;
  remove_star := fun _ _ => from_parts 8000 0 +w from_parts (25000000 * 3) 0 +w from_parts (100000000 * 2) 0;
  deregister_agent := fun _ => from_parts 6000 0 +w from_parts (25000000 * 3) 0 +w from_parts (100000000 * 3) 0 |}.

(** [impl WeightInfo for ()]. *)
Definition unit_weights : WeightInfo := {|
  register_agent := from_parts 750010000 0;
  update_profile := from_parts 125008000 0;
  set_agent_status := from_parts 250006000 0;
  give_star := fun _ _ => from_parts 300008000 0;
  remove_star := fun _ _ => from_parts 275008000 0;
  deregister_agent := fun _ => from_parts 375006000 0 |}.

(** The [#[pallet::weight]] of each call. *)
Definition call_weight (wi : WeightInfo) (c : Registry.Call) : Weight :=
  match c with
  | Registry.RegisterAgent _ _ _ _ _ _ => register_agent
  | Registry.UpdateProfile _ _ _ _ => update_profile
  | Registry.SetAgentStatus _ _ => set_agent_status
  | Registry.GiveStar giver_did receiver => give_star giver_did receiver
  | Registry.RemoveStar giver_did receiver => remove_star giver_did receiver
  | Registry.DeregisterAgent d => deregister_agent d
  end.
End RegistryWeights.

(** ** [pallet_vector_db::WeightInfo] *)

Module VectorDbWeights.
Class WeightInfo := {
  register_commitment : Weight;
  acknowledge_commitment : Weight;
  close_commitment : Weight;
  raise_dispute : Weight;
  counter_dispute : Weight;
  finalize_dispute : Weight;
  expire_commitment : Weight }.

(** [impl WeightInfo for ()]. *)
Definition unit_weights : WeightInfo := {|
  register_commitment := from_parts 175000000 0;
  acknowledge_commitment := from_parts 150006000 0;
  close_commitment := from_parts 250006000 0;
  raise_dispute := from_parts 300008000 0;
  counter_dispute := from_parts 500034000 0;
  finalize_dispute := from_parts 250006000 0;
  expire_commitment := from_parts 175004000 0 |}.

Definition call_weight (wi : WeightInfo) (c : VectorDb.Call) : Weight :=
  match c with
  | VectorDb.RegisterCommitment _ _ _ _ _ _ _ => register_commitment
  | VectorDb.AcknowledgeCommitment _ _ => acknowledge_commitment
  | VectorDb.CloseCommitment _ _ _ _ => close_commitment
  | VectorDb.RaiseDispute _ _ _ _ _ => raise_dispute
  | VectorDb.CounterDispute _ _ _ _ => counter_dispute
  | VectorDb.FinalizeDispute _ => finalize_dispute
  | VectorDb.ExpireCommitment _ => expire_commitment
  end.
End VectorDbWeights.

(** ** [pallet_template::WeightInfo] *)

Module TemplateWeights.
Class WeightInfo := { do_something : Weight; cause_error : Weight }.

(** [impl WeightInfo for SubstrateWeight<T>], at the [DbWeight] of [T]. *)
Definition SubstrateWeight (db : RuntimeDbWeight) : WeightInfo := {|
  do_something := from_parts 9000000 0 +w writes db 1;
  cause_error := from_parts 6000000 1489 +w reads db 1 +w writes db 1 |}.

(** [impl WeightInfo for ()]: the same, at [RocksDbWeight]. *)
Definition unit_weights (rocks : RuntimeDbWeight) : WeightInfo := {|
  do_something := from_parts 9000000 0 +w writes rocks 1;
  cause_error := from_parts 6000000 1489 +w reads rocks 1 +w writes rocks 1 |}.

Definition call_weight (wi : WeightInfo) (c : Template.Call) : Weight :=
  match c with Template.DoSomething _ => do_something | Template.CauseError => cause_error end.
End TemplateWeights.

(** ** The runtime

    [type WeightInfo = ()] for the registry and the commitments, [SubstrateWeight] for
    the template; [type DbWeight = RocksDbWeight]; two seconds of compute per block, of
    which three quarters for normal dispatches; [type WeightToFee = IdentityFee]. *)

Module RuntimeWeights.
Import Runtime.

Definition WEIGHT_REF_TIME_PER_SECOND : Z := 1000000000000.
Definition MAXIMUM_BLOCK_WEIGHT : Weight := from_parts (2 * WEIGHT_REF_TIME_PER_SECOND) u64_max.
Definition NORMAL_DISPATCH_RATIO_PERCENT : Z := 75.

Section Runtime.
Context (RocksDbWeight : RuntimeDbWeight).

Definition call_weight (c : RuntimeCall) : Weight :=
  match c with
  | CallTemplate c => TemplateWeights.call_weight (TemplateWeights.SubstrateWeight RocksDbWeight) c
  | CallRegistry c => RegistryWeights.call_weight RegistryWeights.unit_weights c
  | CallVectorDb c => VectorDbWeights.call_weight VectorDbWeights.unit_weights c
  end.

(** [IdentityFee]: one unit of balance per unit of reference time. *)
Definition weight_to_fee (w : Weight) : Balance := ref_time w.
Definition length_to_fee (len : Z) : Balance := len.

(** The inclusion fee [pallet_transaction_payment] documents, at a multiplier of one:
    the fee of the base weight of an extrinsic, of its length and of its own weight. *)
Definition inclusion_fee (base : Weight) (len : Z) (c : RuntimeCall) : Balance :=
  weight_to_fee base + length_to_fee len + weight_to_fee (call_weight c).
End Runtime.

(** *** Facts *)

Lemma registry_weights_equal : RegistryWeights.SubstrateWeight = RegistryWeights.unit_weights.
Proof. reflexivity. Qed.

Lemma registry_weight_bounds c :
  125008000 <= ref_time (RegistryWeights.call_weight RegistryWeights.unit_weights c) <= 750010000 /\
  proof_size (RegistryWeights.call_weight RegistryWeights.unit_weights c) = 0.
Proof. destruct c; cbn; lia. Qed.

Lemma vector_db_weight_bounds c :
  150006000 <= ref_time (VectorDbWeights.call_weight VectorDbWeights.unit_weights c) <= 500034000 /\
  proof_size (VectorDbWeights.call_weight VectorDbWeights.unit_weights c) = 0.
Proof. destruct c; cbn; lia. Qed.

Lemma template_weight_bounds db c :
  0 <= db_read db <= 300000000 -> 0 <= db_write db <= 300000000 ->
  6000000 <= ref_time (TemplateWeights.call_weight (TemplateWeights.SubstrateWeight db) c) <= 609000000 /\
  0 <= proof_size (TemplateWeights.call_weight (TemplateWeights.SubstrateWeight db) c) <= 1489.
Proof. intros. destruct c; cbn; unfold sat_add, u64_max; lia. Qed.
End RuntimeWeights.
