(* ===== verification/GenesisPresets.v ===== *)
(** * GenesisPresets: [runtime/src/genesis_config_presets.rs] and [node/src]

    The two genesis configurations of the runtime, the lookup by name, the chain
    specifications of [node/src/chain_spec.rs] that refer to them and the [load_spec] of
    [node/src/command.rs].  The key ring, the wasm binary, the names of the presets and
    the genesis of the balances pallet are external. *)

From stdpp Require Import base gmap list strings.
From Stdlib Require Import ZArith Lia.
From S2P Require Import Prelude Frame Ledger Escrow AgentRegistry Merkle VectorDb Template Runtime.

Local Open Scope arth_scope.

(** [sp_keyring]: the well-known development keys. *)
Class Keyring := {
  Sr25519Keyring : Type;
  keyring_eq_dec :: EqDecision Sr25519Keyring;
  Alice : Sr25519Keyring;
  Bob : Sr25519Keyring;
  AliceStash : Sr25519Keyring;
  BobStash : Sr25519Keyring;
  One : Sr25519Keyring;
  Two : Sr25519Keyring;
  keyring_iter : list Sr25519Keyring;
  to_account_id : Sr25519Keyring -> AccountId;
  sr25519_public : Sr25519Keyring -> bytes;
  ed25519_public : Sr25519Keyring -> bytes }.

Class KeyringLaws `{Keyring} : Prop := {
  keyring_distinct : NoDup [Alice; Bob; AliceStash; BobStash; One; Two];
  keyring_iter_complete : forall k, k ∈ keyring_iter;
  keyring_iter_nodup : NoDup keyring_iter;
  keyring_iter_small : (length keyring_iter <= 64)%nat;
  to_account_id_inj :: Inj (=) (=) to_account_id;
  sr25519_public_inj :: Inj (=) (=) sr25519_public;
  ed25519_public_inj :: Inj (=) (=) ed25519_public }.

(** [pallet_balances::GenesisConfig::build], which panics on duplicate accounts and on
    balances below the existential deposit. *)
Class GenesisBalances (L : Type) `{ReservableCurrency L} :=
  build_balances : list (AccountId * Balance) -> option L.

Class GenesisBalancesLaws (L : Type) `{GenesisBalances L} : Prop :=
  build_balances_ok : forall bs : list (AccountId * Balance),
    NoDup bs.*1 -> (forall a v, (a, v) ∈ bs -> Configs.EXISTENTIAL_DEPOSIT <= v) ->
    exists l : L, build_balances bs = Some l /\
      (forall a v, (a, v) ∈ bs -> free_balance l a = v) /\
      (forall a, reserved_balance l a = 0).

Module Presets.

(** [RuntimeGenesisConfig]: the fields a preset fills, and what the other fields and
    pallets configure. *)
Record RuntimeGenesisConfig (Other : Type) : Type := mkGenesisConfig {
  vector_db_dispute_window : option BlockNumber;
  balances : list (AccountId * Balance);
  aura_authorities : list bytes;
  grandpa_authorities : list (bytes * Z);
  sudo_key : option AccountId;
  other_genesis : Other }.
Arguments mkGenesisConfig {Other}.
Arguments vector_db_dispute_window {Other} r.
Arguments balances {Other} r.
Arguments aura_authorities {Other} r.
Arguments grandpa_authorities {Other} r.
Arguments sudo_key {Other} r.
Arguments other_genesis {Other} r.

(** What [build_struct_json_patch!] keeps of a configuration: the fields that are named,
    and no other. *)
Record GenesisPatch : Type := mkPatch {
  p_dispute_window : option BlockNumber;
  p_balances : list (AccountId * Balance);
  p_aura_authorities : list bytes;
  p_grandpa_authorities : list (bytes * Z);
  p_sudo_key : option AccountId }.

(** A configuration with the named fields replaced. *)
Definition patched {Other} (p : GenesisPatch) (cfg : RuntimeGenesisConfig Other) : RuntimeGenesisConfig Other :=
  mkGenesisConfig (p_dispute_window p) (p_balances p) (p_aura_authorities p) (p_grandpa_authorities p) (p_sudo_key p)
    (other_genesis cfg).

Definition testnet_genesis (initial_authorities : list (bytes * bytes)) (endowed_accounts : list AccountId)
    (root : AccountId) (dispute_window : option Z) : GenesisPatch :=
  mkPatch dispute_window
    ((fun k => (k, Z.shiftl 1 60)) <$> endowed_accounts)
    (fst <$> initial_authorities)
    ((fun x => (x.2, 1)) <$> initial_authorities)
    (Some root).

Section Presets.
Context `{Keyring}.
Context (DEV_RUNTIME_PRESET LOCAL_TESTNET_RUNTIME_PRESET : string).

Definition development_config_genesis : GenesisPatch :=
  testnet_genesis [(sr25519_public Alice, ed25519_public Alice)]
    [to_account_id Alice; to_account_id Bob; to_account_id AliceStash; to_account_id BobStash]
    (to_account_id Alice) (Some 10).

Definition local_config_genesis : GenesisPatch :=
  testnet_genesis
    [(sr25519_public Alice, ed25519_public Alice); (sr25519_public Bob, ed25519_public Bob)]
    (to_account_id <$> filter (fun v => v <> One /\ v <> Two) keyring_iter)
    (to_account_id Alice) None.

(** The patch of the preset; the JSON text is the encoding [to_json] of it. *)
Definition get_preset {J} (to_json : GenesisPatch -> J) (id : string) : option J :=
  patch ← (if bool_decide (id = DEV_RUNTIME_PRESET) then Some development_config_genesis
           else if bool_decide (id = LOCAL_TESTNET_RUNTIME_PRESET) then Some local_config_genesis
           else None);
  Some (to_json patch).

Definition preset_names : list string := [DEV_RUNTIME_PRESET; LOCAL_TESTNET_RUNTIME_PRESET].
End Presets.

(** ** The state a configuration builds *)

Section Build.
Context {L : Type} `{GenesisBalances L}.

(** [BuildGenesisConfig::build] of the pallets that are modelled. *)
Definition build_state {Other} (cfg : RuntimeGenesisConfig Other) (sys : System) : option (Runtime.Chain L) :=
  (fun l => Runtime.genesis (vector_db_dispute_window cfg) sys l) <$> build_balances (balances cfg).
End Build.
End Presets.

(** ** The node's chain specifications *)

Module ChainSpecs.
Import Presets.

Inductive ChainType : Type := Development | Local.

Record ChainSpec : Type := mkChainSpec {
  wasm : bytes;
  name : string;
  id : string;
  chain_type : ChainType;
  genesis_config_preset_name : string }.

Section Node.
Context (WASM_BINARY : option bytes) (DEV_RUNTIME_PRESET LOCAL_TESTNET_RUNTIME_PRESET : string).
Context (from_json_file : string -> result string ChainSpec).

Definition development_chain_spec : result string ChainSpec :=
  match WASM_BINARY with
  | None => Err "Development wasm not available"
  | Some code => Ok (mkChainSpec code "Development" "dev" Development DEV_RUNTIME_PRESET)
  end.

Definition local_chain_spec : result string ChainSpec :=
  match WASM_BINARY with
  | None => Err "Development wasm not available"
  | Some code => Ok (mkChainSpec code "Local Testnet" "local_testnet" Local LOCAL_TESTNET_RUNTIME_PRESET)
  end.

(** [SubstrateCli::load_spec]. *)
Definition load_spec (id : string) : result string ChainSpec :=
  if bool_decide (id = "dev") then development_chain_spec
  else if bool_decide (id = EmptyString \/ id = "local") then local_chain_spec
  else from_json_file id.
End Node.
End ChainSpecs.

(** ** Facts *)

Module PresetsTheory.
Import Presets.

Section Facts.
Context `{KeyringLaws}.

(** The endowed accounts of a preset are distinct and well above the existential deposit. *)
Lemma testnet_balances auth (ks : list Sr25519Keyring) root dw :
  NoDup ks ->
  NoDup (p_balances (testnet_genesis auth (to_account_id <$> ks) root dw)).*1 /\
  (forall a v, (a, v) ∈ p_balances (testnet_genesis auth (to_account_id <$> ks) root dw) ->
    v = 2 ^ 60 /\ exists k, k ∈ ks /\ a = to_account_id k).
Proof.
  intros Hk. cbn -[Z.shiftl]. split.
  - rewrite <- !list_fmap_compose. cbn. by apply NoDup_fmap_2; [apply _|].
  - intros a v (k' & [= -> ->] & (k & -> & Hin)%list_elem_of_fmap)%list_elem_of_fmap. split; [done|]. by exists k.
Qed.

Lemma dev_accounts_nodup : NoDup [Alice; Bob; AliceStash; BobStash].
Proof.
  pose proof keyring_distinct as Hd. change ([Alice; Bob; AliceStash; BobStash; One; Two]) with
    ([Alice; Bob; AliceStash; BobStash] ++ [One; Two]) in Hd. by apply NoDup_app in Hd as [? _].
Qed.

Lemma build_testnet {L} `{GenesisBalancesLaws L} auth (ks : list Sr25519Keyring) root dw {Other} (cfg : RuntimeGenesisConfig Other) sys :
  NoDup ks ->
  exists l, build_state (L := L) (patched (testnet_genesis auth (to_account_id <$> ks) root dw) cfg) sys =
      Some (Runtime.genesis dw sys l) /\
    (forall a, reserved_balance l a = 0) /\
    (forall k, k ∈ ks -> free_balance l (to_account_id k) = 2 ^ 60).
Proof.
  intros Hk. destruct (testnet_balances auth ks root dw Hk) as [Hn Hb].
  destruct (build_balances_ok (L := L) _ Hn) as (l & Hl & Hf & Hr).
  { intros a v [-> _]%Hb. done. }
  exists l. unfold build_state. cbn -[Z.shiftl testnet_genesis]. rewrite Hl. split_and!; [done..|].
  intros k Hin. apply Hf. cbn -[Z.shiftl]. apply list_elem_of_fmap. exists (to_account_id k).
  split; [done|]. by apply list_elem_of_fmap_2.
Qed.
End Facts.
End PresetsTheory.
