(* ===== verification/Service.v ===== *)
(** * Service: [node/src/service.rs] and [node/src/rpc.rs]

    How the node is put together: [new_partial] builds the client, the pool, the block
    import and the import queue, [new_full] the network, and both spawn the tasks the
    node consists of.  The components of Substrate are the types and functions of
    [Substrate]; the state the functions run on is the task manager, which most of
    those components spawn tasks on, too. *)

From stdpp Require Import base list strings.
From Stdlib Require Import ZArith Lia QArith.
From S2P Require Import Prelude.

Local Open Scope arth_scope.
Local Open Scope Z_scope.

(** ** What the service uses of Substrate *)

(** [sc_service::Role], with [Role::is_authority]. *)
Inductive Role : Type := Full | Authority.
Definition is_authority (r : Role) : bool := match r with Authority => true | Full => false end.

(** [sc_network::config::NetworkBackendType]; [Default] is [Libp2p]. *)
Inductive NetworkBackendType : Type := Libp2p | Litep2p.

(** [spawn_handle()] and [spawn_essential_handle()] of the task manager. *)
Inductive Handle : Type := SpawnHandle | SpawnEssentialHandle.

(** The components, known by their types only. *)
Class SubstrateTypes := {
  Endpoints : Type; TelemetryWorker : Type; Telemetry : Type; TelemetryHandle : Type;
  ExecutorConfig : Type; Executor : Type; Client : Type; Backend : Type; OffchainDb : Type;
  KeystoreContainer : Type; KeystorePtr : Type; SelectChain : Type; PoolOptions : Type;
  Prometheus : Type; Pool : Type; PoolFactory : Type; BlockImport : Type; LinkHalf : Type;
  AuthoritySet : Type; ImportQueue : Type; NodeChainSpec : Type; Database : Type;
  NetworkSettings : Type; NetConfig : Type; Metrics : Type; PeerStore : Type; ProtocolName : Type;
  ProtocolConfig : Type; NotificationService : Type; WarpProvider : Type; Network : Type;
  SystemRpcTx : Type; TxHandlerController : Type; SyncService : Type; OffchainWorkers : Type;
  RpcMethods : Type; RpcModule : Type; RpcHandlers : Type; ProposerFactory : Type;
  AuraWorker : Type; VotingRule : Type; VoterState : Type; Voter : Type;
  ServiceError : Type; TelemetryError : Type; ClientError : Type; ConsensusError : Type;
  OffchainError : Type; RpcError : Type }.

Section Parameters.
Context {T : SubstrateTypes}.

(** [sc_service::Configuration], the fields the service reads. *)
Record Configuration : Type := mkConfiguration {
  telemetry_endpoints : option Endpoints;
  executor : ExecutorConfig;
  role : Role;
  transaction_pool : PoolOptions;
  prometheus_registry : option Prometheus;
  network : NetworkSettings;
  node_name : string;
  network_backend : option NetworkBackendType;
  chain_spec : NodeChainSpec;
  database : Database;
  offchain_worker_enabled : bool;
  force_authoring : bool;
  disable_grandpa : bool }.

(** What a task runs; [Foreign] are the tasks of Substrate's own components. *)
Inductive TaskBody : Type :=
  | RunTelemetry (w : TelemetryWorker)
  | RunOffchainWorkers (w : OffchainWorkers) (c : Client) (h : Handle)
  | RunAura (w : AuraWorker)
  | RunGrandpaVoter (v : Voter)
  | Foreign.

Record Task : Type := mkTask {
  task_name : string;
  task_group : option string;
  essential : bool;
  blocking : bool;
  body : TaskBody }.

(** The task manager: the tasks spawned so far. *)
Definition TaskManager : Type := list Task.

(** A failure of the service, or the panic of an [expect]. *)
Inductive NodeError : Type :=
  | ServiceFailed (e : ServiceError)
  | Panicked (message : string).

(** The slot and the timestamp of a block, and what creates them: a function of the
    parent and of the system time. *)
Record InherentData : Type := mkInherents { slot : Z; timestamp : Z }.
Definition InherentDataProviders : Type := bytes -> Z -> result ClientError InherentData.

(** The parameter structs of the calls. *)
Record ImportQueueParams : Type := mkImportQueueParams {
  iq_block_import : BlockImport;
  iq_justification_import : option BlockImport;
  iq_client : Client;
  iq_create_inherent_data_providers : InherentDataProviders;
  iq_spawner : Handle;
  iq_registry : option Prometheus;
  iq_telemetry : option TelemetryHandle }.

Record BuildNetworkParams : Type := mkBuildNetworkParams {
  bn_config : Configuration;
  bn_net_config : NetConfig;
  bn_client : Client;
  bn_transaction_pool : Pool;
  bn_spawn_handle : Handle;
  bn_import_queue : ImportQueue;
  bn_warp_sync : option WarpProvider;
  bn_metrics : Metrics }.

Record OffchainWorkerOptions : Type := mkOffchainWorkerOptions {
  ow_runtime_api_provider : Client;
  ow_is_validator : bool;
  ow_keystore : option KeystorePtr;
  ow_offchain_db : option OffchainDb;
  ow_transaction_pool : option PoolFactory;
  ow_network_provider : Network;
  ow_enable_http_requests : bool }.

Record SpawnTasksParams : Type := mkSpawnTasksParams {
  st_network : Network;
  st_client : Client;
  st_keystore : KeystorePtr;
  st_transaction_pool : Pool;
  st_rpc_builder : result ServiceError RpcModule;
  st_backend : Backend;
  st_system_rpc_tx : SystemRpcTx;
  st_tx_handler_controller : TxHandlerController;
  st_sync_service : SyncService;
  st_config : Configuration;
  st_telemetry : option Telemetry }.

Record StartAuraParams : Type := mkStartAuraParams {
  sa_slot_duration : Z;
  sa_client : Client;
  sa_select_chain : SelectChain;
  sa_block_import : BlockImport;
  sa_proposer_factory : ProposerFactory;
  sa_create_inherent_data_providers : InherentDataProviders;
  sa_force_authoring : bool;
  sa_backoff_authoring_blocks : option unit;
  sa_keystore : KeystorePtr;
  sa_sync_oracle : SyncService;
  sa_justification_sync_link : SyncService;
  sa_block_proposal_slot_portion : Q;
  sa_max_block_proposal_slot_portion : option Q;
  sa_telemetry : option TelemetryHandle }.

Record GrandpaConfig : Type := mkGrandpaConfig {
  gc_gossip_duration_ms : Z;
  gc_justification_generation_period : Z;
  gc_name : option string;
  gc_observer_enabled : bool;
  gc_keystore : option KeystorePtr;
  gc_local_role : Role;
  gc_telemetry : option TelemetryHandle;
  gc_protocol_name : ProtocolName }.

Record GrandpaParams : Type := mkGrandpaParams {
  gp_config : GrandpaConfig;
  gp_link : LinkHalf;
  gp_network : Network;
  gp_sync : SyncService;
  gp_notification_service : NotificationService;
  gp_voting_rule : VotingRule;
  gp_prometheus_registry : option Prometheus;
  gp_shared_voter_state : VoterState;
  gp_telemetry : option TelemetryHandle;
  gp_offchain_tx_pool_factory : PoolFactory }.

(** The calls; those that are given a handle of the task manager run on it. *)
Class Substrate := {
  from_telemetry_error : TelemetryError -> ServiceError;
  from_client_error : ClientError -> ServiceError;
  from_consensus_error : ConsensusError -> ServiceError;
  from_offchain_error : OffchainError -> ServiceError;
  from_rpc_error : RpcError -> ServiceError;
  endpoints_is_empty : Endpoints -> bool;
  telemetry_worker_new : Z -> result TelemetryError TelemetryWorker;
  new_telemetry : TelemetryWorker -> Endpoints -> Telemetry;
  telemetry_handle : Telemetry -> TelemetryHandle;
  new_wasm_executor : ExecutorConfig -> Executor;
  new_full_parts : Configuration -> option TelemetryHandle -> Executor ->
    result ServiceError (Client * Backend * KeystoreContainer * TaskManager);
  keystore : KeystoreContainer -> KeystorePtr;
  longest_chain : Backend -> SelectChain;
  pool_build : Handle -> Client -> bool -> PoolOptions -> option Prometheus -> TaskManager -> Pool * TaskManager;
  grandpa_block_import : Client -> Z -> Client -> SelectChain -> option TelemetryHandle ->
    result ClientError (BlockImport * LinkHalf);
  slot_duration_at : Client -> bytes -> result ClientError Z;
  slot_from_timestamp : Z -> Z -> Z;
  aura_import_queue : ImportQueueParams -> M TaskManager ConsensusError ImportQueue;
  net_config_new : NetworkBackendType -> NetworkSettings -> option Prometheus -> NetConfig;
  register_notification_metrics : NetworkBackendType -> option Prometheus -> Metrics;
  peer_store_handle : NetConfig -> PeerStore;
  client_block_hash : Client -> Z -> result ClientError (option bytes);
  protocol_standard_name : bytes -> NodeChainSpec -> ProtocolName;
  grandpa_peers_set_config : NetworkBackendType -> ProtocolName -> Metrics -> PeerStore ->
    ProtocolConfig * NotificationService;
  add_notification_protocol : ProtocolConfig -> NetConfig -> NetConfig;
  shared_authority_set : LinkHalf -> AuthoritySet;
  warp_provider_new : Backend -> AuthoritySet -> list bytes -> WarpProvider;
  build_network : BuildNetworkParams ->
    M TaskManager ServiceError (Network * SystemRpcTx * TxHandlerController * SyncService);
  offchain_storage : Backend -> option OffchainDb;
  pool_factory_new : Pool -> PoolFactory;
  offchain_workers_new : OffchainWorkerOptions -> result OffchainError OffchainWorkers;
  rpc_module_new : RpcModule;
  rpc_system : Client -> Pool -> RpcMethods;
  rpc_transaction_payment : Client -> RpcMethods;
  rpc_merge : RpcMethods -> RpcModule -> result RpcError RpcModule;
  spawn_tasks : SpawnTasksParams -> M TaskManager ServiceError RpcHandlers;
  proposer_factory_new : Handle -> Client -> Pool -> option Prometheus -> option TelemetryHandle -> ProposerFactory;
  aura_slot_duration : Client -> result ClientError Z;
  start_aura : StartAuraParams -> result ConsensusError AuraWorker;
  default_voting_rule : VotingRule;
  empty_voter_state : VoterState;
  run_grandpa_voter : GrandpaParams -> result ClientError Voter }.
End Parameters.

(** ** The service *)

Section Service.
Context {T : SubstrateTypes} `{!Substrate}.

Abbreviation Node A := (M TaskManager NodeError A).

(** [?] on a result whose error converts into a [ServiceError]. *)
Definition try {E A} (from : E -> ServiceError) (r : result E A) : Node A :=
  match r with Ok a => ret a | Err e => throw (ServiceFailed (from e)) end.
Definition try_run {E A} (from : E -> ServiceError) (m : M TaskManager E A) : Node A := fun tm =>
  match m tm with
  | (Ok a, tm') => (Ok a, tm')
  | (Err e, tm') => (Err (ServiceFailed (from e)), tm')
  end.

(** [handle.spawn(name, group, body)] and [spawn_blocking]. *)
Definition spawn (h : Handle) (blocking : bool) (name : string) (group : option string) (b : TaskBody) : Node unit :=
  modify (fun tm => tm ++
    [mkTask name group (match h with SpawnEssentialHandle => true | SpawnHandle => false end) blocking b]).

Definition GRANDPA_JUSTIFICATION_PERIOD : Z := 512.

(** [sc_service::PartialComponents]; its task manager is the state. *)
Record Service : Type := mkService {
  client : Client;
  backend : Backend;
  import_queue : ImportQueue;
  keystore_container : KeystoreContainer;
  select_chain : SelectChain;
  pool : Pool;
  block_import : BlockImport;
  grandpa_link : LinkHalf;
  telemetry : option Telemetry }.

(** The providers of the import queue ask the runtime at the parent block. *)
Definition import_inherents (c : Client) : InherentDataProviders := fun parent_hash now =>
  match slot_duration_at c parent_hash with
  | Err e => Err e
  | Ok d => Ok (mkInherents (slot_from_timestamp now d) now)
  end.

(** The providers of the author keep the duration read when it started. *)
Definition authoring_inherents (slot_duration : Z) : InherentDataProviders := fun _ now =>
  Ok (mkInherents (slot_from_timestamp now slot_duration) now).

Definition new_partial (config : Configuration) : Node Service :=
  telemetry <- match telemetry_endpoints config with
    | Some endpoints =>
        if negb (endpoints_is_empty endpoints) then
          worker <- try from_telemetry_error (telemetry_worker_new 16) ;;
          ret (Some (worker, new_telemetry worker endpoints))
        else ret None
    | None => ret None
    end ;;
  let exec := new_wasm_executor (executor config) in
  parts <- try id (new_full_parts config (telemetry_handle <$> (snd <$> telemetry)) exec) ;;
  let '(client, backend, keystore_container, task_manager) := parts in
  modify (fun _ => task_manager) ;;;
  telemetry <- match telemetry with
    | Some (worker, telemetry) =>
        spawn SpawnHandle false "telemetry" None (RunTelemetry worker) ;;; ret (Some telemetry)
    | None => ret None
    end ;;
  let select_chain := longest_chain backend in
  pool <- call (pool_build SpawnEssentialHandle client (is_authority (role config)) (transaction_pool config)
                  (prometheus_registry config)) ;;
  import <- try from_client_error (grandpa_block_import client GRANDPA_JUSTIFICATION_PERIOD client select_chain
                                     (telemetry_handle <$> telemetry)) ;;
  let '(grandpa_block_import, grandpa_link) := import in
  import_queue <- try_run from_consensus_error (aura_import_queue
    {| iq_block_import := grandpa_block_import;
       iq_justification_import := Some grandpa_block_import;
       iq_client := client;
       iq_create_inherent_data_providers := import_inherents client;
       iq_spawner := SpawnEssentialHandle;
       iq_registry := prometheus_registry config;
       iq_telemetry := telemetry_handle <$> telemetry |}) ;;
  ret {| client := client; backend := backend; import_queue := import_queue;
         keystore_container := keystore_container; select_chain := select_chain; pool := pool;
         block_import := grandpa_block_import; grandpa_link := grandpa_link; telemetry := telemetry |}.

(** [rpc::create_full]. *)
Definition create_full (c : Client) (p : Pool) : result RpcError RpcModule :=
  match rpc_merge (rpc_system c p) rpc_module_new with
  | Err e => Err e
  | Ok module => rpc_merge (rpc_transaction_payment c) module
  end.

Definition rpc_extensions_builder (c : Client) (p : Pool) : result ServiceError RpcModule :=
  match create_full c p with Ok module => Ok module | Err e => Err (from_rpc_error e) end.

(** [client.block_hash(0).ok().flatten().expect("Genesis block exists; qed")]. *)
Definition genesis_hash (c : Client) : Node bytes :=
  match client_block_hash c 0 with
  | Ok (Some h) => ret h
  | _ => throw (Panicked "Genesis block exists; qed")
  end.

(** [2f32 / 3f32]. *)
Definition TWO_THIRDS : Q := 11184811 # 16777216.

Definition run_offchain_workers (config : Configuration) (s : Service) (network : Network) : Node unit :=
  if offchain_worker_enabled config then
    offchain_workers <- try from_offchain_error (offchain_workers_new
      {| ow_runtime_api_provider := client s;
         ow_is_validator := is_authority (role config);
         ow_keystore := Some (keystore (keystore_container s));
         ow_offchain_db := offchain_storage (backend s);
         ow_transaction_pool := Some (pool_factory_new (pool s));
         ow_network_provider := network;
         ow_enable_http_requests := true |}) ;;
    spawn SpawnHandle false "offchain-workers-runner" (Some "offchain-worker"%string)
      (RunOffchainWorkers offchain_workers (client s) SpawnHandle)
  else ret tt.

Definition run_authoring (config : Configuration) (s : Service) (sync_service : SyncService) : Node unit :=
  if is_authority (role config) then
    let proposer_factory := proposer_factory_new SpawnHandle (client s) (pool s) (prometheus_registry config)
                              (telemetry_handle <$> telemetry s) in
    slot_duration <- try from_client_error (aura_slot_duration (client s)) ;;
    aura <- try from_consensus_error (start_aura
      {| sa_slot_duration := slot_duration;
         sa_client := client s;
         sa_select_chain := select_chain s;
         sa_block_import := block_import s;
         sa_proposer_factory := proposer_factory;
         sa_create_inherent_data_providers := authoring_inherents slot_duration;
         sa_force_authoring := force_authoring config;
         sa_backoff_authoring_blocks := None;
         sa_keystore := keystore (keystore_container s);
         sa_sync_oracle := sync_service;
         sa_justification_sync_link := sync_service;
         sa_block_proposal_slot_portion := TWO_THIRDS;
         sa_max_block_proposal_slot_portion := None;
         sa_telemetry := telemetry_handle <$> telemetry s |}) ;;
    spawn SpawnEssentialHandle true "aura" (Some "block-authoring"%string) (RunAura aura)
  else ret tt.

Definition run_voter (config : Configuration) (s : Service) (network : Network) (sync_service : SyncService)
    (grandpa_protocol_name : ProtocolName) (grandpa_notification_service : NotificationService) : Node unit :=
  if negb (disable_grandpa config) then
    let keystore := if is_authority (role config) then Some (keystore (keystore_container s)) else None in
    let grandpa_config :=
      {| gc_gossip_duration_ms := 333;
         gc_justification_generation_period := GRANDPA_JUSTIFICATION_PERIOD;
         gc_name := Some (node_name config);
         gc_observer_enabled := false;
         gc_keystore := keystore;
         gc_local_role := role config;
         gc_telemetry := telemetry_handle <$> telemetry s;
         gc_protocol_name := grandpa_protocol_name |} in
    voter <- try from_client_error (run_grandpa_voter
      {| gp_config := grandpa_config;
         gp_link := grandpa_link s;
         gp_network := network;
         gp_sync := sync_service;
         gp_notification_service := grandpa_notification_service;
         gp_voting_rule := default_voting_rule;
         gp_prometheus_registry := prometheus_registry config;
         gp_shared_voter_state := empty_voter_state;
         gp_telemetry := telemetry_handle <$> telemetry s;
         gp_offchain_tx_pool_factory := pool_factory_new (pool s) |}) ;;
    spawn SpawnEssentialHandle true "grandpa-voter" None (RunGrandpaVoter voter)
  else ret tt.

(** [new_full::<N>]: the task manager it returns is the final state. *)
Definition new_full (N : NetworkBackendType) (config : Configuration) : Node unit :=
  s <- new_partial config ;;
  let net_config := net_config_new N (network config) (prometheus_registry config) in
  let metrics := register_notification_metrics N (prometheus_registry config) in
  let peer_store := peer_store_handle net_config in
  genesis <- genesis_hash (client s) ;;
  let grandpa_protocol_name := protocol_standard_name genesis (chain_spec config) in
  let '(grandpa_protocol_config, grandpa_notification_service) :=
    grandpa_peers_set_config N grandpa_protocol_name metrics peer_store in
  let net_config := add_notification_protocol grandpa_protocol_config net_config in
  let warp_sync := warp_provider_new (backend s) (shared_authority_set (grandpa_link s)) [] in
  net <- try_run id (build_network
    {| bn_config := config;
       bn_net_config := net_config;
       bn_client := client s;
       bn_transaction_pool := pool s;
       bn_spawn_handle := SpawnHandle;
       bn_import_queue := import_queue s;
       bn_warp_sync := Some warp_sync;
       bn_metrics := metrics |}) ;;
  let '(network, system_rpc_tx, tx_handler_controller, sync_service) := net in
  run_offchain_workers config s network ;;;
  try_run id (spawn_tasks
    {| st_network := network;
       st_client := client s;
       st_keystore := keystore (keystore_container s);
       st_transaction_pool := pool s;
       st_rpc_builder := rpc_extensions_builder (client s) (pool s);
       st_backend := backend s;
       st_system_rpc_tx := system_rpc_tx;
       st_tx_handler_controller := tx_handler_controller;
       st_sync_service := sync_service;
       st_config := config;
       st_telemetry := telemetry s |}) ;;;
  run_authoring config s sync_service ;;;
  run_voter config s network sync_service grandpa_protocol_name grandpa_notification_service.

(** The service as its caller sees it: a failure drops the task manager, and with it
    the tasks. *)
Definition start (N : NetworkBackendType) (config : Configuration) : result NodeError TaskManager :=
  match new_full N config [] with
  | (Ok tt, tm) => Ok tm
  | (Err e, _) => Err e
  end.

Definition partial (config : Configuration) : result NodeError (Service * TaskManager) :=
  match new_partial config [] with
  | (Ok s, tm) => Ok (s, tm)
  | (Err e, _) => Err e
  end.
End Service.
