(* ===== verification/Extrinsic.v ===== *)
(** * Extrinsic: the runtime's version, FRAME's configuration and signed extrinsics

    From [runtime/src/lib.rs]: [VERSION], the block times, [TxExtension], the indices of
    the pallets and [SessionKeys]; from [runtime/src/configs/mod.rs]: the constants FRAME's own pallets are
    configured with.  Mortal eras, the implicit data of the extensions and the encoding of
    a payload are FRAME's and stand behind [FrameExtensions]. *)

From stdpp Require Import base list strings.
From Stdlib Require Import ZArith Lia.
From S2P Require Import Prelude Frame AgentRegistry VectorDb Runtime Weights.

Local Open Scope arth_scope.

(** ** [VERSION] *)

Record RuntimeVersion (Apis : Type) : Type := mkRuntimeVersion {
  spec_name : string;
  impl_name : string;
  authoring_version : Z;
  spec_version : Z;
  impl_version : Z;
  apis : Apis;
  transaction_version : Z;
  system_version : Z }.
Arguments mkRuntimeVersion {Apis}.
Arguments spec_version {Apis} r.
Arguments transaction_version {Apis} r.

(** [RUNTIME_API_VERSIONS] is generated from the API declarations. *)
Definition VERSION {Apis} (RUNTIME_API_VERSIONS : Apis) : RuntimeVersion Apis := {|
  spec_name := "solochain-template-runtime";
  impl_name := "solochain-template-runtime";
  authoring_version := 1;
  spec_version := 100;
  impl_version := 1;
  apis := RUNTIME_API_VERSIONS;
  transaction_version := 1;
  system_version := 1 |}.

(** ** The configuration of FRAME's pallets *)

Module FrameConfigs.
Import Configs.

Definition SLOT_DURATION : Z := MILLI_SECS_PER_BLOCK.
Definition BlockHashCount : BlockNumber := 2400.

(** [impl frame_system::Config]: limits of a block, and what the system pallet keeps. *)
Record SystemConfig : Type := mkSystemConfig {
  block_weight_max : Weight;
  block_length_max : Z;
  normal_dispatch_percent : Z;
  block_hash_count : BlockNumber;
  ss58_prefix : Z;
  max_consumers : Z }.
Definition system_config : SystemConfig := {|
  block_weight_max := from_parts (2 * RuntimeWeights.WEIGHT_REF_TIME_PER_SECOND) u64_max;
  block_length_max := 5 * 1024 * 1024;
  normal_dispatch_percent := 75;
  block_hash_count := BlockHashCount;
  ss58_prefix := 42;
  max_consumers := 16 |}.

(** [impl pallet_timestamp::Config]. *)
Definition MinimumPeriod : Z := SLOT_DURATION / 2.

(** [impl pallet_aura::Config]; [MinimumPeriodTimesTwo] doubles the minimum period of
    the timestamp pallet, saturating. *)
Record AuraConfig : Type := mkAuraConfig {
  aura_max_authorities : Z;
  allow_multiple_blocks_per_slot : bool;
  slot_duration : Z }.
Definition aura_config : AuraConfig := {|
  aura_max_authorities := 32;
  allow_multiple_blocks_per_slot := false;
  slot_duration := Z.min u64_max (MinimumPeriod * 2) |}.

(** [impl pallet_grandpa::Config]; a proof of key ownership is a [sp_core::Void], which
    has no values. *)
Record GrandpaPalletConfig : Type := mkGrandpaPalletConfig {
  grandpa_max_authorities : Z;
  max_nominators : Z;
  max_set_id_session_entries : Z;
  KeyOwnerProof : Type }.
Definition grandpa_config : GrandpaPalletConfig := {|
  grandpa_max_authorities := 32;
  max_nominators := 0;
  max_set_id_session_entries := 0;
  KeyOwnerProof := Empty_set |}.

(** [impl pallet_balances::Config]; [MaxReserves = ()] allows no named reserve. *)
Record BalancesConfig : Type := mkBalancesConfig {
  max_locks : Z;
  max_reserves : Z;
  existential_deposit : Balance }.
Definition balances_config : BalancesConfig := {|
  max_locks := 50;
  max_reserves := 0;
  existential_deposit := EXISTENTIAL_DEPOSIT |}.

(** [impl pallet_transaction_payment::Config]: [IdentityFee] twice, a multiplier that
    stays one. *)
Record TransactionPaymentConfig : Type := mkTransactionPaymentConfig {
  operational_fee_multiplier : Z;
  weight_to_fee : Weight -> Balance;
  length_to_fee : Weight -> Balance;
  fee_multiplier : Z }.
Definition transaction_payment_config : TransactionPaymentConfig := {|
  operational_fee_multiplier := 5;
  weight_to_fee := fun w => ref_time w;
  length_to_fee := fun w => ref_time w;
  fee_multiplier := 1 |}.

(** The pallets of the runtime and their indices. *)
Inductive Pallet : Type :=
  | SystemPallet | Timestamp | Aura | Grandpa | Balances | TransactionPayment | Sudo
  | TemplatePallet | AgentRegistry | VectorDbPallet | EscrowPallet.
Definition pallet_index (p : Pallet) : Z :=
  match p with
  | SystemPallet => 0 | Timestamp => 1 | Aura => 2 | Grandpa => 3 | Balances => 4
  | TransactionPayment => 5 | Sudo => 6 | TemplatePallet => 7 | AgentRegistry => 8
  | VectorDbPallet => 9 | EscrowPallet => 10
  end.

(** The first byte of an encoded [RuntimeCall] of the repository's pallets; the escrow
    pallet has no calls. *)
Definition call_index (c : Runtime.RuntimeCall) : Z :=
  pallet_index match c with
    | Runtime.CallTemplate _ => TemplatePallet
    | Runtime.CallRegistry _ => AgentRegistry
    | Runtime.CallVectorDb _ => VectorDbPallet
    end.

(** [SessionKeys]. *)
Record SessionKeys : Type := mkSessionKeys { aura : bytes; grandpa : bytes }.
End FrameConfigs.

(** ** Signed extrinsics *)

Abbreviation Nonce := Z.

Inductive CheckNonZeroSender : Type := mkCheckNonZeroSender.
Inductive CheckSpecVersion : Type := mkCheckSpecVersion.
Inductive CheckTxVersion : Type := mkCheckTxVersion.
Inductive CheckGenesis : Type := mkCheckGenesis.
Inductive CheckEra (Era : Type) : Type := mkCheckEra (e : Era).
Inductive CheckNonce : Type := mkCheckNonce (n : Nonce).
Inductive CheckWeight : Type := mkCheckWeight.
Inductive ChargeTransactionPayment : Type := mkChargeTransactionPayment (tip : Balance).
Inductive CheckMetadataHash : Type := mkCheckMetadataHash (enabled : bool).
Inductive WeightReclaim : Type := mkWeightReclaim.
Arguments mkCheckEra {Era} e.

Definition TxExtension (Era : Type) : Type :=
  CheckNonZeroSender * CheckSpecVersion * CheckTxVersion * CheckGenesis * CheckEra Era * CheckNonce *
  CheckWeight * ChargeTransactionPayment * CheckMetadataHash * WeightReclaim.

(** What the extensions add to the signed payload without transmitting it. *)
Definition Implicit : Type :=
  unit * Z * Z * bytes * bytes * unit * unit * unit * option bytes * unit.

(** [SignedPayload::from_raw]. *)
Record SignedPayload (Call Era : Type) : Type := from_raw {
  sp_call : Call;
  sp_extension : TxExtension Era;
  sp_implicit : Implicit }.
Arguments from_raw {Call Era}.

(** [generic::UncheckedExtrinsic], signed. *)
Record UncheckedExtrinsic (Call Era : Type) : Type := new_signed {
  xt_call : Call;
  xt_signer : AccountId;
  xt_signature : bytes;
  xt_extension : TxExtension Era }.
Arguments new_signed {Call Era}.
Arguments xt_call {Call Era}.
Arguments xt_signer {Call Era}.
Arguments xt_signature {Call Era}.
Arguments xt_extension {Call Era}.

(** [sp_runtime::generic::Era] and the implicit data [frame_system] computes: [implicit]
    at a version and in a system context; [None] is an invalid transaction. *)
Class FrameExtensions := {
  Era : Type;
  era_mortal : Z -> Z -> Era;
  era_birth : Era -> BlockNumber -> BlockNumber;
  implicit : forall {Apis}, RuntimeVersion Apis -> System -> TxExtension Era -> option Implicit }.

(** The block hashes the system pallet keeps of a chain with hashes [h]: the genesis
    hash and those of the last [BlockHashCount] blocks. *)
Definition keeps_hashes (h : BlockNumber -> bytes) (sys : System) : Prop :=
  block_hash sys 0 = h 0 /\
  forall n, 0 <= n < block_number sys -> block_number sys <= n + FrameConfigs.BlockHashCount -> block_hash sys n = h n.

Class FrameExtensionsLaws `{FrameExtensions} : Prop := {
  (** a power of two from 4 to 65536 as period; up to 4096 the era starts at the block
      it is given, longer ones are quantized *)
  era_birth_short : forall k p b n, p = 2 ^ k -> 2 <= k <= 12 -> 0 <= b -> b <= n < b + p ->
    era_birth (era_mortal p b) n = b;
  (** [CheckEra] answers with the hash of the block the era starts at when the system
      pallet still keeps it; the metadata hash is off *)
  implicit_spec : forall Apis (v : RuntimeVersion Apis) sys a b c d x n w t r,
    let birth := era_birth x (block_number sys) in
    0 <= birth < block_number sys -> block_number sys <= birth + FrameConfigs.BlockHashCount ->
    implicit v sys (a, b, c, d, mkCheckEra x, n, w, t, mkCheckMetadataHash false, r) =
      Some (tt, spec_version v, transaction_version v, block_hash sys 0, block_hash sys birth,
            tt, tt, tt, None, tt) }.

(** Every registration that is not too old refers to a block hash that is still kept. *)
Lemma replay_window_is_kept h sys b :
  keeps_hashes h sys -> 0 <= b < block_number sys ->
  sat_sub (block_number sys) b <= Registry.REPLAY_WINDOW -> block_hash sys b = h b.
Proof.
  intros [_ Hk] Hb Hw. apply Hk; [done|]. unfold sat_sub, Registry.REPLAY_WINDOW, FrameConfigs.BlockHashCount in *. lia.
Qed.
