(* ===== verification/Apis.v ===== *)
(** * Apis: [runtime/src/apis.rs] and [runtime/src/benchmarks.rs]

    The runtime APIs a node calls.  The executive, the metadata and FRAME's own pallets
    are behind [FrameRuntime], over a storage [S]; [None] is a panic of the runtime.  A
    function that only reads takes the storage, one that writes returns it. *)

From stdpp Require Import base gmap list strings sets.
From Stdlib Require Import ZArith Lia.
From S2P Require Import Prelude Frame Runtime Weights GenesisPresets Extrinsic.

Module Apis.
Import FrameConfigs.

Class FrameTypes := {
  Block : Type; Header : Type; Extrinsic : Type; OpaqueMetadata : Type; InclusionMode : Type; ApplyExtrinsicResult : Type;
  RtInherentData : Type; CheckInherentsResult : Type; TransactionSource : Type; TransactionValidity : Type;
  ViewFunctionId : Type; ViewFunctionError : Type; KeyTypeId : Type; EquivocationProof : Type;
  OpaqueKeyOwnershipProof : Type; AnyCall : Type; DispatchInfo : Type; FeeDetails : Type;
  BenchmarkDetails : Type; StorageInfo : Type; StorageKey : Type; BenchmarkConfig : Type; BenchmarkBatch : Type;
  UpgradeChecks : Type; TryStateSelect : Type; TryError : Type }.

Class FrameRuntime (S : Type) `{FrameTypes} := {
  executive_execute_block : Block -> S -> option S;
  executive_initialize_block : Header -> S -> option (InclusionMode * S);
  executive_apply_extrinsic : Extrinsic -> S -> ApplyExtrinsicResult * S;
  executive_finalize_block : S -> Header * S;
  executive_validate_transaction : TransactionSource -> Extrinsic -> bytes -> S -> TransactionValidity;
  executive_offchain_worker : Header -> S -> S;
  executive_try_runtime_upgrade : UpgradeChecks -> S -> result TryError Weight * S;
  executive_try_execute_block : Block -> bool -> bool -> TryStateSelect -> S -> result TryError Weight * S;
  runtime_metadata : OpaqueMetadata;
  runtime_metadata_at_version : Z -> option OpaqueMetadata;
  runtime_metadata_versions : list Z;
  runtime_execute_view_function : ViewFunctionId -> bytes -> S -> result ViewFunctionError bytes;
  create_extrinsics : RtInherentData -> S -> list Extrinsic;
  check_extrinsics : Block -> RtInherentData -> S -> CheckInherentsResult;
  aura_authorities_of : S -> list bytes;
  session_keys_generate : option bytes -> bytes;
  decode_into_raw_public_keys : bytes -> option (list (bytes * KeyTypeId));
  grandpa_authorities_of : S -> list (bytes * Z);
  grandpa_current_set_id : S -> Z;
  system_account_nonce : AccountId -> S -> Nonce;
  payment_query_info : Extrinsic -> Z -> S -> DispatchInfo;
  payment_query_fee_details : Extrinsic -> Z -> S -> FeeDetails;
  payment_query_call_info : AnyCall -> Z -> S -> DispatchInfo;
  payment_query_call_fee_details : AnyCall -> Z -> S -> FeeDetails;
  payment_weight_to_fee : Weight -> Balance;
  payment_length_to_fee : Z -> Balance;
  bench_benchmarks : string -> bool -> BenchmarkDetails;
  all_storage_info : list StorageInfo;
  whitelisted_storage_keys : list StorageKey;
  add_benchmark : BenchmarkConfig -> list StorageKey -> string -> list BenchmarkBatch -> result string (list BenchmarkBatch) }.

(** ** The APIs *)

Section Apis.
Context {S : Type} {FT : FrameTypes} {FR : FrameRuntime S}.
Context {Apis : Type} (RUNTIME_API_VERSIONS : Apis).

(** [sp_api::Core]. *)
Record Core : Type := mkCore {
  version : RuntimeVersion Apis;
  execute_block : Block -> S -> option S;
  initialize_block : Header -> S -> option (InclusionMode * S) }.
Definition core : Core := {|
  version := VERSION RUNTIME_API_VERSIONS;
  execute_block := executive_execute_block;
  initialize_block := executive_initialize_block |}.

(** [sp_api::Metadata] and [RuntimeViewFunction]. *)
Record Metadata : Type := mkMetadata {
  metadata : OpaqueMetadata;
  metadata_at_version : Z -> option OpaqueMetadata;
  metadata_versions : list Z;
  execute_view_function : ViewFunctionId -> bytes -> S -> result ViewFunctionError bytes }.
Definition metadata_api : Metadata := {|
  metadata := runtime_metadata;
  metadata_at_version := runtime_metadata_at_version;
  metadata_versions := runtime_metadata_versions;
  execute_view_function := runtime_execute_view_function |}.

(** [sp_block_builder::BlockBuilder]. *)
Record BlockBuilder : Type := mkBlockBuilder {
  apply_extrinsic : Extrinsic -> S -> ApplyExtrinsicResult * S;
  finalize_block : S -> Header * S;
  inherent_extrinsics : RtInherentData -> S -> list Extrinsic;
  check_inherents : Block -> RtInherentData -> S -> CheckInherentsResult }.
Definition block_builder : BlockBuilder := {|
  apply_extrinsic := executive_apply_extrinsic;
  finalize_block := executive_finalize_block;
  inherent_extrinsics := fun data => create_extrinsics data;
  check_inherents := fun block data => check_extrinsics block data |}.

(** [TaggedTransactionQueue] and [OffchainWorkerApi]. *)
Record TransactionQueue : Type := mkTransactionQueue {
  validate_transaction : TransactionSource -> Extrinsic -> bytes -> S -> TransactionValidity;
  offchain_worker : Header -> S -> S }.
Definition transaction_queue : TransactionQueue := {|
  validate_transaction := executive_validate_transaction;
  offchain_worker := executive_offchain_worker |}.

(** [sp_consensus_aura::AuraApi]: the slot duration of the pallet's configuration. *)
Record AuraApi : Type := mkAuraApi {
  api_slot_duration : Z;
  authorities : S -> list bytes }.
Definition aura_api : AuraApi := {|
  api_slot_duration := slot_duration aura_config;
  authorities := aura_authorities_of |}.

(** [sp_session::SessionKeys]. *)
Record SessionKeysApi : Type := mkSessionKeysApi {
  generate_session_keys : option bytes -> bytes;
  decode_session_keys : bytes -> option (list (bytes * KeyTypeId)) }.
Definition session_keys_api : SessionKeysApi := {|
  generate_session_keys := session_keys_generate;
  decode_session_keys := decode_into_raw_public_keys |}.

(** [sp_consensus_grandpa::GrandpaApi]: no equivocation is reported, no ownership of a
    key proved. *)
Record GrandpaApi : Type := mkGrandpaApi {
  api_grandpa_authorities : S -> list (bytes * Z);
  current_set_id : S -> Z;
  submit_report_equivocation_unsigned_extrinsic : EquivocationProof -> OpaqueKeyOwnershipProof -> S -> option unit;
  generate_key_ownership_proof : Z -> bytes -> S -> option OpaqueKeyOwnershipProof }.
Definition grandpa_api : GrandpaApi := {|
  api_grandpa_authorities := grandpa_authorities_of;
  current_set_id := grandpa_current_set_id;
  submit_report_equivocation_unsigned_extrinsic := fun _ _ _ => None;
  generate_key_ownership_proof := fun _ _ _ => None |}.

(** [AccountNonceApi]. *)
Definition account_nonce (account : AccountId) (s : S) : Nonce := system_account_nonce account s.

(** [TransactionPaymentApi] over extrinsics and [TransactionPaymentCallApi] over calls. *)
Record TransactionPaymentApi (X : Type) : Type := mkTransactionPaymentApi {
  query_info : X -> Z -> S -> DispatchInfo;
  query_fee_details : X -> Z -> S -> FeeDetails;
  query_weight_to_fee : Weight -> Balance;
  query_length_to_fee : Z -> Balance }.
Definition transaction_payment_api : TransactionPaymentApi Extrinsic := {|
  query_info := payment_query_info;
  query_fee_details := payment_query_fee_details;
  query_weight_to_fee := payment_weight_to_fee;
  query_length_to_fee := payment_length_to_fee |}.
Definition transaction_payment_call_api : TransactionPaymentApi AnyCall := {|
  query_info := payment_query_call_info;
  query_fee_details := payment_query_call_fee_details;
  query_weight_to_fee := payment_weight_to_fee;
  query_length_to_fee := payment_length_to_fee |}.

(** [runtime/src/benchmarks.rs]: the pallets that can be benchmarked. *)
Definition define_benchmarks : list string :=
  ["frame_benchmarking"; "frame_system"; "frame_system_extensions"; "pallet_balances"; "pallet_timestamp";
   "pallet_sudo"; "pallet_template"]%string.

(** [frame_benchmarking::Benchmark]: both walk the list; the first error ends the
    second. *)
Definition benchmark_metadata (extra : bool) : list (string * BenchmarkDetails) * list StorageInfo :=
  ((fun name => (name, bench_benchmarks name extra)) <$> define_benchmarks, all_storage_info).

Fixpoint add_benchmarks (config : BenchmarkConfig) (names : list string) (batches : list BenchmarkBatch)
    : result string (list BenchmarkBatch) :=
  match names with
  | [] => Ok batches
  | name :: names =>
      match add_benchmark config whitelisted_storage_keys name batches with
      | Err e => Err e
      | Ok batches => add_benchmarks config names batches
      end
  end.
Definition dispatch_benchmark (config : BenchmarkConfig) : result string (list BenchmarkBatch) :=
  add_benchmarks config define_benchmarks [].

(** [frame_try_runtime::TryRuntime]: a failed check is a panic. *)
Definition on_runtime_upgrade (checks : UpgradeChecks) (s : S) : option (Weight * Weight) * S :=
  match executive_try_runtime_upgrade checks s with
  | (Ok weight, s') => (Some (weight, block_weight_max system_config), s')
  | (Err _, s') => (None, s')
  end.
Definition try_execute_block (block : Block) (state_root_check signature_check : bool) (select : TryStateSelect) (s : S)
    : option Weight * S :=
  match executive_try_execute_block block state_root_check signature_check select s with
  | (Ok weight, s') => (Some weight, s')
  | (Err _, s') => (None, s')
  end.
End Apis.

(** ** [sp_genesis_builder::GenesisBuilder] *)

(** [serde_json] on genesis configurations and on patches, the default configuration,
    and what [sc_chain_spec] does with a named preset before it calls [build_state]:
    [named_preset_config] asks the runtime for the default configuration and for the
    preset and merges the second into the first. *)
Class GenesisJson (Json : Type) := {
  OtherGenesis : Type;
  default_genesis : Presets.RuntimeGenesisConfig OtherGenesis;
  config_to_json : Presets.RuntimeGenesisConfig OtherGenesis -> Json;
  patch_to_json : Presets.GenesisPatch -> Json;
  from_json : Json -> result string (Presets.RuntimeGenesisConfig OtherGenesis);
  json_merge : Json -> Json -> Json;
  named_preset_config : (option string -> option Json) -> string -> result string Json }.

(** A configuration is read only if all of its fields are there: a patch alone is
    refused, and merged into a configuration it replaces the fields it names. *)
Class GenesisJsonLaws (Json : Type) `{GenesisJson Json} : Prop := {
  from_patch_json : forall p, exists e, from_json (patch_to_json p) = Err e;
  from_merged_json : forall p cfg, from_json (json_merge (config_to_json cfg) (patch_to_json p)) = Ok (Presets.patched p cfg);
  named_preset_merges : forall get name d p, get None = Some d -> get (Some name) = Some p ->
    named_preset_config get name = Ok (json_merge d p) }.

Section Genesis.
Context {L : Type} `{GenesisBalances L} `{Keyring} {Json : Type} `{GenesisJson Json}.
Context (DEV_RUNTIME_PRESET LOCAL_TESTNET_RUNTIME_PRESET : string).

(** The helpers of [frame_support::genesis_builder_helper].  A configuration that cannot
    be built is a panic, [Ok None]. *)
Definition build_state (config : Json) (sys : System) : result string (option (Runtime.Chain L)) :=
  match from_json config with
  | Err e => Err e
  | Ok cfg => Ok (Presets.build_state cfg sys)
  end.

Definition get_preset (id : option string) : option Json :=
  match id with
  | None => Some (config_to_json default_genesis)
  | Some id => Presets.get_preset DEV_RUNTIME_PRESET LOCAL_TESTNET_RUNTIME_PRESET patch_to_json id
  end.

Definition preset_names : list string :=
  Presets.preset_names DEV_RUNTIME_PRESET LOCAL_TESTNET_RUNTIME_PRESET.

(** The names the API lists are those it answers. *)
Lemma get_preset_names id :
  is_Some (get_preset (Some id)) <-> id ∈ preset_names.
Proof.
  unfold get_preset, Presets.get_preset, preset_names, Presets.preset_names. split.
  - intros [j Hj]. repeat case_bool_decide; subst; [set_solver..|discriminate].
  - intros [->|[->|[]%elem_of_nil]%elem_of_cons]%elem_of_cons.
    + rewrite bool_decide_eq_true_2 by done. by eexists.
    + case_bool_decide; [by eexists|]. rewrite bool_decide_eq_true_2 by done. by eexists.
Qed.
End Genesis.
End Apis.
