(* ===== verification/Benchmarking.v ===== *)
(** * Benchmarking: [node/src/benchmarking.rs]

    The extrinsics the node signs for its benchmark commands, the builders that create
    them and the inherent data of an empty block. *)

From stdpp Require Import base list strings.
From Stdlib Require Import ZArith Lia.
From S2P Require Import Prelude Frame Runtime GenesisPresets Extrinsic.

Local Open Scope arth_scope.

Module Benchmarking.
Import FrameConfigs.

(** The calls of FRAME's pallets that are benchmarked. *)
Inductive BenchmarkCall : Type :=
  | SystemRemark (remark : bytes)
  | BalancesTransferKeepAlive (dest : AccountId) (value : Balance).

(** [u32::checked_next_power_of_two]. *)
Definition checked_next_power_of_two (n : Z) : option Z :=
  let p := 2 ^ Z.log2_up n in if p <=? u32_max then Some p else None.

Section Benchmarking.
Context `{Keyring} `{FrameExtensions} {Apis : Type} (api_versions : Apis).
(** The pairs of the key ring sign; a payload is signed over its encoding, or over the
    hash of it when that is long. *)
Context (sign : Sr25519Keyring -> bytes -> bytes).
Context (using_encoded : SignedPayload BenchmarkCall Era -> bytes).

(** The client, as far as the builders ask it. *)
Record BenchmarkClient : Type := mkBenchmarkClient {
  block_hash_at : BlockNumber -> option bytes;
  best_hash : bytes;
  best_number : BlockNumber }.

(** The length of the era: half of the power of two that follows the number of hashes
    the chain keeps. *)
Definition period : Z := default 2 ((fun c => c / 2) <$> checked_next_power_of_two BlockHashCount).

Definition tx_extension (best_block nonce : Z) : TxExtension Era :=
  (mkCheckNonZeroSender, mkCheckSpecVersion, mkCheckTxVersion, mkCheckGenesis,
   mkCheckEra (era_mortal period (Z.min u64_max best_block)), mkCheckNonce nonce, mkCheckWeight,
   mkChargeTransactionPayment 0, mkCheckMetadataHash false, mkWeightReclaim).

Definition implicit_data (genesis_hash best_hash : bytes) : Implicit :=
  (tt, spec_version (VERSION api_versions), transaction_version (VERSION api_versions), genesis_hash, best_hash,
   tt, tt, tt, None, tt).

(** [None] is the panic for a client without a genesis block. *)
Definition create_benchmark_extrinsic (client : BenchmarkClient) (sender : Sr25519Keyring) (call : BenchmarkCall)
    (nonce : Nonce) : option (UncheckedExtrinsic BenchmarkCall Era) :=
  genesis_hash ← block_hash_at client 0;
  let tx_ext := tx_extension (best_number client) nonce in
  let raw_payload := from_raw call tx_ext (implicit_data genesis_hash (best_hash client)) in
  let signature := sign sender (using_encoded raw_payload) in
  Some (new_signed call (to_account_id sender) signature tx_ext).

(** [ExtrinsicBuilder] and its two implementations. *)
Record ExtrinsicBuilder : Type := mkExtrinsicBuilder {
  pallet : string;
  extrinsic : string;
  build : Nonce -> option (UncheckedExtrinsic BenchmarkCall Era) }.

Definition RemarkBuilder (client : BenchmarkClient) : ExtrinsicBuilder := {|
  pallet := "system";
  extrinsic := "remark";
  build := fun nonce => create_benchmark_extrinsic client Bob (SystemRemark []) nonce |}.

Definition TransferKeepAliveBuilder (client : BenchmarkClient) (dest : AccountId) (value : Balance) : ExtrinsicBuilder := {|
  pallet := "balances";
  extrinsic := "transfer_keep_alive";
  build := fun nonce => create_benchmark_extrinsic client Bob (BalancesTransferKeepAlive dest value) nonce |}.
End Benchmarking.

(** [inherent_benchmark_data]: the timestamp zero, provided by the timestamp's own
    provider. *)
Definition inherent_benchmark_data {Data Error} (provide_inherent_data : Z -> Data -> result Error Data) (empty : Data)
    (creating_inherent_data : Error -> string) : result string Data :=
  match provide_inherent_data 0 empty with
  | Ok data => Ok data
  | Err e => Err ("creating inherent data: " ++ creating_inherent_data e)%string
  end.

(** ** Facts *)

Lemma period_value : period = 2 ^ 11.
Proof. reflexivity. Qed.

(** A period a chain can honour: the hash of the first block of the era is kept until
    its last block. *)
Lemma period_is_kept : 2 <= 11 <= 12 /\ period <= BlockHashCount.
Proof. rewrite period_value. unfold BlockHashCount. lia. Qed.

Section Facts.
Context `{Keyring} `{FrameExtensionsLaws} {Apis : Type} (api_versions : Apis).

(** What the signer leaves out of the extrinsic is what the chain fills in, until the
    era ends. *)
Lemma implicit_of_era h sys best nonce :
  keeps_hashes h sys -> 0 <= best <= u32_max -> best < block_number sys < best + period ->
  implicit (VERSION api_versions) sys (tx_extension best nonce) =
    Some (implicit_data api_versions (h 0) (h best)).
Proof.
  intros [Hg Hk] Hb Hn. pose proof period_is_kept as [_ Hp].
  assert (era_birth (era_mortal period (Z.min u64_max best)) (block_number sys) = best) as He.
  { rewrite Z.min_r by (unfold u32_max, u64_max in *; lia).
    apply (era_birth_short 11); [apply period_value|lia..]. }
  unfold tx_extension, implicit_data. rewrite implicit_spec; rewrite He; [|lia..].
  rewrite Hg, Hk by lia. done.
Qed.
End Facts.
End Benchmarking.
