(* ===== verification/Command.v ===== *)
(** * Command: [node/src/cli.rs], [node/src/command.rs] and [node/src/main.rs]

    The subcommands of the node and what each of them runs.  The commands themselves,
    the runner that prepares their configuration and the benchmark commands are
    Substrate's and stand behind [NodeCommands]; which of them needs a client, and what
    it is given, is the node's own. *)

From stdpp Require Import base list strings.
From Stdlib Require Import ZArith Lia.
From S2P Require Import Prelude Frame Runtime GenesisPresets Service Extrinsic Benchmarking.

Local Open Scope arth_scope.

Module Command.
Import Benchmarking.

(** ** The command line *)

(** The arguments of the subcommands, parsed by [clap]. *)
Class CommandTypes := {
  RunCmd : Type; KeySubcommand : Type; BuildSpecCmd : Type; CheckBlockCmd : Type; ExportBlocksCmd : Type;
  ExportStateCmd : Type; ImportBlocksCmd : Type; PurgeChainCmd : Type; RevertCmd : Type; ChainInfoCmd : Type;
  PalletCmd : Type; BlockCmd : Type; StorageCmd : Type; OverheadCmd : Type; ExtrinsicCmd : Type; MachineCmd : Type;
  Runner : Type; CmdFuture : Type; Requirements : Type; InherentDataT : Type; InherentError : Type; Db : Type; StorageDb : Type }.

Section Cli.
Context `{CommandTypes}.

(** [frame_benchmarking_cli::BenchmarkCmd]. *)
Inductive BenchmarkCmd : Type :=
  | PalletBenchmark (cmd : PalletCmd)
  | BlockBenchmark (cmd : BlockCmd)
  | StorageBenchmark (cmd : StorageCmd)
  | OverheadBenchmark (cmd : OverheadCmd)
  | ExtrinsicBenchmark (cmd : ExtrinsicCmd)
  | MachineBenchmark (cmd : MachineCmd).

Inductive Subcommand : Type :=
  | Key (cmd : KeySubcommand)
  | BuildSpec (cmd : BuildSpecCmd)
  | CheckBlock (cmd : CheckBlockCmd)
  | ExportBlocks (cmd : ExportBlocksCmd)
  | ExportState (cmd : ExportStateCmd)
  | ImportBlocks (cmd : ImportBlocksCmd)
  | PurgeChain (cmd : PurgeChainCmd)
  | Revert (cmd : RevertCmd)
  | Benchmark (cmd : BenchmarkCmd)
  | ChainInfo (cmd : ChainInfoCmd).

Record Cli : Type := mkCli {
  subcommand : option Subcommand;
  run_cmd : RunCmd }.
End Cli.

(** [sc_cli::Error], and a panic. *)
Inductive CliError {T : SubstrateTypes} : Type :=
  | CliService (e : ServiceError)
  | Input (message : string)
  | Panic (message : string)
  | Failed (code : Z).

(** ** What the commands are given

    A command is given what the node passes to it; what it reads from disk by itself, as
    [chain_info_run] opens the database of its configuration, is inside the command. *)

Section Externals.
Context {T : SubstrateTypes} `{FrameExtensions} `{CommandTypes}.

Class NodeCommands := {
  create_runner : Cli -> option Subcommand -> result CliError Runner;
  sync_run : Runner -> (Configuration -> result CliError unit) -> result CliError unit;
  async_run : Runner -> (Configuration -> result CliError (CmdFuture * TaskManager)) -> result CliError unit;
  run_node_until_exit : Runner -> (Configuration -> result CliError TaskManager) -> result CliError unit;
  runner_config : Runner -> Configuration;
  drive : CmdFuture -> TaskManager -> result CliError unit;
  until_exit : TaskManager -> result CliError unit;
  grandpa_revert : Client -> Z -> result ClientError unit;
  spec_name_of : NodeChainSpec -> string;
  expose_db : Backend -> Db;
  expose_storage : Backend -> StorageDb;
  benchmark_client : Client -> BenchmarkClient;
  reference_hardware : Requirements;
  inherent_data_new : InherentDataT;
  provide_inherent_data : Z -> InherentDataT -> result InherentError InherentDataT;
  show_inherent_error : InherentError -> string;
  key_run : KeySubcommand -> Cli -> result CliError unit;
  build_spec_run : BuildSpecCmd -> NodeChainSpec -> NetworkSettings -> result CliError unit;
  check_block_run : CheckBlockCmd -> Client -> ImportQueue -> CmdFuture;
  export_blocks_run : ExportBlocksCmd -> Client -> Database -> CmdFuture;
  export_state_run : ExportStateCmd -> Client -> NodeChainSpec -> CmdFuture;
  import_blocks_run : ImportBlocksCmd -> Client -> ImportQueue -> CmdFuture;
  purge_chain_run : PurgeChainCmd -> Database -> result CliError unit;
  revert_run : RevertCmd -> Client -> Backend -> option (Client -> Z -> result ClientError unit) -> CmdFuture;
  chain_info_run : ChainInfoCmd -> Configuration -> result CliError unit;
  pallet_run_with_spec : PalletCmd -> option NodeChainSpec -> result CliError unit;
  block_run : BlockCmd -> Client -> result CliError unit;
  storage_run : StorageCmd -> Configuration -> Client -> Db -> StorageDb -> result CliError unit;
  overhead_run : OverheadCmd -> string -> Client -> InherentDataT -> list bytes -> ExtrinsicBuilder -> bool ->
    result CliError unit;
  extrinsic_run : ExtrinsicCmd -> Client -> InherentDataT -> list bytes -> list ExtrinsicBuilder -> result CliError unit;
  machine_run : MachineCmd -> Configuration -> Requirements -> result CliError unit }.

(** The runners call the closure with their configuration; what it fails with is the
    result, and what it returns is run to its end ([drive], [until_exit]). *)
Class NodeCommandsLaws `{!NodeCommands} : Prop := {
  sync_run_spec : forall r f, sync_run r f = f (runner_config r);
  async_run_spec : forall r f,
    async_run r f = match f (runner_config r) with Ok (fut, tm) => drive fut tm | Err e => Err e end;
  run_node_spec : forall r f,
    run_node_until_exit r f = match f (runner_config r) with Ok tm => until_exit tm | Err e => Err e end }.
End Externals.

(** ** [run] *)

Section Run.
Context {T : SubstrateTypes} `{!Substrate} `{Keyring} `{FrameExtensions} `{CommandTypes} `{!NodeCommands}.
Context {Apis : Type} (api_versions : Apis).
Context (sign : Sr25519Keyring -> bytes -> bytes) (using_encoded : SignedPayload BenchmarkCall Era -> bytes).
(** Whether the node was built with the feature [runtime-benchmarks]. *)
Context (runtime_benchmarks : bool).

(** A [ServiceError] converts into [sc_cli::Error::Service]. *)
Definition cli_error (e : NodeError) : CliError :=
  match e with ServiceFailed e => CliService e | Panicked m => Panic m end.

(** [service::new_partial(&config)?] *)
Definition with_partial {A} (config : Configuration) (k : Service -> TaskManager -> result CliError A) : result CliError A :=
  match partial config with
  | Ok (s, task_manager) => k s task_manager
  | Err e => Err (cli_error e)
  end.

Definition with_runner (cli : Cli) (k : Runner -> result CliError unit) : result CliError unit :=
  match create_runner cli (subcommand cli) with Ok runner => k runner | Err e => Err e end.

Definition with_inherents (k : InherentDataT -> result CliError unit) : result CliError unit :=
  match inherent_benchmark_data provide_inherent_data inherent_data_new show_inherent_error with Ok data => k data | Err m => Err (Input m) end.

Definition remark_builder (c : Client) : ExtrinsicBuilder :=
  RemarkBuilder api_versions sign using_encoded (benchmark_client c).
Definition transfer_builder (c : Client) : ExtrinsicBuilder :=
  TransferKeepAliveBuilder api_versions sign using_encoded (benchmark_client c) (to_account_id Alice)
    Configs.EXISTENTIAL_DEPOSIT.

(** The closure of the [benchmark] subcommand. *)
Definition run_benchmark (cmd : BenchmarkCmd) (config : Configuration) : result CliError unit :=
  match cmd with
  | PalletBenchmark cmd =>
      if negb runtime_benchmarks
      then Err (Input "Runtime benchmarking wasn't enabled when building the node. You can enable it with `--features runtime-benchmarks`.")
      else pallet_run_with_spec cmd (Some (chain_spec config))
  | BlockBenchmark cmd => with_partial config (fun s _ => block_run cmd (client s))
  | StorageBenchmark cmd =>
      if negb runtime_benchmarks
      then Err (Input "Storage benchmarking can be enabled with `--features runtime-benchmarks`.")
      else with_partial config (fun s _ =>
             storage_run cmd config (client s) (expose_db (backend s)) (expose_storage (backend s)))
  | OverheadBenchmark cmd => with_partial config (fun s _ =>
      with_inherents (fun data =>
        overhead_run cmd (spec_name_of (chain_spec config)) (client s) data [] (remark_builder (client s)) false))
  | ExtrinsicBenchmark cmd => with_partial config (fun s _ =>
      with_inherents (fun data =>
        extrinsic_run cmd (client s) data [] [remark_builder (client s); transfer_builder (client s)]))
  | MachineBenchmark cmd => machine_run cmd config reference_hardware
  end.

(** The closure of the node itself. *)
Definition run_node (config : Configuration) : result CliError TaskManager :=
  match start (default Libp2p (network_backend config)) config with
  | Ok task_manager => Ok task_manager
  | Err e => Err (cli_error e)
  end.

Definition run (cli : Cli) : result CliError unit :=
  match subcommand cli with
  | Some (Key cmd) => key_run cmd cli
  | Some (BuildSpec cmd) => with_runner cli (fun runner =>
      sync_run runner (fun config => build_spec_run cmd (chain_spec config) (network config)))
  | Some (CheckBlock cmd) => with_runner cli (fun runner =>
      async_run runner (fun config => with_partial config (fun s tm =>
        Ok (check_block_run cmd (client s) (import_queue s), tm))))
  | Some (ExportBlocks cmd) => with_runner cli (fun runner =>
      async_run runner (fun config => with_partial config (fun s tm =>
        Ok (export_blocks_run cmd (client s) (database config), tm))))
  | Some (ExportState cmd) => with_runner cli (fun runner =>
      async_run runner (fun config => with_partial config (fun s tm =>
        Ok (export_state_run cmd (client s) (chain_spec config), tm))))
  | Some (ImportBlocks cmd) => with_runner cli (fun runner =>
      async_run runner (fun config => with_partial config (fun s tm =>
        Ok (import_blocks_run cmd (client s) (import_queue s), tm))))
  | Some (PurgeChain cmd) => with_runner cli (fun runner =>
      sync_run runner (fun config => purge_chain_run cmd (database config)))
  | Some (Revert cmd) => with_runner cli (fun runner =>
      async_run runner (fun config => with_partial config (fun s tm =>
        Ok (revert_run cmd (client s) (backend s) (Some (fun client blocks => grandpa_revert client blocks)), tm))))
  | Some (Benchmark cmd) => with_runner cli (fun runner => sync_run runner (run_benchmark cmd))
  | Some (ChainInfo cmd) => with_runner cli (fun runner => sync_run runner (chain_info_run cmd))
  | None => with_runner cli (fun runner => run_node_until_exit runner run_node)
  end.
End Run.
End Command.
