(* ===== verification/ServiceTheory.v ===== *)
(** * ServiceTheory: the tasks of a node

    What Substrate's components do with the task manager, which tasks the service itself
    spawns, and which subcommands need a client. *)

From stdpp Require Import base list strings.
From Stdlib Require Import ZArith Lia.
From S2P Require Import Prelude Frame GenesisPresets Service Extrinsic Benchmarking Command.

Local Open Scope arth_scope.

(** ** Tasks of the service *)

Section Tasks.
Context {T : SubstrateTypes}.

Definition is_foreign (t : Task) : bool := match body t with Foreign => true | _ => false end.

(** The tasks the service spawned itself, in the order it did. *)
Definition own (tm : list Task) : list Task := filter (fun t => is_foreign t = false) tm.

Lemma own_app l1 l2 : own (l1 ++ l2) = own l1 ++ own l2.
Proof. apply filter_app. Qed.

Lemma own_foreign ts : Forall (fun t => is_foreign t = true) ts -> own ts = [].
Proof. induction 1 as [|t ts Ht _ IH]; [done|]. unfold own. rewrite filter_cons_False; [done|congruence]. Qed.

Lemma own_single t : is_foreign t = false -> own [t] = [t].
Proof. intros Ht. unfold own. by rewrite filter_cons_True. Qed.

(** A call that spawns tasks of Substrate only. *)
Definition spawns_foreign {E A} (m : M TaskManager E A) : Prop :=
  forall tm r tm', m tm = (r, tm') -> exists ts, tm' = tm ++ ts /\ Forall (fun t => is_foreign t = true) ts.

Class SubstrateLaws `{!Substrate} : Prop := {
  new_full_parts_tasks : forall config h e c b k tm,
    new_full_parts config h e = Ok (c, b, k, tm) -> Forall (fun t => is_foreign t = true) tm;
  pool_build_tasks : forall h c v o p tm x tm',
    pool_build h c v o p tm = (x, tm') -> exists ts, tm' = tm ++ ts /\ Forall (fun t => is_foreign t = true) ts;
  aura_import_queue_tasks : forall p, spawns_foreign (aura_import_queue p);
  build_network_tasks : forall p, spawns_foreign (build_network p);
  spawn_tasks_tasks : forall p, spawns_foreign (spawn_tasks p) }.
End Tasks.

Section Service.
Context {T : SubstrateTypes} `{!Substrate} `{!SubstrateLaws}.

Lemma try_ok_inv {E A} (from : E -> ServiceError) (r : result E A) tm a tm' :
  try from r tm = (Ok a, tm') -> r = Ok a /\ tm' = tm.
Proof. destruct r; unfold try; intros Hr; [by apply ret_ok_inv in Hr as [-> ->]|discriminate Hr]. Qed.

Lemma try_run_own {E A} (from : E -> ServiceError) (m : M TaskManager E A) tm a tm' :
  spawns_foreign m -> try_run from m tm = (Ok a, tm') -> m tm = (Ok a, tm') /\ own tm' = own tm.
Proof.
  intros Hm. unfold try_run. destruct (m tm) as [[x|e] tm1] eqn:E1; intros Hr; simplify_eq. split; [done|].
  destruct (Hm _ _ _ E1) as (ts & -> & Hts). by rewrite own_app, (own_foreign ts), app_nil_r.
Qed.

Lemma call_own {A} (f : TaskManager -> A * TaskManager) tm a tm' :
  (forall x tm1, f tm = (x, tm1) -> exists ts, tm1 = tm ++ ts /\ Forall (fun t => is_foreign t = true) ts) ->
  call (E := NodeError) f tm = (Ok a, tm') -> own tm' = own tm.
Proof.
  intros Hf Hc%call_ok_inv. destruct (Hf _ _ Hc) as (ts & -> & Hts). by rewrite own_app, (own_foreign ts), app_nil_r.
Qed.

Lemma spawn_own h bl name group b tm u tm' :
  b <> Foreign -> spawn h bl name group b tm = (Ok u, tm') ->
  own tm' = own tm ++
    [mkTask name group (match h with SpawnEssentialHandle => true | SpawnHandle => false end) bl b].
Proof. intros Hb Hs. apply modify_ok_inv in Hs. subst. rewrite own_app, own_single; [done|]. by destruct b. Qed.

(** [ts] is one task with a property if [b] holds, and none otherwise. *)
Definition runs_when (b : bool) (ts : list Task) (P : Task -> Prop) : Prop :=
  if b then exists t, ts = [t] /\ P t else ts = [].

Lemma runs_when_in b ts P t : runs_when b ts P -> t ∈ ts -> P t.
Proof.
  unfold runs_when. destruct b; [|by intros -> ?%elem_of_nil].
  by intros (t' & -> & Ht') ->%list_elem_of_singleton.
Qed.

Definition telemetry_on (config : Configuration) : bool :=
  match telemetry_endpoints config with Some e => negb (endpoints_is_empty e) | None => false end.

Definition telemetry_task (t : Task) : Prop :=
  exists w, telemetry_worker_new 16 = Ok w /\ t = mkTask "telemetry" None false false (RunTelemetry w).

(** The telemetry stage of [new_partial]. *)
Lemma telemetry_ok config tm0 tel tm1 :
  (match telemetry_endpoints config with
   | Some endpoints =>
       if negb (endpoints_is_empty endpoints) then
         worker <- try from_telemetry_error (telemetry_worker_new 16) ;;
         ret (Some (worker, new_telemetry worker endpoints))
       else ret None
   | None => ret None
   end : M TaskManager NodeError (option (TelemetryWorker * Telemetry))) tm0 = (Ok tel, tm1) ->
  match tel with
  | Some (w, _) => telemetry_on config = true /\ telemetry_worker_new 16 = Ok w
  | None => telemetry_on config = false
  end.
Proof.
  unfold telemetry_on. destruct (telemetry_endpoints config) as [e|]; [destruct (endpoints_is_empty e)|];
    cbn [negb]; intros Ht.
  1,3: apply ret_ok_inv in Ht as [-> _]; done.
  apply bind_ok_inv in Ht as (w & tm & [Hw _]%try_ok_inv & [-> _]%ret_ok_inv). done.
Qed.

(** [new_partial] spawns nothing but the telemetry worker, and the import and the link
    half it returns belong together. *)
Lemma new_partial_ok config tm0 s tm :
  new_partial config tm0 = (Ok s, tm) ->
  runs_when (telemetry_on config) (own tm) telemetry_task /\
  grandpa_block_import (client s) GRANDPA_JUSTIFICATION_PERIOD (client s) (select_chain s)
    (telemetry_handle <$> telemetry s) = Ok (block_import s, grandpa_link s).
Proof.
  intros (tel & tm1 & Htel%telemetry_ok & Hp)%bind_ok_inv.
  apply bind_ok_inv in Hp as ([[[c b] k] tm2] & tm3 & [Hparts ->]%try_ok_inv & Hp).
  apply new_full_parts_tasks, own_foreign in Hparts. cbn zeta in Hp.
  apply bind_ok_inv in Hp as (u & tm4 & ->%modify_ok_inv & Hp).
  apply bind_ok_inv in Hp as (tel' & tm5 & Hspawn & Hp).
  assert (runs_when (telemetry_on config) (own tm5) telemetry_task) as Hown.
  { destruct tel as [[w t]|].
    - destruct Htel as [-> Hw]. apply bind_ok_inv in Hspawn as (u' & tm6 & Hs & [-> ->]%ret_ok_inv).
      apply spawn_own in Hs; [|done]. rewrite Hparts in Hs. eexists. split; [exact Hs|]. by exists w.
    - apply ret_ok_inv in Hspawn as [-> ->]. by rewrite Htel. }
  apply bind_ok_inv in Hp as (pl & tm7 & Hpool & Hp).
  apply call_own in Hpool; [|intros x tm8 Hx; by apply pool_build_tasks in Hx].
  apply bind_ok_inv in Hp as ([bi link] & tm8 & [Himp ->]%try_ok_inv & Hp).
  apply bind_ok_inv in Hp as (iq & tm9 & [_ Hiq]%try_run_own & [-> ->]%ret_ok_inv); [|apply aura_import_queue_tasks].
  rewrite Hiq, Hpool. split; [done|exact Himp].
Qed.

Definition offchain_task (s : Service) (t : Task) : Prop :=
  exists o w, offchain_workers_new o = Ok w /\ ow_runtime_api_provider o = client s /\ t = mkTask "offchain-workers-runner" (Some "offchain-worker"%string) false false
          (RunOffchainWorkers w (client s) SpawnHandle).

Lemma run_offchain_workers_ok config s net tm u tm' :
  run_offchain_workers config s net tm = (Ok u, tm') ->
  exists ts, own tm' = own tm ++ ts /\ runs_when (offchain_worker_enabled config) ts (offchain_task s).
Proof.
  unfold run_offchain_workers. destruct (offchain_worker_enabled config); intros Hr.
  - apply bind_ok_inv in Hr as (w & tm1 & [Hw ->]%try_ok_inv & Hs). apply spawn_own in Hs; [|done].
    eexists. split; [exact Hs|]. eexists. split; [done|]. by eexists _, w.
  - apply ret_ok_inv in Hr as [_ ->]. exists []. by rewrite app_nil_r.
Qed.

(** The author signs with the keys of the node, imports through the block import of
    the finality gadget, and keeps the slot duration the runtime answered. *)
Definition authoring_task (config : Configuration) (s : Service) (sync : SyncService) (t : Task) : Prop :=
  exists p w, start_aura p = Ok w /\ aura_slot_duration (client s) = Ok (sa_slot_duration p) /\
    sa_keystore p = keystore (keystore_container s) /\ sa_block_import p = block_import s /\
    sa_client p = client s /\ sa_sync_oracle p = sync /\ sa_force_authoring p = force_authoring config /\
    sa_create_inherent_data_providers p = authoring_inherents (sa_slot_duration p) /\
    t = mkTask "aura" (Some "block-authoring"%string) true true (RunAura w).

Lemma run_authoring_ok config s sync tm u tm' :
  run_authoring config s sync tm = (Ok u, tm') ->
  exists ts, own tm' = own tm ++ ts /\ runs_when (is_authority (role config)) ts (authoring_task config s sync).
Proof.
  unfold run_authoring. destruct (is_authority (role config)); intros Hr.
  - apply bind_ok_inv in Hr as (d & tm1 & [Hd ->]%try_ok_inv & Hr).
    apply bind_ok_inv in Hr as (w & tm2 & [Hw ->]%try_ok_inv & Hs). apply spawn_own in Hs; [|done].
    eexists. split; [exact Hs|]. eexists. split; [done|]. by eexists _, w.
  - apply ret_ok_inv in Hr as [_ ->]. exists []. by rewrite app_nil_r.
Qed.

(** The voter runs on the link half of the same import, under the protocol name the
    network was told; it holds keys on an authority only. *)
Definition voting_task (config : Configuration) (s : Service) (net : Network) (sync : SyncService)
    (name : ProtocolName) (notif : NotificationService) (t : Task) : Prop :=
  exists p v, run_grandpa_voter p = Ok v /\ gp_link p = grandpa_link s /\ gp_network p = net /\ gp_sync p = sync /\
    gp_notification_service p = notif /\ gc_protocol_name (gp_config p) = name /\
    gc_local_role (gp_config p) = role config /\
    gc_justification_generation_period (gp_config p) = GRANDPA_JUSTIFICATION_PERIOD /\
    gc_keystore (gp_config p) =
      (if is_authority (role config) then Some (keystore (keystore_container s)) else None) /\
    t = mkTask "grandpa-voter" None true true (RunGrandpaVoter v).

Lemma run_voter_ok config s net sync name notif tm u tm' :
  run_voter config s net sync name notif tm = (Ok u, tm') ->
  exists ts, own tm' = own tm ++ ts /\
    runs_when (negb (disable_grandpa config)) ts (voting_task config s net sync name notif).
Proof.
  unfold run_voter. destruct (disable_grandpa config); cbn [negb]; intros Hr.
  - apply ret_ok_inv in Hr as [_ ->]. exists []. by rewrite app_nil_r.
  - apply bind_ok_inv in Hr as (v & tm2 & [Hv ->]%try_ok_inv & Hs). apply spawn_own in Hs; [|done].
    eexists. split; [exact Hs|]. eexists. split; [done|]. by eexists _, v.
Qed.

Lemma genesis_hash_ok c tm h tm' : genesis_hash c tm = (Ok h, tm') -> client_block_hash c 0 = Ok (Some h) /\ tm' = tm.
Proof.
  unfold genesis_hash. destruct (client_block_hash c 0) as [[x|]|]; try discriminate.
  by intros [-> ->]%ret_ok_inv.
Qed.

(** The node as [new_full] leaves it. *)
Lemma start_ok N config tm :
  start N config = Ok tm ->
  exists s genesis net rpc_tx tx_ctl sync notif pconf tm1 tm2 t_tel t_off t_aura t_vote,
    let name := protocol_standard_name genesis (chain_spec config) in
    let metrics := register_notification_metrics N (prometheus_registry config) in
    let nc := net_config_new N (network config) (prometheus_registry config) in
    partial config = Ok (s, tm1) /\
    client_block_hash (client s) 0 = Ok (Some genesis) /\
    grandpa_peers_set_config N name metrics (peer_store_handle nc) = (pconf, notif) /\
    build_network {| bn_config := config; bn_net_config := add_notification_protocol pconf nc; bn_client := client s;
                     bn_transaction_pool := pool s; bn_spawn_handle := SpawnHandle; bn_import_queue := import_queue s;
                     bn_warp_sync := Some (warp_provider_new (backend s) (shared_authority_set (grandpa_link s)) []);
                     bn_metrics := metrics |} tm1 = (Ok (net, rpc_tx, tx_ctl, sync), tm2) /\
    own tm = t_tel ++ t_off ++ t_aura ++ t_vote /\
    runs_when (telemetry_on config) t_tel telemetry_task /\
    runs_when (offchain_worker_enabled config) t_off (offchain_task s) /\
    runs_when (is_authority (role config)) t_aura (authoring_task config s sync) /\
    runs_when (negb (disable_grandpa config)) t_vote (voting_task config s net sync name notif).
Proof.
  unfold start, partial. destruct (new_full N config []) as [[[]|e] tm'] eqn:Hf; [|done]. intros [= <-].
  unfold new_full in Hf. apply bind_ok_inv in Hf as (s & tm1 & Hp & Hf). rewrite Hp. pose proof (new_partial_ok _ _ _ _ Hp) as [Htel _].
  apply bind_ok_inv in Hf as (h & tm2 & [Hh ->]%genesis_hash_ok & Hf). cbn zeta in Hf.
  destruct (grandpa_peers_set_config _ _ _ _) as [pconf notif] eqn:Hg.
  apply bind_ok_inv in Hf as ([[[net tx] ctl] sync] & tm3 & Hnet & Hf).
  apply try_run_own in Hnet as [Hnet Hown3]; [|apply build_network_tasks].
  apply bind_ok_inv in Hf as (u1 & tm4 & Hoff & Hf). apply run_offchain_workers_ok in Hoff as (t2 & Hown4 & H2).
  apply bind_ok_inv in Hf as (u2 & tm5 & Hsp & Hf). apply try_run_own in Hsp as [_ Hown5]; [|apply spawn_tasks_tasks].
  apply bind_ok_inv in Hf as (u3 & tm6 & Hau & Hf). apply run_authoring_ok in Hau as (t3 & Hown6 & H3).
  apply run_voter_ok in Hf as (t4 & Hown7 & H4).
  exists s, h, net, tx, ctl, sync, notif, pconf, tm1, tm3, (own tm1), t2, t3, t4.
  split_and!; try done. by rewrite Hown7, Hown6, Hown5, Hown4, Hown3, <- !app_assoc.
Qed.

(** An author among the tasks of a node is the authoring task. *)
Lemma aura_task_of N config tm t w :
  start N config = Ok tm -> t ∈ own tm -> body t = RunAura w ->
  is_authority (role config) = true /\
  exists s sync, authoring_task config s sync (mkTask "aura" (Some "block-authoring"%string) true true (RunAura w)).
Proof.
  intros Hs Ht Hb. destruct (start_ok _ _ _ Hs) as
    (s & genesis & net & tx & ctl & sync & notif & pconf & tm1 & tm2 & t1 & t2 & t3 & t4 & _ & _ & _ & _ & Ho & H1 & H2 & H3 & H4).
  rewrite Ho, !elem_of_app in Ht. destruct Ht as [Ht|[Ht|[Ht|Ht]]].
  - destruct (runs_when_in _ _ _ _ H1 Ht) as (? & _ & ->). discriminate.
  - destruct (runs_when_in _ _ _ _ H2 Ht) as (? & ? & _ & _ & ->). discriminate.
  - split; [destruct (is_authority (role config)); [done|]; cbn in H3; subst; by apply elem_of_nil in Ht|].
    exists s, sync. pose proof (runs_when_in _ _ _ _ H3 Ht) as Hr. destruct t as [? ? ? ? b]. cbn in Hb. subst b.
    destruct Hr as (p & w' & ? & ? & ? & ? & ? & ? & ? & ? & [= -> -> -> -> <-]). by exists p, w.
  - destruct (runs_when_in _ _ _ _ H4 Ht) as (? & ? & ? & ? & ? & ? & ? & ? & ? & ? & ? & ->). discriminate.
Qed.

(** Without the authoring side of Substrate: any other proposer, slot duration and
    author in their place. *)
Definition with_authoring (pf : Handle -> Client -> Pool -> option Prometheus -> option TelemetryHandle -> ProposerFactory)
    (sd : Client -> result ClientError Z) (sa : StartAuraParams -> result ConsensusError AuraWorker) : Substrate := {|
  from_telemetry_error := from_telemetry_error; from_client_error := from_client_error;
  from_consensus_error := from_consensus_error; from_offchain_error := from_offchain_error;
  from_rpc_error := from_rpc_error; endpoints_is_empty := endpoints_is_empty;
  telemetry_worker_new := telemetry_worker_new; new_telemetry := new_telemetry; telemetry_handle := telemetry_handle;
  new_wasm_executor := new_wasm_executor; new_full_parts := new_full_parts; keystore := keystore;
  longest_chain := longest_chain; pool_build := pool_build; grandpa_block_import := grandpa_block_import;
  slot_duration_at := slot_duration_at; slot_from_timestamp := slot_from_timestamp;
  aura_import_queue := aura_import_queue; net_config_new := net_config_new;
  register_notification_metrics := register_notification_metrics; peer_store_handle := peer_store_handle;
  client_block_hash := client_block_hash; protocol_standard_name := protocol_standard_name;
  grandpa_peers_set_config := grandpa_peers_set_config; add_notification_protocol := add_notification_protocol;
  shared_authority_set := shared_authority_set; warp_provider_new := warp_provider_new; build_network := build_network;
  offchain_storage := offchain_storage; pool_factory_new := pool_factory_new;
  offchain_workers_new := offchain_workers_new; rpc_module_new := rpc_module_new; rpc_system := rpc_system;
  rpc_transaction_payment := rpc_transaction_payment; rpc_merge := rpc_merge; spawn_tasks := spawn_tasks;
  proposer_factory_new := pf; aura_slot_duration := sd; start_aura := sa;
  default_voting_rule := default_voting_rule; empty_voter_state := empty_voter_state;
  run_grandpa_voter := run_grandpa_voter |}.

(** Replacing the authoring side changes nothing for a node that is no authority. *)
Lemma authoring_is_unused pf sd sa N config :
  is_authority (role config) = false -> start (H := with_authoring pf sd sa) N config = start N config.
Proof.
  intros Hr. unfold start, new_full, run_authoring. rewrite Hr. reflexivity.
Qed.
End Service.
