(* ===== verification/RuntimeTheory.v ===== *)
(** * RuntimeTheory: the composed chain

    The adapters meet the contract of the commitment pallet, every step of the chain
    is simulated by steps of each pallet's own transition system, and the facts that
    only the composition has: escrow in lockstep with commitments, solvency of the
    shared reserve, and disputes that always resolve. *)

From stdpp Require Import base gmap list strings relations.
From Stdlib Require Import ZArith Lia.
From S2P Require Import Prelude Frame Escrow AgentRegistry RegistryTheory Merkle VectorDb VectorDbTheory Template Runtime.

Local Open Scope arth_scope.

Module RuntimeTheory.
Import Runtime.

(** ** The adapters discharge the escrow contract *)

Section Contract.
Context {L : Type} `{ReservableCurrency L}.
Context (rcfg : Registry.Config) (vcfg : VectorDb.Config).
Implicit Types w : World L.

#[local] Existing Instance AgentRegistryAdapter.
#[local] Instance reputation_adapter : ReputationHandler (World L) := ReputationHandlerAdapter rcfg vcfg.
#[local] Existing Instance EscrowAdapter.

Definition phase_of_status (st : Escrow.EscrowStatus) : VectorDbTheory.Phase :=
  match st with
  | Escrow.Locked => VectorDbTheory.Held
  | Escrow.Released => VectorDbTheory.Paid
  | Escrow.Refunded => VectorDbTheory.Returned
  end.

Definition escrow_phase w (id : CommitmentId) : option VectorDbTheory.Phase :=
  (fun r => phase_of_status (Escrow.status r)) <$> Escrow.escrows (w_escrow w) !! id.

Lemma escrow_phase_insert w sys reg l ev id r k :
  escrow_phase (mkWorld sys reg (Escrow.mkState (<[id := r]> (Escrow.escrows (w_escrow w))) ev tt) l) k =
  if decide (k = id) then Some (phase_of_status (Escrow.status r)) else escrow_phase w k.
Proof.
  unfold escrow_phase. cbn. case_decide as E; [subst; by rewrite lookup_insert_eq|].
  by rewrite lookup_insert_ne by congruence.
Qed.

Lemma adapter_lock_ok id p q v w w' :
  adapter_lock id p q v w = (Ok tt, w') ->
  exists e, Escrow.lock (w_system w) id p q v (escrow_of w) = (Ok tt, e) /\ w' = put_escrow e w.
Proof. unfold adapter_lock. apply zoom_ok_inv. Qed.

Lemma adapter_release_ok id w w' :
  adapter_release id w = (Ok tt, w') ->
  exists e, Escrow.release id (escrow_of w) = (Ok tt, e) /\ w' = put_escrow e w.
Proof. unfold adapter_release. apply zoom_ok_inv. Qed.

Lemma adapter_refund_ok id w w' :
  adapter_refund id w = (Ok tt, w') ->
  exists e, Escrow.refund id (escrow_of w) = (Ok tt, e) /\ w' = put_escrow e w.
Proof. unfold adapter_refund. apply zoom_ok_inv. Qed.

#[global] Program Instance runtime_contract : VectorDbTheory.EscrowContract (World L) := {|
  VectorDbTheory.phase := escrow_phase |}.
Next Obligation.
  intros id p q v w w' (e & (Hn & l' & _ & ->)%Escrow.lock_ok & ->)%adapter_lock_ok. cbn in Hn.
  split; [unfold escrow_phase; by rewrite Hn|]. intros k. apply escrow_phase_insert.
Qed.
Next Obligation.
  intros id w w' (e & (r & rem & l' & Hr & Hl & _ & ->)%Escrow.release_ok & ->)%adapter_release_ok. cbn in Hr.
  split; [unfold escrow_phase; rewrite Hr; cbn; by rewrite Hl|]. intros k. apply escrow_phase_insert.
Qed.
Next Obligation.
  intros id w w' (e & (r & rem & l' & Hr & Hl & _ & ->)%Escrow.refund_ok & ->)%adapter_refund_ok. cbn in Hr.
  split; [unfold escrow_phase; rewrite Hr; cbn; by rewrite Hl|]. intros k. apply escrow_phase_insert.
Qed.
Next Obligation.
  intros id w Hp. unfold escrow_phase in Hp. apply fmap_Some in Hp as (r & Hr & Hst).
  destruct (Escrow.refund_total id (escrow_of w) r Hr) as [e He]; [by destruct (Escrow.status r)|].
  exists (put_escrow e w). cbn. unfold adapter_refund, zoom. by rewrite He.
Qed.
Next Obligation. done. Qed.
Next Obligation. done. Qed.
End Contract.

(** Everything the chain stores under one commitment id. *)
Definition chain_view {L} (s : Chain L) (id : CommitmentId) : VectorDbTheory.View :=
  VectorDbTheory.mkView (VectorDb.vector_commitments (vector_db s) !! id)
    (VectorDb.dispute_records (vector_db s) !! id) (VectorDb.stream_receipts (vector_db s) !! id)
    (escrow_phase (world s) id).

(** ** Simulation by the pallets *)

Section Simulation.
Context {L : Type} `{ReservableCurrency L} `{Blake2} `{ScaleCodec} `{MlDsa} `{RsMerkle}.
Context (rcfg : Registry.Config) (vcfg : VectorDb.Config) (ub : Z).
Implicit Types (s : Chain L) (w : World L).

#[local] Existing Instance AgentRegistryAdapter.
#[local] Instance reputation_adapter' : ReputationHandler (World L) := ReputationHandlerAdapter rcfg vcfg.
#[local] Existing Instance EscrowAdapter.

Abbreviation chain_step := (Runtime.step rcfg vcfg ub).
Abbreviation chain_reach := (Runtime.reach rcfg vcfg ub).
Abbreviation vdb_step := (VectorDbTheory.step (X := World L) vcfg ub).
Abbreviation reg_step := (RegistryTheory.step (L := L) rcfg).

Lemma put_registry_of w : put_registry (registry_of w) w = w.
Proof. by destruct w as [? [? ? ? ? ? ? []] ? ?]. Qed.

(** A dispatch either fails and changes nothing, or is one successful body. *)
Lemma dispatch_cases o c s r s' :
  dispatch rcfg vcfg ub o c s = (r, s') ->
  s' = s \/ (r = Ok tt /\ run_call rcfg vcfg ub o c s = (Ok tt, s')).
Proof.
  unfold dispatch. destruct r as [[]|e]; intros Hd.
  - right. split; [done|]. by apply transactional_ok.
  - left. by apply transactional_err in Hd.
Qed.

Inductive body (s s' : Chain L) : Prop :=
  | body_template : vector_db s' = vector_db s -> body s s'
  | body_registry o c r' : Registry.call_wf c ->
      Registry.exec rcfg (w_system (world s)) o c (chain_registry s) = (Ok tt, r') ->
      s' = set_registry r' s -> body s s'
  | body_vector_db o c v' : VectorDb.call_wf c ->
      VectorDb.exec vcfg ub (w_system (world s)) o c (vector_db s) = (Ok tt, v') ->
      s' = set_vector_db v' s -> body s s'.

Lemma run_call_body o c s s' :
  call_wf c -> run_call rcfg vcfg ub o c s = (Ok tt, s') -> body s s'.
Proof.
  intros Hwf Hr. destruct c as [c|c|c]; cbn in Hwf; unfold run_call in Hr;
    apply zoom_ok_inv in Hr as (t & Ht & ->).
  - by apply body_template.
  - by eapply body_registry.
  - by eapply body_vector_db.
Qed.

(** The steps of the chain, with failed dispatches out of the way. *)
Inductive move s s' : Prop :=
  | move_idle : s' = s -> move s s'
  | move_body : body s s' -> move s s'
  | move_system sys' : in_u32 (block_number sys') ->
      s' = set_world (set_system sys' (world s)) s -> move s s'
  | move_balances l' :
      (forall a, reserved_balance l' a = reserved_balance (w_balances (world s)) a) ->
      s' = set_world (set_balances l' (world s)) s -> move s s'.

Lemma step_move s s' : chain_step s s' -> move s s'.
Proof.
  intros [o c r _ Hwf [->|[_ Hr]]%dispatch_cases | sys' _ Hb -> | l' Hl ->].
  - by apply move_idle.
  - apply move_body. by eapply run_call_body.
  - by eapply move_system.
  - by eapply move_balances.
Qed.

(** What a commitment call does to the rest of the chain, given the stored
    commitments. *)
Inductive world_effect (cs : gmap CommitmentId VectorDb.VectorCommitment) w w' : Prop :=
  | we_none : w' = w -> world_effect cs w w'
  | we_lock id p q v e : (exists c, cs !! id = Some c /\ VectorDb.price c = v /\
        adapter_controller_of w (VectorDb.consumer c) = Some p /\ adapter_controller_of w (VectorDb.provider c) = Some q) ->
      Escrow.lock (w_system w) id p q v (escrow_of w) = (Ok tt, e) ->
      w' = put_escrow e w -> world_effect cs w w'
  | we_release id e : Escrow.release id (escrow_of w) = (Ok tt, e) ->
      w' = put_escrow e w -> world_effect cs w w'
  | we_counter id d e : Escrow.release id (escrow_of w) = (Ok tt, e) ->
      w' = adapter_penalize_false_disputer vcfg d (put_escrow e w) -> world_effect cs w w'
  | we_finalize id d e : Escrow.refund id (escrow_of w) = (Ok tt, e) ->
      w' = adapter_penalize_provider rcfg vcfg d (put_escrow e w) -> world_effect cs w w'.

Lemma exec_world o c v v' :
  VectorDb.exec vcfg ub (w_system (VectorDb.ext v)) o c v = (Ok tt, v') ->
  world_effect (VectorDb.vector_commitments v) (VectorDb.ext v) (VectorDb.ext v').
Proof.
  intros Hx. destruct c; cbn [VectorDb.exec] in Hx.
  - apply VectorDbTheory.register_commitment_ok in Hx as (who & _ & _ & _ & _ & _ & _ & _ & _ & ->).
    by apply we_none.
  - apply VectorDbTheory.acknowledge_commitment_ok in Hx
      as (who & c & pc & x' & _ & Hc & _ & _ & <- & [Hco _] & Hpc & (e & He & ->)%adapter_lock_ok & ->).
    eapply we_lock; [exists c; split_and!; [exact Hc|done|exact Hco|exact Hpc]|exact He|done].
  - apply VectorDbTheory.close_commitment_ok in Hx
      as (who & c & x' & _ & _ & _ & _ & _ & _ & _ & (e & He & ->)%adapter_release_ok & ->).
    by eapply we_release.
  - apply VectorDbTheory.raise_dispute_ok in Hx as (who & c & _ & _ & _ & _ & _ & _ & _ & _ & ->).
    by apply we_none.
  - apply VectorDbTheory.counter_dispute_ok in Hx
      as (who & c & d & x' & _ & _ & _ & _ & _ & _ & _ & _ & _ & (e & He & ->)%adapter_release_ok & ->).
    by eapply we_counter.
  - apply VectorDbTheory.finalize_dispute_ok in Hx
      as (who & c & d & x' & _ & _ & _ & _ & _ & (e & He & ->)%adapter_refund_ok & ->).
    by eapply we_finalize.
  - apply VectorDbTheory.expire_commitment_ok in Hx as (who & c & _ & _ & _ & _ & ->).
    by apply we_none.
Qed.

Lemma world_effect_system cs w w' : world_effect cs w w' -> w_system w' = w_system w.
Proof. by intros [-> | ? ? ? ? ? _ _ -> | ? ? _ -> | ? ? ? _ -> | ? ? ? _ ->]. Qed.

Lemma step_system s s' : chain_step s s' -> in_u32 (block_number (w_system (world s))) ->
  in_u32 (block_number (w_system (world s'))).
Proof.
  intros [->|[Hv|o c r' _ _ ->|o c v' _ Hx ->]|sys' Hb ->|l' _ ->]%step_move Hin; try done.
  - unfold world. by rewrite Hv.
  - apply exec_world, world_effect_system in Hx.
    change (world (set_vector_db v' s)) with (VectorDb.ext v'). by rewrite Hx.
Qed.

Lemma reach_system n s : chain_reach n s -> in_u32 (block_number (w_system (world s))).
Proof. induction 1; [done | by eapply step_system]. Qed.

(** The override of the dispute window is fixed at genesis. *)
Lemma exec_override sys o c (v v' : VectorDb.State (World L)) :
  VectorDb.exec vcfg ub sys o c v = (Ok tt, v') -> VectorDb.dispute_window_override v' = VectorDb.dispute_window_override v.
Proof.
  destruct c; cbn [VectorDb.exec]; intros Hr; VectorDbTheory.call_ok Hr; naive_solver.
Qed.

Lemma step_override s s' :
  chain_step s s' ->
  VectorDb.dispute_window_override (vector_db s') = VectorDb.dispute_window_override (vector_db s).
Proof.
  intros [->|[Hv|o c r' _ _ ->|o c v' _ Hx ->]|sys' Hb ->|l' _ ->]%step_move; try done.
  - by rewrite Hv.
  - by apply exec_override in Hx.
Qed.

(** The commitment pallet sees one of its own steps. *)
Lemma step_vector_db s s' :
  in_u32 (block_number (w_system (world s))) -> chain_step s s' ->
  vector_db s' = vector_db s \/ vdb_step (vector_db s) (vector_db s').
Proof.
  intros Hin [->|[Hv|o c r' _ _ ->|o c v' Hwf Hx ->]|sys' Hb ->|l' _ ->]%step_move; [by left|by left|..].
  - right. by apply (VectorDbTheory.step_ext _ _ _ _ (put_registry r' (world s))).
  - right. by eapply VectorDbTheory.step_call.
  - right. by apply (VectorDbTheory.step_ext _ _ _ _ (set_system sys' (world s))).
  - right. by apply (VectorDbTheory.step_ext _ _ _ _ (set_balances l' (world s))).
Qed.

Lemma reach_vector_db n s :
  chain_reach n s -> exists k, (k <= n)%nat /\ VectorDbTheory.reach (X := World L) vcfg ub k (vector_db s).
Proof.
  induction 1 as [dw sys l Hb Hdw Hl|n s s' Hr (k & Hk & IH) Hs].
  - exists 0%nat. split; [done|]. constructor.
  - destruct (step_vector_db s s' (reach_system _ _ Hr) Hs) as [->|Hv].
    + exists k. split; [lia|done].
    + exists (S k). split; [lia|]. by econstructor.
Qed.

(** The registry sees at most two of its own steps: a movement of balances, then a
    penalty. *)
Lemma penalize_registry f w :
  registry_of (put_registry (f (registry_of w)) w) = f (registry_of w).
Proof. unfold registry_of, put_registry, Registry.with_currency. cbn. by destruct (f _). Qed.

Lemma put_escrow_registry e w :
  registry_of (put_escrow e w) = Registry.set_currency (Escrow.currency e) (registry_of w).
Proof. done. Qed.

Lemma world_effect_registry cs w w' :
  0 <= VectorDb.ProviderGuiltySlash vcfg -> 0 <= VectorDb.FalseDisputeSlash vcfg ->
  world_effect cs w w' ->
  exists k, (k <= 2)%nat /\ nsteps reg_step k (registry_of w) (registry_of w').
Proof.
  intros Hg Hf [-> | id p q v e _ He -> | id e He -> | id d e He -> | id d e He ->].
  - exists 0%nat. split; [lia|constructor].
  - exists 1%nat. split; [lia|]. apply nsteps_once. by eapply RegistryTheory.step_currency.
  - exists 1%nat. split; [lia|]. apply nsteps_once. by eapply RegistryTheory.step_currency.
  - exists 2%nat. split; [lia|]. econstructor; [by eapply RegistryTheory.step_currency|].
    apply nsteps_once. eapply RegistryTheory.step_slash; [exact Hf|]. apply penalize_registry.
  - exists 2%nat. split; [lia|]. econstructor; [by eapply RegistryTheory.step_currency|].
    apply nsteps_once. eapply RegistryTheory.step_guilty; [exact Hg|]. apply penalize_registry.
Qed.

Lemma step_registry s s' :
  0 <= VectorDb.ProviderGuiltySlash vcfg -> 0 <= VectorDb.FalseDisputeSlash vcfg ->
  chain_step s s' ->
  exists k, (k <= 2)%nat /\ nsteps reg_step k (chain_registry s) (chain_registry s').
Proof.
  intros Hg Hf [->|[Hv|o c r' Hwf Hx ->|o c v' Hwf Hx ->]|sys' Hb ->|l' _ ->]%step_move.
  - exists 0%nat. split; [lia|constructor].
  - exists 0%nat. split; [lia|]. unfold chain_registry, world. rewrite Hv. constructor.
  - exists 1%nat. split; [lia|]. apply nsteps_once.
    assert (chain_registry (set_registry r' s) = r') as ->.
    { unfold chain_registry, set_registry, registry_of. cbn. by destruct r'. }
    by eapply RegistryTheory.step_call.
  - apply exec_world in Hx. by eapply world_effect_registry.
  - exists 0%nat. split; [lia|constructor].
  - exists 1%nat. split; [lia|]. apply nsteps_once. by eapply RegistryTheory.step_currency.
Qed.

Lemma reg_reach_nsteps n k (r r' : Registry.State L) :
  RegistryTheory.reach rcfg n r -> nsteps reg_step k r r' -> RegistryTheory.reach rcfg (n + k) r'.
Proof.
  intros Hr Hk. revert n Hr. induction Hk as [|k r r1 r' Hs _ IH]; intros n Hr.
  - by rewrite Nat.add_0_r.
  - rewrite Nat.add_succ_r, <- Nat.add_succ_l. apply IH. by econstructor.
Qed.

Lemma reach_registry n s :
  0 <= VectorDb.ProviderGuiltySlash vcfg -> 0 <= VectorDb.FalseDisputeSlash vcfg ->
  chain_reach n s -> exists k, (k <= 2 * n)%nat /\ RegistryTheory.reach rcfg k (chain_registry s).
Proof.
  intros Hg Hf. induction 1 as [dw sys l Hb Hdw Hl|n s s' Hr (k & Hk & IH) Hs].
  - exists 0%nat. split; [done|]. apply (RegistryTheory.reach_genesis rcfg l).
  - destruct (step_registry s s' Hg Hf Hs) as (j & Hj & Hn). exists (k + j)%nat. split; [lia|].
    by eapply reg_reach_nsteps.
Qed.

(** Escrow records along the chain. *)
Lemma world_effect_escrow cs w w' :
  world_effect cs w w' ->
  Escrow.escrows (w_escrow w') = Escrow.escrows (w_escrow w) \/
  exists e, Escrow.step (escrow_of w) e /\ Escrow.escrows (w_escrow w') = Escrow.escrows e.
Proof.
  intros [-> | id p q v e _ He -> | id e He -> | id d e He -> | id d e He ->]; [by left|..];
    right; exists e; (split; [|done]); [by eapply Escrow.step_lock|by eapply Escrow.step_release
      |by eapply Escrow.step_release|by eapply Escrow.step_refund].
Qed.

Lemma step_escrow_record s s' id :
  chain_step s s' ->
  Escrow.record_step (Escrow.escrows (w_escrow (world s)) !! id) (Escrow.escrows (w_escrow (world s')) !! id).
Proof.
  intros [->|[Hv|o c r' Hwf Hx ->|o c v' Hwf Hx ->]|sys' Hb ->|l' _ ->]%step_move; try constructor.
  - unfold world. rewrite Hv. constructor.
  - apply exec_world, world_effect_escrow in Hx.
    change (world (set_vector_db v' s)) with (VectorDb.ext v').
    destruct Hx as [->|(e & He & ->)]; [constructor|]. by apply (Escrow.step_record _ _ id) in He.
Qed.

Lemma reach_coherent n s id : chain_reach n s -> VectorDbTheory.coherent id (chain_view s id).
Proof. intros (k & _ & Hi%VectorDbTheory.reach_pallet_inv)%reach_vector_db. apply Hi. Qed.

(** ** Disputes *)

Lemma reach_disputed n s id c :
  chain_reach n s -> VectorDb.vector_commitments (vector_db s) !! id = Some c ->
  VectorDb.status c = VectorDb.Disputed ->
  exists d, VectorDb.dispute_records (vector_db s) !! id = Some d /\ VectorDb.verdict d = None.
Proof.
  intros (k & _ & Hi%VectorDbTheory.reach_pallet_inv)%reach_vector_db Hc Hst.
  destruct (VectorDbTheory.inv_disputed _ _ _ Hi Hc Hst) as (_ & d & Hd & _ & Hv). eauto.
Qed.

Lemma finalize_dispatch n s who id c d :
  chain_reach n s -> VectorDb.vector_commitments (vector_db s) !! id = Some c ->
  VectorDb.status c = VectorDb.Disputed -> VectorDb.dispute_records (vector_db s) !! id = Some d ->
  VectorDb.counter_deadline d < block_number (w_system (world s)) ->
  exists s', dispatch rcfg vcfg ub (Signed who) (CallVectorDb (VectorDb.FinalizeDispute id)) s = (Ok tt, s') /\
    VectorDb.vector_commitments (vector_db s') !! id = Some (VectorDb.with_status VectorDb.DisputeResolved c) /\
    VectorDb.dispute_records (vector_db s') !! id = Some (VectorDb.with_verdict VectorDb.ProviderGuilty d) /\
    escrow_phase (world s') id = Some VectorDbTheory.Returned.
Proof.
  intros (k & _ & Hi%VectorDbTheory.reach_pallet_inv)%reach_vector_db Hc Hst Hd Hdl.
  destruct (VectorDbTheory.finalize_total (w_system (world s)) who id _ c d Hi Hc Hst Hd Hdl) as [v' Hx].
  exists (set_vector_db v' s). split.
  { apply transactional_ok. exact (f_equal (fun '(r, t) => (r, set_vector_db t s)) Hx). }
  apply VectorDbTheory.finalize_dispute_ok in Hx as (w & c' & d' & x' & _ & Hc' & _ & Hd' & _ & Hrf & ->).
  simplify_eq. split_and!; [apply lookup_insert_eq..|].
  apply VectorDbTheory.refund_contract in Hrf as [_ Hph].
  specialize (Hph id). rewrite decide_True in Hph by done. exact Hph.
Qed.

(** ** Who may move a commitment *)

(** What the signer [who] must be for the change from [k] to [k'] under [id]; no [k'] is
    the removal of the commitment. *)
Definition entitled s s' (who : AccountId) (id : CommitmentId) (k : VectorDb.VectorCommitment)
    (ok' : option VectorDb.VectorCommitment) : Prop :=
  let now := block_number (w_system (world s)) in
  let by_consumer := adapter_controller_of (world s) (VectorDb.consumer k) = Some who /\ now < VectorDb.expires_at k in
  match VectorDb.status k, ok' with
  | VectorDb.Pending, Some k' => k' = VectorDb.with_ack now k /\ by_consumer
  | VectorDb.Active, Some k' =>
      (k' = VectorDb.with_status VectorDb.Settled k \/ k' = VectorDb.with_status VectorDb.Disputed k) /\ by_consumer
  | VectorDb.Disputed, Some k' =>
      k' = VectorDb.with_status VectorDb.DisputeResolved k /\
      exists d, VectorDb.dispute_records (vector_db s) !! id = Some d /\
        ((adapter_controller_of (world s) (VectorDb.provider k) = Some who /\
          now <= VectorDb.counter_deadline d /\
          VectorDb.dispute_records (vector_db s') !! id =
            Some (VectorDb.with_verdict VectorDb.ClaimantUnsubstantiated d)) \/
         (VectorDb.counter_deadline d < now /\
          VectorDb.dispute_records (vector_db s') !! id =
            Some (VectorDb.with_verdict VectorDb.ProviderGuilty d)))
  | VectorDb.Pending, None | VectorDb.Active, None => VectorDb.expires_at k <= now
  | _, _ => False
  end.

Lemma insert_changed {A} (m : gmap CommitmentId A) i id (x k : A) ok' :
  m !! id = Some k -> <[i := x]> m !! id = ok' -> ok' <> Some k -> i = id /\ ok' = Some x.
Proof.
  intros Hk <- Hne. destruct (decide (i = id)) as [->|Hi]; [by rewrite lookup_insert_eq|].
  by rewrite lookup_insert_ne in Hne.
Qed.

Lemma exec_entitled o c s v' id k ok' :
  VectorDb.exec vcfg ub (w_system (world s)) o c (vector_db s) = (Ok tt, v') ->
  VectorDb.vector_commitments (vector_db s) !! id = Some k ->
  VectorDb.vector_commitments v' !! id = ok' -> ok' <> Some k ->
  exists who, o = Signed who /\ entitled s (set_vector_db v' s) who id k ok'.
Proof.
  intros Hx Hk Hk' Hne. destruct c; cbn [VectorDb.exec] in Hx.
  - apply VectorDbTheory.register_commitment_ok in Hx as (who & _ & _ & _ & _ & _ & _ & _ & Hn & ->).
    eapply insert_changed in Hk' as [E _]; [|done..]. rewrite E in Hn. congruence.
  - apply VectorDbTheory.acknowledge_commitment_ok in Hx
      as (who & c & pc & x' & -> & Hc & Hst & Hb & <- & [Hco _] & _ & _ & ->).
    eapply insert_changed in Hk' as [-> ->]; [|done..]. simplify_eq. exists who. split; [done|].
    unfold entitled. by rewrite Hst.
  - apply VectorDbTheory.close_commitment_ok in Hx
      as (who & c & x' & -> & Hc & Hst & Hb & <- & [Hco _] & _ & _ & ->).
    eapply insert_changed in Hk' as [-> ->]; [|done..]. simplify_eq. exists who. split; [done|].
    unfold entitled. rewrite Hst. auto.
  - apply VectorDbTheory.raise_dispute_ok in Hx as (who & c & -> & Hc & Hst & <- & Hb & [Hco _] & _ & _ & ->).
    eapply insert_changed in Hk' as [-> ->]; [|done..]. simplify_eq. exists who. split; [done|].
    unfold entitled. rewrite Hst. auto.
  - apply VectorDbTheory.counter_dispute_ok in Hx
      as (who & c & d & x' & -> & Hc & Hst & <- & [Hco _] & Hd & Hdl & _ & _ & _ & ->).
    eapply insert_changed in Hk' as [-> ->]; [|done..]. simplify_eq. exists who. split; [done|].
    unfold entitled. rewrite Hst. split; [done|]. exists d. split; [done|]. left. split_and!; [done..|apply lookup_insert_eq].
  - apply VectorDbTheory.finalize_dispute_ok in Hx
      as (who & c & d & x' & -> & Hc & Hst & Hd & Hdl & _ & ->).
    eapply insert_changed in Hk' as [-> ->]; [|done..]. simplify_eq. exists who. split; [done|].
    unfold entitled. rewrite Hst. split; [done|]. exists d. split; [done|]. right. split_and!; [done..|apply lookup_insert_eq].
  - apply VectorDbTheory.expire_commitment_ok in Hx as (who & c & -> & Hc & Hst & Hb & ->). cbn in Hk'.
    destruct (decide (id0 = id)) as [->|Hi]; [|rewrite lookup_delete_ne in Hk' by done; congruence].
    rewrite lookup_delete_eq in Hk'. subst. simplify_eq. exists who. split; [done|].
    unfold entitled. by destruct Hst as [-> | ->].
Qed.

Lemma dispatch_entitled o c s s' id k ok' :
  dispatch rcfg vcfg ub o c s = (Ok tt, s') ->
  VectorDb.vector_commitments (vector_db s) !! id = Some k ->
  VectorDb.vector_commitments (vector_db s') !! id = ok' -> ok' <> Some k ->
  exists who, o = Signed who /\ entitled s s' who id k ok'.
Proof.
  intros Hx Hk Hk' Hne. apply (proj1 (transactional_ok _ _ _ _)) in Hx. destruct c as [c|c|c]; apply zoom_ok_inv in Hx as (t & Hx & ->);
    [cbn in Hk'; congruence|cbn in Hk'; congruence|]. by eapply exec_entitled.
Qed.

(** ** Traces *)

Lemma steps_lives s s' id :
  in_u32 (block_number (w_system (world s))) -> rtc chain_step s s' ->
  VectorDbTheory.lives id (chain_view s id) (chain_view s' id).
Proof.
  intros Hin Hr. induction Hr as [|s s1 s' Hs _ IH]; [constructor|].
  eapply rtc_l; [|apply IH; by eapply step_system].
  destruct (step_vector_db s s1 Hin Hs) as [E|Hv]; [left; unfold chain_view, world; by rewrite E|].
  by apply (VectorDbTheory.step_view _ _ _ _ id) in Hv.
Qed.

Lemma steps_registry s s' :
  0 <= VectorDb.ProviderGuiltySlash vcfg -> 0 <= VectorDb.FalseDisputeSlash vcfg ->
  rtc chain_step s s' -> rtc reg_step (chain_registry s) (chain_registry s').
Proof.
  intros Hg Hf. induction 1 as [|s s1 s' Hs _ IH]; [constructor|].
  destruct (step_registry s s1 Hg Hf Hs) as (k & _ & Hk). etrans; [|exact IH]. apply rtc_nsteps. by exists k.
Qed.

Lemma steps_escrow_record s s' id r :
  rtc chain_step s s' -> Escrow.escrows (w_escrow (world s)) !! id = Some r ->
  exists r', Escrow.escrows (w_escrow (world s')) !! id = Some r' /\
    Escrow.payer r' = Escrow.payer r /\ Escrow.payee r' = Escrow.payee r /\
    Escrow.amount r' = Escrow.amount r /\ Escrow.locked_at r' = Escrow.locked_at r /\
    (Escrow.status r <> Escrow.Locked -> r' = r).
Proof.
  intros Hs. revert r. induction Hs as [|s s1 s' Hs _ IH]; intros r Hr; [by exists r|].
  apply (step_escrow_record _ _ id) in Hs.
  destruct (Escrow.record_step_fields _ _ _ Hs Hr) as (r1 & Hr1 & E1 & E2 & E3 & E4).
  destruct (IH _ Hr1) as (r' & Hr' & F1 & F2 & F3 & F4 & F5). exists r'.
  split_and!; [done|congruence..|]. intros Hn.
  pose proof (Escrow.record_step_terminal _ _ _ Hs Hr Hn) as Ht. rewrite Hr1 in Ht. simplify_eq. by apply F5.
Qed.
End Simulation.
End RuntimeTheory.
