(* ===== verification/Typed.v ===== *)
(** * Typed: every stored value stays in the range of its type

    The model keeps Rust's integers as unbounded [Z] and its arrays as lists of bytes.
    This file states what the types of the storage items fix, pallet by pallet, and
    shows that every step of the chain keeps it. *)

From stdpp Require Import base gmap list strings.
From Stdlib Require Import ZArith Lia.
From S2P Require Import Prelude Frame Ledger Escrow AgentRegistry RegistryTheory Merkle VectorDb VectorDbTheory Template Runtime RuntimeTheory.

Local Open Scope arth_scope.

Module Typed.

Ltac in_range := unfold in_u32, in_u64, in_u128, sat_add, sat_sub, u32_max, u64_max, u128_max in *; lia.

(** ** The registry *)

Section Registry.
Import Registry.
Context {L : Type}.
Implicit Types r : State L.

Definition profile_typed (d : Did) (p : AgentProfile) : Prop :=
  len32 d /\ did p = d /\ len32 (controller p) /\ in_u64 (capabilities p) /\ in_u32 (reputation_score p) /\ in_u32 (registered_at p) /\
  Z.of_nat (length (metadata p)) <= MAX_METADATA_LEN /\ Z.of_nat (length (label p)) <= MAX_LABEL_LEN.

Definition index_typed (c : AccountId) (l : list Did) : Prop := len32 c /\ (length l <= 64)%nat /\ Forall len32 l.

Record registry_typed r : Prop := {
  rt_profiles : map_Forall profile_typed (agent_profiles r);
  rt_index : map_Forall index_typed (controller_agents r);
  rt_count : in_u32 (active_agent_count r);
  rt_stars : map_Forall (fun k b => len32 k.1 /\ len32 k.2 /\ in_u32 b) (star_givers r);
  rt_strikes : map_Forall (fun d n => len32 d /\ in_u32 n) (dispute_strikes r) }.

Lemma genesis_registry_typed (l : L) : registry_typed (genesis l).
Proof. split; cbn; try apply map_Forall_empty. in_range. Qed.

Lemma dids_typed r c : registry_typed r -> len32 c -> index_typed c (controller_dids r c).
Proof.
  intros Hr Hc. unfold controller_dids. destruct (controller_agents r !! c) as [l|] eqn:E; cbn; [apply (rt_index r Hr c l E)|].
  split_and!; [done|cbn; lia|constructor].
Qed.

Lemma profile_at r d p : registry_typed r -> agent_profiles r !! d = Some p -> profile_typed d p.
Proof. intros Hr Hp. apply (rt_profiles r Hr d p Hp). Qed.

(** An edit of one profile. *)
Lemma edit_typed r f d p p' :
  registry_typed r -> agent_profiles r !! d = Some p ->
  (profile_typed d p -> profile_typed d p') -> f (agent_profiles r) = <[d := p']> (agent_profiles r) ->
  registry_typed (set_profiles f r).
Proof.
  intros Hr Hp Ht Hf. pose proof (Ht (profile_at r d p Hr Hp)) as Hp'. destruct Hr as [H1 H2 H3 H4 H5].
  split; cbn; try done. rewrite Hf. by apply map_Forall_insert_2.
Qed.

Lemma event_typed r e : registry_typed r -> registry_typed (deposit_event e r).
Proof. by intros []. Qed.
Lemma currency_typed r l : registry_typed r -> registry_typed (set_currency l r).
Proof. by intros []. Qed.
Lemma count_typed r f : (forall n, in_u32 n -> in_u32 (f n)) -> registry_typed r -> registry_typed (set_count f r).
Proof. intros Hf []. split; cbn; auto. Qed.
Lemma stars_typed r k b : len32 k.1 -> len32 k.2 -> in_u32 b -> registry_typed r -> registry_typed (set_stars (insert k b) r).
Proof. intros ? ? ? []. split; cbn; try done. by apply map_Forall_insert_2. Qed.
Lemma strikes_typed r d n : len32 d -> in_u32 n -> registry_typed r -> registry_typed (set_strikes (insert d n) r).
Proof. intros ? ? []. split; cbn; try done. by apply map_Forall_insert_2. Qed.

Lemma score_typed d p f : (forall n, in_u32 n -> in_u32 (f n)) -> profile_typed d p -> profile_typed d (with_score f p).
Proof. intros Hf (? & ? & ? & ? & ? & ? & ? & ?). split_and!; cbn; auto. Qed.

Lemma slash_typed r d amount : 0 <= amount -> registry_typed r -> registry_typed (slash_reputation d amount r).
Proof.
  intros Ha Hr. unfold slash_reputation. destruct (agent_profiles r !! d) as [p|] eqn:Hp; [|done].
  eapply event_typed, (edit_typed r _ d p (with_score (fun n => sat_sub n amount) p)); try done.
  apply score_typed. intros n Hn. in_range.
Qed.

Context `{ReservableCurrency L} `{Blake2} `{!Blake2Laws} `{ScaleCodec} `{MlDsa} (cfg : Config).

Lemma guilty_typed r d amount :
  0 <= amount -> registry_typed r -> registry_typed (slash_reputation_for_guilty_delivery cfg d amount r).
Proof.
  intros Ha Hr. unfold slash_reputation_for_guilty_delivery.
  pose proof (slash_typed r d amount Ha Hr) as Hs. set (r1 := slash_reputation d amount r) in *. clearbody r1.
  destruct (agent_profiles r1 !! d) as [p|] eqn:Hp; [|done]. pose proof (proj1 (profile_at r1 d p Hs Hp)) as Hd.
  assert (in_u32 (strikes_of r1 d)) as Hst.
  { unfold strikes_of. destruct (dispute_strikes r1 !! d) as [n|] eqn:E; cbn; [|in_range]. apply (rt_strikes r1 Hs d n E). }
  assert (in_u32 (sat_add u32_max (strikes_of r1 d) 1)) as Hn by in_range.
  destruct (_ <? _); [by apply strikes_typed|]. destruct (slash_reserved _ _ _) as [v l'].
  apply event_typed, currency_typed, strikes_typed; [done|in_range|by apply strikes_typed].
Qed.

Lemma registry_call_typed sys o c r r' :
  in_u32 (block_number sys) -> origin_wf o -> call_wf c -> exec cfg sys o c r = (Ok tt, r') -> registry_typed r -> registry_typed r'.
Proof.
  intros Hb Ho Hwf Hx Hr. destruct c; cbn in Hwf, Hx.
  - apply RegistryTheory.register_agent_ok in Hx as (c & l' & -> & [_ Hroom _ _ _] & _ & ->).
    destruct (dids_typed r c Hr Ho) as (_ & Hi & Hf). destruct Hr as [Hr1 Hr2 Hr3 Hr4 Hr5], Hwf as (_ & _ & _ & ? & ? & ?).
    split; cbn; try done; [| |in_range].
    + apply map_Forall_insert_2; [|done]. split_and!; cbn; try done; first [apply blake2_256_len|in_range].
    + apply map_Forall_insert_2; [|done]. split_and!; [done|rewrite length_app; cbn; lia|].
      apply Forall_app. split; [done|]. constructor; [apply blake2_256_len|constructor].
  - apply RegistryTheory.update_profile_ok in Hx as (p & _ & Hp & _ & ->).
    eapply event_typed, (edit_typed r _ d p (with_details caps meta lbl p)); try done.
    destruct Hwf as (? & ? & ? & ?). intros (? & ? & ? & ? & ? & ? & ? & ?). by split_and!.
  - apply RegistryTheory.set_agent_status_ok in Hx as (p & _ & Hp & _ & ->).
    eapply event_typed, count_typed, (edit_typed r _ d p (with_status new_status p)); try done.
    intros n Hn. destruct (bool_decide _); in_range.
  - apply RegistryTheory.give_star_ok in Hx as (c & p & _ & _ & _ & Hp & _ & _ & _ & ->).
    eapply event_typed, (edit_typed _ _ receiver p (with_score (fun n => sat_add u32_max n 1) p)); try done;
      [by apply stars_typed; try apply Hwf|]. apply score_typed. intros n Hn. in_range.
  - apply RegistryTheory.remove_star_ok in Hx as (c & p & _ & _ & _ & Hp & ->).
    eapply event_typed, (edit_typed _ _ receiver p (with_score (fun n => sat_sub n 1) p)); try done;
      [apply stars_typed; [apply Hwf|apply Hwf|in_range|done]|]. apply score_typed. intros n Hn. in_range.
  - apply RegistryTheory.deregister_agent_ok in Hx as (p & rem & l' & _ & Hp & _ & _ & ->).
    destruct (profile_at r d p Hr Hp) as (_ & _ & Hc & _).
    destruct (dids_typed r (controller p) Hr Hc) as (_ & Hi & Hf). destruct Hr as [Hr1 Hr2 Hr3 Hr4 Hr5].
    split; cbn; try done; [by apply map_Forall_delete| |in_range].
    apply map_Forall_insert_2; [|done]. split_and!; [done|etrans; [apply length_filter|done]|]. eapply Forall_forall. intros x [_ Hx]%list_elem_of_filter. by eapply Forall_forall in Hf.
Qed.
End Registry.

(** ** The escrows *)

Definition escrow_typed (id : bytes) (r : Escrow.EscrowRecord) : Prop :=
  len32 id /\ len32 (Escrow.payer r) /\ len32 (Escrow.payee r) /\
  in_u128 (Escrow.amount r) /\ in_u32 (Escrow.locked_at r).
Abbreviation escrows_typed m := (map_Forall escrow_typed m).

Lemma lock_typed {L} `{ReservableCurrency L} sys id p q v (s s' : Escrow.State L) :
  in_u32 (block_number sys) -> len32 id -> len32 p -> len32 q -> in_u128 v -> Escrow.lock sys id p q v s = (Ok tt, s') ->
  escrows_typed (Escrow.escrows s) -> escrows_typed (Escrow.escrows s').
Proof. intros Hb Hid Hp Hq Hv (_ & l' & _ & ->)%Escrow.lock_ok Hs. cbn. by apply map_Forall_insert_2. Qed.

Lemma release_typed {L} `{ReservableCurrency L} id (s s' : Escrow.State L) :
  Escrow.release id s = (Ok tt, s') -> escrows_typed (Escrow.escrows s) -> escrows_typed (Escrow.escrows s').
Proof.
  intros (r & rem & l' & Hr & _ & _ & ->)%Escrow.release_ok Hs. cbn. apply map_Forall_insert_2; [|done]. apply (Hs id r Hr).
Qed.

Lemma refund_typed {L} `{ReservableCurrency L} id (s s' : Escrow.State L) :
  Escrow.refund id s = (Ok tt, s') -> escrows_typed (Escrow.escrows s) -> escrows_typed (Escrow.escrows s').
Proof.
  intros (r & rem & l' & Hr & _ & _ & ->)%Escrow.refund_ok Hs. cbn. apply map_Forall_insert_2; [|done]. apply (Hs id r Hr).
Qed.

(** ** The commitments *)

Section VectorDb.
Import VectorDb.
Context {X : Type}.
Implicit Types s : State X.

Definition commitment_typed (id : CommitmentId) (c : VectorCommitment) : Prop :=
  len32 id /\ commitment_id c = id /\ len32 (provider c) /\ len32 (consumer c) /\ len32 (merkle_root c) /\
  in_u64 (total_chunks c) /\ Z.of_nat (length (metadata c)) <= MAX_METADATA_LEN /\
  in_u32 (created_at c) /\ in_u32 (expires_at c) /\ (forall b, acknowledged_at c = Some b -> in_u32 b) /\ in_u128 (price c).
Definition receipt_typed (id : CommitmentId) (r : StreamReceipt) : Prop :=
  len32 id /\ sr_commitment_id r = id /\ len32 (sr_final_stream_hash r) /\ in_u64 (sr_chunk_count r) /\ in_u32 (sr_submitted_at r).
Definition dispute_typed (id : CommitmentId) (d : DisputeRecord) : Prop :=
  len32 id /\ dr_commitment_id d = id /\ len32 (dr_merkle_root d) /\ len32 (received_chunk_hash d) /\
  in_u64 (disputed_chunk_index d) /\ in_u32 (raised_at d) /\ in_u32 (counter_deadline d).

Record vector_db_typed s : Prop := {
  vt_commitments : map_Forall commitment_typed (vector_commitments s);
  vt_receipts : map_Forall receipt_typed (stream_receipts s);
  vt_disputes : map_Forall dispute_typed (dispute_records s);
  vt_count : in_u32 (active_commitment_count s);
  vt_window : forall w, dispute_window_override s = Some w -> in_u32 w }.

Lemma vdb_event_typed s e : vector_db_typed s -> vector_db_typed (deposit_event e s).
Proof. by intros []. Qed.
Lemma vdb_ext_typed s x : vector_db_typed s -> vector_db_typed (set_ext x s).
Proof. by intros []. Qed.
Lemma vdb_count_typed s f : (forall n, in_u32 n -> in_u32 (f n)) -> vector_db_typed s -> vector_db_typed (set_count f s).
Proof. intros Hf []. split; cbn; auto. Qed.
Lemma vdb_commitment_typed s id c : commitment_typed id c -> vector_db_typed s -> vector_db_typed (insert_commitment id c s).
Proof. intros Hc []. split; cbn; try done. by apply map_Forall_insert_2. Qed.
Lemma vdb_receipt_typed s id r : receipt_typed id r -> vector_db_typed s -> vector_db_typed (insert_receipt id r s).
Proof. intros Hc []. split; cbn; try done. by apply map_Forall_insert_2. Qed.
Lemma vdb_dispute_typed s id d : dispute_typed id d -> vector_db_typed s -> vector_db_typed (insert_dispute id d s).
Proof. intros Hc []. split; cbn; try done. by apply map_Forall_insert_2. Qed.
Lemma vdb_remove_typed s id : vector_db_typed s -> vector_db_typed (remove_commitment id s).
Proof. intros []. split; cbn; try done. by apply map_Forall_delete. Qed.

Context `{AgentLookup X} `{ReputationHandler X} `{EscrowHandler X} `{Blake2} `{!Blake2Laws} `{ScaleCodec} `{RsMerkle}.
Context (cfg : Config) (ub : Z) (cfg_window : in_u32 (DisputeWindow cfg)).

Lemma window_typed s : vector_db_typed s -> in_u32 (effective_dispute_window cfg s).
Proof. intros Hs. unfold effective_dispute_window. destruct (dispute_window_override s) eqn:E; [by apply (vt_window s Hs)|done]. Qed.

Lemma vector_call_typed sys o c s s' :
  in_u32 (block_number sys) -> call_wf c -> exec cfg ub sys o c s = (Ok tt, s') -> vector_db_typed s -> vector_db_typed s'.
Proof.
  intros Hb Hwf Hx Hs.
  assert (forall n, in_u32 n -> in_u32 (sat_sub n 1)) as Hdec by (intros; in_range).
  destruct c; cbn in Hwf, Hx.
  - apply VectorDbTheory.register_commitment_ok in Hx as (who & _ & _ & _ & _ & _ & _ & He & _ & ->).
    destruct Hwf as (? & ? & ? & ? & ? & ? & ?).
    apply vdb_event_typed, vdb_count_typed; [intros; in_range|]. apply vdb_commitment_typed; [|done].
    split_and!; cbn; try done; first [apply blake2_256_len|in_range].
  - apply VectorDbTheory.acknowledge_commitment_ok in Hx as (who & c & pc & x' & _ & Hc & _ & _ & _ & _ & _ & _ & ->).
    pose proof (vt_commitments s Hs id c Hc) as (? & ? & ? & ? & ? & ? & ? & ? & ? & ? & ?).
    apply vdb_event_typed, vdb_commitment_typed, vdb_ext_typed; [|done]. split_and!; try done. by intros b [= <-].
  - apply VectorDbTheory.close_commitment_ok in Hx as (who & c & x' & _ & Hc & _ & _ & _ & _ & -> & _ & ->).
    pose proof (vt_commitments s Hs id c Hc) as Hct. destruct Hwf as (? & ? & ? & ?).
    by apply vdb_event_typed, vdb_ext_typed, vdb_count_typed, vdb_commitment_typed, vdb_receipt_typed.
  - apply VectorDbTheory.raise_dispute_ok in Hx as (who & c & _ & Hc & _ & _ & _ & _ & _ & _ & ->).
    pose proof (vt_commitments s Hs id c Hc) as Hct. destruct Hwf as (? & ? & ? & ? & ?).
    apply vdb_event_typed, vdb_commitment_typed, vdb_dispute_typed; [done| |done].
    pose proof (window_typed s Hs). split_and!; cbn; try done; [apply Hct|in_range].
  - apply VectorDbTheory.counter_dispute_ok in Hx as (who & c & d & x' & _ & Hc & _ & _ & _ & Hd & _ & _ & _ & _ & ->).
    pose proof (vt_commitments s Hs id c Hc) as Hct. pose proof (vt_disputes s Hs id d Hd) as Hdt.
    by apply vdb_event_typed, vdb_ext_typed, vdb_count_typed, vdb_commitment_typed, vdb_dispute_typed.
  - apply VectorDbTheory.finalize_dispute_ok in Hx as (who & c & d & x' & _ & Hc & _ & Hd & _ & _ & ->).
    pose proof (vt_commitments s Hs id c Hc) as Hct. pose proof (vt_disputes s Hs id d Hd) as Hdt.
    by apply vdb_event_typed, vdb_ext_typed, vdb_count_typed, vdb_commitment_typed, vdb_dispute_typed.
  - apply VectorDbTheory.expire_commitment_ok in Hx as (who & c & _ & Hc & _ & _ & ->).
    by apply vdb_event_typed, vdb_count_typed, vdb_remove_typed.
Qed.
End VectorDb.

(** ** The chain *)

Section Chain.
Import Runtime.
Context {L : Type} `{ReservableCurrency L} `{Blake2} `{!Blake2Laws} `{ScaleCodec} `{MlDsa} `{RsMerkle}.
Implicit Types (s : Chain L) (w : World L).
Abbreviation rcfg := Configs.registry_config.
Abbreviation vcfg := Configs.vector_db_config.
Abbreviation ub := Configs.usize_bits.

#[local] Existing Instance AgentRegistryAdapter.
#[local] Instance typed_reputation : ReputationHandler (World L) := ReputationHandlerAdapter rcfg vcfg.
#[local] Existing Instance EscrowAdapter.

Record world_typed w : Prop := {
  wt_system : in_u32 (block_number (w_system w));
  wt_registry : registry_typed (registry_of w);
  wt_escrows : escrows_typed (Escrow.escrows (w_escrow w)) }.

Record chain_typed s : Prop := {
  ct_world : world_typed (world s);
  ct_vector_db : vector_db_typed (vector_db s);
  ct_template : forall v, Template.something (template s) = Some v -> in_u32 v }.

Lemma genesis_typed dw sys (l : L) :
  in_u32 (block_number sys) -> (forall n, dw = Some n -> in_u32 n) -> chain_typed (genesis dw sys l).
Proof.
  intros Hb Hw. split; [split| |]; done.
Qed.

Lemma put_escrow_typed e w :
  escrows_typed (Escrow.escrows e) -> world_typed w -> world_typed (put_escrow e w).
Proof. intros He [Hq1 Hq2 Hq3]. split; cbn; try done. rewrite RuntimeTheory.put_escrow_registry. by apply currency_typed. Qed.

Lemma put_registry_typed r w : registry_typed r -> world_typed w -> world_typed (put_registry r w).
Proof.
  intros Hr [Hq1 Hq2 Hq3]. split; cbn; try done.
  assert (registry_of (put_registry r w) = r) as -> by (unfold registry_of, put_registry; cbn; by destruct r). done.
Qed.

Lemma controller_typed w d c : world_typed w -> adapter_controller_of w d = Some c -> len32 c.
Proof. intros Hw (p & Hp & ->)%fmap_Some. by destruct (profile_at (registry_of w) d p (wt_registry _ Hw) Hp) as (_ & _ & ? & _). Qed.

Lemma effect_typed cs w w' :
  map_Forall commitment_typed cs -> RuntimeTheory.world_effect rcfg vcfg cs w w' -> world_typed w -> world_typed w'.
Proof.
  intros Hcs He Hw. destruct He as [-> | id p q v e (c & Hc & <- & Hp & Hq) He -> | id e He -> | id d e He -> | id d e He ->]; [done|..].
  - apply put_escrow_typed; [|done]. eapply lock_typed; [apply Hw|..|exact He|apply Hw];
      first [apply (Hcs id c Hc)|by eapply controller_typed].
  - apply put_escrow_typed; [|done]. eapply release_typed; [exact He|apply Hw].
  - assert (world_typed (put_escrow e w)) as Hw1 by (apply put_escrow_typed; [eapply release_typed; [exact He|apply Hw]|done]).
    apply put_registry_typed; [|done]. apply slash_typed; [done|apply Hw1].
  - assert (world_typed (put_escrow e w)) as Hw1 by (apply put_escrow_typed; [eapply refund_typed; [exact He|apply Hw]|done]).
    apply put_registry_typed; [|done]. apply guilty_typed; [done|apply Hw1].
Qed.

Lemma template_call_typed o c t t' :
  Template.call_wf c -> Template.exec o c t = (Ok tt, t') ->
  (forall v, Template.something t = Some v -> in_u32 v) -> forall v, Template.something t' = Some v -> in_u32 v.
Proof.
  intros Hwf Hx Ht. destruct c; cbn in Hx, Hwf.
  - unfold Template.do_something in Hx. frame_inv. cbn. by intros v' [= <-].
  - unfold Template.cause_error in Hx. apply bind_read_inv in Hx as (? & _ & Hx); [|destruct o; apply _].
    apply bind_read_inv in Hx as (? & E & Hx); [|apply _]. injection E as <-. destruct (Template.something t) as [old|]; [|done].
    apply bind_read_inv in Hx as (new & [Hn _]%ok_or_ok_inv & Hx); [|apply _]. injection Hx as <-. intros v [= <-].
    assert (in_u32 old) by auto. unfold checked_add in Hn. destruct (Z.leb_spec (old + 1) u32_max); simplify_eq. in_range.
Qed.

Lemma run_call_typed o c s s' :
  origin_wf o -> call_wf c -> run_call rcfg vcfg ub o c s = (Ok tt, s') -> chain_typed s -> chain_typed s'.
Proof.
  intros Ho Hwf Hr Hs. pose proof (wt_system _ (ct_world _ Hs)) as Hb. destruct c as [c|c|c]; unfold run_call in Hr;
    apply zoom_ok_inv in Hr as (t & Hx & ->).
  - split; [apply Hs|apply Hs|]. cbn. eapply template_call_typed; [exact Hwf|exact Hx|apply Hs].
  - split; [|apply vdb_ext_typed, Hs|apply Hs]. apply put_registry_typed; [|apply Hs].
    eapply registry_call_typed; [exact Hb|exact Ho|exact Hwf|exact Hx|apply Hs].
  - split; [|eapply (vector_call_typed vcfg ub); [by vm_compute|exact Hb|exact Hwf|exact Hx|apply Hs]|apply Hs].
    apply RuntimeTheory.exec_world in Hx. eapply effect_typed; [|exact Hx|apply Hs]. apply (vt_commitments _ (ct_vector_db _ Hs)).
Qed.

Lemma step_typed s s' : step rcfg vcfg ub s s' -> chain_typed s -> chain_typed s'.
Proof.
  intros [o c r Ho Hwf [->|[_ Hr]]%RuntimeTheory.dispatch_cases | sys' _ Hb -> | l' Hl ->] Hs; [done|by eapply run_call_typed|..];
    destruct Hs as [[Hw1 Hw2 Hw3] Hv Ht]; (split; [split|by apply vdb_ext_typed|]); cbn; try done.
  by apply (currency_typed (registry_of (world s)) l').
Qed.

Lemma reach_typed n s :
  reach rcfg vcfg ub n s -> chain_typed s.
Proof. induction 1 as [dw sys l Hb Hw Hl|n s s' Hr IH Hs]; [by apply genesis_typed|by apply (step_typed s s' Hs)]. Qed.
End Chain.
End Typed.
