(* ===== verification/Market.v ===== *)
(** * Market: what the chain promises its traders

    An abstract market: a clock, and under every id at most one deal that is offered,
    running, contested, sold or refunded, and possibly money that nobody can reach any
    more.  It knows no pallets, records, proofs or escrows.  Every step of the chain is
    a step of the market or none at all, and the escrow kept under an id is exactly
    what the state of its deal says. *)

From stdpp Require Import base gmap list strings relations.
From Stdlib Require Import ZArith Lia.
From S2P Require Import Prelude Frame Ledger Escrow AgentRegistry RegistryTheory Merkle VectorDb VectorDbTheory Template Runtime RuntimeTheory Typed.

Local Open Scope arth_scope.

Module Market.

(** ** The specification *)

Record Terms : Type := mkTerms {
  t_provider : Did;
  t_consumer : Did;
  t_root : MerkleRoot;
  t_chunks : Z;
  t_price : Balance;
  t_expires : BlockNumber }.

Inductive Deal : Type :=
  | Offered (t : Terms)
  | Running (t : Terms)
  | Contested (t : Terms) (deadline : BlockNumber)
  | Sold (t : Terms)
  | Refunded (t : Terms).

(** A deal, and money that an expired deal left behind. *)
Record Slot : Type := mkSlot { deal : option Deal; stuck : option Balance }.

Inductive deal_step (now window : BlockNumber) : Slot -> Slot -> Prop :=
  | offer t m : t_provider t <> t_consumer t -> 0 < t_chunks t -> now <= t_expires t ->
      deal_step now window (mkSlot None m) (mkSlot (Some (Offered t)) m)
  | accept t : now < t_expires t ->
      deal_step now window (mkSlot (Some (Offered t)) None) (mkSlot (Some (Running t)) None)
  | settle t : now < t_expires t ->
      deal_step now window (mkSlot (Some (Running t)) None) (mkSlot (Some (Sold t)) None)
  | contest t : now < t_expires t ->
      deal_step now window (mkSlot (Some (Running t)) None)
        (mkSlot (Some (Contested t (sat_add u32_max now window))) None)
  | answer t deadline : now <= deadline ->
      deal_step now window (mkSlot (Some (Contested t deadline)) None) (mkSlot (Some (Sold t)) None)
  | convict t deadline : deadline < now ->
      deal_step now window (mkSlot (Some (Contested t deadline)) None) (mkSlot (Some (Refunded t)) None)
  | lapse t m : t_expires t <= now ->
      deal_step now window (mkSlot (Some (Offered t)) m) (mkSlot None m)
  | abandon t : t_expires t <= now ->
      deal_step now window (mkSlot (Some (Running t)) None) (mkSlot None (Some (t_price t))).

Record MarketState : Type := mkMarket { now : BlockNumber; window : BlockNumber; slots : CommitmentId -> Slot }.

Inductive market_step (m m' : MarketState) : Prop :=
  | market_tick : now m' = now m + 1 -> window m' = window m -> (forall k, slots m' k = slots m k) -> market_step m m'
  | market_deal id : now m' = now m -> window m' = window m ->
      deal_step (now m) (window m) (slots m id) (slots m' id) ->
      (forall k, k <> id -> slots m' k = slots m k) -> market_step m m'
  | market_idle : now m' = now m -> window m' = window m -> (forall k, slots m' k = slots m k) -> market_step m m'.

Inductive market_reach : MarketState -> Prop :=
  | market_start m : (forall k, slots m k = mkSlot None None) -> market_reach m
  | market_next m m' : market_reach m -> market_step m m' -> market_reach m'.

(** What is held for a deal. *)
Definition holding (x : Slot) : option (Escrow.EscrowStatus * Balance) :=
  match deal x with
  | Some (Running t) | Some (Contested t _) => Some (Escrow.Locked, t_price t)
  | Some (Sold t) => Some (Escrow.Released, t_price t)
  | Some (Refunded t) => Some (Escrow.Refunded, t_price t)
  | Some (Offered _) | None => pair Escrow.Locked <$> stuck x
  end.

(** ** The chain as a market *)

Definition terms (c : VectorDb.VectorCommitment) : Terms :=
  mkTerms (VectorDb.provider c) (VectorDb.consumer c) (VectorDb.merkle_root c) (VectorDb.total_chunks c)
    (VectorDb.price c) (VectorDb.expires_at c).

Definition stuck_of (oe : option Escrow.EscrowRecord) : option Balance :=
  match oe with
  | Some r => if bool_decide (Escrow.status r = Escrow.Locked) then Some (Escrow.amount r) else None
  | None => None
  end.

Definition slot_of (oc : option VectorDb.VectorCommitment) (od : option VectorDb.DisputeRecord)
    (oe : option Escrow.EscrowRecord) : Slot :=
  match oc with
  | None => mkSlot None (stuck_of oe)
  | Some c =>
      match VectorDb.status c with
      | VectorDb.Pending => mkSlot (Some (Offered (terms c))) (stuck_of oe)
      | VectorDb.Active => mkSlot (Some (Running (terms c))) None
      | VectorDb.Disputed => mkSlot (Some (Contested (terms c) (from_option VectorDb.counter_deadline 0 od))) None
      | VectorDb.Settled => mkSlot (Some (Sold (terms c))) None
      | VectorDb.DisputeResolved =>
          mkSlot (Some (if bool_decide (od ≫= VectorDb.verdict = Some VectorDb.ProviderGuilty)
                        then Refunded (terms c) else Sold (terms c))) None
      | VectorDb.Expired => mkSlot None None
      end
  end.

(** Where the escrow of an acknowledged commitment must be. *)
Definition escrow_due (c : VectorDb.VectorCommitment) (od : option VectorDb.DisputeRecord) : Escrow.EscrowStatus :=
  match VectorDb.status c with
  | VectorDb.Settled => Escrow.Released
  | VectorDb.DisputeResolved =>
      if bool_decide (od ≫= VectorDb.verdict = Some VectorDb.ProviderGuilty) then Escrow.Refunded else Escrow.Released
  | _ => Escrow.Locked
  end.

Section Chain.
Import Runtime.
Context {L : Type} `{ReservableCurrency L} `{Blake2} `{ScaleCodec} `{MlDsa} `{RsMerkle}.
Context (rcfg : Registry.Config) (vcfg : VectorDb.Config) (ub : Z).
Implicit Types (s : Chain L) (v : VectorDb.State (World L)).

#[local] Existing Instance AgentRegistryAdapter.
#[local] Instance market_reputation : ReputationHandler (World L) := ReputationHandlerAdapter rcfg vcfg.
#[local] Existing Instance EscrowAdapter.

Definition escrow_record v (id : CommitmentId) : option Escrow.EscrowRecord :=
  Escrow.escrows (w_escrow (VectorDb.ext v)) !! id.
Definition slot v (id : CommitmentId) : Slot :=
  slot_of (VectorDb.vector_commitments v !! id) (VectorDb.dispute_records v !! id) (escrow_record v id).
Definition held v (id : CommitmentId) : option (Escrow.EscrowStatus * Balance) :=
  (fun r => (Escrow.status r, Escrow.amount r)) <$> escrow_record v id.
Definition market s : MarketState :=
  mkMarket (block_number (w_system (world s))) (VectorDb.effective_dispute_window vcfg (vector_db s)) (slot (vector_db s)).

(** The escrow of an id is what its deal says. *)
Definition backed v (id : CommitmentId) : Prop := held v id = holding (slot v id).

(** A call of the commitment pallet moves one deal and leaves the others alone. *)
Definition trades (now window : BlockNumber) v v' : Prop :=
  exists id, (backed v id -> deal_step now window (slot v id) (slot v' id) /\ backed v' id) /\
    forall k, k <> id -> slot v' k = slot v k /\ held v' k = held v k.

Lemma release_record id w e :
  Escrow.release id (escrow_of w) = (Ok tt, e) ->
  exists r, Escrow.escrows (w_escrow w) !! id = Some r /\ Escrow.status r = Escrow.Locked /\
    Escrow.escrows e = <[id := Escrow.set_status Escrow.Released r]> (Escrow.escrows (w_escrow w)).
Proof. intros (r & rem & l' & Hr & Hst & _ & ->)%Escrow.release_ok. by exists r. Qed.

Lemma refund_record id (w : World L) e :
  Escrow.refund id (escrow_of w) = (Ok tt, e) ->
  exists r, Escrow.escrows (w_escrow w) !! id = Some r /\ Escrow.status r = Escrow.Locked /\
    Escrow.escrows e = <[id := Escrow.set_status Escrow.Refunded r]> (Escrow.escrows (w_escrow w)).
Proof. intros (r & rem & l' & Hr & Hst & _ & ->)%Escrow.refund_ok. by exists r. Qed.

(** The ids a write does not touch. *)
Ltac others := intros k Hk; unfold slot, held, escrow_record; cbn;
  try match goal with E : Escrow.escrows _ = <[_ := _]> _ |- _ => rewrite E end; rewrite ?lookup_insert_ne, ?lookup_delete_ne by done; done.
(** The slots before and after, at the id that is written. *)
Ltac at_id := unfold backed, slot, held, escrow_record; cbn;
  repeat match goal with
  | E : _ = Some _ |- _ => rewrite E
  | E : _ !! _ = None |- _ => rewrite E
  end; rewrite ?lookup_insert_eq, ?lookup_delete_eq; cbn;
  repeat match goal with E : VectorDb.status _ = _ |- _ => rewrite E end; cbn.

Lemma register_trades sys o p q root n meta e x v v' :
  block_number sys <= u32_max ->
  VectorDb.register_commitment vcfg sys o p q root n meta e x v = (Ok tt, v') ->
  trades (block_number sys) (VectorDb.effective_dispute_window vcfg v) v v'.
Proof.
  intros Hbn (who & _ & Hpq & Hn & _ & _ & _ & He & Hf & ->)%VectorDbTheory.register_commitment_ok. cbv zeta in Hf.
  exists (VectorDb.derive_commitment_id p q root (block_number sys)). split; [|others]. at_id. intros Hb.
  split; [|done]. apply offer; cbn; [done..|]. unfold sat_add. lia.
Qed.

Lemma acknowledge_trades w o id q v v' :
  w_system (VectorDb.ext v) = w ->
  VectorDb.acknowledge_commitment w o id q v = (Ok tt, v') ->
  trades (block_number w) (VectorDb.effective_dispute_window vcfg v) v v'.
Proof.
  intros Hw (who & c & pc & x' & _ & Hc & Hst & Hb & _ & _ & _ & (e & (Hn & l' & _ & ->)%Escrow.lock_ok & ->)%RuntimeTheory.adapter_lock_ok & ->)%VectorDbTheory.acknowledge_commitment_ok.
  cbn in Hn. exists id. split; [|others]. at_id. intros _. split; [by apply accept|done].
Qed.

Lemma close_trades sys o id q h n v v' :
  VectorDb.close_commitment sys o id q h n v = (Ok tt, v') ->
  trades (block_number sys) (VectorDb.effective_dispute_window vcfg v) v v'.
Proof.
  intros (who & c & x' & _ & Hc & Hst & Hb & _ & _ & _ & (e & (r & Hr & Hl & He)%release_record & ->)%RuntimeTheory.adapter_release_ok & ->)%VectorDbTheory.close_commitment_ok.
  exists id. split; [|others]. at_id. rewrite He, lookup_insert_eq. cbn.
  rewrite Hl. intros [= ->]. split; [by apply settle|done].
Qed.

Lemma raise_trades sys o id q i h n v v' :
  VectorDb.raise_dispute vcfg sys o id q i h n v = (Ok tt, v') ->
  trades (block_number sys) (VectorDb.effective_dispute_window vcfg v) v v'.
Proof.
  intros (who & c & _ & Hc & Hst & _ & Hb & _ & _ & _ & ->)%VectorDbTheory.raise_dispute_ok.
  exists id. split; [|others]. at_id. intros Hh. split; [by apply contest|done].
Qed.

Lemma counter_trades sys o id p data proof v v' :
  VectorDb.counter_dispute ub sys o id p data proof v = (Ok tt, v') ->
  trades (block_number sys) (VectorDb.effective_dispute_window vcfg v) v v'.
Proof.
  intros (who & c & d & x' & _ & Hc & Hst & _ & _ & Hd & Hdl & _ & _ & (e & (r & Hr & Hl & He)%release_record & ->)%RuntimeTheory.adapter_release_ok & ->)%VectorDbTheory.counter_dispute_ok.
  exists id. split; [|others]. at_id. rewrite He, lookup_insert_eq. cbn.
  rewrite Hl. intros [= ->]. split; [by apply answer|done].
Qed.

Lemma finalize_trades sys o id v v' :
  VectorDb.finalize_dispute sys o id v = (Ok tt, v') ->
  trades (block_number sys) (VectorDb.effective_dispute_window vcfg v) v v'.
Proof.
  intros (who & c & d & x' & _ & Hc & Hst & Hd & Hdl & (e & (r & Hr & Hl & He)%refund_record & ->)%RuntimeTheory.adapter_refund_ok & ->)%VectorDbTheory.finalize_dispute_ok.
  exists id. split; [|others]. at_id. rewrite He, lookup_insert_eq. cbn.
  rewrite Hl. intros [= ->]. split; [by apply convict|done].
Qed.

Lemma expire_trades sys o id v v' :
  VectorDb.expire_commitment sys o id v = (Ok tt, v') ->
  trades (block_number sys) (VectorDb.effective_dispute_window vcfg v) v v'.
Proof.
  intros (who & c & _ & Hc & Hst & Hb & ->)%VectorDbTheory.expire_commitment_ok.
  exists id. split; [|others]. destruct Hst as [Hst|Hst]; at_id.
  - intros Hh. split; [by apply lapse|done].
  - intros Hh. apply fmap_Some in Hh as (r & -> & [= Hl Ha]). cbn. rewrite <- Hl, <- Ha. cbn. split; [|done].
    apply (abandon _ _ (terms c) Hb).
Qed.

Lemma exec_trades o c v v' :
  in_u32 (block_number (w_system (VectorDb.ext v))) ->
  VectorDb.exec vcfg ub (w_system (VectorDb.ext v)) o c v = (Ok tt, v') ->
  trades (block_number (w_system (VectorDb.ext v))) (VectorDb.effective_dispute_window vcfg v) v v'.
Proof.
  intros [_ Hb] Hx. destruct c; cbn [VectorDb.exec] in Hx.
  - by eapply register_trades.
  - by eapply acknowledge_trades.
  - by eapply close_trades.
  - by eapply raise_trades.
  - by eapply counter_trades.
  - by eapply finalize_trades.
  - by eapply expire_trades.
Qed.

(** ** The simulation *)

Abbreviation chain_step := (step rcfg vcfg ub).
Abbreviation chain_reach := (reach rcfg vcfg ub).

Lemma step_market s s' :
  in_u32 (block_number (w_system (world s))) -> (forall id, backed (vector_db s) id) -> chain_step s s' ->
  market_step (market s) (market s') /\ forall id, backed (vector_db s') id.
Proof.
  intros Hb Hbk Hs. pose proof (RuntimeTheory.step_override _ _ _ _ _ Hs) as Hw.
  assert (window (market s') = window (market s)) as Hwin by (cbn; unfold VectorDb.effective_dispute_window; by rewrite Hw).
  destruct Hs as [o c r _ Hwf Hd|sys' Hn _ ->|l' _ ->]; [|split; [by apply market_tick|done]|split; [by apply market_idle|done]].
  apply RuntimeTheory.dispatch_cases in Hd as [->|[_ Hr]]; [split; [by apply market_idle|done]|].
  apply (RuntimeTheory.run_call_body _ _ _ _ _ _ _ Hwf) in Hr as [Hv|o' c' r' _ _ ->|o' c' v' _ Hx ->].
  - rewrite Hv. split; [|done]. apply market_idle; [|done|]; cbn; unfold world; by rewrite Hv.
  - split; [by apply market_idle|done].
  - pose proof (RuntimeTheory.exec_world _ _ _ _ _ _ _ Hx) as Hsys%RuntimeTheory.world_effect_system.
    destruct (exec_trades o' c' (vector_db s) v' Hb Hx) as (id & Hid & Ho).
    destruct (Hid (Hbk id)) as [Hstep Hbk']. split.
    + apply (market_deal _ _ id); [cbn; unfold world; cbn; by rewrite Hsys|exact Hwin|exact Hstep|].
      intros k Hk. apply (Ho k Hk).
    + intros k. destruct (decide (k = id)) as [->|Hk]; [exact Hbk'|].
      destruct (Ho k Hk) as [E1 E2]. unfold backed. cbn. rewrite E1, E2. apply Hbk.
Qed.

Lemma reach_market n s :
  chain_reach n s -> market_reach (market s) /\ forall id, backed (vector_db s) id.
Proof.
  induction 1 as [dw sys l Hb Hdw Hl|n s s' Hr [IHm IHb] Hs].
  - split; [by apply market_start|done].
  - destruct (step_market s s' (RuntimeTheory.reach_system _ _ _ _ _ Hr) IHb Hs) as [Hm Hbk].
    split; [by eapply market_next|done].
Qed.

(** The escrow record of a commitment that has been acknowledged. *)
Lemma reach_escrow_due n s id c :
  chain_reach n s -> VectorDb.vector_commitments (vector_db s) !! id = Some c -> VectorDb.status c <> VectorDb.Pending ->
  exists r, escrow_record (vector_db s) id = Some r /\ Escrow.amount r = VectorDb.price c /\
    Escrow.status r = escrow_due c (VectorDb.dispute_records (vector_db s) !! id).
Proof.
  intros Hr Hc Hst. pose proof (proj2 (reach_market n s Hr) id) as Hb.
  apply (RuntimeTheory.reach_coherent _ _ _ _ _ id) in Hr. unfold VectorDbTheory.coherent in Hr. cbn in Hr.
  revert Hb. unfold backed, held, slot, escrow_due. rewrite Hc in *. cbn [slot_of].
  destruct (VectorDb.status c); [done|..|by destruct Hr]; try case_bool_decide; cbn;
    intros (r & -> & [= Hs Ha])%fmap_Some; by exists r.
Qed.
End Chain.
End Market.
