(* ===== verification/Offchain.v ===== *)
(** * Offchain: what the off-chain clients share

    The parts of the standard library and of third-party crates both clients use: a
    file system of directories, [hex], the dynamic values and events of [subxt], and
    the submission of an extrinsic.  [chain_submit] connects a client to the chain of
    [Runtime]: a submission that is finalized is one dispatched call. *)

From stdpp Require Import base gmap list strings pretty relations.
From Stdlib Require Import ZArith Lia.
From S2P Require Import Prelude Frame Escrow AgentRegistry Merkle VectorDb Template Runtime.

Local Open Scope arth_scope.

(** ** [hex] *)

Class Hex := { hex_encode : bytes -> string; hex_decode : string -> option bytes }.
Class HexLaws `{Hex} : Prop := hex_decode_encode : forall b, hex_decode (hex_encode b) = Some b.

#[global] Instance hex_encode_inj `{HexLaws} : Inj (=) (=) hex_encode.
Proof. intros a b E%(f_equal hex_decode). rewrite !hex_decode_encode in E. by simplify_eq. Qed.

(** ** [std::fs]

    Directories by path, each with its files by name, and the permission bits that were
    set on them; an entry nobody has set bits on has those of its creation.  Only the
    failures that depend on what is on disk are modelled. *)

Inductive IoError : Type := NotFound | DirectoryNotEmpty.

Record Fs : Type := mkFs {
  dirs : gmap string (gmap string bytes);
  modes : gmap string (gmap (option string) Z) }.

#[global] Instance fs_empty : Empty Fs := mkFs ∅ ∅.
#[global] Instance fs_lookup : Lookup string (gmap string bytes) Fs := fun d fs => dirs fs !! d.
#[global] Instance fs_insert : Insert string (gmap string bytes) Fs := fun d m fs => mkFs (<[d := m]> (dirs fs)) (modes fs).

Lemma fs_lookup_insert (fs : Fs) d m : <[d := m]> fs !! d = Some m.
Proof. apply lookup_insert_eq. Qed.

Lemma fs_lookup_insert_ne (fs : Fs) d d' m : d <> d' -> <[d := m]> fs !! d' = fs !! d'.
Proof. apply lookup_insert_ne. Qed.

Lemma fs_insert_insert (fs : Fs) d m m' : <[d := m]> (<[d := m']> fs) = <[d := m]> fs.
Proof. unfold insert, fs_insert. cbn. f_equal. apply insert_insert_eq. Qed.

Lemma fs_insert_id (fs : Fs) d m : fs !! d = Some m -> <[d := m]> fs = fs.
Proof. intros Hm. destruct fs as [ds ms]. unfold insert, fs_insert. cbn. f_equal. by apply insert_id. Qed.

Module Fs.
Definition exists_ (dir file : string) (fs : Fs) : bool :=
  bool_decide (is_Some (fs !! dir ≫= lookup file)).

Definition create_dir_all (dir : string) : M Fs IoError unit :=
  modify (fun fs => <[dir := default ∅ (fs !! dir)]> fs).

Definition write (dir file : string) (b : bytes) : M Fs IoError unit :=
  files <- gets (lookup dir) ;;
  files <- ok_or files NotFound ;;
  modify (insert dir (<[file := b]> files)).

Definition read (dir file : string) : M Fs IoError bytes :=
  found <- gets (fun fs : Fs => fs !! dir ≫= lookup file) ;;
  ok_or found NotFound.

(** [fs::rename] of a directory: the target must not exist, or be empty; the bits go
    with the entries. *)
Definition renamed (from to : string) (source : gmap string bytes) (fs : Fs) : Fs :=
  mkFs (<[to := source]> (delete from (dirs fs))) (partial_alter (fun _ => modes fs !! from) to (delete from (modes fs))).
Definition rename (from to : string) : M Fs IoError unit :=
  source <- gets (lookup from) ;;
  source <- ok_or source NotFound ;;
  target <- gets (fun fs : Fs => default ∅ (fs !! to)) ;;
  ensure (bool_decide (from = to \/ target = ∅)) DirectoryNotEmpty ;;;
  modify (renamed from to source).

(** [fs::set_permissions] on a directory ([None]) or on a file in it. *)
Definition chmod (dir : string) (file : option string) (mode : Z) (fs : Fs) : Fs :=
  mkFs (dirs fs) (<[dir := <[file := mode]> (default ∅ (modes fs !! dir))]> (modes fs)).
Definition set_permissions (dir : string) (file : option string) (mode : Z) : M Fs IoError unit :=
  there <- gets (fun fs : Fs => match file with
                               | None => bool_decide (is_Some (fs !! dir))
                               | Some f => exists_ dir f fs
                               end) ;;
  ensure there NotFound ;;;
  modify (chmod dir file mode).

(** The bits of an entry, if they were set. *)
Definition mode (dir : string) (file : option string) (fs : Fs) : option Z := modes fs !! dir ≫= lookup file.

Lemma mode_chmod dir file m (fs : Fs) : mode dir file (chmod dir file m fs) = Some m.
Proof. unfold mode. cbn. rewrite lookup_insert_eq. cbn. apply lookup_insert_eq. Qed.

Lemma mode_chmod_ne dir file dir' file' m (fs : Fs) :
  dir <> dir' \/ file <> file' -> mode dir' file' (chmod dir file m fs) = mode dir' file' fs.
Proof.
  intros Hne. unfold mode. cbn. destruct (decide (dir = dir')) as [->|Hd]; [|by rewrite lookup_insert_ne].
  destruct Hne as [|Hf]; [done|]. rewrite lookup_insert_eq. cbn. rewrite lookup_insert_ne by done.
  by destruct (modes fs !! dir').
Qed.

Lemma renamed_to from to source (fs : Fs) : renamed from to source fs !! to = Some source.
Proof. apply lookup_insert_eq. Qed.

Lemma renamed_from from to source (fs : Fs) : from <> to -> renamed from to source fs !! from = None.
Proof. intros Hne. unfold lookup, fs_lookup. cbn. by rewrite lookup_insert_ne, lookup_delete_eq. Qed.
End Fs.

(** ** [subxt] *)

(** [scale_value]: the shapes the clients match on. *)
Inductive Value : Type :=
  | VComposite (c : Composite)
  | VPrimitive (as_u128 : option Z)
  | VOther
with Composite : Type :=
  | Named (fields : list (string * Value))
  | Unnamed (fields : list Value).

Record EventDetails : Type := mkEventDetails {
  pallet_name : string;
  variant_name : string;
  field_values : option Composite }.

(** What [sign_and_submit_then_watch_default(..).wait_for_finalized_success()] may
    report. *)
Inductive SubxtError : Type := Transport | DispatchFailed (e : DispatchError).

(** [events.iter().find(|e| e.pallet_name() == p && e.variant_name() == v)]. *)
Definition find_event (p v : string) (l : list EventDetails) : option EventDetails :=
  head (filter (fun e => pallet_name e = p /\ variant_name e = v) l).

(** The disk and the network a client acts on. *)
Record Machine (Net : Type) : Type := mkMachine { files : Fs; net : Net }.
Arguments mkMachine {Net}.
Arguments files {Net} m.
Arguments net {Net} m.

(** [From] conversions of errors, as [?] inserts them. *)
Definition lift_err {S E E' A} (f : E -> E') (m : M S E A) : M S E' A := fun s =>
  match m s with
  | (Ok a, s') => (Ok a, s')
  | (Err e, s') => (Err (f e), s')
  end.

Lemma lift_err_ok_inv {S E E' A} (f : E -> E') (m : M S E A) s a s' :
  lift_err f m s = (Ok a, s') -> m s = (Ok a, s').
Proof. unfold lift_err. destruct (m s) as [[?|?] ?]; intros; by simplify_eq. Qed.

Lemma lift_readonly {S E E' A} (f : E -> E') (m : M S E A) : ReadOnly m -> ReadOnly (lift_err f m).
Proof. intros Hm s. unfold lift_err. specialize (Hm s). by destruct (m s) as [[?|?] ?]. Qed.

Section Machine.
Context {Net E : Type}.
Definition on_files {A} (f : IoError -> E) (m : M Fs IoError A) : M (Machine Net) E A :=
  zoom files (fun x w => mkMachine x (net w)) (lift_err f m).
Definition on_net {E' A} (f : E' -> E) (m : M Net E' A) : M (Machine Net) E A :=
  zoom net (fun n w => mkMachine (files w) n) (lift_err f m).
End Machine.

(** An array of bytes as a dynamic value. *)
Definition byte_value (b : byte) : Value := VPrimitive (Some (Z.of_N (Byte.to_N b))).
Definition bytes_value (b : bytes) : Value := VComposite (Unnamed (byte_value <$> b)).
Definition int_value (z : Z) : Value := VPrimitive (Some z).

(** ** The chain as seen through [subxt] *)

Section Submit.
Import Runtime.
Context {L : Type} `{ReservableCurrency L} `{Blake2} `{ScaleCodec} `{MlDsa} `{RsMerkle}.
Context (rcfg : Registry.Config) (vcfg : VectorDb.Config) (ub : Z).

Definition vector_db_event (e : VectorDb.Event) : EventDetails :=
  match e with
  | VectorDb.CommitmentRegistered id p q root n ex meta =>
      mkEventDetails "VectorDb" "CommitmentRegistered"
        (Some (Named [("commitment_id", bytes_value id); ("provider", bytes_value p); ("consumer", bytes_value q);
                      ("merkle_root", bytes_value root); ("total_chunks", int_value n);
                      ("expires_at", int_value ex); ("metadata", bytes_value meta)]))
  | VectorDb.CommitmentAcknowledged id b =>
      mkEventDetails "VectorDb" "CommitmentAcknowledged"
        (Some (Named [("commitment_id", bytes_value id); ("acknowledged_at", int_value b)]))
  | VectorDb.CommitmentSettled id h n =>
      mkEventDetails "VectorDb" "CommitmentSettled"
        (Some (Named [("commitment_id", bytes_value id); ("final_stream_hash", bytes_value h);
                      ("chunk_count", int_value n)]))
  | VectorDb.DisputeRaised id root i h dl =>
      mkEventDetails "VectorDb" "DisputeRaised"
        (Some (Named [("commitment_id", bytes_value id); ("merkle_root", bytes_value root);
                      ("disputed_chunk_index", int_value i); ("received_chunk_hash", bytes_value h);
                      ("counter_deadline", int_value dl)]))
  | VectorDb.DisputeCountered id v =>
      mkEventDetails "VectorDb" "DisputeCountered" (Some (Named [("commitment_id", bytes_value id); ("verdict", VOther)]))
  | VectorDb.DisputeFinalized id v p q =>
      mkEventDetails "VectorDb" "DisputeFinalized"
        (Some (Named [("commitment_id", bytes_value id); ("verdict", VOther);
                      ("provider", bytes_value p); ("consumer", bytes_value q)]))
  | VectorDb.CommitmentExpired id =>
      mkEventDetails "VectorDb" "CommitmentExpired" (Some (Named [("commitment_id", bytes_value id)]))
  end.

Definition registry_event (e : Registry.Event) : EventDetails :=
  let ev v := mkEventDetails "AgentRegistry" v None in
  match e with
  | Registry.AgentRegistered _ _ => ev "AgentRegistered"
  | Registry.AgentProfileUpdated _ => ev "AgentProfileUpdated"
  | Registry.AgentStatusChanged _ _ => ev "AgentStatusChanged"
  | Registry.StarGiven _ _ => ev "StarGiven"
  | Registry.StarRemoved _ _ => ev "StarRemoved"
  | Registry.AgentDeregistered _ _ => ev "AgentDeregistered"
  | Registry.ReputationSlashed _ _ _ => ev "ReputationSlashed"
  | Registry.DepositSlashed _ _ _ _ => ev "DepositSlashed"
  end.

(** The events of the two pallets a dispatched call added. *)
Definition new_events (s s' : Chain L) : list EventDetails :=
  (vector_db_event <$> drop (length (VectorDb.events (vector_db s))) (VectorDb.events (vector_db s'))) ++
  (registry_event <$> drop (length (Registry.events (chain_registry s))) (Registry.events (chain_registry s'))).

Definition chain_submit (who : AccountId) (c : RuntimeCall) : M (Chain L) SubxtError (list EventDetails) := fun s =>
  match dispatch rcfg vcfg ub (Signed who) c s with
  | (Ok _, s') => (Ok (new_events s s'), s')
  | (Err e, s') => (Err (DispatchFailed e), s')
  end.
End Submit.
