(* ===== verification/VectorClient.v ===== *)
(** * VectorClient: [offchain-vector-db/src]

    The provider's and the consumer's side of a commitment: slicing a payload into
    chunks, the Merkle tree over them, the chunk store on disk, and the clients of the
    seven extrinsics of the commitment pallet. *)

From stdpp Require Import base gmap list strings pretty relations.
From Stdlib Require Import ZArith Lia.
From S2P Require Import Prelude Frame Merkle VectorDb Runtime Offchain.

Local Open Scope arth_scope.

Definition MAX_CHUNK_LEN : nat := 1024.
Definition MAX_METADATA_LEN : nat := 256.
Definition MAX_PROOF_DEPTH : nat := 32.

(** ** Chunking *)

Module Chunker.

(** [payload.chunks(n)]: pieces of [n] bytes, the last one possibly shorter. *)
Fixpoint chunks_fuel (fuel n : nat) (b : bytes) : list bytes :=
  match fuel, b with
  | _, [] => []
  | O, _ => []
  | S fuel, _ => take n b :: chunks_fuel fuel n (drop n b)
  end.
Definition chunks (n : nat) (b : bytes) : list bytes := chunks_fuel (length b) n b.

(** [payload.split(|&b| b == b'\n')]: always at least one piece. *)
Fixpoint split_lines (b : bytes) : list bytes :=
  match b with
  | [] => [[]]
  | x :: b =>
      if bool_decide (x = Byte.x0a) then [] :: split_lines b
      else match split_lines b with
           | l :: ls => (x :: l) :: ls
           | [] => [[x]]
           end
  end.

(** One trailing carriage return is dropped. *)
Definition strip_cr (l : bytes) : bytes :=
  match last l with
  | Some x => if bool_decide (x = Byte.x0d) then take (length l - 1) l else l
  | None => l
  end.

(** The loop of the [rows] mode: [None] is the early return on an oversized row. *)
Fixpoint rows_loop (lines out : list bytes) : option (list bytes) :=
  match lines with
  | [] => Some out
  | l :: lines =>
      let l := strip_cr l in
      if bool_decide (l = []) then rows_loop lines out
      else if (MAX_CHUNK_LEN <? length l)%nat then None
      else rows_loop lines (out ++ [l])
  end.

(** The [rows] branch: [None] is [Err(EmptyPayload)]. *)
Definition rows (payload : bytes) : option (list bytes) :=
  match rows_loop (split_lines payload) [] with
  | Some [] | None => None
  | Some out => Some out
  end.

Definition split_payload (mode : string) (payload : bytes) : option (list bytes) :=
  if bool_decide (mode = "rows") then rows payload else Some (chunks MAX_CHUNK_LEN payload).

(** [slice_file_into_chunks]: a read of at most [chunk_size] bytes may return fewer;
    [read i rest] is what the [i]-th call of [file.read] does when [rest] bytes are
    left. *)
Section File.
Context (read : nat -> nat -> nat -> result IoError nat).

Fixpoint slice_loop (fuel i chunk_size : nat) (rest : bytes) (acc : list bytes)
    : option (result IoError (list bytes)) :=
  match fuel with
  | O => None
  | S fuel =>
      match read i (length rest) chunk_size with
      | Err e => Some (Err e)
      | Ok O => Some (Ok acc)
      | Ok k => slice_loop fuel (S i) chunk_size (drop k rest) (acc ++ [take k rest])
      end
  end.
(** [file]: what [File::open] answers, the contents of the opened file. *)
Definition slice_file_into_chunks (chunk_size : nat) (file : result IoError bytes) : option (result IoError (list bytes)) :=
  match file with
  | Err e => Some (Err e)
  | Ok contents => slice_loop (S (length contents)) 0 chunk_size contents []
  end.
End File.
End Chunker.

(** ** Trees *)

Section Trees.
Context `{Blake2} `{RsMerkle}.

Definition leaves_of (chunks : list bytes) : list bytes := hash OffChain.Blake2bHasher <$> chunks.

(** The root and the tree, which is its leaves; [None] is the failed [expect]. *)
Definition build_merkle_tree (chunks : list bytes) : option (bytes * list bytes) :=
  let leaves := leaves_of chunks in
  (fun root => (root, leaves)) <$> merkle_root OffChain.Blake2bHasher leaves.

Definition generate_inclusion_proof (tree : list bytes) (leaf_index : nat) : list bytes :=
  merkle_proof OffChain.Blake2bHasher tree [leaf_index].
End Trees.

(** ** The chunk store *)

Module FsChunkStore.
Section Store.
Context `{Hex} (root_dir : string).

Definition commitment_dir (id : CommitmentId) : string := root_dir +:+ "/" +:+ hex_encode id.
Definition chunk_file (i : N) : string := pretty i +:+ ".bin".

Fixpoint persist_loop (dir : string) (i : N) (chunks : list bytes) : M Fs IoError unit :=
  match chunks with
  | [] => ret tt
  | chunk :: chunks => Fs.write dir (chunk_file i) chunk ;;; persist_loop dir (i + 1) chunks
  end.

Definition persist (id : CommitmentId) (chunks : list bytes) : M Fs IoError unit :=
  let dir := commitment_dir id in
  Fs.create_dir_all dir ;;;
  persist_loop dir 0 chunks.

Definition load_chunk (id : CommitmentId) (index : N) : M Fs IoError bytes :=
  Fs.read (commitment_dir id) (chunk_file index).

Definition rekey (old_id new_id : CommitmentId) : M Fs IoError unit :=
  Fs.rename (commitment_dir old_id) (commitment_dir new_id).
End Store.
End FsChunkStore.

(** ** The clients *)

Module VectorClient.
Import Chunker FsChunkStore.

Definition PALLET_NAME : string := "VectorDb".

Inductive ClientError : Type :=
  | MetadataTooLarge (len max : nat)
  | EmptyPayload
  | ChunkTooLarge (len max : nat)
  | ProofTooDeep (len max : nat)
  | ChunkIndexOutOfBounds (index total : Z)
  | Subxt (e : SubxtError)
  | Storage (e : IoError)
  | EventMissing
  | Panicked.

Record RegisterCommitmentResult : Type := mkRegistered {
  r_commitment_id : CommitmentId;
  r_merkle_root : MerkleRoot;
  r_total_chunks : Z }.

Fixpoint decode_bytes (vs : list Value) : option bytes :=
  match vs with
  | [] => Some []
  | VPrimitive (Some z) :: vs =>
      b ← Byte.of_N (Z.to_N (z mod 256)); bs ← decode_bytes vs; Some (b :: bs)
  | _ => None
  end.

Definition decode_fixed_bytes_field (composite : Composite) (index : nat) : option bytes :=
  value ← match composite with
          | Unnamed vals => vals !! index
          | Named vals => snd <$> vals !! index
          end;
  match value with
  | VComposite (Unnamed vs) => if (length vs =? 32)%nat then decode_bytes vs else None
  | _ => None
  end.

Section Clients.
Context {Net : Type} (submit : AccountId -> Runtime.RuntimeCall -> M Net SubxtError (list EventDetails)).
Context `{Blake2} `{RsMerkle} `{Hex} (root_dir : string).

Abbreviation on_files m := (Offchain.on_files Storage m).
Abbreviation on_net m := (Offchain.on_net Subxt m).

(** Submission, finalization, and the search for the event that proves it. *)
Definition submit_and_find (who : AccountId) (c : Runtime.RuntimeCall) (variant : string)
    : M (Machine Net) ClientError EventDetails :=
  events <- on_net (submit who c) ;;
  ok_or (find_event PALLET_NAME variant events) EventMissing.

Definition register_commitment (who : AccountId) (mode : option string) (provider_did consumer_did : Did)
    (payload metadata : bytes) (expires_in_blocks : Z) (price : Z)
    : M (Machine Net) ClientError RegisterCommitmentResult :=
  ensure (length metadata <=? MAX_METADATA_LEN)%nat (MetadataTooLarge (length metadata) MAX_METADATA_LEN) ;;;
  ensure (negb (bool_decide (payload = []))) EmptyPayload ;;;
  let mode := default "bytes" mode in
  chunks <- ok_or (split_payload mode payload) EmptyPayload ;;
  built <- ok_or (build_merkle_tree chunks) Panicked ;;
  let root := built.1 in
  let total_chunks := Z.of_nat (length chunks) in
  let staging_id := hash OffChain.Blake2bHasher payload in
  on_files (persist root_dir staging_id chunks) ;;;
  event_details <- submit_and_find who
    (Runtime.CallVectorDb
       (VectorDb.RegisterCommitment provider_did consumer_did root total_chunks metadata expires_in_blocks price))
    "CommitmentRegistered" ;;
  fields <- ok_or (field_values event_details) EventMissing ;;
  commitment_id <- ok_or (decode_fixed_bytes_field fields 0) EventMissing ;;
  on_files (rekey root_dir staging_id commitment_id) ;;;
  ret (mkRegistered commitment_id root total_chunks).

Definition acknowledge_commitment (who : AccountId) (id : CommitmentId) (consumer_did : Did)
    : M (Machine Net) ClientError unit :=
  submit_and_find who (Runtime.CallVectorDb (VectorDb.AcknowledgeCommitment id consumer_did))
    "CommitmentAcknowledged" ;;; ret tt.

Definition close_commitment (who : AccountId) (id : CommitmentId) (consumer_did : Did)
    (final_stream_hash : MerkleRoot) (chunk_count : Z) : M (Machine Net) ClientError unit :=
  submit_and_find who (Runtime.CallVectorDb (VectorDb.CloseCommitment id consumer_did final_stream_hash chunk_count))
    "CommitmentSettled" ;;; ret tt.

Definition raise_dispute (who : AccountId) (id : CommitmentId) (consumer_did : Did) (disputed_chunk_index : Z)
    (received_chunk_hash : bytes) (chunk_count : Z) : M (Machine Net) ClientError unit :=
  submit_and_find who
    (Runtime.CallVectorDb (VectorDb.RaiseDispute id consumer_did disputed_chunk_index received_chunk_hash chunk_count))
    "DisputeRaised" ;;; ret tt.

Definition finalize_dispute (who : AccountId) (id : CommitmentId) : M (Machine Net) ClientError unit :=
  submit_and_find who (Runtime.CallVectorDb (VectorDb.FinalizeDispute id)) "DisputeFinalized" ;;; ret tt.

Definition expire_commitment (who : AccountId) (id : CommitmentId) : M (Machine Net) ClientError unit :=
  submit_and_find who (Runtime.CallVectorDb (VectorDb.ExpireCommitment id)) "CommitmentExpired" ;;; ret tt.

(** [(from..from + n).map(|i| store.load_chunk(id, i)).collect()]. *)
Fixpoint load_chunks_from (id : CommitmentId) (from : N) (n : nat) : M Fs IoError (list bytes) :=
  match n with
  | O => ret []
  | S n =>
      chunk <- load_chunk root_dir id from ;;
      rest <- load_chunks_from id (from + 1) n ;;
      ret (chunk :: rest)
  end.
Definition load_all_chunks (id : CommitmentId) (total_chunks : Z) : M Fs IoError (list bytes) :=
  load_chunks_from id 0 (Z.to_nat total_chunks).

Definition counter_dispute (who : AccountId) (id : CommitmentId) (provider_did : Did)
    (disputed_chunk_index total_chunks : Z) : M (Machine Net) ClientError unit :=
  ensure (disputed_chunk_index <? total_chunks) (ChunkIndexOutOfBounds disputed_chunk_index total_chunks) ;;;
  chunks <- on_files (load_all_chunks id total_chunks) ;;
  target_chunk <- ok_or (chunks !! Z.to_nat disputed_chunk_index) Panicked ;;
  ensure (length target_chunk <=? MAX_CHUNK_LEN)%nat (ChunkTooLarge (length target_chunk) MAX_CHUNK_LEN) ;;;
  built <- ok_or (build_merkle_tree chunks) Panicked ;;
  let proof_hashes := generate_inclusion_proof built.2 (Z.to_nat disputed_chunk_index) in
  ensure (length proof_hashes <=? MAX_PROOF_DEPTH)%nat (ProofTooDeep (length proof_hashes) MAX_PROOF_DEPTH) ;;;
  submit_and_find who (Runtime.CallVectorDb (VectorDb.CounterDispute id provider_did target_chunk proof_hashes))
    "DisputeCountered" ;;;
  ret tt.
End Clients.
End VectorClient.
