(* ===== verification/VectorClientTheory.v ===== *)
(** * VectorClientTheory: chunking, storage and the provider's answer

    Lemmas about [VectorClient]: every way of chunking keeps the payload, the chunk
    store returns what was put into it, and the counter-dispute client submits the
    chunk that was disputed with a proof for it. *)

From stdpp Require Import base gmap list strings pretty relations.
From Stdlib Require Import ZArith Lia.
From S2P Require Import Prelude Frame Merkle VectorDb Runtime Offchain VectorClient.

Local Open Scope arth_scope.

Module VectorClientTheory.
Import Chunker FsChunkStore VectorClient.

(** ** Chunks *)

Definition sized (n : nat) (c : bytes) : Prop := (0 < length c <= n)%nat.

Lemma chunks_fuel_spec fuel n b :
  (0 < n)%nat -> (length b <= fuel)%nat ->
  concat (chunks_fuel fuel n b) = b /\ Forall (sized n) (chunks_fuel fuel n b) /\
  length (chunks_fuel fuel n b) = ((length b + (n - 1)) / n)%nat.
Proof.
  intros Hn. revert b. induction fuel as [|fuel IH]; intros b Hb.
  - destruct b; cbn in *; [|lia]. split_and!; try done. by rewrite Nat.div_small by lia.
  - destruct b as [|x b]; [cbn; split_and!; try done; by rewrite Nat.div_small by lia|].
    cbn [chunks_fuel]. set (l := x :: b) in *.
    assert (0 < length l)%nat as Hpos by (cbn; lia).
    destruct (IH (drop n l)) as (E1 & E2 & E3); [rewrite length_drop; lia|]. split_and!.
    + cbn. by rewrite E1, take_drop.
    + constructor; [|done]. unfold sized. rewrite length_take. lia.
    + cbn [length]. rewrite E3, length_drop. destruct (decide (length l <= n)%nat) as [Hle|Hgt].
      * replace (length l - n)%nat with 0%nat by lia. rewrite Nat.div_small by lia.
        apply Nat.div_unique with (r := (length l - 1)%nat); lia.
      * replace (length l + (n - 1))%nat with (length l - n + (n - 1) + 1 * n)%nat by lia.
        rewrite Nat.div_add by lia. lia.
Qed.

(** The pieces between newlines, joined again. *)
Fixpoint join_lines (ls : list bytes) : bytes :=
  match ls with
  | [] => []
  | [l] => l
  | l :: ls => l ++ Byte.x0a :: join_lines ls
  end.

Lemma split_lines_not_nil b : split_lines b <> [].
Proof. destruct b as [|x b]; cbn; [done|]. case_bool_decide; [done|]. by destruct (split_lines b). Qed.

Lemma split_lines_spec b :
  join_lines (split_lines b) = b /\ Forall (fun l => Byte.x0a ∉ l) (split_lines b).
Proof.
  induction b as [|x b [E Hf]]; cbn; [split; [done|repeat constructor; set_solver]|].
  case_bool_decide as Hx.
  - subst. split; [|constructor; [set_solver|done]].
    destruct (split_lines b) as [|l ls] eqn:Es; [by apply split_lines_not_nil in Es|]. cbn. cbn in E. by rewrite E.
  - destruct (split_lines b) as [|l ls] eqn:Es; [by apply split_lines_not_nil in Es|].
    apply Forall_cons in Hf as [Hl Hf]. split; [|constructor; [set_solver|done]].
    destruct ls; cbn in *; by rewrite E.
Qed.

Lemma rows_loop_spec lines out :
  rows_loop lines out =
  let kept := filter (fun l => l <> []) (strip_cr <$> lines) in
  if bool_decide (Forall (fun l => length l <= MAX_CHUNK_LEN)%nat kept) then Some (out ++ kept) else None.
Proof.
  revert out. induction lines as [|l lines IH]; intros out; [cbn; by rewrite app_nil_r|].
  cbn [rows_loop]. cbn zeta. rewrite fmap_cons, filter_cons. case_bool_decide as Hl.
  - rewrite decide_False by tauto. apply IH.
  - rewrite decide_True by done. destruct (Nat.ltb_spec MAX_CHUNK_LEN (length (strip_cr l))) as [Hgt|Hle].
    + rewrite bool_decide_eq_false_2; [done|]. intros [? _]%Forall_cons. lia.
    + rewrite IH. cbn zeta. rewrite (bool_decide_ext _ (Forall (fun l => length l <= MAX_CHUNK_LEN)%nat
        (strip_cr l :: filter (fun l => l <> []) (strip_cr <$> lines)))) by (rewrite Forall_cons; tauto).
      case_bool_decide; [|done]. by rewrite <- app_assoc.
Qed.

Lemma rows_some payload out :
  rows payload = Some out <->
  out = filter (fun l => l <> []) (strip_cr <$> split_lines payload) /\ out <> [] /\
  Forall (fun l => length l <= MAX_CHUNK_LEN)%nat out.
Proof.
  unfold rows. rewrite rows_loop_spec. cbn zeta. rewrite app_nil_l.
  set (kept := filter _ _). case_bool_decide as Hk.
  - destruct kept as [|l ls] eqn:Ek; split.
    + done.
    + by intros (-> & ? & _).
    + intros [= <-]. by split_and!.
    + by intros (-> & _ & _).
  - split; [done|]. by intros (-> & _ & ?).
Qed.

Lemma split_payload_ok mode payload chunks :
  payload <> [] -> split_payload mode payload = Some chunks -> chunks <> [] /\ Forall (sized MAX_CHUNK_LEN) chunks.
Proof.
  unfold split_payload. intros Hp. case_bool_decide.
  - intros (-> & Hne & Hf)%rows_some. split; [done|].
    apply Forall_forall. intros l Hl. rewrite Forall_forall in Hf. specialize (Hf l Hl).
    apply list_elem_of_filter in Hl as [Hl _]. unfold sized. destruct l; [done|cbn in *; lia].
  - intros [= <-]. destruct (chunks_fuel_spec (length payload) MAX_CHUNK_LEN payload) as (E & Hs & _); [cbv; lia|done|].
    split; [|done]. intros Hn. unfold Chunker.chunks in Hn. rewrite Hn in E. by destruct payload.
Qed.

(** ** Reading a file *)

(** What [Read::read] promises: no more than the buffer and the file have, and zero
    only for an empty buffer or at the end. *)
Definition reader_ok (read : nat -> nat -> nat -> result IoError nat) : Prop :=
  forall i rest buf k, read i rest buf = Ok k -> (k <= buf)%nat /\ (k <= rest)%nat /\
    (k = 0%nat -> buf = 0%nat \/ rest = 0%nat).

Lemma slice_loop_spec read fuel i n rest acc :
  reader_ok read -> (0 < n)%nat -> (length rest < fuel)%nat ->
  (exists e, slice_loop read fuel i n rest acc = Some (Err e)) \/
  exists cs, slice_loop read fuel i n rest acc = Some (Ok (acc ++ cs)) /\ concat cs = rest /\ Forall (sized n) cs.
Proof.
  intros Hr Hn. revert i rest acc. induction fuel as [|fuel IH]; intros i rest acc Hf; [lia|]. cbn [slice_loop].
  destruct (read i (length rest) n) as [k|e] eqn:E; [|left; by exists e].
  apply Hr in E as (Hk1 & Hk2 & Hk0). destruct k as [|k].
  - right. exists []. rewrite app_nil_r. split_and!; try done. destruct (Hk0 eq_refl) as [|H0]; [lia|]. by destruct rest.
  - destruct (IH (S i) (drop (S k) rest) (acc ++ [take (S k) rest])) as [[e ->]|(cs & -> & Ec & Hs)].
    + rewrite length_drop. lia.
    + left. by exists e.
    + right. exists (take (S k) rest :: cs). split_and!.
      * by rewrite <- app_assoc.
      * cbn [concat]. by rewrite Ec, take_drop.
      * constructor; [|done]. unfold sized. rewrite length_take. lia.
Qed.

(** ** The chunk store *)

Lemma string_length_app (a b : string) : String.length (a +:+ b) = (String.length a + String.length b)%nat.
Proof.
  induction a as [|c a IH]; [done|]. change (String c a +:+ b) with (String c (a +:+ b)). cbn. by rewrite IH.
Qed.

Lemma string_app_inj_r (a b t : string) : a +:+ t = b +:+ t -> a = b.
Proof.
  revert b. induction a as [|c a IH]; intros [|d b] E; [done|..].
  - apply (f_equal String.length) in E. rewrite !string_length_app in E. cbn in E. lia.
  - apply (f_equal String.length) in E. rewrite !string_length_app in E. cbn in E. lia.
  - injection E as -> E. f_equal. by apply IH.
Qed.

#[global] Instance chunk_file_inj : Inj (=) (=) chunk_file.
Proof. intros i j E%string_app_inj_r. by apply (inj pretty) in E. Qed.

Section Store.
Context `{HexLaws} (root_dir : string).

#[global] Instance commitment_dir_inj : Inj (=) (=) (commitment_dir root_dir).
Proof.
  intros i j E. unfold commitment_dir in E. apply (inj (String.append root_dir)) in E.
  apply (inj (String.append "/")) in E. by apply (inj hex_encode) in E.
Qed.

(** The files [i], [i + 1], .. of a directory are [cs]. *)
Definition holds (m : gmap string bytes) (i : N) (cs : list bytes) : Prop :=
  forall k c, cs !! k = Some c -> m !! chunk_file (i + N.of_nat k) = Some c.

(** What is stored under an id. *)
Definition stored (fs : Fs) (id : CommitmentId) (cs : list bytes) : Prop :=
  exists m, fs !! commitment_dir root_dir id = Some m /\ holds m 0 cs.

Lemma holds_cons m i c cs :
  m !! chunk_file i = Some c -> holds m (i + 1) cs -> holds m i (c :: cs).
Proof.
  intros Hc Hcs [|k] x Hx; cbn in Hx; [simplify_eq; by rewrite N.add_0_r|].
  replace (i + N.of_nat (S k))%N with (i + 1 + N.of_nat k)%N by lia. by apply Hcs.
Qed.

Lemma persist_loop_ok dir i cs (fs : Fs) m :
  fs !! dir = Some m ->
  exists m', persist_loop dir i cs fs = (Ok tt, <[dir := m']> fs) /\ holds m' i cs /\
    forall j, (j < i)%N -> m' !! chunk_file j = m !! chunk_file j.
Proof.
  revert i fs m. induction cs as [|c cs IH]; intros i fs m Hm; cbn.
  - exists m. split_and!; [unfold ret; by rewrite fs_insert_id | by intros [] | done].
  - unfold Fs.write, bind, gets, ok_or, modify, ret. rewrite Hm.
    destruct (IH (i + 1)%N (<[dir := <[chunk_file i := c]> m]> fs) (<[chunk_file i := c]> m)) as (m' & -> & Hh & Ho);
      [apply fs_lookup_insert|].
    exists m'. rewrite fs_insert_insert. split_and!; [done| |].
    + apply holds_cons; [|done]. rewrite Ho by lia. apply lookup_insert_eq.
    + intros j Hj. rewrite Ho by lia. rewrite lookup_insert_ne; [done|]. intros E%(inj chunk_file). lia.
Qed.

Lemma persist_ok id cs (fs : Fs) :
  exists fs', persist root_dir id cs fs = (Ok tt, fs') /\ stored fs' id cs /\
    forall d, d <> commitment_dir root_dir id -> fs' !! d = fs !! d.
Proof.
  unfold persist, Fs.create_dir_all, bind at 1, modify at 1.
  set (fs1 := <[_ := _]> fs).
  destruct (persist_loop_ok (commitment_dir root_dir id) 0 cs fs1 _ (fs_lookup_insert _ _ _)) as (m' & -> & Hh & _).
  eexists. split_and!; [done| |].
  - exists m'. by rewrite fs_lookup_insert.
  - intros d Hd. unfold fs1. by rewrite !fs_lookup_insert_ne by done.
Qed.

Lemma rekey_ok old_id new_id cs (fs : Fs) :
  old_id <> new_id -> stored fs old_id cs -> fs !! commitment_dir root_dir new_id = None ->
  exists fs', rekey root_dir old_id new_id fs = (Ok tt, fs') /\ stored fs' new_id cs /\
    fs' !! commitment_dir root_dir old_id = None.
Proof.
  intros Hne (m & Hm & Hh) Hn. unfold rekey, Fs.rename, bind, gets, ok_or, ensure, modify, ret.
  rewrite Hm, Hn. rewrite bool_decide_eq_true_2 by (by right). eexists. split_and!; [done| |].
  - exists m. by rewrite Fs.renamed_to.
  - apply Fs.renamed_from. by intros E%(inj (commitment_dir root_dir)).
Qed.

Lemma load_chunks_ok id i cs (fs : Fs) m :
  fs !! commitment_dir root_dir id = Some m -> holds m i cs ->
  load_chunks_from root_dir id i (length cs) fs = (Ok cs, fs).
Proof.
  intros Hm. revert i. induction cs as [|c cs IH]; intros i Hh; [done|]. cbn.
  unfold load_chunk, Fs.read, bind, gets, ok_or, ret. rewrite Hm. cbn.
  pose proof (Hh 0%nat c eq_refl) as Hc. rewrite N.add_0_r in Hc. rewrite Hc.
  rewrite IH; [done|]. intros k x Hx. specialize (Hh (S k) x Hx).
  by replace (i + 1 + N.of_nat k)%N with (i + N.of_nat (S k))%N by lia.
Qed.

Lemma load_all_ok id cs (fs : Fs) :
  stored fs id cs -> load_all_chunks root_dir id (Z.of_nat (length cs)) fs = (Ok cs, fs).
Proof. intros (m & Hm & Hh). unfold load_all_chunks. rewrite Nat2Z.id. by eapply load_chunks_ok. Qed.
End Store.

(** A directory renamed keeps its files. *)
Lemma rekey_stored `{Hex} root_dir old_id new_id cs (fs fs' : Fs) :
  stored root_dir fs old_id cs -> rekey root_dir old_id new_id fs = (Ok tt, fs') -> stored root_dir fs' new_id cs.
Proof.
  intros (m & Hm & Hh). unfold rekey, Fs.rename. intros Hr. frame_inv.
  exists m. rewrite Fs.renamed_to. split; [|done]. congruence.
Qed.

(** ** Event fields *)

Lemma decode_bytes_value b : decode_bytes (byte_value <$> b) = Some b.
Proof.
  induction b as [|x b IH]; [done|]. rewrite fmap_cons. unfold byte_value at 1. cbn [decode_bytes].
  pose proof (Byte.to_N_bounded x). rewrite Z.mod_small, N2Z.id, Byte.of_to_N, IH by lia. done.
Qed.

Lemma decode_field_value b name vs :
  len32 b -> decode_fixed_bytes_field (Named ((name, bytes_value b) :: vs)) 0 = Some b.
Proof.
  intros Hb. unfold decode_fixed_bytes_field. cbn -[decode_bytes]. rewrite length_fmap, Hb. cbn -[decode_bytes].
  apply decode_bytes_value.
Qed.

Lemma decode_field_length cs i b : decode_fixed_bytes_field cs i = Some b -> len32 b.
Proof.
  unfold decode_fixed_bytes_field. intros (v & _ & Hv)%bind_Some. destruct v as [[|vs]| |]; try done.
  destruct (length vs =? 32)%nat eqn:Hl; [|done]. apply Nat.eqb_eq in Hl. unfold len32. rewrite <- Hl. clear Hl.
  revert b Hv. induction vs as [|x vs IH]; intros b Hv; [by injection Hv as <-|]. cbn in Hv.
  destruct x as [|[z|]|]; try done. apply bind_Some in Hv as (y & _ & (bs & Hb & [= <-])%bind_Some).
  cbn. by rewrite (IH bs).
Qed.

(** ** The provider's answer *)

Section Counter.
Context {Net : Type} (submit : AccountId -> Runtime.RuntimeCall -> M Net SubxtError (list EventDetails)).
Context `{Blake2Laws} `{RsMerkleLaws} `{HexLaws} (root_dir : string).

Lemma build_tree_ok cs : cs <> [] -> exists root, build_merkle_tree cs = Some (root, leaves_of cs) /\
  merkle_root OffChain.Blake2bHasher (leaves_of cs) = Some root.
Proof.
  intros Hcs. destruct (merkle_root_some OffChain.Blake2bHasher (leaves_of cs)) as [root Hr].
  - unfold leaves_of. by destruct cs.
  - exists root. unfold build_merkle_tree. by rewrite Hr.
Qed.

(** The proof for position [i]. *)
Definition proof_for (cs : list bytes) (i : nat) : list bytes := generate_inclusion_proof (leaves_of cs) i.

Lemma proof_for_depth cs i :
  (i < length cs)%nat -> Z.of_nat (length cs) <= 2 ^ 32 -> (length (proof_for cs i) <= 32)%nat.
Proof.
  intros Hi Hn. etrans; [apply merkle_depth; unfold leaves_of; by rewrite length_fmap|].
  unfold leaves_of. rewrite length_fmap. apply Nat.log2_up_le_pow2; [lia|].
  apply Nat2Z.inj_le. rewrite Nat2Z.inj_pow. exact Hn.
Qed.

(** The stages of a successful registration. *)
Lemma register_client_ok who mode p q payload meta e v w res w' :
  register_commitment submit root_dir who mode p q payload meta e v w = (Ok res, w') ->
  exists cs root fs1 evs ed fields id,
    payload <> [] /\ split_payload (default "bytes" mode) payload = Some cs /\
    build_merkle_tree cs = Some (root, leaves_of cs) /\
    persist root_dir (hash OffChain.Blake2bHasher payload) cs (files w) = (Ok tt, fs1) /\
    submit who (Runtime.CallVectorDb (VectorDb.RegisterCommitment p q root (Z.of_nat (length cs)) meta e v)) (net w)
      = (Ok evs, net w') /\
    find_event PALLET_NAME "CommitmentRegistered" evs = Some ed /\ field_values ed = Some fields /\
    decode_fixed_bytes_field fields 0 = Some id /\
    rekey root_dir (hash OffChain.Blake2bHasher payload) id fs1 = (Ok tt, files w') /\
    res = mkRegistered id root (Z.of_nat (length cs)).
Proof.
  unfold register_commitment, submit_and_find, Offchain.on_files, Offchain.on_net. intros Hr. frame_inv.
  repeat match goal with Hl : lift_err _ _ _ = (Ok _, _) |- _ => apply lift_err_ok_inv in Hl end.
  match goal with Hb : build_merkle_tree _ = Some ?b |- _ =>
    destruct b as [root tree]; pose proof Hb as Hb'; unfold build_merkle_tree in Hb';
    apply fmap_Some in Hb' as (? & _ & [= -> ->]) end.
  eexists _, _, _, _, _, _, _. split_and!; eauto.
Qed.

(** With the chunks on disk, the client submits the disputed one with its proof. *)
Lemma counter_dispute_submits who id p i cs c w :
  stored root_dir (files w) id cs -> Forall (sized MAX_CHUNK_LEN) cs -> Z.of_nat (length cs) <= 2 ^ 32 ->
  0 <= i -> cs !! Z.to_nat i = Some c ->
  counter_dispute submit root_dir who id p i (Z.of_nat (length cs)) w =
  (submit_and_find submit who (Runtime.CallVectorDb (VectorDb.CounterDispute id p c (proof_for cs (Z.to_nat i))))
     "DisputeCountered" ;;; ret tt) w.
Proof.
  intros Hst Hsz Hn Hi Hc. pose proof (lookup_lt_Some _ _ _ Hc) as Hlt.
  pose proof (Forall_lookup_1 _ _ _ _ Hsz Hc) as [_ Hlen].
  destruct (build_tree_ok cs) as (root & Hb & _); [by intros ->|].
  pose proof (proof_for_depth cs _ Hlt Hn) as Hd.
  unfold counter_dispute, Offchain.on_files, bind, ensure, ok_or, ret, zoom, lift_err.
  rewrite (proj2 (Z.ltb_lt i (Z.of_nat (length cs)))) by lia. rewrite (load_all_ok root_dir id cs _ Hst), Hc.
  rewrite (proj2 (Nat.leb_le _ _) Hlen), Hb. cbn [fst snd]. fold (proof_for cs (Z.to_nat i)).
  rewrite (proj2 (Nat.leb_le _ MAX_PROOF_DEPTH) Hd). by destruct w.
Qed.
End Counter.
End VectorClientTheory.
