(* ===== verification/VectorSubmit.v ===== *)
(** * VectorSubmit: the clients of [VectorClient] over the chain

    What [subxt] shows of a dispatched call, and with it what each client of
    [offchain-vector-db] does to the chain. *)

From stdpp Require Import base gmap list strings pretty relations.
From Stdlib Require Import ZArith Lia.
From S2P Require Import Prelude Frame Ledger Escrow AgentRegistry RegistryTheory Merkle VectorDb VectorDbTheory Template Runtime RuntimeTheory Offchain VectorClient VectorClientTheory.

Local Open Scope arth_scope.

Module VectorSubmit.

Section EndToEnd.
Import Runtime VectorClient VectorClientTheory.
Context {L : Type} `{ReservableCurrency L} `{Blake2} `{ScaleCodec} `{MlDsa} `{RsMerkle} `{Hex}.
Abbreviation submit :=
  (chain_submit (L := L) Configs.registry_config Configs.vector_db_config Configs.usize_bits).
Abbreviation dispatched := (dispatch (L := L) Configs.registry_config Configs.vector_db_config Configs.usize_bits).
Implicit Types w : Machine (Chain L).

#[local] Existing Instance AgentRegistryAdapter.
#[local] Existing Instance EscrowAdapter.
#[local] Instance runtime_reputation : ReputationHandler (Runtime.World L) :=
  ReputationHandlerAdapter Configs.registry_config Configs.vector_db_config.

Lemma find_first e l p v : pallet_name e = p -> variant_name e = v -> find_event p v (e :: l) = Some e.
Proof. intros Hp Hv. unfold find_event. rewrite filter_cons, decide_True by done. done. Qed.

Lemma submit_vector who c s v' e :
  VectorDb.exec Configs.vector_db_config Configs.usize_bits (w_system (world s)) (Signed who) c (vector_db s) = (Ok tt, v') ->
  VectorDb.events v' = VectorDb.events (vector_db s) ++ [e] ->
  exists l, submit who (CallVectorDb c) s = (Ok (vector_db_event e :: l), set_vector_db v' s).
Proof.
  intros Hx He. unfold chain_submit, dispatch, transactional, run_call, zoom. 
  replace (VectorDb.exec _ _ _ _ _ _) with (@Ok DispatchError unit tt, v') by (symmetry; exact Hx).
  eexists. unfold new_events. cbn [vector_db set_vector_db]. rewrite He, drop_app_length. done.
Qed.

Lemma submit_ok_inv who c s evs s' :
  submit who (CallVectorDb c) s = (Ok evs, s') ->
  exists v', VectorDb.exec Configs.vector_db_config Configs.usize_bits (w_system (world s)) (Signed who) c (vector_db s) = (Ok tt, v') /\
    s' = set_vector_db v' s /\ evs = new_events s s'.
Proof.
  unfold chain_submit, dispatch, transactional, run_call, zoom.
  destruct (VectorDb.exec _ _ _ _ _ _) as [[[]|er] v'] eqn:Hx; intros; simplify_eq. by exists v'.
Qed.

(** The event that proves a call. *)
Definition event_of (c : VectorDb.Call) : string :=
  match c with
  | VectorDb.RegisterCommitment _ _ _ _ _ _ _ => "CommitmentRegistered"
  | VectorDb.AcknowledgeCommitment _ _ => "CommitmentAcknowledged"
  | VectorDb.CloseCommitment _ _ _ _ => "CommitmentSettled"
  | VectorDb.RaiseDispute _ _ _ _ _ => "DisputeRaised"
  | VectorDb.CounterDispute _ _ _ _ => "DisputeCountered"
  | VectorDb.FinalizeDispute _ => "DisputeFinalized"
  | VectorDb.ExpireCommitment _ => "CommitmentExpired"
  end.

Lemma exec_emits sys o c (s s' : VectorDb.State (Runtime.World L)) :
  VectorDb.exec Configs.vector_db_config Configs.usize_bits sys o c s = (Ok tt, s') ->
  exists e, VectorDb.events s' = VectorDb.events s ++ [e] /\
    pallet_name (vector_db_event e) = PALLET_NAME /\ variant_name (vector_db_event e) = event_of c.
Proof.
  destruct c; cbn [VectorDb.exec event_of]; intros Hr; VectorDbTheory.call_ok Hr; naive_solver.
Qed.

Lemma dispatch_vector o c (s : Chain L) r v' :
  VectorDb.exec Configs.vector_db_config Configs.usize_bits (w_system (world s)) o c (vector_db s) = (r, v') ->
  dispatched o (CallVectorDb c) s = (r, if r is Ok _ then set_vector_db v' s else s).
Proof.
  intros Hx. unfold dispatch, transactional, run_call, zoom.
  replace (VectorDb.exec _ _ _ _ _ _) with (r, v') by (symmetry; exact Hx). by destruct r.
Qed.

(** What a dispatched call means for the machine of its submitter. *)
Definition outcome (r : result DispatchError unit * Chain L) w : result ClientError unit * Machine (Chain L) :=
  match r.1 with
  | Ok _ => (Ok tt, mkMachine (files w) r.2)
  | Err e => (Err (Subxt (DispatchFailed e)), w)
  end.

(** A call that is dispatched without an error is found. *)
Lemma submit_and_find_spec who c w :
  (submit_and_find submit who (CallVectorDb c) (event_of c) ;;; ret tt) w =
  outcome (dispatched (Signed who) (CallVectorDb c) (net w)) w.
Proof.
  unfold outcome, submit_and_find, Offchain.on_net, bind, zoom, lift_err, ret.
  destruct (VectorDb.exec Configs.vector_db_config Configs.usize_bits (w_system (world (net w))) (Signed who) c
    (vector_db (net w))) as [[[]|e] v'] eqn:Hx.
  - destruct (exec_emits _ _ _ _ _ Hx) as (ev & Hev & Hp & Hv).
    destruct (submit_vector who c (net w) v' ev Hx Hev) as [l Hs]. rewrite Hs. unfold ok_or, ret.
    rewrite find_first by done. by rewrite (dispatch_vector _ _ _ _ _ Hx).
  - unfold chain_submit. rewrite (dispatch_vector _ _ _ _ _ Hx). by destruct w.
Qed.

(** Only the committed root settles. *)
Lemma close_client_root who id q h n w w' :
  close_commitment submit who id q h n w = (Ok tt, w') ->
  exists c, VectorDb.vector_commitments (vector_db (net w)) !! id = Some c /\ h = VectorDb.merkle_root c.
Proof.
  intros Hr. pose proof (submit_and_find_spec who (VectorDb.CloseCommitment id q h n) w) as Hs.
  unfold close_commitment in Hr. cbn [event_of] in Hs. rewrite Hs in Hr. unfold outcome in Hr. clear Hs.
  destruct (VectorDb.exec Configs.vector_db_config Configs.usize_bits (w_system (world (net w))) (Signed who)
    (VectorDb.CloseCommitment id q h n) (vector_db (net w))) as [[[]|e] v'] eqn:Hx;
    rewrite (dispatch_vector _ _ _ _ _ Hx) in Hr; [|done].
  cbn [VectorDb.exec] in Hx. apply VectorDbTheory.close_commitment_ok in Hx. naive_solver.
Qed.

Lemma client_id_length root_dir who mode p q payload meta e v w res w' :
  register_commitment submit root_dir who mode p q payload meta e v w = (Ok res, w') -> len32 (r_commitment_id res).
Proof.
  intros (cs & root & fs1 & evs & ed & fields & id & _ & _ & _ & _ & _ & _ & _ & Hd & _ & ->)%register_client_ok.
  by apply decode_field_length in Hd.
Qed.

Context `{!RsMerkleLaws} `{!Blake2Laws} `{!HexLaws}.

(** A registration that returns. *)
Lemma client_registers root_dir who mode p q payload meta e v w res w' :
  register_commitment submit root_dir who mode p q payload meta e v w = (Ok res, w') ->
  exists cs, Chunker.split_payload (default "bytes" mode) payload = Some cs /\ Forall (sized MAX_CHUNK_LEN) cs /\
    build_merkle_tree cs = Some (r_merkle_root res, leaves_of cs) /\ r_total_chunks res = Z.of_nat (length cs) /\
    load_all_chunks root_dir (r_commitment_id res) (r_total_chunks res) (files w') = (Ok cs, files w') /\
    exists c, VectorDb.vector_commitments (vector_db (net w')) !! r_commitment_id res = Some c /\
      VectorDb.merkle_root c = r_merkle_root res /\ VectorDb.total_chunks c = r_total_chunks res /\
      VectorDb.provider c = p /\ VectorDb.consumer c = q /\ VectorDb.price c = v /\
      VectorDb.status c = VectorDb.Pending.
Proof.
  intros (cs & root & fs1 & evs & ed & fields & id & Hp & Hsp & Hb & Hper & Hsub & Hf & Hfv & Hdec & Hre & ->)%register_client_ok.
  destruct (split_payload_ok _ _ _ Hp Hsp) as [_ Hsz].
  destruct (persist_ok root_dir (hash OffChain.Blake2bHasher payload) cs (files w)) as (fs' & Hper' & Hst & _).
  rewrite Hper in Hper'. simplify_eq.
  apply submit_ok_inv in Hsub as (v' & Hx & Hnet & ->).
  cbn [VectorDb.exec] in Hx. apply VectorDbTheory.register_commitment_ok in Hx as (a & _ & _ & _ & _ & _ & _ & _ & _ & ->).
  assert (id = VectorDb.derive_commitment_id p q root (block_number (w_system (world (net w))))) as ->.
  { rewrite Hnet in Hf. unfold new_events in Hf. cbn [vector_db set_vector_db] in Hf.
    cbn [VectorDb.events VectorDb.deposit_event VectorDb.set_count VectorDb.insert_commitment] in Hf.
    rewrite drop_app_length in Hf. cbn [fmap list_fmap app] in Hf.
    rewrite find_first in Hf by done. injection Hf as <-. cbn in Hfv. injection Hfv as <-.
    rewrite decode_field_value in Hdec by apply blake2_256_len. by injection Hdec. }
  exists cs. cbn [r_merkle_root r_total_chunks r_commitment_id]. split_and!; try done.
  - apply load_all_ok. by eapply rekey_stored.
  - rewrite Hnet. eexists. split; [apply lookup_insert_eq|done].
Qed.
End EndToEnd.
End VectorSubmit.
