(* ===== verification/Keystore.v ===== *)
(** * Keystore: [offchain-agent-registry/src/keystore.rs]

    The encrypted store of agent identities: labels, key files, saving and loading.
    Argon2id, ChaCha20-Poly1305, base64 and the JSON of [serde] are interfaces; the
    random salt and nonce are arguments, and the permission bits those of Unix. *)

From stdpp Require Import base gmap list strings relations.
From Stdlib Require Import ZArith Lia.
From S2P Require Import Prelude Frame Offchain.

Local Open Scope arth_scope.

Module Keystore.

Definition SALT_LEN : nat := 16.
Definition NONCE_LEN : nat := 12.
Definition DERIVED_KEY_LEN : nat := 32.

Inductive KeyStoreError : Type :=
  | Io (e : IoError)
  | Serde
  | Kdf
  | DecryptionFailed
  | AlreadyExists (label : string)
  | LabelNotFound (label : string)
  | InvalidLabel (label : string)
  | Panicked.

Record KeyFile : Type := mkKeyFile {
  version : Z;
  did_hex : string;
  salt_b64 : string;
  nonce_b64 : string;
  ciphertext_b64 : string }.

Record StoredIdentity : Type := mkStored { did : Did; signing_key_bytes : bytes }.

(** The crates the keystore is built on. *)
Class Crypto := {
  b64_encode : bytes -> string;
  b64_decode : string -> option bytes;
  argon2id : string -> bytes -> option bytes;
  chacha_encrypt : bytes -> bytes -> bytes -> option bytes;
  chacha_decrypt : bytes -> bytes -> bytes -> option bytes;
  json_of : KeyFile -> bytes;
  json_parse : bytes -> option KeyFile }.

Class CryptoLaws `{Crypto} : Prop := {
  b64_round_trip : forall b, b64_decode (b64_encode b) = Some b;
  chacha_round_trip : forall k n m c, chacha_encrypt k n m = Some c -> chacha_decrypt k n c = Some m;
  json_round_trip : forall f, json_parse (json_of f) = Some f }.

(** [c.is_ascii_alphanumeric() || c == '-' || c == '_']. *)
Definition label_char (c : Ascii.ascii) : bool :=
  let n := Ascii.N_of_ascii c in
  ((48 <=? n) && (n <=? 57) || (65 <=? n) && (n <=? 90) || (97 <=? n) && (n <=? 122) || (n =? 45) || (n =? 95))%N.

Definition validate_label {S} (label : string) : M S KeyStoreError unit :=
  let valid := negb (bool_decide (label = EmptyString)) && forallb label_char (String.list_ascii_of_string label) in
  ensure valid (InvalidLabel label).

(** The file name of a label; the directory is the other half of the path. *)
Definition key_file_path {S} (label : string) : M S KeyStoreError string :=
  validate_label label ;;;
  ret (label +:+ ".json").

Section Store.
Context `{Hex} `{Crypto}.

Definition on_io {A} (m : M Fs IoError A) : M Fs KeyStoreError A := lift_err Io m.

Definition derive_key {S} (passphrase : string) (salt : bytes) : M S KeyStoreError bytes :=
  ok_or (argon2id passphrase salt) Kdf.

(** [0o700] and [0o600]: the owner and nobody else. *)
Definition DIR_MODE : Z := 7 * 8 ^ 2.
Definition FILE_MODE : Z := 6 * 8 ^ 2.

(** The permission bits are those of Unix.  [salt] and [nonce] are what the random number generator returned, if it did. *)
Definition save_identity (salt nonce : option bytes) (dir label : string) (d : Did) (key : bytes)
    (passphrase : string) : M Fs KeyStoreError unit :=
  path <- key_file_path label ;;
  taken <- gets (Fs.exists_ dir path) ;;
  ensure (negb taken) (AlreadyExists label) ;;;
  on_io (Fs.create_dir_all dir) ;;;
  on_io (Fs.set_permissions dir None DIR_MODE) ;;;
  salt <- ok_or salt Kdf ;;
  nonce_bytes <- ok_or nonce Kdf ;;
  derived_key <- derive_key passphrase salt ;;
  ciphertext <- ok_or (chacha_encrypt derived_key nonce_bytes key) Kdf ;;
  let key_file := mkKeyFile 1 (hex_encode d) (b64_encode salt) (b64_encode nonce_bytes) (b64_encode ciphertext) in
  on_io (Fs.write dir path (json_of key_file)) ;;;
  on_io (Fs.set_permissions dir (Some path) FILE_MODE).

(** [Nonce::from_slice] panics on a slice of any other length. *)
Definition nonce_from_slice {S} (b : bytes) : M S KeyStoreError bytes :=
  ensure (length b =? NONCE_LEN)%nat Panicked ;;;
  ret b.

Definition load_identity (dir label passphrase : string) : M Fs KeyStoreError StoredIdentity :=
  path <- key_file_path label ;;
  there <- gets (Fs.exists_ dir path) ;;
  ensure there (LabelNotFound label) ;;;
  json <- on_io (Fs.read dir path) ;;
  key_file <- ok_or (json_parse json) Serde ;;
  salt <- ok_or (b64_decode (salt_b64 key_file)) DecryptionFailed ;;
  nonce_bytes <- ok_or (b64_decode (nonce_b64 key_file)) DecryptionFailed ;;
  ciphertext <- ok_or (b64_decode (ciphertext_b64 key_file)) DecryptionFailed ;;
  derived_key <- derive_key passphrase salt ;;
  nonce <- nonce_from_slice nonce_bytes ;;
  plaintext <- ok_or (chacha_decrypt derived_key nonce ciphertext) DecryptionFailed ;;
  did_vec <- ok_or (hex_decode (did_hex key_file)) DecryptionFailed ;;
  ensure (length did_vec =? 32)%nat DecryptionFailed ;;;
  ret (mkStored did_vec plaintext).

Definition identity_exists (dir label : string) (fs : Fs) : bool :=
  match key_file_path label fs with
  | (Ok path, _) => Fs.exists_ dir path fs
  | (Err _, _) => false
  end.
End Store.

(** ** Facts *)

Section Facts.
Context `{HexLaws} `{CryptoLaws}.

Lemma key_file_path_ok {S} label (s : S) path s' :
  key_file_path label s = (Ok path, s') ->
  path = label +:+ ".json" /\ s' = s /\ label <> EmptyString /\
  forallb label_char (String.list_ascii_of_string label) = true.
Proof. unfold key_file_path, validate_label. intros Hr. frame_inv. done. Qed.

Lemma key_file_path_intro {S} label (s : S) :
  label <> EmptyString -> forallb label_char (String.list_ascii_of_string label) = true ->
  key_file_path label s = (Ok (label +:+ ".json"), s).
Proof.
  intros Hn Hc. unfold key_file_path, validate_label, bind, ensure.
  by rewrite (bool_decide_eq_false_2 _ Hn), Hc.
Qed.

(** The disk after a save: the file is there, for its owner only. *)
Definition saved (dir file : string) (b : bytes) (fs : Fs) : Fs :=
  Fs.chmod dir (Some file) FILE_MODE (<[dir := <[file := b]> (default ∅ (fs !! dir))]> (Fs.chmod dir None DIR_MODE fs)).

Lemma saved_eq dir file b (fs : Fs) :
  Fs.chmod dir (Some file) FILE_MODE (<[dir := <[file := b]> (default ∅ (fs !! dir))]>
    (Fs.chmod dir None DIR_MODE (<[dir := default ∅ (fs !! dir)]> fs))) = saved dir file b fs.
Proof. unfold saved, Fs.chmod, insert, fs_insert. cbn. f_equal. apply insert_insert_eq. Qed.

Lemma saved_lookup dir file b (fs : Fs) : saved dir file b fs !! dir = Some (<[file := b]> (default ∅ (fs !! dir))).
Proof. apply fs_lookup_insert. Qed.

Lemma saved_lookup_ne dir dir' file b (fs : Fs) : dir <> dir' -> saved dir file b fs !! dir' = fs !! dir'.
Proof. apply (lookup_insert_ne (dirs fs)). Qed.

Lemma saved_mode_dir dir file b (fs : Fs) : Fs.mode dir None (saved dir file b fs) = Some DIR_MODE.
Proof. unfold saved. rewrite Fs.mode_chmod_ne by (by right). apply Fs.mode_chmod. Qed.

Lemma saved_mode_file dir file b (fs : Fs) : Fs.mode dir (Some file) (saved dir file b fs) = Some FILE_MODE.
Proof. apply Fs.mode_chmod. Qed.

(** What a successful save wrote. *)
Lemma save_identity_ok salt nonce dir label d key pass (fs fs' : Fs) :
  save_identity salt nonce dir label d key pass fs = (Ok tt, fs') ->
  exists sa no k ct, salt = Some sa /\ nonce = Some no /\ argon2id pass sa = Some k /\
    chacha_encrypt k no key = Some ct /\ label <> EmptyString /\
    forallb label_char (String.list_ascii_of_string label) = true /\
    Fs.exists_ dir (label +:+ ".json") fs = false /\
    fs' = saved dir (label +:+ ".json")
            (json_of (mkKeyFile 1 (hex_encode d) (b64_encode sa) (b64_encode no) (b64_encode ct))) fs.
Proof.
  unfold save_identity, on_io, derive_key, Fs.create_dir_all, Fs.set_permissions, Fs.write. intros Hr. frame_inv.
  repeat match goal with Hl : lift_err _ _ _ = (Ok _, _) |- _ => apply lift_err_ok_inv in Hl; frame_inv end.
  match goal with Hp : key_file_path _ _ = (Ok _, _) |- _ => apply key_file_path_ok in Hp as (-> & -> & ? & ?) end.
  match goal with Hl : ?fs1 !! dir = Some _ |- _ =>
    change (fs1 !! dir) with (<[dir := default ∅ (fs !! dir)]> fs !! dir) in Hl; rewrite fs_lookup_insert in Hl; injection Hl as <- end.
  eexists _, _, _, _. split_and!; try done. apply saved_eq.
Qed.

(** Saving under a valid label that has no file. *)
Lemma save_identity_run sa no dir label d key pass (fs : Fs) k ct :
  label <> EmptyString -> forallb label_char (String.list_ascii_of_string label) = true ->
  Fs.exists_ dir (label +:+ ".json") fs = false ->
  argon2id pass sa = Some k -> chacha_encrypt k no key = Some ct ->
  save_identity (Some sa) (Some no) dir label d key pass fs =
    (Ok tt, saved dir (label +:+ ".json")
       (json_of (mkKeyFile 1 (hex_encode d) (b64_encode sa) (b64_encode no) (b64_encode ct))) fs).
Proof.
  intros Hn Hc He Hk Hct. unfold save_identity. unfold bind at 1. rewrite (key_file_path_intro label fs Hn Hc).
  rewrite <- saved_eq. set (f0 := <[dir := default ∅ (fs !! dir)]> fs).
  assert (f0 !! dir = Some (default ∅ (fs !! dir))) as Hf0 by apply fs_lookup_insert.
  unfold bind, gets, ensure, on_io, lift_err, Fs.create_dir_all, Fs.set_permissions, modify, derive_key, ok_or, ret, Fs.write, gets.
  rewrite He, Hk, Hct. cbn [negb]. unfold bind. fold f0. rewrite Hf0. rewrite bool_decide_eq_true_2 by done.
  unfold ensure, ret. cbv beta iota. change (Fs.chmod dir None DIR_MODE f0 !! dir) with (f0 !! dir). rewrite Hf0.
  unfold ok_or, ret, modify. unfold Fs.exists_. rewrite fs_lookup_insert. cbn [mbind option_bind].
  rewrite lookup_insert_eq. by rewrite bool_decide_eq_true_2 by done.
Qed.

#[global] Instance load_identity_readonly dir label pass : ReadOnly (load_identity dir label pass).
Proof.
  unfold load_identity, key_file_path, validate_label, on_io, derive_key, nonce_from_slice, Fs.read.
  repeat first [apply lift_readonly | apply bind_readonly; [| intros ?] | apply _].
Qed.

Lemma identity_exists_intro dir label (fs : Fs) m b :
  label <> EmptyString -> forallb label_char (String.list_ascii_of_string label) = true ->
  fs !! dir = Some m -> m !! (label +:+ ".json") = Some b -> identity_exists dir label fs = true.
Proof.
  intros Hn Hc Hm Hb. unfold identity_exists. rewrite (key_file_path_intro label fs Hn Hc).
  unfold Fs.exists_. rewrite Hm. cbn. rewrite Hb. by apply bool_decide_eq_true_2.
Qed.

(** A label that has a file is refused. *)
Lemma save_existing salt nonce dir label d key pass (fs : Fs) :
  identity_exists dir label fs = true ->
  save_identity salt nonce dir label d key pass fs = (Err (AlreadyExists label), fs).
Proof.
  unfold identity_exists, save_identity. unfold bind at 1.
  destruct (key_file_path label fs) as [[path|e] fs1] eqn:Hp; [|done].
  apply key_file_path_ok in Hp as (-> & -> & _). intros He.
  unfold bind, gets, ensure. rewrite He. done.
Qed.

(** Loading from a file whose pieces are in order. *)
Lemma load_identity_intro dir label pass (fs : Fs) m d sa no k ct key :
  label <> EmptyString -> forallb label_char (String.list_ascii_of_string label) = true ->
  fs !! dir = Some m ->
  m !! (label +:+ ".json") =
    Some (json_of (mkKeyFile 1 (hex_encode d) (b64_encode sa) (b64_encode no) (b64_encode ct))) ->
  argon2id pass sa = Some k -> chacha_encrypt k no key = Some ct -> length no = NONCE_LEN -> len32 d ->
  load_identity dir label pass fs = (Ok (mkStored d key), fs).
Proof.
  intros Hn Hc Hm Hf Hk Hct Hno Hd. unfold load_identity, on_io, derive_key, nonce_from_slice, Fs.read, lift_err.
  unfold bind at 1. rewrite (key_file_path_intro label fs Hn Hc).
  unfold bind, gets, ensure, ok_or, ret.
  assert (Fs.exists_ dir (label +:+ ".json") fs = true) as ->.
  { unfold Fs.exists_. rewrite Hm. cbn. rewrite Hf. by apply bool_decide_eq_true_2. }
  rewrite Hm. cbn [mbind option_bind]. rewrite Hf, json_round_trip. cbn [salt_b64 nonce_b64 ciphertext_b64 did_hex].
  rewrite !b64_round_trip, Hk, Hno. change (NONCE_LEN =? NONCE_LEN)%nat with true. cbv beta iota.
  rewrite (chacha_round_trip _ _ _ _ Hct), hex_decode_encode. by rewrite Hd.
Qed.
End Facts.
End Keystore.
