(* ===== verification/RegistryClient.v ===== *)
(** * RegistryClient: [offchain-agent-registry/src/lib.rs]

    The clients of the registry's extrinsics: a fresh ML-DSA identity and its signed
    registration, the other five calls, and the two wrappers that keep identities in
    the keystore. *)

From stdpp Require Import base gmap list strings relations.
From Stdlib Require Import ZArith Lia.
From S2P Require Import Prelude Frame AgentRegistry RegistryTheory Merkle VectorDb Runtime Offchain Keystore.

Local Open Scope arth_scope.

(** The signing half of the [ml_dsa] crate. *)
Class MlDsaSigner `{MlDsa} := {
  SigningKey : Type;
  verifying_key : SigningKey -> VerifyingKey;
  signing_key_to_bytes : SigningKey -> bytes;
  encode_verifying_key : VerifyingKey -> bytes;
  encode_signature : Signature -> bytes;
  mldsa_sign : SigningKey -> bytes -> Signature }.

Class MlDsaSignerLaws `{MlDsaSigner} : Prop := {
  verifying_key_round_trip : forall vk, verifying_key_of_slice (encode_verifying_key vk) = Some vk;
  signature_round_trip : forall sg, signature_of_slice (encode_signature sg) = Some sg;
  sign_verifies : forall k msg, mldsa_verify (verifying_key k) msg (mldsa_sign k msg) = true }.

Module RegistryClient.

Definition PALLET_NAME : string := "AgentRegistry".
Definition DID_DOMAIN_TAG : bytes := bstr "ArthNeura-DID-v1".

Record RegisteredAgent : Type := mkAgent { did : Did; signing_key_bytes : bytes }.

Inductive ClientError : Type :=
  | Subxt (e : SubxtError)
  | EventMissing
  | KeyStore (e : Keystore.KeyStoreError)
  | Funding (e : SubxtError)
  | AccountKey.

Section Clients.
Context {Net : Type} (submit : AccountId -> Runtime.RuntimeCall -> M Net SubxtError (list EventDetails)).
(** What a client asks a node for: the genesis hash, and the number and the hash of
    the latest block. *)
Context (genesis_hash : Net -> bytes) (at_latest : M Net SubxtError (BlockNumber * bytes)).
Context `{Blake2} `{ScaleCodec} `{MlDsaSigner}.

Definition derive_did (pubkey_bytes : bytes) : Did :=
  let preimage := DID_DOMAIN_TAG ++ pubkey_bytes in
  blake2_256 preimage.

(** The SCALE encoding of the tuple of byte arrays and the block number. *)
Definition challenge (genesis d controller : bytes) (signed_at_block : BlockNumber) (signed_at_hash : bytes) : bytes :=
  encode_array32 genesis ++ encode_array32 d ++ encode_array32 controller ++
  encode_u32 signed_at_block ++ encode_array32 signed_at_hash.

Definition submit_and_find (who : AccountId) (c : Registry.Call) (variant : string) : M Net ClientError unit :=
  events <- lift_err Subxt (submit who (Runtime.CallRegistry c)) ;;
  ok_or (find_event PALLET_NAME variant events) EventMissing ;;;
  ret tt.

(** [signing_key] is the result of [SigningKey::generate()]. *)
Definition register_agent (signing_key : SigningKey) (who : AccountId) (capabilities : Z) (metadata label : bytes)
    : M Net ClientError RegisteredAgent :=
  let pubkey_bytes := encode_verifying_key (verifying_key signing_key) in
  let key_bytes := signing_key_to_bytes signing_key in
  let d := derive_did pubkey_bytes in
  genesis <- gets genesis_hash ;;
  latest_block <- lift_err Subxt at_latest ;;
  let '(signed_at_block, signed_at_hash) := latest_block in
  let msg := challenge genesis d who signed_at_block signed_at_hash in
  let signature_bytes := encode_signature (mldsa_sign signing_key msg) in
  submit_and_find who
    (Registry.RegisterAgent pubkey_bytes signature_bytes signed_at_block capabilities metadata label)
    "AgentRegistered" ;;;
  ret (mkAgent d key_bytes).

Definition submit_signed_registration (who : AccountId) (pubkey signature : bytes) (signed_at_block : BlockNumber)
    (capabilities : Z) (metadata label : bytes) : M Net ClientError Did :=
  let d := derive_did pubkey in
  submit_and_find who (Registry.RegisterAgent pubkey signature signed_at_block capabilities metadata label)
    "AgentRegistered" ;;;
  ret d.

Definition update_profile (who : AccountId) (d : Did) (capabilities : Z) (metadata label : bytes) : M Net ClientError unit :=
  submit_and_find who (Registry.UpdateProfile d capabilities metadata label) "AgentProfileUpdated".

Definition set_agent_status (who : AccountId) (d : Did) (new_status : Registry.AgentStatus) : M Net ClientError unit :=
  submit_and_find who (Registry.SetAgentStatus d new_status) "AgentStatusChanged".

Definition give_star (who : AccountId) (giver_did receiver : Did) : M Net ClientError unit :=
  submit_and_find who (Registry.GiveStar giver_did receiver) "StarGiven".

Definition remove_star (who : AccountId) (giver_did receiver : Did) : M Net ClientError unit :=
  submit_and_find who (Registry.RemoveStar giver_did receiver) "StarRemoved".

Definition deregister_agent (who : AccountId) (d : Did) : M Net ClientError unit :=
  submit_and_find who (Registry.DeregisterAgent d) "AgentDeregistered".

(** ** With the keystore *)

Context `{Hex} `{Keystore.Crypto}.

Definition on_keys {A} (m : M Fs Keystore.KeyStoreError A) : M (Machine Net) ClientError A :=
  zoom files (fun x w => mkMachine x (net w)) (lift_err KeyStore m).
Definition on_chain {A} (m : M Net ClientError A) : M (Machine Net) ClientError A :=
  zoom net (fun n w => mkMachine (files w) n) m.

(** [salt] and [nonce] are what the random number generator gives the keystore. *)
Definition register_or_load_agent (signing_key : SigningKey) (salt nonce : option bytes) (who : AccountId)
    (keystore_dir key_label passphrase : string) (capabilities : Z) (metadata display_label : bytes)
    : M (Machine Net) ClientError RegisteredAgent :=
  known <- gets (fun w => Keystore.identity_exists keystore_dir key_label (files w)) ;;
  if known : bool then
    stored <- on_keys (Keystore.load_identity keystore_dir key_label passphrase) ;;
    ret (mkAgent (Keystore.did stored) (Keystore.signing_key_bytes stored))
  else
    agent <- on_chain (register_agent signing_key who capabilities metadata display_label) ;;
    on_keys (Keystore.save_identity salt nonce keystore_dir key_label (did agent) (signing_key_bytes agent) passphrase) ;;;
    ret agent.

(** [subxt_signer::sr25519::Keypair] and the funding transfer of the balances pallet. *)
Context {Keypair : Type} (from_secret_key : bytes -> option Keypair) (account_id : Keypair -> AccountId).
Context (transfer_keep_alive : AccountId -> AccountId -> Balance -> M Net SubxtError unit).

Record BootstrappedAgent : Type := mkBootstrapped { b_did : Did; b_account : Keypair }.

(** [account_seed] is what the random number generator gives, if it does; the two
    pairs are the salts and nonces of the two saves. *)
Definition bootstrap_new_agent (signing_key : SigningKey) (account_seed : option bytes)
    (rng1 rng2 : option bytes * option bytes) (sponsor : AccountId)
    (keystore_dir key_label passphrase : string) (funding_amount : Balance)
    (capabilities : Z) (metadata display_label : bytes) : M (Machine Net) ClientError BootstrappedAgent :=
  let account_label := key_label +:+ "-account" in
  known <- gets (fun w => Keystore.identity_exists keystore_dir key_label (files w) &&
                          Keystore.identity_exists keystore_dir account_label (files w)) ;;
  if known : bool then
    identity <- on_keys (Keystore.load_identity keystore_dir key_label passphrase) ;;
    account_secret <- on_keys (Keystore.load_identity keystore_dir account_label passphrase) ;;
    let seed := Keystore.signing_key_bytes account_secret in
    ensure (length seed =? 32)%nat AccountKey ;;;
    account <- ok_or (from_secret_key seed) AccountKey ;;
    ret (mkBootstrapped (Keystore.did identity) account)
  else
    seed <- ok_or account_seed AccountKey ;;
    new_account <- ok_or (from_secret_key seed) AccountKey ;;
    let new_account_id := account_id new_account in
    on_chain (lift_err Funding (transfer_keep_alive sponsor new_account_id funding_amount)) ;;;
    agent <- on_chain (register_agent signing_key new_account_id capabilities metadata display_label) ;;
    on_keys (Keystore.save_identity rng1.1 rng1.2 keystore_dir key_label (did agent) (signing_key_bytes agent) passphrase) ;;;
    on_keys (Keystore.save_identity rng2.1 rng2.2 keystore_dir account_label (did agent) seed passphrase) ;;;
    ret (mkBootstrapped (did agent) new_account).
End Clients.

(** ** Parity with the pallet *)

Section Parity.
Context `{Blake2} `{ScaleCodecLaws} `{MlDsaSignerLaws}.

Lemma derive_did_parity pubkey : derive_did pubkey = Registry.derive_did pubkey.
Proof. done. Qed.

Lemma challenge_parity g d c b h :
  len32 g -> len32 c -> len32 h -> challenge g d c b h = Registry.registration_challenge g d c b h.
Proof.
  intros. unfold challenge, Registry.registration_challenge.
  by rewrite !encode_h256_raw, encode_account_raw, (encode_array32_raw g), (encode_array32_raw c), (encode_array32_raw h) by done.
Qed.
End Parity.
End RegistryClient.
