(* ===== verification/RegistryClientTheory.v ===== *)
(** * RegistryClientTheory: registrations as the chain sees them

    The registration a client signs over the challenge of a node is accepted by the
    pallet, and what the chain holds afterwards. *)

From stdpp Require Import base gmap list strings relations.
From Stdlib Require Import ZArith Lia.
From S2P Require Import Prelude Frame Ledger Escrow AgentRegistry RegistryTheory Merkle VectorDb Template Runtime Offchain Keystore RegistryClient.

Local Open Scope arth_scope.

Module RegistryClientTheory.
Import Runtime RegistryClient.

Section Registration.
Context {L : Type} `{ReservableCurrency L} `{Blake2} `{ScaleCodec} `{MlDsaSigner} `{RsMerkle}.
Context `{!Blake2Laws} `{!ScaleCodecLaws} `{!MlDsaSignerLaws}.
Abbreviation submit :=
  (chain_submit (L := L) Configs.registry_config Configs.vector_db_config Configs.usize_bits).
Implicit Types s : Chain L.

Lemma chain_set_registry r s : chain_registry (set_registry r s) = r.
Proof. unfold chain_registry, set_registry, registry_of. cbn. by destruct r. Qed.

Lemma submit_registry who c s r' e :
  Registry.exec Configs.registry_config (w_system (world s)) (Signed who) c (chain_registry s) = (Ok tt, r') ->
  Registry.events r' = Registry.events (chain_registry s) ++ [e] ->
  submit who (CallRegistry c) s = (Ok [registry_event e], set_registry r' s).
Proof.
  intros Hx He. unfold chain_submit, dispatch, transactional, run_call, zoom. rewrite Hx.
  unfold new_events. rewrite chain_set_registry, He, drop_app_length, drop_all. done.
Qed.

(** The public key, the DID and the signed challenge of a key. *)
Definition pubkey_of (key : SigningKey) : bytes := encode_verifying_key (verifying_key key).
Definition did_of (key : SigningKey) : Did := derive_did (pubkey_of key).
Definition signature_over (key : SigningKey) (who : AccountId) (sys : System) (b : BlockNumber) : bytes :=
  encode_signature (mldsa_sign key (challenge (block_hash sys 0) (did_of key) who b (block_hash sys b))).

(** The registration [key] signs over block [b] is accepted while [b] is at most 64
    blocks old, the DID is free, there is room and the deposit can be reserved. *)
Lemma registration_submits who key caps meta lbl s b l' :
  let now := w_system (world s) in
  len32 (block_hash now 0) -> len32 (block_hash now b) -> len32 who ->
  b <= block_number now -> block_number now - b <= 64 ->
  Registry.agent_profiles (chain_registry s) !! did_of key = None ->
  (length (Registry.controller_dids (chain_registry s) who) < 64)%nat ->
  reserve who (Registry.RegistrationDeposit Configs.registry_config) (w_balances (world s)) = (Ok tt, l') ->
  submit who (CallRegistry (Registry.RegisterAgent (pubkey_of key) (signature_over key who now b) b caps meta lbl)) s =
    (Ok [registry_event (Registry.AgentRegistered (did_of key) who)],
     set_registry (RegistryTheory.registered_state now who (pubkey_of key) caps meta lbl l' (chain_registry s)) s).
Proof.
  intros now Hlg Hlh Hlw Hb Hw Hfree Hroom Hres. apply submit_registry; [|done]. fold now.
  cbn [Registry.exec]. apply RegistryTheory.register_agent_ok. exists who, l'. split_and!; try done.
  split; try done; [unfold sat_sub, Registry.REPLAY_WINDOW; lia|].
  set (msg := challenge (block_hash now 0) (did_of key) who b (block_hash now b)).
  exists (verifying_key key), (mldsa_sign key msg).
  split_and!; [apply verifying_key_round_trip|apply signature_round_trip|].
  change (Registry.derive_did (pubkey_of key)) with (did_of key).
  rewrite <- challenge_parity by done. apply sign_verifies.
Qed.

Lemma registered_profile sys who key caps meta lbl l' s :
  Registry.agent_profiles (chain_registry
    (set_registry (RegistryTheory.registered_state sys who (pubkey_of key) caps meta lbl l' (chain_registry s)) s)) !! did_of key =
  Some (Registry.mkProfile (did_of key) who caps 0 Registry.Active (block_number sys) true Registry.MlDsa65 meta lbl).
Proof. rewrite chain_set_registry. apply lookup_insert_eq. Qed.
End Registration.

(** ** Identities *)

Section Identities.
Context {Net : Type} (submit : AccountId -> Runtime.RuntimeCall -> M Net SubxtError (list EventDetails)).
Context (genesis_hash : Net -> bytes) (at_latest : M Net SubxtError (BlockNumber * bytes)).
Context `{Blake2} `{ScaleCodec} `{MlDsaSigner} `{Hex} `{Keystore.Crypto}.
Context `{!Blake2Laws} `{!HexLaws} `{!Keystore.CryptoLaws}.
Implicit Types w : Machine Net.
Abbreviation register_or_load := (register_or_load_agent submit genesis_hash at_latest).

Lemma load_known key sa no who dir label pass caps meta lbl w i :
  Keystore.identity_exists dir label (files w) = true ->
  Keystore.load_identity dir label pass (files w) = (Ok i, files w) ->
  register_or_load key sa no who dir label pass caps meta lbl w =
    (Ok (mkAgent (Keystore.did i) (Keystore.signing_key_bytes i)), w).
Proof.
  intros He Hi. unfold register_or_load_agent, bind, gets, on_keys, zoom, lift_err, ret. rewrite He, Hi. by destruct w.
Qed.

Lemma register_agent_did key who caps meta lbl (n n' : Net) a :
  register_agent submit genesis_hash at_latest key who caps meta lbl n = (Ok a, n') -> len32 (did a).
Proof.
  unfold register_agent. intros (g & n1 & _ & ([b h] & n2 & _ & (u & n3 & _ & Ha)%bind_ok_inv)%bind_ok_inv)%bind_ok_inv.
  injection Ha as <- _. apply blake2_256_len.
Qed.

(** Once it has returned an agent, the client gives the same one back ever after. *)
Lemma register_or_load_again key sa no who dir label pass caps meta lbl w a w' :
  (forall n, no = Some n -> length n = Keystore.NONCE_LEN) ->
  register_or_load key sa no who dir label pass caps meta lbl w = (Ok a, w') ->
  Keystore.identity_exists dir label (files w') = true /\
  forall key2 sa2 no2 who2 caps2 meta2 lbl2,
    register_or_load key2 sa2 no2 who2 dir label pass caps2 meta2 lbl2 w' = (Ok a, w').
Proof.
  intros Hno Hr. assert (exists i, Keystore.identity_exists dir label (files w') = true /\
    Keystore.load_identity dir label pass (files w') = (Ok i, files w') /\
    a = mkAgent (Keystore.did i) (Keystore.signing_key_bytes i)) as (i & He & Hi & ->).
  2: { split; [done|]. intros. by apply load_known. }
  unfold register_or_load_agent in Hr. apply bind_read_inv in Hr as (known & [= <-] & Hr); [|apply _].
  destruct (Keystore.identity_exists dir label (files w)) eqn:He.
  - unfold on_keys, bind, zoom, lift_err in Hr. pose proof (Keystore.load_identity_readonly dir label pass (files w)) as Hro.
    destruct (Keystore.load_identity dir label pass (files w)) as [[i|e] f] eqn:Hl; [|done]. cbn in Hro. subst f.
    injection Hr as <- <-. by exists i.
  - apply bind_ok_inv in Hr as (ag & w1 & Hreg & Hr). apply bind_ok_inv in Hr as ([] & w2 & Hsave & [= -> ->]).
    unfold on_chain, zoom in Hreg. destruct (register_agent _ _ _ _ _ _ _ _ _) as [r n1] eqn:Hg. injection Hreg as -> <-.
    apply register_agent_did in Hg. unfold on_keys, zoom in Hsave. cbn [files net] in Hsave.
    destruct (lift_err _ _ _) as [r f] eqn:Hs. injection Hsave as -> <-. apply lift_err_ok_inv in Hs.
    apply Keystore.save_identity_ok in Hs as (s1 & n2 & k & ct & -> & -> & Hk & Hct & Hn & Hc & _ & ->).
    exists (Keystore.mkStored (did a) (signing_key_bytes a)). cbn [files]. split_and!.
    + eapply Keystore.identity_exists_intro; [done..|apply lookup_insert_eq|apply lookup_insert_eq].
    + eapply Keystore.load_identity_intro; try done; [apply lookup_insert_eq|apply lookup_insert_eq|by apply Hno].
    + by destruct a.
Qed.
End Identities.
End RegistryClientTheory.
