(* ===== verification/MockRegistry.v ===== *)
(** * MockRegistry: [pallets/pallet-agent-registry/src/mock.rs]

    The environment of the registry's tests: its constants and endowments, and the
    helpers that derive keys from small seeds and prepare the arguments of a
    registration. *)

From stdpp Require Import base gmap list strings.
From Stdlib Require Import ZArith Lia.
From S2P Require Import Prelude Frame Ledger AgentRegistry RegistryTheory RegistryClient MockVectorDb.

Local Open Scope arth_scope.

(** What the helpers use of [ml_dsa] beyond the clients: keys from a seed of 32 bytes,
    and deterministic signatures under a context. *)
Class MlDsaTest `{MlDsaSigner} := {
  from_seed : bytes -> SigningKey;
  sign_deterministic : SigningKey -> bytes -> bytes -> option Signature }.

Class MlDsaTestLaws `{MlDsaTest} : Prop := {
  test_signer_laws :: MlDsaSignerLaws;
  sign_deterministic_total : forall k msg, exists sg, sign_deterministic k msg [] = Some sg;
  sign_deterministic_verifies : forall k msg sg, sign_deterministic k msg [] = Some sg ->
    mldsa_verify (verifying_key k) msg sg = true;
  encoded_verifying_key_len : forall vk, Z.of_nat (length (encode_verifying_key vk)) = 1952;
  encoded_signature_len : forall sg, Z.of_nat (length (encode_signature sg)) = 3309 }.

Module MockRegistry.
Import Registry.

(** [impl pallet_agent_registry::Config for Runtime]. *)
Definition config : Config := mkConfig 10 100 3 20.

(** The genesis of the balances, and the block the tests start in. *)
Definition test_balances : list (AccountId * Balance) :=
  (fun n => (MockVectorDb.account n, 1000000)) <$> seqZ 1 20.
Definition new_test_ext {L} (build_balances : list (AccountId * Balance) -> L) : State L * BlockNumber :=
  (genesis (build_balances test_balances), 1).

(** [BoundedVec::try_from(v).expect(..)]; [None] is the panic. *)
Definition bounded (max : Z) (v : bytes) : option bytes :=
  if Z.of_nat (length v) <=? max then Some v else None.

(** [seed.wrapping_add(i).wrapping_mul(0x9E3779B97F4A7C15)] *)
Definition mixed (seed i : Z) : Z := ((seed + i) mod 2 ^ 64 * 11400714819323198485) mod 2 ^ 64.

(** Four chunks of eight bytes. *)
Definition seed_bytes (seed : Z) : bytes := [0; 1; 2; 3] ≫= (fun i => le_bytes 8 (mixed seed i)).

Section Helpers.
Context `{Blake2} `{ScaleCodec} `{MlDsaTest}.

Record TestKeypair : Type := mkTestKeypair {
  signing_key : SigningKey;
  test_verifying_key : VerifyingKey }.

Definition generate_keypair (seed : Z) : TestKeypair :=
  let signing_key := from_seed (seed_bytes seed) in
  mkTestKeypair signing_key (verifying_key signing_key).

Definition pubkey_bytes (vk : VerifyingKey) : option bytes := bounded MAX_PUBKEY_LEN (encode_verifying_key vk).

(** The encoding of the tuple, with the types of the runtime at hand. *)
Definition build_challenge (genesis_hash : bytes) (d : Did) (controller : AccountId) (signed_at_block : BlockNumber)
    (signed_at_hash : bytes) : bytes :=
  encode_h256 genesis_hash ++ encode_array32 d ++ encode_account controller ++ encode_u32 signed_at_block ++
  encode_h256 signed_at_hash.

Definition sign_challenge (k : SigningKey) (challenge : bytes) : option bytes :=
  signature ← sign_deterministic k challenge [];
  bounded MAX_SIG_LEN (encode_signature signature).

Definition derive_did (pubkey : bytes) : Did :=
  let preimage := bstr "ArthNeura-DID-v1" in
  let preimage := preimage ++ pubkey in
  blake2_256 preimage.

Definition valid_register_params (sys : System) (seed : Z) (controller : AccountId) (signed_at_block : BlockNumber)
    : option (bytes * bytes) :=
  let keypair := generate_keypair seed in
  pubkey ← pubkey_bytes (test_verifying_key keypair);
  let d := derive_did pubkey in
  let genesis_hash := block_hash sys 0 in
  let signed_at_hash := block_hash sys signed_at_block in
  let challenge := build_challenge genesis_hash d controller signed_at_block signed_at_hash in
  signature ← sign_challenge (signing_key keypair) challenge;
  Some (pubkey, signature).

(** The identity a seed stands for. *)
Definition did_of_seed (seed : Z) : Did := derive_did (encode_verifying_key (verifying_key (from_seed (seed_bytes seed)))).
End Helpers.

(** ** Facts *)

(** The multiplier is odd, so that mixing loses nothing. *)
Lemma mixed_inj a b : in_u64 a -> in_u64 b -> mixed a 0 = mixed b 0 -> a = b.
Proof.
  unfold in_u64, u64_max, mixed. intros Ha Hb E. rewrite !Z.add_0_r, (Z.mod_small a), (Z.mod_small b) in E by lia.
  apply (f_equal (fun z => (z * 17428512612931826493) mod 2 ^ 64)) in E. rewrite !Zmult_mod_idemp_l in E.
  assert (forall z, 0 <= z < 2 ^ 64 -> (z * 11400714819323198485 * 17428512612931826493) mod 2 ^ 64 = z) as Hinv.
  { intros z Hz. rewrite <- Z.mul_assoc, <- Zmult_mod_idemp_r.
    change ((11400714819323198485 * 17428512612931826493) mod 2 ^ 64) with 1. rewrite Z.mul_1_r. by apply Z.mod_small. }
  rewrite !Hinv in E by lia. done.
Qed.

(** Distinct seeds give distinct key material. *)
Lemma seed_bytes_inj a b : in_u64 a -> in_u64 b -> seed_bytes a = seed_bytes b -> a = b.
Proof.
  intros Ha Hb E. apply mixed_inj; [done..|].
  unfold seed_bytes in E. cbn [mbind list_bind] in E. apply app_inj_1 in E as [E _]; [|by rewrite !le_bytes_length].
  apply (f_equal le_value) in E. rewrite !le_value_bytes in E. change (256 ^ Z.of_nat 8) with (2 ^ 64) in E.
  unfold mixed in *. by rewrite !Z.mod_mod in E by lia.
Qed.

Section Facts.
Context `{Blake2} `{ScaleCodec} `{MlDsaTestLaws}.

Lemma valid_params sys seed c at_ :
  exists pk sg, valid_register_params sys seed c at_ = Some (pk, sg) /\
    Registry.derive_did pk = did_of_seed seed /\
    Z.of_nat (length pk) = MAX_PUBKEY_LEN /\ Z.of_nat (length sg) = MAX_SIG_LEN /\
    exists vk s, verifying_key_of_slice pk = Some vk /\ signature_of_slice sg = Some s /\
      mldsa_verify vk (registration_challenge (block_hash sys 0) (Registry.derive_did pk) c at_ (block_hash sys at_)) s = true.
Proof.
  set (k := from_seed (seed_bytes seed)). set (pk := encode_verifying_key (verifying_key k)).
  destruct (sign_deterministic_total k (build_challenge (block_hash sys 0) (derive_did pk) c at_ (block_hash sys at_))) as [s Hs].
  assert (pubkey_bytes (verifying_key k) = Some pk) as Hpk.
  { unfold pubkey_bytes, bounded. rewrite encoded_verifying_key_len. done. }
  exists pk, (encode_signature s). split.
  { unfold valid_register_params, sign_challenge. cbn [generate_keypair test_verifying_key signing_key]. fold k.
    rewrite Hpk. cbn [mbind option_bind]. rewrite Hs. cbn [mbind option_bind]. unfold bounded.
    by rewrite encoded_signature_len. }
  split; [done|]. split; [apply encoded_verifying_key_len|]. split; [apply encoded_signature_len|].
  exists (verifying_key k), s. split; [apply verifying_key_round_trip|]. split; [apply signature_round_trip|].
  by apply sign_deterministic_verifies.
Qed.
End Facts.
End MockRegistry.
