(* ===== verification/MockRegistryTheory.v ===== *)
(** * MockRegistryTheory: many registrations of one controller

    The tests of the registry register whole series of agents under one controller; the
    lemmas follow such a series until the bound of the controller's index. *)

From stdpp Require Import base gmap list strings.
From Stdlib Require Import ZArith Lia.
From S2P Require Import Prelude Frame Ledger AgentRegistry RegistryTheory RegistryClient MockVectorDb MockRegistry.

Local Open Scope arth_scope.

Module MockRegistryTheory.
Import Registry MockRegistry.

Section Series.
Context {L : Type} `{ReservableCurrencyLaws L} `{Blake2} `{ScaleCodec} `{MlDsaTestLaws}.
Context (sys : System) (c : AccountId) (at_ : BlockNumber) (caps : CapabilityBitmap) (meta lbl : bytes).
Implicit Types s : State L.

(** [register_agent] with the arguments prepared for a seed; [None] is a panic of the
    helper. *)
Definition test_register (seed : Z) s : option (result DispatchError unit * State L) :=
  '(pk, sg) ← valid_register_params sys seed c at_;
  Some (register_agent config sys (Signed c) pk sg at_ caps meta lbl s).

Fixpoint register_all (seeds : list Z) s : option (list (result DispatchError unit) * State L) :=
  match seeds with
  | [] => Some ([], s)
  | seed :: seeds =>
      '(r, s') ← test_register seed s;
      '(rs, s'') ← register_all seeds s';
      Some (r :: rs, s'')
  end.

Lemma register_all_app seeds1 seeds2 s :
  register_all (seeds1 ++ seeds2) s =
    '(rs, s') ← register_all seeds1 s;
    '(rs', s'') ← register_all seeds2 s';
    Some (rs ++ rs', s'').
Proof.
  revert s. induction seeds1 as [|seed seeds1 IH]; intros s; cbn [app register_all].
  - cbn. by destruct (register_all seeds2 s) as [[]|].
  - destruct (test_register seed s) as [[r s']|]; [|done]. cbn. rewrite IH.
    destruct (register_all seeds1 s') as [[rs s1]|]; [|done]. cbn. by destruct (register_all seeds2 s1) as [[]|].
Qed.

(** A reservation that leaves something over succeeds. *)
Context (can_pay : forall l, RegistrationDeposit config < free_balance l c ->
                     exists l', reserve c (RegistrationDeposit config) l = (Ok tt, l')).
Context (Hpast : at_ <= block_number sys) (Hwindow : sat_sub (block_number sys) at_ <= REPLAY_WINDOW).

Lemma test_register_ok seed s :
  agent_profiles s !! did_of_seed seed = None -> (length (controller_dids s c) < 64)%nat ->
  RegistrationDeposit config < free_balance (currency s) c ->
  exists pk l', Registry.derive_did pk = did_of_seed seed /\
    reserve c (RegistrationDeposit config) (currency s) = (Ok tt, l') /\
    test_register seed s = Some (Ok tt, RegistryTheory.registered_state sys c pk caps meta lbl l' s).
Proof.
  intros Hfresh Hroom Hpay. destruct (valid_params sys seed c at_) as (pk & sg & Hv & Hd & _ & _ & Hproof).
  destruct (can_pay _ Hpay) as [l' Hl]. exists pk, l'. split_and!; [done..|].
  unfold test_register. rewrite Hv. cbn [mbind option_bind]. f_equal. apply RegistryTheory.register_agent_ok.
  exists c, l'. split_and!; try done. split; try done. by rewrite Hd.
Qed.

(** A controller whose index is full gets no further. *)
Lemma test_register_full seed s :
  agent_profiles s !! did_of_seed seed = None -> (64 <= length (controller_dids s c))%nat ->
  test_register seed s = Some (Err (RegistryModule TooManyAgentsForController), s).
Proof.
  intros Hfresh Hfull. destruct (valid_params sys seed c at_) as (pk & sg & Hv & Hd & _).
  unfold test_register. rewrite Hv. cbn [mbind option_bind]. f_equal.
  unfold register_agent, bind, ensure_signed, gets, ret. rewrite Hd, Hfresh.
  rewrite bool_decide_eq_false_2 by (by intros []). cbn. unfold ensure.
  rewrite bool_decide_eq_false_2 by lia. done.
Qed.

Lemma register_series seeds s :
  NoDup (did_of_seed <$> seeds) -> (forall seed, seed ∈ seeds -> agent_profiles s !! did_of_seed seed = None) ->
  (length (controller_dids s c) + length seeds <= 64)%nat ->
  100 * Z.of_nat (length seeds) < free_balance (currency s) c ->
  0 <= active_agent_count s -> active_agent_count s + Z.of_nat (length seeds) <= u32_max ->
  exists s', register_all seeds s = Some (replicate (length seeds) (Ok tt), s') /\
    controller_dids s' c = controller_dids s c ++ (did_of_seed <$> seeds) /\
    active_agent_count s' = active_agent_count s + Z.of_nat (length seeds) /\
    reserved_balance (currency s') c = reserved_balance (currency s) c + 100 * Z.of_nat (length seeds) /\
    (forall d, d ∉ did_of_seed <$> seeds -> agent_profiles s' !! d = agent_profiles s !! d).
Proof.
  revert s. induction seeds as [|seed seeds IH]; intros s Hn Hfresh Hroom Hpay Hc0 Hc.
  { exists s. cbn. rewrite app_nil_r. split_and!; try done; lia. }
  rewrite fmap_cons in Hn. apply NoDup_cons in Hn as [Hnew Hn]. cbn [length] in *.
  destruct (test_register_ok seed s) as (pk & l' & Hd & Hl & Hr); [apply Hfresh; left|lia|cbn in *; lia|].
  destruct (reserve_ok _ _ _ _ (ltac:(cbn; lia) : 0 <= RegistrationDeposit config) Hl) as (_ & Hfree & Hres & _).
  set (s1 := RegistryTheory.registered_state sys c pk caps meta lbl l' s) in *.
  assert (controller_dids s1 c = controller_dids s c ++ [did_of_seed seed]) as Hdids.
  { unfold controller_dids, s1. cbn. by rewrite lookup_insert_eq, Hd. }
  assert (forall d, d <> did_of_seed seed -> agent_profiles s1 !! d = agent_profiles s !! d) as Hprof.
  { intros d Hne. unfold s1. cbn. rewrite Hd. by apply lookup_insert_ne. }
  assert (active_agent_count s1 = active_agent_count s + 1) as Hcount.
  { unfold s1. cbn. unfold sat_add. lia. }
  destruct (IH s1) as (s' & Hall & Hd' & Hc' & Hr' & Hp').
  - done.
  - intros x Hx. rewrite Hprof; [apply Hfresh; by right|]. intros E. apply Hnew. rewrite <- E. by apply list_elem_of_fmap_2.
  - rewrite Hdids, length_app. cbn. lia.
  - change (currency s1) with l'. rewrite Hfree. cbn in *. lia.
  - lia.
  - lia.
  - exists s'. cbn [register_all]. rewrite Hr. cbn [mbind option_bind]. rewrite Hall. cbn [mbind option_bind].
    split_and!.
    + done.
    + rewrite Hd', Hdids, <- app_assoc. done.
    + lia.
    + rewrite Hr'. change (currency s1) with l'. rewrite Hres. cbn. lia.
    + intros d Hd2. rewrite fmap_cons, not_elem_of_cons in Hd2. destruct Hd2 as [Hne Hin].
      rewrite (Hp' d Hin). by apply Hprof.
Qed.
End Series.
End MockRegistryTheory.
