(* ===== verification/Cli.v ===== *)
(** * Cli: the command-line binaries

    [offchain-vector-db/src/main.rs] (Module [VectorCli]) and
    [offchain-agent-registry/src/main.rs] (Module [RegistryCli]): environment variables
    in, one client call, lines on the standard output.  The connection, the signer and
    the calls of the balances pallet are arguments. *)

From stdpp Require Import base gmap list strings pretty.
From Stdlib Require Import ZArith Lia.
From S2P Require Import Prelude RustStr Frame Merkle VectorDb Runtime Offchain VectorClient Keystore AgentRegistry RegistryClient.

Local Open Scope arth_scope.

(** [std::env::var(name).ok()]. *)
Abbreviation Env := (string -> option str).

(** [std::env::var(name).unwrap_or_else(|_| default)]. *)
Definition var_or (env : Env) (name : string) (d : str) : str := default d (env name).

(** A process: its machine and what it printed. *)
Record Process (Net : Type) : Type := mkProcess { machine : Machine Net; stdout : list str }.
Arguments mkProcess {Net}.
Arguments machine {Net} p.
Arguments stdout {Net} p.

(** How a process ends early: [main] returns an error, a message on the standard error
    and [exit(1)], or a panic. *)
Inductive Exit (E : Type) : Type :=
  | MainError
  | ExitOne (message : str) (cause : E)
  | Panic.
Arguments MainError {E}.
Arguments ExitOne {E} message cause.
Arguments Panic {E}.

Section Process.
Context {Net E : Type}.
Abbreviation Main A := (M (Process Net) (Exit E) A).

(** [PathBuf::join] of a relative path. *)
Definition path_join (dir file : string) : string :=
  if bool_decide (dir = EmptyString) then file
  else if bool_decide (last (bstr dir) = Some Byte.x2f) then dir +:+ file
  else dir +:+ "/" +:+ file.

Definition println (line : str) : Main unit :=
  modify (fun p => mkProcess (machine p) (stdout p ++ [line])).

(** [match client_call { Ok(a) => .., Err(e) => { eprintln!(..); exit(1) } }]; a panic
    of the call is one of the process. *)
Definition run_client {A} (is_panic : E -> bool) (message : str) (m : M (Machine Net) E A) : Main A := fun p =>
  match m (machine p) with
  | (Ok a, w) => (Ok a, mkProcess w (stdout p))
  | (Err e, w) => (Err (if is_panic e then Panic else ExitOne message e), mkProcess w (stdout p))
  end.

(** A call on the network whose error [main] returns with [?]. *)
Definition on_node {E' A} (m : M Net E' A) : Main A := fun p =>
  match m (net (machine p)) with
  | (Ok a, n) => (Ok a, mkProcess (mkMachine (files (machine p)) n) (stdout p))
  | (Err _, n) => (Err MainError, mkProcess (mkMachine (files (machine p)) n) (stdout p))
  end.
End Process.

(** [subxt_signer::sr25519]. *)
Class Sr25519 := {
  Keypair : Type;
  from_secret_key : bytes -> option Keypair;
  account_of : Keypair -> AccountId;
  dev_alice : Keypair;
  dev_bob : Keypair }.

(** ** [offchain-vector-db/src/main.rs] *)

Module VectorCli.
Import VectorClient.

Definition x0x : str := bstr "0x".
Definition STORE_DIR : string := "/tmp/arthneura-offchain-store".

Definition is_panic (e : ClientError) : bool := match e with Panicked => true | _ => false end.

Section Main.
Context {Net : Type} (submit : AccountId -> Runtime.RuntimeCall -> M Net SubxtError (list EventDetails)).
Context `{Blake2} `{RsMerkle} `{Hex} `{Sr25519}.
(** [OnlineClient::from_insecure_url], the storage query for an account, and
    [Balances::transfer_allow_death]. *)
Context (from_insecure_url : str -> M Net SubxtError unit).
Context (fetch_account : AccountId -> M Net SubxtError (option str)).
Context (transfer_allow_death : AccountId -> AccountId -> Balance -> M Net SubxtError unit).
Context (env : Env).

Abbreviation Main A := (M (Process Net) (Exit ClientError) A).

Definition hex32 (name : string) : Main bytes :=
  raw <- ok_or (env name) MainError ;;
  let raw := trim_start_matches x0x (trim raw) in
  b <- ok_or (hex_decode (show raw)) MainError ;;
  ensure (length b =? 32)%nat MainError ;;;
  ret b.

(** The [CONTROLLER_SEED] branch; [copy_from_slice] panics unless there are 32 bytes. *)
Definition signer_from_seed (s : str) : Main Keypair :=
  raw <- ok_or (hex_decode (show (trim_start_matches x0x (trim s)))) Panic ;;
  ensure (length raw =? 32)%nat Panic ;;;
  ok_or (from_secret_key raw) Panic.

Definition signer_from_env : Main Keypair :=
  match env "CONTROLLER_SEED" with
  | Some s =>
      if negb (bool_decide (trim s = [])) then signer_from_seed s
      else ret (if bool_decide (var_or env "SIGNER" (bstr "bob") = bstr "alice") then dev_alice else dev_bob)
  | None => ret (if bool_decide (var_or env "SIGNER" (bstr "bob") = bstr "alice") then dev_alice else dev_bob)
  end.

(** [std::env::var(name).ok().and_then(|s| s.parse().ok()).unwrap_or(d)]. *)
Definition parsed_or (max : Z) (name : string) (d : Z) : Z := default d (env name ≫= parse_uint max).

(** The names of the files the binary keeps chunks in are those of [FsChunkStore::new]. *)
Abbreviation client m := (run_client is_panic m).

Definition balance_action : Main unit :=
  let who := var_or env "SIGNER" (bstr "alice") in
  signer <- signer_from_env ;;
  let account := account_of signer in
  found <- on_node (fetch_account account) ;;
  match found with
  | Some val => println (bstr "BALANCE_RAW_" ++ who ++ bstr "=" ++ val)
  | None => println (bstr "BALANCE_RAW_" ++ who ++ bstr "=MISSING")
  end.

Definition raise_action : Main unit :=
  commitment_id <- hex32 "COMMITMENT_ID" ;;
  consumer_did <- hex32 "CONSUMER_DID" ;;
  let index := parsed_or u64_max "CHUNK_INDEX" 0 in
  let chunks := parsed_or u64_max "TOTAL_CHUNKS" 1 in
  bad <- hex32 "RECEIVED_CHUNK_HASH" ;;
  signer <- signer_from_env ;;
  client (bstr "ERROR raise_dispute failed: ")
    (raise_dispute submit (account_of signer) commitment_id consumer_did index bad chunks) ;;;
  println (bstr "RAISE=OK").

Definition counter_action : Main unit :=
  commitment_id <- hex32 "COMMITMENT_ID" ;;
  provider_did <- hex32 "PROVIDER_DID" ;;
  let index := parsed_or u64_max "CHUNK_INDEX" 0 in
  let chunks := parsed_or u64_max "TOTAL_CHUNKS" 1 in
  signer <- signer_from_env ;;
  client (bstr "ERROR counter_dispute failed: ")
    (counter_dispute submit STORE_DIR (account_of signer) commitment_id provider_did index chunks) ;;;
  println (bstr "COUNTER=OK").

Definition finalize_action : Main unit :=
  commitment_id <- hex32 "COMMITMENT_ID" ;;
  signer <- signer_from_env ;;
  client (bstr "ERROR finalize_dispute failed: ")
    (finalize_dispute submit (account_of signer) commitment_id) ;;;
  println (bstr "FINALIZE=OK").

Definition acknowledge_action : Main unit :=
  commitment_id <- hex32 "COMMITMENT_ID" ;;
  consumer_did <- hex32 "CONSUMER_DID" ;;
  signer <- signer_from_env ;;
  client (bstr "acknowledge_commitment returned an error: ")
    (acknowledge_commitment submit (account_of signer) commitment_id consumer_did) ;;;
  println (bstr "acknowledge_commitment succeeded: commitment_id=0x" ++ bstr (hex_encode commitment_id)).

Definition transfer_action : Main unit :=
  to <- hex32 "TO" ;;
  amount <- ok_or (parse_uint u128_max (var_or env "AMOUNT" (bstr "100"))) MainError ;;
  let signer := dev_alice in
  on_node (transfer_allow_death (account_of signer) to amount) ;;;
  println (bstr "TRANSFER=OK").

Definition close_action : Main unit :=
  commitment_id <- hex32 "COMMITMENT_ID" ;;
  consumer_did <- hex32 "CONSUMER_DID" ;;
  merkle_root <- hex32 "MERKLE_ROOT" ;;
  let chunks := parsed_or u64_max "TOTAL_CHUNKS" 1 in
  signer <- signer_from_env ;;
  client (bstr "close_commitment returned an error: ")
    (close_commitment submit (account_of signer) commitment_id consumer_did merkle_root chunks) ;;;
  println (bstr "close_commitment succeeded: commitment_id=0x" ++ bstr (hex_encode commitment_id)).

(** [MERKLE_ROOT], if it is 32 bytes of hex. *)
Definition provided_root : option bytes :=
  s ← env "MERKLE_ROOT";
  b ← hex_decode (show (trim_start_matches x0x (trim s)));
  if (length b =? 32)%nat then Some b else None.

Definition register_action : Main unit :=
  provider_did <- hex32 "PROVIDER_DID" ;;
  consumer_did <- hex32 "CONSUMER_DID" ;;
  let expires := parsed_or u32_max "EXPIRES_IN_BLOCKS" 1000 in
  let price := parsed_or u128_max "PRICE" 75 in
  let payload := match env "PAYLOAD" with
                 | Some s => if bool_decide (s = []) then bstr "arthneura stamp payload" else s
                 | None => bstr "arthneura stamp payload"
                 end in
  let metadata := match trim <$> env "SCHEMA" with
                  | Some s => if bool_decide (s = []) then bstr "csv.v1" else s
                  | None => bstr "csv.v1"
                  end in
  alice <- match env "CONTROLLER_SEED" with
           | Some s => if negb (bool_decide (trim s = [])) then signer_from_seed s else ret dev_alice
           | None => ret dev_alice
           end ;;
  result <- client (bstr "register_commitment returned an error: ")
    (register_commitment submit STORE_DIR (account_of alice) (show <$> env "CHUNK_MODE")
       provider_did consumer_did payload metadata expires price) ;;
  let root := default (r_merkle_root result) provided_root in
  let id_hex := bstr (hex_encode (r_commitment_id result)) in
  let root_hex := bstr (hex_encode root) in
  let total := bstr (pretty (r_total_chunks result)) in
  println (bstr "register_commitment succeeded: commitment_id=0x" ++ id_hex ++
           bstr " merkle_root=0x" ++ root_hex ++ bstr " total_chunks=" ++ total) ;;;
  println (bstr "COMMITMENT_ID=0x" ++ id_hex) ;;;
  println (bstr "MERKLE_ROOT=0x" ++ root_hex) ;;;
  println (bstr "TOTAL_CHUNKS=" ++ total).

Definition main : Main unit :=
  let ws := var_or env "CHAIN_WS" (bstr "ws://127.0.0.1:9944") in
  let action := show (var_or env "ACTION" (bstr "register")) in
  on_node (from_insecure_url ws) ;;;
  if bool_decide (action = "balance") then balance_action
  else if bool_decide (action = "raise") then raise_action
  else if bool_decide (action = "counter") then counter_action
  else if bool_decide (action = "finalize") then finalize_action
  else if bool_decide (action = "acknowledge") then acknowledge_action
  else if bool_decide (action = "transfer") then transfer_action
  else if bool_decide (action = "close") then close_action
  else register_action.
End Main.
End VectorCli.

(** ** [offchain-agent-registry/src/main.rs] *)

Module RegistryCli.
Import RegistryClient.

(** A panic of the keystore is one of the process. *)
Definition is_panic (e : ClientError) : bool :=
  match e with KeyStore Keystore.Panicked => true | _ => false end.

(** [keystore::default_keystore_dir]. *)
Definition default_keystore_dir (env : Env) : option string :=
  (fun home => path_join (path_join (show home) ".arthneura") "keys") <$> env "HOME".

Section Main.
Context {Net : Type} (submit : AccountId -> Runtime.RuntimeCall -> M Net SubxtError (list EventDetails)).
Context (genesis_hash : Net -> bytes) (at_latest : M Net SubxtError (BlockNumber * bytes)).
Context `{Blake2} `{ScaleCodec} `{MlDsaSigner} `{Hex} `{Keystore.Crypto} `{Sr25519}.
Context (from_url : str -> M Net SubxtError unit).
Context (env : Env).

Abbreviation Main A := (M (Process Net) (Exit ClientError) A).

Definition signer_from_env : Keypair :=
  if bool_decide (var_or env "SIGNER" (bstr "alice") = bstr "bob") then dev_bob else dev_alice.

(** [signing_key], [salt] and [nonce] are what the random number generator gives. *)
Definition main (signing_key : SigningKey) (salt nonce : option bytes) : Main unit :=
  println (bstr "ArthNeura Off-Chain Agent Registry Client Initialized.") ;;;
  let ws := var_or env "CHAIN_WS" (bstr "ws://127.0.0.1:9944") in
  on_node (from_url ws) ;;;
  let signer := signer_from_env in
  let who := var_or env "SIGNER" (bstr "alice") in
  let key_label := show (var_or env "KEY_LABEL" who) in
  let label := var_or env "LABEL" (bstr (key_label +:+ "-agent")) in
  let passphrase := show (var_or env "KEYSTORE_PASS" (bstr "dev-passphrase")) in
  keystore_dir <- ok_or (match env "KEYSTORE_DIR" with
                         | Some s => Some (show s)
                         | None => default_keystore_dir env
                         end) MainError ;;
  existed <- gets (fun p => Keystore.identity_exists keystore_dir key_label (files (machine p))) ;;
  agent <- run_client is_panic (bstr "register_or_load_agent failed: ")
    (register_or_load_agent submit genesis_hash at_latest signing_key salt nonce (account_of signer)
       keystore_dir key_label passphrase 1 (bstr "smoke-test-agent") label) ;;
  println (bstr "DID=0x" ++ bstr (hex_encode (did agent))) ;;;
  println (bstr "IDENTITY=" ++ (if existed : bool then bstr "loaded" else bstr "registered")) ;;;
  println (bstr "KEYSTORE=" ++ bstr (path_join keystore_dir (key_label +:+ ".json"))).
End Main.
End RegistryCli.
