(* ===== verification/CliTheory.v ===== *)
(** * CliTheory: printing and reading back

    What the binaries print in hexadecimal is read back by the binaries, and the runs of
    [VectorCli.main] and [RegistryCli.main] in terms of the client call they make. *)

From stdpp Require Import base gmap list strings pretty.
From Stdlib Require Import ZArith NArith Lia ZifyBool.
From S2P Require Import Prelude RustStr Frame Merkle VectorDb Runtime Offchain VectorClient Keystore AgentRegistry RegistryClient Cli.

Local Open Scope arth_scope.

(** [hex::encode] writes two lower-case digits per byte. *)
Definition hex_char (x : byte) : bool := is_digit x || within 97 102 x.

Class HexTextLaws `{Hex} : Prop := {
  hex_text : forall b, forallb hex_char (bstr (hex_encode b)) = true;
  hex_text_length : forall b, length (bstr (hex_encode b)) = (2 * length b)%nat }.

Section HexText.
Context `{HexTextLaws}.

Lemma hex_char_dark x : hex_char x = true -> dark x = true.
Proof. unfold hex_char, is_digit, within, dark, is_ascii. lia. Qed.

Lemma hex_dark b : forallb dark (bstr (hex_encode b)) = true.
Proof.
  apply forallb_forall. intros x Hx. apply hex_char_dark. pose proof (hex_text b) as Ht. by eapply forallb_forall in Ht.
Qed.

Lemma hex_ascii b : forallb is_ascii (bstr (hex_encode b)) = true.
Proof.
  apply forallb_forall. intros x Hx. pose proof (hex_dark b) as Hd. eapply forallb_forall in Hd; [|done].
  by apply andb_true_iff in Hd as [_ ?].
Qed.

(** No encoding starts like a prefix. *)
Lemma hex_no_prefix b : starts_with (bstr "0x") (bstr (hex_encode b)) = false.
Proof.
  apply bool_decide_eq_false_2. intros E. pose proof (hex_text b) as Ht.
  rewrite <- (take_drop 2 (bstr (hex_encode b))) in Ht. change (length (bstr "0x")) with 2%nat in E.
  rewrite E in Ht. done.
Qed.

Lemma strip_0x_hex b : trim_start_matches (bstr "0x") (bstr (hex_encode b)) = bstr (hex_encode b).
Proof. apply trim_start_matches_none, hex_no_prefix. Qed.

Lemma strip_0x_printed b : trim_start_matches (bstr "0x") (bstr "0x" ++ bstr (hex_encode b)) = bstr (hex_encode b).
Proof. apply trim_start_matches_once; [done|apply hex_no_prefix]. Qed.

Lemma hex_printed_dark b : forallb dark (bstr "0x" ++ bstr (hex_encode b)) = true.
Proof. rewrite forallb_app. by rewrite hex_dark. Qed.

(** A variable holding what a binary printed. *)
Lemma hex32_printed `{!HexLaws} {Net} (env : Env) name b (p : Process Net) :
  env name = Some (bstr "0x" ++ bstr (hex_encode b)) -> len32 b -> VectorCli.hex32 env name p = (Ok b, p).
Proof.
  intros He Hb. unfold VectorCli.hex32, bind, ok_or. rewrite He. unfold ret at 1.
  rewrite trim_dark by apply hex_printed_dark. unfold VectorCli.x0x.
  rewrite strip_0x_printed, show_bstr, hex_decode_encode. unfold ret, ensure. by rewrite Hb.
Qed.

(** The signer of a seed in hexadecimal. *)
Lemma signer_of_hex `{!HexLaws} `{Sr25519} {Net} b account (p : Process Net) :
  len32 b -> from_secret_key b = Some account -> VectorCli.signer_from_seed (bstr (hex_encode b)) p = (Ok account, p).
Proof.
  intros Hb Ha. unfold VectorCli.signer_from_seed, bind. rewrite trim_dark by apply hex_dark. unfold VectorCli.x0x.
  rewrite strip_0x_hex, show_bstr, hex_decode_encode. unfold ok_or, ret, ensure. rewrite Hb. cbn. by rewrite Ha.
Qed.
End HexText.
