(* ===== verification/Door.v ===== *)
(** * Door: [offchain-agent-registry/src/bin/register-door.rs]

    The local HTTP server that registers strangers: it reads one request per
    connection, routes it, keeps prepared but unsigned extrinsics in a map of tokens,
    and answers in JSON.  [serde_json], [subxt] and the node are interfaces; a
    connection is the list of what its reads return. *)

From stdpp Require Import base gmap list strings pretty.
From Stdlib Require Import ZArith NArith Lia.
From S2P Require Import Prelude RustStr Frame Merkle AgentRegistry VectorDb Runtime Offchain Keystore RegistryClient Cli.

Local Open Scope arth_scope.

(** ** [serde_json] *)

Class SerdeJson := {
  JValue : Type;
  from_str : str -> option JValue;
  to_string : JValue -> str;
  json_null : JValue;
  json_string : str -> JValue;
  json_number : Z -> JValue;
  json_object : list (string * JValue) -> JValue;
  (** [v[key]], which is null when there is no such field; [v.get(key).is_some()]. *)
  index : JValue -> string -> JValue;
  has_key : JValue -> string -> bool;
  as_str : JValue -> option str;
  as_u64 : JValue -> option Z }.

Class SerdeJsonLaws `{SerdeJson} : Prop := {
  from_str_to_string : forall v, from_str (to_string v) = Some v;
  (** Control characters are escaped. *)
  to_string_printable : forall v, Forall (fun x => (32 <= code x)%N) (to_string v);
  (** A [String] is valid UTF-8. *)
  to_string_utf8 : forall v, from_utf8_lossy (to_string v) = to_string v;
  to_string_nonempty : forall v, to_string v <> [];
  index_object : forall fs k v, NoDup fs.*1 -> (k, v) ∈ fs -> index (json_object fs) k = v;
  index_missing : forall fs k, k ∉ fs.*1 -> index (json_object fs) k = json_null;
  has_key_object : forall fs k, has_key (json_object fs) k = bool_decide (k ∈ fs.*1);
  as_str_string : forall s, as_str (json_string s) = Some s;
  as_str_null : as_str json_null = None;
  as_u64_number : forall z, in_u64 z -> as_u64 (json_number z) = Some z;
  as_u64_null : as_u64 json_null = None }.

(** ** What the door asks of [subxt] and the node *)

Class DoorNode (Net : Type) := {
  genesis_hash : Net -> bytes;
  at_latest : M Net SubxtError (BlockNumber * bytes);
  sign_and_submit : AccountId -> Runtime.RuntimeCall -> M Net SubxtError (list EventDetails);
  PartialExtrinsic : Type;
  create_partial_signed : AccountId -> Runtime.RuntimeCall -> M Net SubxtError PartialExtrinsic;
  signer_payload : PartialExtrinsic -> bytes;
  SubmittableExtrinsic : Type;
  sign_with_address_and_signature : PartialExtrinsic -> AccountId -> bytes -> SubmittableExtrinsic;
  encoded : SubmittableExtrinsic -> bytes;
  submit_extrinsic : SubmittableExtrinsic -> M Net SubxtError bytes;
  rpc_from_url : str -> M Net SubxtError unit;
  (** The debug text of what [system_dryRun] answers. *)
  system_dryRun : str -> Net -> str * Net;
  author_submitExtrinsic : str -> M Net SubxtError str;
  transfer_keep_alive : AccountId -> AccountId -> Balance -> M Net SubxtError unit;
  (** [e.to_string()]. *)
  subxt_text : SubxtError -> str;
  client_text : RegistryClient.ClientError -> str }.

Module Door.

(** What stops the server: [main] returns an error, or panics. *)
Inductive DoorExit : Type := Stopped | Panicked.

Record Response : Type := mkResponse { resp_status : string; resp_body : str }.

Definition CRLF2 : str := [Byte.x0d; Byte.x0a; Byte.x0d; Byte.x0a].
Definition MAX_REQUEST : Z := 65536.

(** [respond]: the bytes on the wire. *)
Definition respond (r : Response) : str :=
  bstr ("HTTP/1.1 " +:+ resp_status r) ++ [Byte.x0d; Byte.x0a] ++
  bstr "content-type: application/json" ++ [Byte.x0d; Byte.x0a] ++
  bstr "content-length: " ++ show_N (N.of_nat (length (resp_body r))) ++ [Byte.x0d; Byte.x0a] ++
  bstr "connection: close" ++ CRLF2 ++ resp_body r.

(** A JSON literal of the source, with its double quotes written as single ones. *)
Definition json_text (s : string) : str := (fun x => if bool_decide (x = Byte.x27) then Byte.x22 else x) <$> bstr s.

(** ** Reading a request *)

(** The length the head of a request announces, zero if it does not. *)
Definition content_length (head : str) : Z :=
  let head := to_ascii_lowercase (from_utf8_lossy head) in
  default 0 (find_map (strip_prefix (bstr "content-length:")) (lines head) ≫= fun n => parse_uint u64_max (trim n)).

Section Read.
(** Whether the build checks for overflow ([debug]) or wraps around ([release]). *)
Context (overflow_checks : bool).

(** [i + 4 + need] of type [usize]; [None] is the overflow panic. *)
Definition request_end (i : nat) (need : Z) : option Z :=
  let n := Z.of_nat i + 4 + need in
  if n <=? u64_max then Some n else if overflow_checks then None else Some (n mod 2 ^ 64).

(** The [loop] around [stream.read]: an empty read or the end of the list is [n == 0]. *)
Fixpoint read_loop (conn : list str) (buf : str) : result DoorExit str :=
  match conn with
  | [] => Ok buf
  | [] :: _ => Ok buf
  | tmp :: conn =>
      let buf := buf ++ tmp in
      let next := if (MAX_REQUEST <? Z.of_nat (length buf)) then Ok buf else read_loop conn buf in
      match position CRLF2 buf with
      | Some i =>
          match request_end i (content_length (take i buf)) with
          | None => Err Panicked
          | Some n =>
              if (n <=? Z.of_nat (length buf)) || (MAX_REQUEST <? Z.of_nat (length buf)) then Ok buf else next
          end
      | None => next
      end
  end.
End Read.

(** ** The server *)

Section Server.
Context {Net : Type} `{DoorNode Net} `{SerdeJson} `{Hex} `{Blake2} `{Sr25519}.
Context (env : Env).

Record State : Type := mkState { pending : gmap str PartialExtrinsic; node : Net }.

Abbreviation Door A := (M State DoorExit A).

Definition signer : Keypair := dev_alice.

(** A call of the node whose outcome the handler inspects. *)
Definition attempt {E A} (m : M Net E A) : Door (result E A) := fun s =>
  match m (node s) with (r, n) => (Ok r, mkState (pending s) n) end.

(** A call of the node whose error stops the server. *)
Definition or_stop {E A} (x : DoorExit) (m : M Net E A) : Door A :=
  r <- attempt m ;;
  match r with Ok a => ret a | Err _ => throw x end.

Definition json_error (e : str) : str := to_string (json_object [("error", json_string e)]).
Definition ok_200 (fields : list (string * JValue)) : Response := mkResponse "200 OK" (to_string (json_object fields)).
Definition bad_request (body : string) : Response := mkResponse "400 Bad Request" (json_text body).
Definition failed (e : str) : Response := mkResponse "400 Bad Request" (json_error e).

(** The second piece of the request between empty lines, if there is one. *)
Definition body_of (req : str) : str := default [] (split CRLF2 req !! 1%nat).

Definition text (v : JValue) (k : string) : str := default [] (as_str (index v k)).
Definition hex_field (v : JValue) (k : string) : bytes :=
  default [] (hex_decode (show (trim_start_matches (bstr "0x") (text v k)))).
Definition number (v : JValue) (k : string) : Z := default 0 (as_u64 (index v k)).

(** Every [POST] route parses the body first. *)
Definition with_json (req : str) (k : JValue -> Door Response) : Door Response :=
  match from_str (body_of req) with
  | Some v => k v
  | None => ret (bad_request "{'error':'bad json'}")
  end.

Definition challenge_route (line : str) : Door Response :=
  block <- or_stop Stopped at_latest ;;
  let '(block_number, block_hash) := block in
  let q := default [] (split (bstr " ") (default [] (split (bstr "?") line !! 1%nat)) !! 0%nat) in
  let controller := default [] (find_map (strip_prefix (bstr "account=")) (split (bstr "&") q)) in
  let controller := if (length controller =? 64)%nat then controller else bstr (hex_encode (account_of signer)) in
  genesis <- gets (fun s => genesis_hash (node s)) ;;
  ret (ok_200 [("genesis", json_string (bstr (hex_encode genesis))); ("controller", json_string controller);
               ("block", json_number block_number); ("hash", json_string (bstr (hex_encode block_hash)))]).

Definition prepare_route (req : str) : Door Response :=
  with_json req (fun v =>
    let account := hex_field v "account" in
    let pubkey := hex_field v "pubkey" in
    let signature := hex_field v "signature" in
    let signed_at_block := number v "signed_at_block" in
    let label := text v "label" in
    if negb (length account =? 32)%nat || bool_decide (pubkey = []) || bool_decide (signature = []) ||
       (signed_at_block =? 0)
    then ret (bad_request "{'error':'account, pubkey, signature, signed_at_block required'}")
    else
      let tx := Runtime.CallRegistry (Registry.RegisterAgent pubkey signature signed_at_block 1 (bstr "door") label) in
      partial <- attempt (create_partial_signed account tx) ;;
      match partial with
      | Err e => ret (failed (subxt_text e))
      | Ok partial =>
          let payload := hex_encode (signer_payload partial) in
          n <- gets (fun s => size (pending s)) ;;
          let token := bstr "p" ++ show_N (N.of_nat n) in
          modify (fun s => mkState (<[token := partial]> (pending s)) (node s)) ;;;
          ret (ok_200 [("token", json_string token); ("payload", json_string (bstr payload))])
      end).

Definition finish_route (req : str) : Door Response :=
  with_json req (fun v =>
    let token := text v "token" in
    let sigb := hex_field v "signature" in
    let account := hex_field v "account" in
    if negb (length sigb =? 64)%nat || negb (length account =? 32)%nat
    then ret (bad_request "{'error':'account and 64-byte signature required'}")
    else
      found <- gets (fun s => pending s !! token) ;;
      match found with
      | None => ret (bad_request "{'error':'unknown token'}")
      | Some partial =>
          modify (fun s => mkState (delete token (pending s)) (node s)) ;;;
          let submitted := sign_with_address_and_signature partial account sigb in
          or_stop Panicked (rpc_from_url (var_or env "CHAIN_WS" (bstr "ws://127.0.0.1:9944"))) ;;;
          dry <- call (fun s => match system_dryRun (bstr "0x" ++ bstr (hex_encode (encoded submitted))) (node s) with
                                (t, n) => (t, mkState (pending s) n) end) ;;
          r <- attempt (submit_extrinsic submitted) ;;
          match r with
          | Ok h => ret (ok_200 [("status", json_string (bstr "submitted"));
                                 ("hash", json_string (bstr (hex_encode h))); ("dry", json_string dry)])
          | Err e => ret (failed (subxt_text e))
          end
      end).

Definition FUND_DEFAULT : Balance := 101000000000000.
Definition fund_amount : Balance := default FUND_DEFAULT (env "FUND_AMOUNT" ≫= parse_uint u128_max).

Definition fund_route (req : str) : Door Response :=
  with_json req (fun v =>
    let account := hex_field v "account" in
    if negb (length account =? 32)%nat
    then ret (bad_request "{'error':'account must be 32-byte hex'}")
    else
      r <- attempt (transfer_keep_alive (account_of signer) account fund_amount) ;;
      match r with
      | Ok _ => ret (mkResponse "200 OK" (json_text "{'status':'funded'}"))
      | Err e => ret (failed (subxt_text e))
      end).

Definition submit_route (req : str) : Door Response :=
  with_json req (fun v =>
    let tx_hex := trim_start_matches (bstr "0x") (trim (text v "tx")) in
    let bytes := default [] (hex_decode (show tx_hex)) in
    if bool_decide (bytes = [])
    then ret (bad_request "{'error':'tx hex required'}")
    else
      r <- attempt (author_submitExtrinsic (bstr "0x" ++ tx_hex)) ;;
      match r with
      | Ok h => ret (ok_200 [("status", json_string (bstr "submitted")); ("hash", json_string h)])
      | Err e => ret (failed (subxt_text e))
      end).

Definition register_route (req : str) : Door Response :=
  with_json req (fun v =>
    let pubkey := hex_field v "pubkey" in
    let signature := hex_field v "signature" in
    let signed_at_block := number v "signed_at_block" mod 2 ^ 32 in
    let label := text v "label" in
    if bool_decide (pubkey = []) || bool_decide (signature = []) || (signed_at_block =? 0)
    then ret (bad_request "{'error':'pubkey, signature, signed_at_block required'}")
    else
      r <- attempt (RegistryClient.submit_signed_registration sign_and_submit (account_of signer)
                      pubkey signature signed_at_block 1 (bstr "door") label) ;;
      match r with
      | Ok d => ret (ok_200 [("did", json_string (bstr (hex_encode d))); ("status", json_string (bstr "submitted"))])
      | Err e => ret (failed (client_text e))
      end).

(** One request, decoded. *)
Definition handle (req : str) : Door Response :=
  let line := default [] (head (lines req)) in
  if starts_with (bstr "GET /v1/register/challenge") line then challenge_route line
  else if starts_with (bstr "POST /v1/prepare") line then prepare_route req
  else if starts_with (bstr "POST /v1/finish") line then finish_route req
  else if starts_with (bstr "POST /v1/fund") line then fund_route req
  else if starts_with (bstr "POST /v1/submit") line then submit_route req
  else if starts_with (bstr "POST /v1/register") line then register_route req
  else ret (mkResponse "404 Not Found" (json_text "{'error':'not found'}")).

Context (overflow_checks : bool).

(** One connection; a failed [accept] and an empty request get no response. *)
Definition serve_one (incoming : option (list str)) : Door (option str) :=
  match incoming with
  | None => ret None
  | Some conn =>
      match read_loop overflow_checks conn [] with
      | Err x => throw x
      | Ok buf =>
          if bool_decide (buf = []) then ret None
          else
            r <- handle (from_utf8_lossy buf) ;;
            ret (Some (respond r))
      end
  end.

(** The [for] over incoming connections, with the responses in order. *)
Fixpoint serve (incoming : list (option (list str))) : Door (list (option str)) :=
  match incoming with
  | [] => ret []
  | c :: incoming =>
      r <- serve_one c ;;
      rs <- serve incoming ;;
      ret (r :: rs)
  end.
End Server.
End Door.
