(* ===== verification/DoorTheory.v ===== *)
(** * DoorTheory: reading requests and handling them

    Lemmas about [Door]: what the read loop returns, what each route does with the
    pending extrinsics and the node, and how the door parses what [serde_json] prints. *)

From stdpp Require Import base gmap list strings pretty.
From Stdlib Require Import ZArith NArith Lia.
From S2P Require Import Prelude RustStr Frame Merkle AgentRegistry VectorDb Runtime Offchain Keystore RegistryClient Cli CliTheory Door.

Local Open Scope arth_scope.

Module DoorTheory.
Import Door.

(** ** The read loop *)

Lemma read_loop_bounded oc k conn buf m :
  Forall (fun c : str => (length c <= k)%nat) conn -> (length buf <= Z.to_nat MAX_REQUEST)%nat ->
  read_loop oc conn buf = Ok m -> (length m <= Z.to_nat MAX_REQUEST + k)%nat.
Proof.
  intros Hc. revert buf. induction Hc as [|c conn Hk _ IH]; intros buf Hb; cbn [read_loop].
  { intros [= <-]. lia. }
  destruct c as [|x c]; [intros [= <-]; lia|].
  assert (length (buf ++ x :: c) <= Z.to_nat MAX_REQUEST + k)%nat as Hl by (rewrite length_app; lia).
  assert ((if MAX_REQUEST <? Z.of_nat (length (buf ++ x :: c)) then Ok (buf ++ x :: c)
           else read_loop oc conn (buf ++ x :: c)) = Ok m -> (length m <= Z.to_nat MAX_REQUEST + k)%nat) as Hn.
  { destruct (MAX_REQUEST <? _) eqn:E; [intros [= <-]; done|]. apply IH. apply Z.ltb_ge in E. lia. }
  destruct (position CRLF2 _) as [i|]; [|done].
  destruct (request_end _ _ _) as [n|]; [|done].
  destruct (_ || _); [intros [= <-]; done|done].
Qed.

Lemma read_loop_release conn buf : is_ok (read_loop false conn buf) = true.
Proof.
  revert buf. induction conn as [|c conn IH]; intros buf; cbn [read_loop]; [done|].
  destruct c as [|x c]; [done|].
  assert (is_ok (if MAX_REQUEST <? Z.of_nat (length (buf ++ x :: c)) then Ok (buf ++ x :: c)
                 else read_loop false conn (buf ++ x :: c)) = true) as Hn by (by destruct (MAX_REQUEST <? _)).
  destruct (position CRLF2 _) as [i|]; [|done].
  unfold request_end. destruct (_ <=? u64_max); destruct (_ || _); done.
Qed.

(** A message whose head announces the length of its body. *)
Definition framed (head body : str) : Prop :=
  position CRLF2 (head ++ CRLF2 ++ body) = Some (length head) /\
  content_length head = Z.of_nat (length body) /\
  Z.of_nat (length (head ++ CRLF2 ++ body)) <= MAX_REQUEST.

(** However a framed message is cut into reads, the loop returns it. *)
Lemma read_loop_framed oc head body conn buf :
  framed head body -> Forall (fun c : str => c <> []) conn ->
  buf ++ concat conn = head ++ CRLF2 ++ body -> conn <> [] ->
  read_loop oc conn buf = Ok (head ++ CRLF2 ++ body).
Proof.
  set (m := head ++ CRLF2 ++ body). intros (Hpos & Hcl & Hlen) Hc. revert buf.
  fold m in Hpos, Hlen.
  induction Hc as [|c conn Hne Hall IH]; intros buf Hm Hconn; [done|].
  destruct c as [|x c]; [done|]. set (t := x :: c) in *. cbn [read_loop concat] in *. fold t.
  assert (buf ++ t ++ concat conn = (buf ++ t) ++ concat conn) as Ha by apply app_assoc. rewrite Ha in Hm.
  assert (Z.of_nat (length (buf ++ t)) <= MAX_REQUEST) as Hle.
  { pose proof (f_equal length Hm) as Hl. rewrite length_app in Hl. lia. }
  assert ((MAX_REQUEST <? Z.of_nat (length (buf ++ t))) = false) as -> by (apply Z.ltb_ge; lia).
  assert (conn = [] -> buf ++ t = m) as Hend by (intros ->; by rewrite <- Hm, app_nil_r).
  assert (read_loop oc conn (buf ++ t) = Ok m) as Hnext.
  { destruct conn as [|c' conn]; [by rewrite <- Hend|]. by apply IH. }
  destruct (position CRLF2 (buf ++ t)) as [i|] eqn:Ep; [|done].
  pose proof (position_app _ _ (concat conn) _ Ep) as Ei. rewrite Hm, Hpos in Ei. injection Ei as <-.
  assert (take (length head) (buf ++ t) = head) as ->.
  { pose proof (position_bound _ _ _ Ep). rewrite <- (take_app_le (buf ++ t) (concat conn)) by (cbn in *; lia).
    rewrite Hm. apply take_app_length. }
  unfold request_end. rewrite Hcl.
  assert (length m = length head + 4 + length body)%nat as Hlm by (unfold m; rewrite !length_app; cbn; lia).
  destruct (_ <=? u64_max) eqn:E64; [|apply Z.leb_gt in E64; unfold u64_max, MAX_REQUEST in *; lia].
  rewrite orb_false_r. destruct (_ <=? Z.of_nat (length (buf ++ t))) eqn:El; [|done].
  apply Z.leb_le in El. pose proof (f_equal length Hm) as Hl. rewrite length_app in Hl.
  assert (length (concat conn) = 0)%nat as Hz%nil_length_inv by lia.
  by rewrite <- Hm, Hz, app_nil_r.
Qed.

(** An announced length near the top of [usize] overflows. *)
Lemma read_loop_overflow t conn i :
  t <> [] -> position CRLF2 t = Some i -> u64_max < Z.of_nat i + 4 + content_length (take i t) ->
  read_loop true (t :: conn) [] = Err Panicked.
Proof.
  intros Ht Hp Hov. destruct t as [|x t]; [done|]. cbn [read_loop app]. rewrite Hp.
  unfold request_end. by apply Z.leb_gt in Hov as ->.
Qed.

(** ** Routes *)

Section Routes.
Context {Net : Type} `{DoorNode Net} `{SerdeJson} `{Hex} `{Blake2} `{Sr25519}.
Context (env : Env).
Implicit Types s : State (Net := Net).

Lemma attempt_run {E A} (m : M Net E A) s r s' :
  attempt (Net := Net) m s = (Ok r, s') -> m (node s) = (r, node s') /\ pending s' = pending s.
Proof. unfold attempt. destruct (m (node s)) as [r' n]. intros Hr. by simplify_eq. Qed.

Lemma or_stop_run {E A} x (m : M Net E A) s a s' :
  or_stop (Net := Net) x m s = (Ok a, s') -> m (node s) = (Ok a, node s') /\ pending s' = pending s.
Proof.
  unfold or_stop. intros (r & s1 & [Hm Hp]%attempt_run & Hr)%bind_ok_inv.
  destruct r as [a'|e]; frame_inv; done.
Qed.

(** The token of the next prepared extrinsic. *)
Definition token_of (n : nat) : str := bstr "p" ++ show_N (N.of_nat n).

#[global] Instance token_of_inj : Inj (=) (=) token_of.
Proof.
  intros a b E. apply (inj (app (bstr "p"))) in E. unfold show_N in E.
  apply (f_equal show) in E. rewrite !show_bstr in E. apply (inj pretty) in E. lia.
Qed.

(** What a prepare request asks to be signed. *)
Definition prepare_call (v : JValue) : Runtime.RuntimeCall :=
  Runtime.CallRegistry (Registry.RegisterAgent (hex_field v "pubkey") (hex_field v "signature")
                          (number v "signed_at_block") 1 (bstr "door") (text v "label")).
Definition prepare_complete (v : JValue) : Prop :=
  length (hex_field v "account") = 32%nat /\ hex_field v "pubkey" <> [] /\ hex_field v "signature" <> [] /\
  number v "signed_at_block" <> 0.

Lemma prepare_run req v s partial n :
  from_str (body_of req) = Some v -> prepare_complete v ->
  create_partial_signed (hex_field v "account") (prepare_call v) (node s) = (Ok partial, n) ->
  prepare_route req s =
    (Ok (ok_200 [("token", json_string (token_of (size (pending s))));
                 ("payload", json_string (bstr (hex_encode (signer_payload partial))))]),
     mkState (<[token_of (size (pending s)) := partial]> (pending s)) n).
Proof.
  intros Hv (Ha & Hp & Hs & Hb) Hc. unfold prepare_route, with_json. rewrite Hv, Ha.
  apply Z.eqb_neq in Hb. rewrite Hb, !bool_decide_eq_false_2 by done. cbv beta iota delta [negb orb Nat.eqb].
  unfold bind, attempt, gets, modify, ret. unfold prepare_call in Hc. rewrite Hc. done.
Qed.

Definition submitted (h : bytes) (dry : str) : Response :=
  ok_200 [("status", json_string (bstr "submitted")); ("hash", json_string (bstr (hex_encode h))); ("dry", json_string dry)].

(** A successful finish is one connection, one dry run and one submission of the
    extrinsic kept under the token, in this order, and spends the token. *)
Lemma finish_inv req s r s' :
  finish_route env req s = (Ok r, s') -> resp_status r = "200 OK" ->
  exists v partial dry h n1 n2 n', from_str (body_of req) = Some v /\
    pending s !! text v "token" = Some partial /\
    let x := sign_with_address_and_signature partial (hex_field v "account") (hex_field v "signature") in
    rpc_from_url (var_or env "CHAIN_WS" (bstr "ws://127.0.0.1:9944")) (node s) = (Ok tt, n1) /\
    system_dryRun (bstr "0x" ++ bstr (hex_encode (encoded x))) n1 = (dry, n2) /\
    submit_extrinsic x n2 = (Ok h, n') /\
    r = submitted h dry /\ s' = mkState (delete (text v "token") (pending s)) n'.
Proof.
  unfold finish_route, with_json. destruct (from_str _) as [v|]; [|intros [= <- _]; done].
  destruct (_ || _); [intros [= <- _]; done|].
  unfold bind at 1, gets. destruct (pending s !! text v "token") as [partial|] eqn:Hp; [|intros [= <- _]; done].
  unfold bind at 1, modify. intros ([] & s1 & [Hrpc Hs1]%or_stop_run & (dry & s2 & Hd%call_ok_inv & Hr)%bind_ok_inv)%bind_ok_inv.
  destruct (system_dryRun _ _) as [t n] eqn:Hdry. injection Hd as <- <-.
  apply bind_ok_inv in Hr as (r' & s3 & [Hm Hs3]%attempt_run & Hr). cbn in Hs1, Hs3, Hm.
  destruct r' as [h|e]; [|injection Hr as <- _; done]. injection Hr as <- <-. intros _.
  exists v, partial, t, h, (node s1), n, (node s3). split_and!; try done. destruct s3 as [p3 n3]. cbn in *. by rewrite Hs3, Hs1.
Qed.

(** Without an extrinsic under its token a finish request changes nothing. *)
Lemma finish_unknown req s v :
  from_str (body_of req) = Some v -> pending s !! text v "token" = None ->
  exists body, finish_route env req s = (Ok (mkResponse "400 Bad Request" body), s).
Proof.
  intros Hv Hn. unfold finish_route, with_json. rewrite Hv. destruct (_ || _); [by eexists|].
  unfold bind, gets. rewrite Hn. by eexists.
Qed.

(** ** Requests as they arrive *)

Definition CRLF : str := [Byte.x0d; Byte.x0a].

(** The head of a request: its first line and the header lines. *)
Definition http_head (method path hdrs : str) : str :=
  (method ++ bstr " " ++ path ++ bstr " HTTP/1.1") ++ CRLF ++ hdrs.

Lemma request_line method path hdrs body :
  Byte.x0a ∉ method -> Byte.x0a ∉ path ->
  head (lines (http_head method path hdrs ++ CRLF2 ++ body)) = Some (method ++ bstr " " ++ path ++ bstr " HTTP/1.1").
Proof.
  intros Hm Hp. unfold http_head. rewrite <- (app_assoc _ (CRLF ++ hdrs)), <- (app_assoc CRLF). apply first_line.
  rewrite !elem_of_app. cut ((Byte.x0a ∉ bstr " ") /\ (Byte.x0a ∉ bstr " HTTP/1.1")); [tauto|].
  split; by apply (bool_decide_unpack (_ ∉ _)).
Qed.

Lemma request_body head body :
  position CRLF2 (head ++ CRLF2 ++ body) = Some (length head) -> Byte.x0d ∉ body ->
  body_of (head ++ CRLF2 ++ body) = body.
Proof.
  intros Hp Hb. unfold body_of. destruct (split_some CRLF2 _ _ ltac:(done) Hp) as (rest & -> & ->).
  cbn [lookup list_lookup]. rewrite app_assoc, (drop_app_length' (head ++ CRLF2)) by (rewrite length_app; cbn; lia).
  rewrite split_fuel_none; [done|]. by apply position_absent.
Qed.

Lemma printable_no_cr (t : str) : Forall (fun x => (32 <= code x)%N) t -> Byte.x0d ∉ t.
Proof. intros Hs Hin. eapply Forall_forall in Hs; [|done]. cbn in Hs. lia. Qed.

(** However it is cut, a framed request is handled as a whole. *)
Lemma serve_request oc head body conn s :
  framed head body -> forallb is_ascii head = true -> from_utf8_lossy body = body ->
  Forall (fun c : str => c <> []) conn -> concat conn = head ++ CRLF2 ++ body ->
  serve_one env oc (Some conn) s =
    (r <- handle env (head ++ CRLF2 ++ body) ;; ret (Some (respond r))) s.
Proof.
  intros Hf Ha Hb Hc Hm. unfold serve_one.
  rewrite (read_loop_framed oc head body conn [] Hf Hc Hm) by (intros ->; by destruct head).
  rewrite bool_decide_eq_false_2 by (by destruct head).
  by rewrite lossy_app_ascii, (lossy_app_ascii CRLF2), Hb.
Qed.

(** ** Fields *)

Section Fields.
Context `{!SerdeJsonLaws} `{!HexLaws} `{!HexTextLaws}.

Lemma text_field fs k t : NoDup fs.*1 -> (k, json_string t) ∈ fs -> text (json_object fs) k = t.
Proof. intros. unfold text. erewrite index_object by done. by rewrite as_str_string. Qed.

Lemma hex_field_ok fs k b :
  NoDup fs.*1 -> (k, json_string (bstr (hex_encode b))) ∈ fs -> hex_field (json_object fs) k = b.
Proof.
  intros Hn Hin. unfold hex_field. erewrite text_field by done. by rewrite strip_0x_hex, show_bstr, hex_decode_encode.
Qed.

Lemma number_field fs k z : NoDup fs.*1 -> (k, json_number z) ∈ fs -> in_u64 z -> number (json_object fs) k = z.
Proof. intros. unfold number. erewrite index_object by done. by rewrite as_u64_number. Qed.
End Fields.

(** ** The two routes a registration takes *)

Lemma challenge_run s b h n :
  at_latest (node s) = (Ok (b, h), n) ->
  challenge_route (bstr "GET /v1/register/challenge HTTP/1.1") s =
    (Ok (ok_200 [("genesis", json_string (bstr (hex_encode (genesis_hash n))));
                 ("controller", json_string (bstr (hex_encode (account_of signer))));
                 ("block", json_number b); ("hash", json_string (bstr (hex_encode h)))]),
     mkState (pending s) n).
Proof.
  intros Hat. unfold challenge_route, or_stop, bind, attempt. rewrite Hat. unfold ret, gets. done.
Qed.

(** A challenge for an account of the client's own. *)
Lemma challenge_account_run `{!HexTextLaws} s b h n account :
  len32 account -> at_latest (node s) = (Ok (b, h), n) ->
  challenge_route (bstr "GET /v1/register/challenge?account=" ++ bstr (hex_encode account) ++ bstr " HTTP/1.1") s =
    (Ok (ok_200 [("genesis", json_string (bstr (hex_encode (genesis_hash n))));
                 ("controller", json_string (bstr (hex_encode account)));
                 ("block", json_number b); ("hash", json_string (bstr (hex_encode h)))]),
     mkState (pending s) n).
Proof.
  intros Ha Hat. set (t := bstr (hex_encode account)).
  assert (forall x, hex_char x = false -> x ∉ t) as Hno.
  { intros x Hx Hin%list_elem_of_In. pose proof (hex_text account) as Ht. eapply forallb_forall in Ht; [|exact Hin]. congruence. }
  assert (split (bstr "?") (bstr "GET /v1/register/challenge?account=" ++ t ++ bstr " HTTP/1.1") !! 1%nat =
    Some (bstr "account=" ++ t ++ bstr " HTTP/1.1")) as Hq.
  { change (bstr "GET /v1/register/challenge?account=" ++ t ++ bstr " HTTP/1.1") with
      (bstr "GET /v1/register/challenge" ++ Byte.x3f :: (bstr "account=" ++ t ++ bstr " HTTP/1.1")).
    change (bstr "?") with [Byte.x3f]. rewrite split_at; [done|by apply (bool_decide_unpack (_ ∉ _))|].
    rewrite !elem_of_app. intros [Hx|[Hx|Hx]]; [|by apply (Hno Byte.x3f) in Hx|];
      revert Hx; by apply (bool_decide_unpack (_ ∉ _)). }
  assert (split (bstr " ") (bstr "account=" ++ t ++ bstr " HTTP/1.1") !! 0%nat = Some (bstr "account=" ++ t)) as Hs.
  { rewrite app_assoc. change (bstr " HTTP/1.1") with (Byte.x20 :: bstr "HTTP/1.1"). change (bstr " ") with [Byte.x20].
    rewrite split_at; [done| |by apply (bool_decide_unpack (_ ∉ _))].
    rewrite elem_of_app. intros [Hx|Hx]; [revert Hx; by apply (bool_decide_unpack (_ ∉ _))|by apply (Hno Byte.x20) in Hx]. }
  assert (find_map (strip_prefix (bstr "account=")) (split (bstr "&") (bstr "account=" ++ t)) = Some t) as Hc.
  { change (bstr "&") with [Byte.x26]. rewrite split_absent.
    - cbn [find_map]. unfold strip_prefix. rewrite starts_with_self. by rewrite drop_app_length.
    - rewrite elem_of_app. intros [Hx|Hx]; [revert Hx; by apply (bool_decide_unpack (_ ∉ _))|by apply (Hno Byte.x26) in Hx]. }
  unfold challenge_route, or_stop, bind, attempt. rewrite Hat. unfold ret, gets. rewrite Hq. cbn [default from_option id].
  rewrite Hs. cbn [default from_option id]. rewrite Hc. cbn [default from_option id].
  unfold t at 1. by rewrite hex_text_length, Ha.
Qed.

(** Funding, and the finishing of a prepared registration. *)
Definition funded : Response := mkResponse "200 OK" (json_text "{'status':'funded'}").

Lemma fund_run req v s n :
  from_str (body_of req) = Some v -> length (hex_field v "account") = 32%nat ->
  transfer_keep_alive (account_of signer) (hex_field v "account") (fund_amount env) (node s) = (Ok tt, n) ->
  fund_route env req s = (Ok funded, mkState (pending s) n).
Proof.
  intros Hv Ha Ht. unfold fund_route, with_json. rewrite Hv, Ha. cbn [negb Nat.eqb]. unfold bind, attempt. by rewrite Ht.
Qed.

Lemma finish_run req v s partial dry h n :
  from_str (body_of req) = Some v -> length (hex_field v "signature") = 64%nat -> length (hex_field v "account") = 32%nat ->
  pending s !! text v "token" = Some partial ->
  let x := sign_with_address_and_signature partial (hex_field v "account") (hex_field v "signature") in
  rpc_from_url (var_or env "CHAIN_WS" (bstr "ws://127.0.0.1:9944")) (node s) = (Ok tt, node s) ->
  system_dryRun (bstr "0x" ++ bstr (hex_encode (encoded x))) (node s) = (dry, node s) ->
  submit_extrinsic x (node s) = (Ok h, n) ->
  finish_route env req s = (Ok (submitted h dry), mkState (delete (text v "token") (pending s)) n).
Proof.
  intros Hv Hs Ha Hp x Hrpc Hdry Hsub. unfold finish_route, with_json. rewrite Hv, Hs, Ha. cbn [negb Nat.eqb orb].
  unfold bind at 1, gets. rewrite Hp. unfold bind at 1, modify. unfold bind, or_stop, bind, attempt, call. cbn [node pending].
  rewrite Hrpc. unfold ret. fold x. cbn [node pending]. rewrite Hdry. cbn [node pending]. by rewrite Hsub.
Qed.

Lemma register_run req v s d n :
  from_str (body_of req) = Some v ->
  hex_field v "pubkey" <> [] -> hex_field v "signature" <> [] -> number v "signed_at_block" mod 2 ^ 32 <> 0 ->
  RegistryClient.submit_signed_registration sign_and_submit (account_of signer) (hex_field v "pubkey")
    (hex_field v "signature") (number v "signed_at_block" mod 2 ^ 32) 1 (bstr "door") (text v "label") (node s) = (Ok d, n) ->
  register_route req s =
    (Ok (ok_200 [("did", json_string (bstr (hex_encode d))); ("status", json_string (bstr "submitted"))]),
     mkState (pending s) n).
Proof.
  intros Hv Hp Hs Hb%Z.eqb_neq Hr. unfold register_route, with_json. rewrite Hv, Hb, !bool_decide_eq_false_2 by done.
  cbv beta iota delta [orb]. unfold bind, attempt. by rewrite Hr.
Qed.
End Routes.
End DoorTheory.
