(* ===== verification/RegisterMe.v ===== *)
(** * RegisterMe: [offchain-agent-registry/src/bin/register-me.rs]

    The stranger's side of the door: make a key, fetch a challenge, sign it, and ask the
    door to register it, either under the door's own account or, with
    [OWN_CONTROLLER=1], under a fresh account the door funds. *)

From stdpp Require Import base gmap list strings pretty.
From Stdlib Require Import ZArith NArith Lia.
From S2P Require Import Prelude RustStr Frame Merkle AgentRegistry VectorDb Runtime Offchain Keystore RegistryClient Cli Door.

Local Open Scope arth_scope.

Module RegisterMe.

Section Main.
Context {Net : Type}.
Context `{SerdeJson} `{Hex} `{Blake2} `{ScaleCodec} `{MlDsaSigner} `{Keystore.Crypto} `{Sr25519}.
(** The [curl] program on its arguments: whether it could be started and succeeded, and
    its standard output. *)
Context (curl : list str -> Net -> option (bool * str) * Net).
(** [Keypair::sign] and the debug format of a path. *)
Context (sr25519_sign : Keypair -> bytes -> bytes) (debug_path : string -> str).
Context (env : Env).

Abbreviation Main A := (M (Process Net) (Exit unit) A).

Definition on_disk {E A} (m : M Fs E A) : Main A := fun p =>
  match m (files (machine p)) with
  | (Ok a, fs) => (Ok a, mkProcess (mkMachine fs (net (machine p))) (stdout p))
  | (Err _, fs) => (Err Panic, mkProcess (mkMachine fs (net (machine p))) (stdout p))
  end.

Definition http (method : string) (path body : str) : Main str :=
  let door := match env "DOOR" with Some d => d | None => var_or env "DOOR_URL" (bstr "http://127.0.0.1:8790") end in
  let base := if starts_with (bstr "http://") door || starts_with (bstr "https://") door then door
              else bstr "http://" ++ door in
  let url := base ++ path in
  let args := [bstr "-sf"; bstr "-X"; bstr method; url] ++
              (if bool_decide (body = []) then []
               else [bstr "-H"; bstr "content-type: application/json"; bstr "-d"; body]) in
  out <- call (fun p => match curl args (net (machine p)) with
                        (o, n) => (o, mkProcess (mkMachine (files (machine p)) n) (stdout p)) end) ;;
  out <- ok_or out Panic ;;
  ensure out.1 Panic ;;;
  ensure (bool_decide (from_utf8_lossy out.2 = out.2)) Panic ;;;
  ret out.2.

(** [hex::decode(v[k].as_str().unwrap()).unwrap()], copied into an array of 32 bytes. *)
Definition array32 (v : JValue) (k : string) : Main bytes :=
  s <- ok_or (as_str (index v k)) Panic ;;
  b <- ok_or (hex_decode (show s)) Panic ;;
  ensure (length b =? 32)%nat Panic ;;;
  ret b.

(** The block number and the challenge a door's answer describes for [d]. *)
Definition read_challenge (d : Did) (ch : JValue) : Main (Z * bytes) :=
  g <- array32 ch "genesis" ;;
  c <- array32 ch "controller" ;;
  h <- array32 ch "hash" ;;
  block <- ok_or (as_u64 (index ch "block")) Panic ;;
  let block := block mod 2 ^ 32 in
  ret (block, RegistryClient.challenge g d c block h).

Definition json_answer (text : str) : Main JValue := ok_or (from_str text) Panic.

(** The [OWN_CONTROLLER] branch.  [account_seed] and the salts and nonces are what the
    random number generator gives. *)
Definition own_controller (signing_key : SigningKey) (pubkey : bytes) (d : Did) (label pass : str)
    (dir key_label : string) (account_seed : option bytes) (rng1 rng2 : option bytes * option bytes) : Main unit :=
  account_seed <- ok_or account_seed Panic ;;
  account <- ok_or (from_secret_key account_seed) Panic ;;
  let account_hex := bstr (hex_encode (account_of account)) in
  funded <- http "POST" (bstr "/v1/fund") (to_string (json_object [("account", json_string account_hex)])) ;;
  println (bstr "FUND=" ++ funded) ;;;
  ch <- http "GET" (bstr "/v1/register/challenge?account=" ++ account_hex) [] ;;
  ch <- json_answer ch ;;
  signed <- read_challenge d ch ;;
  let '(block, challenge) := signed in
  let mldsa := encode_signature (mldsa_sign signing_key challenge) in
  prep <- http "POST" (bstr "/v1/prepare")
    (to_string (json_object [("account", json_string account_hex); ("pubkey", json_string (bstr (hex_encode pubkey)));
                             ("signature", json_string (bstr (hex_encode mldsa)));
                             ("signed_at_block", json_number block); ("label", json_string label)])) ;;
  prep <- json_answer prep ;;
  if has_key prep "error" then println (bstr "PREPARE=" ++ to_string prep)
  else
    payload <- ok_or (as_str (index prep "payload")) Panic ;;
    payload <- ok_or (hex_decode (show payload)) Panic ;;
    let msg := if (256 <? length payload)%nat then blake2_256 payload else payload in
    let sig := sr25519_sign account msg in
    done <- http "POST" (bstr "/v1/finish")
      (to_string (json_object [("token", index prep "token"); ("account", json_string account_hex);
                               ("signature", json_string (bstr (hex_encode sig)))])) ;;
    on_disk (Keystore.save_identity rng1.1 rng1.2 dir key_label d (signing_key_to_bytes signing_key) (show pass)) ;;;
    on_disk (Keystore.save_identity rng2.1 rng2.2 dir (key_label +:+ "-account") d account_seed (show pass)) ;;;
    on_disk (Fs.write dir "controller.seed" (bstr (hex_encode account_seed))) ;;;
    on_disk (Fs.write dir "owner.did" (bstr (hex_encode d))) ;;;
    println (bstr "DID=0x" ++ bstr (hex_encode d)) ;;;
    println (bstr "CONTROLLER_SEED_FILE=" ++ debug_path (path_join dir "controller.seed")) ;;;
    println (bstr "FINISH=" ++ done).

Definition main (signing_key : SigningKey) (account_seed : option bytes)
    (rng1 rng2 : option bytes * option bytes) : Main unit :=
  let label := var_or env "LABEL" (bstr "me") in
  let dir := match env "KEYSTORE_DIR" with
             | Some s => show s
             | None => show (var_or env "HOME" (bstr "/tmp")) +:+ "/agents/me"
             end in
  on_disk (Fs.create_dir_all dir) ;;;
  let pubkey := encode_verifying_key (verifying_key signing_key) in
  let d := RegistryClient.derive_did pubkey in
  ch <- http "GET" (bstr "/v1/register/challenge") [] ;;
  ch <- json_answer ch ;;
  signed <- read_challenge d ch ;;
  let '(block, challenge) := signed in
  let signature := encode_signature (mldsa_sign signing_key challenge) in
  let body := to_string (json_object [("pubkey", json_string (bstr (hex_encode pubkey)));
                                      ("signature", json_string (bstr (hex_encode signature)));
                                      ("signed_at_block", json_number block); ("label", json_string label)]) in
  let pass := var_or env "KEYSTORE_PASS" (bstr "dev-passphrase") in
  let key_label := show (var_or env "KEY_LABEL" (bstr "me")) in
  if bool_decide (env "OWN_CONTROLLER" = Some (bstr "1"))
  then own_controller signing_key pubkey d label pass dir key_label account_seed rng1 rng2
  else
    res <- http "POST" (bstr "/v1/register") body ;;
    on_disk (Keystore.save_identity rng1.1 rng1.2 dir key_label d (signing_key_to_bytes signing_key) (show pass)) ;;;
    println (bstr "DID=0x" ++ bstr (hex_encode d)) ;;;
    println (bstr "KEY=" ++ debug_path (path_join dir (key_label +:+ ".json"))) ;;;
    println res.
End Main.
End RegisterMe.
