(* ===== verification/RegisterMeTheory.v ===== *)
(** * RegisterMeTheory: what the stranger's program writes, and when

    [RegisterMe.own_controller] touches the disk only after the door has answered its
    last request, and what it then leaves there. *)

From stdpp Require Import base gmap list strings pretty.
From Stdlib Require Import ZArith NArith Lia.
From S2P Require Import Prelude RustStr Frame Merkle AgentRegistry VectorDb Runtime Offchain Keystore RegistryClient Cli Door RegisterMe.

Local Open Scope arth_scope.

Module RegisterMeTheory.
Import RegisterMe.

Section Files.
Context {Net : Type}.
Abbreviation Main A := (M (Process Net) (Exit unit) A).

(** No outcome of [m] has changed the disk. *)
Class KeepsFiles {A} (m : Main A) : Prop :=
  keeps_files : forall p, files (machine (m p).2) = files (machine p).

#[global] Instance ret_keeps {A} (a : A) : KeepsFiles (ret a).
Proof. done. Qed.
#[global] Instance ok_or_keeps {A} (o : option A) e : KeepsFiles (ok_or o e).
Proof. intros p. by destruct o. Qed.
#[global] Instance ensure_keeps b e : KeepsFiles (ensure b e).
Proof. intros p. by destruct b. Qed.
#[global] Instance println_keeps line : KeepsFiles (println line).
Proof. done. Qed.
#[global] Instance bind_keeps {A B} (m : Main A) (k : A -> Main B) :
  KeepsFiles m -> (forall a, KeepsFiles (k a)) -> KeepsFiles (bind m k).
Proof.
  intros Hm Hk p. unfold bind. specialize (Hm p). destruct (m p) as [[a|e] p1]; cbn in *; [|done].
  by rewrite (Hk a p1).
Qed.
#[global] Instance let_pair_keeps {A B C} (x : A * B) (k : A -> B -> Main C) :
  (forall a b, KeepsFiles (k a b)) -> KeepsFiles (let '(a, b) := x in k a b).
Proof. by destruct x. Qed.
#[global] Instance if_keeps {A} (b : bool) (m1 m2 : Main A) : KeepsFiles m1 -> KeepsFiles m2 -> KeepsFiles (if b then m1 else m2).
Proof. by destruct b. Qed.

(** What follows a step that never succeeds does not matter. *)
Lemma bind_stuck {A B} (m : Main A) (k : A -> Main B) :
  KeepsFiles m -> (forall p a p', m p <> (Ok a, p')) -> KeepsFiles (bind m k).
Proof.
  intros Hm Hn p. unfold bind. specialize (Hm p). destruct (m p) as [[a|e] p1] eqn:E; [by apply Hn in E|done].
Qed.

Lemma kept {A} (m : Main A) p a p' : KeepsFiles m -> m p = (Ok a, p') -> files (machine p') = files (machine p).
Proof. intros Hm Ha. by rewrite <- (Hm p), Ha. Qed.

Lemma bind_kept {A B} (m : Main A) (k : A -> Main B) p b p' :
  KeepsFiles m -> bind m k p = (Ok b, p') -> exists a p1, files (machine p1) = files (machine p) /\ k a p1 = (Ok b, p').
Proof. intros Hm (a & p1 & Ha & Hk)%bind_ok_inv. exists a, p1. split; [|done]. by rewrite <- (Hm p), Ha. Qed.

Lemma on_disk_ok_inv {E A} (m : M Fs E A) (p : Process Net) a p' :
  on_disk m p = (Ok a, p') -> m (files (machine p)) = (Ok a, files (machine p')).
Proof. unfold on_disk. destruct (m _) as [[?|?] fs]; intros Hr; by simplify_eq. Qed.
End Files.

Lemma write_ok_inv dir file b (fs fs' : Fs) :
  Fs.write dir file b fs = (Ok tt, fs') -> exists m, fs !! dir = Some m /\ fs' = <[dir := <[file := b]> m]> fs.
Proof. unfold Fs.write. intros Hr. frame_inv. by eexists. Qed.

Section OwnController.
Context {Net : Type}.
Context `{SerdeJson} `{Hex} `{Blake2} `{ScaleCodec} `{MlDsaSigner} `{Keystore.Crypto} `{Sr25519}.
Context (curl : list str -> Net -> option (bool * str) * Net).
Context (sr25519_sign : Keypair -> bytes -> bytes) (debug_path : string -> str) (env : Env).

#[global] Instance http_keeps method path body : KeepsFiles (http curl env method path body).
Proof.
  unfold http. apply bind_keeps; [|apply _]. intros p. unfold call. by destruct (curl _ _).
Qed.

#[global] Instance array32_keeps v k : KeepsFiles (Net := Net) (array32 v k).
Proof. unfold array32. apply _. Qed.
#[global] Instance read_challenge_keeps d ch : KeepsFiles (Net := Net) (read_challenge d ch).
Proof. unfold read_challenge. apply _. Qed.
#[global] Instance json_answer_keeps t : KeepsFiles (Net := Net) (json_answer t).
Proof. unfold json_answer. apply _. Qed.

(** Without an answer to the finish request nothing is stored. *)
Lemma own_controller_keeps key pubkey d label pass dir key_label seed rng1 rng2 :
  (forall body p a p', http curl env "POST" (bstr "/v1/finish") body p <> (Ok a, p')) ->
  KeepsFiles (own_controller curl sr25519_sign debug_path env key pubkey d label pass dir key_label seed rng1 rng2).
Proof.
  intros Hf. unfold own_controller.
  repeat (apply bind_keeps; [apply _|intros ?]; cbv zeta).
  destruct a5 as [block challenge].
  repeat (apply bind_keeps; [apply _|intros ?]; cbv zeta).
  apply if_keeps; [apply _|].
  do 2 (apply bind_keeps; [apply _|intros ?]; cbv zeta).
  apply bind_stuck; [apply _|apply Hf].
Qed.

(** After a run to the end, the seed of the account is on disk as it is. *)
Lemma own_controller_seed key pubkey d label pass dir key_label seed rng1 rng2 p p' :
  own_controller curl sr25519_sign debug_path env key pubkey d label pass dir key_label seed rng1 rng2 p = (Ok tt, p') ->
  files (machine p') = files (machine p) \/
  exists s account, seed = Some s /\ from_secret_key s = Some account /\ files (machine p') !! dir ≫= lookup "controller.seed" = Some (bstr (hex_encode s)).
Proof.
  unfold own_controller. intros (s & p0 & [Hs ->]%ok_or_ok_inv & Hr)%bind_ok_inv. cbv zeta in Hr.
  apply bind_ok_inv in Hr as (account & p0' & [Ha ->]%ok_or_ok_inv & Hr).
  do 4 (apply bind_kept in Hr as (? & ? & <- & Hr); [|apply _]). apply bind_kept in Hr as ([block challenge] & ? & <- & Hr); [|apply _].
  do 2 (apply bind_kept in Hr as (? & ? & <- & Hr); [|apply _]).
  destruct (has_key _ _).
  { left. by apply kept in Hr; [|apply _]. }
  right. exists s, account. split_and!; [done..|].
  do 3 (apply bind_kept in Hr as (? & ? & _ & Hr); [|apply _]). cbv zeta in Hr.
  do 2 (apply bind_ok_inv in Hr as (? & ? & _ & Hr)).
  apply bind_ok_inv in Hr as ([] & p1 & (m1 & _ & Hw1)%on_disk_ok_inv%write_ok_inv & Hr).
  apply bind_ok_inv in Hr as ([] & p2 & (m2 & Hm2 & Hw2)%on_disk_ok_inv%write_ok_inv & Hr).
  apply bind_kept in Hr as (? & p3 & E3 & Hr); [|apply _]. apply bind_kept in Hr as (? & p4 & E4 & Hr); [|apply _].
  apply kept in Hr; [|apply _]. rewrite Hr, E4, E3, Hw2, fs_lookup_insert.
  rewrite Hw1, fs_lookup_insert in Hm2. simplify_eq. cbn. by rewrite lookup_insert_ne, lookup_insert_eq.
Qed.
End OwnController.
End RegisterMeTheory.
