(* ===== verification/DoorSession.v ===== *)
(** * DoorSession: the stranger and the door together

    [RegisterMe] run against [Door] over an HTTP client: requests arrive in pieces, the
    answers are parsed, and both sides share one node. *)

From stdpp Require Import base gmap list strings pretty.
From Stdlib Require Import ZArith NArith Lia.
From S2P Require Import Prelude RustStr Frame Merkle AgentRegistry VectorDb Runtime Offchain Keystore RegistryClient Cli CliTheory Door DoorTheory RegisterMe.

Local Open Scope arth_scope.

(** The HTTP client [curl]: the bytes of a request, how the network cuts them, and what
    [-f] makes of a response. *)
Class HttpClient := {
  request_bytes : str -> str -> str -> str;
  fragments : str -> list str;
  parse_response : str -> bool * str }.

Class HttpClientLaws `{HttpClient} : Prop := {
  fragments_concat : forall s, concat (fragments s) = s;
  fragments_nonempty : forall s, Forall (fun c => c <> []) (fragments s);
  parse_respond : forall r, Door.resp_status r ∈ ["200 OK"; "400 Bad Request"; "404 Not Found"] ->
    parse_response (Door.respond r) =
      if bool_decide (Door.resp_status r = "200 OK") then (true, Door.resp_body r) else (false, []) }.

Module DoorSession.
Import Door DoorTheory.

Definition DOOR : str := bstr "http://127.0.0.1:8790".

Section Session.
Context {Net : Type} `{DoorNode Net} `{SerdeJson} `{Hex} `{Blake2} `{Sr25519} `{HttpClient}.
Context (door_env : Env) (oc : bool).

(** [curl -sf -X method url [-H .. -d body]] against the door. *)
Definition curl_door (args : list str) (st : State (Net := Net)) : option (bool * str) * State :=
  match args with
  | _ :: _ :: method :: url :: rest =>
      let path := drop (length DOOR) url in
      let body := default [] (rest !! 3%nat) in
      match serve_one door_env oc (Some (fragments (request_bytes method path body))) st with
      | (Ok (Some resp), st') => (Some (parse_response resp), st')
      | (_, st') => (Some (false, []), st')
      end
  | _ => (None, st)
  end.

(** The client sends [body] behind a head that announces it. *)
Definition sends (method path body : str) : Prop :=
  exists hdrs, request_bytes method path body = http_head method path hdrs ++ CRLF2 ++ body /\
    framed (http_head method path hdrs) body /\ forallb is_ascii (http_head method path hdrs) = true.

Context `{!HttpClientLaws}.

(** A request the door answers with [200]. *)
Lemma http_run env method path body (p : Process (State (Net := Net))) r st' :
  env "DOOR" = None -> env "DOOR_URL" = None ->
  sends (bstr method) path body -> from_utf8_lossy body = body ->
  (forall hdrs, let head := http_head (bstr method) path hdrs in
     position CRLF2 (head ++ CRLF2 ++ body) = Some (length head) ->
     handle door_env (head ++ CRLF2 ++ body) (net (machine p)) = (Ok r, st')) ->
  resp_status r = "200 OK" -> from_utf8_lossy (resp_body r) = resp_body r ->
  RegisterMe.http curl_door env method path body p =
    (Ok (resp_body r), mkProcess (mkMachine (files (machine p)) st') (stdout p)).
Proof.
  intros Hd Hu (hdrs & Hreq & Hf & Ha) Hb Hh Hst Hr. specialize (Hh hdrs (proj1 Hf)).
  assert (serve_one door_env oc (Some (fragments (request_bytes (bstr method) path body))) (net (machine p)) =
    (Ok (Some (respond r)), st')) as Hs.
  { rewrite (serve_request door_env oc (http_head (bstr method) path hdrs) body);
      [|done|done|done|apply fragments_nonempty|by rewrite fragments_concat].
    unfold bind. by rewrite Hh. }
  unfold RegisterMe.http, var_or. rewrite Hd, Hu. cbn [default from_option id].
  change (starts_with (bstr "http://") (bstr "http://127.0.0.1:8790") || _) with true. cbv iota.
  unfold bind, call, curl_door. cbn [app]. fold DOOR. rewrite (drop_app_length DOOR).
  assert (default [] ((if bool_decide (body = []) then []
    else [bstr "-H"; bstr "content-type: application/json"; bstr "-d"; body]) !! 3%nat) = body) as ->.
  { case_bool_decide as E; [by rewrite E|done]. }
  rewrite Hs, parse_respond by (rewrite Hst; set_solver). rewrite bool_decide_eq_true_2 by done.
  unfold ok_or, ret, ensure. cbn [fst snd]. rewrite bool_decide_eq_true_2 by done. done.
Qed.

(** A [POST] request whose body is [v]. *)
Lemma post_run `{!SerdeJsonLaws} env path v (p : Process (State (Net := Net))) r st' :
  env "DOOR" = None -> env "DOOR_URL" = None -> sends (bstr "POST") path (to_string v) -> Byte.x0a ∉ path ->
  (forall req, head (lines req) = Some (bstr "POST" ++ bstr " " ++ path ++ bstr " HTTP/1.1") ->
     from_str (body_of req) = Some v -> handle door_env req (net (machine p)) = (Ok r, st')) ->
  resp_status r = "200 OK" -> from_utf8_lossy (resp_body r) = resp_body r ->
  RegisterMe.http curl_door env "POST" path (to_string v) p =
    (Ok (resp_body r), mkProcess (mkMachine (files (machine p)) st') (stdout p)).
Proof.
  intros Hd Hu Hs Hp Hh Hst Hr. apply (http_run env "POST" path _ p r st' Hd Hu Hs (to_string_utf8 _)); [|done|done].
  intros hdrs hd Hpos. subst hd. apply Hh; [apply request_line; [by apply (bool_decide_unpack (_ ∉ _))|done]|].
  rewrite request_body; [apply from_str_to_string|exact Hpos|apply printable_no_cr, to_string_printable].
Qed.

(** The challenge for the door's own account, from a node whose latest block is [b]. *)
Lemma challenge_answered env b h (p : Process (State (Net := Net))) :
  let n := node (net (machine p)) in
  at_latest n = (Ok (b, h), n) -> env "DOOR" = None -> env "DOOR_URL" = None ->
  sends (bstr "GET") (bstr "/v1/register/challenge") [] -> (forall v, from_utf8_lossy (to_string v) = to_string v) ->
  RegisterMe.http curl_door env "GET" (bstr "/v1/register/challenge") [] p =
    (Ok (to_string (json_object
       [("genesis", json_string (bstr (hex_encode (genesis_hash n))));
        ("controller", json_string (bstr (hex_encode (account_of dev_alice))));
        ("block", json_number b); ("hash", json_string (bstr (hex_encode h)))])), p).
Proof.
  intros n Hl Hd Hu Hs Hutf. pose proof (challenge_run (net (machine p)) _ _ _ Hl) as Hc.
  match type of Hc with _ = (Ok ?r, ?st) =>
    rewrite (http_run env "GET" _ [] p r st Hd Hu Hs eq_refl); [|clear Hs|done|apply Hutf] end.
  - cbn [resp_body ok_200]. by destruct p as [[fs [pe n']] out].
  - intros hdrs hd _. subst hd. unfold handle.
    rewrite (request_line (bstr "GET") (bstr "/v1/register/challenge") hdrs []) by (by apply (bool_decide_unpack (_ ∉ _))).
    exact Hc.
Qed.
End Session.

(** What the stranger reads off a challenge. *)
Lemma read_challenge_ok `{SerdeJsonLaws} `{!Hex} `{!HexLaws} `{Blake2} `{ScaleCodec} {Net} d g c h b (p : Process Net) :
  len32 g -> len32 c -> len32 h -> in_u32 b ->
  RegisterMe.read_challenge d
    (json_object [("genesis", json_string (bstr (hex_encode g))); ("controller", json_string (bstr (hex_encode c)));
                  ("block", json_number b); ("hash", json_string (bstr (hex_encode h)))]) p =
  (Ok (b, RegistryClient.challenge g d c b h), p).
Proof.
  intros Hg Hc Hh Hb. set (fs := [("genesis", _); _; _; _]).
  assert (NoDup fs.*1) as Hn by (apply (bool_decide_unpack (NoDup fs.*1)); done).
  assert (forall k x, (k, json_string (bstr (hex_encode x))) ∈ fs -> len32 x ->
    RegisterMe.array32 (json_object fs) k p = (Ok x, p)) as Ha.
  { intros k x Hin Hx. unfold RegisterMe.array32, bind. rewrite (index_object _ _ _ Hn Hin), as_str_string.
    unfold ok_or, ret, ensure. rewrite show_bstr, hex_decode_encode. by rewrite Hx. }
  unfold RegisterMe.read_challenge, bind.
  rewrite (Ha _ g) by (done || set_solver). rewrite (Ha _ c) by (done || set_solver). rewrite (Ha _ h) by (done || set_solver).
  rewrite (index_object fs "block" (json_number b)) by (done || set_solver).
  rewrite as_u64_number by (unfold in_u32, in_u64, u32_max, u64_max in *; lia). unfold ok_or, ret.
  rewrite Z.mod_small by (unfold in_u32, u32_max in *; lia). done.
Qed.
End DoorSession.
