(* ===== verification/Solvency.v ===== *)
(** * Solvency: the reserve shared by deposits and escrows

    The registry and the escrow pallet reserve in the same unnamed reserve of an
    account.  As long as no deposit has been slashed, the reserve of every account
    covers its registration deposits and its locked escrows together, so an escrow
    that leaves the locked state moves its whole amount. *)

From stdpp Require Import base gmap list strings relations.
From Stdlib Require Import ZArith Lia.
From S2P Require Import Prelude Frame Escrow AgentRegistry RegistryTheory Merkle VectorDb VectorDbTheory Template Runtime RuntimeTheory.

Local Open Scope arth_scope.

Module Solvency.
Import Runtime RuntimeTheory.

(** ** Deposits *)

Section Deposits.
Context {L : Type} `{ReservableCurrencyLaws L} `{Blake2} `{ScaleCodec} `{MlDsa}.
Context (rcfg : Registry.Config).
Hypothesis deposit_nonneg : 0 <= Registry.RegistrationDeposit rcfg.
Implicit Types r : Registry.State L.

(** What account [a] has on deposit: one deposit for each DID indexed under it. *)
Definition deposits {L'} (r : Registry.State L') (a : AccountId) : Z :=
  Registry.RegistrationDeposit rcfg * Z.of_nat (length (Registry.controller_dids r a)).

Definition is_deposit_slash (e : Registry.Event) : bool :=
  match e with Registry.DepositSlashed _ _ _ _ => true | _ => false end.

(** No deposit was slashed so far. *)
Definition unslashed {L'} (r : Registry.State L') : Prop :=
  Forall (fun e => is_deposit_slash e = false) (Registry.events r).

Lemma deposits_nonneg r a : 0 <= deposits r a.
Proof using deposit_nonneg. unfold deposits. nia. Qed.

(** The reserves cover the deposits on top of [other]. *)
Definition covers (other : AccountId -> Z) r : Prop :=
  forall a, deposits r a + other a <= reserved_balance (Registry.currency r) a.

Lemma deposits_insert r r' c l a :
  Registry.controller_agents r' = <[c := l]> (Registry.controller_agents r) ->
  deposits r' a = if decide (c = a) then Registry.RegistrationDeposit rcfg * Z.of_nat (length l)
                  else deposits r a.
Proof.
  intros E. unfold deposits, Registry.controller_dids. rewrite E, lookup_insert. by case_decide.
Qed.

Lemma filter_ne_id (d : Did) (l : list Did) : d ∉ l -> filter (fun x => x <> d) l = l.
Proof.
  induction l as [|x l IH]; [done|]. intros Hd. rewrite filter_cons, decide_True by set_solver.
  f_equal. apply IH. set_solver.
Qed.

Lemma length_filter_ne (d : Did) (l : list Did) :
  NoDup l -> d ∈ l -> Z.of_nat (length (filter (fun x => x <> d) l)) = Z.of_nat (length l) - 1.
Proof.
  induction 1 as [|x l Hx Hnd IH]; [set_solver|]. rewrite filter_cons. intros Hd. destruct (decide (x = d)) as [->|Hne].
  - rewrite decide_False by tauto. cbn [length].
    rewrite filter_ne_id by done. lia.
  - rewrite decide_True by done. cbn [length]. rewrite !Nat2Z.inj_succ, IH; [lia|set_solver].
Qed.

Lemma exec_covers sys o c other r r' :
  (forall a, 0 <= other a) -> RegistryTheory.inv r -> covers other r ->
  Registry.exec rcfg sys o c r = (Ok tt, r') -> covers other r'.
Proof using All.
  intros Ho Hi Hc Hx. destruct c; cbn in Hx.
  - apply RegistryTheory.register_agent_ok in Hx as (who & l' & -> & _ & Hres & ->).
    apply reserve_ok in Hres as (_ & _ & Er & Hoth); [|done]. intros a. specialize (Hc a).
    unfold RegistryTheory.registered_state. erewrite deposits_insert by done. cbn.
    case_decide; subst; [rewrite Er, length_app; unfold deposits in Hc; cbn; nia|].
    rewrite (proj2 (Hoth a ltac:(congruence))). done.
  - apply RegistryTheory.update_profile_ok in Hx as (p & _ & _ & _ & ->). exact Hc.
  - apply RegistryTheory.set_agent_status_ok in Hx as (p & _ & _ & _ & ->). exact Hc.
  - apply RegistryTheory.give_star_ok in Hx as (who & p & _ & _ & _ & _ & _ & _ & _ & ->). exact Hc.
  - apply RegistryTheory.remove_star_ok in Hx as (who & p & _ & _ & _ & _ & ->). exact Hc.
  - apply RegistryTheory.deregister_agent_ok in Hx as (p & rem & l' & -> & Hp & _ & Hun & ->).
    apply unreserve_spec in Hun as (_ & _ & Er & Hoth); [|done].
    destruct (RegistryTheory.inv_profile _ Hi _ _ Hp) as (_ & Hin & _).
    pose proof (RegistryTheory.inv_nodup _ Hi (Registry.controller p)) as Hnd.
    pose proof (length_filter_ne _ _ Hnd Hin) as Hlen. intros a. specialize (Hc a). specialize (Ho a).
    erewrite deposits_insert by done. cbn. case_decide; subst.
    + rewrite Er, Hlen. unfold deposits in Hc. nia.
    + rewrite (proj2 (Hoth a ltac:(congruence))). done.
Qed.

(** Penalties that slash no deposit leave the reserves alone. *)
Lemma slash_currency d amount r : Registry.currency (Registry.slash_reputation d amount r) = Registry.currency r.
Proof. unfold Registry.slash_reputation. by destruct (_ !! d). Qed.

Lemma guilty_currency d amount r :
  unslashed (Registry.slash_reputation_for_guilty_delivery rcfg d amount r) ->
  Registry.currency (Registry.slash_reputation_for_guilty_delivery rcfg d amount r) = Registry.currency r.
Proof.
  unfold Registry.slash_reputation_for_guilty_delivery.
  destruct (Registry.agent_profiles (Registry.slash_reputation d amount r) !! d) as [p|]; [|by rewrite slash_currency].
  destruct (_ <? _); [by cbn; rewrite slash_currency|].
  destruct (slash_reserved _ _ _) as [rem l']. unfold unslashed. cbn. rewrite Forall_app, Forall_singleton. by intros [].
Qed.

Lemma slash_deposits d amount r a : deposits (Registry.slash_reputation d amount r) a = deposits r a.
Proof. unfold Registry.slash_reputation. by destruct (_ !! d). Qed.

Lemma guilty_deposits d amount r a :
  deposits (Registry.slash_reputation_for_guilty_delivery rcfg d amount r) a = deposits r a.
Proof.
  rewrite <- (slash_deposits d amount r a). unfold deposits, Registry.controller_dids.
  by rewrite (proj1 (proj2 (RegistryTheory.guilty_profiles rcfg d amount r))).
Qed.
End Deposits.

(** ** The chain *)

Section Chain.
Context {L : Type} `{ReservableCurrencyLaws L} `{Blake2} `{ScaleCodec} `{MlDsa} `{RsMerkle}.
Context (rcfg : Registry.Config) (vcfg : VectorDb.Config) (ub : Z).
Hypothesis deposit_nonneg : 0 <= Registry.RegistrationDeposit rcfg.
Hypothesis guilty_nonneg : 0 <= VectorDb.ProviderGuiltySlash vcfg.
Hypothesis false_nonneg : 0 <= VectorDb.FalseDisputeSlash vcfg.
Implicit Types (s : Chain L) (w : World L).

Abbreviation chain_step := (Runtime.step rcfg vcfg ub).
Abbreviation chain_reach := (Runtime.reach rcfg vcfg ub).

Definition world_unslashed w : Prop := unslashed (w_registry w).

(** Reserves back the locked escrows on top of the deposits. *)
Definition solvent w : Prop :=
  Escrow.amounts_nonneg (Escrow.escrows (w_escrow w)) /\
  Escrow.backed (deposits rcfg (w_registry w)) (escrow_of w).

Lemma backed_covers w :
  Escrow.backed (deposits rcfg (w_registry w)) (escrow_of w) <->
  covers rcfg (fun a => Escrow.locked_total a (Escrow.escrows (w_escrow w))) (registry_of w).
Proof. done. Qed.

(** A penalty that slashes no deposit keeps a world solvent. *)
Lemma penalty_solvent f w :
  (forall r a, deposits rcfg (f r) a = deposits rcfg (L' := L) r a) ->
  Registry.currency (f (registry_of w)) = w_balances w ->
  solvent w -> solvent (put_registry (f (registry_of w)) w).
Proof.
  intros Hd Hc [Hn Hb]. split; [exact Hn|]. intros a. specialize (Hb a). cbn. rewrite Hc.
  change (deposits rcfg (Registry.with_currency tt (f (registry_of w))) a) with (deposits rcfg (f (registry_of w)) a).
  rewrite Hd. exact Hb.
Qed.

Lemma put_escrow_solvent w e :
  Escrow.amounts_nonneg (Escrow.escrows e) -> Escrow.backed (deposits rcfg (w_registry w)) e ->
  solvent (put_escrow e w).
Proof. intros Hn Hb. split; [exact Hn|]. intros a. apply (Hb a). Qed.

Lemma lock_solvent sys id p q v w e :
  0 <= v -> Escrow.lock sys id p q v (escrow_of w) = (Ok tt, e) -> solvent w -> solvent (put_escrow e w).
Proof using H0.
  intros Hv He [Hn Hb]. apply put_escrow_solvent; [eapply (Escrow.lock_amounts _ _ _ _ _ (escrow_of w)); [exact Hv|exact Hn|exact He]|eapply Escrow.lock_backed; [exact Hv|exact Hb|exact He]].
Qed.

Lemma release_solvent id w e :
  Escrow.release id (escrow_of w) = (Ok tt, e) -> solvent w -> solvent (put_escrow e w).
Proof using deposit_nonneg H0.
  intros He [Hn Hb]. pose proof (deposits_nonneg rcfg deposit_nonneg (registry_of w)) as Hd.
  apply put_escrow_solvent; [eapply (Escrow.release_amounts _ (escrow_of w)); [exact Hn|exact He]|eapply (Escrow.release_backed _ _ (escrow_of w)); [exact Hd|exact Hn|exact Hb|exact He]].
Qed.

Lemma refund_solvent id w e :
  Escrow.refund id (escrow_of w) = (Ok tt, e) -> solvent w -> solvent (put_escrow e w).
Proof using deposit_nonneg H0.
  intros He [Hn Hb]. pose proof (deposits_nonneg rcfg deposit_nonneg (registry_of w)) as Hd.
  apply put_escrow_solvent; [eapply (Escrow.refund_amounts _ (escrow_of w)); [exact Hn|exact He]|eapply (Escrow.refund_backed _ _ (escrow_of w)); [exact Hd|exact Hn|exact Hb|exact He]].
Qed.

Lemma effect_solvent cs w w' :
  (forall id c, cs !! id = Some c -> 0 <= VectorDb.price c) ->
  world_effect rcfg vcfg cs w w' -> world_unslashed w' -> solvent w -> solvent w'.
Proof using deposit_nonneg H0.
  intros Hcs [-> | id p q v e (c & Hc & <- & _) He -> | id e He -> | id d e He -> | id d e He ->] Hu Hs.
  - done.
  - eapply lock_solvent; [by eapply Hcs|exact He|done].
  - by eapply release_solvent.
  - apply (penalty_solvent (Registry.slash_reputation d (VectorDb.FalseDisputeSlash vcfg)));
      [intros; apply slash_deposits|apply slash_currency|by eapply release_solvent].
  - apply (penalty_solvent (Registry.slash_reputation_for_guilty_delivery rcfg d (VectorDb.ProviderGuiltySlash vcfg)));
      [intros; apply guilty_deposits|by apply guilty_currency|by eapply refund_solvent].
Qed.

(** The log only grows, so a later state without slashes had none before. *)
Lemma guilty_events d amount (r : Registry.State L) :
  exists es, Registry.events (Registry.slash_reputation_for_guilty_delivery rcfg d amount r) = Registry.events r ++ es.
Proof.
  assert (exists es, Registry.events (Registry.slash_reputation d amount r) = Registry.events r ++ es) as [es E].
  { unfold Registry.slash_reputation. destruct (_ !! d); [by eexists|exists []; by rewrite app_nil_r]. }
  unfold Registry.slash_reputation_for_guilty_delivery. destruct (_ !! d); [|by exists es].
  destruct (_ <? _); [by exists es|]. destruct (slash_reserved _ _ _). cbn. rewrite E, <- app_assoc. by eexists.
Qed.

Lemma reg_step_events (r r' : Registry.State L) :
  RegistryTheory.step rcfg r r' -> exists es, Registry.events r' = Registry.events r ++ es.
Proof.
  assert (forall l : list Registry.Event, exists es, l = l ++ es) as Hn by (intros l; exists []; by rewrite app_nil_r).
  intros [sys o c _ Hx | d a _ -> | d a _ -> | l' ->]; [destruct c; cbn in Hx|..].
  - apply RegistryTheory.register_agent_ok in Hx as (who & l' & -> & _ & _ & ->). by eexists.
  - apply RegistryTheory.update_profile_ok in Hx as (p & _ & _ & _ & ->). by eexists.
  - apply RegistryTheory.set_agent_status_ok in Hx as (p & _ & _ & _ & ->). by eexists.
  - apply RegistryTheory.give_star_ok in Hx as (who & p & _ & _ & _ & _ & _ & _ & _ & ->). by eexists.
  - apply RegistryTheory.remove_star_ok in Hx as (who & p & _ & _ & _ & _ & ->). by eexists.
  - apply RegistryTheory.deregister_agent_ok in Hx as (p & rem & l' & -> & Hp & _ & Hun & ->). by eexists.
  - unfold Registry.slash_reputation. destruct (_ !! d); [by eexists|apply Hn].
  - apply guilty_events.
  - apply Hn.
Qed.

Lemma step_unslashed s s' : chain_step s s' -> world_unslashed (world s') -> world_unslashed (world s).
Proof using guilty_nonneg false_nonneg.
  intros (k & _ & Hk)%(step_registry rcfg vcfg ub); [|done..].
  change (unslashed (chain_registry s') -> unslashed (chain_registry s)).
  induction Hk as [|k r r1 r' Hr _ IH]; [done|]. intros Hu%IH.
  apply reg_step_events in Hr as [es E]. unfold unslashed in Hu. rewrite E in Hu. by apply Forall_app in Hu as [? _].
Qed.

Lemma step_solvent s s' :
  RegistryTheory.inv (chain_registry s) ->
  (forall id c, VectorDb.vector_commitments (vector_db s) !! id = Some c -> 0 <= VectorDb.price c) ->
  chain_step s s' -> world_unslashed (world s') -> solvent (world s) -> solvent (world s').
Proof using deposit_nonneg H0.
  intros Hi Hp [->|[Hv|o c r' Hwf Hx ->|o c v' Hwf Hx ->]|sys' Hb ->|l' Hl ->]%step_move Hu Hs; [done|..|done|].
  - unfold world. by rewrite Hv.
  - destruct Hs as [Hn Hb%backed_covers]. split; [exact Hn|].
    apply backed_covers. eapply exec_covers in Hx; [|done| |done|exact Hb]; [done|].
    intros a. apply map_sum_nonneg. intros id r Hr. unfold Escrow.locked_of. case_bool_decide; [by eapply Hn|lia].
  - apply exec_world in Hx. by eapply effect_solvent.
  - destruct Hs as [Hn Hb]. split; [exact Hn|]. intros a. cbn. rewrite Hl. apply Hb.
Qed.

Lemma price_nonneg n s id c :
  chain_reach n s -> VectorDb.vector_commitments (vector_db s) !! id = Some c -> 0 <= VectorDb.price c.
Proof.
  intros (k & _ & Hi%VectorDbTheory.reach_pallet_inv)%reach_vector_db Hc. specialize (Hi id).
  unfold VectorDbTheory.coherent in Hi. cbn [VectorDbTheory.view VectorDbTheory.v_commitment] in Hi. rewrite Hc in Hi.
  destruct Hi as [Hwf _]. apply Hwf.
Qed.

Lemma reach_solvent n s : chain_reach n s -> world_unslashed (world s) -> solvent (world s).
Proof using All.
  induction 1 as [dw sys l Hb Hdw Hl|n s s' Hr IH Hs].
  - intros _. split; [intros id r Hr; cbn in Hr; by rewrite lookup_empty in Hr|]. intros a. cbn. rewrite Hl.
    unfold deposits, Registry.controller_dids, Escrow.locked_total. cbn. rewrite lookup_empty, map_sum_empty. cbn. lia.
  - intros Hu. eapply step_solvent; [| |exact Hs|done|by eapply IH, step_unslashed].
    + destruct (reach_registry rcfg vcfg ub n s guilty_nonneg false_nonneg Hr) as (k & _ & Hk).
      by eapply RegistryTheory.reach_inv.
    + intros id c. by eapply price_nonneg.
Qed.

(** ** An escrow leaves the locked state with its whole amount *)

Definition free s a : Z := free_balance (w_balances (world s)) a.
Definition reserved s a : Z := reserved_balance (w_balances (world s)) a.
Definition escrow_at s id : option Escrow.EscrowRecord := Escrow.escrows (w_escrow (world s)) !! id.

Lemma release_exact id w e r :
  solvent w -> Escrow.escrows (w_escrow w) !! id = Some r -> Escrow.release id (escrow_of w) = (Ok tt, e) ->
  free_balance (Escrow.currency e) (Escrow.payee r) =
    free_balance (w_balances w) (Escrow.payee r) + Escrow.amount r /\
  reserved_balance (Escrow.currency e) (Escrow.payer r) =
    reserved_balance (w_balances w) (Escrow.payer r) - Escrow.amount r.
Proof using deposit_nonneg H0.
  intros [Hn Hb] Hr He. apply Escrow.release_ok in He as (r' & rem & l' & Hr' & Hl & Hrep & ->). cbn in Hr'. simplify_eq.
  pose proof (deposits_nonneg rcfg deposit_nonneg (registry_of w)) as Hd.
  pose proof (Escrow.covered _ (escrow_of w) _ _ Hd Hn Hb Hr Hl) as Hcov. cbn in Hcov.
  apply repatriate_ok in Hrep as (_ & Er & Ef & _ & _); [|by eapply Hn]. cbn in *. lia.
Qed.

Lemma refund_exact id w e r :
  solvent w -> Escrow.escrows (w_escrow w) !! id = Some r -> Escrow.refund id (escrow_of w) = (Ok tt, e) ->
  free_balance (Escrow.currency e) (Escrow.payer r) =
    free_balance (w_balances w) (Escrow.payer r) + Escrow.amount r /\
  reserved_balance (Escrow.currency e) (Escrow.payer r) =
    reserved_balance (w_balances w) (Escrow.payer r) - Escrow.amount r.
Proof using deposit_nonneg H0.
  intros [Hn Hb] Hr He. apply Escrow.refund_ok in He as (r' & rem & l' & Hr' & Hl & Hun & ->). cbn in Hr'. simplify_eq.
  pose proof (deposits_nonneg rcfg deposit_nonneg (registry_of w)) as Hd.
  pose proof (Escrow.covered _ (escrow_of w) _ _ Hd Hn Hb Hr Hl) as Hcov. cbn in Hcov.
  apply unreserve_spec in Hun as (_ & Ef & Er & _); [|by eapply Hn]. cbn in *. lia.
Qed.

(** A step that changes a locked record is a commitment call that released or
    refunded it. *)
Lemma step_leaves_locked s s' id r r' :
  chain_step s s' -> escrow_at s id = Some r -> escrow_at s' id = Some r' -> r' <> r ->
  exists e, (Escrow.release id (escrow_of (world s)) = (Ok tt, e) /\ Escrow.status r' = Escrow.Released /\
             w_balances (world s') = Escrow.currency e) \/
            (Escrow.refund id (escrow_of (world s)) = (Ok tt, e) /\ Escrow.status r' = Escrow.Refunded /\
             (world_unslashed (world s') -> w_balances (world s') = Escrow.currency e)).
Proof.
  unfold escrow_at.
  intros [->|[Hv|o c v' Hwf Hx ->|o c v' Hwf Hx ->]|sys' Hb ->|l' Hl ->]%step_move Hr Hr' Hne; try (cbn in Hr'; congruence).
  - unfold world in Hr'. rewrite Hv in Hr'. unfold world in Hr. congruence.
  - apply exec_world in Hx. change (world (set_vector_db v' s)) with (VectorDb.ext v') in *.
    fold (world s) in Hx. revert Hr'.
    destruct Hx as [-> | i p q v e _ He -> | i e He -> | i d e He -> | i d e He ->]; intros Hr'.
    + congruence.
    + apply Escrow.lock_ok in He as (Hn & l' & _ & ->). cbn in Hr', Hn.
      rewrite lookup_insert_ne in Hr'; congruence.
    + destruct (Escrow.release_touches _ _ _ _ _ _ He Hr Hr' Hne) as [-> ?]. exists e. by left.
    + destruct (Escrow.release_touches _ _ _ _ _ _ He Hr Hr' Hne) as [-> ?]. exists e. left.
      split_and!; [done..|]. cbn. by rewrite slash_currency.
    + destruct (Escrow.refund_touches _ _ _ _ _ _ He Hr Hr' Hne) as [-> ?]. exists e. right.
      split_and!; [done..|]. intros Hu. cbn. by rewrite guilty_currency.
Qed.

(** The amount of an escrow, in full, is what its payee or its payer gets. *)
Lemma exit_exact n s s' id r r' :
  chain_reach n s -> chain_step s s' -> world_unslashed (world s') ->
  escrow_at s id = Some r -> escrow_at s' id = Some r' -> r' <> r ->
  reserved s' (Escrow.payer r) = reserved s (Escrow.payer r) - Escrow.amount r /\
  match Escrow.status r' with
  | Escrow.Released => free s' (Escrow.payee r) = free s (Escrow.payee r) + Escrow.amount r
  | Escrow.Refunded => free s' (Escrow.payer r) = free s (Escrow.payer r) + Escrow.amount r
  | Escrow.Locked => False
  end.
Proof using All.
  intros Hreach Hs Hu Hr Hr' Hne. pose proof (reach_solvent _ _ Hreach (step_unslashed _ _ Hs Hu)) as Hsol.
  destruct (step_leaves_locked _ _ _ _ _ Hs Hr Hr' Hne) as (e & [(He & -> & E)|(He & -> & E)]).
  - destruct (release_exact _ _ _ _ Hsol Hr He). unfold reserved, free. by rewrite E.
  - destruct (refund_exact _ _ _ _ Hsol Hr He). unfold reserved, free. by rewrite (E Hu).
Qed.
End Chain.
End Solvency.
