(* ===== verification/Scenario.v ===== *)
(** * Scenario: concrete runs of the composed chain

    Executable traces of [Runtime] over the reference instances of [Ledger] and
    [Merkle]: a provider and a consumer who register, trade, dispute and settle.
    Checking a trace with [valid] makes its last state a reachable one. *)

From stdpp Require Import base gmap list strings relations.
From Stdlib Require Import ZArith Lia.
From S2P Require Import Prelude Frame Ledger Escrow AgentRegistry RegistryTheory Merkle VectorDb VectorDbTheory Template Runtime RuntimeTheory Offchain Keystore RegistryClient.

Module Scenario.
Import Runtime.

(** ** Traces are reachable *)

#[global] Instance len32_dec b : Decision (len32 b) := decide (length b = 32%nat).
#[global] Instance in_u32_dec z : Decision (in_u32 z) := decide (0 <= z /\ z <= u32_max).
#[global] Instance in_u64_dec z : Decision (in_u64 z) := decide (0 <= z /\ z <= u64_max).
#[global] Instance in_u128_dec z : Decision (in_u128 z) := decide (0 <= z /\ z <= u128_max).
#[global] Instance origin_wf_dec o : Decision (origin_wf o).
Proof. destruct o; cbn; apply _. Defined.
#[global] Instance call_wf_dec c : Decision (call_wf c).
Proof. destruct c as [[]|[]|[]]; cbn; apply _. Defined.

Section Traces.
Context {L : Type} `{ReservableCurrency L} `{Blake2} `{ScaleCodec} `{MlDsa} `{RsMerkle}.
Context (rcfg : Registry.Config) (vcfg : VectorDb.Config) (ub : Z).
Implicit Types s : Chain L.

(** Arguments in range, block numbers consecutive. *)
Definition action_ok (a : Action) s : bool :=
  match a with
  | Extrinsic o c => bool_decide (origin_wf o /\ call_wf c)
  | NewBlock sys => bool_decide (block_number sys = block_number (w_system (world s)) + 1 /\
                                 in_u32 (block_number sys))
  end.

Fixpoint valid (l : list Action) s : bool :=
  match l with
  | [] => true
  | a :: l => action_ok a s && valid l (act rcfg vcfg ub a s)
  end.

Lemma act_step a s : action_ok a s = true -> step rcfg vcfg ub s (act rcfg vcfg ub a s).
Proof.
  destruct a as [o c|sys]; cbn; intros Hok%bool_decide_eq_true.
  - destruct Hok. eapply (step_dispatch _ _ _ _ _ o c); [done..|]. by rewrite <- surjective_pairing.
  - destruct Hok. by eapply step_block.
Qed.

Lemma acts_reach n l s :
  reach rcfg vcfg ub n s -> valid l s = true ->
  reach rcfg vcfg ub (n + length l) (acts rcfg vcfg ub l s).
Proof.
  revert n s. induction l as [|a l IH]; intros n s Hr; cbn [valid length]; [by rewrite Nat.add_0_r|].
  intros [Ha Hl]%andb_true_iff. rewrite Nat.add_succ_r, <- Nat.add_succ_l.
  apply IH; [|done]. econstructor; [exact Hr | by apply act_step].
Qed.

Lemma acts_steps l s : valid l s = true -> rtc (step rcfg vcfg ub) s (acts rcfg vcfg ub l s).
Proof.
  revert s. induction l as [|a l IH]; intros s; cbn [valid]; [constructor|].
  intros [Ha Hl]%andb_true_iff. eapply rtc_l; [by apply act_step | by apply IH].
Qed.
End Traces.

(** ** Reference instances *)

(** A keyed checksum in place of ML-DSA-65: keys are byte strings, and a signature is
    the checksum of key and message. *)
Definition toy_sign (key msg : bytes) : bytes := checksum (key ++ msg).
Definition toy_mldsa : MlDsa := {|
  VerifyingKey := bytes;
  Signature := bytes;
  verifying_key_of_slice b := Some b;
  signature_of_slice b := Some b;
  mldsa_verify vk msg sg := bool_decide (sg = toy_sign vk msg) |}.

Module Instances.
#[export] Existing Instance ledger_currency.
#[export] Existing Instance ledger_laws.
#[export] Existing Instance ledger_repatriates.
#[export] Existing Instance le_codec.
#[export] Existing Instance le_codec_laws.
#[export] Existing Instance checksum.
#[export] Existing Instance checksum_laws.
#[export] Existing Instance toy_mldsa.
#[export] Existing Instance Implementation.rs_merkle.
#[export] Existing Instance Implementation.rs_merkle_laws.
End Instances.
Import Instances.

(** ** The actors *)

Definition rep (b : byte) : bytes := replicate 32 b.
Definition alice : AccountId := rep Byte.x0a.
Definition bob : AccountId := rep Byte.x0b.
Definition carol : AccountId := rep Byte.x0c.
Definition key_p : bytes := rep Byte.x01.
Definition key_q : bytes := rep Byte.x02.
Definition key_r : bytes := rep Byte.x03.
Definition did_p : Did := Eval vm_compute in Registry.derive_did key_p.
Definition did_q : Did := Eval vm_compute in Registry.derive_did key_q.
Definition did_r : Did := Eval vm_compute in Registry.derive_did key_r.

Definition sys_at (n : BlockNumber) : System := mkSystem n (fun k => le_bytes 32 (k + 7)).

(** A thousand units of free balance each. *)
Definition endowment : ledger :=
  let v := (Z.to_N (1000 * Configs.UNIT), 0%N) in <[alice := v]> (<[bob := v]> {[carol := v]}).

Definition start : Chain ledger := genesis (Some 10) (sys_at 100) endowment.

Abbreviation run := (acts Configs.registry_config Configs.vector_db_config Configs.usize_bits).
Abbreviation run_valid := (valid Configs.registry_config Configs.vector_db_config Configs.usize_bits).
Abbreviation reached := (reach (L := ledger) Configs.registry_config Configs.vector_db_config Configs.usize_bits).
Abbreviation steps := (step (L := ledger) Configs.registry_config Configs.vector_db_config Configs.usize_bits).

Abbreviation dispatched := (dispatch (L := ledger) Configs.registry_config Configs.vector_db_config Configs.usize_bits).

Definition register (who : AccountId) (key : bytes) (at_ : BlockNumber) : Action :=
  let challenge := Registry.registration_challenge (block_hash (sys_at 0) 0) (Registry.derive_did key) who at_
                     (block_hash (sys_at 0) at_) in
  Extrinsic (Signed who)
    (CallRegistry (Registry.RegisterAgent key (toy_sign key challenge) at_ Registry.CAP_DATA_PROVIDER
                     (bstr "meta") (bstr "label"))).

Definition registry_call (who : AccountId) (c : Registry.Call) : Action := Extrinsic (Signed who) (CallRegistry c).
Definition vector_call (who : AccountId) (c : VectorDb.Call) : Action := Extrinsic (Signed who) (CallVectorDb c).
Definition blocks (from n : nat) : list Action := (fun k => NewBlock (sys_at (Z.of_nat k))) <$> seq from n.

(** Three chunks and the commitment of alice to bob over them. *)
Definition chunks3 : list bytes := [bstr "alpha"; bstr "beta"; bstr "gamma"].
Definition leaves3 : list bytes := blake2_256 <$> chunks3.
Definition root3 : bytes :=
  Eval vm_compute in default [] (merkle_root OffChain.Blake2bHasher (blake2_256 <$> chunks3)).
Definition price3 : Balance := 50 * Configs.UNIT.

Definition id3 : CommitmentId := Eval vm_compute in VectorDb.derive_commitment_id did_p did_q root3 101.

Definition joined : list Action :=
  [register alice key_p 100; register bob key_q 100; register carol key_r 100; NewBlock (sys_at 101)].
Definition committed : list Action :=
  joined ++ [vector_call alice (VectorDb.RegisterCommitment did_p did_q root3 3 (bstr "m") 1000 price3)].
Definition acked : list Action :=
  committed ++ [vector_call bob (VectorDb.AcknowledgeCommitment id3 did_q)].
Definition disputed : list Action :=
  acked ++ [vector_call bob (VectorDb.RaiseDispute id3 did_q 1 (rep Byte.xff) 3)].

(** The consumer settles. *)
Definition settled : list Action :=
  acked ++ [vector_call bob (VectorDb.CloseCommitment id3 did_q root3 3)].
(** Nobody answers the dispute, and a third party finalizes it. *)
Definition overdue : list Action := disputed ++ blocks 102 11.
Definition finalized : list Action := overdue ++ [vector_call carol (VectorDb.FinalizeDispute id3)].
(** The provider answers the dispute with the chunk and its proof. *)
Definition answer : Action :=
  vector_call alice (VectorDb.CounterDispute id3 did_p (bstr "beta")
                       (merkle_proof OffChain.Blake2bHasher leaves3 [1%nat])).
Definition countered : list Action := disputed ++ [answer].
(** An acknowledged commitment that lapses. *)
Definition lapsing : list Action :=
  joined ++ [vector_call alice (VectorDb.RegisterCommitment did_p did_q root3 3 (bstr "m") 2 price3);
             vector_call bob (VectorDb.AcknowledgeCommitment id3 did_q)] ++ blocks 102 2.
Definition lapse : Action := vector_call carol (VectorDb.ExpireCommitment id3).

(** Ten worthless commitments of alice that bob disputes and nobody defends cost her
    a tenth of her deposit. *)
Definition decoy_root (k : nat) : bytes := le_bytes 32 (Z.of_nat k + 1).
Definition decoy_id (k : nat) : CommitmentId := VectorDb.derive_commitment_id did_p did_q (decoy_root k) 101.
Definition decoys : list nat := seq 0 10.
Definition slashed : list Action :=
  joined ++
  (k ← decoys; [vector_call alice (VectorDb.RegisterCommitment did_p did_q (decoy_root k) 1 [] 1000 0);
                vector_call bob (VectorDb.AcknowledgeCommitment (decoy_id k) did_q);
                vector_call bob (VectorDb.RaiseDispute (decoy_id k) did_q 0 (rep Byte.xff) 1)]) ++
  blocks 102 11 ++
  (k ← decoys; [vector_call bob (VectorDb.FinalizeDispute (decoy_id k))]).
(** Then she buys from carol, disputes, takes her deposit back, and loses the
    dispute. *)
Definition id_short : CommitmentId := VectorDb.derive_commitment_id did_r did_p root3 112.
Definition contesting : list Action :=
  [vector_call carol (VectorDb.RegisterCommitment did_r did_p root3 3 [] 1000 price3);
   vector_call alice (VectorDb.AcknowledgeCommitment id_short did_p);
   vector_call alice (VectorDb.RaiseDispute id_short did_p 1 (rep Byte.xff) 3)].
Definition shorted : list Action :=
  (slashed ++ contesting) ++ [registry_call alice (Registry.DeregisterAgent did_p)].
Definition short_answer : Action :=
  vector_call carol (VectorDb.CounterDispute id_short did_r (bstr "beta")
                       (merkle_proof OffChain.Blake2bHasher leaves3 [1%nat])).

(** A commitment that claims 2^32 + 1 chunks over a tree with one leaf. *)
Definition wide_chunks : Z := 2 ^ 32 + 1.
Definition wide_root : bytes := Eval vm_compute in blake2_256 (bstr "beta").
Definition id_wide : CommitmentId := Eval vm_compute in VectorDb.derive_commitment_id did_p did_q wide_root 101.
Definition wide : list Action :=
  joined ++
  [vector_call alice (VectorDb.RegisterCommitment did_p did_q wide_root wide_chunks [] 1000 price3);
   vector_call bob (VectorDb.AcknowledgeCommitment id_wide did_q);
   vector_call bob (VectorDb.RaiseDispute id_wide did_q (2 ^ 32) (rep Byte.xff) 1)].
Definition wide_answer : Action := vector_call alice (VectorDb.CounterDispute id_wide did_p (bstr "beta") []).

(** Lower-case hexadecimal. *)
Definition nibble (n : N) : Ascii.ascii := Ascii.ascii_of_N (if (n <? 10)%N then n + 48 else n + 87)%N.
Definition un_nibble (c : Ascii.ascii) : option N :=
  let n := Ascii.N_of_ascii c in
  if ((48 <=? n) && (n <=? 57))%N then Some (n - 48)%N
  else if ((97 <=? n) && (n <=? 102))%N then Some (n - 87)%N else None.
Fixpoint to_hex (b : bytes) : string :=
  match b with
  | [] => EmptyString
  | x :: b => String (nibble (Byte.to_N x / 16)) (String (nibble (Byte.to_N x mod 16)) (to_hex b))
  end.
Fixpoint of_hex (s : string) : option bytes :=
  match s with
  | EmptyString => Some []
  | String h (String l s) =>
      h ← un_nibble h; l ← un_nibble l; x ← Byte.of_N (16 * h + l); b ← of_hex s; Some (x :: b)
  | _ => None
  end.
Definition hex_ref : Hex := {| hex_encode := to_hex; hex_decode := of_hex |}.
#[local] Existing Instance hex_ref.
Lemma hex_ref_laws : HexLaws.
Proof.
  intros b. cbn. induction b as [|x b IH]; [done|]. cbn [to_hex of_hex].
  assert (exists h l, un_nibble (nibble (Byte.to_N x / 16)) = Some h /\ un_nibble (nibble (Byte.to_N x mod 16)) = Some l /\
    Byte.of_N (16 * h + l) = Some x) as (h & l & -> & -> & E) by (destruct x; eexists _, _; split_and!; reflexivity).
  cbn. by rewrite E, IH.
Qed.

(** The signer that goes with [toy_mldsa]. *)
Definition toy_signer : MlDsaSigner := {|
  SigningKey := bytes;
  verifying_key k := k : VerifyingKey;
  signing_key_to_bytes k := k;
  encode_verifying_key vk := vk;
  encode_signature sg := sg;
  mldsa_sign k msg := toy_sign k msg |}.
#[local] Existing Instance toy_signer.
Lemma toy_signer_laws : MlDsaSignerLaws.
Proof. split; [done..|]. intros k msg. cbn. by apply bool_decide_eq_true_2. Qed.

(** Stand-ins for the crates of the keystore: hexadecimal for base64, concatenation for
    the key derivation, a prepended checksum for the cipher, and an injective encoding
    of key files. *)
Fixpoint bits_of (p : positive) : bytes :=
  match p with
  | xH => []
  | xO p => Byte.x00 :: bits_of p
  | xI p => Byte.x01 :: bits_of p
  end.
Fixpoint of_bits (b : bytes) : positive :=
  match b with
  | [] => xH
  | Byte.x01 :: b => xI (of_bits b)
  | _ :: b => xO (of_bits b)
  end.
Lemma of_bits_of p : of_bits (bits_of p) = p.
Proof. induction p as [p IH|p IH|]; cbn; [by rewrite IH..|done]. Qed.

Definition file_fields (f : Keystore.KeyFile) : Z * string * string * string * string :=
  (Keystore.version f, Keystore.did_hex f, Keystore.salt_b64 f, Keystore.nonce_b64 f, Keystore.ciphertext_b64 f).
Definition file_of (x : Z * string * string * string * string) : Keystore.KeyFile :=
  let '(v, d, s, n, c) := x in Keystore.mkKeyFile v d s n c.

Definition crypto_ref : Keystore.Crypto := {|
  Keystore.b64_encode := to_hex;
  Keystore.b64_decode := of_hex;
  Keystore.argon2id pass salt := Some (checksum (bstr pass ++ salt));
  Keystore.chacha_encrypt k n m := Some (checksum (k ++ n) ++ m);
  Keystore.chacha_decrypt k n c :=
    if bool_decide (take 32 c = checksum (k ++ n)) then Some (drop 32 c) else None;
  Keystore.json_of f := bits_of (encode (file_fields f));
  Keystore.json_parse b := file_of <$> decode (of_bits b) |}.
#[local] Existing Instance crypto_ref.
Lemma crypto_ref_laws : Keystore.CryptoLaws.
Proof.
  split.
  - apply hex_ref_laws.
  - intros k n m c E. unfold Keystore.chacha_encrypt, Keystore.chacha_decrypt, crypto_ref in *. apply Some_inj in E as <-.
    pose proof (checksum_laws (k ++ n)) as Hl. unfold len32, blake2_256 in Hl.
    rewrite take_app_length' by done. rewrite bool_decide_eq_true_2 by done. by rewrite drop_app_length'.
  - intros f. unfold Keystore.json_parse, Keystore.json_of, crypto_ref. rewrite of_bits_of, decode_encode. by destruct f.
Qed.

Lemma start_reach : reached 0 start.
Proof.
  apply reach_genesis; [by vm_compute|by intros b [= <-]|]. intros a. cbn. unfold l_reserved, endowment. destruct (_ !! a) as [[f r]|] eqn:E; [|done]. cbn.
  apply lookup_insert_Some in E as [[_ [= <- <-]]|[_ E]]; [done|].
  apply lookup_insert_Some in E as [[_ [= <- <-]]|[_ E]]; [done|].
  by apply lookup_singleton_Some in E as [_ [= <- <-]].
Qed.

(** A checked trace from [start] ends in a reachable state. *)
Lemma run_reach l : run_valid l start = true -> reached (length l) (run l start).
Proof. intros Hl. by apply (acts_reach _ _ _ 0 l start start_reach). Qed.

Lemma run_app l k : run (l ++ k) start = run k (run l start).
Proof. unfold acts. by rewrite foldl_app. Qed.

Lemma run_snoc l a : run (l ++ [a]) start = act Configs.registry_config Configs.vector_db_config Configs.usize_bits a (run l start).
Proof. unfold acts. by rewrite foldl_app. Qed.

Lemma run_step l a : run_valid (l ++ [a]) start = true -> steps (run l start) (run (l ++ [a]) start).
Proof.
  intros Hv. rewrite run_snoc. apply act_step.
  assert (forall k s, run_valid (k ++ [a]) s = true -> action_ok a (run k s) = true) as Hgen; [|by apply Hgen].
  induction k as [|b k IH]; intros s; cbn; intros [Hb Hk]%andb_true_iff; [done|by apply IH].
Qed.

Lemma run_dispatch l o c :
  is_ok (dispatched o c (run l start)).1 = true ->
  dispatched o c (run l start) = (Ok tt, run (l ++ [Extrinsic o c]) start).
Proof. rewrite run_snoc. cbn [act]. by destruct (dispatched _ _ _) as [[[]|e] s']. Qed.

Lemma valid_app l k : run_valid (l ++ k) start = true -> run_valid l start = true.
Proof.
  generalize start. induction l as [|a l IH]; intros s; cbn; [done|].
  intros [Ha Hl]%andb_true_iff. apply andb_true_iff. split; [done|by eapply IH].
Qed.

End Scenario.
