(* ===== verification/ChainProperties.v ===== *)
(** * ChainProperties: what the composed runtime guarantees

    The theorems about reachable states of the chain with the constants of
    [runtime/src/configs/mod.rs]: money, disputes, lifecycles, counters, and the two
    ways in which escrowed funds can go wrong. *)

From stdpp Require Import base gmap list strings relations.
From Stdlib Require Import ZArith Lia.
From S2P Require Import Prelude Frame Ledger Escrow AgentRegistry RegistryTheory Merkle VectorDb VectorDbTheory Template Runtime RuntimeTheory Typed Market Solvency Scenario.

Module ChainProperties.
Import Runtime RuntimeTheory Solvency.

Section Properties.
Context {L : Type} `{ReservableCurrencyLaws L} `{Blake2} `{ScaleCodec} `{MlDsa} `{RsMerkle}.
Implicit Types (s : Chain L).

Abbreviation chain_step := (Runtime.step Configs.registry_config Configs.vector_db_config Configs.usize_bits).
Abbreviation chain_reach := (Runtime.reach Configs.registry_config Configs.vector_db_config Configs.usize_bits).
Abbreviation chain_dispatch := (Runtime.dispatch Configs.registry_config Configs.vector_db_config Configs.usize_bits).

(** C1: as long as no registration deposit has been slashed, an escrow that leaves
    the locked state, in any step of any reachable chain, moves its whole amount:
    out of the payer's reserve, and into the free balance of the payee when it is
    released or of the payer when it is refunded. *)
Theorem escrow_moves_in_full n s s' id r r' :
  chain_reach n s -> chain_step s s' -> world_unslashed (world s') ->
  escrow_at s id = Some r -> escrow_at s' id = Some r' -> r' <> r ->
  reserved s' (Escrow.payer r) = reserved s (Escrow.payer r) - Escrow.amount r /\
  match Escrow.status r' with
  | Escrow.Released => free s' (Escrow.payee r) = free s (Escrow.payee r) + Escrow.amount r
  | Escrow.Refunded => free s' (Escrow.payer r) = free s (Escrow.payer r) + Escrow.amount r
  | Escrow.Locked => False
  end.
Proof. by apply exit_exact. Qed.

(** C6: in every reachable chain without a slashed deposit, the reserve of each
    account covers one registration deposit for every DID it controls plus all of
    its locked escrows. *)
Theorem reserves_cover_obligations n s a :
  chain_reach n s -> world_unslashed (world s) ->
  deposits Configs.registry_config (w_registry (world s)) a +
    Escrow.locked_total a (Escrow.escrows (w_escrow (world s))) <= reserved s a.
Proof. intros Hr Hu. eapply reach_solvent in Hr as [_ Hb]; [apply Hb|done..]. Qed.

(** C11: the chain refines the market: every reachable chain is a reachable state of
    the abstract market of [Market], every step of it is a step of the market at the
    chain's clock (a tick, one move of one deal, or nothing), and the escrow stored
    under an id has the status and the amount the state of its deal asks for. *)
Theorem chain_refines_the_market n s :
  chain_reach n s ->
  Market.market_reach (Market.market Configs.vector_db_config s) /\
  (forall s', chain_step s s' ->
     Market.market_step (Market.market Configs.vector_db_config s) (Market.market Configs.vector_db_config s')) /\
  forall id, (fun r => (Escrow.status r, Escrow.amount r)) <$> escrow_at s id =
    Market.holding (Market.slots (Market.market Configs.vector_db_config s) id).
Proof.
  intros Hr. destruct (Market.reach_market _ _ _ _ _ Hr) as [Hm Hb]. split_and!; [done| |exact Hb].
  intros s' Hs. by apply (Market.step_market _ _ Configs.usize_bits s s' (reach_system _ _ _ _ _ Hr) Hb Hs).
Qed.

(** C12: nothing outgrows its type: in every reachable chain every integer in the
    storage items of the registry, of the commitment pallet, of the escrows and of the
    template pallet is in the range of its Rust type, every account id, DID, hash and
    commitment id, map keys included, has 32 bytes, and every bounded vector has a
    length its type allows. *)
Theorem reachable_states_are_typed `{!Blake2Laws} n s :
  chain_reach n s -> Typed.chain_typed s.
Proof. apply Typed.reach_typed. Qed.

(** C2: in every reachable chain the commitment, its dispute record, its receipt
    and its escrow agree, id by id: an active or disputed commitment has its price
    held, a settled one has been paid and has a receipt for its own root, a resolved
    one has a verdict and the escrow went where the verdict says, and a pending one
    has neither dispute nor receipt.  The escrow record of a commitment that is not
    pending has the commitment's price as its amount, and is locked while the
    commitment is active or disputed, released when it is settled or the provider
    answered, and refunded when the provider was found guilty. *)
Theorem commitments_and_escrows_agree n s id :
  chain_reach n s ->
  VectorDbTheory.coherent id (chain_view s id) /\
  forall c, VectorDb.vector_commitments (vector_db s) !! id = Some c -> VectorDb.status c <> VectorDb.Pending ->
    exists r, escrow_at s id = Some r /\ Escrow.amount r = VectorDb.price c /\
      Escrow.status r = Market.escrow_due c (VectorDb.dispute_records (vector_db s) !! id).
Proof.
  intros Hr. split; [by eapply reach_coherent|]. intros c Hc Hst. by eapply Market.reach_escrow_due.
Qed.

(** C3: no dispute can be kept open: in every reachable chain a disputed
    commitment has an open dispute record, and past its deadline [finalize_dispute],
    dispatched by any signed account, succeeds, resolves the commitment against the
    provider and refunds the escrow. *)
Theorem disputes_always_resolve n s id c :
  chain_reach n s -> VectorDb.vector_commitments (vector_db s) !! id = Some c ->
  VectorDb.status c = VectorDb.Disputed ->
  exists d, VectorDb.dispute_records (vector_db s) !! id = Some d /\ VectorDb.verdict d = None /\
    (VectorDb.counter_deadline d < block_number (w_system (world s)) -> forall who,
     exists s', chain_dispatch (Signed who) (CallVectorDb (VectorDb.FinalizeDispute id)) s = (Ok tt, s') /\
       VectorDb.vector_commitments (vector_db s') !! id = Some (VectorDb.with_status VectorDb.DisputeResolved c) /\
       VectorDb.dispute_records (vector_db s') !! id = Some (VectorDb.with_verdict VectorDb.ProviderGuilty d) /\
       escrow_phase (world s') id = Some VectorDbTheory.Returned).
Proof.
  intros Hr Hc Hst. destruct (reach_disputed _ _ _ _ _ _ _ Hr Hc Hst) as (d & Hd & Hv).
  exists d. split_and!; [done..|]. intros Hdl who. by eapply finalize_dispatch.
Qed.

(** C8: settlement and verdicts are final: once a commitment is settled or its
    dispute resolved, no later step of the chain changes the commitment, its
    receipt, its dispute record or its escrow record. *)
Theorem settled_and_resolved_are_final n s s' id c :
  chain_reach n s -> rtc chain_step s s' ->
  VectorDb.vector_commitments (vector_db s) !! id = Some c ->
  VectorDb.status c = VectorDb.Settled \/ VectorDb.status c = VectorDb.DisputeResolved ->
  chain_view s' id = chain_view s id /\ escrow_at s' id = escrow_at s id.
Proof.
  intros Hr Hs Hc Hst. split.
  - apply reach_system in Hr. eapply VectorDbTheory.lives_final; [by eapply steps_lives|exact Hc|done].
  - destruct (Market.reach_escrow_due _ _ _ n s id c Hr Hc) as (r & E & _ & Hd); [by destruct Hst as [-> | ->]|].
    destruct (steps_escrow_record _ _ _ s s' id r Hs E) as (r' & E' & _ & _ & _ & _ & Hf).
    unfold Market.escrow_record in E. unfold escrow_at. etrans; [exact E'|]. rewrite Hf; [by symmetry|]. rewrite Hd. unfold Market.escrow_due.
    destruct Hst as [-> | ->]; [done|]. by case_bool_decide.
Qed.

(** Who is paid is fixed when funds are locked: along any trace the payer, the
    payee, the amount and the block of an escrow record never change, and a
    released or refunded record never changes at all. *)
Theorem escrow_records_are_immutable s s' id r :
  rtc chain_step s s' -> escrow_at s id = Some r ->
  exists r', escrow_at s' id = Some r' /\
    Escrow.payer r' = Escrow.payer r /\ Escrow.payee r' = Escrow.payee r /\
    Escrow.amount r' = Escrow.amount r /\ Escrow.locked_at r' = Escrow.locked_at r /\
    (Escrow.status r <> Escrow.Locked -> r' = r).
Proof. apply (steps_escrow_record Configs.registry_config Configs.vector_db_config Configs.usize_bits). Qed.

(** C28: [expire_commitment] on an acknowledged commitment strands its escrow: the
    call takes the commitment away and leaves the escrow locked, and from there no
    sequence of steps of the chain ever releases or refunds it. *)
Theorem expiry_strands_the_escrow n s s1 s' who id c :
  chain_reach n s -> VectorDb.vector_commitments (vector_db s) !! id = Some c ->
  VectorDb.status c = VectorDb.Active ->
  chain_dispatch (Signed who) (CallVectorDb (VectorDb.ExpireCommitment id)) s = (Ok tt, s1) ->
  rtc chain_step s1 s' ->
  VectorDb.vector_commitments (vector_db s1) !! id = None /\
  escrow_phase (world s') id = Some VectorDbTheory.Held.
Proof.
  intros Hr Hc Hst Hx Hs. pose proof (reach_system _ _ _ _ _ Hr) as Hin.
  apply (reach_coherent _ _ _ _ _ id) in Hr.
  apply transactional_ok, zoom_ok_inv in Hx as (v' & Hx & ->).
  apply VectorDbTheory.expire_commitment_ok in Hx as (w & c' & _ & Hc' & _ & _ & ->).
  split; [apply lookup_delete_eq|].
  eapply (steps_lives _ _ _ _ _ id) in Hs; [|exact Hin].
  apply VectorDbTheory.lives_stranded in Hs; [exact (proj1 Hs)|].
  unfold VectorDbTheory.coherent in Hr. cbn -[escrow_phase] in Hr. rewrite Hc, Hst in Hr.
  split; [apply Hr|]. intros c0 Hc0. cbn in Hc0. by rewrite lookup_delete_eq in Hc0.
Qed.

(** C7: a commitment only moves for those entitled to move it: a step of the chain
    after which a stored commitment is not the same, changed or gone, is a successful
    signed call.  A change is acknowledging, settling or disputing, signed by the
    controller of the consumer before expiry, countering, signed by the controller of
    the provider within the window, or finalizing by anyone once the window is over,
    and touches nothing but the status and the acknowledgement.  A removal is of a
    pending or active commitment whose expiry has been reached. *)
Theorem only_parties_move_commitments s s' id k :
  chain_step s s' -> VectorDb.vector_commitments (vector_db s) !! id = Some k ->
  VectorDb.vector_commitments (vector_db s') !! id <> Some k ->
  exists who c, chain_dispatch (Signed who) c s = (Ok tt, s') /\
    entitled s s' who id k (VectorDb.vector_commitments (vector_db s') !! id).
Proof.
  intros [o c r _ _ Hd|sys' _ _ ->|l' _ ->] Hk Hne; [|by destruct Hne..].
  destruct (dispatch_cases _ _ _ _ _ _ _ _ Hd) as [->|[-> _]]; [by destruct Hne|].
  destruct (dispatch_entitled _ _ _ _ _ _ _ _ _ _ Hd Hk eq_refl Hne) as (who & -> & He). by exists who, c.
Qed.

(** C9: in every reachable chain the registry is consistent: profiles are stored
    under their own DID and listed under their controller, the index lists nothing
    else and no DID twice, no controller has more than 64 agents, every profile is
    verified and its fields are within their bounds. *)
Theorem registry_is_consistent n s : chain_reach n s -> RegistryTheory.inv (chain_registry s).
Proof. intros Hr. apply reach_registry in Hr as (k & _ & Hk); [by eapply RegistryTheory.reach_inv|done..]. Qed.

(** C10: the two population counters are exact: within 2^31 steps from genesis
    [ActiveAgentCount] is the number of profiles that are not revoked, and
    [ActiveCommitmentCount] the number of commitments that are pending, active or
    disputed. *)
Theorem counters_are_exact n s :
  chain_reach n s -> 2 * Z.of_nat n <= u32_max ->
  Registry.active_agent_count (chain_registry s) =
    Z.of_nat (count_if RegistryTheory.live (Registry.agent_profiles (chain_registry s))) /\
  VectorDb.active_commitment_count (vector_db s) =
    Z.of_nat (count_if VectorDbTheory.open (VectorDb.vector_commitments (vector_db s))).
Proof.
  intros Hr Hn. split.
  - apply reach_registry in Hr as (k & Hk & Hr); [|done..]. eapply RegistryTheory.reach_count; [exact Hr|lia].
  - apply reach_vector_db in Hr as (k & Hk & Hr). eapply VectorDbTheory.reach_open_count; [exact Hr|lia].
Qed.

(** C35: revocation is for good: once an agent is revoked, in every later state of
    the chain its profile is still there, still revoked, and with the same DID,
    controller and registration block. *)
Theorem revocation_is_permanent s s' d p :
  rtc chain_step s s' -> Registry.agent_profiles (chain_registry s) !! d = Some p ->
  Registry.status p = Registry.Revoked ->
  exists p', Registry.agent_profiles (chain_registry s') !! d = Some p' /\
    Registry.status p' = Registry.Revoked /\ RegistryTheory.same_identity p p'.
Proof. intros Hs%steps_registry; [|done..]. by apply (RegistryTheory.steps_revoked Configs.registry_config). Qed.
End Properties.

(** ** Concrete runs *)

Import Scenario Scenario.Instances.

Lemma acked_valid : run_valid acked start = true.
Proof. vm_compute. reflexivity. Qed.
Lemma settled_valid : run_valid settled start = true.
Proof. vm_compute. reflexivity. Qed.
Lemma overdue_valid : run_valid overdue start = true.
Proof. vm_compute. reflexivity. Qed.
Lemma lapsing_valid : run_valid lapsing start = true.
Proof. vm_compute. reflexivity. Qed.

Definition escrow3 : Escrow.EscrowRecord := Escrow.mkEscrowRecord bob alice price3 Escrow.Locked 101.

Lemma settled_facts :
  escrow_at (run acked start) id3 = Some escrow3 /\
  escrow_at (run settled start) id3 = Some (Escrow.set_status Escrow.Released escrow3) /\
  forallb (fun e => negb (is_deposit_slash e)) (Registry.events (w_registry (world (run settled start)))) = true.
Proof. vm_compute. done. Qed.

Lemma unslashed_bool {L} (w : World L) :
  forallb (fun e => negb (is_deposit_slash e)) (Registry.events (w_registry w)) = true -> world_unslashed w.
Proof.
  unfold world_unslashed, unslashed. induction (Registry.events (w_registry w)) as [|e l IH]; cbn; [constructor|].
  intros [He%negb_true_iff Hl]%andb_true_iff. constructor; auto.
Qed.

(** The settlement of [Scenario.settled] pays the price. *)
Lemma escrow_moves_in_full_witness :
  free (run settled start) alice = free (run acked start) alice + 50 * Configs.UNIT.
Proof.
  destruct settled_facts as (E1 & E2 & Hu).
  refine (proj2 (escrow_moves_in_full _ (run acked start) (run settled start) id3 escrow3
                   (Escrow.set_status Escrow.Released escrow3)
                   (run_reach _ acked_valid) (run_step _ _ settled_valid) (unslashed_bool _ Hu) E1 E2 _)).
  intros E%(f_equal Escrow.status). discriminate E.
Defined.

Lemma reserves_cover_obligations_witness : 150 * Configs.UNIT <= reserved (run acked start) bob.
Proof.
  refine (Z.le_trans _ _ _ _ (reserves_cover_obligations _ (run acked start) bob (run_reach _ acked_valid) _)).
  - vm_compute. discriminate.
  - apply unslashed_bool. vm_compute. reflexivity.
Defined.


Lemma chain_refines_the_market_witness :
  Market.market_step (Market.market Configs.vector_db_config (run acked start))
    (Market.market Configs.vector_db_config (run settled start)) /\
  Market.holding (Market.slots (Market.market Configs.vector_db_config (run acked start)) id3) = Some (Escrow.Locked, price3).
Proof.
  destruct (chain_refines_the_market _ (run acked start) (run_reach _ acked_valid)) as (_ & Hs & Hh). split.
  - exact (Hs (run settled start) (run_step _ _ settled_valid)).
  - rewrite <- (Hh id3). vm_compute. reflexivity.
Defined.

Lemma reachable_states_are_typed_witness : Typed.chain_typed (run settled start).
Proof. exact (reachable_states_are_typed _ (run settled start) (run_reach _ settled_valid)). Defined.

Definition commitment3 (st : VectorDb.CommitmentStatus) (ack : option BlockNumber) (ex : BlockNumber) :=
  VectorDb.mkCommitment id3 did_p did_q root3 3 (bstr "m") st 101 ex ack price3.

Lemma overdue_commitment :
  VectorDb.vector_commitments (vector_db (run overdue start)) !! id3 = Some (commitment3 VectorDb.Disputed (Some 101) 1101).
Proof. vm_compute. reflexivity. Qed.

Lemma disputes_always_resolve_witness :
  exists d, VectorDb.dispute_records (vector_db (run overdue start)) !! id3 = Some d /\ VectorDb.verdict d = None.
Proof.
  destruct (disputes_always_resolve _ (run overdue start) id3 _ (run_reach _ overdue_valid)
              overdue_commitment eq_refl) as (d & Hd & Hv & _).
  exact (ex_intro _ d (conj Hd Hv)).
Defined.

Lemma settled_commitment :
  VectorDb.vector_commitments (vector_db (run settled start)) !! id3 = Some (commitment3 VectorDb.Settled (Some 101) 1101).
Proof. vm_compute. reflexivity. Qed.

Lemma commitments_and_escrows_agree_witness :
  exists r, escrow_at (run settled start) id3 = Some r /\ Escrow.amount r = price3 /\ Escrow.status r = Escrow.Released.
Proof.
  exact (proj2 (commitments_and_escrows_agree _ (run settled start) id3 (run_reach _ settled_valid)) _ settled_commitment
           ltac:(discriminate)).
Defined.

Lemma settled_and_resolved_are_final_witness :
  chain_view (run (settled ++ [NewBlock (sys_at 102)]) start) id3 = chain_view (run settled start) id3 /\
  escrow_at (run (settled ++ [NewBlock (sys_at 102)]) start) id3 = escrow_at (run settled start) id3.
Proof.
  refine (settled_and_resolved_are_final _ (run settled start) _ id3 _ (run_reach _ settled_valid)
            (rtc_once _ _ (run_step _ _ _)) settled_commitment (or_introl eq_refl)).
  vm_compute. reflexivity.
Defined.

Lemma escrow_records_are_immutable_witness :
  exists r', escrow_at (run settled start) id3 = Some r' /\ Escrow.payee r' = alice.
Proof.
  destruct settled_facts as (E1 & _ & _).
  destruct (escrow_records_are_immutable (run acked start) (run settled start) id3 escrow3
              (rtc_once _ _ (run_step _ _ settled_valid)) E1) as (r' & Hr' & _ & Hp & _).
  exact (ex_intro _ r' (conj Hr' Hp)).
Defined.

Lemma lapsing_commitment :
  VectorDb.vector_commitments (vector_db (run lapsing start)) !! id3 = Some (commitment3 VectorDb.Active (Some 101) 103).
Proof. vm_compute. reflexivity. Qed.

Lemma expiry_strands_the_escrow_witness :
  VectorDb.vector_commitments (vector_db (run (lapsing ++ [lapse]) start)) !! id3 = None /\
  escrow_phase (world (run (lapsing ++ [lapse]) start)) id3 = Some VectorDbTheory.Held.
Proof.
  refine (expiry_strands_the_escrow _ (run lapsing start) _ _ carol id3 _ (run_reach _ lapsing_valid)
            lapsing_commitment eq_refl (run_dispatch _ _ _ _) (rtc_refl _ _)).
  vm_compute. reflexivity.
Defined.

Lemma lapse_valid : run_valid (lapsing ++ [lapse]) start = true.
Proof. vm_compute. reflexivity. Qed.
Lemma lapsed_commitment : VectorDb.vector_commitments (vector_db (run (lapsing ++ [lapse]) start)) !! id3 = None.
Proof. vm_compute. reflexivity. Qed.

Lemma only_parties_move_commitments_witness :
  exists who c, dispatched (Signed who) c (run lapsing start) = (Ok tt, run (lapsing ++ [lapse]) start) /\
    entitled (run lapsing start) (run (lapsing ++ [lapse]) start) who id3 (commitment3 VectorDb.Active (Some 101) 103)
      (VectorDb.vector_commitments (vector_db (run (lapsing ++ [lapse]) start)) !! id3).
Proof.
  refine (only_parties_move_commitments (run lapsing start) (run (lapsing ++ [lapse]) start) id3 _
            (run_step _ _ lapse_valid) lapsing_commitment _).
  rewrite lapsed_commitment. discriminate.
Defined.

Lemma registry_is_consistent_witness : RegistryTheory.inv (chain_registry (run acked start)).
Proof. exact (registry_is_consistent _ _ (run_reach _ acked_valid)). Defined.

Lemma counters_are_exact_witness :
  Registry.active_agent_count (chain_registry (run acked start)) = 3 /\
  VectorDb.active_commitment_count (vector_db (run acked start)) = 1.
Proof.
  destruct (counters_are_exact _ _ (run_reach _ acked_valid) ltac:(by vm_compute)) as [-> ->].
  vm_compute. done.
Defined.

(** Carol revokes her agent. *)
Definition revoked : list Action :=
  joined ++ [registry_call carol (Registry.SetAgentStatus did_r Registry.Revoked)].
Definition revoked_profile : Registry.AgentProfile :=
  Registry.mkProfile did_r carol Registry.CAP_DATA_PROVIDER 0 Registry.Revoked 100 true Registry.MlDsa65
    (bstr "meta") (bstr "label").

Definition unrevoke : Action := registry_call carol (Registry.SetAgentStatus did_r Registry.Active).

Lemma unrevoke_valid : run_valid (revoked ++ [unrevoke]) start = true.
Proof. vm_compute. reflexivity. Qed.
Lemma revoked_stored : Registry.agent_profiles (chain_registry (run revoked start)) !! did_r = Some revoked_profile.
Proof. vm_compute. reflexivity. Qed.

Lemma revocation_is_permanent_witness :
  exists p', Registry.agent_profiles (chain_registry (run (revoked ++ [unrevoke]) start)) !! did_r = Some p' /\
    Registry.status p' = Registry.Revoked.
Proof.
  destruct (revocation_is_permanent (run revoked start) (run (revoked ++ [unrevoke]) start) did_r revoked_profile
              (rtc_once _ _ (run_step _ _ unrevoke_valid)) revoked_stored eq_refl) as (p' & Hp' & Hst & _).
  exact (ex_intro _ p' (conj Hp' Hst)).
Defined.

Lemma shorted_valid : run_valid (shorted ++ [short_answer]) start = true.
Proof. vm_compute. reflexivity. Qed.

Lemma shorted_slash :
  In (Registry.DepositSlashed did_p alice (10 * Configs.UNIT) 10) (Registry.events (w_registry (world (run slashed start)))).
Proof. vm_compute. tauto. Qed.
Lemma contesting_valid : run_valid contesting (run slashed start) = true.
Proof. vm_compute. reflexivity. Qed.

(** C29: without that proviso the guarantee fails: there is a run of the chain in
    which ten units of an agent's deposit are slashed, its controller later deregisters
    the agent and is nevertheless given the whole deposit of a hundred units, out of the
    reserve it shares with an escrow that the same account has locked, and that escrow,
    released by the very next call and recorded as released in full, pays its payee ten
    units less than its amount. *)
Theorem slashed_deposit_underpays :
  exists n s1 s2 s3 s4 who d strikes id r payee_did chunk proof,
    reached n s1 /\
    In (Registry.DepositSlashed d who (10 * Configs.UNIT) strikes) (Registry.events (w_registry (world s1))) /\
    rtc steps s1 s2 /\
    dispatched (Signed who) (CallRegistry (Registry.DeregisterAgent d)) s2 = (Ok tt, s3) /\
    free s3 who = free s2 who + Registry.RegistrationDeposit Configs.registry_config /\
    escrow_at s3 id = Some r /\ Escrow.status r = Escrow.Locked /\ Escrow.payer r = who /\
    dispatched (Signed (Escrow.payee r)) (CallVectorDb (VectorDb.CounterDispute id payee_did chunk proof)) s3 = (Ok tt, s4) /\
    escrow_at s4 id = Some (Escrow.set_status Escrow.Released r) /\
    In (Escrow.FundsReleased id (Escrow.payer r) (Escrow.payee r) (Escrow.amount r)) (Escrow.events (w_escrow (world s4))) /\
    free s4 (Escrow.payee r) = free s3 (Escrow.payee r) + Escrow.amount r - 10 * Configs.UNIT.
Proof.
  exists (length slashed), (run slashed start), (run (slashed ++ contesting) start), (run shorted start),
    (run (shorted ++ [short_answer]) start), alice, did_p, 10, id_short, (Escrow.mkEscrowRecord alice carol price3 Escrow.Locked 112),
    did_r, (bstr "beta"), (merkle_proof OffChain.Blake2bHasher leaves3 [1%nat]).
  split; [by apply run_reach, (valid_app _ contesting), (valid_app _ _ (valid_app _ _ shorted_valid))|].
  split; [exact shorted_slash|].
  split; [rewrite run_app; apply acts_steps; exact contesting_valid|].
  split; [apply run_dispatch; vm_compute; reflexivity|].
  split; [vm_compute; reflexivity|]. split; [vm_compute; reflexivity|]. split; [done|]. split; [done|].
  split; [apply run_dispatch; vm_compute; reflexivity|].
  vm_compute. split_and!; try done. tauto.
Qed.
End ChainProperties.
