(* ===== verification/RegistryProperties.v ===== *)
(** * RegistryProperties: what the agent registry guarantees

    Registration and its replay protection, the star cooldown, strikes and the
    deposit, and what failing calls leave behind. *)

From stdpp Require Import base gmap list strings relations.
From Stdlib Require Import ZArith Lia.
From S2P Require Import Prelude Frame Ledger Escrow AgentRegistry RegistryTheory Merkle VectorDb VectorDbTheory Template Runtime RuntimeTheory Solvency Scenario.

Local Open Scope arth_scope.

Module RegistryProperties.
Import Registry RegistryTheory.

Section Properties.
Context {L : Type} `{ReservableCurrencyLaws L} `{Blake2} `{ScaleCodecLaws} `{MlDsa}.
Implicit Types s : State L.

(** C31: [register_agent] succeeds exactly when it should: the origin is signed, the
    DID derived from the key is free, the controller has room for another agent, the
    challenge is neither from the future nor more than 64 blocks old, the ML-DSA
    signature over this chain, DID, controller and block verifies, and the deposit
    can be reserved.  The resulting storage is the one stated. *)
Theorem register_agent_exactly_when cfg sys o pk sg at_ caps meta lbl s s' :
  register_agent cfg sys o pk sg at_ caps meta lbl s = (Ok tt, s') <->
  exists c l', o = Signed c /\ registrable sys c pk sg at_ s /\
    reserve c (RegistrationDeposit cfg) (currency s) = (Ok tt, l') /\
    s' = registered_state sys c pk caps meta lbl l' s.
Proof. apply register_agent_ok. Qed.

Lemma encode_h256_length b : len32 b -> length (encode_h256 b) = 32%nat.
Proof. intros. by rewrite encode_h256_raw. Qed.
Lemma encode_account_length b : len32 b -> length (encode_account b) = 32%nat.
Proof. intros. by rewrite encode_account_raw. Qed.
Lemma encode_array32_length b : len32 b -> length (encode_array32 b) = 32%nat.
Proof. intros. by rewrite encode_array32_raw. Qed.

(** C32: the signed challenge determines everything it is meant to bind: two
    registrations whose challenges are the same bytes are for the same chain, the
    same DID, the same controller and the same block, so a signature cannot be
    replayed for any other. *)
Theorem challenge_binds_registration g d c b h g' d' c' b' h' :
  len32 g -> len32 g' -> len32 d -> len32 d' -> len32 c -> len32 c' -> in_u32 b -> in_u32 b' ->
  len32 h -> len32 h' ->
  registration_challenge g d c b h = registration_challenge g' d' c' b' h' ->
  g = g' /\ d = d' /\ c = c' /\ b = b' /\ h = h'.
Proof.
  intros Hg Hg' Hd Hd' Hc Hc' Hb Hb' Hh Hh'. unfold registration_challenge.
  intros [E1 [E2 [E3 [E4 E5]%app_inj_1]%app_inj_1]%app_inj_1]%app_inj_1;
    rewrite ?encode_h256_length, ?encode_array32_length, ?encode_account_length, ?encode_u32_length; try done.
  rewrite !encode_h256_raw in E1, E5 by done. rewrite !encode_array32_raw in E2 by done.
  rewrite !encode_account_raw in E3 by done. apply encode_u32_inj in E4; done.
Qed.

(** C34: the cooldown holds along every trace: after a successful [give_star] for a
    pair in block [b], whatever happens on the chain short of removing that star,
    the next successful [give_star] for the pair is in a block at least [b] plus the
    cooldown. *)
Theorem stars_respect_the_cooldown cfg sys1 sys2 o1 o2 g r s0 s1 s2 s3 :
  0 <= StarCooldown cfg -> in_u32 (block_number sys1) -> 0 < block_number sys1 ->
  give_star cfg sys1 o1 g r s0 = (Ok tt, s1) -> rtc (quiet_step cfg g r) s1 s2 ->
  give_star cfg sys2 o2 g r s2 = (Ok tt, s3) ->
  sat_add u32_max (block_number sys1) (StarCooldown cfg) <= block_number sys2.
Proof.
  intros Hcd Hin Hpos (c & p & _ & _ & _ & _ & _ & _ & _ & ->)%give_star_ok Ht
    (c2 & p2 & _ & _ & _ & _ & _ & _ & Hw & _)%give_star_ok.
  apply (quiet_trace_star cfg g r (block_number sys1)) in Ht as [Hle _];
    rewrite ?give_last_star, ?decide_True by done; try done.
  unfold sat_add in *. lia.
Qed.

Lemma give_star_intro cfg sys c g r s p :
  g ∈ controller_dids s c -> g <> r -> agent_profiles s !! r = Some p -> status p <> Revoked ->
  controller p <> c ->
  (0 < last_star_of s g r -> sat_add u32_max (last_star_of s g r) (StarCooldown cfg) <= block_number sys) ->
  exists s', give_star cfg sys (Signed c) g r s = (Ok tt, s').
Proof.
  intros Hg Hne Hp Hst Hc Hcd. unfold give_star, try_mutate_profile, ensure_signed, bind, gets, ensure, ok_or, ret, modify.
  rewrite (bool_decide_eq_true_2 _ Hg), (bool_decide_eq_false_2 _ Hne). cbn. rewrite Hp.
  rewrite (bool_decide_eq_false_2 _ Hst), (bool_decide_eq_false_2 _ Hc). cbn.
  destruct (0 <? last_star_of s g r) eqn:E; cbn; [|rewrite Hp; eauto].
  apply Z.ltb_lt in E. rewrite (proj2 (Z.leb_le _ _) (Hcd E)). cbn. rewrite Hp. eauto.
Qed.

Lemma remove_star_intro c g r s p :
  g ∈ controller_dids s c -> 0 < last_star_of s g r -> agent_profiles s !! r = Some p ->
  remove_star (Signed c) g r s =
    (Ok tt, deposit_event (StarRemoved g r)
              (set_profiles (insert r (with_score (fun n => sat_sub n 1) p)) (set_stars (insert (g, r) 0) s))).
Proof.
  intros Hg Hl Hp. unfold remove_star, try_mutate_profile, ensure_signed, bind, gets, ensure, ok_or, ret, modify.
  rewrite (bool_decide_eq_true_2 _ Hg), (proj2 (Z.ltb_lt _ _) Hl). cbn. by rewrite Hp.
Qed.

(** [remove_star] undoes [give_star] completely: the profiles are as before
    the star, the pair has no star on record, and so no cooldown either: the same
    star can be given again in any block, the very same one included. *)
Theorem remove_star_undoes_give_star cfg sys o g r s s1 p :
  give_star cfg sys o g r s = (Ok tt, s1) -> 0 < block_number sys ->
  agent_profiles s !! r = Some p -> 0 <= reputation_score p < u32_max ->
  exists s2, remove_star o g r s1 = (Ok tt, s2) /\ agent_profiles s2 = agent_profiles s /\
    last_star_of s2 g r = 0 /\ forall sys', exists s3, give_star cfg sys' o g r s2 = (Ok tt, s3).
Proof.
  intros (c & q & -> & Hg & Hne & Hq & Hst & Hc & _ & ->)%give_star_ok Hb Hp Hrep.
  rewrite Hp in Hq. injection Hq as <-. eexists. split.
  { apply remove_star_intro; [exact Hg|by rewrite give_last_star, decide_True|apply lookup_insert_eq]. }
  assert (with_score (fun n => sat_sub n 1) (with_score (fun n => sat_add u32_max n 1) p) = p) as E.
  { destruct p. unfold with_score. cbn -[u32_max] in *. f_equal. unfold sat_add, sat_sub. lia. }
  rewrite E. split_and!.
  - cbn. rewrite insert_insert_eq. by apply insert_id.
  - unfold last_star_of. cbn. by rewrite lookup_insert_eq.
  - intros sys'. apply (give_star_intro _ _ _ _ _ _ p); try done; [apply lookup_insert_eq|].
    unfold last_star_of. cbn. rewrite lookup_insert_eq. cbn. lia.
Qed.

(** [n] guilty verdicts in a row against a registered agent with no strikes
    leave it with [n mod 10] strikes, produce [n / 10] deposit slashes, and take ten
    units for each out of the controller's reserve, as far as it goes. *)
Theorem guilty_verdicts_count_strikes n d amount s p :
  agent_profiles s !! d = Some p -> strikes_of s d = 0 ->
  let s' := Nat.iter n (slash_reputation_for_guilty_delivery Configs.registry_config d amount) s in
  strikes_of s' d = Z.of_nat n mod 10 /\
  deposit_slashes d (events s') = deposit_slashes d (events s) + Z.of_nat n / 10 /\
  reserved_balance (currency s') (controller p) =
    sat_sub (reserved_balance (currency s) (controller p)) (Z.of_nat n / 10 * (10 * Configs.UNIT)).
Proof.
  intros Hp Hs. destruct (guilty_iter Configs.registry_config n d amount s p) as (_ & ? & ? & ?); try done.
Qed.

(** A suspended agent can still be edited: [update_profile] succeeds exactly for
    the controller of an agent that is not revoked, and it changes nothing but the
    capabilities, the metadata and the label of that profile. *)
Theorem update_profile_exactly_when o d caps meta lbl s s' :
  update_profile o d caps meta lbl s = (Ok tt, s') <->
  exists p, o = Signed (controller p) /\ agent_profiles s !! d = Some p /\
    (status p = Active \/ status p = Suspended) /\
    s' = deposit_event (AgentProfileUpdated d) (set_profiles (insert d (with_details caps meta lbl p)) s).
Proof.
  split.
  - intros (p & -> & Hp & Hst & ->)%update_profile_ok. exists p. split_and!; try done. destruct (status p); auto. done.
  - intros (p & -> & Hp & Hst & ->).
    assert (status p <> Revoked) as Hn by (destruct Hst as [-> | ->]; discriminate).
    unfold update_profile, ensure_signed, bind, gets, ok_or, ensure, ret, modify. rewrite Hp.
    rewrite bool_decide_eq_true_2 by done. by rewrite (bool_decide_eq_false_2 _ Hn).
Qed.

(** Deregistration takes an agent out and leaves its record of misconduct: the
    profile is gone and its controller no longer lists it, the deposit is free again
    when the reserve holds it, and the strikes and stars stay, so that registering
    the same key again does not wipe them. *)
Theorem deregistration_returns_the_deposit cfg o d s s' p :
  0 <= RegistrationDeposit cfg -> deregister_agent cfg o d s = (Ok tt, s') -> agent_profiles s !! d = Some p ->
  RegistrationDeposit cfg <= reserved_balance (currency s) (controller p) ->
  o = Signed (controller p) /\ agent_profiles s' !! d = None /\ (d ∉ controller_dids s' (controller p)) /\
  free_balance (currency s') (controller p) = free_balance (currency s) (controller p) + RegistrationDeposit cfg /\
  reserved_balance (currency s') (controller p) = reserved_balance (currency s) (controller p) - RegistrationDeposit cfg /\
  strikes_of s' d = strikes_of s d /\ star_givers s' = star_givers s.
Proof.
  intros Hd (q & rem & l' & -> & Hq & _ & Hun & ->)%deregister_agent_ok Hp Hle. simplify_eq.
  apply unreserve_spec in Hun as (_ & Ef & Er & _); [|done]. cbn.
  split_and!; try done; [apply lookup_delete_eq| |lia|lia].
  unfold controller_dids. cbn. rewrite lookup_insert_eq. cbn. intros [? _]%list_elem_of_filter. done.
Qed.

(** C36: every call of the registry but one checks before it writes: when it returns
    an error, the storage and the balances are what they were, without any help
    from the storage layer.  ([RemoveStar] clears the star before it looks up the
    receiver, and relies on that layer.) *)
Theorem registry_errors_write_nothing cfg sys o c s e s' :
  (forall g r, c <> RemoveStar g r) -> exec cfg sys o c s = (Err e, s') -> s' = s.
Proof.
  intros Hc. destruct c; cbn [exec].
  - apply register_agent_noop.
  - apply update_profile_noop.
  - apply set_agent_status_noop.
  - apply give_star_noop.
  - by destruct (Hc giver_did receiver).
  - apply deregister_agent_noop.
Qed.
End Properties.

(** ** Concrete runs *)

Import Scenario Scenario.Instances.

(** The challenge of alice's registration, and the same bytes written out. *)
Definition challenge_bytes : bytes := Eval vm_compute in registration_challenge zeros32 did_p alice 100 (rep Byte.x07).

Lemma challenge_binds_registration_witness :
  registration_challenge zeros32 did_p alice 100 (rep Byte.x07) = challenge_bytes /\
  (zeros32 = zeros32 /\ did_p = did_p /\ alice = alice /\ 100 = 100 /\ rep Byte.x07 = rep Byte.x07).
Proof.
  split; [reflexivity|].
  refine (challenge_binds_registration zeros32 did_p alice 100 (rep Byte.x07) zeros32 did_p alice 100 (rep Byte.x07)
            eq_refl eq_refl eq_refl eq_refl eq_refl eq_refl _ _ eq_refl eq_refl eq_refl); split; discriminate.
Defined.

(** The registry with the three agents of [Scenario.joined]. *)
Definition joined_registry : State ledger := Runtime.chain_registry (run joined start).
Definition starred : State ledger :=
  (give_star Configs.registry_config (sys_at 101) (Signed alice) did_p did_q joined_registry).2.
Definition starred_again : State ledger :=
  (give_star Configs.registry_config (sys_at 1301) (Signed alice) did_p did_q starred).2.

Lemma star_given :
  give_star Configs.registry_config (sys_at 101) (Signed alice) did_p did_q joined_registry = (Ok tt, starred).
Proof. refine (is_ok_run (give_star _ _ _ _ _) joined_registry _). vm_compute. reflexivity. Qed.
Lemma star_given_again :
  give_star Configs.registry_config (sys_at 1301) (Signed alice) did_p did_q starred = (Ok tt, starred_again).
Proof. refine (is_ok_run (give_star _ _ _ _ _) starred _). vm_compute. reflexivity. Qed.

Lemma stars_respect_the_cooldown_witness : 101 + 1200 <= 1301.
Proof.
  refine (stars_respect_the_cooldown Configs.registry_config (sys_at 101) (sys_at 1301) _ _ did_p did_q _ _ _ _
            _ _ _ star_given (rtc_refl _ _) star_given_again).
  - discriminate.
  - split; discriminate.
  - reflexivity.
Defined.

Definition agent_q : AgentProfile :=
  mkProfile did_q bob CAP_DATA_PROVIDER 0 Active 100 true MlDsa65 (bstr "meta") (bstr "label").
Lemma agent_q_stored : agent_profiles joined_registry !! did_q = Some agent_q.
Proof. vm_compute. reflexivity. Qed.

Lemma remove_star_undoes_give_star_witness :
  exists s2, remove_star (Signed alice) did_p did_q starred = (Ok tt, s2) /\
    agent_profiles s2 = agent_profiles joined_registry.
Proof.
  destruct (remove_star_undoes_give_star Configs.registry_config (sys_at 101) _ did_p did_q _ _ agent_q
              star_given eq_refl agent_q_stored) as (s2 & H1 & H2 & _).
  - split; [discriminate|reflexivity].
  - exact (ex_intro _ s2 (conj H1 H2)).
Defined.

Lemma guilty_verdicts_count_strikes_witness :
  strikes_of (Nat.iter 12 (slash_reputation_for_guilty_delivery Configs.registry_config did_q 5) joined_registry) did_q = 2.
Proof.
  exact (proj1 (guilty_verdicts_count_strikes 12 did_q 5 joined_registry agent_q agent_q_stored eq_refl)).
Defined.

Definition left_registry : State ledger :=
  (deregister_agent Configs.registry_config (Signed bob) did_q joined_registry).2.
Lemma bob_left : deregister_agent Configs.registry_config (Signed bob) did_q joined_registry = (Ok tt, left_registry).
Proof. refine (is_ok_run (deregister_agent _ _ _) joined_registry _). vm_compute. reflexivity. Qed.

Lemma deregistration_returns_the_deposit_witness :
  free_balance (currency left_registry) bob = free_balance (currency joined_registry) bob + 100 * Configs.UNIT.
Proof.
  refine (proj1 (proj2 (proj2 (proj2 (deregistration_returns_the_deposit Configs.registry_config _ did_q
            joined_registry left_registry agent_q _ bob_left agent_q_stored _))))).
  - discriminate.
  - vm_compute. discriminate.
Defined.

(** Starring oneself fails, and leaves the registry alone. *)
Definition self_star : State ledger :=
  (exec Configs.registry_config (sys_at 101) (Signed alice) (GiveStar did_p did_p) joined_registry).2.
Lemma self_star_fails :
  exec Configs.registry_config (sys_at 101) (Signed alice) (GiveStar did_p did_p) joined_registry =
    (Err (RegistryModule CannotStarSelf), self_star).
Proof.
  refine (err_run (exec Configs.registry_config (sys_at 101) (Signed alice) (GiveStar did_p did_p)) joined_registry
            (RegistryModule CannotStarSelf) _).
  vm_compute. reflexivity.
Qed.

Lemma registry_errors_write_nothing_witness : self_star = joined_registry.
Proof.
  refine (registry_errors_write_nothing Configs.registry_config (sys_at 101) (Signed alice) (GiveStar did_p did_p)
            joined_registry (RegistryModule CannotStarSelf) self_star _ self_star_fails).
  discriminate.
Defined.
End RegistryProperties.
