(* ===== verification/VectorProperties.v ===== *)
(** * VectorProperties: commitments, disputes and the provider's client

    What a countered dispute proves, that an honest provider can always answer one with
    the client of the repository, and how chunks, trees and the chunk store fit
    together with the pallet. *)

From stdpp Require Import base gmap list strings pretty relations.
From Stdlib Require Import ZArith Lia.
From S2P Require Import Prelude Frame Ledger Escrow AgentRegistry RegistryTheory Merkle VectorDb VectorDbTheory Template Runtime RuntimeTheory Typed Market Offchain VectorClient VectorClientTheory VectorSubmit Solvency Scenario.

Local Open Scope arth_scope.

Module VectorProperties.

Section Pallet.
Context {X : Type} `{AgentLookup X} `{ReputationHandler X} `{EscrowHandler X}.
Context `{Blake2} `{ScaleCodec} `{RsMerkle} `{!RsMerkleLaws} `{!Blake2Laws} `{!ScaleCodecLaws}.
Import VectorDb.
Implicit Types s : State X.


(** The deadline alone decides who can end a dispute: up to and including the
    deadline block [finalize_dispute] is refused to everyone with
    [DisputeWindowStillOpen], and after it [counter_dispute] succeeds for nobody, so
    the two verdicts never race. *)
Theorem the_deadline_decides ub sys id s c d :
  vector_commitments s !! id = Some c -> status c = Disputed -> dispute_records s !! id = Some d ->
  (block_number sys <= counter_deadline d -> forall who,
     finalize_dispute sys (Signed who) id s = (Err (VectorDbModule DisputeWindowStillOpen), s)) /\
  (counter_deadline d < block_number sys -> forall o p data proof s',
     counter_dispute ub sys o id p data proof s <> (Ok tt, s')).
Proof.
  intros Hc Hst Hd. split.
  - intros Hle who.
    unfold finalize_dispute, get_commitment, get_dispute, ensure_signed, bind, gets, ok_or, ensure, ret, throw.
    rewrite Hc, (bool_decide_eq_true_2 _ Hst), Hd. by rewrite (proj2 (Z.ltb_ge _ _) Hle).
  - intros Hlt o p data proof s' (who & c' & d' & x' & _ & _ & _ & _ & _ & Hd' & Hdl & _)%VectorDbTheory.counter_dispute_ok.
    simplify_eq. lia.
Qed.

(** What is hashed into a commitment id determines the deal: two commitments
    with the same preimage have the same provider, consumer, root and block. *)
Theorem commitment_preimage_binds p q root b p' q' root' b' :
  len32 p -> len32 p' -> len32 q -> len32 q' -> len32 root -> len32 root' -> in_u32 b -> in_u32 b' ->
  commitment_preimage p q root b = commitment_preimage p' q' root' b' ->
  p = p' /\ q = q' /\ root = root' /\ b = b'.
Proof.
  intros Hp Hp' Hq Hq' Hr Hr' Hb Hb'. unfold commitment_preimage. intros E%(inj (app (bstr "ArthNeura-Vector-v1"))).
  apply app_inj_1 in E as [-> [-> [-> E]%app_inj_1]%app_inj_1]; unfold len32 in *; try congruence.
  apply encode_u32_inj in E; done.
Qed.
End Pallet.

(** ** The clients against the chain *)

Section EndToEnd.
Import Runtime VectorClient VectorClientTheory VectorSubmit.
Context {L : Type} `{ReservableCurrency L} `{Blake2} `{ScaleCodec} `{MlDsa} `{RsMerkle} `{Hex}.
Context `{!RsMerkleLaws} `{!Blake2Laws} `{!HexLaws}.
Abbreviation submit :=
  (chain_submit (L := L) Configs.registry_config Configs.vector_db_config Configs.usize_bits).
Implicit Types w : Machine (Chain L).

#[local] Existing Instance AgentRegistryAdapter.
#[local] Existing Instance EscrowAdapter.
#[local] Instance runtime_reputation : ReputationHandler (Runtime.World L) :=
  ReputationHandlerAdapter Configs.registry_config Configs.vector_db_config.

(** The escrow of a disputed commitment can be released to an account that exists. *)
Lemma release_payable `{!RepatriateExisting L} n id c (s : Chain L) :
  Runtime.reach Configs.registry_config Configs.vector_db_config Configs.usize_bits n s ->
  VectorDb.vector_commitments (vector_db s) !! id = Some c -> VectorDb.status c = VectorDb.Disputed ->
  (forall r, Escrow.escrows (w_escrow (world s)) !! id = Some r ->
     let l := w_balances (world s) in 0 < free_balance l (Escrow.payee r) + reserved_balance l (Escrow.payee r)) ->
  exists e, Escrow.release id (escrow_of (world s)) = (Ok tt, e).
Proof.
  intros Hr Hc Hdis Hex. destruct (Market.reach_escrow_due _ _ _ _ _ _ _ Hr Hc) as (r & Hrec & _ & Hst); [by rewrite Hdis|].
  unfold Market.escrow_due in Hst. rewrite Hdis in Hst. apply Typed.reach_typed in Hr as [[_ _ Hesc] _ _].
  destruct (Hesc id r Hrec) as (_ & _ & _ & [Ha _] & _).
  destruct (repatriate_existing (w_balances (world s)) (Escrow.payer r) (Escrow.payee r) (Escrow.amount r) Ha (Hex r Hrec))
    as (rem & l' & Hrep).
  eexists. by apply (Escrow.release_total id (escrow_of (world s)) r rem l').
Qed.

(** C5: an honest provider has an answer: in every reachable chain, when the chunks
    whose root was committed, fewer than 2^32 of them and none above the size limit, are
    in the provider's chunk store, the provider is still active and verified and the
    account its escrow pays to still exists, the [counter_dispute] client, run by the
    provider's controller not later than the deadline, submits a call that the pallet
    accepts: the dispute ends with the claim unsubstantiated and the escrow is
    released. *)
Theorem honest_provider_can_answer `{!RepatriateExisting L} root_dir n who id cs root c w :
  Runtime.reach Configs.registry_config Configs.vector_db_config Configs.usize_bits n (net w) ->
  stored root_dir (files w) id cs -> Forall (sized MAX_CHUNK_LEN) cs -> Z.of_nat (length cs) < 2 ^ 32 ->
  build_merkle_tree cs = Some (root, leaves_of cs) ->
  VectorDb.vector_commitments (vector_db (net w)) !! id = Some c -> VectorDb.status c = VectorDb.Disputed ->
  VectorDb.merkle_root c = root -> VectorDb.total_chunks c = Z.of_nat (length cs) ->
  adapter_controller_of (world (net w)) (VectorDb.provider c) = Some who ->
  adapter_is_active_verified (world (net w)) (VectorDb.provider c) = true ->
  (forall r, Escrow.escrows (w_escrow (world (net w))) !! id = Some r ->
     let l := w_balances (world (net w)) in 0 < free_balance l (Escrow.payee r) + reserved_balance l (Escrow.payee r)) ->
  exists d, VectorDb.dispute_records (vector_db (net w)) !! id = Some d /\
    (block_number (w_system (world (net w))) <= VectorDb.counter_deadline d ->
     exists w', counter_dispute submit root_dir who id (VectorDb.provider c)
                  (VectorDb.disputed_chunk_index d) (VectorDb.total_chunks c) w = (Ok tt, w') /\
       VectorDb.vector_commitments (vector_db (net w')) !! id = Some (VectorDb.with_status VectorDb.DisputeResolved c) /\
       VectorDb.dispute_records (vector_db (net w')) !! id =
         Some (VectorDb.with_verdict VectorDb.ClaimantUnsubstantiated d) /\
       RuntimeTheory.escrow_phase (world (net w')) id = Some VectorDbTheory.Paid).
Proof.
  intros Hr Hst Hsz Hlen Hb Hc Hdis Hroot Hn Hco Hav Hex0.
  destruct (release_payable n id c (net w) Hr Hc Hdis Hex0) as [e He]. clear Hex0.
  apply (RuntimeTheory.reach_coherent _ _ _ _ _ id) in Hr. unfold VectorDbTheory.coherent in Hr. cbn -[RuntimeTheory.escrow_phase] in Hr.
  rewrite Hc, Hdis in Hr. destruct Hr as (_ & _ & _ & _ & d & Hd & (_ & _ & Hi & _) & _).
  exists d. split; [done|]. intros Hdl.
  destruct (lookup_lt_is_Some_2 cs (Z.to_nat (VectorDb.disputed_chunk_index d))) as [x Hx]; [lia|].
  rewrite Hn, (counter_dispute_submits submit root_dir who id _ _ cs x w Hst Hsz) by (done || lia).
  apply fmap_Some in Hb as (r & Hmr & [= ->]).
  pose proof (VectorDbTheory.counter_dispute_intro (X := Runtime.World L) Configs.usize_bits (w_system (world (net w))) who id x
    (proof_for cs (Z.to_nat (VectorDb.disputed_chunk_index d))) (vector_db (net w)) c d (put_escrow e (world (net w)))
    Hc Hdis (conj Hco Hav) Hd Hdl (proj2 Hi)) as Hex.
  rewrite !as_usize_small in Hex by (unfold Configs.usize_bits; lia).
  rewrite Hn, Nat2Z.id in Hex.
  assert (merkle_verify OnChain.Blake2bHasher (proof_for cs (Z.to_nat (VectorDb.disputed_chunk_index d)))
    (VectorDb.merkle_root c) [Z.to_nat (VectorDb.disputed_chunk_index d)] [blake2_256 x] (length cs) = true) as Hv.
  { unfold proof_for, generate_inclusion_proof. rewrite Hroot, <- (length_fmap (hash OffChain.Blake2bHasher) cs).
    apply (merkle_complete OffChain.Blake2bHasher (leaves_of cs) r); [done|exact Hmr|].
    unfold leaves_of. by rewrite list_lookup_fmap, Hx. }
  specialize (Hex Hv (f_equal (fun '(r, t) => (r, put_escrow t (world (net w)))) He)).
  destruct (submit_vector who (VectorDb.CounterDispute id (VectorDb.provider c) x
    (proof_for cs (Z.to_nat (VectorDb.disputed_chunk_index d)))) (net w) _ _ Hex eq_refl) as [l Hsub].
  eexists. split.
  { unfold submit_and_find, Offchain.on_net, bind, zoom, lift_err. rewrite Hsub. unfold ok_or. by rewrite find_first. }
  split_and!; [apply lookup_insert_eq..|]. apply Escrow.release_ok in He as (r' & rem & l' & _ & _ & _ & ->).
  unfold RuntimeTheory.escrow_phase. cbn. by rewrite lookup_insert_eq.
Qed.

(** C15: the clients add nothing and lose nothing: over the chain, the clients that
    acknowledge, close, dispute, finalize and expire have exactly the outcome of the
    dispatched call; an error of the call is the error returned and leaves the machine as it was,
    a call without an error is always recognised by its event. *)
Theorem clients_do_what_the_calls_do who id q h i n w :
  let call c := outcome (dispatch Configs.registry_config Configs.vector_db_config Configs.usize_bits
                           (Signed who) (CallVectorDb c) (net w)) w in
  acknowledge_commitment submit who id q w = call (VectorDb.AcknowledgeCommitment id q) /\
  close_commitment submit who id q h n w = call (VectorDb.CloseCommitment id q h n) /\
  raise_dispute submit who id q i h n w = call (VectorDb.RaiseDispute id q i h n) /\
  finalize_dispute submit who id w = call (VectorDb.FinalizeDispute id) /\
  expire_commitment submit who id w = call (VectorDb.ExpireCommitment id).
Proof.
  intros call. split_and!; apply (submit_and_find_spec who (VectorDb.AcknowledgeCommitment id q)) ||
    apply (submit_and_find_spec who (VectorDb.CloseCommitment id q h n)) || apply (submit_and_find_spec who (VectorDb.RaiseDispute id q i h n)) ||
    apply (submit_and_find_spec who (VectorDb.FinalizeDispute id)) || apply (submit_and_find_spec who (VectorDb.ExpireCommitment id)).
Qed.

(** C30: registering keeps the payload answerable: when the [register_commitment]
    client returns, the chain holds a pending commitment of the given parties and
    price under the returned id, for the root and the number of exactly those chunks
    that the chunk store now returns for that id. *)
Theorem registered_payload_is_recoverable root_dir who mode p q payload meta e v w res w' :
  register_commitment submit root_dir who mode p q payload meta e v w = (Ok res, w') ->
  exists cs, Chunker.split_payload (default "bytes" mode) payload = Some cs /\ Forall (sized MAX_CHUNK_LEN) cs /\
    build_merkle_tree cs = Some (r_merkle_root res, leaves_of cs) /\ r_total_chunks res = Z.of_nat (length cs) /\
    load_all_chunks root_dir (r_commitment_id res) (r_total_chunks res) (files w') = (Ok cs, files w') /\
    exists c, VectorDb.vector_commitments (vector_db (net w')) !! r_commitment_id res = Some c /\
      VectorDb.merkle_root c = r_merkle_root res /\ VectorDb.total_chunks c = r_total_chunks res /\
      VectorDb.provider c = p /\ VectorDb.consumer c = q /\ VectorDb.price c = v /\
      VectorDb.status c = VectorDb.Pending.
Proof. apply client_registers. Qed.
End EndToEnd.

(** ** Chunking and storage *)

Import VectorClient VectorClientTheory.

(** Chunking a payload in [bytes] mode loses nothing: the chunks put together are
    the payload, every chunk has between 1 and 1024 bytes, the bound of the on-chain
    argument, and there are as many as the length divided by 1024, rounded up. *)
Theorem chunks_partition_the_payload payload :
  let cs := Chunker.chunks MAX_CHUNK_LEN payload in
  concat cs = payload /\ Forall (sized MAX_CHUNK_LEN) cs /\ length cs = ((length payload + 1023) / 1024)%nat.
Proof. apply (chunks_fuel_spec (length payload) 1024 payload); lia. Qed.

(** In [rows] mode the chunks are the lines of the payload, without a trailing
    carriage return and without the empty ones, in order; chunking fails exactly when
    that leaves nothing or one of the lines is longer than 1024 bytes; and the lines
    before stripping, joined with newlines, are the payload. *)
Theorem rows_are_the_lines payload :
  (forall out, Chunker.rows payload = Some out <->
     out = filter (fun l => l <> []) (Chunker.strip_cr <$> Chunker.split_lines payload) /\ out <> [] /\
     Forall (fun l => length l <= MAX_CHUNK_LEN)%nat out) /\
  join_lines (Chunker.split_lines payload) = payload /\
  Forall (fun l => Byte.x0a ∉ l) (Chunker.split_lines payload).
Proof. split; [intros; apply rows_some|apply split_lines_spec]. Qed.


(** The chunk store gives back what was put in: chunks persisted under a staging
    id, over whatever was there before, and moved to a fresh commitment id load in
    order and complete under that id, and the staging directory is gone. *)
Theorem chunk_store_round_trip `{HexLaws} root_dir staging_id id (cs : list bytes) (fs : Fs) :
  staging_id <> id -> fs !! FsChunkStore.commitment_dir root_dir id = None ->
  exists fs1 fs2, FsChunkStore.persist root_dir staging_id cs fs = (Ok tt, fs1) /\
    FsChunkStore.rekey root_dir staging_id id fs1 = (Ok tt, fs2) /\
    load_all_chunks root_dir id (Z.of_nat (length cs)) fs2 = (Ok cs, fs2) /\
    fs2 !! FsChunkStore.commitment_dir root_dir staging_id = None.
Proof.
  intros Hne Hfresh. destruct (persist_ok root_dir staging_id cs fs) as (fs1 & Hp & Hst & Ho).
  destruct (rekey_ok root_dir staging_id id cs fs1 Hne Hst) as (fs2 & Hr & Hst2 & Hgone).
  - rewrite Ho; [done|]. intros E%(inj (FsChunkStore.commitment_dir root_dir)). by symmetry in E.
  - exists fs1, fs2. split_and!; try done. by apply load_all_ok.
Qed.

(** ** Bodies and the storage layer *)

Section Rollback.
Import Runtime.
Context {L : Type} `{ReservableCurrencyLaws L} `{Blake2} `{ScaleCodec} `{MlDsa} `{RsMerkle}.
Context (rcfg : Registry.Config) (vcfg : VectorDb.Config) (ub : Z).
Implicit Types s : Chain L.

(** The calls of the pallet that move no escrow out. *)
Definition checks_first (c : VectorDb.Call) : bool :=
  match c with
  | VectorDb.RegisterCommitment _ _ _ _ _ _ _ | VectorDb.AcknowledgeCommitment _ _
  | VectorDb.RaiseDispute _ _ _ _ _ | VectorDb.ExpireCommitment _ => true
  | _ => false
  end.

#[local] Existing Instance AgentRegistryAdapter.
#[local] Existing Instance EscrowAdapter.
#[local] Instance adapter_reputation : ReputationHandler (Runtime.World L) := ReputationHandlerAdapter rcfg vcfg.

Lemma adapter_lock_noop id p q v : ErrNoop (S := Runtime.World L) (adapter_lock id p q v).
Proof.
  intros w e w'. unfold adapter_lock, zoom. destruct (Escrow.lock _ _ _ _ _ _) as [r t] eqn:E.
  intros; simplify_eq. apply err_noop in E. subst. by destruct w as [? ? [? ? []] ?].
Qed.

Lemma vector_exec_noop sys o c (v : VectorDb.State (Runtime.World L)) e v' :
  checks_first c = true -> VectorDb.exec vcfg ub sys o c v = (Err e, v') -> v' = v.
Proof.
  destruct c; intros Hc; try discriminate Hc; cbn [VectorDb.exec].
  - apply VectorDbTheory.register_commitment_noop.
  - apply VectorDbTheory.acknowledge_commitment_noop. apply adapter_lock_noop.
  - apply VectorDbTheory.raise_dispute_noop.
  - apply VectorDbTheory.expire_commitment_noop.
Qed.

(** The body of [register_commitment], [acknowledge_commitment],
    [raise_dispute] and [expire_commitment] is atomic by itself: run without the
    storage layer, an error leaves the whole chain as it was, the balances included.
    (The bodies that pay an escrow out write before they can still fail.) *)
Theorem commitment_errors_write_nothing o c s e s' :
  checks_first c = true -> run_call rcfg vcfg ub o (CallVectorDb c) s = (Err e, s') -> s' = s.
Proof.
  intros Hc. unfold run_call, zoom. destruct (VectorDb.exec _ _ _ _ _ _) as [r v'] eqn:Hx.
  intros; simplify_eq. apply vector_exec_noop in Hx; [|done]. subst. by destruct s.
Qed.
End Rollback.

(** ** Concrete runs *)

Import Runtime Scenario Scenario.Instances.
#[local] Existing Instance hex_ref.
#[local] Existing Instance hex_ref_laws.

(** C37: on the 32-bit target of the runtime the index of a dispute wraps around: a
    provider can commit to 2^32 + 1 chunks with the root of a tree of a single chunk,
    and in that reachable chain it answers a dispute about chunk number 2^32 with
    that one chunk and an empty proof, and wins. *)
Theorem wide_commitments_wrap_around :
  exists n s s' id c d data, reached n s /\
    VectorDb.vector_commitments (vector_db s) !! id = Some c /\ VectorDb.total_chunks c = 2 ^ 32 + 1 /\
    merkle_root OnChain.Blake2bHasher [blake2_256 data] = Some (VectorDb.merkle_root c) /\
    VectorDb.dispute_records (vector_db s) !! id = Some d /\ VectorDb.disputed_chunk_index d = 2 ^ 32 /\
    dispatched (Signed alice) (CallVectorDb (VectorDb.CounterDispute id did_p data [])) s = (Ok tt, s') /\
    (VectorDb.dispute_records (vector_db s') !! id ≫= VectorDb.verdict) = Some VectorDb.ClaimantUnsubstantiated.
Proof.
  exists (length wide), (run wide start), (run (wide ++ [wide_answer]) start), id_wide,
    (VectorDb.mkCommitment id_wide did_p did_q wide_root wide_chunks [] VectorDb.Disputed 101 1101 (Some 101) price3),
    (VectorDb.mkDispute id_wide wide_root (rep Byte.xff) (2 ^ 32) 101 111 None), (bstr "beta").
  split; [apply run_reach; vm_compute; reflexivity|].
  split; [vm_compute; reflexivity|]. split; [reflexivity|]. split; [vm_compute; reflexivity|].
  split; [vm_compute; reflexivity|]. split; [reflexivity|].
  split; [apply run_dispatch; vm_compute; reflexivity|]. vm_compute. reflexivity.
Qed.

#[local] Existing Instance AgentRegistryAdapter.
#[local] Existing Instance EscrowAdapter.
#[local] Instance run_reputation : ReputationHandler (Runtime.World ledger) :=
  ReputationHandlerAdapter Configs.registry_config Configs.vector_db_config.

Definition disputed3 : VectorDb.VectorCommitment :=
  VectorDb.mkCommitment id3 did_p did_q root3 3 (bstr "m") VectorDb.Disputed 101 1101 (Some 101) price3.
Definition dispute3 : VectorDb.DisputeRecord := VectorDb.mkDispute id3 root3 (rep Byte.xff) 1 101 111 None.
Definition proof3 : list bytes := merkle_proof OffChain.Blake2bHasher leaves3 [1%nat].
Abbreviation vdb3 := (vector_db (run disputed start)).

Lemma disputed_valid : run_valid disputed start = true.
Proof. vm_compute. reflexivity. Qed.
Lemma disputed_stored : VectorDb.vector_commitments vdb3 !! id3 = Some disputed3.
Proof. vm_compute. reflexivity. Qed.
Lemma dispute_stored : VectorDb.dispute_records vdb3 !! id3 = Some dispute3.
Proof. vm_compute. reflexivity. Qed.
Definition countered3 : VectorDb.State (Runtime.World ledger) :=
  (VectorDb.counter_dispute 32 (sys_at 101) (Signed alice) id3 did_p (bstr "beta") proof3 vdb3).2.
Lemma counter_runs :
  VectorDb.counter_dispute 32 (sys_at 101) (Signed alice) id3 did_p (bstr "beta") proof3 vdb3 = (Ok tt, countered3).
Proof. refine (is_ok_run (VectorDb.counter_dispute _ _ _ _ _ _ _) vdb3 _). vm_compute. reflexivity. Qed.
Lemma root3_spec : merkle_root OnChain.Blake2bHasher (blake2_256 <$> chunks3) = Some (VectorDb.merkle_root disputed3).
Proof. vm_compute. reflexivity. Qed.


Lemma the_deadline_decides_witness :
  VectorDb.finalize_dispute (sys_at 111) (Signed carol) id3 vdb3 = (Err (VectorDbModule DisputeWindowStillOpen), vdb3).
Proof.
  refine (proj1 (the_deadline_decides 32 (sys_at 111) id3 vdb3 disputed3 dispute3 disputed_stored eq_refl dispute_stored) _ carol).
  discriminate.
Defined.

(** The preimage of [id3], written out. *)
Definition preimage3 : bytes := Eval vm_compute in VectorDb.commitment_preimage did_p did_q root3 101.
Lemma commitment_preimage_binds_witness :
  VectorDb.commitment_preimage did_p did_q root3 101 = preimage3 /\
  (did_p = did_p /\ did_q = did_q /\ root3 = root3 /\ 101 = 101).
Proof.
  split; [reflexivity|].
  refine (commitment_preimage_binds did_p did_q root3 101 did_p did_q root3 101
            eq_refl eq_refl eq_refl eq_refl eq_refl eq_refl _ _ eq_refl); split; discriminate.
Defined.

(** Alice's machine: the three chunks on disk and the disputed chain. *)
Definition alice_machine : Machine (Chain ledger) :=
  mkMachine (FsChunkStore.persist "db" id3 chunks3 ∅).2 (run disputed start).
Lemma alice_stored : stored "db" (files alice_machine) id3 chunks3.
Proof.
  destruct (persist_ok "db" id3 chunks3 ∅) as (fs' & E & Hst & _). unfold alice_machine. cbn [files]. by rewrite E.
Qed.
Lemma alice_can_be_paid r :
  Escrow.escrows (w_escrow (world (run disputed start))) !! id3 = Some r ->
  let l := w_balances (world (run disputed start)) in 0 < free_balance l (Escrow.payee r) + reserved_balance l (Escrow.payee r).
Proof. vm_compute. by intros [= <-]. Qed.
Lemma alice_tree : build_merkle_tree chunks3 = Some (root3, leaves_of chunks3).
Proof. vm_compute. reflexivity. Qed.
Lemma alice_acts :
  adapter_controller_of (world (run disputed start)) did_p = Some alice /\
  adapter_is_active_verified (world (run disputed start)) did_p = true.
Proof. vm_compute. done. Qed.

Lemma honest_provider_can_answer_witness :
  exists w', counter_dispute (chain_submit Configs.registry_config Configs.vector_db_config Configs.usize_bits)
    "db" alice id3 did_p 1 3 alice_machine = (Ok tt, w').
Proof.
  destruct (honest_provider_can_answer "db" _ alice id3 chunks3 root3 disputed3 alice_machine
              (run_reach _ disputed_valid) alice_stored) as (d & Hd & Ha).
  - repeat constructor.
  - reflexivity.
  - exact alice_tree.
  - unfold alice_machine. cbn [net]. exact disputed_stored.
  - reflexivity.
  - reflexivity.
  - reflexivity.
  - unfold alice_machine. cbn [net]. exact (proj1 alice_acts).
  - unfold alice_machine. cbn [net]. exact (proj2 alice_acts).
  - unfold alice_machine. cbn [net]. exact alice_can_be_paid.
  - assert (d = dispute3) as -> by (apply Some_inj; rewrite <- Hd; exact dispute_stored).
    destruct Ha as (w' & Hw & _); [vm_compute; discriminate|]. exact (ex_intro _ w' Hw).
Defined.

(** Alice registers a payload of 1500 bytes. *)
Definition payload : bytes := replicate 1500 Byte.x41.
Definition before_register : Machine (Chain ledger) := mkMachine ∅ (run joined start).
Abbreviation register_run :=
  (register_commitment (chain_submit Configs.registry_config Configs.vector_db_config Configs.usize_bits)
     "db" alice None did_p did_q payload (bstr "m") 1000 price3).
Definition registered_result : RegisterCommitmentResult :=
  Eval vm_compute in match (register_run before_register).1 with Ok r => r | Err _ => mkRegistered [] [] 0 end.
Lemma register_runs : register_run before_register = (Ok registered_result, (register_run before_register).2).
Proof.
  rewrite (surjective_pairing (register_run before_register)) at 1.
  assert ((register_run before_register).1 = Ok registered_result) as ->; [vm_compute; reflexivity|reflexivity].
Qed.

Lemma registered_payload_is_recoverable_witness :
  exists cs, Chunker.split_payload "bytes" payload = Some cs /\ r_total_chunks registered_result = Z.of_nat (length cs).
Proof.
  destruct (registered_payload_is_recoverable "db" alice None did_p did_q payload (bstr "m") 1000 price3
              before_register registered_result _ register_runs) as (cs & H1 & _ & _ & H2 & _).
  exact (ex_intro _ cs (conj H1 H2)).
Defined.

(** A reader that returns at most two bytes at a time. *)
Definition short_reader (i rest buf : nat) : result IoError nat := Ok (min (min rest buf) 2).

Lemma chunk_store_round_trip_witness :
  exists fs1 fs2, FsChunkStore.persist "db" zeros32 chunks3 ∅ = (Ok tt, fs1) /\
    FsChunkStore.rekey "db" zeros32 id3 fs1 = (Ok tt, fs2) /\
    load_all_chunks "db" id3 3 fs2 = (Ok chunks3, fs2) /\
    fs2 !! FsChunkStore.commitment_dir "db" zeros32 = None.
Proof. refine (chunk_store_round_trip "db" zeros32 id3 chunks3 ∅ _ _); [discriminate|reflexivity]. Defined.

(** Acknowledging a commitment twice fails, and changes nothing. *)
Definition ack_again : Chain ledger :=
  (run_call Configs.registry_config Configs.vector_db_config Configs.usize_bits (Signed bob)
     (CallVectorDb (VectorDb.AcknowledgeCommitment id3 did_q)) (run acked start)).2.
Lemma ack_again_fails :
  run_call Configs.registry_config Configs.vector_db_config Configs.usize_bits (Signed bob)
     (CallVectorDb (VectorDb.AcknowledgeCommitment id3 did_q)) (run acked start) =
  (Err (VectorDbModule NotPending), ack_again).
Proof.
  refine (err_run (run_call _ _ _ (Signed bob) (CallVectorDb (VectorDb.AcknowledgeCommitment id3 did_q))) (run acked start) _ _).
  vm_compute. reflexivity.
Qed.

Lemma commitment_errors_write_nothing_witness : ack_again = run acked start.
Proof.
  exact (commitment_errors_write_nothing _ _ _ (Signed bob) (VectorDb.AcknowledgeCommitment id3 did_q)
           (run acked start) _ ack_again eq_refl ack_again_fails).
Defined.
End VectorProperties.
