(* ===== verification/IdentityProperties.v ===== *)
(** * IdentityProperties: agent identities off the chain

    The keystore, and the clients that create, register and reload identities, against
    the chain of [Runtime]. *)

From stdpp Require Import base gmap list strings relations.
From Stdlib Require Import ZArith Lia.
From S2P Require Import Prelude Frame Ledger Escrow AgentRegistry RegistryTheory Merkle VectorDb VectorDbTheory Template Runtime RuntimeTheory Offchain Keystore RegistryClient RegistryClientTheory Scenario.

Local Open Scope arth_scope.

Module IdentityProperties.

Section KeystoreProperties.
Import Keystore.
Context `{HexLaws} `{CryptoLaws}.

(** C39: what the keystore saves it gives back: after a successful [save_identity],
    [load_identity] with the same passphrase returns the same DID and key. *)
Theorem saved_identity_loads salt nonce dir label d key pass (fs fs' : Fs) :
  len32 d -> (forall no, nonce = Some no -> length no = NONCE_LEN) ->
  save_identity salt nonce dir label d key pass fs = (Ok tt, fs') ->
  load_identity dir label pass fs' = (Ok (mkStored d key), fs').
Proof.
  intros Hd Hno (sa & no & k & ct & -> & -> & Hk & Hct & Hn & Hc & _ & ->)%save_identity_ok.
  eapply load_identity_intro; try done; [apply saved_lookup|apply lookup_insert_eq|by apply Hno].
Qed.

(** The keystore never overwrites: a save under a label that has a file fails
    with [AlreadyExists] and changes nothing, and a save that succeeds leaves every
    file that existed before as it was. *)
Theorem saving_never_overwrites salt nonce dir label d key pass (fs : Fs) :
  (identity_exists dir label fs = true ->
   save_identity salt nonce dir label d key pass fs = (Err (AlreadyExists label), fs)) /\
  (forall fs' dir' file b, save_identity salt nonce dir label d key pass fs = (Ok tt, fs') ->
     (fs !! dir' ≫= lookup file) = Some b -> (fs' !! dir' ≫= lookup file) = Some b).
Proof.
  split.
  - apply save_existing.
  - intros fs' dir' file b (sa & no & k & ct & _ & _ & _ & _ & _ & _ & He & ->)%save_identity_ok Hb.
    destruct (decide (dir' = dir)) as [->|Hne]; [|by rewrite saved_lookup_ne].
    rewrite saved_lookup. cbn. destruct (fs !! dir) as [m|] eqn:Hm; [|done]. cbn in *.
    rewrite lookup_insert_ne; [done|]. intros <-. unfold Fs.exists_ in He. rewrite Hm in He. cbn in He.
    rewrite Hb in He. by rewrite bool_decide_eq_true_2 in He.
Qed.

Lemma list_ascii_app a b :
  String.list_ascii_of_string (a +:+ b) = String.list_ascii_of_string a ++ String.list_ascii_of_string b.
Proof.
  induction a as [|c a IH]; [done|]. change (String c a +:+ b) with (String c (a +:+ b)). cbn. by rewrite IH.
Qed.

Lemma string_suffix_inj (a b t : string) : a +:+ t = b +:+ t -> a = b.
Proof.
  intros E%(f_equal String.list_ascii_of_string). rewrite !list_ascii_app in E. apply app_inv_tail in E.
  by rewrite <- (String.string_of_list_ascii_of_string a), E, String.string_of_list_ascii_of_string.
Qed.

(** A label cannot lead out of the keystore directory: the file name it is
    accepted for consists of letters, digits, dashes and underscores followed by
    [.json], so it has no path separator and is no dot entry, and two labels never
    share a file. *)
Theorem labels_stay_in_the_directory label label' (fs fs1 fs2 : Fs) path path' :
  key_file_path label fs = (Ok path, fs1) -> key_file_path label' fs = (Ok path', fs2) ->
  (Ascii.ascii_of_N 47 ∉ String.list_ascii_of_string path) /\ path <> "." /\ path <> ".." /\
  (path = path' -> label = label').
Proof.
  intros (-> & _ & Hn & Hc)%key_file_path_ok (-> & _ & Hn' & Hc')%key_file_path_ok.
  assert (forall c, c ∈ String.list_ascii_of_string label -> label_char c = true) as Hall.
  { intros c Hin. rewrite forallb_forall in Hc. apply Hc. by apply list_elem_of_In. }
  destruct label as [|c label]; [done|].
  assert (label_char c = true) as Hhd by (apply Hall; cbn; set_solver).
  split_and!.
  - rewrite list_ascii_app. intros [Hin|Hin]%elem_of_app; [by apply Hall in Hin|].
    cbn in Hin. repeat (apply elem_of_cons in Hin as [Hin|Hin]; [discriminate Hin|]). by apply not_elem_of_nil in Hin.
  - change (String c label +:+ ".json") with (String c (label +:+ ".json")). intros [= -> _]. discriminate Hhd.
  - change (String c label +:+ ".json") with (String c (label +:+ ".json")). intros [= -> _]. discriminate Hhd.
  - apply string_suffix_inj.
Qed.

(** The DID in a key file is not protected: whoever can write the file can put
    any other DID into it, and [load_identity] returns that DID with the decrypted
    key without an error. *)
Theorem stored_did_is_not_authenticated salt nonce dir label d d' key pass (fs fs' : Fs) file :
  len32 d' -> (forall no, nonce = Some no -> length no = NONCE_LEN) ->
  save_identity salt nonce dir label d key pass fs = (Ok tt, fs') ->
  (fs' !! dir ≫= lookup (label +:+ ".json")) ≫= json_parse = Some file ->
  let forged := json_of (mkKeyFile (version file) (hex_encode d') (salt_b64 file) (nonce_b64 file) (ciphertext_b64 file)) in
  let fs2 := <[dir := <[label +:+ ".json" := forged]> (default ∅ (fs' !! dir))]> fs' in
  load_identity dir label pass fs2 = (Ok (mkStored d' key), fs2).
Proof.
  intros Hd Hno (sa & no & k & ct & -> & -> & Hk & Hct & Hn & Hc & _ & ->)%save_identity_ok.
  rewrite saved_lookup. cbn. rewrite lookup_insert_eq. cbn. rewrite json_round_trip. intros [= <-]. cbn.
  eapply load_identity_intro; try done; [apply fs_lookup_insert|apply lookup_insert_eq|by apply Hno].
Qed.
End KeystoreProperties.

Section ClientProperties.
Import Runtime RegistryClient RegistryClientTheory.
Context {L : Type} `{ReservableCurrency L} `{Blake2} `{ScaleCodec} `{MlDsaSigner} `{RsMerkle}.
Context `{!Blake2Laws} `{!ScaleCodecLaws} `{!MlDsaSignerLaws}.
Abbreviation submit :=
  (chain_submit (L := L) Configs.registry_config Configs.vector_db_config Configs.usize_bits).
Implicit Types s : Chain L.

(** C33: a registration made by the client is accepted by the pallet: when the node
    answers with this chain's genesis hash and a block at most 64 blocks old, the DID
    of the fresh key is free, the account controls fewer than 64 agents and can
    reserve the deposit, the client returns the DID the pallet derives, and the chain
    has an active, verified profile of that account under it. *)
Theorem client_registration_is_accepted genesis_hash at_latest key who caps meta lbl s b h l' :
  let now := w_system (world s) in
  let d := Registry.derive_did (encode_verifying_key (verifying_key key)) in
  genesis_hash s = block_hash now 0 -> at_latest s = (Ok (b, h), s) -> h = block_hash now b ->
  len32 (block_hash now 0) -> len32 h -> len32 who ->
  b <= block_number now -> block_number now - b <= 64 ->
  Registry.agent_profiles (chain_registry s) !! d = None ->
  (length (Registry.controller_dids (chain_registry s) who) < 64)%nat ->
  reserve who (Registry.RegistrationDeposit Configs.registry_config) (w_balances (world s)) = (Ok tt, l') ->
  exists s', register_agent submit genesis_hash at_latest key who caps meta lbl s =
      (Ok (mkAgent d (signing_key_to_bytes key)), s') /\
    Registry.agent_profiles (chain_registry s') !! d =
      Some (Registry.mkProfile d who caps 0 Registry.Active (block_number now) true Registry.MlDsa65 meta lbl).
Proof.
  intros now d Hg Hat -> Hlg Hlh Hlw Hb Hw Hfree Hroom Hres. subst now d.
  eexists. split; [|apply (registered_profile _ who key caps meta lbl l' s)].
  unfold register_agent, submit_and_find, bind, gets, lift_err. rewrite Hg, Hat.
  pose proof (registration_submits who key caps meta lbl s b l' Hlg Hlh Hlw Hb Hw Hfree Hroom Hres) as Hs.
  unfold pubkey_of, signature_over, did_of, pubkey_of, blake2_256 in Hs. by rewrite Hs.
Qed.

(** ** Identities on disk *)

Context `{Hex} `{Keystore.Crypto}.
Context {Net : Type} (submit' : AccountId -> RuntimeCall -> M Net SubxtError (list EventDetails)).
Context (genesis_hash : Net -> bytes) (at_latest : M Net SubxtError (BlockNumber * bytes)).
Implicit Types w : Machine Net.

(** An identity on disk is loaded without touching the chain: when the label has
    a key file, [register_or_load_agent] submits nothing, whether the passphrase is
    right or not, and leaves the disk alone too. *)
Theorem known_identity_stays_off_chain key salt nonce who dir label pass caps meta lbl w :
  Keystore.identity_exists dir label (files w) = true ->
  (register_or_load_agent submit' genesis_hash at_latest key salt nonce who dir label pass caps meta lbl w).2 = w.
Proof.
  intros He. unfold register_or_load_agent, bind at 1, gets. rewrite He.
  pose proof (Keystore.load_identity_readonly dir label pass (files w)) as Hro. unfold on_keys, bind, zoom, lift_err.
  destruct (Keystore.load_identity dir label pass (files w)) as [[i|e] f]; cbn in Hro; subst f; by destruct w.
Qed.

(** A bad label costs an identity: for a label the keystore does not accept,
    [register_or_load_agent] goes to the chain first; when that registration
    succeeds, the deposit is reserved and the DID taken, and then the call fails with
    [InvalidLabel], with nothing saved and the key gone. *)
Theorem invalid_label_loses_the_key key salt nonce who dir label pass caps meta lbl w agent n' :
  Keystore.key_file_path label (files w) = (Err (Keystore.InvalidLabel label), files w) ->
  register_agent submit' genesis_hash at_latest key who caps meta lbl (net w) = (Ok agent, n') ->
  register_or_load_agent submit' genesis_hash at_latest key salt nonce who dir label pass caps meta lbl w =
    (Err (KeyStore (Keystore.InvalidLabel label)), mkMachine (files w) n').
Proof.
  intros Hl Hr. unfold register_or_load_agent, bind at 1, gets, Keystore.identity_exists. rewrite Hl.
  unfold on_chain, on_keys, bind, zoom, lift_err. rewrite Hr. cbn [files net].
  unfold Keystore.save_identity, bind at 1. rewrite Hl. done.
Qed.

(** Bootstrapping over an identity that has no account file loses the account:
    [bootstrap_new_agent] takes the cold-start path, and when the transfer and the
    registration succeed it fails with [AlreadyExists] on the first save, leaving the
    disk as it was, so the seed of the funded account that controls the new agent
    is stored nowhere. *)
Theorem half_saved_identity_loses_the_account {Keypair} (from_secret_key : bytes -> option Keypair) account_id
    transfer key seed rng1 rng2 sponsor dir label pass amount caps meta lbl w kp n1 n2 agent :
  Keystore.identity_exists dir label (files w) = true ->
  Keystore.identity_exists dir (label +:+ "-account") (files w) = false ->
  from_secret_key seed = Some kp -> transfer sponsor (account_id kp) amount (net w) = (Ok tt, n1) ->
  register_agent submit' genesis_hash at_latest key (account_id kp) caps meta lbl n1 = (Ok agent, n2) ->
  bootstrap_new_agent submit' genesis_hash at_latest from_secret_key account_id transfer key (Some seed) rng1 rng2
    sponsor dir label pass amount caps meta lbl w =
    (Err (KeyStore (Keystore.AlreadyExists label)), mkMachine (files w) n2).
Proof.
  intros H1' H2' Hkp Ht Hr. unfold bootstrap_new_agent, bind at 1, gets. rewrite H1', H2'. cbn [andb].
  unfold on_chain, on_keys, bind, zoom, lift_err, ok_or, ret. rewrite Hkp, Ht. cbn [files net]. rewrite Hr. cbn [files net].
  by rewrite Keystore.save_existing.
Qed.
End ClientProperties.

(** ** Concrete runs *)

Import Runtime Scenario Scenario.Instances.
#[local] Existing Instance hex_ref.
#[local] Existing Instance hex_ref_laws.
#[local] Existing Instance crypto_ref.
#[local] Existing Instance crypto_ref_laws.
#[local] Existing Instance toy_signer.
#[local] Existing Instance toy_signer_laws.

Definition salt16 : option bytes := Some (replicate 16 Byte.x11).
Definition nonce12 : option bytes := Some (replicate 12 Byte.x22).
Definition disk1 : Fs := (Keystore.save_identity salt16 nonce12 "keys" "agent-1" did_p key_p "secret" ∅).2.

Lemma nonce12_len : forall no, nonce12 = Some no -> length no = Keystore.NONCE_LEN.
Proof. intros no E. apply Some_inj in E as <-. reflexivity. Qed.
Lemma disk1_saved : Keystore.save_identity salt16 nonce12 "keys" "agent-1" did_p key_p "secret" ∅ = (Ok tt, disk1).
Proof. refine (is_ok_run (Keystore.save_identity _ _ _ _ _ _ _) ∅ _). vm_compute. reflexivity. Qed.

Lemma saved_identity_loads_witness :
  Keystore.load_identity "keys" "agent-1" "secret" disk1 = (Ok (Keystore.mkStored did_p key_p), disk1).
Proof.
  exact (saved_identity_loads salt16 nonce12 "keys" "agent-1" did_p key_p "secret" ∅ disk1 eq_refl nonce12_len disk1_saved).
Defined.

Lemma labels_stay_in_the_directory_witness :
  (Ascii.ascii_of_N 47 ∉ String.list_ascii_of_string "agent-1.json") /\ "agent-1.json" <> "." /\ "agent-1.json" <> ".." /\
  ("agent-1.json" = "agent_2.json" -> "agent-1" = "agent_2").
Proof.
  exact (labels_stay_in_the_directory "agent-1" "agent_2" ∅ ∅ ∅ "agent-1.json" "agent_2.json" eq_refl eq_refl).
Defined.

Definition file1 : Keystore.KeyFile :=
  Eval vm_compute in default (Keystore.mkKeyFile 0 "" "" "" "")
    ((disk1 !! "keys" ≫= lookup "agent-1.json") ≫= Keystore.json_parse).
Lemma file1_parsed : (disk1 !! "keys" ≫= lookup ("agent-1" +:+ ".json")) ≫= Keystore.json_parse = Some file1.
Proof. vm_compute. reflexivity. Qed.

Lemma stored_did_is_not_authenticated_witness :
  exists fs2, Keystore.load_identity "keys" "agent-1" "secret" fs2 = (Ok (Keystore.mkStored did_q key_p), fs2).
Proof.
  exact (ex_intro _ _ (stored_did_is_not_authenticated salt16 nonce12 "keys" "agent-1" did_p did_q key_p "secret" ∅ disk1 file1
           eq_refl nonce12_len disk1_saved file1_parsed)).
Defined.

Definition sk_p : SigningKey := key_p.
Definition sk_q : SigningKey := key_q.

(** A node that answers with the chain's own block 100. *)
Definition node_genesis (s : Chain ledger) : bytes := block_hash (w_system (world s)) 0.
Definition node_latest (s : Chain ledger) : result SubxtError (BlockNumber * bytes) * Chain ledger :=
  (Ok (100, block_hash (sys_at 100) 100), s).
Definition reserved_alice : ledger := (reserve alice (100 * Configs.UNIT) endowment).2.

Lemma client_registration_is_accepted_witness :
  exists s' : Chain ledger, Registry.status <$> Registry.agent_profiles (chain_registry s') !! did_p = Some Registry.Active.
Proof.
  destruct (client_registration_is_accepted node_genesis node_latest sk_p alice 1 [] [] start
              100 (block_hash (sys_at 100) 100) reserved_alice eq_refl eq_refl eq_refl eq_refl eq_refl eq_refl)
    as (s' & _ & Hp).
  - discriminate.
  - discriminate.
  - vm_compute. reflexivity.
  - vm_compute. lia.
  - refine (is_ok_run (reserve alice _) endowment _). vm_compute. reflexivity.
  - exists s'. change (did_p) with (Registry.derive_did key_p). exact (f_equal (fmap Registry.status) Hp).
Defined.

(** A network that accepts every registration and counts them. *)
Definition count_submit (who : AccountId) (c : RuntimeCall) : M nat SubxtError (list EventDetails) := fun n =>
  (Ok [registry_event (Registry.AgentRegistered [] who)], S n).
Definition count_genesis (n : nat) : bytes := zeros32.
Definition count_latest : M nat SubxtError (BlockNumber * bytes) := ret (1, zeros32).

Lemma known_identity_stays_off_chain_witness :
  (RegistryClient.register_or_load_agent count_submit count_genesis count_latest sk_p salt16 nonce12 alice
     "keys" "agent-1" "wrong" 0 [] [] (mkMachine disk1 0%nat)).2 = mkMachine disk1 0%nat.
Proof.
  refine (known_identity_stays_off_chain count_submit count_genesis count_latest sk_p salt16 nonce12 alice
            "keys" "agent-1" "wrong" 0 [] [] (mkMachine disk1 0%nat) _).
  vm_compute. reflexivity.
Defined.

Lemma invalid_label_loses_the_key_witness :
  RegistryClient.register_or_load_agent count_submit count_genesis count_latest sk_p salt16 nonce12 alice
     "keys" "my agent" "secret" 0 [] [] (mkMachine ∅ 0%nat) =
  (Err (RegistryClient.KeyStore (Keystore.InvalidLabel "my agent")), mkMachine ∅ 1%nat).
Proof.
  refine (invalid_label_loses_the_key count_submit count_genesis count_latest sk_p salt16 nonce12 alice
            "keys" "my agent" "secret" 0 [] [] (mkMachine ∅ 0%nat) _ 1%nat eq_refl eq_refl).
Defined.

Definition free_transfer (from to : AccountId) (v : Balance) : M nat SubxtError unit := ret tt.

Lemma half_saved_identity_loses_the_account_witness :
  RegistryClient.bootstrap_new_agent count_submit count_genesis count_latest Some (fun k : bytes => k) free_transfer
    sk_q (Some alice) (salt16, nonce12) (salt16, nonce12) bob "keys" "agent-1" "secret" 5 0 [] [] (mkMachine disk1 0%nat) =
  (Err (RegistryClient.KeyStore (Keystore.AlreadyExists "agent-1")), mkMachine disk1 1%nat).
Proof.
  refine (half_saved_identity_loses_the_account count_submit count_genesis count_latest Some (fun k : bytes => k) free_transfer
            sk_q alice (salt16, nonce12) (salt16, nonce12) bob "keys" "agent-1" "secret" 5 0 [] [] (mkMachine disk1 0%nat)
            alice 0%nat 1%nat (RegistryClient.mkAgent (RegistryClient.derive_did key_q) key_q) _ _ eq_refl eq_refl eq_refl);
    vm_compute; reflexivity.
Defined.
End IdentityProperties.
