(* ===== verification/DoorScenario.v ===== *)
(** * DoorScenario: reference instances for the door

    A JSON of strings, numbers and objects, an HTTP client that sends one byte at a
    time, key pairs, and a node over the chain of [Scenario]: what the concrete runs of
    the door compute with. *)

From Stdlib Require Import ZArith NArith Lia ZifyBool.
From stdpp Require Import base gmap list strings pretty countable.
From S2P Require Import Prelude RustStr Frame Ledger Escrow AgentRegistry RegistryTheory Merkle VectorDb Template Runtime Offchain Keystore RegistryClient Cli CliTheory Door DoorTheory RegisterMe DoorSession Solvency Scenario.

Local Open Scope arth_scope.

Module DoorScenario.
Import Scenario Scenario.Instances.

(** ** JSON *)

Inductive json : Type :=
  | JNull
  | JString (s : str)
  | JNumber (z : Z)
  | JObject (fields : list (string * positive)).

Definition json_sum (v : json) : unit + (str + (Z + list (string * positive))) :=
  match v with
  | JNull => inl tt
  | JString s => inr (inl s)
  | JNumber z => inr (inr (inl z))
  | JObject fs => inr (inr (inr fs))
  end.
Definition sum_json (x : unit + (str + (Z + list (string * positive)))) : json :=
  match x with
  | inl _ => JNull
  | inr (inl s) => JString s
  | inr (inr (inl z)) => JNumber z
  | inr (inr (inr fs)) => JObject fs
  end.
Definition json_code (v : json) : positive := encode (json_sum v).
Definition code_json (p : positive) : option json := sum_json <$> decode p.
Lemma code_json_code v : code_json (json_code v) = Some v.
Proof. unfold code_json, json_code. rewrite decode_encode. by destruct v. Qed.

(** The digits 0 and 1. *)
Fixpoint digits_of (p : positive) : str :=
  match p with
  | xH => [Byte.x31]
  | xO p => Byte.x30 :: digits_of p
  | xI p => Byte.x31 :: digits_of p
  end.
Fixpoint of_digits (s : str) : option positive :=
  match s with
  | [] => None
  | [Byte.x31] => Some xH
  | Byte.x31 :: s => xI <$> of_digits s
  | _ :: s => xO <$> of_digits s
  end.
Lemma digits_nonempty p : digits_of p <> [].
Proof. by destruct p. Qed.
Lemma of_digits_of p : of_digits (digits_of p) = Some p.
Proof.
  induction p as [p IH|p IH|]; cbn [digits_of]; [..|done].
  - destruct (digits_of p) as [|x s] eqn:E; [by apply digits_nonempty in E|].
    change (of_digits (Byte.x31 :: x :: s)) with (xI <$> of_digits (x :: s)). by rewrite IH.
  - cbn [of_digits]. by rewrite IH.
Qed.
Lemma digits_chars p : Forall (fun x => x = Byte.x30 \/ x = Byte.x31) (digits_of p).
Proof. induction p; cbn [digits_of]; apply Forall_cons; auto. Qed.

Definition field_of (fs : list (string * positive)) (k : string) : option positive :=
  snd <$> head (filter (fun x => x.1 = k) fs).

Definition json_ref : SerdeJson := {|
  JValue := json;
  from_str s := of_digits s ≫= code_json;
  to_string v := digits_of (json_code v);
  json_null := JNull;
  json_string := JString;
  json_number := JNumber;
  json_object fs := JObject (prod_map id json_code <$> fs);
  index v k := match v with JObject fs => default JNull (field_of fs k ≫= code_json) | _ => JNull end;
  has_key v k := match v with JObject fs => bool_decide (k ∈ fs.*1) | _ => false end;
  as_str v := match v with JString s => Some s | _ => None end;
  as_u64 v := match v with JNumber z => if (0 <=? z) && (z <=? u64_max) then Some z else None | _ => None end |}.

Lemma keys_coded (fs : list (string * json)) : (prod_map id json_code <$> fs).*1 = fs.*1.
Proof. rewrite <- list_fmap_compose. by apply list_fmap_ext. Qed.

Lemma field_of_in (fs : list (string * json)) k v : NoDup fs.*1 -> (k, v) ∈ fs -> field_of (prod_map id json_code <$> fs) k = Some (json_code v).
Proof.
  unfold field_of. induction fs as [|[k' v'] fs IH]; intros Hn Hin; [by apply elem_of_nil in Hin|].
  cbn [fmap list_fmap] in *. inversion_clear Hn as [|? ? Hk Hn']. rewrite filter_cons. cbn.
  apply elem_of_cons in Hin as [[= <- <-]|Hin].
  - by rewrite decide_True.
  - rewrite decide_False; [by apply IH|]. intros ->. apply Hk. by apply (list_elem_of_fmap_2 fst _ (k, v)).
Qed.

Lemma field_of_out (fs : list (string * json)) k : k ∉ fs.*1 -> field_of (prod_map id json_code <$> fs) k = None.
Proof.
  unfold field_of. induction fs as [|[k' v'] fs IH]; intros Hk; [done|]. cbn [fmap list_fmap] in *.
  rewrite filter_cons, decide_False by set_solver. apply IH. set_solver.
Qed.

Lemma json_ref_laws : @SerdeJsonLaws json_ref.
Proof.
  split; cbn.
  - intros v. rewrite of_digits_of. apply code_json_code.
  - intros v. pose proof (digits_chars (json_code v)) as Hd. induction Hd as [|x s [-> | ->] _ IH]; constructor; (done || exact IH).
  - intros v. apply is_ascii_lossy, forallb_forall. intros x Hx.
    pose proof (digits_chars (json_code v)) as Hd. rewrite Forall_forall in Hd. apply Hd in Hx. by destruct Hx as [-> | ->].
  - intros v. apply digits_nonempty.
  - intros fs k v Hn Hin. rewrite (field_of_in fs k v Hn Hin). cbn. by rewrite code_json_code.
  - intros fs k Hk. by rewrite field_of_out.
  - intros fs k. by rewrite keys_coded.
  - done.
  - done.
  - intros z [Hz1 Hz2]. apply Z.leb_le in Hz1, Hz2. by rewrite Hz1, Hz2.
  - done.
Qed.

(** ** Hexadecimal text *)

#[local] Existing Instance hex_ref.
Lemma hex_ref_text : HexTextLaws.
Proof.
  assert (forall x, exists a b, bstr (String (nibble (Byte.to_N x / 16)) (String (nibble (Byte.to_N x mod 16)) EmptyString)) = [a; b] /\
    hex_char a = true /\ hex_char b = true) as Hx by (intros x; destruct x; eexists _, _; split_and!; reflexivity).
  assert (forall x s, bstr (String (nibble (Byte.to_N x / 16)) (String (nibble (Byte.to_N x mod 16)) s)) =
    bstr (String (nibble (Byte.to_N x / 16)) (String (nibble (Byte.to_N x mod 16)) EmptyString)) ++ bstr s) as Hs.
  { intros x s. apply (bstr_app (String _ (String _ EmptyString)) s). }
  split; intros b; cbn [hex_encode hex_ref]; induction b as [|x b IH]; [done| |done|];
    cbn [to_hex]; rewrite Hs; destruct (Hx x) as (u & v & -> & Hu & Hv).
  - cbn. by rewrite Hu, Hv, IH.
  - cbn. cbn in IH. rewrite IH. lia.
Qed.

(** ** HTTP *)

Definition crlf : str := [Byte.x0d; Byte.x0a].

Lemma position_crlf y s :
  y <> Byte.x0d -> position Door.CRLF2 (crlf ++ y :: s) = (fun i => 2 + i)%nat <$> position Door.CRLF2 (y :: s).
Proof.
  intros Hy. change (crlf ++ y :: s) with (Byte.x0d :: Byte.x0a :: y :: s). cbn [position].
  assert (starts_with Door.CRLF2 (Byte.x0d :: Byte.x0a :: y :: s) = false) as ->.
  { apply bool_decide_eq_false_2. cbn. intros [= E]. congruence. }
  assert (starts_with Door.CRLF2 (Byte.x0a :: y :: s) = false) as ->.
  { apply bool_decide_eq_false_2. cbn. intros [=]. }
  by destruct (if starts_with Door.CRLF2 (y :: s) then _ else _).
Qed.

(** A line of a head. *)
Lemma position_line h s :
  h <> [] -> Byte.x0d ∉ h ->
  position Door.CRLF2 (crlf ++ h ++ s) = (fun i => 2 + length h + i)%nat <$> position Door.CRLF2 s.
Proof.
  intros Hh Hcr. destruct h as [|y h]; [done|]. rewrite <- app_comm_cons, position_crlf by set_solver.
  rewrite app_comm_cons. unfold Door.CRLF2. rewrite position_skip by done. by destruct (position _ s).
Qed.

Lemma position_here s : position Door.CRLF2 (Door.CRLF2 ++ s) = Some O.
Proof.
  change (position Door.CRLF2 (Door.CRLF2 ++ s)) with
    (if starts_with Door.CRLF2 (Door.CRLF2 ++ s) then Some O
     else match Door.CRLF2 ++ s with [] => None | _ :: t => S <$> position Door.CRLF2 t end).
  by rewrite starts_with_self.
Qed.

Definition request_ref (method path body : str) : str :=
  DoorTheory.http_head method path
    (bstr "Host: 127.0.0.1:8790" ++
     (if bool_decide (body = []) then [] else crlf ++ bstr "Content-Length: " ++ show_N (N.of_nat (length body)))) ++
  Door.CRLF2 ++ body.

Definition http_ref : HttpClient := {|
  request_bytes := request_ref;
  fragments s := (fun x => [x]) <$> s;
  parse_response s :=
    match position Door.CRLF2 s with
    | Some i => if starts_with (bstr "HTTP/1.1 200 ") s then (true, drop (i + 4) s) else (false, [])
    | None => (false, [])
    end |}.

(** The head of a response, up to the empty line. *)
Definition response_head (r : Door.Response) : str :=
  bstr ("HTTP/1.1 " +:+ Door.resp_status r) ++ crlf ++ bstr "content-type: application/json" ++ crlf ++
  (bstr "content-length: " ++ show_N (N.of_nat (length (Door.resp_body r)))) ++ crlf ++ bstr "connection: close".

Lemma respond_split r : Door.respond r = response_head r ++ Door.CRLF2 ++ Door.resp_body r.
Proof. unfold Door.respond, response_head, crlf. by rewrite <- !app_assoc. Qed.

Lemma digits_no_cr n : Byte.x0d ∉ show_N n.
Proof.
  intros Hin%list_elem_of_In. pose proof (show_N_digits n) as Hd. eapply forallb_forall in Hd; [|exact Hin]. done.
Qed.

Lemma respond_position r :
  Byte.x0d ∉ bstr (Door.resp_status r) -> position Door.CRLF2 (Door.respond r) = Some (length (response_head r)).
Proof.
  intros Hst. rewrite respond_split. unfold response_head. rewrite <- !(app_assoc (bstr ("HTTP/1.1 " +:+ _))), <- !(app_assoc crlf), <- !(app_assoc (bstr "content-type: application/json")), <- (app_assoc crlf), <- (app_assoc (_ ++ show_N _)), <- (app_assoc crlf).
  assert (Byte.x0d ∉ bstr ("HTTP/1.1 " +:+ Door.resp_status r)) as H1.
  { rewrite bstr_app, elem_of_app. intros [H1|H1]; [|done]. revert H1. by apply (bool_decide_unpack (_ ∉ _)). }
  assert (Byte.x0d ∉ bstr "content-length: " ++ show_N (N.of_nat (length (Door.resp_body r)))) as H2.
  { rewrite elem_of_app. intros [H2|H2]; [|by apply digits_no_cr in H2]. revert H2. by apply (bool_decide_unpack (_ ∉ _)). }
  unfold Door.CRLF2 at 1. rewrite position_skip by done. fold Door.CRLF2.
  rewrite !position_line by (done || by apply (bool_decide_unpack (_ ∉ _))). rewrite position_here.
  cbn [fmap option_fmap option_map]. f_equal. rewrite !length_app. change (length crlf) with 2%nat. lia.
Qed.

Lemma http_ref_laws : @HttpClientLaws http_ref.
Proof.
  split.
  - intros s. cbn. induction s as [|x s IH]; cbn; [done|]. by rewrite IH.
  - intros s. cbn. by apply Forall_fmap, Forall_true.
  - intros r Hst. cbn. rewrite respond_position.
    2: { repeat (apply elem_of_cons in Hst as [->|Hst]; [by apply (bool_decide_unpack (_ ∉ _))|]). by apply elem_of_nil in Hst. }
    rewrite respond_split, app_assoc, (drop_app_length' (response_head r ++ Door.CRLF2)) by (rewrite length_app; cbn; lia).
    unfold response_head. rewrite <- !app_assoc.
    repeat (apply elem_of_cons in Hst as [->|Hst]; [reflexivity|]). by apply elem_of_nil in Hst.
Qed.

(** ** Keys and the node *)

Definition keypair_ref : Sr25519 := {|
  Keypair := bytes;
  from_secret_key b := Some b;
  account_of k := k;
  dev_alice := alice;
  dev_bob := bob |}.

Definition sr25519_ref (k : @Keypair keypair_ref) (msg : bytes) : bytes :=
  let k : bytes := k in checksum (k ++ msg) ++ checksum (msg ++ k).

(** A node over the chain: it answers with block 100, prepares any call, waits for what
    it signs itself, and hands a signed extrinsic over to a pool that is not part of its
    state. *)
Definition node_ref : DoorNode (Runtime.Chain ledger) := {|
  genesis_hash s := block_hash (Runtime.w_system (Runtime.world s)) 0;
  at_latest s := (Ok (100, block_hash (Runtime.w_system (Runtime.world s)) 100), s);
  sign_and_submit := chain_submit Configs.registry_config Configs.vector_db_config Configs.usize_bits;
  PartialExtrinsic := AccountId * Runtime.RuntimeCall;
  create_partial_signed a c s := (Ok (a, c), s);
  signer_payload x := x.1;
  SubmittableExtrinsic := AccountId * Runtime.RuntimeCall * AccountId * bytes;
  sign_with_address_and_signature x a sg := (x, a, sg);
  encoded x := x.2;
  submit_extrinsic _ s := (Ok zeros32, s);
  rpc_from_url _ s := (Ok tt, s);
  system_dryRun _ s := ([], s);
  author_submitExtrinsic _ s := (Ok [], s);
  transfer_keep_alive _ _ _ s := (Ok tt, s);
  subxt_text _ := bstr "error";
  client_text _ := bstr "error" |}.

(** A node that only counts what is submitted to it. *)
Definition tally_node : DoorNode nat := {|
  genesis_hash _ := zeros32;
  at_latest n := (Ok (1, zeros32), n);
  sign_and_submit _ _ n := (Ok [], S n);
  PartialExtrinsic := AccountId * Runtime.RuntimeCall;
  create_partial_signed a c n := (Ok (a, c), n);
  signer_payload x := x.1;
  SubmittableExtrinsic := AccountId * Runtime.RuntimeCall * AccountId * bytes;
  sign_with_address_and_signature x a sg := (x, a, sg);
  encoded x := x.2;
  submit_extrinsic _ n := (Ok zeros32, S n);
  rpc_from_url _ n := (Ok tt, n);
  system_dryRun _ n := ([], n);
  author_submitExtrinsic _ n := (Ok [], S n);
  transfer_keep_alive _ _ _ n := (Ok tt, S n);
  subxt_text _ := bstr "error";
  client_text _ := bstr "error" |}.

(** A request without a head. *)
Definition bare_request (v : json) : str := Door.CRLF2 ++ @to_string json_ref v.
Lemma bare_request_body v : @from_str json_ref (Door.body_of (bare_request v)) = Some v.
Proof.
  assert (Door.body_of (bare_request v) = @to_string json_ref v) as ->.
  - apply (DoorTheory.request_body []); [apply position_here|].
    apply DoorTheory.printable_no_cr, (@to_string_printable json_ref json_ref_laws).
  - apply (@from_str_to_string json_ref json_ref_laws).
Qed.

(** The client sends what the door reads. *)
Definition sent_headers (body : str) : str :=
  bstr "Host: 127.0.0.1:8790" ++
  (if bool_decide (body = []) then [] else crlf ++ bstr "Content-Length: " ++ show_N (N.of_nat (length body))).
Lemma sends_ref method path body :
  let head := DoorTheory.http_head method path (sent_headers body) in
  bool_decide (position Door.CRLF2 (head ++ Door.CRLF2 ++ body) = Some (length head)) &&
  (Door.content_length head =? Z.of_nat (length body)) && forallb is_ascii head &&
  (Z.of_nat (length (head ++ Door.CRLF2 ++ body)) <=? Door.MAX_REQUEST) = true ->
  @DoorSession.sends http_ref method path body.
Proof.
  intros head Hok. rewrite !andb_true_iff, bool_decide_eq_true, Z.eqb_eq, Z.leb_le in Hok.
  destruct Hok as [[[Hp Hc] Ha] Hl]. exists (sent_headers body). done.
Qed.

Definition no_env : Env := fun _ => None.
End DoorScenario.
