(* ===== verification/CliProperties.v ===== *)
(** * CliProperties: what the command-line binaries do to the chain

    What the vector client prints is what a later run of it needs, an overridden root
    cannot settle, and the registry client registers an identity once. *)

From stdpp Require Import base gmap list strings pretty.
From Stdlib Require Import ZArith NArith Lia.
From S2P Require Import Prelude RustStr Frame Ledger Escrow AgentRegistry RegistryTheory Merkle VectorDb VectorDbTheory Template Runtime Offchain VectorClient VectorClientTheory VectorSubmit Keystore RegistryClient RegistryClientTheory Cli CliTheory Door DoorScenario Solvency Scenario.

Local Open Scope arth_scope.

Module CliProperties.

(** ** The vector client *)

Section VectorClient.
Import Runtime VectorClient VectorCli.
Context {L : Type} `{ReservableCurrency L} `{Blake2} `{ScaleCodec} `{MlDsa} `{RsMerkle} `{Hex} `{Sr25519}.
Context `{!RsMerkleLaws} `{!Blake2Laws} `{!HexLaws} `{!HexTextLaws}.
Context (from_insecure_url : str -> M (Chain L) SubxtError unit).
Context (fetch_account : AccountId -> M (Chain L) SubxtError (option str)).
Context (transfer_allow_death : AccountId -> AccountId -> Balance -> M (Chain L) SubxtError unit).
(** Connecting does not touch the chain. *)
Context (connects : forall url, ReadOnly (from_insecure_url url)).
Implicit Types (env : Env) (p : Process (Chain L)).

Abbreviation submit :=
  (chain_submit (L := L) Configs.registry_config Configs.vector_db_config Configs.usize_bits).
Abbreviation main := (VectorCli.main submit from_insecure_url fetch_account transfer_allow_death).

(** The actions with a branch of their own. *)
Definition named_actions : list string :=
  ["balance"; "raise"; "counter"; "finalize"; "acknowledge"; "transfer"; "close"].
Definition registers env : Prop := show (var_or env "ACTION" (bstr "register")) ∉ named_actions.

Definition commitment_of p (id : CommitmentId) : option VectorDb.VectorCommitment :=
  VectorDb.vector_commitments (vector_db (net (machine p))) !! id.

(** The four lines of a registration. *)
Definition report (id root : bytes) (n : Z) : list str :=
  [bstr "register_commitment succeeded: commitment_id=0x" ++ bstr (hex_encode id) ++
     bstr " merkle_root=0x" ++ bstr (hex_encode root) ++ bstr " total_chunks=" ++ bstr (pretty n);
   bstr "COMMITMENT_ID=" ++ (x0x ++ bstr (hex_encode id));
   bstr "MERKLE_ROOT=" ++ (x0x ++ bstr (hex_encode root));
   bstr "TOTAL_CHUNKS=" ++ bstr (pretty n)].

Lemma main_registers env p p' :
  registers env -> main env p = (Ok tt, p') ->
  exists p0, machine p0 = machine p /\ stdout p0 = stdout p /\ register_action submit env p0 = (Ok tt, p').
Proof.
  intros Ha. unfold registers in Ha. unfold VectorCli.main. cbv zeta.
  intros ([] & p0 & Hc & Hr)%bind_ok_inv. exists p0.
  unfold on_node in Hc. pose proof (connects (var_or env "CHAIN_WS" (bstr "ws://127.0.0.1:9944")) (net (machine p))) as Hn.
  destruct (from_insecure_url _ _) as [[[]|e] n]; [|done]. cbn in Hn. subst n. injection Hc as <-.
  split_and!; [by destruct p as [[]]|done|].
  unfold named_actions in Ha. rewrite !not_elem_of_cons in Ha. destruct Ha as (A1 & A2 & A3 & A4 & A5 & A6 & A7 & _).
  by rewrite (bool_decide_eq_false_2 _ A1), (bool_decide_eq_false_2 _ A2), (bool_decide_eq_false_2 _ A3),
    (bool_decide_eq_false_2 _ A4), (bool_decide_eq_false_2 _ A5), (bool_decide_eq_false_2 _ A6),
    (bool_decide_eq_false_2 _ A7) in Hr.
Qed.

#[local] Instance hex32_readonly env name : ReadOnly (hex32 (Net := Chain L) env name).
Proof. unfold hex32. apply _. Qed.
#[local] Instance signer_readonly s : ReadOnly (signer_from_seed (Net := Chain L) s).
Proof. unfold signer_from_seed. apply _. Qed.

Lemma hex32_length env name p b p' : hex32 (Net := Chain L) env name p = (Ok b, p') -> len32 b.
Proof. unfold hex32. intros Hr. run_inv. by apply Nat.eqb_eq. Qed.

Lemma register_action_ok env p p' :
  register_action submit env p = (Ok tt, p') ->
  exists res c, stdout p' = stdout p ++ report (r_commitment_id res) (default (r_merkle_root res) (provided_root env)) (r_total_chunks res) /\
    commitment_of p' (r_commitment_id res) = Some c /\ VectorDb.merkle_root c = r_merkle_root res /\
    VectorDb.total_chunks c = r_total_chunks res /\ VectorDb.status c = VectorDb.Pending /\ 0 <= r_total_chunks res /\
    len32 (r_commitment_id res) /\ len32 (VectorDb.consumer c).
Proof.
  unfold register_action. intros Hr.
  apply bind_read_inv in Hr as (? & _ & Hr); [|apply _].
  apply bind_read_inv in Hr as (qd & Hq%hex32_length & Hr); [|apply _]. cbv zeta in Hr.
  apply bind_read_inv in Hr as (signer & _ & Hr); [|repeat case_match; apply _].
  apply bind_ok_inv in Hr as (res & p4 & Hc & Hr). cbv zeta in Hr. unfold run_client in Hc.
  destruct (register_commitment _ _ _ _ _ _ _ _ _ _ _) as [[r|e] w'] eqn:E; [|done].
  injection Hc as -> <-. injection Hr as <-.
  pose proof (VectorSubmit.client_id_length _ _ _ _ _ _ _ _ _ _ _ _ E) as Hid.
  apply VectorSubmit.client_registers in E as (cs & _ & _ & _ & Hn & _ & c & Hc & Hroot & Ht & _ & Hcq & _ & Hst).
  exists res, c. split_and!; try done; [|lia|by rewrite Hcq]. cbn [stdout]. by rewrite <- !app_assoc.
Qed.

(** What a registration prints is what the next run needs: when the vector
    client registers and no root is given, the chain holds a pending commitment, and
    the values printed for its id, its root and its number of chunks, put into the
    variables of the same names, are read back as exactly these. *)
Theorem printed_commitment_reads_back env p p' :
  registers env -> provided_root env = None -> main env p = (Ok tt, p') ->
  exists id root n c, stdout p' = stdout p ++ report id root n /\
    commitment_of p' id = Some c /\ VectorDb.merkle_root c = root /\ VectorDb.total_chunks c = n /\
    VectorDb.status c = VectorDb.Pending /\
    forall env' q,
      (env' "COMMITMENT_ID" = Some (x0x ++ bstr (hex_encode id)) -> hex32 env' "COMMITMENT_ID" q = (Ok id, q : Process (Chain L))) /\
      (env' "MERKLE_ROOT" = Some (x0x ++ bstr (hex_encode root)) -> len32 root -> hex32 env' "MERKLE_ROOT" q = (Ok root, q : Process (Chain L))) /\
      (env' "TOTAL_CHUNKS" = Some (bstr (pretty n)) -> n <= u64_max -> parsed_or env' u64_max "TOTAL_CHUNKS" 1 = n).
Proof.
  intros Ha Hp (p0 & _ & Hout & (res & c & Ho & Hc & Hroot & Ht & Hst & Hn & Hid & _)%register_action_ok)%main_registers; [|done].
  rewrite Hp in Ho. exists (r_commitment_id res), (r_merkle_root res), (r_total_chunks res), c.
  split_and!; try done; [by rewrite Ho, Hout|]. intros env' q. split_and!; intros He; intros.
  - by apply hex32_printed.
  - by apply hex32_printed.
  - unfold parsed_or. rewrite He. cbn. by rewrite parse_pretty_Z.
Qed.

(** A root of one's own cannot settle: with [MERKLE_ROOT] set, the registration
    still commits to the root of the payload but prints the given one, and as long as
    the chain holds the commitment no run that closes it with the printed root
    succeeds. *)
Theorem provided_root_cannot_settle env p p' root :
  registers env -> provided_root env = Some root -> main env p = (Ok tt, p') ->
  exists id n c, stdout p' = stdout p ++ report id root n /\ commitment_of p' id = Some c /\
    (root <> VectorDb.merkle_root c ->
     forall env' q q', env' "COMMITMENT_ID" = Some (x0x ++ bstr (hex_encode id)) ->
       env' "MERKLE_ROOT" = Some (x0x ++ bstr (hex_encode root)) ->
       VectorDb.merkle_root <$> commitment_of q id = Some (VectorDb.merkle_root c) ->
       close_action submit env' q <> (Ok tt, q')).
Proof.
  intros Ha Hp (p0 & _ & Hout & (res & c & Ho & Hc & Hroot & Ht & Hst & Hn & Hid & _)%register_action_ok)%main_registers; [|done].
  rewrite Hp in Ho. exists (r_commitment_id res), (r_total_chunks res), c. split_and!; try done; [by rewrite Ho, Hout|].
  intros Hne env' q q' He1 He2 Hq Hr. unfold close_action in Hr.
  apply bind_read_inv in Hr as (id & Hid' & Hr); [|apply _]. rewrite (hex32_printed _ _ _ _ He1 Hid) in Hid'. injection Hid' as <-.
  apply bind_read_inv in Hr as (qd & _ & Hr); [|apply _].
  apply bind_read_inv in Hr as (r & Hrt & Hr); [|apply _].
  assert (len32 root) as Hl.
  { unfold provided_root in Hp. apply bind_Some in Hp as (? & _ & (b & _ & Hb)%bind_Some).
    destruct (length b =? 32)%nat eqn:El; [|done]. injection Hb as <-. by apply Nat.eqb_eq. }
  rewrite (hex32_printed _ _ _ _ He2 Hl) in Hrt. injection Hrt as <-.
  apply bind_read_inv in Hr as (signer & _ & Hr); [|unfold signer_from_env; repeat case_match; apply _].
  apply bind_ok_inv in Hr as ([] & q1 & Hcl & _). unfold run_client in Hcl.
  destruct (close_commitment _ _ _ _ _ _ _) as [[[]|e] w'] eqn:E; [|done].
  apply VectorSubmit.close_client_root in E as (c' & Hc' & ->). unfold commitment_of in Hq. rewrite Hc' in Hq. by injection Hq.
Qed.
End VectorClient.

(** ** The registry client *)

Section RegistryClient.
Import RegistryClientTheory.
Context {Net : Type} (submit : AccountId -> Runtime.RuntimeCall -> M Net SubxtError (list EventDetails)).
Context (genesis_hash : Net -> bytes) (at_latest : M Net SubxtError (BlockNumber * bytes)).
Context `{Blake2} `{ScaleCodec} `{MlDsaSigner} `{Hex} `{Keystore.Crypto} `{Sr25519}.
Context `{!Blake2Laws} `{!HexLaws} `{!Keystore.CryptoLaws}.
Context (from_url : str -> M Net SubxtError unit) (env : Env).
Abbreviation main := (RegistryCli.main submit genesis_hash at_latest from_url env).

Definition greeting : str := bstr "ArthNeura Off-Chain Agent Registry Client Initialized.".

(** The variables of a run. *)
Definition cli_dir : option string :=
  match env "KEYSTORE_DIR" with Some s => Some (show s) | None => RegistryCli.default_keystore_dir env end.
Definition cli_key_label : string := show (var_or env "KEY_LABEL" (var_or env "SIGNER" (bstr "alice"))).
Definition cli_agent (dir : string) (key : SigningKey) (sa no : option bytes) :
    M (Machine Net) RegistryClient.ClientError RegistryClient.RegisteredAgent :=
  RegistryClient.register_or_load_agent submit genesis_hash at_latest key sa no (account_of (RegistryCli.signer_from_env env))
    dir cli_key_label (show (var_or env "KEYSTORE_PASS" (bstr "dev-passphrase"))) 1 (bstr "smoke-test-agent")
    (var_or env "LABEL" (bstr (cli_key_label +:+ "-agent"))).

Lemma main_run key sa no p :
  (forall url n, from_url url n = (Ok tt, n)) ->
  main key sa no p =
    match cli_dir with
    | None => (Err MainError, mkProcess (machine p) (stdout p ++ [greeting]))
    | Some dir =>
        match cli_agent dir key sa no (machine p) with
        | (Ok a, w) => (Ok tt, mkProcess w (stdout p ++
            [greeting; bstr "DID=0x" ++ bstr (hex_encode (RegistryClient.did a));
             bstr "IDENTITY=" ++ (if Keystore.identity_exists dir cli_key_label (files (machine p))
                                  then bstr "loaded" else bstr "registered");
             bstr "KEYSTORE=" ++ bstr (path_join dir (cli_key_label +:+ ".json"))]))
        | (Err e, w) => (Err (if RegistryCli.is_panic e then Panic else ExitOne (bstr "register_or_load_agent failed: ") e),
                         mkProcess w (stdout p ++ [greeting]))
        end
    end.
Proof.
  intros Hurl. unfold RegistryCli.main, cli_agent. cbv zeta. unfold bind, println, modify, on_node. cbn [machine stdout].
  rewrite Hurl. fold cli_dir cli_key_label. destruct cli_dir as [dir|]; unfold ok_or, ret, throw; [|by destruct p as [[]]].
  unfold gets, run_client. cbn [machine stdout]. replace (mkMachine (files (machine p)) (net (machine p))) with (machine p) by (by destruct (machine p)).
  destruct (RegistryClient.register_or_load_agent _ _ _ _ _ _ _ _ _ _ _ _ _ _) as [[a|e] w]; cbn [machine stdout]; [|done].
  by rewrite <- !app_assoc.
Qed.

(** C27: the registry client registers once: after a run that ends without an error,
    another run in the same environment, whatever keys and random numbers it draws,
    ends without an error, changes neither the disk nor the chain, and prints the same
    DID and the same key file, now as loaded. *)
Theorem second_run_registers_nothing key sa no p p' :
  (forall url n, from_url url n = (Ok tt, n)) ->
  (forall n, no = Some n -> length n = Keystore.NONCE_LEN) ->
  main key sa no p = (Ok tt, p') ->
  exists d k how, stdout p' = stdout p ++ [greeting; bstr "DID=0x" ++ bstr (hex_encode d); bstr "IDENTITY=" ++ how; k] /\
    forall key2 sa2 no2, main key2 sa2 no2 p' =
      (Ok tt, mkProcess (machine p') (stdout p' ++
         [greeting; bstr "DID=0x" ++ bstr (hex_encode d); bstr "IDENTITY=loaded"; k])).
Proof.
  intros Hurl Hno. rewrite main_run by done. destruct cli_dir as [dir|] eqn:Hdir; [|done].
  destruct (cli_agent dir key sa no (machine p)) as [[a|e] w'] eqn:Ha; [|done]. intros [= <-].
  destruct (register_or_load_again _ _ _ _ _ _ _ _ _ _ _ _ _ _ _ _ Hno Ha) as [He Hl].
  eexists (RegistryClient.did a), _, _. split; [done|]. intros key2 sa2 no2. rewrite main_run, Hdir by done.
  cbn [machine stdout]. unfold cli_agent. rewrite Hl, He. done.
Qed.
End RegistryClient.

(** ** Witnesses *)

Import Runtime VectorClient VectorCli Scenario Scenario.Instances DoorScenario.
#[local] Existing Instance hex_ref.
#[local] Existing Instance hex_ref_laws.
#[local] Existing Instance hex_ref_text.
#[local] Existing Instance keypair_ref.

Definition online (url : str) : M (Chain ledger) SubxtError unit := ret tt.
Definition no_accounts (a : AccountId) : M (Chain ledger) SubxtError (option str) := ret None.
Definition no_transfer (a b : AccountId) (v : Balance) : M (Chain ledger) SubxtError unit := ret tt.
Lemma online_connects url : ReadOnly (online url).
Proof. apply _. Qed.

(** Alice sells to bob; [root] is what [MERKLE_ROOT] says. *)
Definition seller_env (root : option str) : Env := fun name =>
  if bool_decide (name = "PROVIDER_DID") then Some (x0x ++ bstr (hex_encode did_p))
  else if bool_decide (name = "CONSUMER_DID") then Some (bstr (hex_encode did_q))
  else if bool_decide (name = "MERKLE_ROOT") then root
  else None.
Definition shop : Process (Chain ledger) := mkProcess (mkMachine ∅ (run joined start)) [].
Abbreviation cli := (VectorCli.main (chain_submit Configs.registry_config Configs.vector_db_config Configs.usize_bits)
  online no_accounts no_transfer).

Lemma seller_env_registers root : registers (seller_env root).
Proof. by apply (bool_decide_unpack (_ ∉ _)). Qed.

Lemma sale_runs root : is_ok (cli (seller_env root) shop).1 = true -> cli (seller_env root) shop = (Ok tt, (cli (seller_env root) shop).2).
Proof. intros Hr. by destruct (cli (seller_env root) shop) as [[[]|e] p]. Qed.

Lemma printed_commitment_reads_back_witness :
  exists id root n c, stdout (cli (seller_env None) shop).2 = report id root n /\
    commitment_of (cli (seller_env None) shop).2 id = Some c /\ VectorDb.merkle_root c = root.
Proof.
  destruct (printed_commitment_reads_back online no_accounts no_transfer online_connects (seller_env None) shop _
    (seller_env_registers None) eq_refl (sale_runs None ltac:(vm_compute; reflexivity))) as (id & root & n & c & H1 & H2 & H3 & _).
  exists id, root, n, c. exact (conj H1 (conj H2 H3)).
Defined.

Definition own_root : option str := Some (x0x ++ bstr (hex_encode zeros32)).
Lemma own_root_provided : provided_root (seller_env own_root) = Some zeros32.
Proof. vm_compute. reflexivity. Qed.
Lemma provided_root_cannot_settle_witness :
  exists id n c, stdout (cli (seller_env own_root) shop).2 = report id zeros32 n /\
    commitment_of (cli (seller_env own_root) shop).2 id = Some c.
Proof.
  destruct (provided_root_cannot_settle online no_accounts no_transfer online_connects (seller_env own_root) shop _ zeros32
    (seller_env_registers own_root) own_root_provided (sale_runs own_root ltac:(vm_compute; reflexivity)))
    as (id & n & c & H1 & H2 & _).
  exists id, n, c. exact (conj H1 H2).
Defined.

#[local] Existing Instance toy_signer.
#[local] Existing Instance crypto_ref.
#[local] Existing Instance crypto_ref_laws.

(** A network that accepts every registration and counts them. *)
Definition tally_submit (who : AccountId) (c : RuntimeCall) : M nat SubxtError (list EventDetails) := fun n =>
  (Ok [registry_event (Registry.AgentRegistered [] who)], S n).
Definition home_env : Env := fun name => if bool_decide (name = "HOME") then Some (bstr "/home/a") else None.
Definition sk_a : SigningKey := key_p.
Definition first_run : result (Exit RegistryClient.ClientError) unit * Process nat :=
  RegistryCli.main tally_submit (fun _ => zeros32) (ret (1, zeros32)) (fun _ => ret tt) home_env
    sk_a (Some (replicate 16 Byte.x11)) (Some (replicate 12 Byte.x22)) (mkProcess (mkMachine ∅ 0%nat) []).
Lemma first_run_ok : first_run = (Ok tt, first_run.2).
Proof. assert (is_ok first_run.1 = true) as Hr by (vm_compute; reflexivity). by destruct first_run as [[[]|e] p]. Qed.

Definition sk_b : SigningKey := key_q.
Lemma second_run_registers_nothing_witness :
  net (machine first_run.2) = 1%nat /\
  exists p'', RegistryCli.main tally_submit (fun _ => zeros32) (ret (1, zeros32)) (fun _ => ret tt) home_env
    sk_b None None first_run.2 = (Ok tt, p'') /\ machine p'' = machine first_run.2.
Proof.
  split; [vm_compute; reflexivity|].
  destruct (second_run_registers_nothing tally_submit (fun _ => zeros32) (ret (1, zeros32)) (fun _ => ret tt) home_env
    sk_a (Some (replicate 16 Byte.x11)) (Some (replicate 12 Byte.x22)) (mkProcess (mkMachine ∅ 0%nat) []) first_run.2) as (d & k & how & _ & Hr).
  - intros url n. reflexivity.
  - intros n [= <-]. reflexivity.
  - exact first_run_ok.
  - eexists. split; [apply Hr|reflexivity].
Defined.
End CliProperties.
