(* ===== verification/SaleProperties.v ===== *)
(** * SaleProperties: a sale over the command line

    The runs of the vector client by a provider and a consumer, one after the other and
    on whatever the chain has become in between: what the provider's run prints is
    enough for the consumer to pay and to settle. *)

From stdpp Require Import base gmap list strings pretty.
From Stdlib Require Import ZArith NArith Lia.
From S2P Require Import Prelude RustStr Frame Ledger Escrow AgentRegistry Merkle VectorDb VectorDbTheory Template Runtime Offchain VectorClient VectorClientTheory VectorSubmit Cli CliTheory Door DoorScenario Scenario CliProperties.

Local Open Scope arth_scope.

Module SaleProperties.
Import Runtime VectorClient VectorCli CliProperties.

Section Sale.
Context {L : Type} `{ReservableCurrency L} `{Blake2} `{ScaleCodec} `{MlDsa} `{RsMerkle} `{Hex} `{Sr25519}.
Context `{!RsMerkleLaws} `{!Blake2Laws} `{!HexLaws} `{!HexTextLaws}.
Context (from_insecure_url : str -> M (Chain L) SubxtError unit).
Context (fetch_account : AccountId -> M (Chain L) SubxtError (option str)).
Context (transfer_allow_death : AccountId -> AccountId -> Balance -> M (Chain L) SubxtError unit).
Implicit Types (env : Env) (p q : Process (Chain L)).

#[local] Existing Instance AgentRegistryAdapter.
#[local] Existing Instance EscrowAdapter.
#[local] Instance sale_reputation : ReputationHandler (World L) :=
  ReputationHandlerAdapter Configs.registry_config Configs.vector_db_config.

Abbreviation submit :=
  (chain_submit (L := L) Configs.registry_config Configs.vector_db_config Configs.usize_bits).
Abbreviation main := (VectorCli.main submit from_insecure_url fetch_account transfer_allow_death).
Abbreviation chain p := (net (machine p)).
Abbreviation now p := (block_number (w_system (world (chain p)))).
Abbreviation escrow_at p id := (Escrow.escrows (w_escrow (world (chain p))) !! id).
Abbreviation balances_of p := (w_balances (world (chain p))).

(** The process after a dispatched call. *)
Definition after (p : Process (Chain L)) (v' : VectorDb.State (World L)) (line : str) : Process (Chain L) :=
  mkProcess (mkMachine (files (machine p)) (set_vector_db v' (chain p))) (stdout p ++ [line]).

(** ** What a run reads *)

Definition printed (b : bytes) : str := x0x ++ bstr (hex_encode b).

(** The variables of a consumer's run: the action, the id and the DID, and a signer. *)
Record consumer_env env (action : string) (id : CommitmentId) (d : Did) (k : Keypair) : Prop := {
  ce_action : env "ACTION"%string = Some (bstr action);
  ce_id : env "COMMITMENT_ID"%string = Some (printed id);
  ce_did : env "CONSUMER_DID"%string = Some (printed d);
  ce_signer : forall p, signer_from_env env p = (Ok k, p) }.

(** A run whose connection stands does what its action says. *)
Lemma main_action env p action :
  (forall url n, from_insecure_url url n = (Ok tt, n)) -> env "ACTION"%string = Some (bstr action) ->
  main env p =
    (if bool_decide (action = "balance") then balance_action fetch_account env
     else if bool_decide (action = "raise") then raise_action submit env
     else if bool_decide (action = "counter") then counter_action submit env
     else if bool_decide (action = "finalize") then finalize_action submit env
     else if bool_decide (action = "acknowledge") then acknowledge_action submit env
     else if bool_decide (action = "transfer") then transfer_action transfer_allow_death env
     else if bool_decide (action = "close") then close_action submit env
     else register_action submit env) p.
Proof.
  intros Hon Ha.
  assert (RustStr.show (var_or env "ACTION" (bstr "register")) = action) as Hs.
  { unfold var_or. rewrite Ha. apply show_bstr. }
  unfold VectorCli.main. cbv zeta. rewrite Hs. unfold bind at 1, on_node. rewrite Hon. by destruct p as [[]].
Qed.

(** A client call that goes through, and the line printed after it. *)
Lemma run_call_ok (who : AccountId) p c v' message line :
  VectorDb.exec Configs.vector_db_config Configs.usize_bits (w_system (world (chain p))) (Signed who) c (vector_db (chain p)) = (Ok tt, v') ->
  (run_client is_panic message (submit_and_find submit who (CallVectorDb c) (VectorSubmit.event_of c) ;;; ret tt) ;;;
   println line) p = (Ok tt, after p v' line).
Proof.
  intros Hx. unfold bind at 1, run_client. rewrite VectorSubmit.submit_and_find_spec.
  rewrite (VectorSubmit.dispatch_vector _ _ _ _ _ Hx). done.
Qed.

(** ** The consumer's runs *)

Section Runs.
Context (online : forall url n, from_insecure_url url n = (Ok tt, n)).

Lemma acknowledge_run env q id c k pc l' :
  consumer_env env "acknowledge" id (VectorDb.consumer c) k -> len32 id -> len32 (VectorDb.consumer c) ->
  commitment_of q id = Some c -> VectorDb.status c = VectorDb.Pending -> now q < VectorDb.expires_at c ->
  VectorDbTheory.acts_for (vector_db (chain q)) (account_of k) (VectorDb.consumer c) ->
  adapter_controller_of (world (chain q)) (VectorDb.provider c) = Some pc ->
  escrow_at q id = None -> reserve (account_of k) (VectorDb.price c) (balances_of q) = (Ok tt, l') ->
  exists q', main env q = (Ok tt, q') /\
    stdout q' = stdout q ++ [bstr "acknowledge_commitment succeeded: commitment_id=0x" ++ bstr (hex_encode id)] /\
    commitment_of q' id = Some (VectorDb.with_ack (now q) c) /\
    escrow_at q' id = Some (Escrow.mkEscrowRecord (account_of k) pc (VectorDb.price c) Escrow.Locked (now q)) /\
    balances_of q' = l' /\ files (machine q') = files (machine q).
Proof.
  intros [Ha Hi Hd Hs] Lid Ld Hc Hst Hb Hact Hpc He Hres.
  rewrite (main_action env q "acknowledge" online Ha). 
  rewrite !bool_decide_eq_false_2 by done. rewrite bool_decide_eq_true_2 by done. unfold acknowledge_action.
  rewrite (bind_ok _ _ _ _ _ (hex32_printed _ _ _ q Hi Lid)), (bind_ok _ _ _ _ _ (hex32_printed _ _ _ q Hd Ld)),
    (bind_ok _ _ _ _ _ (Hs q)).
  eexists. split; [eapply (run_call_ok (account_of k) q (VectorDb.AcknowledgeCommitment id (VectorDb.consumer c)))|].
  - cbn [VectorDb.exec]. eapply VectorDbTheory.acknowledge_total; try done.
    cbn. unfold adapter_lock, zoom. rewrite (Escrow.lock_total _ _ _ _ _ _ l'); done.
  - unfold commitment_of. cbn. by rewrite !lookup_insert_eq.
Qed.

Lemma close_run env q id c k r rem l' n :
  consumer_env env "close" id (VectorDb.consumer c) k -> len32 id -> len32 (VectorDb.consumer c) ->
  env "MERKLE_ROOT"%string = Some (printed (VectorDb.merkle_root c)) -> len32 (VectorDb.merkle_root c) ->
  env "TOTAL_CHUNKS"%string = Some (bstr (pretty n)) -> 0 <= n <= u64_max ->
  commitment_of q id = Some c -> VectorDb.status c = VectorDb.Active -> now q < VectorDb.expires_at c ->
  VectorDbTheory.acts_for (vector_db (chain q)) (account_of k) (VectorDb.consumer c) ->
  escrow_at q id = Some r -> Escrow.status r = Escrow.Locked ->
  repatriate_reserved (Escrow.payer r) (Escrow.payee r) (Escrow.amount r) Free (balances_of q) = (Ok rem, l') ->
  exists q', main env q = (Ok tt, q') /\
    stdout q' = stdout q ++ [bstr "close_commitment succeeded: commitment_id=0x" ++ bstr (hex_encode id)] /\
    commitment_of q' id = Some (VectorDb.with_status VectorDb.Settled c) /\
    VectorDb.stream_receipts (vector_db (chain q')) !! id =
      Some (VectorDb.mkReceipt id (VectorDb.merkle_root c) n (now q)) /\
    escrow_at q' id = Some (Escrow.set_status Escrow.Released r) /\ balances_of q' = l'.
Proof.
  intros [Ha Hi Hd Hs] Lid Ld Hm Lm Ht Hn Hc Hst Hb Hact Hr Hl Hrep.
  rewrite (main_action env q "close" online Ha).
  rewrite !bool_decide_eq_false_2 by done. rewrite bool_decide_eq_true_2 by done. unfold close_action.
  rewrite (bind_ok _ _ _ _ _ (hex32_printed _ _ _ q Hi Lid)), (bind_ok _ _ _ _ _ (hex32_printed _ _ _ q Hd Ld)),
    (bind_ok _ _ _ _ _ (hex32_printed _ _ _ q Hm Lm)). cbv zeta. rewrite (bind_ok _ _ _ _ _ (Hs q)).
  unfold parsed_or. rewrite Ht. cbn [mbind option_bind]. rewrite parse_pretty_Z by lia. cbn [default].
  eexists. split; [eapply (run_call_ok (account_of k) q (VectorDb.CloseCommitment id (VectorDb.consumer c) (VectorDb.merkle_root c) n))|].
  - cbn [VectorDb.exec]. eapply VectorDbTheory.close_total; try done.
    cbn. unfold adapter_release, zoom. rewrite (Escrow.release_total id _ r rem l'); done.
  - unfold commitment_of. cbn. by rewrite !lookup_insert_eq.
Qed.

End Runs.
End Sale.

(** ** Witness *)

Import Scenario Scenario.Instances DoorScenario.
#[local] Existing Instance hex_ref.
#[local] Existing Instance hex_ref_laws.
#[local] Existing Instance hex_ref_text.
#[local] Existing Instance keypair_ref.

(** Alice's shop after her registration: one commitment. *)
Abbreviation sold := ((cli (seller_env None) shop).2).
Definition sold_all : list (CommitmentId * VectorDb.VectorCommitment) :=
  Eval vm_compute in map_to_list (VectorDb.vector_commitments (vector_db (net (machine sold)))).
Lemma sold_all_eq : map_to_list (VectorDb.vector_commitments (vector_db (net (machine sold)))) = sold_all.
Proof. vm_compute. reflexivity. Qed.
Definition sold_id : CommitmentId := Eval vm_compute in default [] (fst <$> head sold_all).
Definition sold_root : bytes := Eval vm_compute in default [] ((fun x => VectorDb.merkle_root x.2) <$> head sold_all).

Lemma sold_one id c : commitment_of sold id = Some c -> id = sold_id /\ VectorDb.merkle_root c = sold_root /\ [(id, c)] = sold_all.
Proof.
  unfold commitment_of. intros Hc%elem_of_map_to_list. rewrite sold_all_eq in Hc.
  unfold sold_all in Hc |- *. apply list_elem_of_singleton in Hc. injection Hc as -> ->. done.
Qed.

(** Bob's variables. *)
Definition buyer_env (action : string) : Env := fun name =>
  if bool_decide (name = "ACTION") then Some (bstr action)
  else if bool_decide (name = "COMMITMENT_ID") then Some (printed sold_id)
  else if bool_decide (name = "CONSUMER_DID") then Some (printed did_q)
  else if bool_decide (name = "MERKLE_ROOT") then Some (printed sold_root)
  else if bool_decide (name = "TOTAL_CHUNKS") then Some (bstr (pretty 1))
  else None.
Abbreviation bought := ((cli (buyer_env "acknowledge") sold).2).

Lemma buyer_env_ok action : consumer_env (L := ledger) (buyer_env action) action sold_id did_q dev_bob.
Proof. split; reflexivity. Qed.

Lemma ok_run {S E A} (m : M S E A) s a : (m s).1 = Ok a -> m s = (Ok a, (m s).2).
Proof. destruct (m s). by intros [= ->]. Qed.

End SaleProperties.
