(* ===== verification/NodeProperties.v ===== *)
(** * NodeProperties: from the command line to block zero, and what fits into a block

    The chain specifications the node loads by name lead to presets that build a chain
    the theorems about reachable states start from; the declared weights leave room for
    every call. *)

From stdpp Require Import base gmap list strings fin_maps.
From Stdlib Require Import ZArith Lia.
From S2P Require Import Prelude Frame Ledger Escrow AgentRegistry Merkle VectorDb Template Runtime Weights GenesisPresets Apis Scenario.

Local Open Scope arth_scope.

Module NodeProperties.
Import Presets ChainSpecs PresetsTheory Runtime.

Section Node.
Context {L : Type} `{GenesisBalancesLaws L} `{KeyringLaws} `{Blake2} `{ScaleCodec} `{MlDsa} `{RsMerkle}.
Context {Json : Type} `{Apis.GenesisJsonLaws Json}.
Context (DEV LOCAL : string) (code : bytes) (from_json_file : string -> result string ChainSpec).

Abbreviation preset id := (Apis.get_preset DEV LOCAL (Some id)).
Abbreviation load := (load_spec (Some code) DEV LOCAL from_json_file).

(** The preset of this name is a patch the genesis builder refuses on its own; merged
    into the default configuration, as the chain specification does it, it starts a chain
    with this dispute window, in which [k] can spend an endowment and is the root
    account. *)
Definition starts_chain (name : string) (patch : Json) (sys : System) (window : BlockNumber) (k : Sr25519Keyring) : Prop :=
  (exists e, Apis.build_state (L := L) patch sys = Err e) /\
  exists config cfg (s : Chain L), Apis.named_preset_config (Apis.get_preset DEV LOCAL) name = Ok config /\
    Apis.from_json config = Ok cfg /\ Apis.build_state config sys = Ok (Some s) /\
    other_genesis cfg = other_genesis Apis.default_genesis /\
    reach Configs.registry_config Configs.vector_db_config Configs.usize_bits 0 s /\ w_system (world s) = sys /\
    VectorDb.effective_dispute_window Configs.vector_db_config (vector_db s) = window /\
    free_balance (w_balances (world s)) (to_account_id k) = 2 ^ 60 /\ sudo_key cfg = Some (to_account_id k) /\
    NoDup (aura_authorities cfg) /\ (0 < length (aura_authorities cfg) <= 32)%nat /\
    length (grandpa_authorities cfg) = length (aura_authorities cfg).

Lemma testnet_starts name auth ks dw sys k :
  let patch := Apis.patch_to_json (testnet_genesis auth (to_account_id <$> ks) (to_account_id k) dw) in
  preset name = Some patch ->
  in_u32 (block_number sys) -> (forall b, dw = Some b -> in_u32 b) -> NoDup ks -> k ∈ ks -> NoDup auth.*1 ->
  (0 < length auth <= 32)%nat ->
  starts_chain name patch sys (default (VectorDb.DisputeWindow Configs.vector_db_config) dw) k.
Proof.
  intros patch Hp Hs Hdw Hn Hk Ha Hl. split.
  { unfold Apis.build_state. destruct (Apis.from_patch_json (testnet_genesis auth (to_account_id <$> ks) (to_account_id k) dw)) as [e He].
    exists e. unfold patch. by rewrite He. }
  destruct (build_testnet (L := L) auth ks (to_account_id k) dw Apis.default_genesis sys Hn) as (l & Hb & Hr & Hf).
  eexists _, _, (genesis dw sys l). split; [by apply Apis.named_preset_merges|].
  split; [apply Apis.from_merged_json|]. unfold Apis.build_state, patch. rewrite Apis.from_merged_json, Hb.
  cbn. rewrite !length_fmap. split_and!; try done || lia; [by apply reach_genesis|by apply Hf].
Qed.

(** C18: the node starts the chain the theorems are about: the specifications called
    [dev], [local] and the default one load, and name a preset the genesis builder of
    the runtime lists.  The preset is a partial configuration: [build_state] refuses it as
    it is, and builds its merge with the default configuration, which is what the chain
    specification hands over, into a reachable state without agents, commitments or
    reserves, with a dispute window of ten blocks in development and of a day in the
    local network, in which Alice has her endowment and the root key. *)
Theorem presets_start_the_chain id sys :
  DEV <> LOCAL -> id ∈ ["dev"; EmptyString; "local"] -> in_u32 (block_number sys) ->
  exists spec patch, load id = Ok spec /\ genesis_config_preset_name spec ∈ Apis.preset_names DEV LOCAL /\
    preset (genesis_config_preset_name spec) = Some patch /\
    starts_chain (genesis_config_preset_name spec) patch sys (if bool_decide (id = "dev") then 10 else Configs.DAYS) Alice.
Proof.
  intros Hne Hid Hs. unfold load_spec, development_chain_spec, local_chain_spec, Apis.get_preset, Apis.preset_names, get_preset, preset_names.
  assert (forall k, k ∈ [Alice; Bob; AliceStash; BobStash] -> k <> One /\ k <> Two) as Hd.
  { pose proof keyring_distinct as Hk. change ([Alice; Bob; AliceStash; BobStash; One; Two]) with
      ([Alice; Bob; AliceStash; BobStash] ++ [One; Two]) in Hk. apply NoDup_app in Hk as (_ & Hk & _).
    intros k Hin. specialize (Hk k Hin). set_solver. }
  destruct (decide (id = "dev")) as [->|Hdev].
  - eexists _, _. split; [done|]. cbn [genesis_config_preset_name]. rewrite !bool_decide_eq_true_2 by done.
    split_and!; [set_solver|done|].
    apply (testnet_starts _ _ [Alice; Bob; AliceStash; BobStash] (Some 10) sys Alice); try done.
    + unfold Apis.get_preset, get_preset. by rewrite bool_decide_eq_true_2.
    + by intros b [= <-].
    + apply dev_accounts_nodup.
    + set_solver.
    + apply NoDup_singleton.
    + cbn. lia.
  - assert (id = EmptyString \/ id = "local") as Hl by set_solver.
    rewrite (bool_decide_eq_false_2 _ Hdev), (bool_decide_eq_true_2 _ Hl). eexists _, _. split; [done|].
    cbn [genesis_config_preset_name]. rewrite (bool_decide_eq_false_2 (LOCAL = DEV)), (bool_decide_eq_true_2 (LOCAL = LOCAL)) by done.
    split_and!; [set_solver|done|].
    apply (testnet_starts _ _ (filter (fun v => v <> One /\ v <> Two) keyring_iter) None sys Alice); try done.
    + unfold Apis.get_preset, get_preset. by rewrite (bool_decide_eq_false_2 (LOCAL = DEV)), (bool_decide_eq_true_2 (LOCAL = LOCAL)).
    + apply NoDup_filter, keyring_iter_nodup.
    + apply list_elem_of_filter. split; [apply Hd; set_solver|apply keyring_iter_complete].
    + cbn. pose proof dev_accounts_nodup as Hn. inversion_clear Hn as [|? ? Hn1 _].
      repeat constructor; [|set_solver]. intros Hin%list_elem_of_singleton. apply (inj sr25519_public) in Hin. set_solver.
    + cbn. lia.
Qed.
End Node.

(** ** Blocks *)

(** Every call costs something and none is too heavy for a block: whatever its
    arguments, a call declares a positive weight, and 1999 calls of that weight stay
    within the three quarters of a block that ordinary transactions may use, when a
    database access costs at most 300 microseconds. *)
Theorem calls_fit_in_a_block db c :
  0 <= db_read db <= 300000000 -> 0 <= db_write db <= 300000000 ->
  let w := RuntimeWeights.call_weight db c in
  0 < ref_time w /\
  100 * (1999 * ref_time w) <= RuntimeWeights.NORMAL_DISPATCH_RATIO_PERCENT * ref_time RuntimeWeights.MAXIMUM_BLOCK_WEIGHT /\
  100 * (1999 * proof_size w) <= RuntimeWeights.NORMAL_DISPATCH_RATIO_PERCENT * proof_size RuntimeWeights.MAXIMUM_BLOCK_WEIGHT.
Proof.
  intros Hr Hw w.
  assert (6000000 <= ref_time w <= 750010000 /\ 0 <= proof_size w <= 1489) as [Ht Hp].
  { destruct c as [c|c|c]; cbn [RuntimeWeights.call_weight] in w; unfold w.
    - pose proof (RuntimeWeights.template_weight_bounds db c Hr Hw). lia.
    - pose proof (RuntimeWeights.registry_weight_bounds c). lia.
    - pose proof (RuntimeWeights.vector_db_weight_bounds c). lia. }
  cbn. unfold RuntimeWeights.NORMAL_DISPATCH_RATIO_PERCENT, RuntimeWeights.WEIGHT_REF_TIME_PER_SECOND, u64_max. lia.
Qed.

(** ** Witnesses *)

Import Scenario Scenario.Instances.

(** Seven development keys. *)
Inductive dev_key : Type := KAlice | KBob | KCharlie | KAliceStash | KBobStash | KOne | KTwo.
Definition dev_byte (k : dev_key) : byte :=
  match k with
  | KAlice => Byte.x0a | KBob => Byte.x0b | KCharlie => Byte.x0c | KAliceStash => Byte.x1a | KBobStash => Byte.x1b
  | KOne => Byte.x01 | KTwo => Byte.x02
  end.
#[local] Instance dev_key_eq : EqDecision dev_key.
Proof. solve_decision. Defined.
#[local] Instance rep_inj : Inj (=) (=) (fun k => rep (dev_byte k)).
Proof. intros [] [] E; (reflexivity || discriminate E). Qed.
#[local] Instance keyring_ref : Keyring := {|
  Sr25519Keyring := dev_key;
  Alice := KAlice; Bob := KBob; AliceStash := KAliceStash; BobStash := KBobStash; One := KOne; Two := KTwo;
  keyring_iter := [KAlice; KBob; KCharlie; KAliceStash; KBobStash; KOne; KTwo];
  to_account_id k := rep (dev_byte k);
  sr25519_public k := rep (dev_byte k);
  ed25519_public k := rep (dev_byte k) |}.
#[local] Instance keyring_ref_laws : KeyringLaws.
Proof.
  split; try apply _.
  - by apply (bool_decide_unpack (NoDup _)).
  - intros []; cbn; set_solver.
  - by apply (bool_decide_unpack (NoDup _)).
  - cbn. lia.
Qed.

(** Balances without duplicates and above the existential deposit. *)
#[local] Instance balances_ref : GenesisBalances ledger := fun bs =>
  if bool_decide (NoDup bs.*1) && forallb (fun x => Configs.EXISTENTIAL_DEPOSIT <=? x.2) bs
  then Some (list_to_map ((fun x => (x.1, (Z.to_N x.2, 0%N))) <$> bs)) else None.
#[local] Instance balances_ref_laws : GenesisBalancesLaws ledger.
Proof.
  intros bs Hn Hb. unfold build_balances, balances_ref. rewrite bool_decide_eq_true_2 by done.
  assert (forallb (fun x => Configs.EXISTENTIAL_DEPOSIT <=? x.2) bs = true) as ->.
  { apply forallb_forall. intros [a v] Hin%list_elem_of_In. cbn. apply Z.leb_le. by eapply Hb. }
  set (m := (fun x => (x.1, (Z.to_N x.2, 0%N))) <$> bs).
  assert (forall a v, (a, v) ∈ bs -> (list_to_map m : ledger) !! a = Some (Z.to_N v, 0%N)) as Hm.
  { intros a v Hin. apply elem_of_list_to_map_1.
    - unfold m. rewrite <- list_fmap_compose. done.
    - apply list_elem_of_fmap. by exists (a, v). }
  eexists. split; [done|]. split.
  - intros a v Hin. cbn. unfold l_free. rewrite (Hm a v Hin). cbn. specialize (Hb a v Hin).
    unfold Configs.EXISTENTIAL_DEPOSIT, Configs.MILLI_UNIT in Hb. lia.
  - intros a. cbn. unfold l_reserved. destruct ((list_to_map m : ledger) !! a) as [[f r]|] eqn:E; [|done]. cbn.
    apply elem_of_list_to_map_2, list_elem_of_fmap in E as (x & [= _ _ ->] & _). done.
Qed.

(** Texts that say whether they are complete. *)
Definition doc : Type := RuntimeGenesisConfig unit + GenesisPatch.
#[local] Instance json_ref : Apis.GenesisJson doc := {|
  Apis.OtherGenesis := unit;
  Apis.default_genesis := mkGenesisConfig None [] [] [] None tt;
  Apis.config_to_json := inl;
  Apis.patch_to_json := inr;
  Apis.from_json j := match j with inl cfg => Ok cfg | inr _ => Err "missing field `system`" end;
  Apis.json_merge d p :=
    match d, p with
    | inl cfg, inr p => inl (patched p cfg)
    | _, _ => p
    end;
  Apis.named_preset_config get name :=
    match get None, get (Some name) with
    | Some d, Some p => Ok match d, p with inl cfg, inr p => inl (patched p cfg) | _, _ => p end
    | _, _ => Err "The preset with name not found"
    end |}.
#[local] Instance json_ref_laws : Apis.GenesisJsonLaws doc.
Proof. split; cbn; [by eexists|done|]. by intros get name d p -> ->. Qed.

Lemma presets_start_the_chain_witness :
  exists spec patch, load_spec (Some [Byte.x00]) "development" "local_testnet" Err "local" = Ok spec /\
    Apis.get_preset "development" "local_testnet" (Some (genesis_config_preset_name spec)) = Some patch /\
    starts_chain (L := ledger) "development" "local_testnet" (genesis_config_preset_name spec) patch (sys_at 0) 14400 KAlice.
Proof.
  destruct (presets_start_the_chain (L := ledger) "development" "local_testnet" [Byte.x00] Err "local" (sys_at 0)) as (spec & cfg & H1 & _ & H2 & H3).
  - discriminate.
  - set_solver.
  - by apply (bool_decide_unpack (in_u32 0)).
  - exists spec, cfg. exact (conj H1 (conj H2 H3)).
Defined.

Lemma calls_fit_in_a_block_witness :
  100 * (1999 * ref_time (RuntimeWeights.call_weight (mkDbWeight 25000000 100000000) (CallTemplate Template.CauseError))) <=
  75 * 2000000000000.
Proof.
  refine (proj1 (proj2 (calls_fit_in_a_block (mkDbWeight 25000000 100000000) (CallTemplate Template.CauseError) _ _))); cbn; lia.
Defined.
End NodeProperties.
