(* ===== verification/ServiceProperties.v ===== *)
(** * ServiceProperties: what a node runs

    The tasks a node consists of, what the subcommands need of the chain's database, the
    slots blocks are authored in, and the extrinsics the benchmarks sign. *)

From stdpp Require Import base gmap list strings sets.
From Stdlib Require Import ZArith Lia.
From S2P Require Import Prelude Frame AgentRegistry VectorDb Runtime GenesisPresets Service Extrinsic Apis Benchmarking Command ServiceTheory NodeProperties.

Local Open Scope arth_scope.

Module ServiceProperties.
Import FrameConfigs Benchmarking Command.

Section Service.
Context {T : SubstrateTypes} `{!Substrate} `{!SubstrateLaws}.

(** C20: a node that starts runs exactly these tasks of its own, in this order: the
    telemetry worker if endpoints are configured, the off-chain workers if they are
    enabled, the block author on an authority and the finality voter unless it is
    disabled.  The last two take the node down with them; the author imports its blocks
    through the import whose link half the voter runs on, and the voter holds keys on
    an authority only.  The subcommands that build a client run none of them but
    telemetry, and a node that is no authority does not depend on the authoring side. *)
Theorem node_runs_these_tasks N config tm :
  start N config = Ok tm ->
  exists s tm1 genesis net sync pconf notif t_tel t_off t_aura t_vote,
    let name := protocol_standard_name genesis (chain_spec config) in
    partial config = Ok (s, tm1) /\ own tm1 = t_tel /\
    client_block_hash (client s) 0 = Ok (Some genesis) /\
    grandpa_peers_set_config N name (register_notification_metrics N (prometheus_registry config))
      (peer_store_handle (net_config_new N (network config) (prometheus_registry config))) = (pconf, notif) /\
    grandpa_block_import (client s) GRANDPA_JUSTIFICATION_PERIOD (client s) (select_chain s)
      (telemetry_handle <$> telemetry s) = Ok (block_import s, grandpa_link s) /\
    own tm = t_tel ++ t_off ++ t_aura ++ t_vote /\
    runs_when (telemetry_on config) t_tel telemetry_task /\
    runs_when (offchain_worker_enabled config) t_off (offchain_task s) /\
    runs_when (is_authority (role config)) t_aura (authoring_task config s sync) /\
    runs_when (negb (disable_grandpa config)) t_vote (voting_task config s net sync name notif) /\
    (role config = Full -> forall pf sd sa, start (H := with_authoring pf sd sa) N config = start N config).
Proof.
  intros Hs. destruct (start_ok _ _ _ Hs) as
    (s & genesis & net & tx & ctl & sync & notif & pconf & tm1 & tm2 & t1 & t2 & t3 & t4 & Hp & Hg & Hn & _ & Ho & H1 & H2 & H3 & H4).
  assert (new_partial config [] = (Ok s, tm1)) as Hp'.
  { unfold partial in Hp. destruct (new_partial config []) as [[?|?] ?]; by simplify_eq. }
  destruct (new_partial_ok _ _ _ _ Hp') as [Htel Himp].
  exists s, tm1, genesis, net, sync, pconf, notif, t1, t2, t3, t4. split_and!; try done.
  - unfold runs_when in *. destruct (telemetry_on config); [|congruence].
    destruct H1 as (a & -> & w & Hw & ->), Htel as (b & -> & w' & Hw' & ->). congruence.
  - intros Hr pf sd sa. apply authoring_is_unused. by rewrite Hr.
Qed.
End Service.

(** ** Subcommands *)

Section Commands.
Context {T : SubstrateTypes} `{Keyring} `{FrameExtensions} `{CommandTypes} `{!NodeCommands} `{!NodeCommandsLaws}.
Context {Apis : Type} (api_versions : Apis).
Context (sign : Sr25519Keyring -> bytes -> bytes) (using_encoded : SignedPayload BenchmarkCall Era -> bytes).
Context (runtime_benchmarks : bool).

Abbreviation node S := (run (H := S) api_versions sign using_encoded runtime_benchmarks).

(** What a command that builds no client runs, on this configuration: Substrate's own
    command, or the refusal of a benchmark the node was built without.  A command that
    is not here builds a client first. *)
Definition without_client (cli : Cli) (config : Configuration) : option (result CliError unit) :=
  match subcommand cli with
  | Some (Key cmd) => Some (key_run cmd cli)
  | Some (BuildSpec cmd) => Some (build_spec_run cmd (chain_spec config) (network config))
  | Some (PurgeChain cmd) => Some (purge_chain_run cmd (database config))
  | Some (ChainInfo cmd) => Some (chain_info_run cmd config)
  | Some (Benchmark (PalletBenchmark cmd)) => Some
      (if runtime_benchmarks then pallet_run_with_spec cmd (Some (chain_spec config))
       else Err (Input "Runtime benchmarking wasn't enabled when building the node. You can enable it with `--features runtime-benchmarks`."))
  | Some (Benchmark (StorageBenchmark _)) =>
      if runtime_benchmarks then None
      else Some (Err (Input "Storage benchmarking can be enabled with `--features runtime-benchmarks`."))
  | Some (Benchmark (MachineBenchmark cmd)) => Some (machine_run cmd config reference_hardware)
  | None | Some (CheckBlock _) | Some (ExportBlocks _) | Some (ExportState _) | Some (ImportBlocks _) | Some (Revert _)
  | Some (Benchmark (BlockBenchmark _)) | Some (Benchmark (OverheadBenchmark _))
  | Some (Benchmark (ExtrinsicBenchmark _)) => None
  end.

Lemma start_partial_err {S : Substrate} N config e : partial config = Err e -> start N config = Err e.
Proof.
  unfold partial, start, new_full, bind. destruct (new_partial config []) as [[s|e'] tm]; [done|]. by intros [= ->].
Qed.

End Commands.

(** ** Slots *)

Section Slots.
Context {T : SubstrateTypes} `{!Substrate} `{!SubstrateLaws} {S : Type} {FT : Apis.FrameTypes} {FR : Apis.FrameRuntime S}.

Abbreviation runtime_slot_duration := (Apis.api_slot_duration (Apis.aura_api (S := S))).

(** C21: on nodes that run this runtime, the author of a block and whoever imports
    it compute the same slot from the same time, whatever the parent; a slot has six
    seconds, so that the durations of the configuration are what they are documented
    to be: the dispute window spans the slots of a day, a commitment lives at most
    for those of a week, and a star can be renewed after those of two hours. *)
Theorem authors_and_importers_agree N config tm t w :
  (forall c, aura_slot_duration c = Ok runtime_slot_duration) ->
  (forall c h, slot_duration_at c h = Ok runtime_slot_duration) ->
  (forall now d, 0 < d -> slot_from_timestamp now d = now / d) ->
  start N config = Ok tm -> t ∈ own tm -> body t = RunAura w ->
  exists p, start_aura p = Ok w /\
    forall parent now importer,
      sa_create_inherent_data_providers p parent now = import_inherents importer parent now /\
      import_inherents importer parent now = Ok (mkInherents (now / 6000) now) /\
      (now + 24 * 60 * 60 * 1000) / 6000 = now / 6000 + VectorDb.DisputeWindow Configs.vector_db_config /\
      (now + 7 * 24 * 60 * 60 * 1000) / 6000 = now / 6000 + VectorDb.MaxCommitmentLifetime Configs.vector_db_config /\
      (now + 2 * 60 * 60 * 1000) / 6000 = now / 6000 + Registry.StarCooldown Configs.registry_config.
Proof.
  intros Ha Hi Hd Hs Ht Hb. destruct (aura_task_of _ _ _ _ _ Hs Ht Hb) as (_ & s & sync & p & w' & Hw & Hsd & _ & _ & _ & _ & _ & Hc & [= ->]).
  exists p. split; [done|]. intros parent now importer. rewrite Ha in Hsd. injection Hsd as Hsd.
  rewrite Hc. unfold authoring_inherents, import_inherents. rewrite Hi, <- Hsd.
  change runtime_slot_duration with 6000. rewrite !Hd by done. cbn [VectorDb.DisputeWindow VectorDb.MaxCommitmentLifetime Registry.StarCooldown
    Configs.vector_db_config Configs.registry_config].
  split_and!; try done.
  - rewrite <- (Z.div_add now 14400 6000) by done. f_equal.
  - rewrite <- (Z.div_add now 100800 6000) by done. f_equal.
  - rewrite <- (Z.div_add now 1200 6000) by done. f_equal.
Qed.
End Slots.

(** ** Benchmark extrinsics *)

Section Benchmarks.
Context `{Keyring} `{FrameExtensionsLaws} {Apis : Type} (api_versions : Apis).
Context (sign : Sr25519Keyring -> bytes -> bytes) (using_encoded : SignedPayload BenchmarkCall Era -> bytes).
Context (verify : AccountId -> bytes -> bytes -> bool).

(** C22: the extrinsics the benchmarks sign are valid for the whole era they name:
    in every block after the best one until the era ends, the runtime computes the
    implicit data the signer used, still has the block hash it needs for that, and
    accepts the signature of the account that is named as the signer. *)
Theorem benchmark_extrinsics_are_accepted client (h : BlockNumber -> bytes) sender call nonce sys :
  (forall k m, verify (to_account_id k) m (sign k m) = true) ->
  block_hash_at client 0 = Some (h 0) -> best_hash client = h (best_number client) ->
  0 <= best_number client <= u32_max ->
  keeps_hashes h sys -> best_number client < block_number sys < best_number client + period ->
  exists xt i, create_benchmark_extrinsic api_versions sign using_encoded client sender call nonce = Some xt /\
    xt_call xt = call /\ xt_signer xt = to_account_id sender /\
    implicit (VERSION api_versions) sys (xt_extension xt) = Some i /\
    verify (xt_signer xt) (using_encoded (from_raw (xt_call xt) (xt_extension xt) i)) (xt_signature xt) = true.
Proof.
  intros Hv Hg Hb Hr Hk Hn. unfold create_benchmark_extrinsic. rewrite Hg, Hb. cbn [mbind option_bind].
  eexists _, _. split; [done|]. cbn [xt_call xt_signer xt_extension xt_signature]. split_and!; try done.
  - by apply (implicit_of_era api_versions h).
Qed.
End Benchmarks.

(** ** A node that starts

    Instances of Substrate's components without any state, which spawn one task each,
    and the runs that show the hypotheses of the theorems can be met. *)

Section Reference.
#[local] Existing Instance NodeProperties.keyring_ref.
#[local] Instance types_ref : SubstrateTypes := {|
  Endpoints := list string; TelemetryWorker := unit; Telemetry := unit; TelemetryHandle := unit;
  ExecutorConfig := unit; Executor := unit; Client := unit; Backend := unit; OffchainDb := unit;
  KeystoreContainer := unit; KeystorePtr := unit; SelectChain := unit; PoolOptions := unit;
  Prometheus := unit; Pool := unit; PoolFactory := unit; BlockImport := unit; LinkHalf := unit;
  AuthoritySet := unit; ImportQueue := unit; NodeChainSpec := unit; Database := unit;
  NetworkSettings := unit; NetConfig := unit; Metrics := unit; PeerStore := unit; ProtocolName := unit;
  ProtocolConfig := unit; NotificationService := unit; WarpProvider := unit; Network := unit;
  SystemRpcTx := unit; TxHandlerController := unit; SyncService := unit; OffchainWorkers := unit;
  RpcMethods := unit; RpcModule := unit; RpcHandlers := unit; ProposerFactory := unit; AuraWorker := unit;
  VotingRule := unit; VoterState := unit; Voter := unit; ServiceError := unit; TelemetryError := unit;
  ClientError := unit; ConsensusError := unit; OffchainError := unit; RpcError := unit |}.

Definition foreign (name : string) : Task := mkTask name None true false Foreign.

(** A handle on the task manager that spawns one task of its own. *)
Definition spawning {E A} (name : string) (a : A) : M TaskManager E A :=
  fun tm => (Ok a, tm ++ [foreign name]).

(** [opens]: whether the database can be opened. *)
Definition substrate_ref (opens : bool) : Substrate := {|
  from_telemetry_error := id; from_client_error := id; from_consensus_error := id; from_offchain_error := id;
  from_rpc_error := id; endpoints_is_empty e := match e with [] => true | _ => false end;
  telemetry_worker_new _ := Ok tt; new_telemetry _ _ := tt; telemetry_handle := id; new_wasm_executor := id;
  new_full_parts _ _ _ := if opens then Ok (tt, tt, tt, [foreign "database"]) else Err tt;
  keystore := id; longest_chain := id;
  pool_build _ _ _ _ _ tm := (tt, tm ++ [foreign "txpool-background"]);
  grandpa_block_import _ _ _ _ _ := Ok (tt, tt); slot_duration_at _ _ := Ok 6000;
  slot_from_timestamp := Z.div; aura_import_queue _ := spawning "basic-block-import-worker" tt;
  net_config_new _ _ _ := tt; register_notification_metrics _ _ := tt; peer_store_handle := id;
  client_block_hash _ _ := Ok (Some zeros32); protocol_standard_name _ _ := tt;
  grandpa_peers_set_config _ _ _ _ := (tt, tt); add_notification_protocol _ := id; shared_authority_set := id;
  warp_provider_new _ _ _ := tt; build_network _ := spawning "network-worker" (tt, tt, tt, tt);
  offchain_storage _ := None; pool_factory_new := id; offchain_workers_new _ := Ok tt; rpc_module_new := tt;
  rpc_system _ _ := tt; rpc_transaction_payment _ := tt; rpc_merge _ _ := Ok tt;
  spawn_tasks _ := spawning "informant" tt; proposer_factory_new _ _ _ _ _ := tt;
  aura_slot_duration _ := Ok 6000; start_aura _ := Ok tt; default_voting_rule := tt; empty_voter_state := tt;
  run_grandpa_voter _ := Ok tt |}.

Lemma spawning_foreign {E A} name (a : A) : spawns_foreign (E := E) (spawning name a).
Proof. intros tm r tm' [= <- <-]. exists [foreign name]. split; [done|]. by constructor. Qed.

#[local] Instance substrate_ref_laws opens : SubstrateLaws (H := substrate_ref opens).
Proof.
  split.
  - intros config h e c b k tm. destruct opens; [|done]. intros [= <- <- <- <-]. by constructor.
  - intros h c v o p tm x tm' [= <- <-]. exists [foreign "txpool-background"]. split; [done|]. by constructor.
  - intros p. apply spawning_foreign.
  - intros p. apply spawning_foreign.
  - intros p. apply spawning_foreign.
Qed.

(** An authority with telemetry and off-chain workers. *)
Definition authority_config : Configuration := {|
  telemetry_endpoints := Some ["wss://telemetry.polkadot.io/submit/"%string]; executor := tt; role := Authority;
  transaction_pool := tt; prometheus_registry := None; network := tt; node_name := "alice"; network_backend := None;
  chain_spec := tt; database := tt; offchain_worker_enabled := true; force_authoring := true;
  disable_grandpa := false |}.

Definition authority_tasks : TaskManager :=
  [foreign "database"; mkTask "telemetry" None false false (RunTelemetry tt); foreign "txpool-background";
   foreign "basic-block-import-worker"; foreign "network-worker";
   mkTask "offchain-workers-runner" (Some "offchain-worker"%string) false false (RunOffchainWorkers tt tt SpawnHandle);
   foreign "informant"; mkTask "aura" (Some "block-authoring"%string) true true (RunAura tt);
   mkTask "grandpa-voter" None true true (RunGrandpaVoter tt)].

Lemma authority_starts : start (H := substrate_ref true) Libp2p authority_config = Ok authority_tasks.
Proof. reflexivity. Qed.

Lemma node_runs_these_tasks_witness :
  exists s tm1, partial (H := substrate_ref true) authority_config = Ok (s, tm1) /\
    map task_name (own tm1) = ["telemetry"%string] /\
    map task_name (own authority_tasks) = ["telemetry"; "offchain-workers-runner"; "aura"; "grandpa-voter"]%string.
Proof.
  destruct (node_runs_these_tasks (H := substrate_ref true) Libp2p authority_config _ authority_starts)
    as (s & tm1 & _ & _ & _ & _ & _ & t1 & _ & _ & _ & Hp & Ho & _ & _ & _ & _ & (t & -> & w & _ & ->) & _).
  exists s, tm1. split; [exact Hp|]. rewrite Ho. split; reflexivity.
Defined.

#[local] Instance command_types_ref : CommandTypes := {|
  RunCmd := unit; KeySubcommand := unit; BuildSpecCmd := unit; CheckBlockCmd := unit;
  ExportBlocksCmd := unit; ExportStateCmd := unit; ImportBlocksCmd := unit; PurgeChainCmd := unit;
  RevertCmd := unit; ChainInfoCmd := unit; PalletCmd := unit; BlockCmd := unit; StorageCmd := unit;
  OverheadCmd := unit; ExtrinsicCmd := unit; MachineCmd := unit; Runner := Configuration; CmdFuture := unit;
  Requirements := unit; InherentDataT := unit; InherentError := unit; Db := unit; StorageDb := unit |}.

#[local] Instance extensions_ref : FrameExtensions := {|
  Era := Z * Z;
  era_mortal p b := (p, b mod p);
  era_birth e n := (Z.max n e.2 - e.2) / e.1 * e.1 + e.2;
  implicit _ v sys ext :=
    let '(_, _, _, _, mkCheckEra e, _, _, _, _, _) := ext in
    let birth := (Z.max (block_number sys) e.2 - e.2) / e.1 * e.1 + e.2 in
    Some (tt, spec_version v, transaction_version v, block_hash sys 0, block_hash sys birth, tt, tt, tt, None, tt) |}.

#[local] Instance extensions_ref_laws : FrameExtensionsLaws.
Proof.
  split; [|done]. intros k p b n -> Hk Hb Hn. cbn. assert (0 < 2 ^ k) as Hp by lia.
  pose proof (Z.mod_pos_bound b (2 ^ k) Hp). pose proof (Z.mod_le b (2 ^ k) Hb Hp). rewrite Z.max_l by lia.
  assert (b = 2 ^ k * (b / 2 ^ k) + b mod 2 ^ k) as Hd by (apply Z.div_mod; lia).
  rewrite <- (Z.div_unique_pos (n - b mod 2 ^ k) (2 ^ k) (b / 2 ^ k) (n - b)); lia.
Qed.

#[local] Instance node_commands_ref : NodeCommands := {|
  create_runner _ _ := Ok authority_config; sync_run r f := f r;
  async_run r f := match f r with Ok _ => Ok tt | Err e => Err e end;
  run_node_until_exit r f := match f r with Ok _ => Ok tt | Err e => Err e end;
  runner_config := id; drive _ _ := Ok tt; until_exit _ := Ok tt; grandpa_revert _ _ := Ok tt;
  spec_name_of _ := "Development"%string; expose_db := id; expose_storage := id;
  benchmark_client _ := mkBenchmarkClient (fun _ => Some zeros32) zeros32 0; reference_hardware := tt;
  inherent_data_new := tt; provide_inherent_data _ _ := Ok tt; show_inherent_error _ := EmptyString;
  key_run _ _ := Ok tt; build_spec_run _ _ _ := Ok tt; check_block_run _ _ _ := tt; export_blocks_run _ _ _ := tt;
  export_state_run _ _ _ := tt; import_blocks_run _ _ _ := tt; purge_chain_run _ _ := Ok tt; revert_run _ _ _ _ := tt;
  chain_info_run _ _ := Err (Failed 1); pallet_run_with_spec _ _ := Ok tt; block_run _ _ := Ok tt;
  storage_run _ _ _ _ _ := Ok tt; overhead_run _ _ _ _ _ _ _ := Ok tt; extrinsic_run _ _ _ _ _ := Ok tt;
  machine_run _ _ _ := Ok tt |}.

#[local] Instance node_commands_ref_laws : NodeCommandsLaws.
Proof. split; intros r f; [done|..]; unfold async_run, run_node_until_exit; cbn; by destruct (f r) as [[]|]. Qed.

Abbreviation command sub := {| subcommand := Some sub; run_cmd := tt |}.
Abbreviation node_ref opens := (run (H := substrate_ref opens) tt (fun _ m => m) (fun _ => []) false).


#[local] Instance frame_types_ref : Apis.FrameTypes := {|
  Apis.Block := unit; Apis.Header := unit; Apis.Extrinsic := unit; Apis.OpaqueMetadata := unit;
  Apis.InclusionMode := unit; Apis.ApplyExtrinsicResult := unit; Apis.RtInherentData := unit;
  Apis.CheckInherentsResult := unit; Apis.TransactionSource := unit; Apis.TransactionValidity := unit;
  Apis.ViewFunctionId := unit; Apis.ViewFunctionError := unit; Apis.KeyTypeId := unit; Apis.EquivocationProof := unit;
  Apis.OpaqueKeyOwnershipProof := unit; Apis.AnyCall := unit; Apis.DispatchInfo := unit; Apis.FeeDetails := unit;
  Apis.BenchmarkDetails := unit; Apis.StorageInfo := unit; Apis.StorageKey := unit; Apis.BenchmarkConfig := unit;
  Apis.BenchmarkBatch := unit; Apis.UpgradeChecks := unit; Apis.TryStateSelect := unit; Apis.TryError := unit |}.

#[local] Instance frame_runtime_ref : Apis.FrameRuntime unit := {|
  Apis.executive_execute_block _ := Some; Apis.executive_initialize_block _ s := Some (tt, s);
  Apis.executive_apply_extrinsic _ s := (tt, s); Apis.executive_finalize_block s := (tt, s);
  Apis.executive_validate_transaction _ _ _ _ := tt; Apis.executive_offchain_worker _ s := s;
  Apis.executive_try_runtime_upgrade _ s := (Err tt, s); Apis.executive_try_execute_block _ _ _ _ s := (Err tt, s);
  Apis.runtime_metadata := tt; Apis.runtime_metadata_at_version _ := None; Apis.runtime_metadata_versions := [];
  Apis.runtime_execute_view_function _ _ _ := Err tt; Apis.create_extrinsics _ _ := []; Apis.check_extrinsics _ _ _ := tt;
  Apis.aura_authorities_of _ := []; Apis.session_keys_generate _ := []; Apis.decode_into_raw_public_keys _ := None;
  Apis.grandpa_authorities_of _ := []; Apis.grandpa_current_set_id _ := 0; Apis.system_account_nonce _ _ := 0;
  Apis.payment_query_info _ _ _ := tt; Apis.payment_query_fee_details _ _ _ := tt;
  Apis.payment_query_call_info _ _ _ := tt; Apis.payment_query_call_fee_details _ _ _ := tt;
  Apis.payment_weight_to_fee _ := 0; Apis.payment_length_to_fee _ := 0; Apis.bench_benchmarks _ _ := tt;
  Apis.all_storage_info := []; Apis.whitelisted_storage_keys := []; Apis.add_benchmark _ _ _ := Ok |}.

(** A block authored at 1 700 000 000 000 ms is one of slot 283 333 333. *)
Lemma authors_and_importers_agree_witness :
  exists p, start_aura (Substrate := substrate_ref true) p = Ok tt /\
    sa_create_inherent_data_providers p zeros32 1700000000000 = Ok (mkInherents 283333333 1700000000000).
Proof.
  destruct (authors_and_importers_agree (H := substrate_ref true) (S := unit) Libp2p authority_config authority_tasks
              (mkTask (T := types_ref) "aura" (Some "block-authoring"%string) true true (RunAura (T := types_ref) tt)) tt)
    as (p & Hp & Hi).
  - reflexivity.
  - reflexivity.
  - reflexivity.
  - exact authority_starts.
  - apply list_elem_of_filter. split; [reflexivity|]. do 7 right. left.
  - reflexivity.
  - exists p. split; [exact Hp|]. destruct (Hi zeros32 1700000000000 tt) as (-> & _). reflexivity.
Defined.

(** An extrinsic signed at block 5000 is accepted in block 7000. *)
Abbreviation sys_7000 := (mkSystem 7000 (fun n => if (n =? 0) || ((4600 <=? n) && (n <? 7000)) then zeros32 else [])).

Lemma benchmark_extrinsics_are_accepted_witness :
  exists xt i, create_benchmark_extrinsic tt (fun _ m => m) (fun _ => [Byte.x01])
      (mkBenchmarkClient (fun _ => Some zeros32) zeros32 5000) Bob (SystemRemark []) 0 = Some xt /\
    implicit (VERSION tt) sys_7000 (xt_extension xt) = Some i /\ xt_signature xt = [Byte.x01].
Proof.
  destruct (benchmark_extrinsics_are_accepted tt (fun _ m => m) (fun _ => [Byte.x01])
              (fun _ m sg => bool_decide (sg = m)) (mkBenchmarkClient (fun _ => Some zeros32) zeros32 5000)
              (fun _ => zeros32) Bob (SystemRemark []) 0 sys_7000)
    as (xt & i & Hx & _ & _ & Hi & Hv).
  - intros k m. by apply bool_decide_eq_true_2.
  - reflexivity.
  - reflexivity.
  - cbn. unfold u32_max. lia.
  - split; [reflexivity|]. intros n Hn Hc. cbn in *. unfold BlockHashCount in Hc.
    rewrite (proj2 (Z.leb_le 4600 n)), (proj2 (Z.ltb_lt n 7000)) by lia. by rewrite orb_true_r.
  - rewrite period_value. cbn. lia.
  - exists xt, i. split; [exact Hx|]. split; [exact Hi|]. by apply bool_decide_eq_true_1 in Hv.
Defined.
End Reference.
End ServiceProperties.
