(* ===== verification/DoorProperties.v ===== *)
(** * DoorProperties: what the registration door guarantees

    Requests and their framing, the tokens of prepared registrations, the registration
    of a stranger from key to keystore, and where its key and its money can get lost. *)

From stdpp Require Import base gmap list strings pretty.
From Stdlib Require Import ZArith NArith Lia.
From S2P Require Import Prelude RustStr Frame Ledger Escrow AgentRegistry RegistryTheory Merkle VectorDb Template Runtime Weights Offchain Keystore RegistryClient RegistryClientTheory Cli CliTheory Door DoorTheory RegisterMe RegisterMeTheory DoorSession Solvency Scenario DoorScenario.

Local Open Scope arth_scope.

Module DoorProperties.
Import Door DoorTheory DoorSession.

Section Requests.
Context {Net : Type} `{DoorNode Net} `{SerdeJson} `{Hex} `{Blake2} `{Sr25519}.
Context (env : Env).
Implicit Types s : State (Net := Net).

(** C16: how the network cuts a request does not matter: when the head of a request
    is ASCII and announces the length of its body, the body is UTF-8 and the whole is at
    most 64 KiB, the door handles
    exactly that request, whatever pieces it arrives in and whatever the build
    profile. *)
Theorem fragmentation_does_not_matter oc head body conn s :
  framed head body -> forallb is_ascii head = true -> from_utf8_lossy body = body ->
  Forall (fun c : str => c <> []) conn -> concat conn = head ++ CRLF2 ++ body ->
  serve_one env oc (Some conn) s = (r <- handle env (head ++ CRLF2 ++ body) ;; ret (Some (respond r))) s.
Proof. apply serve_request. Qed.

(** C40: the memory of a request is bounded: when no read returns more than the 4096
    bytes of the buffer, what the loop hands on has at most 65536 + 4096 bytes, whatever
    the client sends; and without overflow checks the loop always hands something on. *)
Theorem requests_are_bounded oc conn :
  Forall (fun c : str => (length c <= 4096)%nat) conn ->
  (forall buf, read_loop oc conn [] = Ok buf -> Z.of_nat (length buf) <= 65536 + 4096) /\
  exists buf, read_loop false conn [] = Ok buf.
Proof.
  intros Hc. split.
  - intros buf Hb. eapply read_loop_bounded in Hb; [|exact Hc|cbn; lia]. unfold MAX_REQUEST in Hb. lia.
  - pose proof (read_loop_release conn []) as Hr. destruct (read_loop false conn []) as [buf|e]; [by exists buf|done].
Qed.

(** One request can stop the door: with overflow checks, a head that announces a
    body so long that the end of the request exceeds a [usize] panics the server, and
    no later connection is served. *)
Theorem huge_content_length_stops_the_door t conn later i s :
  t <> [] -> position CRLF2 t = Some i -> u64_max < Z.of_nat i + 4 + content_length (take i t) ->
  serve env true (Some (t :: conn) :: later) s = (Err Panicked, s).
Proof.
  intros Ht Hp Hov. cbn [serve]. unfold bind, serve_one. by rewrite (read_loop_overflow t conn i Ht Hp Hov).
Qed.

(** C13: a token is spent once: a finish request that is answered with success opened one
    connection to the node, asked for one dry run and submitted, once, the extrinsic kept
    under its token with the account and the signature it carries; the node is left as
    that submission left it, the answer carries its hash, every other prepared extrinsic
    is kept, and the same request is refused afterwards without any effect. *)
Theorem a_token_is_spent_once req s r s' :
  finish_route env req s = (Ok r, s') -> resp_status r = "200 OK" ->
  exists v partial dry h n1 n2, from_str (body_of req) = Some v /\ pending s !! text v "token" = Some partial /\
    let x := sign_with_address_and_signature partial (hex_field v "account") (hex_field v "signature") in
    rpc_from_url (var_or env "CHAIN_WS" (bstr "ws://127.0.0.1:9944")) (node s) = (Ok tt, n1) /\
    system_dryRun (bstr "0x" ++ bstr (hex_encode (encoded x))) n1 = (dry, n2) /\
    submit_extrinsic x n2 = (Ok h, node s') /\
    r = submitted h dry /\ pending s' = delete (text v "token") (pending s) /\
    exists body, finish_route env req s' = (Ok (mkResponse "400 Bad Request" body), s').
Proof.
  intros Hf Hst. destruct (finish_inv env req s r s' Hf Hst) as (v & partial & dry & h & n1 & n2 & n' & Hv & Hp & Hc & Hd & Hs & -> & ->).
  exists v, partial, dry, h, n1, n2. cbv zeta. split_and!; try done. apply (finish_unknown env req _ v Hv). apply lookup_delete_eq.
Qed.

(** Prepared registrations get overwritten: tokens are numbered by the number of
    extrinsics pending, so that after any other registration is finished the next
    prepare request is given the token of the newest one still pending, and replaces
    it. *)
Theorem prepared_registrations_are_overwritten req1 req2 s r1 s1 v1 v2 last partial n k :
  finish_route env req1 s = (Ok r1, s1) -> resp_status r1 = "200 OK" ->
  from_str (body_of req1) = Some v1 -> text v1 "token" <> token_of k ->
  size (pending s) = S k -> pending s !! token_of k = Some last ->
  from_str (body_of req2) = Some v2 -> prepare_complete v2 ->
  create_partial_signed (hex_field v2 "account") (prepare_call v2) (node s1) = (Ok partial, n) ->
  exists s2, prepare_route req2 s1 =
      (Ok (ok_200 [("token", json_string (token_of k));
                   ("payload", json_string (bstr (hex_encode (signer_payload partial))))]), s2) /\
    pending s1 !! token_of k = Some last /\ pending s2 !! token_of k = Some partial /\
    size (pending s2) = size (pending s1).
Proof.
  intros Hf Hst Hv1 Ht Hsz Hl Hv2 Hc Hp.
  destruct (finish_inv env req1 s r1 s1 Hf Hst) as (v & p0 & dry & h & n0 & n1 & n' & Hv & Hp0 & _ & _ & _ & _ & ->). simplify_eq.
  assert (size (delete (text v1 "token") (pending s)) = k) as Hk.
  { rewrite map_size_delete, Hp0. lia. }
  exists (mkState (<[token_of k := partial]> (delete (text v1 "token") (pending s))) n).
  assert (delete (text v1 "token") (pending s) !! token_of k = Some last) as Hl' by (by rewrite lookup_delete_ne).
  split_and!; cbn.
  - rewrite (prepare_run req2 v2 _ partial n Hv2 Hc Hp). cbn. by rewrite Hk.
  - done.
  - apply lookup_insert_eq.
  - rewrite map_size_insert_Some; [done|by eexists].
Qed.
End Requests.

(** ** A stranger registers *)

Section Stranger.
Import Runtime RegistryClientTheory.
Context {L : Type} `{ReservableCurrency L} `{Blake2} `{ScaleCodec} `{MlDsaSigner} `{RsMerkle}.
Context `{!Blake2Laws} `{!ScaleCodecLaws} `{!MlDsaSignerLaws}.
Context `{SerdeJson} `{!SerdeJsonLaws} `{Hex} `{!HexLaws} `{!HexTextLaws}.
Context `{Keystore.Crypto} `{!Keystore.CryptoLaws} `{Sr25519} `{HttpClient} `{!HttpClientLaws}.
Context `{DoorNode (Chain L)}.
Context (sr25519_sign : Keypair -> bytes -> bytes) (debug_path : string -> str) (door_env env : Env) (oc : bool).

(** The registration request. *)
Definition register_json (key : SigningKey) (sys : System) (b : BlockNumber) : JValue :=
  json_object [("pubkey", json_string (bstr (hex_encode (pubkey_of key))));
               ("signature", json_string (bstr (hex_encode (signature_over key (account_of dev_alice) sys b))));
               ("signed_at_block", json_number b); ("label", json_string (var_or env "LABEL" (bstr "me")))].

(** A door over the chain in state [st], whose node answers with block [b]. *)
Record door_ready (st : State (Net := Chain L)) (b : BlockNumber) : Prop := {
  dr_submit : sign_and_submit (Net := Chain L) =
    chain_submit Configs.registry_config Configs.vector_db_config Configs.usize_bits;
  dr_genesis : genesis_hash (node st) = block_hash (w_system (world (node st))) 0;
  dr_latest : at_latest (node st) = (Ok (b, block_hash (w_system (world (node st))) b), node st);
  dr_hash0 : len32 (block_hash (w_system (world (node st))) 0);
  dr_hash : len32 (block_hash (w_system (world (node st))) b);
  dr_alice : len32 (account_of dev_alice);
  dr_block : in_u32 b /\ b <> 0 /\ b <= block_number (w_system (world (node st))) /\
             block_number (w_system (world (node st))) - b <= 64 }.

Lemma challenge_request st b (p : Process (State (Net := Chain L))) :
  door_ready st b -> net (machine p) = st -> env "DOOR" = None -> env "DOOR_URL" = None ->
  sends (bstr "GET") (bstr "/v1/register/challenge") [] ->
  RegisterMe.http (curl_door door_env oc) env "GET" (bstr "/v1/register/challenge") [] p =
    (Ok (to_string (json_object
       [("genesis", json_string (bstr (hex_encode (block_hash (w_system (world (node st))) 0))));
        ("controller", json_string (bstr (hex_encode (account_of dev_alice))));
        ("block", json_number b);
        ("hash", json_string (bstr (hex_encode (block_hash (w_system (world (node st))) b))))])), p).
Proof.
  intros [_ Hg Hl _ _ _ _] <- Hd Hu Hs. rewrite <- Hg.
  apply (challenge_answered door_env oc env b _ p Hl Hd Hu Hs to_string_utf8).
Qed.

(** The chain after the registration the door submits. *)
Definition registered_by_door (key : SigningKey) (l' : L) (s : Chain L) : Chain L :=
  set_registry (RegistryTheory.registered_state (w_system (world s)) (account_of dev_alice) (pubkey_of key) 1
    (bstr "door") (var_or env "LABEL" (bstr "me")) l' (chain_registry s)) s.

(** The registry has room for [key] and the door can pay for it. *)
Record can_register (key : SigningKey) (l' : L) (s : Chain L) : Prop := {
  cr_free : Registry.agent_profiles (chain_registry s) !! did_of key = None;
  cr_room : (length (Registry.controller_dids (chain_registry s) (account_of dev_alice)) < 64)%nat;
  cr_deposit : reserve (account_of dev_alice) (Registry.RegistrationDeposit Configs.registry_config)
                 (w_balances (world s)) = (Ok tt, l') }.

Lemma register_submission key st b l' :
  door_ready st b -> can_register key l' (node st) ->
  RegistryClient.submit_signed_registration sign_and_submit (account_of dev_alice) (pubkey_of key)
    (signature_over key (account_of dev_alice) (w_system (world (node st))) b) b 1 (bstr "door")
    (var_or env "LABEL" (bstr "me")) (node st) =
  (Ok (did_of key), registered_by_door key l' (node st)).
Proof.
  intros [Hsub _ _ Hh0 Hh Ha (_ & _ & Hb & Hw)] [Hf Hr Hd].
  unfold RegistryClient.submit_signed_registration, RegistryClient.submit_and_find, bind, lift_err. rewrite Hsub.
  pose proof (registration_submits (account_of dev_alice) key 1 (bstr "door") (var_or env "LABEL" (bstr "me"))
    (node st) b l' Hh0 Hh Ha Hb Hw Hf Hr Hd) as Hs.
  unfold blake2_256 in Hs. by rewrite Hs.
Qed.

Definition registered_answer (key : SigningKey) : Response :=
  ok_200 [("did", json_string (bstr (hex_encode (did_of key)))); ("status", json_string (bstr "submitted"))].

Lemma register_routed key st b l' req :
  door_ready st b -> can_register key l' (node st) ->
  pubkey_of key <> [] -> signature_over key (account_of dev_alice) (w_system (world (node st))) b <> [] ->
  from_str (body_of req) = Some (register_json key (w_system (world (node st))) b) ->
  register_route req st = (Ok (registered_answer key), mkState (pending st) (registered_by_door key l' (node st))).
Proof.
  intros Hdr Hcr Hpk Hsg Hv. pose proof (register_submission key st b l' Hdr Hcr) as Hsub.
  unfold register_json in Hv. set (fs := [("pubkey", _); _; _; _]) in Hv.
  assert (NoDup fs.*1) as Hn by (apply (bool_decide_unpack (NoDup fs.*1)); done).
  destruct (dr_block _ _ Hdr) as (Hb32 & Hb0 & _).
  assert (hex_field (json_object fs) "pubkey" = pubkey_of key) as Hf1 by (apply hex_field_ok; [done|set_solver]).
  assert (hex_field (json_object fs) "signature" = signature_over key (account_of dev_alice) (w_system (world (node st))) b)
    as Hf2 by (apply hex_field_ok; [done|set_solver]).
  assert (number (json_object fs) "signed_at_block" mod 2 ^ 32 = b) as Hf3.
  { rewrite (number_field fs _ b); [|done|set_solver|unfold in_u32, in_u64, u32_max, u64_max in *; lia].
    apply Z.mod_small. unfold in_u32, u32_max in *. lia. }
  assert (text (json_object fs) "label" = var_or env "LABEL" (bstr "me")) as Hf4 by (apply text_field; [done|set_solver]).
  eapply register_run; [exact Hv|rewrite Hf1; done|rewrite Hf2; done|rewrite Hf3; done|].
  rewrite Hf1, Hf2, Hf3, Hf4. exact Hsub.
Qed.

Lemma register_request key st b l' (p : Process (State (Net := Chain L))) :
  door_ready st b -> can_register key l' (node st) -> net (machine p) = st ->
  env "DOOR" = None -> env "DOOR_URL" = None ->
  pubkey_of key <> [] -> signature_over key (account_of dev_alice) (w_system (world (node st))) b <> [] ->
  sends (bstr "POST") (bstr "/v1/register") (to_string (register_json key (w_system (world (node st))) b)) ->
  RegisterMe.http (curl_door door_env oc) env "POST" (bstr "/v1/register")
    (to_string (register_json key (w_system (world (node st))) b)) p =
  (Ok (resp_body (registered_answer key)),
   mkProcess (mkMachine (files (machine p)) (mkState (pending st) (registered_by_door key l' (node st)))) (stdout p)).
Proof.
  intros Hdr Hcr <- Hd Hu Hpk Hsg Hs.
  apply (post_run door_env oc env _ _ p (registered_answer key) _ Hd Hu Hs); [by apply (bool_decide_unpack (_ ∉ _))| |done|apply to_string_utf8].
  intros req Hline Hbody. unfold handle. rewrite Hline. by apply (register_routed _ _ b).
Qed.

End Stranger.

(** ** A stranger with an account of its own *)

Section OwnController.
Context {Net : Type} `{SerdeJson} `{Hex} `{!HexLaws} `{!HexTextLaws} `{Blake2} `{ScaleCodec} `{MlDsaSigner}.
Context `{Keystore.Crypto} `{Sr25519}.
Context (curl : list str -> Net -> option (bool * str) * Net).
Context (sr25519_sign : Keypair -> bytes -> bytes) (debug_path : string -> str) (env : Env).
Context (own : env "OWN_CONTROLLER" = Some (bstr "1")).

Abbreviation stranger := (RegisterMe.main curl sr25519_sign debug_path env).

(** The file [f] of directory [d]. *)
Definition stored (p : Process Net) (d f : string) : option bytes := files (machine p) !! d ≫= lookup f.

Lemma stored_created p p1 dir d f :
  RegisterMe.on_disk (Fs.create_dir_all dir) p = (Ok tt, p1) -> stored p1 d f = stored p d f.
Proof.
  unfold RegisterMe.on_disk, Fs.create_dir_all. intros [= <-]. unfold stored. cbn.
  destruct (decide (d = dir)) as [->|Hd]; [|by rewrite fs_lookup_insert_ne].
  rewrite fs_lookup_insert. cbn. by destruct (files (machine p) !! dir).
Qed.

(** What a stranger with an account of its own loses: the seed of the funded
    account and the key are written only after the door has answered the finish
    request, so that if this request does not succeed, no file was created or
    changed, whatever was funded and submitted before. *)
Theorem unanswered_finish_loses_the_account key seed rng1 rng2 p d f :
  (forall body q a q', RegisterMe.http curl env "POST" (bstr "/v1/finish") body q <> (Ok a, q')) ->
  stored (stranger key seed rng1 rng2 p).2 d f = stored p d f.
Proof.
  intros Hf. unfold RegisterMe.main.
  match goal with |- stored (bind ?m ?k p).2 _ _ = _ => unfold bind at 1; destruct (m p) as [[[]|e] p1] eqn:E end.
  2: { by unfold RegisterMe.on_disk in E. }
  erewrite <- (stored_created p p1 _ d f E). unfold stored. do 2 f_equal.
  match goal with |- files (machine (?m p1).2) = _ => enough (RegisterMeTheory.KeepsFiles m) as Hk by apply Hk end.
  repeat (apply RegisterMeTheory.bind_keeps; [apply _|intros ?]; cbv zeta). destruct a1 as [block challenge].
  rewrite bool_decide_eq_true_2 by done. by apply RegisterMeTheory.own_controller_keeps.
Qed.

(** The account of a stranger is kept in the clear: after a run that ends without
    an error and got past the prepare request, [controller.seed] in the keystore
    directory gives the account to anybody who can read it, without the passphrase the
    key files beside it need; it is what the vector client takes as
    [CONTROLLER_SEED]. *)
Theorem controller_seed_in_the_clear key s rng1 rng2 dir p p' :
  env "KEYSTORE_DIR" = Some (bstr dir) -> len32 s ->
  stranger key (Some s) rng1 rng2 p = (Ok tt, p') ->
  (forall d f, stored p' d f = stored p d f) \/
  exists content account, stored p' dir "controller.seed" = Some content /\ from_secret_key s = Some account /\
    forall env' (q : Process Net), env' "CONTROLLER_SEED" = Some content ->
      VectorCli.signer_from_env env' q = (Ok account, q).
Proof.
  intros Hdir Hs (? & p1 & E & Hr)%bind_ok_inv. destruct x. cbv zeta in Hr. rewrite Hdir, show_bstr in Hr.
  pose proof (fun d f => stored_created p p1 _ d f E) as Hc. clear E.
  do 2 (apply RegisterMeTheory.bind_kept in Hr as (? & ? & Hk1 & Hr); [|apply _]; unfold stored in Hc; rewrite <- Hk1 in Hc; clear Hk1).
  apply RegisterMeTheory.bind_kept in Hr as ([block challenge] & ? & Hk & Hr); [|apply _]. rewrite <- Hk in Hc.
  rewrite bool_decide_eq_true_2 in Hr by done.
  apply RegisterMeTheory.own_controller_seed in Hr as [Hr|(s' & account & [= <-] & Ha & Hf)].
  - left. intros d f. unfold stored. by rewrite <- Hc, Hr.
  - right. exists (bstr (hex_encode s)), account. split_and!; [done..|]. intros env' q He.
    unfold VectorCli.signer_from_env. rewrite He, trim_dark by apply hex_dark.
    rewrite bool_decide_eq_false_2 by (intros Hn%(f_equal length); rewrite hex_text_length, Hs in Hn; done). cbn [negb].
    apply (signer_of_hex s account q Hs Ha).
Qed.
End OwnController.

(** The default funding is enough: with [FUND_AMOUNT] unset the door gives an
    account what registering costs, the deposit and the fee of a registration of up to
    64 KiB whose extrinsic has a base weight of up to a thousandth of a second, and
    leaves at least the existential deposit. *)
Theorem default_funding_pays_for_registration (env : Env) db base len pubkey sg at_ caps meta label :
  env "FUND_AMOUNT" = None -> 0 <= ref_time base <= 1000000000 -> 0 <= len <= MAX_REQUEST ->
  Registry.RegistrationDeposit Configs.registry_config +
    RuntimeWeights.inclusion_fee db base len (Runtime.CallRegistry (Registry.RegisterAgent pubkey sg at_ caps meta label)) +
    Configs.EXISTENTIAL_DEPOSIT <= fund_amount env.
Proof.
  intros He Hb Hl. unfold fund_amount. rewrite He. unfold RuntimeWeights.inclusion_fee, MAX_REQUEST in *. cbn.
  unfold RuntimeWeights.weight_to_fee, RuntimeWeights.length_to_fee. cbn. unfold Configs.EXISTENTIAL_DEPOSIT, Configs.UNIT, Configs.MILLI_UNIT, FUND_DEFAULT. lia.
Qed.

(** ** Witnesses *)

Import Scenario Scenario.Instances DoorScenario.
#[local] Existing Instance hex_ref.
#[local] Existing Instance hex_ref_laws.
#[local] Existing Instance hex_ref_text.
#[local] Existing Instance json_ref.
#[local] Existing Instance json_ref_laws.
#[local] Existing Instance keypair_ref.
#[local] Existing Instance tally_node.

Definition head2 : str := http_head (bstr "POST") (bstr "/v1/fund") (bstr "Content-Length: 2").
Definition body2 : str := bstr "{}".
Definition idle : State (Net := nat) := mkState ∅ 0%nat.

Lemma fragmentation_does_not_matter_witness :
  serve_one no_env true (Some ((fun x => [x]) <$> (head2 ++ CRLF2 ++ body2))) idle =
  serve_one no_env false (Some [head2 ++ CRLF2 ++ body2]) idle.
Proof.
  assert (framed head2 body2) as Hf by (split; [|split]; vm_compute; congruence).
  etransitivity.
  - apply (fragmentation_does_not_matter no_env true head2 body2 _ idle Hf eq_refl eq_refl); [|reflexivity].
    by apply Forall_fmap, Forall_true.
  - symmetry. apply (fragmentation_does_not_matter no_env false head2 body2 _ idle Hf eq_refl eq_refl); [|reflexivity].
    by repeat constructor.
Defined.

Definition flood : list str := replicate 20 (replicate 4096 Byte.x41).
Lemma requests_are_bounded_witness : exists buf, read_loop false flood [] = Ok buf /\ Z.of_nat (length buf) <= 69632.
Proof.
  destruct (requests_are_bounded false flood) as [Hb [buf Hbuf]].
  - apply Forall_replicate. rewrite length_replicate. lia.
  - exists buf. exact (conj Hbuf (Hb buf Hbuf)).
Defined.

Definition huge_request : str := bstr "content-length: 18446744073709551615" ++ CRLF2.
Lemma huge_content_length_stops_the_door_witness :
  serve no_env true [Some [huge_request]; Some [head2 ++ CRLF2 ++ body2]] idle = (Err Panicked, idle).
Proof.
  refine (huge_content_length_stops_the_door no_env huge_request [] _ 36 idle _ _ _); [discriminate|reflexivity|].
  vm_compute. reflexivity.
Defined.

Definition finish_json (token : str) : JValue :=
  json_object [("token", json_string token); ("account", json_string (bstr (hex_encode alice)));
               ("signature", json_string (bstr (hex_encode (alice ++ bob))))].
Definition prepared : (AccountId * Runtime.RuntimeCall) := (alice, Runtime.CallTemplate Template.CauseError).
(** Two strangers are between prepare and finish. *)
Definition busy : State (Net := nat) :=
  mkState (<[token_of 0 := prepared]> {[token_of 1 := (bob, snd prepared)]}) 0%nat.
Definition finished : State (Net := nat) := (finish_route no_env (bare_request (finish_json (token_of 0))) busy).2.

Lemma finish_answered :
  exists r, finish_route no_env (bare_request (finish_json (token_of 0))) busy = (Ok r, finished) /\ resp_status r = "200 OK".
Proof.
  assert (match finish_route no_env (bare_request (finish_json (token_of 0))) busy with
          | (Ok r, _) => resp_status r | _ => EmptyString end = "200 OK") as Hs by (vm_compute; reflexivity).
  unfold finished. destruct (finish_route _ _ busy) as [[r|e] s']; [|discriminate]. by exists r.
Qed.

Lemma a_token_is_spent_once_witness :
  pending finished = delete (token_of 0) (pending busy) /\
  exists body, finish_route no_env (bare_request (finish_json (token_of 0))) finished =
    (Ok (mkResponse "400 Bad Request" body), finished).
Proof.
  destruct finish_answered as (r & Hr & Hs).
  destruct (a_token_is_spent_once no_env _ busy r finished Hr Hs) as (v & partial & dry & h & n1 & n2 & Hv & _ & _ & _ & _ & _ & Ho & Hb).
  rewrite bare_request_body in Hv. injection Hv as <-. split; [exact Ho|exact Hb].
Defined.

Definition prepare_json : JValue :=
  json_object [("account", json_string (bstr (hex_encode carol))); ("pubkey", json_string (bstr (hex_encode key_r)));
               ("signature", json_string (bstr (hex_encode key_q))); ("signed_at_block", json_number 100);
               ("label", json_string (bstr "carol"))].

Lemma prepared_registrations_are_overwritten_witness :
  exists s2, pending finished !! token_of 1 = Some (bob, snd prepared) /\
    pending s2 !! token_of 1 = Some (carol, prepare_call prepare_json).
Proof.
  destruct finish_answered as (r & Hr & Hs).
  destruct (prepared_registrations_are_overwritten no_env _ (bare_request prepare_json) busy r finished
    (finish_json (token_of 0)) prepare_json (bob, snd prepared) (carol, prepare_call prepare_json) 1%nat 1%nat Hr Hs
    (bare_request_body _)) as (s2 & _ & H1 & H2 & _).
  - vm_compute. discriminate.
  - vm_compute. reflexivity.
  - reflexivity.
  - apply bare_request_body.
  - split_and!; vm_compute; congruence.
  - vm_compute. reflexivity.
  - exists s2. split; [exact H1|exact H2].
Defined.

(** *** The stranger *)

#[local] Existing Instance http_ref.
#[local] Existing Instance http_ref_laws.
#[local] Existing Instance toy_signer.
#[local] Existing Instance toy_signer_laws.
#[local] Existing Instance crypto_ref.
#[local] Existing Instance crypto_ref_laws.
#[local] Existing Instance node_ref.

Definition me_env : Env := fun name => if bool_decide (name = "KEYSTORE_DIR") then Some (bstr "keys") else None.
Definition doorstep : Process (State (Net := Runtime.Chain ledger)) := mkProcess (mkMachine ∅ (mkState ∅ start)) [].
Definition sk_me : SigningKey := key_p.
Definition me_key : bytes := checksum (bstr "dev-passphrase" ++ replicate 16 Byte.x11).

(** A door seen from outside: it counts the accounts it funded, and answers finish
    requests if [answers] says so. *)
Definition outside_door (answers : bool) (args : list str) (n : nat) : option (bool * str) * nat :=
  let path := drop (length DOOR) (default [] (args !! 3%nat)) in
  if starts_with (bstr "/v1/fund") path then (Some (true, to_string (json_object [])), S n)
  else if starts_with (bstr "/v1/register/challenge") path then
    (Some (true, to_string (json_object
       [("genesis", json_string (bstr (hex_encode zeros32))); ("controller", json_string (bstr (hex_encode alice)));
        ("block", json_number 100); ("hash", json_string (bstr (hex_encode zeros32)))])), n)
  else if starts_with (bstr "/v1/prepare") path then
    (Some (true, to_string (json_object [("token", json_string (token_of 0)); ("payload", json_string (bstr (hex_encode alice)))])), n)
  else (Some (answers, to_string (json_object [])), n).

Definition own_env : Env := fun name =>
  if bool_decide (name = "KEYSTORE_DIR") then Some (bstr "keys")
  else if bool_decide (name = "OWN_CONTROLLER") then Some (bstr "1") else None.
Definition salted : option bytes * option bytes := (Some (replicate 16 Byte.x11), Some (replicate 12 Byte.x22)).
Abbreviation own_run answers :=
  (RegisterMe.main (outside_door answers) sr25519_ref bstr own_env sk_me (Some bob) salted salted
    (mkProcess (mkMachine ∅ 0%nat) [])).

Lemma unanswered_finish_loses_the_account_witness :
  net (machine (own_run false).2) = 1%nat /\ forall d f, stored (own_run false).2 d f = None.
Proof.
  split; [vm_compute; reflexivity|]. intros d f.
  refine (unanswered_finish_loses_the_account (outside_door false) sr25519_ref bstr own_env eq_refl sk_me (Some bob)
            salted salted (mkProcess (mkMachine ∅ 0%nat) []) d f _).
  intros body q a q'. unfold RegisterMe.http, bind, call. cbn. discriminate.
Defined.

Lemma own_run_answered : own_run true = (Ok tt, (own_run true).2).
Proof.
  assert (is_ok (own_run true).1 = true) as Hr by (vm_compute; reflexivity). by destruct (own_run true) as [[[]|e] p].
Qed.

Lemma own_run_stores : stored (own_run true).2 "keys" "controller.seed" <> None.
Proof. vm_compute. discriminate. Qed.

Lemma controller_seed_in_the_clear_witness :
  exists content account, stored (own_run true).2 "keys" "controller.seed" = Some content /\ from_secret_key bob = Some account /\
    forall env' (q : Process nat), env' "CONTROLLER_SEED" = Some content -> VectorCli.signer_from_env env' q = (Ok account, q).
Proof.
  destruct (controller_seed_in_the_clear (outside_door true) sr25519_ref bstr own_env eq_refl sk_me bob salted salted "keys"
    (mkProcess (mkMachine ∅ 0%nat) []) (own_run true).2 eq_refl eq_refl own_run_answered) as [Hs|Hs]; [|exact Hs].
  destruct (own_run_stores (Hs "keys" "controller.seed")).
Defined.

Lemma default_funding_pays_for_registration_witness :
  100 * Configs.UNIT + (1000000000 + 65536 + 750010000) + Configs.EXISTENTIAL_DEPOSIT <= FUND_DEFAULT.
Proof.
  refine (default_funding_pays_for_registration no_env (mkDbWeight 0 0) (from_parts 1000000000 0) 65536 key_p key_p 100 1 [] []
            eq_refl _ _); vm_compute; split; discriminate.
Defined.
End DoorProperties.
