(* ===== verification/OwnController.v ===== *)
(** * OwnController: registering with an account of one's own, end to end

    The [OWN_CONTROLLER] branch of [register-me] against the door: the stranger has a
    fresh account funded, asks for a challenge in its name, has the registration
    prepared, signs the payload and has it finished; then it stores its secrets. *)

From stdpp Require Import base gmap list strings.
From Stdlib Require Import ZArith NArith Lia Ascii.
From S2P Require Import Prelude RustStr Frame Ledger Escrow AgentRegistry RegistryTheory Merkle VectorDb Template Runtime Offchain Keystore RegistryClient RegistryClientTheory Cli CliTheory Door DoorTheory RegisterMe RegisterMeTheory DoorSession DoorProperties IdentityProperties Scenario DoorScenario.

Local Open Scope arth_scope.

Module OwnController.
Import Runtime RegistryClientTheory Door DoorTheory DoorSession DoorProperties.

(** What Substrate has an account sign: the payload of an extrinsic, or its hash if
    it is longer than 256 bytes. *)
Definition signed_bytes `{Blake2} (payload : bytes) : bytes :=
  if (256 <? length payload)%nat then blake2_256 payload else payload.

(** A node as its clients see it: the state of its best block, and the extrinsics in its
    transaction pool, as the account that signed and the call. *)
Record Node (L : Type) : Type := mkNode { chain : Chain L; pool : list (AccountId * RuntimeCall) }.
Arguments mkNode {L}.
Arguments chain {L} n.
Arguments pool {L} n.

Section Session.
Context {L : Type} `{ReservableCurrency L} `{Blake2} `{ScaleCodec} `{MlDsaSigner} `{RsMerkle}.
Context `{!Blake2Laws} `{!ScaleCodecLaws} `{!MlDsaSignerLaws}.
Context `{SerdeJson} `{!SerdeJsonLaws} `{Hex} `{!HexLaws} `{!HexTextLaws}.
Context `{Sr25519} `{HttpClient} `{!HttpClientLaws} `{DoorNode (Node L)}.
Context (sr25519_sign : Keypair -> bytes -> bytes) (door_env env : Env) (oc : bool).

Abbreviation submit :=
  (chain_submit (L := L) Configs.registry_config Configs.vector_db_config Configs.usize_bits).

(** What the transaction queue asks of an extrinsic besides its signature: the nonce,
    the mortality and the fees. *)
Context (queue_valid : Node L -> AccountId -> RuntimeCall -> Prop).

(** A node puts a valid extrinsic that was prepared for an account, and is signed by it,
    into its pool; the chain does not move. *)
Definition takes_signed : Prop :=
  forall kp c n x n1,
    create_partial_signed (account_of kp) c n = (Ok x, n1) -> queue_valid n1 (account_of kp) c ->
    exists h, submit_extrinsic (sign_with_address_and_signature x (account_of kp)
                (sr25519_sign kp (signed_bytes (signer_payload x)))) n1 =
      (Ok h, mkNode (chain n1) (pool n1 ++ [(account_of kp, c)])).

Context (key : SigningKey) (account : Keypair).
Abbreviation who := (account_of account).
Abbreviation account_hex := (bstr (hex_encode who)).
Abbreviation label := (var_or env "LABEL" (bstr "me")).

(** The requests. *)
Definition fund_json : JValue := json_object [("account", json_string account_hex)].
Definition challenge_path : str := bstr "/v1/register/challenge?account=" ++ account_hex.
Definition prepare_json (now : System) (b : BlockNumber) : JValue :=
  json_object [("account", json_string account_hex); ("pubkey", json_string (bstr (hex_encode (pubkey_of key))));
               ("signature", json_string (bstr (hex_encode (signature_over key who now b))));
               ("signed_at_block", json_number b); ("label", json_string label)].
Definition finish_json (token : str) (x : PartialExtrinsic) : JValue :=
  json_object [("token", json_string token); ("account", json_string account_hex);
               ("signature", json_string (bstr (hex_encode (sr25519_sign account (signed_bytes (signer_payload x))))))].
Definition registration (now : System) (b : BlockNumber) : RuntimeCall :=
  CallRegistry (Registry.RegisterAgent (pubkey_of key) (signature_over key who now b) b 1 (bstr "door") label).

Abbreviation sys_of n := (w_system (world (chain n))).

(** The node answers with block [b] as its latest. *)
Record latest_is (n : Node L) (b : BlockNumber) : Prop := {
  li_genesis : genesis_hash n = block_hash (sys_of n) 0;
  li_latest : at_latest n = (Ok (b, block_hash (sys_of n) b), n);
  li_hash0 : len32 (block_hash (sys_of n) 0);
  li_hash : len32 (block_hash (sys_of n) b);
  li_block : in_u32 b /\ b <> 0 }.

(** The door and its node: [n1] after the funding, with block [b] the latest and staying
    there for the session; the extrinsic [x] is prepared under a token that is free, and
    is valid. *)
Record own_ready (st : State (Net := Node L)) (n1 : Node L) (b : BlockNumber) (x : PartialExtrinsic) (dry : str) : Prop := {
  ow_account : len32 who;
  ow_fund : transfer_keep_alive (account_of dev_alice) who (fund_amount door_env) (node st) = (Ok tt, n1);
  ow_latest : latest_is n1 b;
  ow_pubkey : pubkey_of key <> [];
  ow_signature : signature_over key who (sys_of n1) b <> [];
  ow_prepared : create_partial_signed who (registration (sys_of n1) b) n1 = (Ok x, n1);
  ow_token : pending st !! token_of (size (pending st)) = None;
  ow_rpc : rpc_from_url (var_or door_env "CHAIN_WS" (bstr "ws://127.0.0.1:9944")) n1 = (Ok tt, n1);
  ow_dry : forall t, system_dryRun t n1 = (dry, n1);
  ow_taken : takes_signed;
  ow_valid : queue_valid n1 who (registration (sys_of n1) b);
  ow_signs : forall msg, length (sr25519_sign account msg) = 64%nat }.

(** A block [s] of the same chain, at most 64 blocks after [b], in which the account can
    register. *)
Record own_room (now : System) (b : BlockNumber) (l' : L) (s : Chain L) : Prop := {
  or_genesis : block_hash (w_system (world s)) 0 = block_hash now 0;
  or_block : block_hash (w_system (world s)) b = block_hash now b;
  or_window : b <= block_number (w_system (world s)) <= b + 64;
  or_free : Registry.agent_profiles (chain_registry s) !! did_of key = None;
  or_room : (length (Registry.controller_dids (chain_registry s) who) < 64)%nat;
  or_deposit : reserve who (Registry.RegistrationDeposit Configs.registry_config) (w_balances (world s)) = (Ok tt, l') }.

Definition registered (l' : L) (s : Chain L) : Chain L :=
  set_registry (RegistryTheory.registered_state (w_system (world s)) who (pubkey_of key) 1 (bstr "door") label l'
    (chain_registry s)) s.

Abbreviation Client := (Process (State (Net := Node L))).
Abbreviation on_network st p := (mkProcess (mkMachine (files (machine p)) st) (stdout p)).
Context (no_door : env "DOOR" = None) (no_url : env "DOOR_URL" = None).
Abbreviation http := (RegisterMe.http (curl_door door_env oc) env).

(** ** The four requests *)

Lemma fund_request st n1 b x dry (p : Client) :
  own_ready st n1 b x dry -> net (machine p) = st -> sends (bstr "POST") (bstr "/v1/fund") (to_string fund_json) ->
  http "POST" (bstr "/v1/fund") (to_string fund_json) p =
    (Ok (resp_body funded), on_network (mkState (pending st) n1) p).
Proof.
  intros Hr <- Hs. apply (post_run door_env oc env _ _ p funded _ no_door no_url Hs); [by apply (bool_decide_unpack (_ ∉ _))| |done|done].
  intros req Hline Hv. unfold handle. rewrite Hline.
  assert (hex_field fund_json "account" = who) as Hf.
  { unfold fund_json. apply hex_field_ok; [apply NoDup_singleton|set_solver]. }
  apply (fund_run door_env req fund_json); [done|rewrite Hf; apply (ow_account _ _ _ _ _ Hr)|].
  rewrite Hf. apply (ow_fund _ _ _ _ _ Hr).
Qed.

Definition challenge_answer (now : System) (b : BlockNumber) : JValue :=
  json_object [("genesis", json_string (bstr (hex_encode (block_hash now 0)))); ("controller", json_string account_hex);
               ("block", json_number b); ("hash", json_string (bstr (hex_encode (block_hash now b))))].

Lemma hex_no_newline b : Byte.x0a ∉ bstr (hex_encode b).
Proof.
  intros Hin%list_elem_of_In. pose proof (hex_text b) as Ht. eapply forallb_forall in Ht; [|exact Hin]. done.
Qed.

Lemma own_challenge_request st n1 b x dry (p : Client) :
  own_ready st n1 b x dry -> net (machine p) = mkState (pending st) n1 -> sends (bstr "GET") challenge_path [] ->
  http "GET" challenge_path [] p = (Ok (to_string (challenge_answer (sys_of n1) b)), p).
Proof.
  intros [Ha _ [Hg Hl _ _ _] _ _ _ _ _ _ _ _ _] Hp Hs.
  pose proof (challenge_account_run (net (machine p)) b (block_hash (sys_of n1) b) n1 who Ha) as Hc.
  rewrite Hp in Hc. specialize (Hc Hl). rewrite Hg in Hc.
  match type of Hc with _ = (Ok ?r, ?st1) =>
    rewrite (http_run door_env oc env "GET" _ [] p r st1 no_door no_url Hs eq_refl); [|clear Hs|done|apply to_string_utf8] end.
  - cbn [resp_body ok_200]. destruct p as [[fs n] out]. cbn in Hp. by subst n.
  - intros hdrs hd _. subst hd. unfold handle. rewrite Hp.
    rewrite (request_line (bstr "GET") challenge_path hdrs []); [exact Hc|by apply (bool_decide_unpack (_ ∉ _))|].
    unfold challenge_path. rewrite elem_of_app. intros [Hx|Hx]; [|by apply hex_no_newline in Hx].
    revert Hx. by apply (bool_decide_unpack (_ ∉ _)).
Qed.

Definition prepared_answer (st : State (Net := Node L)) (x : PartialExtrinsic) : JValue :=
  json_object [("token", json_string (token_of (size (pending st))));
               ("payload", json_string (bstr (hex_encode (signer_payload x))))].
Abbreviation waiting st x := (<[token_of (size (pending st)) := x]> (pending st)).

Lemma prepare_request st n1 b x dry (p : Client) :
  own_ready st n1 b x dry -> net (machine p) = mkState (pending st) n1 ->
  sends (bstr "POST") (bstr "/v1/prepare") (to_string (prepare_json (sys_of n1) b)) ->
  http "POST" (bstr "/v1/prepare") (to_string (prepare_json (sys_of n1) b)) p =
    (Ok (to_string (prepared_answer st x)), on_network (mkState (waiting st x) n1) p).
Proof.
  intros [Ha _ [_ _ _ _ [Hb32 Hb0]] Hpk Hsg Hc _ _ _ _ _ _] Hp Hs.
  eapply (post_run door_env oc env _ _ p (ok_200 _) _ no_door no_url Hs); [by apply (bool_decide_unpack (_ ∉ _))| |done|apply to_string_utf8].
  intros req Hline Hv. unfold handle. rewrite Hline, Hp. unfold prepare_json in Hv. set (fs := [("account", _); _; _; _; _]) in Hv.
  assert (NoDup fs.*1) as Hn by (apply (bool_decide_unpack (NoDup fs.*1)); done).
  assert (hex_field (json_object fs) "account" = who) as Hf0 by (apply hex_field_ok; [done|set_solver]).
  assert (hex_field (json_object fs) "pubkey" = pubkey_of key) as Hf1 by (apply hex_field_ok; [done|set_solver]).
  assert (hex_field (json_object fs) "signature" = signature_over key who (sys_of n1) b) as Hf2
    by (apply hex_field_ok; [done|set_solver]).
  assert (number (json_object fs) "signed_at_block" = b) as Hf3.
  { apply number_field; [done|set_solver|unfold in_u32, in_u64, u32_max, u64_max in *; lia]. }
  assert (text (json_object fs) "label" = label) as Hf4 by (apply text_field; [done|set_solver]).
  apply (prepare_run req (json_object fs) (mkState (pending st) n1) x n1 Hv).
  - unfold prepare_complete. rewrite Hf0, Hf1, Hf2, Hf3. by split_and!.
  - unfold prepare_call. rewrite Hf0, Hf1, Hf2, Hf3, Hf4. exact Hc.
Qed.

(** The pool after the session. *)
Definition queued (n1 : Node L) (b : BlockNumber) : Node L :=
  mkNode (chain n1) (pool n1 ++ [(who, registration (sys_of n1) b)]).

Lemma registration_taken st n1 b x dry :
  own_ready st n1 b x dry ->
  exists h, submit_extrinsic (sign_with_address_and_signature x who (sr25519_sign account (signed_bytes (signer_payload x)))) n1 =
    (Ok h, queued n1 b).
Proof. intros [_ _ _ _ _ Hc _ _ _ Ht Hv _]. by eapply Ht. Qed.

(** The registration in the pool is accepted by any block the account can register in. *)
Lemma registration_included n1 b l' s :
  len32 who -> latest_is n1 b -> own_room (sys_of n1) b l' s ->
  dispatch Configs.registry_config Configs.vector_db_config Configs.usize_bits (Signed who) (registration (sys_of n1) b) s =
    (Ok tt, registered l' s).
Proof.
  intros Ha [_ _ Hh0 Hh _] [Hg Hb Hw Hf Hroom Hd]. rewrite <- Hg in Hh0. rewrite <- Hb in Hh.
  assert (signature_over key who (sys_of n1) b = signature_over key who (w_system (world s)) b) as Hsig.
  { unfold signature_over. by rewrite Hg, Hb. }
  pose proof (registration_submits who key 1 (bstr "door") label s b l' Hh0 Hh Ha (proj1 Hw) ltac:(lia) Hf Hroom Hd) as Hs.
  unfold registration. rewrite Hsig. unfold chain_submit in Hs.
  destruct (dispatch _ _ _ _ _ s) as [[[]|e] s'] eqn:E; [|done]. injection Hs as _ ->. done.
Qed.

Lemma finish_request st n1 b x dry (p : Client) :
  own_ready st n1 b x dry -> net (machine p) = mkState (waiting st x) n1 ->
  sends (bstr "POST") (bstr "/v1/finish") (to_string (finish_json (token_of (size (pending st))) x)) ->
  exists h, http "POST" (bstr "/v1/finish") (to_string (finish_json (token_of (size (pending st))) x)) p =
    (Ok (resp_body (submitted h dry)), on_network (mkState (pending st) (queued n1 b)) p).
Proof.
  intros Hr Hp Hs. destruct (registration_taken _ _ _ _ _ Hr) as [h Hsub]. exists h.
  destruct Hr as [Ha _ _ _ _ _ Htok Hrpc Hdry _ _ Hsig].
  apply (post_run door_env oc env _ _ p (submitted h dry) _ no_door no_url Hs); [by apply (bool_decide_unpack (_ ∉ _))| |done|apply to_string_utf8].
  intros req Hline Hv. unfold handle. rewrite Hline, Hp. unfold finish_json in Hv. set (fs := [("token", _); _; _]) in Hv.
  assert (NoDup fs.*1) as Hn by (apply (bool_decide_unpack (NoDup fs.*1)); done).
  assert (text (json_object fs) "token" = token_of (size (pending st))) as Hf0 by (apply text_field; [done|set_solver]).
  assert (hex_field (json_object fs) "account" = who) as Hf1 by (apply hex_field_ok; [done|set_solver]).
  assert (hex_field (json_object fs) "signature" = sr25519_sign account (signed_bytes (signer_payload x))) as Hf2
    by (apply hex_field_ok; [done|set_solver]).
  pose proof (finish_run door_env req (json_object fs) (mkState (waiting st x) n1) x dry h (queued n1 b) Hv) as Hfin.
  rewrite Hf0, Hf1, Hf2 in Hfin. cbn [pending node] in Hfin. rewrite delete_insert_id in Hfin by exact Htok.
  apply Hfin; [apply Hsig|exact Ha|apply lookup_insert_eq|exact Hrpc|apply Hdry|exact Hsub].
Qed.

(** ** What is stored *)

Lemma json_file_last l : last (String.list_ascii_of_string (l +:+ ".json")) = Some "n"%char.
Proof. rewrite IdentityProperties.list_ascii_app. change (String.list_ascii_of_string ".json") with ([".";"j";"s";"o"]%char ++ ["n"%char]). by rewrite app_assoc, last_snoc. Qed.

Lemma json_file_ne l t : last (String.list_ascii_of_string t) <> Some "n"%char -> t <> l +:+ ".json".
Proof. intros Ht ->. by rewrite json_file_last in Ht. Qed.

Lemma account_file_ne l : (l +:+ "-account") +:+ ".json" <> l +:+ ".json".
Proof.
  intros E%IdentityProperties.string_suffix_inj%(f_equal String.list_ascii_of_string).
  rewrite IdentityProperties.list_ascii_app in E. apply (f_equal length) in E. rewrite length_app in E. cbn in E. lia.
Qed.

Lemma account_label_ok l :
  forallb Keystore.label_char (String.list_ascii_of_string l) = true ->
  l +:+ "-account" <> EmptyString /\ forallb Keystore.label_char (String.list_ascii_of_string (l +:+ "-account")) = true.
Proof.
  intros Hl. rewrite IdentityProperties.list_ascii_app, forallb_app, Hl. split; [|done]. by destruct l.
Qed.

Context `{Keystore.Crypto} `{!Keystore.CryptoLaws}.

(** A secret that is encrypted under [pass]. *)
Record sealed (pass : string) (secret : bytes) (rng : option bytes * option bytes) (k ct : bytes) : Prop := {
  se_nonce : exists no, rng.2 = Some no /\ length no = Keystore.NONCE_LEN /\ Keystore.chacha_encrypt k no secret = Some ct;
  se_key : exists sa, rng.1 = Some sa /\ Keystore.argon2id pass sa = Some k }.

Lemma save_sealed pass secret rng k ct dir l d (fs : Fs) :
  sealed pass secret rng k ct -> l <> EmptyString -> forallb Keystore.label_char (String.list_ascii_of_string l) = true ->
  Fs.exists_ dir (l +:+ ".json") fs = false -> len32 d ->
  exists b, Keystore.save_identity rng.1 rng.2 dir l d secret pass fs = (Ok tt, Keystore.saved dir (l +:+ ".json") b fs) /\
    forall fs' m, fs' !! dir = Some m -> m !! (l +:+ ".json") = Some b ->
      Keystore.load_identity dir l pass fs' = (Ok (Keystore.mkStored d secret), fs').
Proof.
  intros [(no & Hn & Hlen & Hct) (sa & Hs & Hk)] Hl Hc He Hd. rewrite Hs, Hn. eexists. split; [by eapply Keystore.save_identity_run|].
  intros fs' m Hm Hf. by eapply Keystore.load_identity_intro.
Qed.

(** Both secrets, the seed in the clear and the DID. *)
Lemma store_run pass seed rng1 rng2 k1 ct1 k2 ct2 dir l d (fs : Fs) :
  sealed pass (signing_key_to_bytes key) rng1 k1 ct1 -> sealed pass seed rng2 k2 ct2 ->
  l <> EmptyString -> forallb Keystore.label_char (String.list_ascii_of_string l) = true ->
  Fs.exists_ dir (l +:+ ".json") fs = false -> Fs.exists_ dir ((l +:+ "-account") +:+ ".json") fs = false -> len32 d ->
  exists fs1 fs2 fs3 fs4,
    Keystore.save_identity rng1.1 rng1.2 dir l d (signing_key_to_bytes key) pass fs = (Ok tt, fs1) /\
    Keystore.save_identity rng2.1 rng2.2 dir (l +:+ "-account") d seed pass fs1 = (Ok tt, fs2) /\
    Fs.write dir "controller.seed" (bstr (hex_encode seed)) fs2 = (Ok tt, fs3) /\
    Fs.write dir "owner.did" (bstr (hex_encode d)) fs3 = (Ok tt, fs4) /\
    Keystore.load_identity dir l pass fs4 = (Ok (Keystore.mkStored d (signing_key_to_bytes key)), fs4) /\
    Keystore.load_identity dir (l +:+ "-account") pass fs4 = (Ok (Keystore.mkStored d seed), fs4) /\
    fs4 !! dir ≫= lookup "controller.seed" = Some (bstr (hex_encode seed)).
Proof.
  intros S1 S2 Hl Hc He1 He2 Hd. destruct (account_label_ok l Hc) as [Hl2 Hc2].
  destruct (save_sealed _ _ _ _ _ dir l d fs S1 Hl Hc He1 Hd) as (b1 & Hs1 & Hload1).
  set (fs1 := Keystore.saved dir (l +:+ ".json") b1 fs) in *.
  assert (Fs.exists_ dir ((l +:+ "-account") +:+ ".json") fs1 = false) as He2'.
  { revert He2. unfold Fs.exists_, fs1. rewrite Keystore.saved_lookup. cbn [mbind option_bind].
    rewrite lookup_insert_ne by (intros E; by apply (account_file_ne l)). by destruct (fs !! dir). }
  destruct (save_sealed _ _ _ _ _ dir (l +:+ "-account") d fs1 S2 Hl2 Hc2 He2' Hd) as (b2 & Hs2 & Hload2).
  set (fs2 := Keystore.saved dir _ b2 fs1) in *.
  assert (fs2 !! dir = Some (<[(l +:+ "-account") +:+ ".json" := b2]> (<[l +:+ ".json" := b1]> (default ∅ (fs !! dir))))) as Hm2.
  { unfold fs2. rewrite Keystore.saved_lookup. unfold fs1. by rewrite Keystore.saved_lookup. }
  set (m2 := <[_ := b2]> _) in Hm2.
  set (m3 := <["controller.seed" := bstr (hex_encode seed)]> m2). set (fs3 := <[dir := m3]> fs2).
  set (m4 := <["owner.did" := bstr (hex_encode d)]> m3). set (fs4 := <[dir := m4]> fs3).
  assert (fs4 !! dir = Some m4) as Hm4 by apply fs_lookup_insert.
  exists fs1, fs2, fs3, fs4. split_and!; [done|done| | | | |].
  - unfold Fs.write, bind, gets, ok_or, modify, ret. by rewrite Hm2.
  - unfold Fs.write, bind, gets, ok_or, modify, ret. unfold fs3 at 1. by rewrite fs_lookup_insert.
  - apply (Hload1 fs4 m4 Hm4). unfold m4, m3, m2. rewrite !lookup_insert_ne by (by apply json_file_ne).
    rewrite lookup_insert_ne by apply account_file_ne. apply lookup_insert_eq.
  - apply (Hload2 fs4 m4 Hm4). unfold m4, m3, m2. rewrite !lookup_insert_ne by (by apply json_file_ne). apply lookup_insert_eq.
  - rewrite Hm4. cbn. unfold m4, m3. rewrite lookup_insert_ne by done. apply lookup_insert_eq.
Qed.

(** ** The run *)

Context (debug_path : string -> str).

Lemma on_disk_run {E A} (m : M Fs E A) fs (n : State (Net := Node L)) out a fs' :
  m fs = (Ok a, fs') -> RegisterMe.on_disk m (mkProcess (mkMachine fs n) out) = (Ok a, mkProcess (mkMachine fs' n) out).
Proof. intros Hm. unfold RegisterMe.on_disk. cbn. by rewrite Hm. Qed.

(** The requests of the branch are sent. *)
Record own_sends (st : State (Net := Node L)) (n1 : Node L) (b : BlockNumber) (x : PartialExtrinsic) : Prop := {
  os_fund : sends (bstr "POST") (bstr "/v1/fund") (to_string fund_json);
  os_challenge : sends (bstr "GET") challenge_path [];
  os_prepare : sends (bstr "POST") (bstr "/v1/prepare") (to_string (prepare_json (sys_of n1) b));
  os_finish : sends (bstr "POST") (bstr "/v1/finish") (to_string (finish_json (token_of (size (pending st))) x)) }.

Lemma own_controller_run pass seed rng1 rng2 k1 ct1 k2 ct2 dir l st n1 b x dry (p : Client) :
  from_secret_key seed = Some account -> own_ready st n1 b x dry -> own_sends st n1 b x ->
  net (machine p) = st ->
  sealed (show pass) (signing_key_to_bytes key) rng1 k1 ct1 -> sealed (show pass) seed rng2 k2 ct2 ->
  l <> EmptyString -> forallb Keystore.label_char (String.list_ascii_of_string l) = true ->
  Fs.exists_ dir (l +:+ ".json") (files (machine p)) = false ->
  Fs.exists_ dir ((l +:+ "-account") +:+ ".json") (files (machine p)) = false ->
  exists p', RegisterMe.own_controller (curl_door door_env oc) sr25519_sign debug_path env key (pubkey_of key) (did_of key)
      label pass dir l (Some seed) rng1 rng2 p = (Ok tt, p') /\
    net (machine p') = mkState (pending st) (queued n1 b) /\
    Keystore.load_identity dir l (show pass) (files (machine p')) =
      (Ok (Keystore.mkStored (did_of key) (signing_key_to_bytes key)), files (machine p')) /\
    Keystore.load_identity dir (l +:+ "-account") (show pass) (files (machine p')) =
      (Ok (Keystore.mkStored (did_of key) seed), files (machine p')) /\
    files (machine p') !! dir ≫= lookup "controller.seed" = Some (bstr (hex_encode seed)).
Proof.
  intros Hseed Hr [Sf Sc Sp Sn] Hp S1 S2 Hl Hc He1 He2.
  destruct (store_run _ _ _ _ _ _ _ _ dir l (did_of key) (files (machine p)) S1 S2 Hl Hc He1 He2 (blake2_256_len _))
    as (fs1 & fs2 & fs3 & fs4 & W1 & W2 & W3 & W4 & Hload1 & Hload2 & Hclear).
  set (pa := mkProcess (mkMachine (files (machine p)) (mkState (pending st) n1)) (stdout p ++ [bstr "FUND=" ++ resp_body funded])).
  set (pb := mkProcess (mkMachine (files (machine p)) (mkState (waiting st x) n1)) (stdout pa)).
  destruct (finish_request st n1 b x dry pb Hr eq_refl Sn) as [h Hfin].
  unfold RegisterMe.own_controller. cbn [ok_or]. erewrite (bind_ok _ _ p seed p) by done.
  rewrite (bind_ok _ _ p account p) by (by rewrite Hseed). cbv zeta. fold fund_json.
  rewrite (bind_ok _ _ p _ _ (fund_request _ _ _ _ _ p Hr Hp Sf)). erewrite (bind_ok _ _ _ tt pa) by done.
  fold challenge_path. rewrite (bind_ok _ _ pa _ _ (own_challenge_request _ _ _ _ _ pa Hr eq_refl Sc)).
  rewrite (bind_ok _ _ pa (challenge_answer (sys_of n1) b) pa) by (unfold RegisterMe.json_answer; by rewrite from_str_to_string).
  pose proof (ow_latest _ _ _ _ _ Hr) as Hd. unfold challenge_answer at 1.
  rewrite (bind_ok _ _ pa _ pa (read_challenge_ok (did_of key) (block_hash (sys_of n1) 0) who
    (block_hash (sys_of n1) b) b pa (li_hash0 _ _ Hd) (ow_account _ _ _ _ _ Hr) (li_hash _ _ Hd)
    (proj1 (li_block _ _ Hd)))).
  change (encode_signature (mldsa_sign key (RegistryClient.challenge (block_hash (sys_of n1) 0) (did_of key) who b
    (block_hash (sys_of n1) b)))) with (signature_over key who (sys_of n1) b).
  fold (prepare_json (sys_of n1) b).
  rewrite (bind_ok _ _ pa _ _ (prepare_request _ _ _ _ _ pa Hr eq_refl Sp)). fold pb.
  rewrite (bind_ok _ _ _ (prepared_answer st x) pb) by (unfold RegisterMe.json_answer; by rewrite from_str_to_string).
  unfold prepared_answer. rewrite has_key_object, bool_decide_eq_false_2 by (apply (bool_decide_unpack (_ ∉ _)); done).
  set (fields := [("token", _); _]). assert (NoDup fields.*1) as Hn by (apply (bool_decide_unpack (NoDup fields.*1)); done).
  rewrite (index_object fields "payload" (json_string (bstr (hex_encode (signer_payload x))))) by (done || set_solver).
  rewrite (index_object fields "token" (json_string (token_of (size (pending st))))) by (done || set_solver).
  rewrite (bind_ok _ _ pb (bstr (hex_encode (signer_payload x))) pb) by (by rewrite as_str_string).
  rewrite (bind_ok _ _ pb (signer_payload x) pb) by (by rewrite show_bstr, hex_decode_encode). cbv zeta.
  fold (signed_bytes (signer_payload x)). fold (finish_json (token_of (size (pending st))) x).
  rewrite (bind_ok _ _ pb _ _ Hfin). cbn [machine files stdout pb].
  rewrite (bind_ok _ _ _ _ _ (on_disk_run _ _ _ _ _ _ W1)), (bind_ok _ _ _ _ _ (on_disk_run _ _ _ _ _ _ W2)),
    (bind_ok _ _ _ _ _ (on_disk_run _ _ _ _ _ _ W3)), (bind_ok _ _ _ _ _ (on_disk_run _ _ _ _ _ _ W4)).
  eexists. split_and!; [reflexivity|done..].
Qed.

(** C25: a stranger ends up owning its agent.  With [OWN_CONTROLLER=1], against a door
    that does not hold its next token already and whose node stays at one block during
    the session, funds the account, and puts what the account signs into its pool,
    [register-me] ends without an error: the chain is the funded one, the pool has
    gained exactly the registration of the stranger's account, and the door's pending
    extrinsics are those it had before.  Once the node includes that call, in any block
    of the chain at most 64 blocks after the challenge in which the DID is free and the
    account has room and can pay the deposit, it succeeds and leaves an active, verified
    profile under the DID of the fresh key that is controlled by the stranger's account.
    Both secrets load from the keystore with the passphrase, and the seed file lets the
    vector client sign for the account. *)
Theorem stranger_owns_its_agent seed rng1 rng2 k1 ct1 k2 ct2 dir (p : Client) n1 b0 b x dry :
  let st := net (machine p) in
  let l := show (var_or env "KEY_LABEL" (bstr "me")) in
  let pass := show (var_or env "KEYSTORE_PASS" (bstr "dev-passphrase")) in
  env "OWN_CONTROLLER" = Some (bstr "1") -> env "KEYSTORE_DIR" = Some (bstr dir) ->
  len32 seed -> from_secret_key seed = Some account -> len32 (account_of dev_alice) ->
  latest_is (node st) b0 -> sends (bstr "GET") (bstr "/v1/register/challenge") [] ->
  own_ready st n1 b x dry -> own_sends st n1 b x ->
  sealed pass (signing_key_to_bytes key) rng1 k1 ct1 -> sealed pass seed rng2 k2 ct2 ->
  l <> EmptyString -> forallb Keystore.label_char (String.list_ascii_of_string l) = true ->
  Fs.exists_ dir (l +:+ ".json") (files (machine p)) = false ->
  Fs.exists_ dir ((l +:+ "-account") +:+ ".json") (files (machine p)) = false ->
  exists p', RegisterMe.main (curl_door door_env oc) sr25519_sign debug_path env key (Some seed) rng1 rng2 p = (Ok tt, p') /\
    pending (net (machine p')) = pending st /\
    chain (node (net (machine p'))) = chain n1 /\
    pool (node (net (machine p'))) = pool n1 ++ [(who, registration (sys_of n1) b)] /\
    (forall s l', own_room (sys_of n1) b l' s -> exists s',
       dispatch Configs.registry_config Configs.vector_db_config Configs.usize_bits (Signed who) (registration (sys_of n1) b) s =
         (Ok tt, s') /\
       Registry.agent_profiles (chain_registry s') !! did_of key =
         Some (Registry.mkProfile (did_of key) who 1 0 Registry.Active (block_number (w_system (world s))) true
                 Registry.MlDsa65 (bstr "door") label)) /\
    Keystore.load_identity dir l pass (files (machine p')) =
      (Ok (Keystore.mkStored (did_of key) (signing_key_to_bytes key)), files (machine p')) /\
    Keystore.load_identity dir (l +:+ "-account") pass (files (machine p')) =
      (Ok (Keystore.mkStored (did_of key) seed), files (machine p')) /\
    forall env' (q : Client),
      env' "CONTROLLER_SEED" = files (machine p') !! dir ≫= lookup "controller.seed" ->
      VectorCli.signer_from_env env' q = (Ok account, q).
Proof.
  intros st l pass Ho Hdir Hs32 Hseed Hal Hr0 Sc0 Hr Hsends S1 S2 Hl Hc He1 He2.
  set (p1 := mkProcess (mkMachine (<[dir := default ∅ (files (machine p) !! dir)]> (files (machine p))) st) (stdout p)).
  assert (forall f, Fs.exists_ dir f (files (machine p)) = false -> Fs.exists_ dir f (files (machine p1)) = false) as Hex.
  { intros f. unfold Fs.exists_, p1. cbn. rewrite fs_lookup_insert. cbn. by destruct (files (machine p) !! dir). }
  pose proof (challenge_answered door_env oc env b0 _ p1 (li_latest _ _ Hr0) no_door no_url Sc0 to_string_utf8) as Hq.
  cbn [net machine p1] in Hq. rewrite (li_genesis _ _ Hr0) in Hq.
  pose proof (read_challenge_ok (did_of key) _ _ _ b0 p1
    (li_hash0 _ _ Hr0) Hal (li_hash _ _ Hr0) (proj1 (li_block _ _ Hr0))) as Hch.
  destruct (own_controller_run (var_or env "KEYSTORE_PASS" (bstr "dev-passphrase")) seed rng1 rng2 k1 ct1 k2 ct2 dir l st n1 b x dry p1
    Hseed Hr Hsends eq_refl S1 S2 Hl Hc (Hex _ He1) (Hex _ He2)) as (p' & Hrun & Hnet & Hload1 & Hload2 & Hclear).
  exists p'. rewrite Hnet. split_and!; [|done|done|done| |done|done|].
  - unfold RegisterMe.main. rewrite Hdir, show_bstr. fold l.
    change (RegistryClient.derive_did (encode_verifying_key (verifying_key key))) with (did_of key).
    erewrite (bind_ok _ _ p tt p1) by done. rewrite (bind_ok _ _ p1 _ _ Hq).
    rewrite (bind_ok _ _ p1 _ p1) by (unfold RegisterMe.json_answer; by rewrite from_str_to_string).
    rewrite (bind_ok _ _ p1 _ _ Hch), (bool_decide_eq_true_2 _ Ho). exact Hrun.
  - intros s l' Hroom. exists (registered l' s). split; [|apply registered_profile].
    by apply registration_included; [apply (ow_account _ _ _ _ _ Hr)|apply (ow_latest _ _ _ _ _ Hr)|].
  - intros env' q He. rewrite Hclear in He. unfold VectorCli.signer_from_env. rewrite He, trim_dark by apply hex_dark.
    rewrite bool_decide_eq_false_2 by (intros Hn%(f_equal length); rewrite hex_text_length, Hs32 in Hn; done). cbn [negb].
    apply (signer_of_hex seed account q Hs32 Hseed).
Qed.
End Session.

(** ** Witness *)

Import Scenario Scenario.Instances DoorScenario.
#[local] Existing Instance json_ref.
#[local] Existing Instance json_ref_laws.
#[local] Existing Instance hex_ref.
#[local] Existing Instance hex_ref_laws.
#[local] Existing Instance hex_ref_text.
#[local] Existing Instance keypair_ref.
#[local] Existing Instance http_ref.
#[local] Existing Instance http_ref_laws.
#[local] Existing Instance toy_signer.
#[local] Existing Instance toy_signer_laws.
#[local] Existing Instance crypto_ref.
#[local] Existing Instance crypto_ref_laws.

(** A node over the chain: it answers with block 100, prepares any call, and puts an
    extrinsic into its pool if the signature is that of the account it was prepared
    for. *)
#[local] Instance pool_node_ref : DoorNode (Node ledger) := {|
  genesis_hash n := block_hash (w_system (world (chain n))) 0;
  at_latest n := (Ok (100, block_hash (w_system (world (chain n))) 100), n);
  sign_and_submit who c n :=
    match chain_submit Configs.registry_config Configs.vector_db_config Configs.usize_bits who c (chain n) with
    | (r, s') => (r, mkNode s' (pool n))
    end;
  PartialExtrinsic := AccountId * RuntimeCall;
  create_partial_signed a c n := (Ok (a, c), n);
  signer_payload x := x.1;
  SubmittableExtrinsic := AccountId * RuntimeCall * AccountId * bytes;
  sign_with_address_and_signature x a sg := (x, a, sg);
  encoded x := x.2;
  submit_extrinsic x n :=
    let '(a, c, who, sg) := x in
    if bool_decide (who = a /\ sg = sr25519_ref a (signed_bytes a))
    then (Ok zeros32, mkNode (chain n) (pool n ++ [(a, c)])) else (Err Transport, n);
  rpc_from_url _ n := (Ok tt, n);
  system_dryRun _ n := ([], n);
  author_submitExtrinsic _ n := (Ok [], n);
  transfer_keep_alive _ _ _ n := (Ok tt, n);
  subxt_text _ := bstr "error";
  client_text _ := bstr "error" |}.

(** Bob's account, and the registration that is prepared for it in block 100. *)
Definition step_up : Process (State (Net := Node ledger)) := mkProcess (mkMachine ∅ (mkState ∅ (mkNode start []))) [].
Definition bob_call : RuntimeCall := registration own_env sk_me bob (w_system (world start)) 100.
Definition bob_tx : PartialExtrinsic (DoorNode := pool_node_ref) := (bob, bob_call).
Abbreviation bob_room := ((reserve bob (100 * Configs.UNIT) endowment).2).
Abbreviation sealed_key := (checksum (bstr "dev-passphrase" ++ replicate 16 Byte.x11)).
Abbreviation sealed_text m := (checksum (sealed_key ++ replicate 12 Byte.x22) ++ m).
Abbreviation always_valid := (fun (_ : Node ledger) (_ : AccountId) (_ : RuntimeCall) => True).

Lemma ref_takes_signed : takes_signed (L := ledger) sr25519_ref always_valid.
Proof.
  intros kp c n x n1 [= <- <-] _. exists zeros32. cbn. by rewrite bool_decide_eq_true_2.
Qed.

Lemma ref_latest : latest_is (mkNode start []) 100.
Proof. split; [reflexivity..|]. vm_compute. repeat split; congruence. Qed.

Lemma ref_own_ready :
  own_ready sr25519_ref no_env own_env always_valid sk_me bob (net (machine step_up)) (mkNode start []) 100 bob_tx [].
Proof.
  split; try reflexivity.
  - apply ref_latest.
  - vm_compute. discriminate.
  - vm_compute. discriminate.
  - apply ref_takes_signed.
Qed.

Lemma ref_sealed m : sealed "dev-passphrase" m salted sealed_key (sealed_text m).
Proof. split; eexists; (split; [reflexivity|]); [split|]; reflexivity. Qed.

Lemma stranger_owns_its_agent_witness :
  exists p' s', RegisterMe.main (curl_door no_env true) sr25519_ref bstr own_env sk_me (Some bob) salted salted step_up = (Ok tt, p') /\
    pool (node (net (machine p'))) = [(bob, bob_call)] /\
    dispatched (Signed bob) bob_call start = (Ok tt, s') /\
    Keystore.load_identity "keys" "me-account" "dev-passphrase" (files (machine p')) =
      (Ok (Keystore.mkStored did_p bob), files (machine p')).
Proof.
  destruct (stranger_owns_its_agent sr25519_ref no_env own_env true always_valid sk_me bob eq_refl eq_refl bstr bob salted salted
    sealed_key (sealed_text key_p) sealed_key (sealed_text bob) "keys" step_up (mkNode start []) 100 100 bob_tx [])
    as (p' & Hm & _ & _ & Hp & Hin & _ & Hl & _).
  - reflexivity.
  - reflexivity.
  - reflexivity.
  - reflexivity.
  - reflexivity.
  - apply ref_latest.
  - apply sends_ref. vm_compute. reflexivity.
  - apply ref_own_ready.
  - split; apply sends_ref; vm_compute; reflexivity.
  - apply ref_sealed.
  - apply ref_sealed.
  - discriminate.
  - reflexivity.
  - reflexivity.
  - reflexivity.
  - destruct (Hin start bob_room) as (s' & Hs & _).
    { split; [reflexivity|reflexivity|vm_compute; split; congruence|vm_compute; reflexivity|vm_compute; lia|].
      refine (is_ok_run (reserve bob _) endowment _). vm_compute. reflexivity. }
    exists p', s'. exact (conj Hm (conj Hp (conj Hs Hl))).
Defined.
End OwnController.
