(* ===== verification/PrivacyProperties.v ===== *)
(** * PrivacyProperties: who can read what the keystore programs store

    The keystore closes its directory to everybody but its owner before it writes a
    key, and the key file after.  A small logic of triples, with one condition for
    success and one for failure, carries this through the clients and [register-me], for
    every outcome of a run. *)

From stdpp Require Import base gmap list strings.
From Stdlib Require Import ZArith Lia.
From S2P Require Import Prelude RustStr Frame AgentRegistry Runtime Offchain Keystore RegistryClient Cli Door RegisterMe RegisterMeTheory IdentityProperties OwnController.

Local Open Scope arth_scope.

Module PrivacyProperties.
Import Keystore.

(** ** Triples *)

(** From [P], a success ends in [Q] and a failure in [R]. *)
Definition triple {S E A} (P : S -> Prop) (m : M S E A) (Q R : S -> Prop) : Prop :=
  forall s, P s -> match m s with (Ok _, s') => Q s' | (Err _, s') => R s' end.

Section Triples.
Context {S E : Type}.
Implicit Types P Q R : S -> Prop.

Lemma triple_weaken {A} P P' (m : M S E A) Q Q' R R' :
  triple P m Q R -> (forall s, P' s -> P s) -> (forall s, Q s -> Q' s) -> (forall s, R s -> R' s) -> triple P' m Q' R'.
Proof. intros Hm HP HQ HR s Hs. specialize (Hm s (HP s Hs)). destruct (m s) as [[a|e] s']; auto. Qed.

Lemma triple_bind_value {A B} P (m : M S E A) (k : A -> M S E B) Q R Q' :
  triple P m Q R -> (forall a, (exists s s', m s = (Ok a, s')) -> triple Q (k a) Q' R) -> triple P (bind m k) Q' R.
Proof.
  intros Hm Hk s Hs. specialize (Hm s Hs). unfold bind. destruct (m s) as [[a|e] s'] eqn:Ha; [|done].
  apply Hk; [|done]. by exists s, s'.
Qed.

Lemma triple_bind {A B} P (m : M S E A) (k : A -> M S E B) Q R Q' :
  triple P m Q R -> (forall a, triple Q (k a) Q' R) -> triple P (bind m k) Q' R.
Proof. intros Hm Hk. eapply triple_bind_value; [done|]. intros a _. apply Hk. Qed.

Lemma triple_read {A} P (m : M S E A) R : ReadOnly m -> (forall s, P s -> R s) -> triple P m P R.
Proof. intros Hm HR s Hs. specialize (Hm s). destruct (m s) as [[a|e] s']; cbn in Hm; subst; auto. Qed.

Lemma triple_lift {E' A} (f : E -> E') P (m : M S E A) Q R : triple P m Q R -> triple P (lift_err f m) Q R.
Proof. intros Hm s Hs. specialize (Hm s Hs). unfold lift_err. by destruct (m s) as [[a|e] s']. Qed.

Lemma triple_zoom {T A} (get : T -> S) put P (m : M S E A) Q R :
  (forall x t, get (put x t) = x) -> triple P m Q R ->
  triple (fun t => P (get t)) (zoom get put m) (fun t => Q (get t)) (fun t => R (get t)).
Proof. intros Hg Hm t Ht. specialize (Hm (get t) Ht). unfold zoom. by destruct (m (get t)) as [[a|e] x]; rewrite Hg. Qed.

(** Computations that do not touch the part a condition is about. *)
Lemma triple_keeps {T A} (get : T -> S) P (m : M T E A) R :
  (forall t, get (m t).2 = get t) -> (forall s, P s -> R s) ->
  triple (fun t => P (get t)) m (fun t => P (get t)) (fun t => R (get t)).
Proof. intros Hm HR t Ht. specialize (Hm t). destruct (m t) as [[a|e] t']; cbn in Hm; rewrite Hm; auto. Qed.
End Triples.

(** ** The keystore *)

Definition entry (fs : Fs) (d f : string) : option bytes := fs !! d ≫= lookup f.

Section Store.
Context (dir : string) (fs0 : Fs).

(** Closed to others, and what the run has promised: a file that is not as it was at
    the start is in the directory, and the directory is closed. *)
Definition owned (fs : Fs) : Prop := Fs.mode dir None fs = Some DIR_MODE.
Definition promise (fs : Fs) : Prop := forall d f, entry fs d f = entry fs0 d f \/ (d = dir /\ owned fs).

(** The key files among [names] are for their owner only. *)
Definition private (names : list string) (fs : Fs) : Prop :=
  forall n, n ∈ names -> Fs.mode dir (Some n) fs = Some FILE_MODE.
Definition kept_promise (names : list string) (fs : Fs) : Prop := promise fs /\ private names fs.
Definition closed (names : list string) (fs : Fs) : Prop := promise fs /\ private names fs /\ owned fs.

Lemma promise_start : promise fs0.
Proof. intros d f. by left. Qed.

(** Changes of the contents only. *)
Lemma entry_create d f fs : entry (<[dir := default ∅ (fs !! dir)]> fs) d f = entry fs d f.
Proof.
  unfold entry. destruct (decide (d = dir)) as [->|Hd]; [|by rewrite fs_lookup_insert_ne].
  rewrite fs_lookup_insert. cbn. by destruct (fs !! dir).
Qed.

Lemma create_promise names :
  triple (kept_promise names) (Fs.create_dir_all dir) (kept_promise names) (kept_promise names).
Proof.
  intros fs [Hp Hn]. cbn. split; [|exact Hn]. intros d f. rewrite entry_create.
  destruct (Hp d f) as [Hs|[-> Ho]]; [by left|by right].
Qed.

Lemma create_closed names : triple (closed names) (Fs.create_dir_all dir) (closed names) (closed names).
Proof.
  intros fs (Hp & Hn & Ho). destruct (create_promise names fs (conj Hp Hn)) as [Hp' Hn']. by split_and!.
Qed.

Lemma close_promise names :
  triple (kept_promise names) (Fs.set_permissions dir None DIR_MODE) (closed names) (kept_promise names).
Proof.
  unfold Fs.set_permissions, bind, gets, ensure. intros fs [Hp Hn].
  destruct (bool_decide _); cbn; [|by split].
  assert (owned (Fs.chmod dir None DIR_MODE fs)) as Ho by apply Fs.mode_chmod.
  split_and!; [|intros n Hin; rewrite Fs.mode_chmod_ne by (by right); auto|done].
  intros d f. destruct (Hp d f) as [Hs|[-> _]]; [by left|by right].
Qed.

Lemma write_closed names f b : triple (closed names) (Fs.write dir f b) (closed names) (closed names).
Proof.
  unfold Fs.write, bind, gets, ok_or, modify. intros fs (Hp & Hn & Ho).
  destruct (fs !! dir) as [m|]; cbn; [|by split_and!]. split_and!; [|exact Hn|exact Ho].
  intros d g. destruct (decide (d = dir)) as [->|Hd]; [by right|]. left.
  destruct (Hp d g) as [<-|[-> _]]; [|done]. unfold entry. by rewrite fs_lookup_insert_ne.
Qed.

Lemma protect_closed names f :
  triple (closed names) (Fs.set_permissions dir (Some f) FILE_MODE) (closed (f :: names)) (closed names).
Proof.
  unfold Fs.set_permissions, bind, gets, ensure. intros fs (Hp & Hn & Ho).
  destruct (Fs.exists_ _ _ _); cbn; [|by split_and!].
  assert (owned (Fs.chmod dir (Some f) FILE_MODE fs)) as Ho'.
  { unfold owned. by rewrite Fs.mode_chmod_ne by (by right). }
  split_and!; [|intros n Hin|done].
  - intros d g. destruct (Hp d g) as [Hs|[-> _]]; [by left|by right].
  - destruct (decide (n = f)) as [->|Hne]; [apply Fs.mode_chmod|].
    rewrite Fs.mode_chmod_ne by (right; congruence). set_solver.
Qed.

Lemma closed_kept names fs : closed names fs -> kept_promise names fs.
Proof. intros (? & ? & _). by split. Qed.
Lemma kept_promises names fs : kept_promise names fs -> promise fs.
Proof. by intros []. Qed.

Context `{Hex} `{Crypto}.

(** Every outcome of a save. *)
Lemma save_closes names salt nonce label d key pass :
  triple (kept_promise names) (save_identity salt nonce dir label d key pass)
    (closed ((label +:+ ".json") :: names)) (kept_promise names).
Proof.
  unfold save_identity. eapply triple_bind_value; [apply triple_read; [unfold key_file_path, validate_label; apply _|done]|].
  intros path (s & s' & (-> & _)%key_file_path_ok).
  do 2 (eapply triple_bind; [apply triple_read; [apply _|done]|intros ?]).
  eapply triple_bind; [apply triple_lift, create_promise|intros _].
  eapply triple_bind; [apply triple_lift, close_promise|intros _].
  do 4 (eapply triple_bind; [apply triple_read; [unfold derive_key; apply _|apply closed_kept]|intros ?]).
  eapply triple_bind; [eapply triple_weaken; [apply triple_lift, write_closed|done|done|apply closed_kept]|intros _].
  eapply triple_weaken; [apply triple_lift, protect_closed|done|done|apply closed_kept].
Qed.

(** ** Programs that store secrets *)

Definition unchanged (fs : Fs) : Prop := forall d f, entry fs d f = entry fs0 d f.
(** How a run may end well: nothing was stored, or the files [names] were. *)
Definition stored_well (names : list string) (fs : Fs) : Prop := unchanged fs \/ closed names fs.
Definition secures {E A} (names : list string) (r : result E A) (fs : Fs) : Prop :=
  promise fs /\ (is_ok r = true -> stored_well names fs).

Lemma unchanged_kept fs : unchanged fs -> kept_promise [] fs.
Proof. intros Hu. split; [intros d f; by left|]. by intros n Hn%elem_of_nil. Qed.
Lemma unchanged_promise fs : unchanged fs -> promise fs.
Proof. intros Hu d f. by left. Qed.

Lemma create_unchanged : triple unchanged (Fs.create_dir_all dir) unchanged promise.
Proof. intros fs Hu d f. cbn. rewrite entry_create. apply Hu. Qed.

(** From a triple on the state of a program to the two promises. *)
Lemma triple_secures {T E A} (get : T -> Fs) (m : M T E A) names t :
  triple (fun t => unchanged (get t)) m (fun t => stored_well names (get t)) (fun t => promise (get t)) ->
  get t = fs0 -> secures names (m t).1 (get (m t).2).
Proof.
  intros Hm Ht. assert (unchanged (get t)) as Hu by (rewrite Ht; by intros d f). specialize (Hm t Hu).
  destruct (m t) as [[a|e] t']; cbn; [|by split].
  split; [|done]. destruct Hm as [Hs|(Hp & _)]; [by apply unchanged_promise|done].
Qed.

Section Clients.
Context {Net E : Type}.
Abbreviation At P := (fun w : Machine Net => P (files w)).

Lemma on_chain_keeps {A} P (m : M Net RegistryClient.ClientError A) :
  (forall fs, P fs -> promise fs) ->
  triple (At P) (RegistryClient.on_chain m) (At P) (At promise).
Proof. intros HP. apply (triple_keeps files); [|done]. intros w. unfold RegistryClient.on_chain, zoom. by destruct (m (net w)). Qed.

Lemma on_keys_triple {A} P (m : M Fs KeyStoreError A) Q R :
  triple P m Q R -> triple (At P) (RegistryClient.on_keys m) (At Q) (At R).
Proof. intros Hm. apply (triple_zoom files); [done|]. by apply triple_lift. Qed.

Lemma load_triple label pass :
  triple (At unchanged) (RegistryClient.on_keys (load_identity dir label pass)) (At unchanged) (At promise).
Proof. apply on_keys_triple, triple_read; [apply _|apply unchanged_promise]. Qed.

Lemma read_triple {A} P (m : M (Machine Net) E A) :
  ReadOnly m -> (forall fs, P fs -> promise fs) -> triple (At P) m (At P) (At promise).
Proof. intros Hm HP. apply triple_read; [done|]. intros w. apply HP. Qed.
End Clients.
End Store.

(** ** The programs *)

Abbreviation key_file l := (l +:+ ".json").

Section Clients.
Import RegistryClient.
Context {Net : Type} (submit : AccountId -> Runtime.RuntimeCall -> M Net SubxtError (list EventDetails)).
Context (genesis_hash : Net -> bytes) (at_latest : M Net SubxtError (BlockNumber * bytes)).
Context `{Blake2} `{ScaleCodec} `{MlDsaSigner} `{Hex} `{Crypto}.
Context {Keypair : Type} (from_secret_key : bytes -> option Keypair) (account_id : Keypair -> AccountId).
Context (transfer : AccountId -> AccountId -> Balance -> M Net SubxtError unit).
Context (dir : string) (fs0 : Fs).
Abbreviation At P := (fun w : Machine Net => P (files w)).
Abbreviation unchanged := (unchanged fs0).
Abbreviation promise := (promise dir fs0).

Lemma save_triple names salt nonce label d key pass :
  triple (At (kept_promise dir fs0 names)) (on_keys (Net := Net) (save_identity salt nonce dir label d key pass))
    (At (closed dir fs0 (key_file label :: names))) (At promise).
Proof.
  apply on_keys_triple. eapply triple_weaken; [apply save_closes|done|done|apply kept_promises].
Qed.

Lemma register_or_load_triple key salt nonce who label pass caps meta lbl :
  triple (At unchanged)
    (register_or_load_agent submit genesis_hash at_latest key salt nonce who dir label pass caps meta lbl)
    (At (stored_well dir fs0 [key_file label])) (At promise).
Proof.
  unfold register_or_load_agent. eapply triple_bind; [apply read_triple; [apply _|apply unchanged_promise]|intros known].
  destruct known.
  - eapply triple_bind; [apply load_triple|intros ?]. intros w Hw. by left.
  - eapply triple_bind; [apply on_chain_keeps, unchanged_promise|intros agent].
    eapply triple_bind; [eapply triple_weaken; [apply (save_triple [])|intros w; apply unchanged_kept|done|done]|intros _].
    intros w Hw. by right.
Qed.

Lemma bootstrap_triple key seed rng1 rng2 sponsor label pass amount caps meta lbl :
  triple (At unchanged)
    (bootstrap_new_agent submit genesis_hash at_latest from_secret_key account_id transfer key seed rng1 rng2 sponsor
       dir label pass amount caps meta lbl)
    (At (stored_well dir fs0 [key_file (label +:+ "-account"); key_file label])) (At promise).
Proof.
  unfold bootstrap_new_agent. eapply triple_bind; [apply read_triple; [apply _|apply unchanged_promise]|intros known].
  destruct known.
  - do 2 (eapply triple_bind; [apply load_triple|intros ?]). cbv zeta.
    do 2 (eapply triple_bind; [apply read_triple; [apply _|apply unchanged_promise]|intros ?]). intros w Hw. by left.
  - do 2 (eapply triple_bind; [apply read_triple; [apply _|apply unchanged_promise]|intros ?]). cbv zeta.
    do 2 (eapply triple_bind; [apply on_chain_keeps, unchanged_promise|intros ?]).
    eapply triple_bind; [eapply triple_weaken; [apply (save_triple [])|intros w; apply unchanged_kept|done|done]|intros _].
    eapply triple_bind; [eapply triple_weaken; [apply save_triple|intros w; apply closed_kept|done|done]|intros _].
    intros w Hw. by right.
Qed.
End Clients.

Section RegisterMe.
Import RegisterMe.
Context {Net : Type} `{SerdeJson} `{Hex} `{Blake2} `{ScaleCodec} `{MlDsaSigner} `{Crypto} `{Sr25519}.
Context (curl : list str -> Net -> option (bool * str) * Net).
Context (sr25519_sign : Keypair -> bytes -> bytes) (debug_path : string -> str) (env : Env).
Context (fs0 : Fs).
Abbreviation Disk P := (fun p : Process Net => P (files (machine p))).

Lemma on_disk_triple {E A} P (m : M Fs E A) Q R :
  triple P m Q R -> triple (Disk P) (on_disk m) (Disk Q) (Disk R).
Proof.
  intros Hm p Hp. specialize (Hm _ Hp). unfold on_disk. by destruct (m (files (machine p))) as [[a|e] fs].
Qed.

Lemma keeps_triple {A} (P R : Fs -> Prop) (m : M (Process Net) (Exit unit) A) :
  RegisterMeTheory.KeepsFiles m -> (forall fs, P fs -> R fs) -> triple (Disk P) m (Disk P) (Disk R).
Proof. intros Hm HR. by apply (triple_keeps (fun p => files (machine p))). Qed.

Lemma save_on_disk names dir salt nonce label d key pass :
  triple (Disk (kept_promise dir fs0 names)) (on_disk (save_identity salt nonce dir label d key pass))
    (Disk (closed dir fs0 (key_file label :: names))) (Disk (promise dir fs0)).
Proof. apply on_disk_triple. eapply triple_weaken; [apply save_closes|done|done|apply kept_promises]. Qed.

Lemma write_on_disk names dir f b :
  triple (Disk (closed dir fs0 names)) (on_disk (Fs.write dir f b)) (Disk (closed dir fs0 names)) (Disk (promise dir fs0)).
Proof. apply on_disk_triple. eapply triple_weaken; [apply write_closed|done|done|by intros fs []]. Qed.

(** One step that leaves the disk alone. *)
Ltac quiet := eapply triple_bind; [apply keeps_triple; [apply _|apply unchanged_promise]|intros ?]; cbv zeta.

Lemma own_controller_triple key pubkey d label pass dir key_label seed rng1 rng2 :
  triple (Disk (unchanged fs0))
    (own_controller curl sr25519_sign debug_path env key pubkey d label pass dir key_label seed rng1 rng2)
    (Disk (stored_well dir fs0 [key_file (key_label +:+ "-account"); key_file key_label])) (Disk (promise dir fs0)).
Proof.
  unfold own_controller. do 7 quiet. destruct a5 as [block challenge]. do 2 quiet.
  destruct (has_key _ _).
  { intros p Hp. by left. }
  do 3 quiet.
  eapply triple_bind; [eapply triple_weaken; [apply (save_on_disk [])|intros p; apply unchanged_kept|done|done]|intros _].
  eapply triple_bind; [eapply triple_weaken; [apply save_on_disk|intros p; apply closed_kept|done|done]|intros _].
  do 2 (eapply triple_bind; [apply write_on_disk|intros _]).
  intros p Hp. by right.
Qed.

(** The directory and the label of the key a run uses. *)
Definition me_dir : string :=
  match env "KEYSTORE_DIR" with
  | Some s => show s
  | None => show (var_or env "HOME" (bstr "/tmp")) +:+ "/agents/me"
  end.
Definition me_label : string := show (var_or env "KEY_LABEL" (bstr "me")).
(** The key files of a run: that of the agent, and that of its account if it has one. *)
Definition me_keys : list string :=
  if bool_decide (env "OWN_CONTROLLER" = Some (bstr "1"))
  then [key_file (me_label +:+ "-account"); key_file me_label] else [key_file me_label].

Lemma main_triple key seed rng1 rng2 :
  triple (Disk (unchanged fs0)) (main curl sr25519_sign debug_path env key seed rng1 rng2)
    (Disk (stored_well me_dir fs0 me_keys)) (Disk (promise me_dir fs0)).
Proof.
  unfold main, me_keys. fold me_dir me_label. cbv zeta.
  eapply triple_bind; [apply on_disk_triple, create_unchanged|intros _].
  do 3 quiet. destruct a1 as [block challenge]. case_bool_decide.
  - apply own_controller_triple.
  - quiet.
    eapply triple_bind; [eapply triple_weaken; [apply (save_on_disk [])|intros p; apply unchanged_kept|done|done]|intros _].
    intros p Hp. by right.
Qed.

(** The bits of a file nobody protects. *)
Context (f : string) (m : option Z).
Definition bits (dir : string) (fs : Fs) : Prop := Fs.mode dir (Some f) fs = m.

Lemma save_bits dir salt nonce label d key pass :
  f <> key_file label ->
  triple (bits dir) (save_identity salt nonce dir label d key pass) (bits dir) (bits dir).
Proof.
  intros Hf. assert (forall e mode, e <> Some f -> triple (bits dir) (Fs.set_permissions dir e mode) (bits dir) (bits dir)) as Hch.
  { intros e mode He fs Hb. unfold Fs.set_permissions, bind, gets, ensure. destruct (match e with Some _ => _ | None => _ end); cbn; [|done].
    unfold bits. by rewrite Fs.mode_chmod_ne by (by right). }
  unfold save_identity. eapply triple_bind_value; [apply triple_read; [unfold key_file_path, validate_label; apply _|done]|].
  intros path (s & s' & (-> & _)%key_file_path_ok).
  do 2 (eapply triple_bind; [apply triple_read; [apply _|done]|intros ?]).
  eapply (triple_bind _ _ _ (bits dir)); [apply triple_lift; by intros fs Hb|intros _].
  eapply triple_bind; [apply triple_lift, Hch; done|intros _].
  do 4 (eapply triple_bind; [apply triple_read; [unfold derive_key; apply _|done]|intros ?]).
  eapply (triple_bind _ _ _ (bits dir)); [apply triple_lift; unfold Fs.write, bind, gets, ok_or; intros fs Hb; by destruct (fs !! dir)|intros _].
  apply triple_lift, Hch. congruence.
Qed.

Lemma main_bits key seed rng1 rng2 :
  f <> key_file me_label -> f <> key_file (me_label +:+ "-account") ->
  triple (Disk (bits me_dir)) (main curl sr25519_sign debug_path env key seed rng1 rng2) (Disk (bits me_dir)) (Disk (bits me_dir)).
Proof.
  intros Hf1 Hf2. unfold main, own_controller. fold me_dir me_label. cbv zeta.
  assert (forall g b, triple (Disk (bits me_dir)) (on_disk (Fs.write me_dir g b)) (Disk (bits me_dir)) (Disk (bits me_dir))) as Hw.
  { intros g b. apply on_disk_triple. unfold Fs.write, bind, gets, ok_or. intros fs Hb. by destruct (fs !! me_dir). }
  eapply (triple_bind _ _ _ (Disk (bits me_dir))); [apply on_disk_triple; by intros fs Hb|intros _].
  do 2 (eapply triple_bind; [apply keeps_triple; [apply _|done]|intros ?]). eapply triple_bind; [apply keeps_triple; [apply _|done]|intros [block challenge]]. case_bool_decide.
  - do 6 (eapply triple_bind; [apply keeps_triple; [apply _|done]|intros ?]; cbv zeta). eapply triple_bind; [apply keeps_triple; [apply _|done]|intros [block' challenge']].
    do 2 (eapply triple_bind; [apply keeps_triple; [apply _|done]|intros ?]; cbv zeta).
    destruct (has_key _ _); [apply keeps_triple; [apply _|done]|].
    do 3 (eapply triple_bind; [apply keeps_triple; [apply _|done]|intros ?]; cbv zeta).
    do 2 (eapply triple_bind; [apply on_disk_triple, save_bits; done|intros _]).
    do 2 (eapply triple_bind; [apply Hw|intros _]). apply keeps_triple; [apply _|done].
  - eapply triple_bind; [apply keeps_triple; [apply _|done]|intros ?].
    eapply triple_bind; [apply on_disk_triple, save_bits; done|intros _]. apply keeps_triple; [apply _|done].
Qed.
End RegisterMe.

(** C26: secrets on disk are for the owner of the account only.  Whatever the node,
    the door, the random numbers and the disk do to a run of [register_or_load_agent],
    [bootstrap_new_agent] or [register-me], and wherever it stops, every file that is
    not what it was before is in the keystore directory, and that directory is closed to
    everybody else ([0o700]); a run that ends well has stored nothing, or its key files,
    that of the account included where there is one, are readable by their owner only
    ([0o600]) as well.  The plain seed in [controller.seed] has no such bits: no run of
    [register-me] sets any on it, so that the closed directory is all that protects it. *)
Theorem secrets_are_stored_closed {Net} (submit : AccountId -> Runtime.RuntimeCall -> M Net SubxtError (list EventDetails))
    (genesis_hash : Net -> bytes) (at_latest : M Net SubxtError (BlockNumber * bytes)) `{Blake2} `{ScaleCodec}
    `{MlDsaSigner} `{Hex} `{Crypto} `{SerdeJson} `{Sr25519} (transfer : AccountId -> AccountId -> Balance -> M Net SubxtError unit)
    (curl : list str -> Net -> option (bool * str) * Net) sr25519_sign debug_path (env : Env)
    key salt nonce who dir label pass amount caps meta lbl seed rng1 rng2 (w : Machine Net) (p : Process Net) :
  (let '(r, w') := RegistryClient.register_or_load_agent submit genesis_hash at_latest key salt nonce who dir label pass caps meta lbl w in
   secures dir (files w) [key_file label] r (files w')) /\
  (let '(r, w') := RegistryClient.bootstrap_new_agent submit genesis_hash at_latest from_secret_key account_of transfer key
                     seed rng1 rng2 who dir label pass amount caps meta lbl w in
   secures dir (files w) [key_file (label +:+ "-account"); key_file label] r (files w')) /\
  (let '(r, p') := RegisterMe.main curl sr25519_sign debug_path env key seed rng1 rng2 p in
   secures (me_dir env) (files (machine p)) (me_keys env) r (files (machine p')) /\
   Fs.mode (me_dir env) (Some "controller.seed") (files (machine p')) =
     Fs.mode (me_dir env) (Some "controller.seed") (files (machine p))).
Proof.
  split; [|split].
  - pose proof (triple_secures dir (files w) files _ _ w (register_or_load_triple submit genesis_hash at_latest
      dir (files w) key salt nonce who label pass caps meta lbl) eq_refl) as Hs.
    by destruct (RegistryClient.register_or_load_agent _ _ _ _ _ _ _ _ _ _ _ _ _ w).
  - pose proof (triple_secures dir (files w) files _ _ w (bootstrap_triple submit genesis_hash at_latest from_secret_key account_of
      transfer dir (files w) key seed rng1 rng2 who label pass amount caps meta lbl) eq_refl) as Hs.
    by destruct (RegistryClient.bootstrap_new_agent _ _ _ _ _ _ _ _ _ _ _ _ _ _ _ _ _ _ w).
  - pose proof (triple_secures (me_dir env) (files (machine p)) (fun p => files (machine p)) _ _ p
      (main_triple curl sr25519_sign debug_path env (files (machine p)) key seed rng1 rng2) eq_refl) as Hs.
    pose proof (main_bits curl sr25519_sign debug_path env "controller.seed"
      (Fs.mode (me_dir env) (Some "controller.seed") (files (machine p))) key seed rng1 rng2
      (OwnController.json_file_ne _ "controller.seed" ltac:(discriminate)) (OwnController.json_file_ne _ "controller.seed" ltac:(discriminate)) p eq_refl) as Hb.
    by destruct (RegisterMe.main _ _ _ _ _ _ _ _ p) as [[a|e] p'].
Qed.
End PrivacyProperties.
