(* ===== verification/MockProperties.v ===== *)
(** * MockProperties: what the tests of the pallets establish for the chain

    Tests run the pallets against mocks, under a configuration of their own.  A test of
    the commitment pallet has the results the chain has, up to names and where the two
    configurations agree, unless the real escrow refuses what the mock recorded; the
    registrations the tests of the registry prepare are accepted. *)

From stdpp Require Import base gmap list strings.
From Stdlib Require Import ZArith Lia.
From S2P Require Import Prelude Frame Ledger Escrow AgentRegistry RegistryClient Merkle VectorDb MockVectorDb Template Runtime MockRenaming MockRegistry MockRegistryTheory Scenario.

Local Open Scope arth_scope.

Module MockProperties.
Import Runtime MockVectorDb MockRenaming.

Section Calls.
Context {L : Type} `{ReservableCurrency L} `{Blake2} `{ScaleCodec} `{MlDsa} `{RsMerkle}.
Context (rcfg : Registry.Config) (vcfg : VectorDb.Config) (ub : Z).
Implicit Types (s : Chain L) (w : World L).

#[local] Existing Instance AgentRegistryAdapter.
#[local] Instance reputation_handler : ReputationHandler (World L) := ReputationHandlerAdapter rcfg vcfg.
#[local] Existing Instance EscrowAdapter.

(** A mock that knows the agents of the chain. *)
Definition mirrored w : gmap Did (AccountId * bool) :=
  (fun p => (Registry.controller p, bool_decide (Registry.status p = Registry.Active) && Registry.is_verified p))
    <$> Registry.agent_profiles (w_registry w).

Lemma mirrored_agrees m w : agents m = mirrored w -> agrees m w.
Proof.
  intros Hm d. cbn. unfold adapter_controller_of, adapter_is_active_verified.
  rewrite Hm. unfold mirrored. rewrite lookup_fmap. by destruct (Registry.agent_profiles (w_registry w) !! d).
Qed.

(** Money and penalties change no controller and no eligibility. *)
Lemma mirrored_escrow c w w' : replay_escrow c w = (Ok tt, w') -> mirrored w' = mirrored w.
Proof.
  assert (forall m, (zoom escrow_of put_escrow m : Dispatch (World L) unit) w = (Ok tt, w') -> mirrored w' = mirrored w) as Hz.
  { intros m (e & He & ->)%zoom_ok_inv. done. }
  destruct c; cbn; apply Hz.
Qed.

Lemma mirrored_escrows cs w w' : replay_escrows cs w = (Ok tt, w') -> mirrored w' = mirrored w.
Proof.
  revert w. induction cs as [|c cs IH]; intros w; [by intros [_ ->]%ret_ok_inv|].
  intros ([] & w1 & Hc & Hr)%bind_ok_inv. rewrite (IH _ Hr). by eapply mirrored_escrow.
Qed.

Lemma mirrored_slash d n w : mirrored (put_registry (Registry.slash_reputation d n (registry_of w)) w) = mirrored w.
Proof.
  unfold mirrored, Registry.slash_reputation. cbn.
  destruct (Registry.agent_profiles (w_registry w) !! d) as [p|] eqn:Hp; cbn; [|done].
  rewrite fmap_insert. cbn. apply insert_id. by rewrite lookup_fmap, Hp.
Qed.

Lemma mirrored_reputation c w : mirrored (replay_reputation c w) = mirrored w.
Proof.
  unfold replay_reputation. case_bool_decide; [|apply mirrored_slash]. cbn.
  unfold adapter_penalize_provider. rewrite <- (mirrored_slash c.1 (VectorDb.ProviderGuiltySlash vcfg) w).
  unfold Registry.slash_reputation_for_guilty_delivery.
  set (r := Registry.slash_reputation _ _ _). clearbody r. destruct (Registry.agent_profiles r !! c.1); [|done].
  case_match; [done|]. by destruct (slash_reserved _ _ _).
Qed.

Lemma mirrored_reputations cs w : mirrored (replay_reputations cs w) = mirrored w.
Proof. revert w. induction cs as [|c cs IH]; intros w; [done|]. cbn. unfold replay_reputations in IH. by rewrite IH, mirrored_reputation. Qed.

(** ** One call, under one configuration *)

Abbreviation mock_call := (exec_mock vcfg ub).
Abbreviation chain_call o c := (dispatch rcfg vcfg ub o (CallVectorDb c)).

(** Storage of the pallet on the chain and beside the mock, and the agents both know. *)
Definition same_storage (t : VectorDb.State Mock) s : Prop :=
  t = over (VectorDb.ext t) (vector_db s) /\ agents (VectorDb.ext t) = mirrored (world s) /\
  escrow_lock_should_fail (VectorDb.ext t) = false.

Lemma chain_call_transactional s o c :
  chain_call o c s =
    match transactional (VectorDb.exec vcfg ub (w_system (world s)) o c) (vector_db s) with
    | (Ok u, v) => (Ok u, set_vector_db v s)
    | (Err e, _) => (Err e, s)
    end.
Proof.
  unfold dispatch, transactional, run_call, zoom. by destruct (VectorDb.exec _ _ _ _ _ _) as [[u|e] v].
Qed.

(** On the chain a call has the result it has beside the mock, or the escrow refused
    what the mock recorded. *)
Lemma call_carries_over t s o c :
  same_storage t s ->
  let '(r, t') := mock_call (w_system (world s)) o c t in
  let '(r', s') := chain_call o c s in
  (r' = r /\ same_storage t' s') \/
  (r = Ok tt /\ exists e ecs w, r' = Err e /\ replay_escrows ecs (world s) = (Err e, w) /\
     escrow_calls (VectorDb.ext t') = escrow_calls (VectorDb.ext t) ++ ecs).
Proof.
  intros (Ht & Ha & Hf).
  destruct (exec_carries_over (X := World L) vcfg ub (w_system (world s)) (vector_db s) (VectorDb.ext t) o c)
    as (r & t' & ecs & rcs & Hm & Herr & Ha' & Hf' & He & Hr & Hx); [by apply mirrored_agrees|done|].
  rewrite <- Ht in Hm. rewrite Hm, chain_call_transactional, Hx. unfold outcome. destruct r as [[]|e].
  - fold (world s). destruct (replay_escrows ecs (world s)) as [[[]|e] w] eqn:Hw.
    + left. split; [done|]. split; [by destruct t'|]. split; [|done]. rewrite Ha'. cbn.
      rewrite mirrored_reputations. rewrite (mirrored_escrows _ _ _ Hw). done.
    + right. split; [done|]. by exists e, ecs, w.
  - left. split; [done|]. rewrite (Herr eq_refl), <- Ht. done.
Qed.

(** Comparable calls keep the chain's storage comparable. *)
Lemma chain_call_comparable rho encode_u64 s o c :
  comparable_call rho encode_u64 (w_system (world s)) c ->
  comparable (vector_db s) -> comparable (vector_db (chain_call o c s).2).
Proof.
  intros Hc Hs. rewrite chain_call_transactional. unfold transactional.
  destruct (VectorDb.exec _ _ _ _ _ _) as [[[]|e] v] eqn:Hx; [|done]. exact (exec_comparable _ _ _ _ _ _ _ _ _ Hc Hx Hs).
Qed.
End Calls.

(** ** Whole tests, under their own configuration *)

Section Tests.
Context {L : Type} `{ReservableCurrency L} `{Blake2} `{ScaleCodec} `{MlDsa} `{RsMerkle}.
(** Names in the tests of the commitments and the accounts of the chain, and SCALE of [u64]. *)
Context (rho alpha : bytes -> bytes) `{!Inj (=) (=) rho, !Inj (=) (=) alpha} (encode_u64 : Z -> bytes).
Implicit Types (s : Chain L).

#[local] Existing Instance AgentRegistryAdapter.
#[local] Instance chain_reputation : ReputationHandler (World L) :=
  ReputationHandlerAdapter Configs.registry_config Configs.vector_db_config.
#[local] Existing Instance EscrowAdapter.

Abbreviation chain_call o c :=
  (dispatch Configs.registry_config Configs.vector_db_config Configs.usize_bits o (CallVectorDb c)).
Abbreviation test_call sys o c := (exec_test encode_u64 sys (ren_origin alpha o) (ren_call rho c)).

(** A test and a chain with the same storage up to names, whose agents the mock knows
    and whose window is the tests'; the mock's escrow agrees to lock. *)
Definition same_test (t : VectorDb.State Mock) s : Prop :=
  exists m, t = ren rho alpha (over m (vector_db s)) /\ agents m = mirrored (world s) /\
    escrow_lock_should_fail m = false /\ comparable (vector_db s).

Lemma same_test_block t s sys : same_test t s -> same_test t (set_world (set_system sys (world s)) s).
Proof. intros (m & -> & Ha & Hf & [Hw Hc Hd]). by exists m. Qed.

Lemma test_carries_over t s o c :
  same_test t s -> comparable_call rho encode_u64 (w_system (world s)) c ->
  let '(r, t') := test_call (w_system (world s)) o c t in
  let '(r', s') := chain_call o c s in
  (r' = r /\ same_test t' s') \/
  (r = Ok tt /\ exists e ecs w, r' = Err e /\ replay_escrows ecs (world s) = (Err e, w) /\
     escrow_calls (VectorDb.ext t') = escrow_calls (VectorDb.ext t) ++ (ren_escrow_call rho alpha <$> ecs)).
Proof.
  intros (m & -> & Ha & Hf & Hcm) Hc.
  rewrite (sim_exec rho alpha encode_u64 _ o c Hc (over m (vector_db s))) by (by destruct Hcm).
  pose proof (call_carries_over Configs.registry_config Configs.vector_db_config Configs.usize_bits
    (over m (vector_db s)) s o c) as Hcall.
  pose proof (chain_call_comparable Configs.registry_config Configs.vector_db_config Configs.usize_bits
    rho encode_u64 s o c Hc Hcm) as Hcm'.
  unfold exec_ours. destruct (exec_mock _ _ _ o c _) as [r u], (chain_call o c s) as [r' s'].
  destruct Hcall as [[-> (Hu & Ha' & Hf')]|(-> & e & ecs & w & -> & He & Hlog)]; [done| |].
  - assert (same_test (ren rho alpha u) s') as Hs' by (exists (VectorDb.ext u); by rewrite <- Hu).
    destruct r as [[]|e]; by left.
  - right. split; [done|]. exists e, ecs, w. split; [done|]. split; [done|]. cbn in Hlog |- *. by rewrite Hlog, fmap_app.
Qed.

(** A test: calls, each in its block, written with the chain's names. *)
Abbreviation Test := (list (System * Origin * VectorDb.Call)).

Fixpoint run_test (ks : Test) (t : VectorDb.State Mock) : list (result DispatchError unit) * VectorDb.State Mock :=
  match ks with
  | [] => ([], t)
  | (sys, o, c) :: ks =>
      let '(r, t') := test_call sys o c t in
      let '(rs, t'') := run_test ks t' in (r :: rs, t'')
  end.

Fixpoint run_chain (ks : Test) s : list (result DispatchError unit) * Chain L :=
  match ks with
  | [] => ([], s)
  | (sys, o, c) :: ks =>
      let '(r, s') := chain_call o c (set_world (set_system sys (world s)) s) in
      let '(rs, s'') := run_chain ks s' in (r :: rs, s'')
  end.

(** Up to some call results agree; that call succeeds in the test and fails on the
    chain, whose escrow refuses what the test has recorded for it. *)
Definition refused (ks : Test) (t : VectorDb.State Mock) s : Prop :=
  exists pre sys o c post e w ecs, ks = pre ++ (sys, o, c) :: post /\
    (run_chain pre s).1 = (run_test pre t).1 /\
    let t1 := (run_test pre t).2 in
    let s1 := set_world (set_system sys (world (run_chain pre s).2)) (run_chain pre s).2 in
    (test_call sys o c t1).1 = Ok tt /\ (chain_call o c s1).1 = Err e /\
    replay_escrows ecs (world s1) = (Err e, w) /\
    escrow_calls (VectorDb.ext (test_call sys o c t1).2) =
      escrow_calls (VectorDb.ext t1) ++ (ren_escrow_call rho alpha <$> ecs).

Lemma refused_cons sys o c ks t s :
  let t' := (test_call sys o c t).2 in
  let s' := (chain_call o c (set_world (set_system sys (world s)) s)).2 in
  (test_call sys o c t).1 = (chain_call o c (set_world (set_system sys (world s)) s)).1 ->
  refused ks t' s' -> refused ((sys, o, c) :: ks) t s.
Proof.
  cbn zeta. intros Hr (pre & sys' & o' & c' & post & e & w & ecs & -> & Hpre & Hq).
  exists ((sys, o, c) :: pre), sys', o', c', post, e, w, ecs. split; [done|]. cbn zeta in Hq.
  cbn [run_chain run_test]. destruct (test_call sys o c t) as [r t'], (chain_call _ _ _) as [r' s']. cbn [fst snd] in *. subst r'.
  destruct (run_test pre t') as [rs u], (run_chain pre s') as [rs' v]. cbn [fst snd] in *. by subst.
Qed.

(** C19: what the tests of the commitment pallet see is what the chain does, up to names.
    A test runs under the configuration of the tests: accounts and blocks are [u64]s, so
    that commitments have other ids, a commitment lives for at most 1000 blocks, a dispute
    stays open for ten, and the code is compiled to 64 bits.  Take a chain whose dispute
    window was set to ten blocks and on which no commitment has 2^32 chunks or more, and
    a test with the same storage and agents up to an injective renaming, whose mock
    agrees to lock.  Make the same calls in the same blocks on both, where every
    lifetime is at most 1000 blocks or more than the chain allows, every commitment has fewer than
    2^32 chunks, and the renaming takes each id the chain derives to the id the tests'
    helper computes.  Then every call has the same result and the storages stay the same up
    to names; or there is a first call which succeeds in the test and fails on the chain,
    because the real escrow refuses what the mock recorded. *)
Theorem pallet_tests_carry_over ks t s :
  same_test t s -> Forall (fun k => comparable_call rho encode_u64 k.1.1 k.2) ks ->
  refused ks t s \/
  ((run_chain ks s).1 = (run_test ks t).1 /\ same_test (run_test ks t).2 (run_chain ks s).2).
Proof.
  intros Hs Hks. revert t s Hs. induction Hks as [|[[sys o] c] ks Hk Hks IH]; intros t s Hs; [by right|]. cbn [fst snd] in Hk.
  set (s0 := set_world (set_system sys (world s)) s).
  pose proof (test_carries_over t s0 o c (same_test_block _ _ _ Hs) Hk) as Hc. change (w_system (world s0)) with sys in Hc.
  pose proof (refused_cons sys o c ks t s) as Hcons. cbn zeta in Hcons. cbn [run_test run_chain]. fold s0 in Hcons |- *.
  destruct (test_call sys o c t) as [r t'] eqn:Hm, (chain_call o c s0) as [r' s'] eqn:Hd. cbn [fst snd] in Hcons.
  destruct Hc as [[-> Hs']|(-> & e & ecs & w & -> & He & Hlog)].
  - destruct (IH t' s' Hs') as [Href|[Hrs Hs'']]; [left; by apply Hcons|].
    right. destruct (run_test ks t') as [rs u], (run_chain ks s') as [rs' v]. cbn in *. by subst.
  - left. exists [], sys, o, c, ks, e, w, ecs. cbn [run_chain run_test app fst snd]. fold s0. by rewrite Hm, Hd.
Qed.
End Tests.

(** ** The tests of the registry *)

Section Registrations.
Context {L : Type} `{ReservableCurrencyLaws L} `{Blake2} `{ScaleCodec} `{MlDsaTestLaws}.
Context (sys : System) (c : AccountId) (at_ : BlockNumber) (caps : Z) (meta lbl : bytes).
Context (build_balances : list (AccountId * Balance) -> L).

(** C24: in the environment of the registry's tests a controller registers exactly 64
    agents.  The arguments prepared for distinct seeds, signed within the replay window,
    are accepted 64 times in a row, whatever the seeds are, and the 65th registration
    fails for the full index and for nothing else; the endowment covers all deposits.
    Seeds never share key material, so that two of them share an identity only if two
    keys or two hashes collide. *)
Theorem test_controllers_register_sixty_four seeds :
  (forall l, Registry.RegistrationDeposit MockRegistry.config < free_balance l c ->
     exists l', reserve c (Registry.RegistrationDeposit MockRegistry.config) l = (Ok tt, l')) ->
  free_balance (build_balances MockRegistry.test_balances) c = 1000000 ->
  at_ <= block_number sys <= at_ + Registry.REPLAY_WINDOW ->
  NoDup seeds -> Forall in_u64 seeds -> length seeds = 65%nat ->
  (forall a b, a ∈ seeds -> b ∈ seeds -> MockRegistry.did_of_seed a = MockRegistry.did_of_seed b ->
     MockRegistry.seed_bytes a = MockRegistry.seed_bytes b) ->
  let s0 := (MockRegistry.new_test_ext build_balances).1 in
  exists s', MockRegistryTheory.register_all sys c at_ caps meta lbl seeds s0 =
      Some (replicate 64 (Ok tt) ++ [Err (RegistryModule TooManyAgentsForController)], s') /\
    Registry.controller_dids s' c = MockRegistry.did_of_seed <$> take 64 seeds /\
    Registry.active_agent_count s' = 64 /\
    reserved_balance (Registry.currency s') c = reserved_balance (Registry.currency s0) c + 64 * 100.
Proof.
  intros Hpay Hfree Hat Hn Hu Hlen Hcol s0.
  assert (NoDup (MockRegistry.did_of_seed <$> seeds)) as Hnd.
  { apply NoDup_fmap_2_strong; [|done]. intros a b Ha Hb E. rewrite Forall_forall in Hu.
    apply MockRegistry.seed_bytes_inj; auto. }
  destruct (lookup_lt_is_Some_2 seeds 64) as [last Hlast]; [lia|].
  pose proof (take_drop_middle _ _ _ Hlast) as Hsplit. rewrite (drop_ge seeds 65) in Hsplit by lia.
  rewrite <- Hsplit, fmap_app in Hnd. apply NoDup_app in Hnd as (Hnd & Hlast' & _).
  assert (length (take 64 seeds) = 64%nat) as Hl64 by (rewrite length_take; lia).
  destruct (MockRegistryTheory.register_series sys c at_ caps meta lbl Hpay) with (seeds := take 64 seeds) (s := s0)
    as (s' & Hall & Hd & Hc & Hr & Hp); rewrite ?Hl64; try done.
  - lia.
  - unfold sat_sub, Registry.REPLAY_WINDOW in *. lia.
  - change (Registry.currency s0) with (build_balances MockRegistry.test_balances). rewrite Hfree. lia.
  - exists s'. rewrite Hl64 in Hall, Hc, Hr. split_and!; [|done|by rewrite Hc|by rewrite Hr].
    rewrite <- Hsplit at 1. rewrite MockRegistryTheory.register_all_app, Hall. cbn [mbind option_bind].
    cbn [MockRegistryTheory.register_all]. rewrite MockRegistryTheory.test_register_full; [done| |].
    + rewrite Hp; [done|]. intros Hin. apply (Hlast' _ Hin). left.
    + rewrite Hd, length_app, length_fmap, Hl64. lia.
Qed.
End Registrations.

(** ** Witnesses *)

Import Scenario Scenario.Instances.

(** A test on the chain of the scenarios: Alice's agent commits, Bob's acknowledges, and
    a stranger tries to close.  In the test they are the accounts 1, 2 and 3, and the
    commitment has the id of the helper. *)
Definition swap (a b x : bytes) : bytes := if decide (x = a) then b else if decide (x = b) then a else x.
#[local] Instance swap_inj a b : Inj (=) (=) (swap a b).
Proof. intros x y. unfold swap. repeat case_decide; congruence. Qed.

Definition numbers : AccountId -> AccountId :=
  swap alice (MockVectorDb.account 1) ∘ swap bob (MockVectorDb.account 2) ∘ swap carol (MockVectorDb.account 3).
Definition test_id : CommitmentId :=
  Eval vm_compute in MockVectorDb.derive_commitment_id (le_bytes 8) did_p did_q root3 101.
Definition ids : CommitmentId -> CommitmentId := swap id3 test_id.

Abbreviation chain0 := (run joined start).
Definition test0 : VectorDb.State Mock :=
  ren ids numbers (over (mkMock (mirrored (world chain0)) [] [] false) (vector_db chain0)).
Definition calls0 : list (System * Origin * VectorDb.Call) :=
  [(sys_at 101, Signed alice, VectorDb.RegisterCommitment did_p did_q root3 3 (bstr "m") 1000 price3);
   (sys_at 102, Signed bob, VectorDb.AcknowledgeCommitment id3 did_q);
   (sys_at 103, Signed carol, VectorDb.CloseCommitment id3 did_q root3 3)].
Abbreviation test_run := (run_test ids numbers (le_bytes 8)).

Lemma pallet_tests_carry_over_witness :
  (test_run calls0 test0).1 = [Ok tt; Ok tt; Err (VectorDbModule NotConsumer)] /\
  escrow_calls (VectorDb.ext (test_run calls0 test0).2) =
    [Lock test_id (MockVectorDb.account 2) (MockVectorDb.account 1) price3] /\
  (refused ids numbers (le_bytes 8) calls0 test0 chain0 \/
   ((run_chain calls0 chain0).1 = (test_run calls0 test0).1 /\
    same_test ids numbers (test_run calls0 test0).2 (run_chain calls0 chain0).2)).
Proof.
  split; [vm_compute; reflexivity|]. split; [vm_compute; reflexivity|].
  apply pallet_tests_carry_over; [apply swap_inj|unfold numbers; apply _|..].
  - exists (mkMock (mirrored (world chain0)) [] [] false). split; [reflexivity|]. split; [reflexivity|]. split; [reflexivity|].
    split; [vm_compute; reflexivity|apply (bool_decide_unpack _); vm_compute; exact I..].
  - repeat (apply Forall_cons_2; [|]); [..|by apply Forall_nil_2]; unfold comparable_call; cbn [fst snd].
    + split; [vm_compute; discriminate|]. split; [left; vm_compute; discriminate|].
      split; [|vm_compute; reflexivity]. split; [lia|vm_compute; discriminate].
    + split; [vm_compute; discriminate|done].
    + split; [vm_compute; discriminate|done].
Defined.

(** Keys of one byte in the encodings of ML-DSA-65, in place of ML-DSA-65. *)
Definition byte_sign (k : byte) (msg : bytes) : byte := default Byte.x00 (head (checksum (k :: msg))).
Definition byte_mldsa : MlDsa :=
  @Build_MlDsa byte byte head head (fun vk msg sg => bool_decide (sg = byte_sign vk msg)).
Definition byte_signer : @MlDsaSigner byte_mldsa :=
  @Build_MlDsaSigner byte_mldsa byte (fun k => k) (fun k => [k]) (fun k => k :: replicate 1951 Byte.x00)
    (fun k => k :: replicate 3308 Byte.x00) byte_sign.
Definition byte_test : @MlDsaTest byte_mldsa byte_signer :=
  @Build_MlDsaTest byte_mldsa byte_signer (fun b => default Byte.x00 (head b)) (fun k msg _ => Some (byte_sign k msg)).
#[local] Existing Instance byte_mldsa | 0.
#[local] Existing Instance byte_signer.
#[local] Existing Instance byte_test.
#[local] Instance byte_test_laws : MlDsaTestLaws.
Proof.
  split; [split|..]; try done.
  - intros k msg. by apply bool_decide_eq_true_2.
  - intros k msg. by eexists.
  - intros k msg sg [= <-]. by apply bool_decide_eq_true_2.
Qed.

Definition test_ledger (bs : list (AccountId * Balance)) : ledger :=
  list_to_map ((fun x => (x.1, (Z.to_N x.2, 0%N))) <$> bs).

Lemma nodup_fmap_inj {A B} (f : A -> B) (l : list A) a b :
  NoDup (f <$> l) -> a ∈ l -> b ∈ l -> f a = f b -> a = b.
Proof.
  intros Hn [i Hi]%list_elem_of_lookup [j Hj]%list_elem_of_lookup E.
  assert (i = j) as ->; [|congruence].
  apply (NoDup_lookup (f <$> l) i j (f a)); [done|by rewrite list_lookup_fmap, Hi|by rewrite list_lookup_fmap, Hj, E].
Qed.

(** The seeds 0 to 64 give 65 identities. *)
Lemma seeds_65_distinct : NoDup (MockRegistry.did_of_seed <$> seqZ 0 65).
Proof. apply (bool_decide_unpack (NoDup _)). vm_compute. exact I. Qed.

Lemma test_controllers_register_sixty_four_witness :
  exists s', MockRegistryTheory.register_all (sys_at 1) (account 7) 1 0 [] [] (seqZ 0 65)
      (MockRegistry.new_test_ext test_ledger).1 =
    Some (replicate 64 (Ok tt) ++ [Err (RegistryModule TooManyAgentsForController)], s') /\
    Registry.active_agent_count s' = 64.
Proof.
  destruct (test_controllers_register_sixty_four (L := ledger) (sys_at 1) (account 7) 1 0 [] [] test_ledger (seqZ 0 65))
    as (s' & Hr & _ & Hc & _).
  - intros l Hl. cbn in Hl |- *. unfold l_reserve. rewrite (proj2 (Z.leb_le _ _)) by lia. by eexists.
  - vm_compute. reflexivity.
  - cbn. unfold Registry.REPLAY_WINDOW. lia.
  - apply NoDup_seqZ.
  - apply Forall_forall. intros z Hz%elem_of_seqZ. unfold in_u64, u64_max. lia.
  - reflexivity.
  - intros a b Ha Hb E. f_equal. exact (nodup_fmap_inj _ _ a b seeds_65_distinct Ha Hb E).
  - exists s'. split; [exact Hr|exact Hc].
Defined.
End MockProperties.
